(* ===== verification/_CoqProject ===== *)
-Q . S2P
Prelude.v
Fpa.v
FpaSim.v
Wrap.v
Route.v
Vlan.v
Routing.v
Util.v
PortVlans.v
Arp.v
Hmap.v
MacLearning.v
Show.v
MlThreads.v
Dev.v
Tap.v
Listeners.v
Netdev.v
Ofproto.v
Hosts.v
Vrf.v
Bridge.v
NetdevClass.v
Plugin.v
