(* ===== verification/Prelude.v ===== *)
(** * Verification of the OpenSwitch FPA switchd plugin

    The plugin (src/src, src/include) drives a switch through the Marvell FPA SDK
    on behalf of ops-switchd.  Its parts and how they work together:

    - ops-fpa-wrap.c wraps the SDK calls that change the switch and dumps the table
      they changed.
    - ops-fpa-route.c makes the L2 and L3 groups and the L3 routes; ops-fpa-vlan.c
      makes the VLAN flows and L2 groups of a port, addressed by 14-bit indices
      (VIDX), and keeps the set of internal VLANs; ops-fpa-routing.c makes the four
      flows that route a VLAN or an interface, on top of both.
    - ops-fpa-mac-learning.c keeps the table of learned addresses from the switch's
      messages and hands changes to the daemon through two event buffers.
    - ops-fpa-ofproto.c is the class the daemon calls.  A bundle is a port of a
      bridge or of a VRF.  [bundle_set] on a bridge compares the VLAN indices on the
      switch with those of the settings and applies the difference; indices of VLANs
      that are shut down stay pending in the port; [set_vlan] enables or shuts down
      a VLAN on all ports.  [bundle_set] on a VRF enables and disables routing.
      [add_l3_host_entry], [delete_l3_host_entry] and [l3_route_action] program
      hosts, with groups, an ARP index and a record in the host table, and routes.
      Creating a bridge opens the device and destroying it closes it; unixctl
      commands flush and show the MAC table of a bridge and its aging time.
    - ops-fpa.c converts strings, addresses and masks.
    - ops-fpa-dev.c holds the one device of the process, counted by its users, with
      its MAC table and its TAP interfaces.  ops-fpa-tap.c keeps the registry of the
      TAP interfaces and tells two listener threads about them through pipes; the
      threads move frames between the TAP interfaces and the switch.  Both run
      commands with [ops_fpa_system] of ops-fpa-util.c.  Three unixctl commands of
      ops-fpa-dev.c print the flow tables.
    - ops-fpa-netdev.c is the class of the interfaces: it names the port of an
      interface, creates its TAP interface, configures the port and polls its link;
      four class tables say which of these functions an interface has.
    - ops-fpa-init.c starts the SDK and waits for the switch; ops-fpa-plugins.c
      registers the plugin's extension with the daemon.  ops-fpa-stg.c, ops-fpa-qos.c,
      ops-fpa-copp.c and ops-fpa-bufmon.c have functions that only log.

    ** Files

    - [Prelude] (this file): machine integers, errno values, MAC addresses, bitmaps
      as finite sets with [BITMAP_FOR_EACH_1], and the monad [outcome] of a C call
      that returns, crashes or runs out of fuel, with lemmas the components share.
    - [Fpa]: the SDK as a class [FPA_SDK] of operations on an abstract switch, what
      can be observed of one ([FPA_OBS]: the flow and group tables), and the
      documented behaviour as classes of laws: [FPA_LAWS] (what a call does if it
      succeeds, and that a failed call changes nothing), [FPA_NOFAIL] (calls with
      room succeed), [FPA_DELETES] (deleting what is there succeeds).  The SDK is
      not in the repository, so the theorems are about every instance.
    - [FpaSim]: a reference switch with a programmable fault injector, an instance
      of all laws; the witnesses run on it.
    - [Wrap], [Route], [Vlan], [Routing], [Util]: ops-fpa-wrap.c, ops-fpa-route.c,
      ops-fpa-vlan.c, ops-fpa-routing.c and ops-fpa.c, one definition per function
      under the function's name.
    - [PortVlans]: the VLAN configuration of one port: the bridge half of
      [ops_fpa_ofproto_bundle_set] and the loops of [ops_fpa_ofproto_set_vlan].
    - [Arp]: the free list of ARP indices in ops-fpa-ofproto.c.
    - [Hmap]: the Open vSwitch hash map as a class with laws and a reference
      instance with chains.
    - [MacLearning]: ops-fpa-mac-learning.c.
    - [Show]: what the plugin prints: the conversions of [printf] that the formats
      use, the titles and lines of the flow tables (ops-fpa-dev.c) and the dump of
      the MAC table.
    - [MlThreads]: the event thread and the daemon on the MAC table, with the
      read-write lock, as a step relation [threads_step].
    - [Dev]: ops-fpa-dev.c, ops-fpa-util.c and the registry of ops-fpa-tap.c, on the
      operating system as a class [TAP_OS] with a reference instance [RefOs].
    - [Tap]: what the listener threads of ops-fpa-tap.c do with a command and with a
      frame, and registry, pipes and threads together as a step relation [tap_step].
    - [Listeners]: both threads as loops, from their start to their end.
    - [Netdev]: ops-fpa-netdev.c, on the SDK's port functions as a class [FPA_PORTS]
      with their documented behaviour [PORTS_LAWS] and a reference instance.
    - [Ofproto]: ops-fpa-ofproto.c: bundles, hosts and routes, composed from all of
      the above.
    - [Hosts]: the hosts and routes of [Ofproto] over sequences of operations, as a
      step relation [hosts_step].
    - [Vrf]: the VRF half of [bundle_set], hosts and routes over sequences of calls
      [vrf_reach], with an abstract VRF.
    - [Bridge]: the rest of ops-fpa-ofproto.c: the life of bridges and their ports on
      the device and the commands on the MAC table, together as a step relation
      [daemon_step] of the daemon and the messages of the switch.
    - [NetdevClass]: the class tables of ops-fpa-netdev.c and all interfaces of the
      daemon on the open device, as sequences of calls [netdev_run].
    - [Plugin]: the class table of ops-fpa-ofproto.c, start-up, the extension and the
      files whose functions have no effect.

    State is passed explicitly.  The switch is [hw], the type of the SDK class;
    [internal_vlans] is a bitmap beside it; [world] holds what the ofproto class
    works on and [proc] the device, its mutex and the operating system.  Heap
    structures are in finite maps by address and hash maps hold addresses; using a
    null pointer or a stale address is a [Crash], and so are failed assertions,
    writes outside a buffer, shifts C leaves undefined and a mutex locked twice.

    ** What is shown

    - Abstract port: [Vlan] reads the tables of a switch as the set of VLAN indices
      of a port and shows that [ops_fpa_vlan_add], [_del] and [_fetch] implement
      insertion, deletion and reading of that set ([vlan_add_refinement],
      [vlan_del_refinement], [vlan_fetch_correct]).
    - Ports in step: [port_sync] says that a port's indices on the switch are those
      of its configuration on enabled VLANs and that the others are pending;
      [bundle_set_reaches_configuration], [fresh_port_configured],
      [set_vlan_keeps_bridge_in_sync] and [bundle_set_bridge_port] show that the
      class keeps it and touches nothing else on the switch, under the condition that
      no index is added before an old one with the same key is deleted
      ([bundle_set_loses_index] shows the condition is needed), and, for shutting down
      a VLAN, that ports have the same OpenFlow and interface number.
    - All or nothing: [enable_routing_vlan_atomic], [host_program_error_restores].
    - Round trips: [enable_disable_routing_roundtrip], [internal_vlan_roundtrip],
      [host_entry_roundtrip], the string and mask conversions, the VIDX encoding.
    - Routes: [l3_route_action_correct] on every branch: which entry is kept for the
      prefix ([has_route]), and that it routes the prefix ([routes_prefix]) exactly when
      the length is a multiple of 8.
    - Hosts together: [hosts_stay_in_force] (adding hosts at new addresses, deleting
      hosts other than the last of an interface and changing routes other than those of
      hosts, on a switch that may refuse additions, keep the host table, the groups, the
      routes and the ARP indices in agreement, and no two hosts share any).
    - A VRF with its interfaces, hosts and routes: [vrf_refines] (runs of [bundle_set],
      host and route calls, on a switch that may refuse any addition, behave as an
      abstract VRF, crashes included, the flows on the switch are exactly those of the
      interfaces it routes, and the hosts of its interfaces and of removed ones are
      found and in force), [vrf_teardown] (without routed interfaces the tables but
      that of the L3 routes are those of the start, and only hosts and groups of
      removed interfaces are left), [removed_interface_keeps_hosts].  The conditions on
      the requests are those of [vrf_request_ok].
    - Resources: [arp_refines_stack], [arp_indices_exclusive].
    - MAC learning: [ml_run_safe] (no crash and a bound on the table for every
      sequence of inputs), [learn_correct], [age_correct], [lookup_equivalence],
      [mlearn_handover].  With both threads: [ml_threads_atomic] (in every
      interleaving each message and call is made exactly once, in the order of the
      lock, with the results of making them one at a time), [ml_lock_released],
      [handed_buffer_lifetime].
    - Device and threads: [dev_refines_counter] (a counter of users, once the switch has
      taken the settings of the MAC table; closing the device for the last user does not
      return, since the event thread never ends); [listeners_follow_registry] (for every
      interleaving of the daemon and the two threads, in which calls and writes to the
      pipes may fail, a thread no command was lost for and that has read its pipe knows
      exactly the interfaces of the registry); [listeners_catch_up] (no schedule of the
      threads gets stuck, and after as many reads as there were commands such threads
      know the registry).
    - The daemon: [daemon_runs_safely] (while every creation succeeds no bridge
      operation, command or switch message crashes, deadlocks or loses count of the
      device's users, and only the destruction of the last bridge does not return,
      [last_bridge_never_destroyed]; [failed_bridge_stays] is about a creation that
      fails), [ofproto_init_correct] (start-up returns once the switch is ready),
      [fdb_flush_correct], [aging_time_roundtrip], [port_dump_complete].
    - Frames: [tap_listener_refines] and [asic_listener_refines] say for any number of
      rounds which frames are sent, dropped or sent with or without a tag, byte for
      byte, when the threads end and when the first one writes outside of its memory;
      [frame_roundtrip] that the tag one thread
      inserts is the one the other removes.
    - Interfaces: [hw_intf_config_applied], [netdev_poll_counts_resets],
      [features_roundtrip].  All together: [netdevs_run_safely] (whatever
      calls of the operating system fail, every sequence of class calls returns with
      exactly the TAP interfaces of the system interfaces described, or waits for the
      mutex that a refused TAP interface kept), [polled_interface_stays] (the
      references taken by polling keep an interface, and the device, for ever).
    - Output: [flow_table_show_correct], [dump_table_lists_fdb] and
      [vlan_lines_faithful] (a line determines its entry).
    - Behaviour that departs from what the code means to do, each as a theorem on
      the same definitions: [route_mask_octets], [untagged_delete_removes_all],
      [bundle_set_loses_index], [native_in_trunks_keeps_tag],
      [add_internal_error_leaks], [host_l3_failure_leaks_arp], [shared_port_refused],
      [unknown_next_hop_crashes],
      [mlearn_collision_overwrites], [learn_twice_duplicates],
      [age_unknown_port_aborts], [dev_init_failed], [failed_bridge_stays],
      [tap_create_error_keeps_mutex], [deinit_with_interfaces_deadlocks],
      [tap_read_overruns], [would_block_resends], [missing_mac_crashes],
      [host_reads_freed_entry], [vrf_vlan_change_ignored],
      [removed_interface_keeps_hosts], [polled_interface_stays],
      [hmap_get_before_device].

    ** Bounds and fuel

    Reading a port's indices and showing a flow table need fuel: iterators are followed
    until they fail.  [vlan_fetch_correct] and [flow_table_show_correct] show that one
    more than the number of flows and groups and of entries is enough, and the theorems
    about [bundle_set] and [set_vlan] either ask for that much or give an amount that
    works.  The event thread of the MAC table is followed for any number of messages:
    it never ends ([handler_never_returns]), so joining it gives [OutOfFuel] for every
    fuel.  The loop of start-up needs one more than the number of readings before the
    flag is set.  The listener threads run over a list of rounds of any length.  All
    other loops are structural or over bounded ranges.  Integers are [Z]; conversions
    that matter (cookies, masks, counters, [strtol]) wrap or are undefined as in C.

    ** Not modelled

    Logging, tracing and sleeps; the mutex of the SDK wrappers, which only serialises
    calls; allocation functions of the netdev classes and functions no table refers to.
    The clock, [select] and received frames are inputs of a round of the threads.  The
    bridges of [Bridge] and the interfaces of [NetdevClass] share the device but are
    shown separately: [Bridge] has no interfaces and [NetdevClass] keeps the number of
    users fixed.  The runs of [Bridge] are those in which every creation succeeded.  In
    [Tap] an interface is created on a port that has none; in [Listeners] a readable
    interface has an error or a frame of at least 16 bytes.  In [Vrf] a host is added at
    a new address and deleted through its own interface, and a route has 1 to 32 bits
    and is not that of a host; there are no routed physical ports (their internal VLANs
    are in [Routing]) and no change of secondary addresses alone, and the abstract VRF
    does not keep the routes ([l3_route_action_correct] says what an action does to
    them).  A bundle is made in [Vrf] for a port that is not
    in [ports_by_pid] yet: removing a bundle leaves its port there, and inserting it a
    second time corrupts the map.  Next are bridges and interfaces in one system, and
    routed physical ports in a VRF. *)

From stdpp Require Export prelude gmap strings list list_numbers sorting.
From Stdlib Require Export ZArith Lia.

#[global] Open Scope Z_scope.

(** ** Machine integers

    C integers are kept as [Z]; a conversion to an unsigned type of width [w]
    is written out as reduction modulo [2 ^ w]. *)

Definition wrap (w z : Z) : Z := z mod 2 ^ w.
Definition u8 : Z → Z := wrap 8.
Definition u16 : Z → Z := wrap 16.
Definition u32 : Z → Z := wrap 32.
Definition u64 : Z → Z := wrap 64.

Definition INT_MIN : Z := - 2 ^ 31.
Definition INT_MAX : Z := 2 ^ 31 - 1.

Lemma wrap_range w z : 0 ≤ w → 0 ≤ wrap w z < 2 ^ w.
Proof. intros. apply Z.mod_pos_bound. lia. Qed.

Lemma wrap_small w z : 0 ≤ z < 2 ^ w → wrap w z = z.
Proof. apply Z.mod_small. Qed.

(** Packing fields into an integer: [lor] of disjoint fields is addition. *)
Lemma lor_shiftl_add a b n :
  0 ≤ n → 0 ≤ b < 2 ^ n → Z.lor (Z.shiftl a n) b = a * 2 ^ n + b.
Proof.
  intros Hn Hb. rewrite <- Z.shiftl_mul_pow2 by done.
  rewrite <- Z.add_lor_land.
  enough (Z.land (Z.shiftl a n) b = 0) by lia.
  apply Z.bits_inj'; intros i Hi. rewrite Z.land_spec, Z.bits_0.
  destruct (decide (i < n)).
  - by rewrite Z.shiftl_spec_low by lia.
  - replace b with (b mod 2 ^ n) by (by apply Z.mod_small).
    rewrite Z.mod_pow2_bits_high by lia. apply andb_false_r.
Qed.

Lemma land_ones_small n z : 0 ≤ z < 2 ^ n → Z.land z (Z.ones n) = z.
Proof.
  intros Hz. destruct (decide (0 ≤ n)).
  - rewrite Z.land_ones by done. by apply Z.mod_small.
  - rewrite Z.pow_neg_r in Hz by lia. lia.
Qed.

Lemma pack_inj n a b a' b' :
  0 ≤ b < 2 ^ n → 0 ≤ b' < 2 ^ n → a * 2 ^ n + b = a' * 2 ^ n + b' → a = a' ∧ b = b'.
Proof.
  intros Hb Hb' Heq. assert (0 < 2 ^ n) by lia. revert Hb Hb' Heq.
  generalize (2 ^ n) as m. intros m Hb Hb' Heq.
  assert (a = a') as ->; [|lia].
  rewrite (Z.div_unique (a * m + b) m a b) by lia.
  symmetry. apply Z.div_unique with b'; lia.
Qed.

Definition b2z (b : bool) : Z := if b then 1 else 0.

(** ** errno values returned by the plugin *)

Inductive errno :=
  | EPERM | ENOENT | EAGAIN | EFAULT | ENODEV | EINVAL | ENOSYS | EOPNOTSUPP.

#[export] Instance errno_eq_dec : EqDecision errno.
Proof. solve_decision. Defined.

(** ** Ethernet addresses: the six octets, most significant first *)

Definition mac := list Z.

Definition mac_wf (m : mac) : Prop := length m = 6%nat ∧ Forall (λ b, 0 ≤ b < 256) m.

(** ** OVS bitmaps

    An [unsigned long] array used through [bitmap.h] is the set of the
    positions of its one bits. *)

Abbreviation bitmap := (gset Z).

Definition bitmap_is_set (bm : bitmap) (i : Z) : bool := bool_decide (i ∈ bm).
Definition bitmap_set1 (bm : bitmap) (i : Z) : bitmap := {[i]} ∪ bm.
Definition bitmap_set0 (bm : bitmap) (i : Z) : bitmap := bm ∖ {[i]}.
Definition bitmap_set (bm : bitmap) (i : Z) (v : bool) : bitmap :=
  if v then bitmap_set1 bm i else bitmap_set0 bm i.

(** Word-wise [^=] of two bitmaps of the same size. *)
Definition bitmap_xor (a b : bitmap) : bitmap := (a ∖ b) ∪ (b ∖ a).

(** [BITMAP_FOR_EACH_1 (i, size, bm)]: scans upwards and tests each bit when it
    is reached, so a body that changes the bitmap only affects later bits.
    [bm] reads the scanned bitmap out of the loop's state. *)
Definition bitmap_for_each_1 {S} (size : Z) (bm : S → bitmap)
    (body : Z → S → S) (s : S) : S :=
  foldl (λ s i, if bitmap_is_set (bm s) i then body i s else s) s (seqZ 0 size).

Lemma bitmap_is_set_spec bm i : bitmap_is_set bm i = true ↔ i ∈ bm.
Proof. apply bool_decide_eq_true. Qed.

Lemma elem_of_bitmap_xor a b i :
  i ∈ bitmap_xor a b ↔ (i ∈ a ∧ i ∉ b) ∨ (i ∉ a ∧ i ∈ b).
Proof. unfold bitmap_xor. set_solver. Qed.

Lemma bitmap_set0_set1 bm i : i ∉ bm → bitmap_set0 (bitmap_set1 bm i) i = bm.
Proof. unfold bitmap_set0, bitmap_set1. set_solver. Qed.

Lemma bitmap_set1_idem bm i : i ∈ bm → bitmap_set1 bm i = bm.
Proof. unfold bitmap_set1. set_solver. Qed.

(** A loop invariant of [BITMAP_FOR_EACH_1], indexed by the next bit to test. *)
Lemma bitmap_for_each_1_inv {S} (P : Z → S → Prop) size (bm : S → bitmap) body s :
  0 ≤ size → P 0 s →
  (∀ i s, 0 ≤ i < size → P i s → P (i + 1) (if bitmap_is_set (bm s) i then body i s else s)) →
  P size (bitmap_for_each_1 size bm body s).
Proof.
  intros Hsize H0 Hstep. unfold bitmap_for_each_1.
  assert (∀ n, (n ≤ Z.to_nat size)%nat → P (Z.of_nat n)
    (foldl (λ s i, if bitmap_is_set (bm s) i then body i s else s) s (seqZ 0 (Z.of_nat n)))) as Hn.
  { induction n as [|n IH]; intros Hle; [done|].
    rewrite seqZ_S, foldl_app, Nat2Z.inj_succ, Z.add_0_l. unfold Z.succ. cbn [foldl].
    apply Hstep; [lia|]. apply IH. lia. }
  specialize (Hn (Z.to_nat size) (le_n _)). by rewrite Z2Nat.id in Hn.
Qed.

(** ** Outcomes

    Code that can abort ([ovs_assert], [OVS_NOT_REACHED]) or dereference a null
    pointer returns an [outcome]; loops over tables held by the SDK carry fuel. *)

Inductive crash :=
  | NullDeref
  | AssertFailed
  | NotReached
  | Undefined
  (* waiting for what never happens: for a mutex the thread holds itself, or for the
     end of a thread that was not told to end *)
  | Deadlock.

Inductive outcome (A : Type) :=
  | Done (a : A)
  | Crash (why : crash)
  | OutOfFuel.
Arguments Done {_} _.
Arguments Crash {_} _.
Arguments OutOfFuel {_}.

Definition obind {A B} (m : outcome A) (k : A → outcome B) : outcome B :=
  match m with
  | Done a => k a
  | Crash w => Crash w
  | OutOfFuel => OutOfFuel
  end.

Declare Scope fpa_scope.
Delimit Scope fpa_scope with fpa.
Notation "'let*' p := m 'in' k" := (obind m (λ p, k))
  (at level 10, p pattern, m at level 100, k at level 200,
   format "'[v' 'let*'  p  :=  m  'in' '/' k ']'") : fpa_scope.
#[global] Open Scope fpa_scope.

(** Dereferencing an address. *)
Definition deref {A} (m : gmap Z A) (p : option Z) : outcome A :=
  match p with
  | None => Crash NullDeref
  | Some p => match m !! p with Some a => Done a | None => Crash Undefined end
  end.

Lemma deref_some {A} (m : gmap Z A) p a : m !! p = Some a → deref m (Some p) = Done a.
Proof. intros Ha. simpl. by rewrite Ha. Qed.

Definition is_done {A} (m : outcome A) : Prop := ∃ a, m = Done a.

Lemma obind_done {A B} (m : outcome A) (k : A → outcome B) b :
  obind m k = Done b ↔ (∃ a, m = Done a ∧ k a = Done b).
Proof. destruct m; simpl; naive_solver. Qed.
