(* ===== verification/Fpa.v ===== *)
(** * The FPA SDK as the plugin sees it

    The Marvell FPA library is not part of the repository: every [fpaLib*]
    function the plugin calls is a field of the class [FPA_SDK].  The records
    below have the fields the plugin reads or writes.  [FPA_LAWS] states the
    documented effect of the calls on the two observable tables of a switch, the
    flow tables and the group table; [FPA_NOFAIL] states when the calls succeed. *)

From S2P Require Import Prelude.

(** ** Status codes (the names listed by [ops_fpa_strerr]) *)

Inductive FPA_STATUS :=
  | FPA_ERROR | FPA_OK | FPA_FAIL | FPA_BAD_VALUE | FPA_OUT_OF_RANGE
  | FPA_BAD_PARAM | FPA_BAD_PTR | FPA_BAD_SIZE | FPA_BAD_STATE | FPA_SET_ERROR
  | FPA_GET_ERROR | FPA_CREATE_ERROR | FPA_NOT_FOUND | FPA_NO_MORE | FPA_NO_SUCH
  | FPA_TIMEOUT | FPA_NO_CHANGE | FPA_NOT_SUPPORTED | FPA_NOT_IMPLEMENTED
  | FPA_NOT_INITIALIZED | FPA_NO_RESOURCE | FPA_FULL | FPA_EMPTY | FPA_INIT_ERROR
  | FPA_NOT_READY | FPA_ALREADY_EXIST | FPA_OUT_OF_CPU_MEM | FPA_ABORTED
  | FPA_NOT_APPLICABLE_DEVICE | FPA_UNFIXABLE_ECC_ERROR
  | FPA_UNFIXABLE_BIST_ERROR | FPA_CHECKSUM_ERROR | FPA_DSA_PARSING_ERROR
  | FPA_STATUS_OTHER (code : Z).

(** [if (err)]: every status but [FPA_OK] is non-zero. *)
Definition failed (st : FPA_STATUS) : bool :=
  match st with FPA_OK => false | _ => true end.

Lemma failed_false st : failed st = false ↔ st = FPA_OK.
Proof. by destruct st. Qed.

Lemma failed_true st : failed st = true ↔ st ≠ FPA_OK.
Proof. by destruct st. Qed.

(** ** Flow tables *)

Inductive flow_table :=
  | FPA_FLOW_TABLE_TYPE_CONTROL_PKT_E
  | FPA_FLOW_TABLE_TYPE_VLAN_E
  | FPA_FLOW_TABLE_TYPE_TERMINATION_E
  | FPA_FLOW_TABLE_TYPE_PCL0_E
  | FPA_FLOW_TABLE_TYPE_PCL1_E
  | FPA_FLOW_TABLE_TYPE_PCL2_E
  | FPA_FLOW_TABLE_TYPE_L2_BRIDGING_E
  | FPA_FLOW_TABLE_TYPE_L3_UNICAST_E
  | FPA_FLOW_TABLE_TYPE_EPCL_E.

#[export] Instance flow_table_eq_dec : EqDecision flow_table.
Proof. solve_decision. Defined.

(** The members of [FPA_FLOW_TABLE_ENTRY_STC.data].  In C they share storage;
    an entry is only ever written and read through the member of its table. *)

Record control_pkt_data := {
  cp_entry_type : Z;
  cp_inPort : Z; cp_inPortMask : Z;
  cp_vlanId : Z; cp_vlanIdMask : Z;
  cp_dstMac : mac; cp_dstMacMask : mac;
  cp_etherType : Z; cp_etherTypeMask : Z;
  cp_ipProtocol : Z; cp_ipProtocolMask : Z;
  cp_icmpV6Type : Z; cp_icmpV6TypeMask : Z;
  cp_dstL4Port : Z; cp_dstL4PortMask : Z;
  cp_outputPort : Z; cp_clearActions : Z; cp_gotoTableNo : Z
}.

Record vlan_data := {
  vl_inPort : Z; vl_vlanId : Z; vl_vlanIdMask : Z;
  vl_newTagVid : Z; vl_newTagPcp : Z; vl_gotoTableNo : Z
}.

Record termination_data := {
  tm_inPort : Z; tm_inPortMask : Z;
  tm_vlanId : Z; tm_vlanIdMask : Z;
  tm_etherType : Z; tm_etherTypeMask : Z;
  tm_destMac : mac; tm_destMacMask : mac;
  tm_metadataValue : Z; tm_metadataMask : Z; tm_gotoTableNo : Z
}.

Record l2_bridging_data := {
  l2_vlanId : Z; l2_vlanIdMask : Z;
  l2_destMac : mac; l2_destMacMask : mac;
  l2_groupId : Z; l2_outputPort : Z; l2_clearActions : Z; l2_gotoTableNo : Z
}.

Record l3_unicast_data := {
  l3_etherType : Z; l3_vrfId : Z; l3_dstIp4 : Z; l3_dstIp4Mask : Z;
  l3_groupId : Z; l3_outputPort : Z; l3_clearActions : Z; l3_gotoTableNo : Z
}.

Record FPA_FLOW_TABLE_ENTRY_STC := {
  cookie : Z;
  priority : Z;
  timeoutIdleTime : Z;
  timeoutHardTime : Z;
  flowModFlags : Z;
  entryType : flow_table;
  data_control_pkt : control_pkt_data;
  data_vlan : vlan_data;
  data_termination : termination_data;
  data_l2_bridging : l2_bridging_data;
  data_l3_unicast : l3_unicast_data
}.

#[export] Instance control_pkt_data_eq_dec : EqDecision control_pkt_data.
Proof. solve_decision. Defined.
#[export] Instance vlan_data_eq_dec : EqDecision vlan_data.
Proof. solve_decision. Defined.
#[export] Instance termination_data_eq_dec : EqDecision termination_data.
Proof. solve_decision. Defined.
#[export] Instance l2_bridging_data_eq_dec : EqDecision l2_bridging_data.
Proof. solve_decision. Defined.
#[export] Instance l3_unicast_data_eq_dec : EqDecision l3_unicast_data.
Proof. solve_decision. Defined.
#[export] Instance flow_entry_eq_dec : EqDecision FPA_FLOW_TABLE_ENTRY_STC.
Proof. solve_decision. Defined.

(** What a table compares when an entry is added: an entry with the same match
    may be replaced by the new one. *)
Inductive flow_match :=
  | MatchControlPkt (inPort vlanId : Z) (dstMac : mac) (etherType ipProtocol dstL4Port : Z)
  | MatchVlan (inPort vlanId vlanIdMask : Z)
  | MatchTermination (inPort vlanId etherType : Z) (destMac : mac)
  | MatchL2Bridging (vlanId : Z) (destMac : mac)
  | MatchL3Unicast (vrfId dstIp4 dstIp4Mask : Z)
  | MatchEntry (e : FPA_FLOW_TABLE_ENTRY_STC).

Definition match_of (t : flow_table) (e : FPA_FLOW_TABLE_ENTRY_STC) : flow_match :=
  match t with
  | FPA_FLOW_TABLE_TYPE_CONTROL_PKT_E =>
      let d := data_control_pkt e in
      MatchControlPkt (cp_inPort d) (cp_vlanId d) (cp_dstMac d) (cp_etherType d)
        (cp_ipProtocol d) (cp_dstL4Port d)
  | FPA_FLOW_TABLE_TYPE_VLAN_E =>
      let d := data_vlan e in MatchVlan (vl_inPort d) (vl_vlanId d) (vl_vlanIdMask d)
  | FPA_FLOW_TABLE_TYPE_TERMINATION_E =>
      let d := data_termination e in
      MatchTermination (tm_inPort d) (tm_vlanId d) (tm_etherType d) (tm_destMac d)
  | FPA_FLOW_TABLE_TYPE_L2_BRIDGING_E =>
      let d := data_l2_bridging e in MatchL2Bridging (l2_vlanId d) (l2_destMac d)
  | FPA_FLOW_TABLE_TYPE_L3_UNICAST_E =>
      let d := data_l3_unicast e in MatchL3Unicast (l3_vrfId d) (l3_dstIp4 d) (l3_dstIp4Mask d)
  | _ => MatchEntry e
  end.

#[export] Instance flow_match_eq_dec : EqDecision flow_match.
Proof. solve_decision. Defined.

(** ** Groups *)

Inductive group_type := FPA_GROUP_L2_INTERFACE_E | FPA_GROUP_L3_UNICAST_E.

Inductive group_semantics := FPA_GROUP_INDIRECT | FPA_GROUP_SEMANTICS_OTHER (n : Z).

Record FPA_GROUP_ENTRY_IDENTIFIER_STC := {
  groupType : group_type;
  id_portNum : Z;
  id_vlanId : Z;
  id_index : Z
}.

Record FPA_GROUP_TABLE_ENTRY_STC := {
  groupIdentifier : Z;
  groupTypeSemantics : group_semantics
}.

(** [bucket.type] selects the member of [bucket.data]. *)
Inductive bucket_data :=
  | l2Interface (outputPort : Z) (popVlanTagAction : bool)
  | l3Unicast (dstMac srcMac : mac) (vlanId mtu refGroupId : Z).

Record FPA_GROUP_BUCKET_ENTRY_STC := {
  bucket_groupIdentifier : Z;
  bucket_index : Z;
  bucket_payload : bucket_data
}.

(** A group as it can be read back: its table entry and its buckets by index. *)
Record group := {
  group_entry : FPA_GROUP_TABLE_ENTRY_STC;
  group_buckets : gmap Z FPA_GROUP_BUCKET_ENTRY_STC
}.

#[export] Instance group_semantics_eq_dec : EqDecision group_semantics.
Proof. solve_decision. Defined.
#[export] Instance bucket_data_eq_dec : EqDecision bucket_data.
Proof. solve_decision. Defined.
#[export] Instance bucket_eq_dec : EqDecision FPA_GROUP_BUCKET_ENTRY_STC.
Proof. solve_decision. Defined.
#[export] Instance group_table_entry_eq_dec : EqDecision FPA_GROUP_TABLE_ENTRY_STC.
Proof. solve_decision. Defined.
#[export] Instance group_eq_dec : EqDecision group.
Proof. solve_decision. Defined.

(** ** The SDK calls

    [hw] is the state of the switches behind the library.  A call that changes
    it returns the new state beside its status and its output arguments. *)

Class FPA_SDK := {
  hw : Type;

  (* constants of fpaLibTypes.h *)
  FPA_FLOW_VLAN_MASK_TAG : Z;
  FPA_FLOW_VLAN_MASK_UNTAG : Z;
  FPA_FLOW_VLAN_IGNORE_VAL : Z;
  FPA_OUTPUT_CONTROLLER : Z;
  FPA_FLOW_TABLE_METADATA_MAC2ME_BIT : Z;
  FPA_CONTROL_PKTS_TYPE_ARP_REQUEST_MESSAGES_E : Z;
  FPA_CONTROL_PKTS_TYPE_UDP_BROADCAST_CTRL_E : Z;

  (* flow tables *)
  fpaLibFlowEntryInit : Z → flow_table → hw → FPA_STATUS * FPA_FLOW_TABLE_ENTRY_STC;
  fpaLibFlowEntryAdd : Z → flow_table → FPA_FLOW_TABLE_ENTRY_STC → hw → FPA_STATUS * hw;
  fpaLibFlowEntryDelete : Z → flow_table → FPA_FLOW_TABLE_ENTRY_STC → Z → hw → FPA_STATUS * hw;
  fpaLibFlowTableCookieDelete : Z → flow_table → Z → hw → FPA_STATUS * hw;
  fpaLibFlowTableGetNext : Z → flow_table → Z → hw →
    FPA_STATUS * FPA_FLOW_TABLE_ENTRY_STC * hw;
  fpaLibFlowTableDump : Z → flow_table → hw → hw;

  (* group table *)
  fpaLibGroupIdentifierBuild : FPA_GROUP_ENTRY_IDENTIFIER_STC → FPA_STATUS * Z;
  fpaLibGroupTableEntryAdd : Z → FPA_GROUP_TABLE_ENTRY_STC → hw → FPA_STATUS * hw;
  fpaLibGroupTableEntryDelete : Z → Z → hw → FPA_STATUS * hw;
  fpaLibGroupTableGetEntry : Z → Z → hw → FPA_STATUS * FPA_GROUP_TABLE_ENTRY_STC;
  fpaLibGroupTableGetNext : Z → Z → hw → FPA_STATUS * FPA_GROUP_TABLE_ENTRY_STC;
  fpaLibGroupEntryBucketAdd : Z → FPA_GROUP_BUCKET_ENTRY_STC → hw → FPA_STATUS * hw;
  fpaLibGroupEntryBucketDelete : Z → Z → Z → hw → FPA_STATUS * hw;
  fpaLibGroupEntryBucketGet : Z → Z → Z → hw → FPA_STATUS * FPA_GROUP_BUCKET_ENTRY_STC;
  (* the counters' referenceCount *)
  fpaLibGroupEntryStatisticsGet : Z → Z → hw → FPA_STATUS * Z;

  (* the byte read as [data.l2Interface.popVlanTagAction] in another bucket *)
  fpa_union_popVlanTagAction : FPA_GROUP_BUCKET_ENTRY_STC → bool
}.

(** [bucket.data.l2Interface.popVlanTagAction]. *)
Definition bucket_pop `{FPA_SDK} (b : FPA_GROUP_BUCKET_ENTRY_STC) : bool :=
  match bucket_payload b with
  | l2Interface _ pop => pop
  | l3Unicast _ _ _ _ _ => fpa_union_popVlanTagAction b
  end.

(** ** Observable state and the effect of the calls *)

Class FPA_OBS (F : FPA_SDK) := {
  (* the entries of a flow table, in the order the library enumerates them *)
  flows : hw → Z → flow_table → list FPA_FLOW_TABLE_ENTRY_STC;
  (* the position of the library's enumeration of flow entries *)
  flow_cursor : hw → nat;
  (* the group table by group identifier *)
  groups : hw → Z → gmap Z group
}.

Section observations.
Context {F : FPA_SDK} {O : FPA_OBS F}.

(** Nothing a caller can read has changed. *)
Definition hw_same (h h' : hw) : Prop :=
  (∀ sid t, flows h' sid t = flows h sid t) ∧ (∀ sid, groups h' sid = groups h sid).

(** Only the flow table [t] of switch [sid] may have changed. *)
Definition hw_same_but_table (sid : Z) (t : flow_table) (h h' : hw) : Prop :=
  (∀ sid' t', sid' ≠ sid ∨ t' ≠ t → flows h' sid' t' = flows h sid' t') ∧
  (∀ sid', groups h' sid' = groups h sid').

(** Only the group table of switch [sid] may have changed. *)
Definition hw_same_but_groups (sid : Z) (h h' : hw) : Prop :=
  (∀ sid' t, flows h' sid' t = flows h sid' t) ∧
  (∀ sid', sid' ≠ sid → groups h' sid' = groups h sid').

(** The table after [e] was added to [old]: [e] is there, nothing else is new,
    and only an entry with the match of [e] may have been replaced. *)
Definition flow_added (t : flow_table) (e : FPA_FLOW_TABLE_ENTRY_STC)
    (old new : list FPA_FLOW_TABLE_ENTRY_STC) : Prop :=
  e ∈ new ∧
  (∀ e', e' ∈ new → e' = e ∨ e' ∈ old) ∧
  (∀ e', e' ∈ old → e' ∈ new ∨ match_of t e' = match_of t e).

(** The table after the entries with cookie [c] were deleted from [old]. *)
Definition flow_cookie_deleted (c : Z)
    (old new : list FPA_FLOW_TABLE_ENTRY_STC) : Prop :=
  ∀ e, e ∈ new ↔ e ∈ old ∧ cookie e ≠ c.
End observations.

Class FPA_LAWS (F : FPA_SDK) (O : FPA_OBS F) : Prop := {
  vlan_masks_differ : FPA_FLOW_VLAN_MASK_TAG ≠ FPA_FLOW_VLAN_MASK_UNTAG;

  flow_add_ok sid t e h h' :
    fpaLibFlowEntryAdd sid t e h = (FPA_OK, h') →
    flow_added t e (flows h sid t) (flows h' sid t) ∧ hw_same_but_table sid t h h';
  flow_add_err sid t e h st h' :
    fpaLibFlowEntryAdd sid t e h = (st, h') → st ≠ FPA_OK → hw_same h h';
  flow_cookie_delete_ok sid t c h h' :
    fpaLibFlowTableCookieDelete sid t c h = (FPA_OK, h') →
    flow_cookie_deleted c (flows h sid t) (flows h' sid t) ∧ hw_same_but_table sid t h h';
  flow_cookie_delete_err sid t c h st h' :
    fpaLibFlowTableCookieDelete sid t c h = (st, h') → st ≠ FPA_OK → hw_same h h';

  (* argument 1 starts an enumeration, any other value continues it *)
  flow_get_next sid t i h st e h' :
    fpaLibFlowTableGetNext sid t i h = (st, e, h') →
    hw_same h h' ∧
    let pos := if decide (i = 1) then 0%nat else flow_cursor h in
    match flows h sid t !! pos with
    | Some e' => st = FPA_OK ∧ e = e' ∧ flow_cursor h' = S pos
    | None => st ≠ FPA_OK
    end;
  flow_dump sid t h : hw_same h (fpaLibFlowTableDump sid t h);

  (* the layout of an L2 interface group identifier *)
  group_build_l2 pid vid idx st gid :
    fpaLibGroupIdentifierBuild
      {| groupType := FPA_GROUP_L2_INTERFACE_E;
         id_portNum := pid; id_vlanId := vid; id_index := idx |} = (st, gid) →
    0 ≤ pid < 2 ^ 16 → 0 ≤ vid < 2 ^ 12 →
    st = FPA_OK ∧ 0 ≤ gid < 2 ^ 32 ∧
    Z.land gid 0xFFFF = pid ∧ Z.shiftr (Z.land gid 0x0FFF0000) 16 = vid ∧
    Z.shiftr gid 28 = 0;
  (* an L3 unicast identifier: a non-zero type above a 28-bit index *)
  group_build_l3 pid vid idx gid :
    fpaLibGroupIdentifierBuild
      {| groupType := FPA_GROUP_L3_UNICAST_E;
         id_portNum := pid; id_vlanId := vid; id_index := idx |} = (FPA_OK, gid) →
    0 ≤ gid < 2 ^ 32 ∧ Z.shiftr gid 28 ≠ 0 ∧ Z.land gid (Z.ones 28) = idx;

  group_keyed h sid gid g :
    groups h sid !! gid = Some g → groupIdentifier (group_entry g) = gid;
  group_add_ok sid e h h' :
    fpaLibGroupTableEntryAdd sid e h = (FPA_OK, h') →
    groups h sid !! groupIdentifier e = None ∧
    groups h' sid =
      <[groupIdentifier e := {| group_entry := e; group_buckets := ∅ |}]> (groups h sid) ∧
    hw_same_but_groups sid h h';
  group_add_err sid e h st h' :
    fpaLibGroupTableEntryAdd sid e h = (st, h') → st ≠ FPA_OK → hw_same h h';
  group_delete_ok sid gid h h' :
    fpaLibGroupTableEntryDelete sid gid h = (FPA_OK, h') →
    groups h' sid = delete gid (groups h sid) ∧ hw_same_but_groups sid h h';
  group_delete_err sid gid h st h' :
    fpaLibGroupTableEntryDelete sid gid h = (st, h') → st ≠ FPA_OK → hw_same h h';
  group_get_entry sid gid h st e :
    fpaLibGroupTableGetEntry sid gid h = (st, e) →
    match groups h sid !! gid with
    | Some g => st = FPA_OK ∧ e = group_entry g
    | None => st ≠ FPA_OK
    end;
  (* the enumeration of groups goes upwards from the given identifier *)
  group_get_next sid gid h st e :
    fpaLibGroupTableGetNext sid gid h = (st, e) →
    (st = FPA_OK ∧ gid < groupIdentifier e ∧
       (∃ g, groups h sid !! groupIdentifier e = Some g ∧ group_entry g = e) ∧
       (∀ k, gid < k → is_Some (groups h sid !! k) → groupIdentifier e ≤ k)) ∨
    (st ≠ FPA_OK ∧ ∀ k, is_Some (groups h sid !! k) → k ≤ gid);
  bucket_add_ok sid b h h' :
    fpaLibGroupEntryBucketAdd sid b h = (FPA_OK, h') →
    (∃ g, groups h sid !! bucket_groupIdentifier b = Some g ∧
       groups h' sid = <[bucket_groupIdentifier b :=
         {| group_entry := group_entry g;
            group_buckets := <[bucket_index b := b]> (group_buckets g) |}]> (groups h sid)) ∧
    hw_same_but_groups sid h h';
  bucket_add_err sid b h st h' :
    fpaLibGroupEntryBucketAdd sid b h = (st, h') → st ≠ FPA_OK → hw_same h h';
  bucket_get sid gid idx h st b :
    fpaLibGroupEntryBucketGet sid gid idx h = (st, b) →
    match groups h sid !! gid ≫= (λ g, group_buckets g !! idx) with
    | Some b' => st = FPA_OK ∧ b = b'
    | None => st ≠ FPA_OK
    end
}.

(** A library that refuses nothing it could do: no table is full and deletions
    of what exists succeed. *)
Class FPA_NOFAIL (F : FPA_SDK) (O : FPA_OBS F) : Prop := {
  flow_init_succeeds sid t h : (fpaLibFlowEntryInit sid t h).1 = FPA_OK;
  flow_add_succeeds sid t e h : (fpaLibFlowEntryAdd sid t e h).1 = FPA_OK;
  group_add_succeeds sid e h :
    groups h sid !! groupIdentifier e = None →
    (fpaLibGroupTableEntryAdd sid e h).1 = FPA_OK;
  bucket_add_succeeds sid b h :
    is_Some (groups h sid !! bucket_groupIdentifier b) →
    (fpaLibGroupEntryBucketAdd sid b h).1 = FPA_OK
}.

(** Deletions of existing entries succeed. *)
Class FPA_DELETES (F : FPA_SDK) (O : FPA_OBS F) : Prop := {
  flow_cookie_delete_succeeds sid t c h :
    (∃ e, e ∈ flows h sid t ∧ cookie e = c) →
    (fpaLibFlowTableCookieDelete sid t c h).1 = FPA_OK;
  group_delete_succeeds sid gid h :
    is_Some (groups h sid !! gid) →
    (fpaLibGroupTableEntryDelete sid gid h).1 = FPA_OK
}.

(** ** Reasoning about observations *)

Section observation_lemmas.
Context {F : FPA_SDK} {O : FPA_OBS F}.

#[export] Instance hw_same_equiv : Equivalence hw_same.
Proof.
  split.
  - by split.
  - intros ?? [Hf Hg]. by split; intros; rewrite ?Hf, ?Hg.
  - intros ??? [Hf Hg] [Hf' Hg']. by split; intros; rewrite ?Hf', ?Hf, ?Hg', ?Hg.
Qed.

Lemma hw_same_flows h h' sid t : hw_same h h' → flows h' sid t = flows h sid t.
Proof. by intros [Hf _]. Qed.

Lemma hw_same_groups h h' sid : hw_same h h' → groups h' sid = groups h sid.
Proof. by intros [_ Hg]. Qed.

#[export] Instance flows_proper : Proper (hw_same ==> eq ==> eq ==> eq) flows.
Proof. intros ?? [Hf _] ? ? -> ? ? ->. by rewrite Hf. Qed.

#[export] Instance groups_proper : Proper (hw_same ==> eq ==> eq) groups.
Proof. intros ?? [_ Hg] ? ? ->. by rewrite Hg. Qed.

#[export] Instance hw_same_but_table_proper sid t :
  Proper (hw_same ==> hw_same ==> iff) (hw_same_but_table sid t).
Proof.
  intros h1 h2 [Hf Hg] h1' h2' [Hf' Hg']. unfold hw_same_but_table.
  split; intros [H1 H2]; split; intros.
  - by rewrite Hf, Hf', H1.
  - by rewrite Hg, Hg', H2.
  - by rewrite <- Hf, <- Hf', H1.
  - by rewrite <- Hg, <- Hg', H2.
Qed.

#[export] Instance hw_same_but_groups_proper sid :
  Proper (hw_same ==> hw_same ==> iff) (hw_same_but_groups sid).
Proof.
  intros h1 h2 [Hf Hg] h1' h2' [Hf' Hg']. unfold hw_same_but_groups.
  split; intros [H1 H2]; split; intros.
  - by rewrite Hf, Hf', H1.
  - by rewrite Hg, Hg', H2.
  - by rewrite <- Hf, <- Hf', H1.
  - by rewrite <- Hg, <- Hg', H2.
Qed.

Lemma hw_same_but_table_trans sid t h1 h2 h3 :
  hw_same_but_table sid t h1 h2 → hw_same_but_table sid t h2 h3 →
  hw_same_but_table sid t h1 h3.
Proof.
  intros [Hf Hg] [Hf' Hg']. split; intros; [by rewrite Hf', Hf|by rewrite Hg', Hg].
Qed.

Lemma hw_same_but_groups_trans sid h1 h2 h3 :
  hw_same_but_groups sid h1 h2 → hw_same_but_groups sid h2 h3 →
  hw_same_but_groups sid h1 h3.
Proof.
  intros [Hf Hg] [Hf' Hg']. split; intros; [by rewrite Hf', Hf|by rewrite Hg', Hg].
Qed.

Lemma hw_same_but_groups_same sid h h' :
  hw_same_but_groups sid h h' → groups h' sid = groups h sid → hw_same h h'.
Proof.
  intros [Hf Hg] Heq. split; [done|]. intros sid'.
  destruct (decide (sid' = sid)) as [->|]; auto.
Qed.

Lemma hw_same_same_but_table sid t h h' : hw_same h h' → hw_same_but_table sid t h h'.
Proof. intros [? ?]. by split. Qed.

Lemma hw_same_same_but_groups sid h h' : hw_same h h' → hw_same_but_groups sid h h'.
Proof. intros [? ?]. by split. Qed.

(** Adding an entry and deleting its cookie again leaves the other entries,
    when nothing with that cookie or match was there. *)
Lemma flow_added_deleted t e old mid new :
  (∀ e', e' ∈ old → cookie e' ≠ cookie e ∧ match_of t e' ≠ match_of t e) →
  flow_added t e old mid → flow_cookie_deleted (cookie e) mid new →
  ∀ e', e' ∈ new ↔ e' ∈ old.
Proof.
  intros Hfree (Hin & Hnew & Hold) Hdel e'. rewrite (Hdel e'). split.
  - intros [[->|?]%Hnew Hc]; [done|done].
  - intros He'. destruct (Hfree _ He') as [? Hm]. split; [|done].
    by destruct (Hold _ He').
Qed.
End observation_lemmas.

Create HintDb fpa.
#[export] Hint Resolve hw_same_same_but_table hw_same_same_but_groups
  hw_same_but_table_trans hw_same_but_groups_trans : fpa.

(** Runs the calls of a definition one after the other: splits on each status
    and turns the test [failed st] into an (in)equation with [FPA_OK]. *)
Ltac fpa_run :=
  repeat first
    [ progress simplify_eq/=
    | match goal with
      | H : failed _ = false |- _ => apply failed_false in H; subst
      | H : failed _ = true |- _ => apply failed_true in H
      | H : negb _ = true |- _ => apply negb_true_iff in H
      | H : negb _ = false |- _ => apply negb_false_iff in H
      end
    | case_match ].

Section group_lemmas.
Context {F : FPA_SDK} {O : FPA_OBS F} `{!FPA_LAWS F O}.

(** A group entry followed by its bucket. *)
Lemma group_created sid e b h h1 h2 :
  fpaLibGroupTableEntryAdd sid e h = (FPA_OK, h1) →
  fpaLibGroupEntryBucketAdd sid b h1 = (FPA_OK, h2) →
  bucket_groupIdentifier b = groupIdentifier e →
  groups h sid !! groupIdentifier e = None ∧
  groups h2 sid = <[groupIdentifier e :=
    {| group_entry := e; group_buckets := {[bucket_index b := b]} |}]> (groups h sid) ∧
  hw_same_but_groups sid h h2.
Proof.
  intros Ha Hb Hk. apply group_add_ok in Ha as (Hn & Hg1 & Hs1).
  apply bucket_add_ok in Hb as [(g & Hl & Hg2) Hs2].
  rewrite Hk, Hg1, lookup_insert_eq in Hl. simplify_eq/=.
  split_and!; [done| |eauto with fpa].
  by rewrite Hg2, Hg1, Hk, insert_insert_eq.
Qed.

(** The clean-up when the bucket is refused. *)
Lemma group_rolled_back `{!FPA_DELETES F O} sid e b h h1 st h2 st' h3 :
  fpaLibGroupTableEntryAdd sid e h = (FPA_OK, h1) →
  fpaLibGroupEntryBucketAdd sid b h1 = (st, h2) → st ≠ FPA_OK →
  fpaLibGroupTableEntryDelete sid (groupIdentifier e) h2 = (st', h3) →
  hw_same h h3.
Proof.
  intros Ha Hb Hst Hd. apply group_add_ok in Ha as (Hn & Hg1 & Hs1).
  eapply bucket_add_err in Hb; [|done].
  assert (st' = FPA_OK) as ->.
  { pose proof (group_delete_succeeds sid (groupIdentifier e) h2) as Hok.
    rewrite Hd in Hok. apply Hok. rewrite <- Hb, Hg1, lookup_insert_eq. eauto. }
  apply group_delete_ok in Hd as [Hg3 Hs3].
  apply hw_same_but_groups_same with sid; [eauto with fpa|].
  rewrite Hg3, <- Hb, Hg1. by apply delete_insert_id.
Qed.
End group_lemmas.
