(* ===== verification/FpaSim.v ===== *)
(** * A reference switch

    A concrete SDK that keeps its tables in memory.  [faults op n] makes the [n]-th
    state-changing call fail if it is an [op], so error paths can be exercised;
    [FPA_LAWS] holds for every fault plan, [FPA_NOFAIL] for plans that fail no
    addition and [FPA_DELETES] for plans that fail no deletion.  The witnesses of
    the development run on it. *)

From S2P Require Import Prelude Fpa.

Record sim := {
  sim_tables : list (Z * flow_table * FPA_FLOW_TABLE_ENTRY_STC);
  sim_cursor : nat;
  (* per switch: semantics and buckets of each group *)
  sim_groups : gmap Z (gmap Z (group_semantics * gmap Z FPA_GROUP_BUCKET_ENTRY_STC));
  sim_calls : nat
}.

Definition sim_empty : sim :=
  {| sim_tables := []; sim_cursor := 0; sim_groups := ∅; sim_calls := 0 |}.

Definition mac_zero : mac := replicate 6 0.

(** The entry [fpaLibFlowEntryInit] hands out: all defaults zero. *)
Definition sim_entry (t : flow_table) : FPA_FLOW_TABLE_ENTRY_STC := {|
  cookie := 0; priority := 0; timeoutIdleTime := 0; timeoutHardTime := 0;
  flowModFlags := 0; entryType := t;
  data_control_pkt := {|
    cp_entry_type := 0; cp_inPort := 0; cp_inPortMask := 0; cp_vlanId := 0;
    cp_vlanIdMask := 0; cp_dstMac := mac_zero; cp_dstMacMask := mac_zero;
    cp_etherType := 0; cp_etherTypeMask := 0; cp_ipProtocol := 0;
    cp_ipProtocolMask := 0; cp_icmpV6Type := 0; cp_icmpV6TypeMask := 0;
    cp_dstL4Port := 0; cp_dstL4PortMask := 0; cp_outputPort := 0;
    cp_clearActions := 0; cp_gotoTableNo := 0 |};
  data_vlan := {| vl_inPort := 0; vl_vlanId := 0; vl_vlanIdMask := 0;
    vl_newTagVid := 0; vl_newTagPcp := 0; vl_gotoTableNo := 0 |};
  data_termination := {| tm_inPort := 0; tm_inPortMask := 0; tm_vlanId := 0;
    tm_vlanIdMask := 0; tm_etherType := 0; tm_etherTypeMask := 0;
    tm_destMac := mac_zero; tm_destMacMask := mac_zero; tm_metadataValue := 0;
    tm_metadataMask := 0; tm_gotoTableNo := 0 |};
  data_l2_bridging := {| l2_vlanId := 0; l2_vlanIdMask := 0; l2_destMac := mac_zero;
    l2_destMacMask := mac_zero; l2_groupId := 0; l2_outputPort := 0;
    l2_clearActions := 0; l2_gotoTableNo := 0 |};
  data_l3_unicast := {| l3_etherType := 0; l3_vrfId := 0; l3_dstIp4 := 0;
    l3_dstIp4Mask := 0; l3_groupId := 0; l3_outputPort := 0; l3_clearActions := 0;
    l3_gotoTableNo := 0 |}
|}.

Definition sim_flows (s : sim) (sid : Z) (t : flow_table) : list FPA_FLOW_TABLE_ENTRY_STC :=
  (filter (λ p, p.1 = (sid, t)) (sim_tables s)).*2.

Definition sim_group_map (s : sim) (sid : Z) :=
  default ∅ (sim_groups s !! sid).

Definition sim_observe_group (gid : Z)
    (v : group_semantics * gmap Z FPA_GROUP_BUCKET_ENTRY_STC) : option group :=
  Some {| group_entry := {| groupIdentifier := gid; groupTypeSemantics := v.1 |};
          group_buckets := v.2 |}.

Definition sim_set_tables (ts : list (Z * flow_table * FPA_FLOW_TABLE_ENTRY_STC)) (s : sim) : sim :=
  {| sim_tables := ts; sim_cursor := sim_cursor s; sim_groups := sim_groups s;
     sim_calls := S (sim_calls s) |}.

Definition sim_set_groups (sid : Z)
    (m : gmap Z (group_semantics * gmap Z FPA_GROUP_BUCKET_ENTRY_STC)) (s : sim) : sim :=
  {| sim_tables := sim_tables s; sim_cursor := sim_cursor s;
     sim_groups := <[sid := m]> (sim_groups s); sim_calls := S (sim_calls s) |}.

(** The smallest key above [k]. *)
Definition next_key (k : Z) (ks : list Z) : option Z :=
  foldr (λ x acc, if bool_decide (k < x)
                  then Some (match acc with Some a => Z.min x a | None => x end)
                  else acc) None ks.

Inductive sim_op := SimAdd | SimDelete.

Section simulator.
Variable faults : sim_op → nat → bool.

(** One state-changing call: fails when the plan says so. *)
Definition sim_call (op : sim_op) (s : sim) (k : FPA_STATUS * sim) : FPA_STATUS * sim :=
  if faults op (sim_calls s) then (FPA_FULL, sim_set_tables (sim_tables s) s) else k.

Definition sim_flow_add sid t e (s : sim) : FPA_STATUS * sim :=
  sim_call SimAdd s
    (FPA_OK, sim_set_tables
       (filter (λ p, ¬ (p.1 = (sid, t) ∧ match_of t p.2 = match_of t e)) (sim_tables s)
          ++ [((sid, t), e)]) s).

Definition sim_flow_delete (P : FPA_FLOW_TABLE_ENTRY_STC → bool) sid t (s : sim) :
    FPA_STATUS * sim :=
  sim_call SimDelete s
    (if bool_decide (Exists (λ e, P e = true) (sim_flows s sid t))
     then (FPA_OK, sim_set_tables
             (filter (λ p, ¬ (p.1 = (sid, t) ∧ P p.2 = true)) (sim_tables s)) s)
     else (FPA_NOT_FOUND, sim_set_tables (sim_tables s) s)).

Definition sim_flow_get_next sid t (i : Z) (s : sim) :=
  let pos := if decide (i = 1) then 0%nat else sim_cursor s in
  match sim_flows s sid t !! pos with
  | Some e => (FPA_OK, e, {| sim_tables := sim_tables s; sim_cursor := S pos;
                             sim_groups := sim_groups s; sim_calls := sim_calls s |})
  | None => (FPA_NO_MORE, sim_entry t, s)
  end.

Definition sim_group_build (i : FPA_GROUP_ENTRY_IDENTIFIER_STC) : FPA_STATUS * Z :=
  match groupType i with
  | FPA_GROUP_L2_INTERFACE_E =>
      if (0 <=? id_portNum i) && (id_portNum i <? 2 ^ 16)
         && (0 <=? id_vlanId i) && (id_vlanId i <? 2 ^ 12)
      then (FPA_OK, id_vlanId i * 2 ^ 16 + id_portNum i) else (FPA_BAD_PARAM, 0)
  | FPA_GROUP_L3_UNICAST_E =>
      if (0 <=? id_index i) && (id_index i <? 2 ^ 28)
      then (FPA_OK, 2 ^ 29 + id_index i) else (FPA_BAD_PARAM, 0)
  end.

Definition sim_group_add sid (e : FPA_GROUP_TABLE_ENTRY_STC) (s : sim) : FPA_STATUS * sim :=
  let m := sim_group_map s sid in
  sim_call SimAdd s
    (match m !! groupIdentifier e with
     | Some _ => (FPA_ALREADY_EXIST, sim_set_tables (sim_tables s) s)
     | None => (FPA_OK, sim_set_groups sid
                  (<[groupIdentifier e := (groupTypeSemantics e, ∅)]> m) s)
     end).

Definition sim_group_delete sid (gid : Z) (s : sim) : FPA_STATUS * sim :=
  let m := sim_group_map s sid in
  sim_call SimDelete s
    (match m !! gid with
     | Some _ => (FPA_OK, sim_set_groups sid (delete gid m) s)
     | None => (FPA_NO_SUCH, sim_set_tables (sim_tables s) s)
     end).

Definition sim_group_get sid (gid : Z) (s : sim) : FPA_STATUS * FPA_GROUP_TABLE_ENTRY_STC :=
  match sim_group_map s sid !! gid with
  | Some v => (FPA_OK, {| groupIdentifier := gid; groupTypeSemantics := v.1 |})
  | None => (FPA_NO_SUCH, {| groupIdentifier := 0; groupTypeSemantics := FPA_GROUP_INDIRECT |})
  end.

Definition sim_group_get_next sid (gid : Z) (s : sim) : FPA_STATUS * FPA_GROUP_TABLE_ENTRY_STC :=
  match next_key gid (elements (dom (sim_group_map s sid))) with
  | Some k => sim_group_get sid k s
  | None => (FPA_NO_MORE, {| groupIdentifier := 0; groupTypeSemantics := FPA_GROUP_INDIRECT |})
  end.

Definition sim_bucket_add sid (b : FPA_GROUP_BUCKET_ENTRY_STC) (s : sim) : FPA_STATUS * sim :=
  let m := sim_group_map s sid in
  sim_call SimAdd s
    (match m !! bucket_groupIdentifier b with
     | Some v => (FPA_OK, sim_set_groups sid
                    (<[bucket_groupIdentifier b := (v.1, <[bucket_index b := b]> v.2)]> m) s)
     | None => (FPA_NO_SUCH, sim_set_tables (sim_tables s) s)
     end).

Definition sim_bucket_delete sid (gid idx : Z) (s : sim) : FPA_STATUS * sim :=
  let m := sim_group_map s sid in
  sim_call SimDelete s
    (match m !! gid with
     | Some v => (FPA_OK, sim_set_groups sid
         (<[gid := (v.1, if decide (idx = -1) then ∅ else delete idx v.2)]> m) s)
     | None => (FPA_NO_SUCH, sim_set_tables (sim_tables s) s)
     end).

Definition sim_bucket_get sid (gid idx : Z) (s : sim) : FPA_STATUS * FPA_GROUP_BUCKET_ENTRY_STC :=
  match sim_group_map s sid !! gid ≫= (λ v, v.2 !! idx) with
  | Some b => (FPA_OK, b)
  | None => (FPA_NO_SUCH, {| bucket_groupIdentifier := 0; bucket_index := 0;
                             bucket_payload := l2Interface 0 false |})
  end.

#[local] Instance SimFpa : FPA_SDK := {|
  hw := sim;
  FPA_FLOW_VLAN_MASK_TAG := 0x1FFF;
  FPA_FLOW_VLAN_MASK_UNTAG := 0x0FFF;
  FPA_FLOW_VLAN_IGNORE_VAL := 0xFFFF;
  FPA_OUTPUT_CONTROLLER := 0xFFFFFFFD;
  FPA_FLOW_TABLE_METADATA_MAC2ME_BIT := 1;
  FPA_CONTROL_PKTS_TYPE_ARP_REQUEST_MESSAGES_E := 1;
  FPA_CONTROL_PKTS_TYPE_UDP_BROADCAST_CTRL_E := 2;
  fpaLibFlowEntryInit _ t _ := (FPA_OK, sim_entry t);
  fpaLibFlowEntryAdd := sim_flow_add;
  fpaLibFlowEntryDelete sid t e _ := sim_flow_delete (λ e', bool_decide (e' = e)) sid t;
  fpaLibFlowTableCookieDelete sid t c := sim_flow_delete (λ e, bool_decide (cookie e = c)) sid t;
  fpaLibFlowTableGetNext := sim_flow_get_next;
  fpaLibFlowTableDump _ _ s := s;
  fpaLibGroupIdentifierBuild := sim_group_build;
  fpaLibGroupTableEntryAdd := sim_group_add;
  fpaLibGroupTableEntryDelete := sim_group_delete;
  fpaLibGroupTableGetEntry := sim_group_get;
  fpaLibGroupTableGetNext := sim_group_get_next;
  fpaLibGroupEntryBucketAdd := sim_bucket_add;
  fpaLibGroupEntryBucketDelete := sim_bucket_delete;
  fpaLibGroupEntryBucketGet := sim_bucket_get;
  fpaLibGroupEntryStatisticsGet _ _ _ := (FPA_OK, 1);
  fpa_union_popVlanTagAction _ := false
|}.

#[local] Instance SimObs : FPA_OBS SimFpa := {|
  flows := sim_flows;
  flow_cursor := sim_cursor;
  groups s sid := map_imap sim_observe_group (sim_group_map s sid)
|}.

(** *** The tables after a change *)

Lemma elem_of_sim_flows s sid t e :
  e ∈ sim_flows s sid t ↔ ((sid, t), e) ∈ sim_tables s.
Proof.
  unfold sim_flows. rewrite list_elem_of_fmap. split.
  - intros ([[? ?] ?] & -> & Hin). apply list_elem_of_filter in Hin as [? ?]. by simplify_eq/=.
  - intros Hin. exists ((sid, t), e). split; [done|]. by apply list_elem_of_filter.
Qed.

Lemma sim_flows_filter_other (Q : Z * flow_table * FPA_FLOW_TABLE_ENTRY_STC → Prop)
    `{!∀ p, Decision (Q p)} s sid t sid' t' :
  (∀ p, ¬ Q p → p.1 = (sid, t)) → sid' ≠ sid ∨ t' ≠ t →
  (filter (λ p, p.1 = (sid', t')) (filter Q (sim_tables s))).*2 = sim_flows s sid' t'.
Proof.
  intros HQ Hne. unfold sim_flows. f_equal.
  rewrite list_filter_filter. apply list_filter_iff. intros p.
  split; [by intros [? ?]|]. intros Hp. split; [done|].
  destruct (decide (Q p)) as [|Hn]; [done|]. apply HQ in Hn.
  rewrite Hn in Hp. destruct Hne; congruence.
Qed.

Lemma sim_groups_set_eq s sid m : sim_group_map (sim_set_groups sid m s) sid = m.
Proof. unfold sim_group_map; simpl. by rewrite lookup_insert_eq. Qed.

Lemma sim_groups_set_ne s sid sid' m :
  sid' ≠ sid → sim_group_map (sim_set_groups sid m s) sid' = sim_group_map s sid'.
Proof. intros. unfold sim_group_map; simpl. by rewrite lookup_insert_ne. Qed.

Lemma lookup_sim_groups s sid gid :
  groups s sid !! gid = sim_group_map s sid !! gid ≫= sim_observe_group gid.
Proof. simpl. by rewrite map_lookup_imap. Qed.

Lemma sim_set_groups_frame s sid m : hw_same_but_groups sid s (sim_set_groups sid m s).
Proof. split; [done|]. intros. simpl. by rewrite sim_groups_set_ne. Qed.

Lemma sim_bump_same s : hw_same s (sim_set_tables (sim_tables s) s).
Proof. by split. Qed.

Lemma next_key_spec k ks :
  match next_key k ks with
  | Some x => x ∈ ks ∧ k < x ∧ ∀ y, y ∈ ks → k < y → x ≤ y
  | None => ∀ y, y ∈ ks → y ≤ k
  end.
Proof.
  induction ks as [|y ks IH]; simpl; [set_solver|].
  case_bool_decide as Hy; destruct (next_key k ks) as [x|].
  - destruct IH as (Hin & Hlt & Hmin). split_and!; [|lia|].
    + destruct (Z.min_spec y x) as [[? ->]|[? ->]]; set_solver.
    + intros z [->|Hz]%elem_of_cons ?; [lia|]. specialize (Hmin z Hz). lia.
  - split_and!; [set_solver|done|]. intros z [->|Hz]%elem_of_cons ?; [lia|].
    specialize (IH z Hz). lia.
  - destruct IH as (Hin & Hlt & Hmin). split_and!; [set_solver|done|].
    intros z [->|Hz]%elem_of_cons ?; [lia|auto].
  - intros z [->|Hz]%elem_of_cons; [lia|auto].
Qed.

Lemma gid_l2_layout pid vid :
  0 ≤ pid < 2 ^ 16 → 0 ≤ vid < 2 ^ 12 →
  let gid := vid * 2 ^ 16 + pid in
  Z.land gid 0xFFFF = pid ∧ Z.shiftr (Z.land gid 0x0FFF0000) 16 = vid ∧
  Z.shiftr gid 28 = 0.
Proof.
  intros Hp Hv gid.
  assert (Hlow : Z.land gid 0xFFFF = pid).
  { change 0xFFFF with (Z.ones 16). rewrite Z.land_ones by lia. unfold gid.
    rewrite Z.add_comm, Z.mod_add by lia. by apply Z.mod_small. }
  assert (Hsh : Z.shiftr gid 16 = vid).
  { unfold gid. rewrite Z.shiftr_div_pow2 by lia.
    rewrite Z.add_comm, Z.div_add by lia. rewrite Z.div_small; lia. }
  split_and!; [done| |].
  - rewrite Z.shiftr_land, Hsh. change (Z.shiftr 0x0FFF0000 16) with (Z.ones 12).
    rewrite Z.land_ones by lia. by apply Z.mod_small.
  - rewrite Z.shiftr_div_pow2 by lia. apply Z.div_small. unfold gid. lia.
Qed.

(** *** The laws *)

Ltac sim_cases :=
  intros; simpl in *; unfold sim_call in *; repeat case_match; simplify_eq.

Lemma sim_flow_add_law sid t e s st s' :
  sim_flow_add sid t e s = (st, s') →
  (st = FPA_OK ∧ flow_added t e (sim_flows s sid t) (sim_flows s' sid t) ∧
     hw_same_but_table sid t s s') ∨ (st ≠ FPA_OK ∧ hw_same s s').
Proof.
  unfold sim_flow_add. sim_cases; [by right|left].
  split_and!; [done|split_and!|].
  - apply elem_of_sim_flows. simpl. set_solver.
  - intros e' He'%elem_of_sim_flows; simpl in He'.
    apply elem_of_app in He' as [He'|He']; [right|left; set_solver].
    apply list_elem_of_filter in He' as [_ ?]. by apply elem_of_sim_flows.
  - intros e' He'%elem_of_sim_flows.
    destruct (decide (match_of t e' = match_of t e)) as [|Hne]; [by right|left].
    apply elem_of_sim_flows; simpl. apply elem_of_app; left.
    apply list_elem_of_filter; simpl. naive_solver.
  - split; [|done]. intros sid' t' Hne. simpl.
    unfold sim_flows at 1; simpl.
    rewrite filter_app, fmap_app, filter_cons_False, filter_nil by (simpl; naive_solver).
    rewrite app_nil_r. apply sim_flows_filter_other with sid t; [|done].
    intros p Hp. by apply dec_stable in Hp as [? _].
Qed.

Lemma sim_flow_delete_law P sid t s st s' :
  sim_flow_delete P sid t s = (st, s') →
  (st = FPA_OK ∧ (∀ e, e ∈ sim_flows s' sid t ↔ e ∈ sim_flows s sid t ∧ P e ≠ true) ∧
     hw_same_but_table sid t s s') ∨ (st ≠ FPA_OK ∧ hw_same s s').
Proof.
  unfold sim_flow_delete. sim_cases; [by right|left|by right].
  split_and!; [done| |].
  - intros e. rewrite !elem_of_sim_flows; simpl. rewrite list_elem_of_filter; simpl. naive_solver.
  - split; [|done]. intros sid' t' Hne. simpl. unfold sim_flows at 1; simpl.
    apply sim_flows_filter_other with sid t; [|done].
    intros p Hp. by apply dec_stable in Hp as [? _].
Qed.

Lemma sim_groups_insert s sid gid v :
  groups (sim_set_groups sid (<[gid := v]> (sim_group_map s sid)) s) sid =
  <[gid := {| group_entry := {| groupIdentifier := gid; groupTypeSemantics := v.1 |};
              group_buckets := v.2 |}]> (groups s sid).
Proof. simpl. rewrite sim_groups_set_eq. by apply map_imap_insert_Some. Qed.

Lemma sim_groups_delete s sid gid :
  groups (sim_set_groups sid (delete gid (sim_group_map s sid)) s) sid =
  delete gid (groups s sid).
Proof. simpl. rewrite sim_groups_set_eq. by rewrite map_imap_delete. Qed.

Lemma sim_group_get_next_law sid gid s st e :
  sim_group_get_next sid gid s = (st, e) →
  (st = FPA_OK ∧ gid < groupIdentifier e ∧
     (∃ g, groups s sid !! groupIdentifier e = Some g ∧ group_entry g = e) ∧
     (∀ k, gid < k → is_Some (groups s sid !! k) → groupIdentifier e ≤ k)) ∨
  (st ≠ FPA_OK ∧ ∀ k, is_Some (groups s sid !! k) → k ≤ gid).
Proof.
  unfold sim_group_get_next. intros Hget.
  pose proof (next_key_spec gid (elements (dom (sim_group_map s sid)))) as Hspec.
  assert (Hdom : ∀ k, is_Some (groups s sid !! k) ↔ k ∈ elements (dom (sim_group_map s sid))).
  { intros k. rewrite elem_of_elements, elem_of_dom, lookup_sim_groups.
    destruct (sim_group_map s sid !! k); simpl; unfold sim_observe_group; split; intros [? ?];
      simplify_eq; eauto. }
  destruct (next_key gid _) as [x|]; simplify_eq.
  - destruct Hspec as (Hin & Hlt & Hmin). left.
    apply elem_of_elements, elem_of_dom in Hin as [v Hv].
    unfold sim_group_get in Hget. rewrite Hv in Hget. simplify_eq/=.
    split_and!; [done|done| |].
    + eexists. rewrite map_lookup_imap, Hv. by split.
    + intros k Hk Hs. apply Hmin; [by apply Hdom|done].
  - right. split; [done|]. intros k Hk. by apply Hspec, Hdom.
Qed.

#[local] Instance SimLaws : FPA_LAWS SimFpa SimObs.
Proof.
  split.
  - done.
  - intros * H. by destruct (sim_flow_add_law _ _ _ _ _ _ H) as [(_ & ? & ?)|[? _]].
  - intros * H ?. by destruct (sim_flow_add_law _ _ _ _ _ _ H) as [(? & _)|[_ ?]].
  - intros * H. destruct (sim_flow_delete_law _ _ _ _ _ _ H) as [(_ & Hin & ?)|[? _]]; [|done].
    split; [|done]. intros e. simpl. rewrite Hin. by rewrite bool_decide_eq_true.
  - intros * H ?. by destruct (sim_flow_delete_law _ _ _ _ _ _ H) as [(? & _)|[_ ?]].
  - intros sid t i s st e s' H. simpl in *. unfold sim_flow_get_next in H.
    repeat case_match; simplify_eq/=; done.
  - done.
  - intros pid vid idx st gid Hb Hp Hv. simpl in Hb. unfold sim_group_build in Hb; simpl in Hb.
    rewrite (proj2 (Z.leb_le 0 pid)), (proj2 (Z.ltb_lt pid _)),
      (proj2 (Z.leb_le 0 vid)), (proj2 (Z.ltb_lt vid _)) in Hb by lia. simplify_eq/=.
    split; [done|]. split; [lia|]. by apply gid_l2_layout.
  - intros pid vid idx gid Hb. simpl in Hb. unfold sim_group_build in Hb; simpl in Hb.
    case_match eqn:Hc; simplify_eq/=. apply andb_true_iff in Hc as [?%Z.leb_le ?%Z.ltb_lt].
    split_and!; [lia|lia| |].
    + rewrite Z.shiftr_div_pow2 by lia. intros Hz%Z.div_small_iff; lia.
    + rewrite Z.land_ones by lia. symmetry. apply Z.mod_unique with 2; lia.
  - intros s sid gid g. rewrite lookup_sim_groups.
    unfold sim_observe_group. destruct (_ !! gid); simpl; naive_solver.
  - intros sid e s s' H. simpl in H. unfold sim_group_add in H. sim_cases.
    match goal with H : _ !! _ = None |- _ => rename H into Hn end.
    split_and!; [by rewrite map_lookup_imap, Hn| |apply sim_set_groups_frame].
    etransitivity; [apply sim_groups_insert|]. by destruct e.
  - intros sid e s st s' H ?. simpl in H. unfold sim_group_add in H. by sim_cases.
  - intros sid gid s s' H. simpl in H. unfold sim_group_delete in H. sim_cases.
    split; [apply sim_groups_delete|apply sim_set_groups_frame].
  - intros sid gid s st s' H ?. simpl in H. unfold sim_group_delete in H. by sim_cases.
  - intros sid gid s st e H. rewrite lookup_sim_groups. simpl in H. unfold sim_group_get in H.
    unfold sim_observe_group. destruct (_ !! gid); simplify_eq/=; done.
  - intros sid gid s st e H. by apply sim_group_get_next_law.
  - intros sid b s s' H. simpl in H. unfold sim_bucket_add in H. sim_cases.
    match goal with H : _ !! _ = Some _ |- _ => rename H into Hn end.
    split; [|apply sim_set_groups_frame].
    eexists. rewrite map_lookup_imap, Hn. split; [done|].
    etransitivity; [apply sim_groups_insert|]. done.
  - intros sid b s st s' H ?. simpl in H. unfold sim_bucket_add in H. by sim_cases.
  - intros sid gid idx s st b H. rewrite lookup_sim_groups. simpl in H. unfold sim_bucket_get in H.
    destruct (sim_group_map s sid !! gid) as [v|]; simpl in *; [|by simplify_eq].
    by destruct (v.2 !! idx); simplify_eq.
Qed.

Lemma sim_call_ok op s k : (∀ n, faults op n = false) → sim_call op s k = k.
Proof. intros Hok. unfold sim_call. by rewrite Hok. Qed.

#[local] Instance SimNofail : (∀ n, faults SimAdd n = false) → FPA_NOFAIL SimFpa SimObs.
Proof.
  intros Hok. split; simpl.
  - done.
  - intros. unfold sim_flow_add. by rewrite sim_call_ok.
  - intros sid e s Hn. unfold sim_group_add. rewrite sim_call_ok by done.
    rewrite map_lookup_imap in Hn.
    by destruct (sim_group_map s sid !! groupIdentifier e).
  - intros sid b s Hn. unfold sim_bucket_add. rewrite sim_call_ok by done.
    rewrite map_lookup_imap in Hn.
    destruct (sim_group_map s sid !! _); [done|]. by destruct Hn.
Qed.

#[local] Instance SimDeletes : (∀ n, faults SimDelete n = false) → FPA_DELETES SimFpa SimObs.
Proof.
  intros Hok. split; simpl.
  - intros sid t c s (e & He & Hc). unfold sim_flow_delete. rewrite sim_call_ok by done.
    rewrite bool_decide_eq_true_2; [done|]. apply Exists_exists.
    exists e. split; [done|]. by apply bool_decide_eq_true_2.
  - intros sid gid s Hn. unfold sim_group_delete. rewrite sim_call_ok by done.
    rewrite map_lookup_imap in Hn.
    destruct (sim_group_map s sid !! gid); [done|]. by destruct Hn.
Qed.
End simulator.

(** The switch that never refuses a call. *)
Definition no_faults : sim_op → nat → bool := λ _ _, false.

(** The switch whose [n]-th call fails if it adds something. *)
Definition add_fault (n : nat) : sim_op → nat → bool :=
  λ op k, match op with SimAdd => bool_decide (k = n) | SimDelete => false end.

#[export] Existing Instances SimFpa SimObs SimLaws.

#[export] Instance sim_nofail : FPA_NOFAIL (SimFpa no_faults) (SimObs no_faults) :=
  SimNofail no_faults (λ _, eq_refl).
#[export] Instance sim_deletes : FPA_DELETES (SimFpa no_faults) (SimObs no_faults) :=
  SimDeletes no_faults (λ _, eq_refl).
#[export] Instance sim_deletes_add_fault n :
  FPA_DELETES (SimFpa (add_fault n)) (SimObs (add_fault n)) :=
  SimDeletes (add_fault n) (λ _, eq_refl).
