(* ===== verification/Wrap.v ===== *)
(** * Logging wrappers of the SDK calls (src/ops-fpa-wrap.c)

    Each wrapper forwards the call and dumps the table to the log; the dump does
    not change what can be observed, so a wrapper obeys the law of its call. *)

From S2P Require Import Prelude Fpa.

Section wrap.
Context {F : FPA_SDK}.

Definition wrap_fpaLibFlowEntryAdd (switchId : Z) (flowTableNo : flow_table)
    (flowEntry : FPA_FLOW_TABLE_ENTRY_STC) (h : hw) : FPA_STATUS * hw :=
  let '(err, h) := fpaLibFlowEntryAdd switchId flowTableNo flowEntry h in
  let h := fpaLibFlowTableDump switchId flowTableNo h in
  (err, h).

Definition wrap_fpaLibFlowEntryDelete (switchId : Z) (flowTableNo : flow_table)
    (flowEntry : FPA_FLOW_TABLE_ENTRY_STC) (matchingMode : Z) (h : hw) : FPA_STATUS * hw :=
  let '(err, h) := fpaLibFlowEntryDelete switchId flowTableNo flowEntry matchingMode h in
  let h := fpaLibFlowTableDump switchId flowTableNo h in
  (err, h).

Definition wrap_fpaLibFlowTableCookieDelete (switchId : Z) (flowTableNo : flow_table)
    (c : Z) (h : hw) : FPA_STATUS * hw :=
  let '(err, h) := fpaLibFlowTableCookieDelete switchId flowTableNo c h in
  let h := fpaLibFlowTableDump switchId flowTableNo h in
  (err, h).

Definition wrap_fpaLibGroupTableEntryAdd (switchId : Z)
    (groupEntry : FPA_GROUP_TABLE_ENTRY_STC) (h : hw) : FPA_STATUS * hw :=
  fpaLibGroupTableEntryAdd switchId groupEntry h.

Definition wrap_fpaLibGroupTableEntryDelete (switchId : Z) (gid : Z) (h : hw) :
    FPA_STATUS * hw :=
  fpaLibGroupTableEntryDelete switchId gid h.

Definition wrap_fpaLibGroupEntryBucketAdd (switchId : Z)
    (bucket : FPA_GROUP_BUCKET_ENTRY_STC) (h : hw) : FPA_STATUS * hw :=
  fpaLibGroupEntryBucketAdd switchId bucket h.

Definition wrap_fpaLibGroupEntryBucketDelete (switchId gid bucketIndex : Z) (h : hw) :
    FPA_STATUS * hw :=
  fpaLibGroupEntryBucketDelete switchId gid bucketIndex h.

Context {O : FPA_OBS F} `{!FPA_LAWS F O}.

Lemma wrap_flow_add_ok sid t e h h' :
  wrap_fpaLibFlowEntryAdd sid t e h = (FPA_OK, h') →
  flow_added t e (flows h sid t) (flows h' sid t) ∧ hw_same_but_table sid t h h'.
Proof.
  unfold wrap_fpaLibFlowEntryAdd. destruct (fpaLibFlowEntryAdd _ _ _ _) as [st h1] eqn:E.
  intros. simplify_eq. apply flow_add_ok in E as [Hadd Hsame].
  by rewrite <- (flow_dump sid t h1).
Qed.

Lemma wrap_flow_add_err sid t e h st h' :
  wrap_fpaLibFlowEntryAdd sid t e h = (st, h') → st ≠ FPA_OK → hw_same h h'.
Proof.
  unfold wrap_fpaLibFlowEntryAdd. destruct (fpaLibFlowEntryAdd _ _ _ _) as [st' h1] eqn:E.
  intros. simplify_eq. by rewrite <- (flow_dump sid t h1); eapply flow_add_err.
Qed.

Lemma wrap_cookie_delete_ok sid t c h h' :
  wrap_fpaLibFlowTableCookieDelete sid t c h = (FPA_OK, h') →
  flow_cookie_deleted c (flows h sid t) (flows h' sid t) ∧ hw_same_but_table sid t h h'.
Proof.
  unfold wrap_fpaLibFlowTableCookieDelete.
  destruct (fpaLibFlowTableCookieDelete _ _ _ _) as [st h1] eqn:E.
  intros. simplify_eq. apply flow_cookie_delete_ok in E as [Hdel Hsame].
  by rewrite <- (flow_dump sid t h1).
Qed.

Lemma wrap_cookie_delete_err sid t c h st h' :
  wrap_fpaLibFlowTableCookieDelete sid t c h = (st, h') → st ≠ FPA_OK → hw_same h h'.
Proof.
  unfold wrap_fpaLibFlowTableCookieDelete.
  destruct (fpaLibFlowTableCookieDelete _ _ _ _) as [st' h1] eqn:E.
  intros. simplify_eq. by rewrite <- (flow_dump sid t h1); eapply flow_cookie_delete_err.
Qed.

Lemma wrap_cookie_delete_succeeds `{!FPA_DELETES F O} sid t c h :
  (∃ e, e ∈ flows h sid t ∧ cookie e = c) →
  (wrap_fpaLibFlowTableCookieDelete sid t c h).1 = FPA_OK.
Proof.
  intros He. unfold wrap_fpaLibFlowTableCookieDelete.
  pose proof (flow_cookie_delete_succeeds sid t c h He).
  by destruct (fpaLibFlowTableCookieDelete _ _ _ _).
Qed.

Lemma wrap_flow_add_succeeds `{!FPA_NOFAIL F O} sid t e h :
  (wrap_fpaLibFlowEntryAdd sid t e h).1 = FPA_OK.
Proof.
  unfold wrap_fpaLibFlowEntryAdd. pose proof (flow_add_succeeds sid t e h).
  by destruct (fpaLibFlowEntryAdd _ _ _ _).
Qed.
End wrap.

(** ** A switch with extra flows

    [tables_plus sid l T h]: the tables of [h] are those of [T] with the entries of
    [l] added to switch [sid]; the order of a table does not matter. *)

Section hw_plus.
Context {F : FPA_SDK} {O : FPA_OBS F}.

Record tables := {
  tb_flows : Z → flow_table → list FPA_FLOW_TABLE_ENTRY_STC;
  tb_groups : Z → gmap Z group
}.

Definition observed (h : hw) : tables := {| tb_flows := flows h; tb_groups := groups h |}.

Definition tables_plus (sid : Z) (l : list (flow_table * FPA_FLOW_TABLE_ENTRY_STC)) (T : tables)
    (h : hw) : Prop :=
  (∀ t x, x ∈ flows h sid t ↔ (t, x) ∈ l ∨ x ∈ tb_flows T sid t) ∧
  (∀ sid' t, sid' ≠ sid → flows h sid' t = tb_flows T sid' t) ∧
  (∀ sid', groups h sid' = tb_groups T sid').

(** The same relative to another switch. *)
Definition hw_plus (sid : Z) (l : list (flow_table * FPA_FLOW_TABLE_ENTRY_STC)) (h0 : hw) : hw → Prop :=
  tables_plus sid l (observed h0).

Lemma hw_plus_nil sid h : hw_plus sid [] h h.
Proof. split_and!; [set_solver|done|done]. Qed.

Lemma tables_plus_same sid l T h h' : tables_plus sid l T h → hw_same h h' → tables_plus sid l T h'.
Proof.
  intros (Hf & Hf' & Hg) [Hs Hs']. split_and!; intros; by rewrite ?Hs, ?Hs', ?Hf, ?Hf', ?Hg.
Qed.

(** No entry of [T] or [l] in table [t] could be mistaken for [e]. *)
Definition fresh_flow (sid : Z) (l : list (flow_table * FPA_FLOW_TABLE_ENTRY_STC)) (T : tables)
    (t : flow_table) (e : FPA_FLOW_TABLE_ENTRY_STC) : Prop :=
  ∀ x, (t, x) ∈ l ∨ x ∈ tb_flows T sid t → match_of t x ≠ match_of t e ∧ cookie x ≠ cookie e.

Context `{!FPA_LAWS F O}.

Lemma install_flow sid t e l T h st h' :
  tables_plus sid l T h → fresh_flow sid l T t e →
  wrap_fpaLibFlowEntryAdd sid t e h = (st, h') →
  if failed st then tables_plus sid l T h' else tables_plus sid ((t, e) :: l) T h'.
Proof.
  intros Hplus Hfresh Hadd. destruct (failed st) eqn:Hst.
  - apply failed_true in Hst. eapply tables_plus_same; [done|]. by eapply wrap_flow_add_err.
  - apply failed_false in Hst as ->.
    apply wrap_flow_add_ok in Hadd as [(Hin & Hnew & Hold) [Hfr Hgr]].
    destruct Hplus as (Hf & Hf' & Hg). split_and!.
    + intros t' x. rewrite elem_of_cons.
      destruct (decide (t' = t)) as [->|Hne]; [|rewrite Hfr, Hf by auto; naive_solver].
      split.
      * intros [->|Hx%Hf]%Hnew; naive_solver.
      * intros [[[= ->]|Hx]|Hx]; [done| |];
          (destruct (Hold x) as [?|Hm]; [apply Hf; auto|done|]);
          by destruct (Hfresh x) as [? _]; auto.
    + intros sid' t' Hne. rewrite Hfr by auto. by apply Hf'.
    + intros sid'. by rewrite Hgr, Hg.
Qed.

Lemma uninstall_flow `{!FPA_DELETES F O} sid t e l l' T h st h' :
  tables_plus sid l T h → (t, e) ∈ l → fresh_flow sid l' T t e →
  (∀ p, p ∈ l ↔ p = (t, e) ∨ p ∈ l') →
  wrap_fpaLibFlowTableCookieDelete sid t (cookie e) h = (st, h') →
  st = FPA_OK ∧ tables_plus sid l' T h'.
Proof.
  intros (Hf & Hf' & Hg) Hin Hfresh Hl Hdel.
  assert (st = FPA_OK) as ->.
  { pose proof (wrap_cookie_delete_succeeds sid t (cookie e) h) as Hok.
    rewrite Hdel in Hok. apply Hok. exists e. split; [|done]. apply Hf. auto. }
  split; [done|]. apply wrap_cookie_delete_ok in Hdel as [Hd [Hfr Hgr]]. split_and!.
  - intros t' x. destruct (decide (t' = t)) as [->|Hne].
    + rewrite (Hd x), Hf, Hl. split.
      * intros [[[[= ->]|?]|?] Hc]; [done|auto..].
      * intros Hx. destruct (Hfresh x Hx). split; [|done]. naive_solver.
    + rewrite Hfr, Hf, Hl by auto. naive_solver.
  - intros sid' t' Hne. rewrite Hfr by auto. by apply Hf'.
  - intros sid'. by rewrite Hgr, Hg.
Qed.
End hw_plus.
