(* ===== verification/Route.v ===== *)
(** * Groups and routes (src/ops-fpa-route.c)

    L2 interface groups (one per port and VLAN), L3 unicast groups (one per ARP
    index) and the IPv4 entries of the L3 unicast flow table.  An [int] result
    that callers only compare with zero is a [bool], [true] for an error. *)

From S2P Require Import Prelude Fpa FpaSim Wrap.

(** ** Cookies and masks *)

Definition OPS_FPA_ROUTE_IPV4_COOKIE (ipv4 mask_len : Z) : Z :=
  Z.lor (u64 (Z.shiftl (u64 ipv4) 8)) (Z.land 0xff mask_len).

(** [0xffffffff >> (32 - mask_len)] on [unsigned int]: a shift count outside
    [0, 31] is undefined. *)
Definition route_mask (mask_len : Z) : outcome Z :=
  let n := 32 - mask_len in
  if (0 <=? n) && (n <? 32) then Done (Z.shiftr 0xffffffff n) else Crash Undefined.

Section route.
Context {F : FPA_SDK}.

Definition ops_fpa_route_add_l2_group (sid pid vid : Z) (pop_tag : bool) (h : hw) :
    bool * Z * hw :=
  let ident := {| groupType := FPA_GROUP_L2_INTERFACE_E;
                  id_portNum := pid; id_vlanId := vid; id_index := 0 |} in
  let '(err, gid) := fpaLibGroupIdentifierBuild ident in
  if failed err then (true, gid, h) else
  let entry := {| groupIdentifier := gid; groupTypeSemantics := FPA_GROUP_INDIRECT |} in
  let '(err, h) := fpaLibGroupTableEntryAdd sid entry h in
  if failed err then (true, gid, h) else
  let bucket := {| bucket_groupIdentifier := gid; bucket_index := 0;
                   bucket_payload := l2Interface pid pop_tag |} in
  let '(err, h) := fpaLibGroupEntryBucketAdd sid bucket h in
  if failed err then
    let '(_, h) := fpaLibGroupTableEntryDelete sid gid h in
    (true, gid, h)
  else (false, gid, h).

Definition ops_fpa_route_add_l3_group (sid l2_group arp_index vid mtu : Z)
    (src_mac dst_mac : mac) (h : hw) : bool * Z * hw :=
  let ident := {| groupType := FPA_GROUP_L3_UNICAST_E;
                  id_portNum := 0; id_vlanId := 0; id_index := arp_index |} in
  let '(err, l3_group) := fpaLibGroupIdentifierBuild ident in
  if failed err then (true, l3_group, h) else
  (* Exit if L3 entry exist. *)
  let '(err, _) := fpaLibGroupTableGetEntry sid l3_group h in
  if negb (failed err) then (true, l3_group, h) else
  let entry := {| groupIdentifier := l3_group; groupTypeSemantics := FPA_GROUP_INDIRECT |} in
  let '(err, h) := wrap_fpaLibGroupTableEntryAdd sid entry h in
  if failed err then (true, l3_group, h) else
  let bucket := {| bucket_groupIdentifier := l3_group; bucket_index := 0;
                   bucket_payload := l3Unicast dst_mac src_mac vid mtu l2_group |} in
  let '(err, h) := wrap_fpaLibGroupEntryBucketAdd sid bucket h in
  if failed err then
    let '(_, h) := wrap_fpaLibGroupTableEntryDelete sid l3_group h in
    (true, 0, h)
  else (false, l3_group, h).

(** The fields both kinds of route set on the initialised entry [e]. *)
Definition l3_unicast_entry (e : FPA_FLOW_TABLE_ENTRY_STC)
    (group outputPort ipv4 mask_len mask : Z) : FPA_FLOW_TABLE_ENTRY_STC := {|
  cookie := OPS_FPA_ROUTE_IPV4_COOKIE ipv4 mask_len;
  priority := priority e; timeoutIdleTime := timeoutIdleTime e;
  timeoutHardTime := timeoutHardTime e; flowModFlags := flowModFlags e;
  entryType := entryType e;
  data_control_pkt := data_control_pkt e; data_vlan := data_vlan e;
  data_termination := data_termination e; data_l2_bridging := data_l2_bridging e;
  data_l3_unicast := {|
    l3_etherType := 0x800;
    l3_vrfId := l3_vrfId (data_l3_unicast e);
    l3_dstIp4 := ipv4;
    l3_dstIp4Mask := mask;
    l3_groupId := group;
    l3_outputPort := outputPort;
    l3_clearActions := l3_clearActions (data_l3_unicast e);
    l3_gotoTableNo := l3_gotoTableNo (data_l3_unicast e)
  |}
|}.

Definition ops_fpa_route_add_route (sid l3_group ipv4 mask_len : Z) (h : hw) :
    outcome (bool * hw) :=
  let '(err, entry) := fpaLibFlowEntryInit sid FPA_FLOW_TABLE_TYPE_L3_UNICAST_E h in
  if failed err then Done (true, h) else
  let* mask := route_mask mask_len in
  let entry := l3_unicast_entry entry l3_group 0 ipv4 mask_len mask in
  let '(err, h) := wrap_fpaLibFlowEntryAdd sid FPA_FLOW_TABLE_TYPE_L3_UNICAST_E entry h in
  Done (failed err, h).

Definition ops_fpa_route_add_route_trap (sid ipv4 mask_len : Z) (h : hw) :
    outcome (bool * hw) :=
  let '(err, entry) := fpaLibFlowEntryInit sid FPA_FLOW_TABLE_TYPE_L3_UNICAST_E h in
  if failed err then Done (true, h) else
  let* mask := route_mask mask_len in
  let entry := l3_unicast_entry entry 0xffffffff FPA_OUTPUT_CONTROLLER ipv4 mask_len mask in
  let '(err, h) := wrap_fpaLibFlowEntryAdd sid FPA_FLOW_TABLE_TYPE_L3_UNICAST_E entry h in
  Done (failed err, h).

Definition ops_fpa_route_del_route (sid ipv4 mask_len : Z) (h : hw) : bool * hw :=
  let '(err, h) := wrap_fpaLibFlowTableCookieDelete sid FPA_FLOW_TABLE_TYPE_L3_UNICAST_E
                     (OPS_FPA_ROUTE_IPV4_COOKIE ipv4 mask_len) h in
  if failed err then (true, h) else (false, h).

Definition ops_fpa_route_del_group (sid group : Z) (h : hw) : bool * hw :=
  let '(err, h) := wrap_fpaLibGroupTableEntryDelete sid group h in
  if failed err then (true, h) else (false, h).
End route.

(** ** Cookies *)

Lemma route_cookie_value ipv4 mask_len :
  0 ≤ ipv4 < 2 ^ 32 → 0 ≤ mask_len < 2 ^ 8 →
  OPS_FPA_ROUTE_IPV4_COOKIE ipv4 mask_len = ipv4 * 2 ^ 8 + mask_len.
Proof.
  intros Hip Hm. unfold OPS_FPA_ROUTE_IPV4_COOKIE, u64.
  rewrite (wrap_small 64 ipv4) by lia.
  rewrite (wrap_small 64) by (rewrite Z.shiftl_mul_pow2; lia).
  rewrite Z.land_comm. change 0xff with (Z.ones 8). rewrite land_ones_small by done.
  apply lor_shiftl_add; lia.
Qed.

(** The IPv4 address of a dotted quad [a.b.c.d] as the host reads the network
    order word, and the network mask of a prefix in that order: octet [k] holds
    the [k]-th group of eight bits of the prefix. *)
Definition ip4_word (a b c d : Z) : Z := a + b * 2 ^ 8 + c * 2 ^ 16 + d * 2 ^ 24.

Definition octet_mask (n : Z) : Z := 256 - 2 ^ (8 - Z.max 0 (Z.min 8 n)).

Definition netmask_word (len : Z) : Z :=
  ip4_word (octet_mask len) (octet_mask (len - 8)) (octet_mask (len - 16)) (octet_mask (len - 24)).

Lemma route_mask_value len : 1 ≤ len ≤ 32 → route_mask len = Done (2 ^ len - 1).
Proof.
  intros Hl. unfold route_mask.
  rewrite (proj2 (Z.leb_le _ _)), (proj2 (Z.ltb_lt _ _)) by lia. simpl. f_equal.
  rewrite Z.shiftr_div_pow2 by lia.
  symmetry. apply Z.div_unique with (2 ^ (32 - len) - 1); [lia|].
  assert (2 ^ (32 - len) * 2 ^ len = 2 ^ 32).
  { rewrite <- Z.pow_add_r by lia. f_equal. lia. }
  lia.
Qed.

Lemma route_mask_undefined len : len < 1 ∨ 32 < len → route_mask len = Crash Undefined.
Proof.
  intros Hl. unfold route_mask. case_match eqn:Hc; [|done].
  apply andb_true_iff in Hc as [?%Z.leb_le ?%Z.ltb_lt]. lia.
Qed.

(** Checks a statement about a prefix length on each of the 32 lengths. *)
Lemma prefix_cases (P : Z → bool) :
  forallb P (seqZ 1 32) = true → ∀ len, 1 ≤ len ≤ 32 → P len = true.
Proof.
  intros Hall len Hl. rewrite forallb_forall in Hall. apply Hall.
  apply list_elem_of_In, elem_of_seqZ. lia.
Qed.

(** The mask a route of prefix length [len] is installed with is the network
    mask of that prefix exactly when the prefix ends on an octet: for every other
    length the shift selects the wrong bits of the last octet. *)
Theorem route_mask_octets len :
  1 ≤ len ≤ 32 → route_mask len = Done (netmask_word len) ↔ len mod 8 = 0.
Proof.
  intros Hl. rewrite route_mask_value by done.
  pose proof (prefix_cases (λ n, Bool.eqb (2 ^ n - 1 =? netmask_word n) (n mod 8 =? 0))
    ltac:(vm_compute; reflexivity) len Hl) as Hc.
  apply Bool.eqb_prop in Hc. rewrite <- Z.eqb_eq, <- Hc, Z.eqb_eq. split; congruence.
Qed.

(** ** Groups are created whole or not at all *)

Section route_groups.
Context {F : FPA_SDK} {O : FPA_OBS F} `{!FPA_LAWS F O}.

Definition l2_group_id (pid vid : Z) : FPA_STATUS * Z :=
  fpaLibGroupIdentifierBuild
    {| groupType := FPA_GROUP_L2_INTERFACE_E;
       id_portNum := pid; id_vlanId := vid; id_index := 0 |}.

(** The group [ops_fpa_route_add_l2_group] creates. *)
Definition l2_group (gid pid : Z) (pop : bool) : group := {|
  group_entry := {| groupIdentifier := gid; groupTypeSemantics := FPA_GROUP_INDIRECT |};
  group_buckets := {[0 := {| bucket_groupIdentifier := gid; bucket_index := 0;
                             bucket_payload := l2Interface pid pop |}]}
|}.

Lemma l2_group_inj gid pid pop gid' pid' pop' :
  l2_group gid pid pop = l2_group gid' pid' pop' → pop = pop'.
Proof.
  intros Heq. apply (f_equal (λ g, group_buckets g !! 0)) in Heq. simpl in Heq.
  rewrite !lookup_singleton_eq in Heq. congruence.
Qed.

Definition l3_group (gid l2_gid vid mtu : Z) (src dst : mac) : group := {|
  group_entry := {| groupIdentifier := gid; groupTypeSemantics := FPA_GROUP_INDIRECT |};
  group_buckets := {[0 := {| bucket_groupIdentifier := gid; bucket_index := 0;
                             bucket_payload := l3Unicast dst src vid mtu l2_gid |}]}
|}.

Lemma add_l2_group_ok sid pid vid pop h gid h' :
  ops_fpa_route_add_l2_group sid pid vid pop h = (false, gid, h') →
  l2_group_id pid vid = (FPA_OK, gid) ∧
  groups h sid !! gid = None ∧
  groups h' sid = <[gid := l2_group gid pid pop]> (groups h sid) ∧
  hw_same_but_groups sid h h'.
Proof.
  unfold ops_fpa_route_add_l2_group. intros. fpa_run. split; [done|].
  by eapply (group_created _ {| groupIdentifier := gid |}).
Qed.

Lemma add_l2_group_err `{!FPA_DELETES F O} sid pid vid pop h gid h' :
  ops_fpa_route_add_l2_group sid pid vid pop h = (true, gid, h') → hw_same h h'.
Proof.
  unfold ops_fpa_route_add_l2_group. intros. fpa_run; [done|by eapply group_add_err|].
  by eapply (group_rolled_back _ {| groupIdentifier := gid |}).
Qed.

Lemma add_l2_group_succeeds `{!FPA_NOFAIL F O} sid pid vid pop h gid :
  l2_group_id pid vid = (FPA_OK, gid) → groups h sid !! gid = None →
  (ops_fpa_route_add_l2_group sid pid vid pop h).1 = (false, gid).
Proof.
  intros Hid Hn. unfold ops_fpa_route_add_l2_group, l2_group_id in *. rewrite Hid; simpl.
  set (e := {| groupIdentifier := gid; groupTypeSemantics := FPA_GROUP_INDIRECT |}).
  pose proof (group_add_succeeds sid e h Hn) as Hok.
  destruct (fpaLibGroupTableEntryAdd sid e h) as [st h1] eqn:Ha. simplify_eq/=.
  apply group_add_ok in Ha as (_ & Hg & _). simpl in Hg.
  set (b := {| bucket_groupIdentifier := gid |}).
  pose proof (bucket_add_succeeds sid b h1) as Hok'.
  destruct (fpaLibGroupEntryBucketAdd sid b h1) as [st h2]; simpl in *.
  rewrite Hok'; [done|]. rewrite Hg, lookup_insert_eq. eauto.
Qed.

Lemma add_l3_group_ok sid l2_gid idx vid mtu src dst h gid h' :
  ops_fpa_route_add_l3_group sid l2_gid idx vid mtu src dst h = (false, gid, h') →
  fpaLibGroupIdentifierBuild {| groupType := FPA_GROUP_L3_UNICAST_E;
    id_portNum := 0; id_vlanId := 0; id_index := idx |} = (FPA_OK, gid) ∧
  groups h sid !! gid = None ∧
  groups h' sid = <[gid := l3_group gid l2_gid vid mtu src dst]> (groups h sid) ∧
  hw_same_but_groups sid h h'.
Proof.
  unfold ops_fpa_route_add_l3_group, wrap_fpaLibGroupTableEntryAdd,
    wrap_fpaLibGroupEntryBucketAdd, wrap_fpaLibGroupTableEntryDelete.
  intros. fpa_run. split; [done|].
  by eapply (group_created _ {| groupIdentifier := gid |}).
Qed.

Lemma add_l3_group_err `{!FPA_DELETES F O} sid l2_gid idx vid mtu src dst h gid h' :
  ops_fpa_route_add_l3_group sid l2_gid idx vid mtu src dst h = (true, gid, h') →
  hw_same h h'.
Proof.
  unfold ops_fpa_route_add_l3_group, wrap_fpaLibGroupTableEntryAdd,
    wrap_fpaLibGroupEntryBucketAdd, wrap_fpaLibGroupTableEntryDelete.
  intros. fpa_run; try done; [by eapply group_add_err|].
  by eapply (group_rolled_back _ {| groupIdentifier := _ |}).
Qed.

Definition l3_group_ident (idx : Z) : FPA_GROUP_ENTRY_IDENTIFIER_STC :=
  {| groupType := FPA_GROUP_L3_UNICAST_E; id_portNum := 0; id_vlanId := 0; id_index := idx |}.

Lemma add_l3_group_succeeds `{!FPA_NOFAIL F O} sid l2_gid idx vid mtu src dst h gid :
  fpaLibGroupIdentifierBuild (l3_group_ident idx) = (FPA_OK, gid) → groups h sid !! gid = None →
  (ops_fpa_route_add_l3_group sid l2_gid idx vid mtu src dst h).1 = (false, gid).
Proof.
  intros Hid Hn. unfold ops_fpa_route_add_l3_group. fold (l3_group_ident idx). rewrite Hid. simpl.
  destruct (fpaLibGroupTableGetEntry sid gid h) as [st e] eqn:He. apply group_get_entry in He.
  rewrite Hn in He. rewrite (proj2 (failed_true st)) by done. simpl.
  unfold wrap_fpaLibGroupTableEntryAdd, wrap_fpaLibGroupEntryBucketAdd.
  set (ent := {| groupIdentifier := gid; groupTypeSemantics := FPA_GROUP_INDIRECT |}).
  pose proof (group_add_succeeds sid ent h Hn) as Hok.
  destruct (fpaLibGroupTableEntryAdd sid ent h) as [st1 h1] eqn:Ha. simplify_eq/=.
  apply group_add_ok in Ha as (_ & Hg & _). simpl in Hg.
  set (b := {| bucket_groupIdentifier := gid |}).
  pose proof (bucket_add_succeeds sid b h1) as Hok'.
  destruct (fpaLibGroupEntryBucketAdd sid b h1) as [st2 h2]; simpl in *.
  rewrite Hok'; [done|]. rewrite Hg, lookup_insert_eq. eauto.
Qed.

Lemma del_group_succeeds `{!FPA_DELETES F O} sid gid h :
  is_Some (groups h sid !! gid) → (ops_fpa_route_del_group sid gid h).1 = false.
Proof.
  intros Hg. unfold ops_fpa_route_del_group, wrap_fpaLibGroupTableEntryDelete.
  pose proof (group_delete_succeeds sid gid h Hg) as Hok.
  destruct (fpaLibGroupTableEntryDelete sid gid h). by simplify_eq/=.
Qed.

(** The two kinds of group have different identifiers. *)
Lemma l2_l3_group_ids_differ pid vid idx gid gid' st :
  0 ≤ pid < 2 ^ 16 → 0 ≤ vid < 2 ^ 12 → l2_group_id pid vid = (st, gid) →
  fpaLibGroupIdentifierBuild (l3_group_ident idx) = (FPA_OK, gid') → gid ≠ gid'.
Proof.
  intros Hp Hv H2 H3 ->. apply group_build_l2 in H2 as (_ & _ & _ & _ & Hz); [|done|done].
  apply group_build_l3 in H3 as (_ & Hnz & _). done.
Qed.

Lemma del_group_ok sid gid h h' :
  ops_fpa_route_del_group sid gid h = (false, h') →
  groups h' sid = delete gid (groups h sid) ∧ hw_same_but_groups sid h h'.
Proof.
  unfold ops_fpa_route_del_group, wrap_fpaLibGroupTableEntryDelete. intros. fpa_run.
  by apply group_delete_ok.
Qed.

Lemma del_group_err sid gid h h' :
  ops_fpa_route_del_group sid gid h = (true, h') → hw_same h h'.
Proof.
  unfold ops_fpa_route_del_group, wrap_fpaLibGroupTableEntryDelete. intros. fpa_run.
  by eapply group_delete_err.
Qed.
End route_groups.


(** ** The L3 table as a set of routes keyed by address and prefix length *)

Section route_table.
Context {F : FPA_SDK} {O : FPA_OBS F}.

(** A prefix the plugin can install. *)
Definition prefix_ok (ip len : Z) : Prop := 0 ≤ ip < 2 ^ 32 ∧ 1 ≤ len ≤ 32.

Definition route_flow_wf (e : FPA_FLOW_TABLE_ENTRY_STC) : Prop :=
  ∃ ip len, prefix_ok ip len ∧ l3_dstIp4 (data_l3_unicast e) = ip ∧
    l3_dstIp4Mask (data_l3_unicast e) = 2 ^ len - 1 ∧
    cookie e = OPS_FPA_ROUTE_IPV4_COOKIE ip len.

(** Every entry of the L3 table was installed by the plugin. *)
Definition route_wf (h : hw) (sid : Z) : Prop :=
  Forall route_flow_wf (flows h sid FPA_FLOW_TABLE_TYPE_L3_UNICAST_E).

(** The entry the plugin keeps for [ip/len], through group [g] with output port [port].
    Its mask is the one the plugin computes, which is the network mask of the prefix
    only for some lengths: see [routes_prefix]. *)
Definition has_route (h : hw) (sid ip len g port : Z) : Prop :=
  ∃ e, e ∈ flows h sid FPA_FLOW_TABLE_TYPE_L3_UNICAST_E ∧
    l3_dstIp4 (data_l3_unicast e) = ip ∧ l3_dstIp4Mask (data_l3_unicast e) = 2 ^ len - 1 ∧
    l3_groupId (data_l3_unicast e) = g ∧ l3_outputPort (data_l3_unicast e) = port.

(** A route for the addresses of [ip/len]: the entry has the network mask of the
    prefix. *)
Definition routes_prefix (h : hw) (sid ip len g port : Z) : Prop :=
  ∃ e, e ∈ flows h sid FPA_FLOW_TABLE_TYPE_L3_UNICAST_E ∧
    l3_dstIp4 (data_l3_unicast e) = ip ∧ l3_dstIp4Mask (data_l3_unicast e) = netmask_word len ∧
    l3_groupId (data_l3_unicast e) = g ∧ l3_outputPort (data_l3_unicast e) = port.

(** The network mask of a prefix that does not end on an octet is not a mask the
    plugin computes for any length. *)
Lemma netmask_not_low len len' :
  1 ≤ len ≤ 32 → 1 ≤ len' ≤ 32 → 2 ^ len' - 1 = netmask_word len → len mod 8 = 0.
Proof.
  intros Hl Hl' Heq.
  pose proof (prefix_cases (λ n, (n mod 8 =? 0) || forallb (λ k, negb (2 ^ k - 1 =? netmask_word n)) (seqZ 1 32))
    ltac:(vm_compute; reflexivity) len Hl) as Hc.
  apply orb_true_iff in Hc as [Hc|Hc]; [by apply Z.eqb_eq|]. exfalso.
  rewrite forallb_forall in Hc. specialize (Hc len'). rewrite <- list_elem_of_In, elem_of_seqZ in Hc.
  specialize (Hc ltac:(lia)). rewrite Heq, Z.eqb_refl in Hc. done.
Qed.

(** An entry of the plugin routes the addresses of its prefix exactly if the prefix
    ends on an octet. *)
Lemma has_route_prefix h sid ip len g port :
  route_wf h sid → 1 ≤ len ≤ 32 → has_route h sid ip len g port →
  routes_prefix h sid ip len g port ↔ len mod 8 = 0.
Proof.
  intros Hwf Hl (e & He & Hip & Hm & Hg & Hp). split.
  - intros (e' & He' & _ & Hm' & _). eapply Forall_forall in Hwf as (ip0 & len0 & [_ Hl0] & _ & Hm0 & _); [|done].
    apply (netmask_not_low len len0); [done|done|congruence].
  - intros H8. apply (route_mask_octets len Hl) in H8. rewrite route_mask_value in H8 by done.
    injection H8 as H8. exists e. by rewrite Hm, H8.
Qed.

Lemma prefix_mask_inj len len' :
  1 ≤ len ≤ 32 → 1 ≤ len' ≤ 32 → 2 ^ len - 1 = 2 ^ len' - 1 → len = len'.
Proof. intros ? ? Heq. apply (Z.pow_inj_r 2); lia. Qed.

Lemma route_cookie_inj ip len ip' len' :
  prefix_ok ip len → prefix_ok ip' len' →
  OPS_FPA_ROUTE_IPV4_COOKIE ip len = OPS_FPA_ROUTE_IPV4_COOKIE ip' len' → ip = ip' ∧ len = len'.
Proof.
  intros [? ?] [? ?]. rewrite !route_cookie_value by lia. apply pack_inj; lia.
Qed.

Lemma has_route_same h h' sid ip len g port :
  hw_same h h' → has_route h' sid ip len g port ↔ has_route h sid ip len g port.
Proof. intros [Hf _]. unfold has_route. by rewrite Hf. Qed.

Lemma route_wf_same h h' sid : hw_same h h' → route_wf h sid → route_wf h' sid.
Proof. intros [Hf _]. unfold route_wf. by rewrite Hf. Qed.

Context `{!FPA_LAWS F O}.

(** Installing [l3_unicast_entry], whatever the initial entry. *)
(** [h'] is [h] with a route installed in the L3 table: the table has it, nothing
    else is new for its prefix, and the routes of the other prefixes are the same. *)
Definition route_installed (sid ip len g port : Z) (h h' : hw) : Prop :=
  hw_same_but_table sid FPA_FLOW_TABLE_TYPE_L3_UNICAST_E h h' ∧
  route_wf h' sid ∧ has_route h' sid ip len g port ∧
  (∀ g' port', has_route h' sid ip len g' port' →
     (g' = g ∧ port' = port) ∨ has_route h sid ip len g' port') ∧
  ∀ ip' len' g' port', 1 ≤ len' ≤ 32 → ip' ≠ ip ∨ len' ≠ len →
    has_route h' sid ip' len' g' port' ↔ has_route h sid ip' len' g' port'.

Lemma route_entry_added sid e g port ip len h h' :
  route_wf h sid → prefix_ok ip len →
  wrap_fpaLibFlowEntryAdd sid FPA_FLOW_TABLE_TYPE_L3_UNICAST_E
    (l3_unicast_entry e g port ip len (2 ^ len - 1)) h = (FPA_OK, h') →
  route_installed sid ip len g port h h'.
Proof.
  intros Hwf Hp Hadd. apply wrap_flow_add_ok in Hadd as [(Hin & Hnew & Hold) Hsame]. split_and!.
  - done.
  - apply Forall_forall. intros x [->|Hx]%Hnew; [by exists ip, len|].
    by eapply Forall_forall in Hwf.
  - by exists (l3_unicast_entry e g port ip len (2 ^ len - 1)).
  - intros g' port' (x & [->|Hx]%Hnew & Hip & Hm & <- & <-); [by left|]. right. by exists x.
  - intros ip' len' g' port' Hl' Hne. split.
    + intros (x & [->|Hx]%Hnew & Hip & Hm & Hg & Hport); [|by exists x].
      simpl in Hip, Hm. apply prefix_mask_inj in Hm; [naive_solver|apply Hp|done].
    + intros (x & Hx & Hip & Hm & Hg & Hport). exists x.
      destruct (Hold x Hx) as [?|Hmt]; [done|]. injection Hmt as _ Hip' Hm'.
      rewrite Hm in Hm'. apply prefix_mask_inj in Hm'; [|done|apply Hp]. naive_solver.
Qed.

Lemma route_deleted sid ip len h h' :
  route_wf h sid → prefix_ok ip len →
  wrap_fpaLibFlowTableCookieDelete sid FPA_FLOW_TABLE_TYPE_L3_UNICAST_E
    (OPS_FPA_ROUTE_IPV4_COOKIE ip len) h = (FPA_OK, h') →
  route_wf h' sid ∧
  ∀ ip' len' g port, 1 ≤ len' ≤ 32 →
    has_route h' sid ip' len' g port ↔
    has_route h sid ip' len' g port ∧ (ip' ≠ ip ∨ len' ≠ len).
Proof.
  intros Hwf Hp Hdel. apply wrap_cookie_delete_ok in Hdel as [Hd _].
  assert (Hkey : ∀ x, x ∈ flows h sid FPA_FLOW_TABLE_TYPE_L3_UNICAST_E →
    ∀ len', 1 ≤ len' ≤ 32 → l3_dstIp4Mask (data_l3_unicast x) = 2 ^ len' - 1 →
    cookie x = OPS_FPA_ROUTE_IPV4_COOKIE ip len ↔
    l3_dstIp4 (data_l3_unicast x) = ip ∧ len' = len).
  { intros x Hx len' Hl' Hm.
    eapply Forall_forall in Hwf as (ip0 & len0 & Hp0 & Hip0 & Hm0 & ->); [|done].
    rewrite Hm in Hm0. apply prefix_mask_inj in Hm0 as ->; [|done|apply Hp0].
    rewrite Hip0. split; [by apply route_cookie_inj|naive_solver]. }
  split.
  - apply Forall_forall. intros x [Hx _]%Hd. by eapply Forall_forall in Hwf.
  - intros ip' len' g port Hl'. split.
    + intros (x & [Hx Hc]%Hd & Hip & Hm & Hrest). split; [by exists x|].
      rewrite (Hkey x Hx len' Hl' Hm), Hip in Hc.
      destruct (decide (ip' = ip)); [right|left]; naive_solver.
    + intros [(x & Hx & Hip & Hm & Hrest) Hne]. exists x. split; [|done].
      apply Hd. split; [done|]. rewrite (Hkey x Hx len' Hl' Hm). naive_solver.
Qed.

Lemma add_route_spec sid g ip len h :
  route_wf h sid → prefix_ok ip len →
  ∃ err h', ops_fpa_route_add_route sid g ip len h = Done (err, h') ∧
    if err then hw_same h h' else route_installed sid ip len g 0 h h'.
Proof.
  intros Hwf Hp. unfold ops_fpa_route_add_route.
  destruct (fpaLibFlowEntryInit _ _ _) as [st e]. destruct (failed st).
  { do 2 eexists. by split. }
  rewrite route_mask_value by apply Hp. simpl.
  destruct (wrap_fpaLibFlowEntryAdd _ _ _ _) as [st' h'] eqn:Hadd.
  do 2 eexists. split; [done|]. destruct (failed st') eqn:Hst.
  - apply failed_true in Hst. by eapply wrap_flow_add_err.
  - apply failed_false in Hst as ->. by eapply route_entry_added.
Qed.

(** The trap variant sends the packets of the prefix to the controller. *)
Lemma add_route_trap_spec sid ip len h :
  route_wf h sid → prefix_ok ip len →
  ∃ err h', ops_fpa_route_add_route_trap sid ip len h = Done (err, h') ∧
    if err then hw_same h h' else
      route_installed sid ip len 0xffffffff FPA_OUTPUT_CONTROLLER h h'.
Proof.
  intros Hwf Hp. unfold ops_fpa_route_add_route_trap.
  destruct (fpaLibFlowEntryInit _ _ _) as [st e]. destruct (failed st).
  { do 2 eexists. by split. }
  rewrite route_mask_value by apply Hp. simpl.
  destruct (wrap_fpaLibFlowEntryAdd _ _ _ _) as [st' h'] eqn:Hadd.
  do 2 eexists. split; [done|]. destruct (failed st') eqn:Hst.
  - apply failed_true in Hst. by eapply wrap_flow_add_err.
  - apply failed_false in Hst as ->. by eapply route_entry_added.
Qed.

Lemma add_route_succeeds `{!FPA_NOFAIL F O} sid g ip len h err h' :
  ops_fpa_route_add_route sid g ip len h = Done (err, h') → err = false.
Proof.
  unfold ops_fpa_route_add_route.
  pose proof (flow_init_succeeds sid FPA_FLOW_TABLE_TYPE_L3_UNICAST_E h) as Hi.
  destruct (fpaLibFlowEntryInit _ _ _) as [st e]. simpl in Hi. subst st. simpl.
  intros (mask & _ & Hadd)%obind_done. revert Hadd.
  match goal with |- context [wrap_fpaLibFlowEntryAdd ?sid ?t ?e ?h] =>
    pose proof (wrap_flow_add_succeeds sid t e h) as Hok;
    destruct (wrap_fpaLibFlowEntryAdd sid t e h) as [st h1] end.
  simpl in Hok. subst st. by intros [= <- _].
Qed.

Lemma del_route_spec `{!FPA_DELETES F O} sid ip len h err h' :
  route_wf h sid → prefix_ok ip len →
  ops_fpa_route_del_route sid ip len h = (err, h') →
  hw_same_but_table sid FPA_FLOW_TABLE_TYPE_L3_UNICAST_E h h' ∧
  route_wf h' sid ∧ (err = true → ∀ g port, ¬ has_route h sid ip len g port) ∧
  ∀ ip' len' g port, 1 ≤ len' ≤ 32 →
    has_route h' sid ip' len' g port ↔
    has_route h sid ip' len' g port ∧ (ip' ≠ ip ∨ len' ≠ len).
Proof.
  intros Hwf Hp. unfold ops_fpa_route_del_route.
  destruct (wrap_fpaLibFlowTableCookieDelete _ _ _ _) as [st h1] eqn:Hdel.
  destruct (failed st) eqn:Hst; intros [= <- <-].
  - apply failed_true in Hst.
    assert (Habs : ∀ g port, ¬ has_route h sid ip len g port).
    { intros g port (x & Hx & Hip & Hm & _). apply Hst.
      pose proof (wrap_cookie_delete_succeeds sid FPA_FLOW_TABLE_TYPE_L3_UNICAST_E
        (OPS_FPA_ROUTE_IPV4_COOKIE ip len) h) as Hok. rewrite Hdel in Hok. apply Hok.
      exists x. split; [done|].
      eapply Forall_forall in Hwf as (ip0 & len0 & Hp0 & <- & Hm0 & ->); [|done].
      rewrite Hm in Hm0. apply prefix_mask_inj in Hm0 as ->; [by rewrite Hip|apply Hp|apply Hp0]. }
    apply wrap_cookie_delete_err in Hdel; [|done].
    split_and!; [by apply hw_same_same_but_table|by eapply route_wf_same|done|].
    intros ip' len' g port _. rewrite has_route_same by done. split; [|naive_solver].
    intros Hr. split; [done|]. destruct (decide (ip' = ip)) as [->|]; [right|by left].
    intros ->. by eapply Habs.
  - apply failed_false in Hst as ->. split; [by apply wrap_cookie_delete_ok in Hdel as [_ ?]|].
    apply route_deleted in Hdel as [? ?]; [|done..]. done.
Qed.

(** The cookie, and so the deletion of a route, looks at eight bits of the length. *)
Lemma del_route_low sid ip len h :
  ops_fpa_route_del_route sid ip len h = ops_fpa_route_del_route sid ip (Z.land len 0xff) h.
Proof.
  unfold ops_fpa_route_del_route, OPS_FPA_ROUTE_IPV4_COOKIE.
  by rewrite (Z.land_comm len), (Z.land_assoc _ _ len), Z.land_diag.
Qed.

Lemma del_route_any `{!FPA_DELETES F O} sid ip len h :
  route_wf h sid → 0 ≤ ip < 2 ^ 32 →
  let h' := (ops_fpa_route_del_route sid ip len h).2 in
  hw_same_but_table sid FPA_FLOW_TABLE_TYPE_L3_UNICAST_E h h' ∧ route_wf h' sid ∧
  ∀ ip' len' g port, 1 ≤ len' ≤ 32 →
    has_route h' sid ip' len' g port ↔
    has_route h sid ip' len' g port ∧ ¬ (ip' = ip ∧ len' = Z.land len 0xff).
Proof.
  intros Hwf Hip. rewrite del_route_low.
  assert (0 ≤ Z.land len 0xff < 2 ^ 8) as Hlow.
  { change 0xff with (Z.ones 8). rewrite Z.land_ones by lia. apply Z.mod_pos_bound. lia. }
  set (n := Z.land len 0xff) in *. clearbody n.
  destruct (ops_fpa_route_del_route sid ip n h) as [err h'] eqn:Hdel. simpl.
  destruct (decide (1 ≤ n ≤ 32)) as [Hn|Hn].
  { apply del_route_spec in Hdel as (Hs & Hwf' & _ & Hr); [|done|by split].
    split; [done|]. split; [done|]. intros ip' len' g port Hl. rewrite (Hr ip' len' g port Hl).
    destruct (decide (ip' = ip)), (decide (len' = n)); naive_solver. }
  revert Hdel. unfold ops_fpa_route_del_route.
  destruct (wrap_fpaLibFlowTableCookieDelete _ _ _ _) as [st h1] eqn:Hdel.
  assert (hw_same_but_table sid FPA_FLOW_TABLE_TYPE_L3_UNICAST_E h h1 ∧
    ∀ e, e ∈ flows h1 sid FPA_FLOW_TABLE_TYPE_L3_UNICAST_E ↔ e ∈ flows h sid FPA_FLOW_TABLE_TYPE_L3_UNICAST_E)
    as [Hs He].
  { destruct (failed st) eqn:Hst.
    - apply failed_true in Hst. apply wrap_cookie_delete_err in Hdel; [|done].
      split; [by apply hw_same_same_but_table|]. intros e. destruct Hdel as [Hf _]. by rewrite Hf.
    - apply failed_false in Hst as ->. apply wrap_cookie_delete_ok in Hdel as [Hd Hs]. split; [done|].
      intros e. rewrite (Hd e). split; [by intros [? _]|]. intros Hin. split; [done|].
      eapply Forall_forall in Hwf as (ip0 & len0 & [? ?] & _ & _ & ->); [|done].
      rewrite !route_cookie_value by lia. intros Heq. apply pack_inj in Heq as [_ ->]; lia. }
  intros Hr. assert (h' = h1) as -> by (by destruct (failed st); injection Hr as _ <-).
  split; [done|]. split.
  - apply Forall_forall. intros e Hin%He. by eapply Forall_forall in Hwf.
  - intros ip' len' g port Hl. unfold has_route. setoid_rewrite He.
    split; [|by intros [? _]]. intros Hx. split; [done|]. intros [_ ->]. lia.
Qed.
End route_table.

(** ** Witnesses on the reference switch *)

Lemma route_mask_octets_witness :
  (route_mask 24 = Done (netmask_word 24) ↔ 24 mod 8 = 0) ∧
  (route_mask 20 = Done (netmask_word 20) ↔ 20 mod 8 = 0).
Proof. split; apply route_mask_octets; lia. Defined.

Definition w_src : mac := [0; 1; 2; 3; 4; 5].
Definition w_dst : mac := [6; 7; 8; 9; 10; 11].

Lemma route_wf_empty faults sid : @route_wf (SimFpa faults) (SimObs faults) sim_empty sid.
Proof. by apply Forall_nil. Qed.

(** The routes 10.0.0.1/32 and 10.0.0.0/24, of which the first is deleted. *)
Definition w_routes : @hw (SimFpa no_faults) :=
  match (let* (_, h) := ops_fpa_route_add_route 0 7 (ip4_word 10 0 0 1) 32
           (sim_empty : @hw (SimFpa no_faults)) in
         ops_fpa_route_add_route 0 8 (ip4_word 10 0 0 0) 24 h) with
  | Done (_, h) => h
  | _ => sim_empty
  end.

Lemma w_routes_wf : @route_wf (SimFpa no_faults) (SimObs no_faults) w_routes 0.
Proof.
  apply Forall_cons. split; [exists (ip4_word 10 0 0 1), 32|].
  { vm_compute. intuition discriminate. }
  apply Forall_cons. split; [exists (ip4_word 10 0 0 0), 24|by apply Forall_nil].
  vm_compute. intuition discriminate.
Qed.

