(* ===== verification/Vlan.v ===== *)
(** * VLAN membership of a port (src/ops-fpa-vlan.c, include/ops-fpa-vlan.h)

    A 14-bit index (VIDX) names one ingress or egress property of a port on a
    VLAN; a bitmap of indices (VMAP) describes a port.  This file models the
    encoding, the translation of an index into SDK calls, the reading of a
    port's bitmap back from the switch, and the internal VLANs. *)

From S2P Require Import Prelude Fpa FpaSim Wrap Route.

(** ** Encoding *)

Definition OPS_FPA_VMAP_BITS : Z := Z.shiftl 1 14.
Definition VLAN_BITMAP_SIZE : Z := 4096.

Definition OPS_FPA_VIDX_INGRESS (vid : Z) (tagged : bool) : Z :=
  Z.lor (Z.lor (Z.shiftl 0 13) (Z.shiftl (b2z tagged) 12)) vid.
Definition OPS_FPA_VIDX_EGRESS (vid : Z) (poptag : bool) : Z :=
  Z.lor (Z.lor (Z.shiftl 1 13) (Z.shiftl (b2z poptag) 12)) vid.
Definition OPS_FPA_VIDX_VID (vidx : Z) : Z := Z.land vidx (Z.shiftl 1 12 - 1).
Definition OPS_FPA_VIDX_IS_EGRESS (vidx : Z) : bool := negb (Z.land vidx (Z.shiftl 1 13) =? 0).
Definition OPS_FPA_VIDX_ARG (vidx : Z) : bool := negb (Z.land vidx (Z.shiftl 1 12) =? 0).

Definition OPS_FPA_VLAN_COOKIE (pid vid : Z) (tagged : bool) : Z :=
  if tagged then Z.lor (u64 (Z.shiftl (u64 vid) 32)) (u64 pid) else u64 pid.
Definition OPS_FPA_GID_VLAN (id : Z) : Z := Z.shiftr (Z.land id 0x0FFF0000) 16.
Definition OPS_FPA_GID_PORT (id : Z) : Z := Z.shiftr (Z.land id 0x0000FFFF) 0.

Section vlan.
Context {F : FPA_SDK}.

(** ** Reading a port's bitmap from the switch

    The first loop runs over the VLAN flow table, the second one upwards over
    the group table; [fuel] bounds the number of iterations of each. *)

Fixpoint vlan_fetch_flows (fuel : nat) (sid pid i : Z) (vmap : bitmap) (h : hw) :
    outcome (bitmap * hw) :=
  match fuel with
  | O => OutOfFuel
  | S fuel =>
      let '(err, flow, h) := fpaLibFlowTableGetNext sid FPA_FLOW_TABLE_TYPE_VLAN_E i h in
      if failed err then Done (vmap, h) else
      let vmap :=
        if bool_decide (pid = vl_inPort (data_vlan flow)) then
          let vid := vl_vlanId (data_vlan flow) in
          let tagged := bool_decide (vl_vlanIdMask (data_vlan flow) = FPA_FLOW_VLAN_MASK_TAG) in
          bitmap_set1 vmap (OPS_FPA_VIDX_INGRESS vid tagged)
        else vmap in
      vlan_fetch_flows fuel sid pid (i + 1) vmap h
  end.

Fixpoint vlan_fetch_groups (fuel : nat) (sid pid gid : Z) (vmap : bitmap) (h : hw) :
    outcome bitmap :=
  match fuel with
  | O => OutOfFuel
  | S fuel =>
      let '(err, group) := fpaLibGroupTableGetNext sid gid h in
      if failed err then Done vmap else
      let gid := groupIdentifier group in
      let vmap :=
        if bool_decide (pid = OPS_FPA_GID_PORT gid) then
          let '(err, bucket) := fpaLibGroupEntryBucketGet sid gid 0 h in
          if failed err then vmap
          else bitmap_set1 vmap (OPS_FPA_VIDX_EGRESS (OPS_FPA_GID_VLAN gid) (bucket_pop bucket))
        else vmap in
      vlan_fetch_groups fuel sid pid gid vmap h
  end.

Definition ops_fpa_vlan_fetch (fuel : nat) (sid pid : Z) (h : hw) : outcome (bitmap * hw) :=
  let* (vmap, h) := vlan_fetch_flows fuel sid pid 1 ∅ h in
  let* vmap := vlan_fetch_groups fuel sid pid 0 vmap h in
  Done (vmap, h).

(** ** Adding and deleting one index *)

Definition vlan_flow_entry (e : FPA_FLOW_TABLE_ENTRY_STC) (pid vid : Z) (match_tagged : bool) :
    FPA_FLOW_TABLE_ENTRY_STC := {|
  cookie := OPS_FPA_VLAN_COOKIE pid vid match_tagged;
  priority := priority e; timeoutIdleTime := timeoutIdleTime e;
  timeoutHardTime := timeoutHardTime e; flowModFlags := flowModFlags e;
  entryType := entryType e;
  data_control_pkt := data_control_pkt e;
  data_vlan := {|
    vl_inPort := pid;
    vl_vlanId := vid;
    vl_vlanIdMask := if match_tagged then FPA_FLOW_VLAN_MASK_TAG else FPA_FLOW_VLAN_MASK_UNTAG;
    vl_newTagVid := if match_tagged then FPA_FLOW_VLAN_IGNORE_VAL else vid;
    vl_newTagPcp := FPA_FLOW_VLAN_IGNORE_VAL;
    vl_gotoTableNo := vl_gotoTableNo (data_vlan e)
  |};
  data_termination := data_termination e; data_l2_bridging := data_l2_bridging e;
  data_l3_unicast := data_l3_unicast e
|}.

Definition ops_fpa_vlan_add (sid pid vidx : Z) (h : hw) : bool * hw :=
  let vid := OPS_FPA_VIDX_VID vidx in
  (* for egress vidx -> create group table entry *)
  if OPS_FPA_VIDX_IS_EGRESS vidx then
    let '(err, _, h) := ops_fpa_route_add_l2_group sid pid vid (OPS_FPA_VIDX_ARG vidx) h in
    (err, h)
  else
  (* for ingress vidx -> create VLAN table entry *)
  let match_tagged := OPS_FPA_VIDX_ARG vidx in
  let '(_, flow) := fpaLibFlowEntryInit sid FPA_FLOW_TABLE_TYPE_VLAN_E h in
  let flow := vlan_flow_entry flow pid vid match_tagged in
  let '(err, h) := fpaLibFlowEntryAdd sid FPA_FLOW_TABLE_TYPE_VLAN_E flow h in
  (failed err, h).

Definition ops_fpa_vlan_del (sid pid vidx : Z) (h : hw) : bool * hw :=
  let vid := OPS_FPA_VIDX_VID vidx in
  (* for egress vidx - delete group table entry *)
  if OPS_FPA_VIDX_IS_EGRESS vidx then
    let ident := {| groupType := FPA_GROUP_L2_INTERFACE_E;
                    id_portNum := pid; id_vlanId := vid; id_index := 0 |} in
    let '(_, gid) := fpaLibGroupIdentifierBuild ident in
    let '(err, h) := fpaLibGroupTableEntryDelete sid gid h in
    (failed err, h)
  else
  (* for ingress vidx -> delete VLAN table entry *)
  let match_tagged := OPS_FPA_VIDX_ARG vidx in
  let '(err, h) := fpaLibFlowTableCookieDelete sid FPA_FLOW_TABLE_TYPE_VLAN_E
                     (OPS_FPA_VLAN_COOKIE pid vid match_tagged) h in
  (failed err, h).

(** ** Internal VLANs: the bitmap [internal_vlans] beside the switch *)

Definition ops_fpa_vlan_internal (internal_vlans : bitmap) (vid : Z) : bool :=
  bitmap_is_set internal_vlans vid.

Definition ops_fpa_vlan_add_internal (sid pid vid : Z) (internal_vlans : bitmap) (h : hw) :
    bool * bitmap * hw :=
  let '(err, h) := ops_fpa_vlan_add sid pid (OPS_FPA_VIDX_INGRESS vid false) h in
  if err then (true, internal_vlans, h) else
  let '(err, h) := ops_fpa_vlan_add sid pid (OPS_FPA_VIDX_EGRESS vid false) h in
  if err then
    let '(_, h) := ops_fpa_vlan_del sid pid (OPS_FPA_VIDX_INGRESS vid false) h in
    (true, internal_vlans, h)
  else
  if ops_fpa_vlan_internal internal_vlans vid then (true, internal_vlans, h)
  else (false, bitmap_set1 internal_vlans vid, h).

Definition ops_fpa_vlan_del_internal (sid pid vid : Z) (internal_vlans : bitmap) (h : hw) :
    bool * bitmap * hw :=
  let err := false in
  let '(e, h) := ops_fpa_vlan_del sid pid (OPS_FPA_VIDX_INGRESS vid false) h in
  let err := if e then true else err in
  let '(e, h) := ops_fpa_vlan_del sid pid (OPS_FPA_VIDX_EGRESS vid false) h in
  let err := if e then true else err in
  let err := if negb (ops_fpa_vlan_internal internal_vlans vid) then true else err in
  (err, bitmap_set0 internal_vlans vid, h).
End vlan.

(** ** The encoding is a bijection between 14-bit indices and their fields *)

Definition vid_ok (vid : Z) : Prop := 0 ≤ vid < 2 ^ 12.
Definition pid_ok (pid : Z) : Prop := 0 ≤ pid < 2 ^ 16.
Definition vidx_ok (vidx : Z) : Prop := 0 ≤ vidx < 2 ^ 14.

Definition vidx_make (egress arg : bool) (vid : Z) : Z :=
  if egress then OPS_FPA_VIDX_EGRESS vid arg else OPS_FPA_VIDX_INGRESS vid arg.

#[global] Arguments vidx_make : simpl never.

Lemma ingress_make vid arg : OPS_FPA_VIDX_INGRESS vid arg = vidx_make false arg vid.
Proof. done. Qed.
Lemma egress_make vid arg : OPS_FPA_VIDX_EGRESS vid arg = vidx_make true arg vid.
Proof. done. Qed.

Lemma vidx_make_value egress arg vid :
  vid_ok vid → vidx_make egress arg vid = b2z egress * 2 ^ 13 + b2z arg * 2 ^ 12 + vid.
Proof.
  intros Hv. unfold vid_ok in Hv.
  unfold vidx_make, OPS_FPA_VIDX_EGRESS, OPS_FPA_VIDX_INGRESS.
  destruct egress, arg; cbn [b2z].
  - change (Z.lor (Z.shiftl 1 13) (Z.shiftl 1 12)) with (Z.shiftl 3 12).
    rewrite lor_shiftl_add by lia. lia.
  - change (Z.lor (Z.shiftl 1 13) (Z.shiftl 0 12)) with (Z.shiftl 2 12).
    rewrite lor_shiftl_add by lia. lia.
  - change (Z.lor (Z.shiftl 0 13) (Z.shiftl 1 12)) with (Z.shiftl 1 12).
    rewrite lor_shiftl_add by lia. lia.
  - change (Z.lor (Z.shiftl 0 13) (Z.shiftl 0 12)) with 0. rewrite Z.lor_0_l. lia.
Qed.

Lemma testbit_land_pow2 z n : 0 ≤ n → negb (Z.land z (Z.shiftl 1 n) =? 0) = Z.testbit z n.
Proof.
  intros Hn. rewrite Z.shiftl_1_l. destruct (Z.testbit z n) eqn:Hb.
  - apply negb_true_iff, Z.eqb_neq. intros H0.
    assert (Z.testbit (Z.land z (2 ^ n)) n = false) as Hf by (rewrite H0; apply Z.bits_0).
    rewrite Z.land_spec, Hb, Z.pow2_bits_true in Hf by done. done.
  - apply negb_false_iff, Z.eqb_eq. apply Z.bits_inj'; intros i Hi.
    rewrite Z.land_spec, Z.bits_0.
    destruct (decide (i = n)) as [->|]; [by rewrite Hb|].
    rewrite Z.pow2_bits_false by done. apply andb_false_r.
Qed.

Lemma vidx_fields egress arg vid :
  vid_ok vid →
  OPS_FPA_VIDX_VID (vidx_make egress arg vid) = vid ∧
  OPS_FPA_VIDX_IS_EGRESS (vidx_make egress arg vid) = egress ∧
  OPS_FPA_VIDX_ARG (vidx_make egress arg vid) = arg.
Proof.
  intros Hv. rewrite vidx_make_value by done. unfold vid_ok in Hv.
  unfold OPS_FPA_VIDX_VID, OPS_FPA_VIDX_IS_EGRESS, OPS_FPA_VIDX_ARG.
  rewrite !testbit_land_pow2 by done.
  change (Z.shiftl 1 12 - 1) with (Z.ones 12). rewrite Z.land_ones by done.
  set (z := b2z egress * 2 ^ 13 + b2z arg * 2 ^ 12 + vid).
  assert (Hm : z mod 2 ^ 12 = vid).
  { unfold z. symmetry. apply Z.mod_unique with (b2z egress * 2 + b2z arg); lia. }
  assert (Hd : z / 2 ^ 12 = b2z egress * 2 + b2z arg).
  { unfold z. symmetry. apply Z.div_unique with vid; lia. }
  assert (Hbits : ∀ n, 12 ≤ n → Z.testbit z n = Z.testbit (b2z egress * 2 + b2z arg) (n - 12)).
  { intros n Hn. rewrite <- Hd, <- Z.shiftr_div_pow2, Z.shiftr_spec by lia. f_equal; lia. }
  rewrite !Hbits by lia. by destruct egress, arg.
Qed.

Lemma vidx_ok_make vidx :
  vidx_ok vidx →
  vidx = vidx_make (OPS_FPA_VIDX_IS_EGRESS vidx) (OPS_FPA_VIDX_ARG vidx) (OPS_FPA_VIDX_VID vidx)
  ∧ vid_ok (OPS_FPA_VIDX_VID vidx).
Proof.
  intros Hv. unfold vidx_ok in Hv.
  assert (Hex : ∃ egress arg vid, vid_ok vid ∧ vidx = vidx_make egress arg vid).
  { exists (2 ^ 13 <=? vidx), (2 ^ 12 <=? vidx mod 2 ^ 13), (vidx mod 2 ^ 12).
    assert (vid_ok (vidx mod 2 ^ 12)) by (apply Z.mod_pos_bound; lia).
    split; [done|]. rewrite vidx_make_value by done.
    pose proof (Z.div_mod vidx (2 ^ 13)). pose proof (Z.div_mod vidx (2 ^ 12)).
    destruct (Z.leb_spec (2 ^ 13) vidx); destruct (Z.leb_spec (2 ^ 12) (vidx mod 2 ^ 13));
      cbn [b2z]; Z.div_mod_to_equations; lia. }
  destruct Hex as (egress & arg & vid & Hvid & ->).
  destruct (vidx_fields egress arg vid Hvid) as (-> & -> & ->). done.
Qed.

(** ** What the switch holds for a port *)

Section port_vmap.
Context {F : FPA_SDK} {O : FPA_OBS F}.

Definition flow_vidx (pid : Z) (e : FPA_FLOW_TABLE_ENTRY_STC) : option Z :=
  if bool_decide (pid = vl_inPort (data_vlan e)) then
    Some (OPS_FPA_VIDX_INGRESS (vl_vlanId (data_vlan e))
            (bool_decide (vl_vlanIdMask (data_vlan e) = FPA_FLOW_VLAN_MASK_TAG)))
  else None.

Definition group_vidx (pid gid : Z) (g : group) : option Z :=
  if bool_decide (pid = OPS_FPA_GID_PORT gid) then
    b ← group_buckets g !! 0; Some (OPS_FPA_VIDX_EGRESS (OPS_FPA_GID_VLAN gid) (bucket_pop b))
  else None.

Definition port_ingress (h : hw) (sid pid : Z) : bitmap :=
  list_to_set (omap (flow_vidx pid) (flows h sid FPA_FLOW_TABLE_TYPE_VLAN_E)).

(** The indices of the groups with an identifier above [from]. *)
Definition groups_above (from : Z) (pid : Z) (m : gmap Z group) : bitmap :=
  list_to_set (omap (λ p, if bool_decide (from < p.1) then group_vidx pid p.1 p.2 else None)
                 (map_to_list m)).

Definition port_egress (h : hw) (sid pid : Z) : bitmap := groups_above 0 pid (groups h sid).

Definition port_vmap (h : hw) (sid pid : Z) : bitmap :=
  port_ingress h sid pid ∪ port_egress h sid pid.

#[export] Instance port_vmap_proper : Proper (hw_same ==> eq ==> eq ==> eq) port_vmap.
Proof.
  intros h h' Hh ? sid -> ? pid ->. unfold port_vmap, port_ingress, port_egress.
  by rewrite Hh.
Qed.

Lemma elem_of_port_ingress h sid pid v :
  v ∈ port_ingress h sid pid ↔
  ∃ e, e ∈ flows h sid FPA_FLOW_TABLE_TYPE_VLAN_E ∧ flow_vidx pid e = Some v.
Proof. unfold port_ingress. rewrite elem_of_list_to_set, list_elem_of_omap. done. Qed.

Lemma elem_of_groups_above from pid m v :
  v ∈ groups_above from pid m ↔
  ∃ gid g, m !! gid = Some g ∧ from < gid ∧ group_vidx pid gid g = Some v.
Proof.
  unfold groups_above. rewrite elem_of_list_to_set, list_elem_of_omap. split.
  - intros ([gid g] & Hin%elem_of_map_to_list & Hv); simpl in Hv.
    case_bool_decide; [|done]. eauto.
  - intros (gid & g & Hm & Hlt & Hv). exists (gid, g).
    split; [by apply elem_of_map_to_list|]. simpl. by rewrite bool_decide_eq_true_2.
Qed.

Lemma elem_of_port_egress h sid pid v :
  v ∈ port_egress h sid pid ↔
  ∃ gid g, groups h sid !! gid = Some g ∧ 0 < gid ∧ group_vidx pid gid g = Some v.
Proof. apply elem_of_groups_above. Qed.

(** *** The first loop *)

Context `{!FPA_LAWS F O}.

Definition start_pos (i : Z) (h : hw) : nat := if decide (i = 1) then 0%nat else flow_cursor h.

Lemma vlan_fetch_flows_spec fuel sid pid i vmap h :
  1 ≤ i →
  (length (drop (start_pos i h) (flows h sid FPA_FLOW_TABLE_TYPE_VLAN_E)) < fuel)%nat →
  ∃ h', hw_same h h' ∧
    vlan_fetch_flows fuel sid pid i vmap h =
    Done (list_to_set (omap (flow_vidx pid)
            (drop (start_pos i h) (flows h sid FPA_FLOW_TABLE_TYPE_VLAN_E))) ∪ vmap, h').
Proof.
  revert i vmap h. induction fuel as [|fuel IH]; intros i vmap h Hi Hlen; [lia|].
  simpl. destruct (fpaLibFlowTableGetNext _ _ _ _) as [[st e] h1] eqn:Hget.
  apply flow_get_next in Hget as [Hsame Hget].
  change (if decide (i = 1) then 0%nat else flow_cursor h) with (start_pos i h) in Hget.
  cbn zeta in Hget.
  destruct (flows h sid FPA_FLOW_TABLE_TYPE_VLAN_E !! start_pos i h) as [e'|] eqn:Hl.
  - destruct Hget as (-> & -> & Hcur). simpl.
    rewrite (drop_S _ _ _ Hl) in Hlen |- *. simpl in Hlen.
    assert (Hpos : start_pos (i + 1) h1 = S (start_pos i h)).
    { unfold start_pos at 1. rewrite decide_False by lia. done. }
    edestruct (IH (i + 1)) as (h' & Hsame' & Hrec); [lia| |].
    { rewrite Hpos, <- Hsame. lia. }
    exists h'. split; [by etransitivity|]. rewrite Hrec, Hpos, <- Hsame. do 2 f_equal.
    simpl. unfold flow_vidx at 2. unfold bitmap_set1. case_bool_decide; simpl; set_solver.
  - exists h1. split; [done|]. rewrite (proj2 (failed_true st) Hget).
    rewrite drop_ge by (by apply lookup_ge_None_1). simpl. by rewrite union_empty_l_L.
Qed.

(** *** The second loop *)

Definition keys_above (from : Z) (m : gmap Z group) : gset Z := filter (λ k, from < k) (dom m).

Lemma groups_above_none from pid m :
  (∀ k, is_Some (m !! k) → k ≤ from) → groups_above from pid m = ∅.
Proof.
  intros Hmax. apply set_eq. intros v. rewrite elem_of_groups_above. split; [|set_solver].
  intros (gid & g & Hm & Hlt & _). specialize (Hmax gid ltac:(eauto)). lia.
Qed.

Lemma groups_above_step from pid m k g :
  m !! k = Some g → from < k → (∀ k', from < k' → is_Some (m !! k') → k ≤ k') →
  groups_above from pid m =
  match group_vidx pid k g with Some v => {[v]} | None => ∅ end ∪ groups_above k pid m.
Proof.
  intros Hk Hlt Hmin. apply set_eq. intros v.
  rewrite elem_of_union, !elem_of_groups_above. split.
  - intros (gid & g' & Hm & Hg & Hv). specialize (Hmin gid Hg ltac:(eauto)).
    destruct (decide (gid = k)) as [->|]; [left; simplify_eq; rewrite Hv; set_solver|].
    right. exists gid, g'. split_and!; [done|lia|done].
  - intros [Hv|(gid & g' & Hm & Hg & Hv)].
    + exists k, g. destruct (group_vidx pid k g); set_solver.
    + exists gid, g'. split_and!; [done|lia|done].
Qed.

Lemma keys_above_step from m k :
  is_Some (m !! k) → from < k → (∀ k', from < k' → is_Some (m !! k') → k ≤ k') →
  keys_above from m = {[k]} ∪ keys_above k m.
Proof.
  intros Hk Hlt Hmin. apply set_eq. intros x. unfold keys_above.
  rewrite elem_of_union, elem_of_singleton, !elem_of_filter, !elem_of_dom. split.
  - intros [Hx Hs]. specialize (Hmin x Hx Hs). destruct (decide (x = k)); [by left|].
    right. split; [lia|done].
  - intros [->|[? ?]]; split; auto; lia.
Qed.

Lemma bucket_get_vidx sid gid g h :
  groups h sid !! gid = Some g →
  (let '(err, bucket) := fpaLibGroupEntryBucketGet sid gid 0 h in
   if failed err then None
   else Some (OPS_FPA_VIDX_EGRESS (OPS_FPA_GID_VLAN gid) (bucket_pop bucket))) =
  (b ← group_buckets g !! 0; Some (OPS_FPA_VIDX_EGRESS (OPS_FPA_GID_VLAN gid) (bucket_pop b))).
Proof.
  intros Hg. destruct (fpaLibGroupEntryBucketGet _ _ _ _) as [st b] eqn:Hb.
  apply bucket_get in Hb. rewrite Hg in Hb; simpl in Hb.
  destruct (group_buckets g !! 0); simpl.
  - by destruct Hb as [-> ->].
  - by rewrite (proj2 (failed_true st) Hb).
Qed.

Lemma vlan_fetch_groups_spec fuel sid pid gid vmap h :
  (size (keys_above gid (groups h sid)) < fuel)%nat →
  vlan_fetch_groups fuel sid pid gid vmap h =
  Done (groups_above gid pid (groups h sid) ∪ vmap).
Proof.
  revert gid vmap. induction fuel as [|fuel IH]; intros gid vmap Hlen; [lia|].
  simpl. destruct (fpaLibGroupTableGetNext _ _ _) as [st e] eqn:Hget.
  apply group_get_next in Hget as [(-> & Hlt & (g & Hg & He) & Hmin)|[Hst Hmax]].
  - set (k := groupIdentifier e) in *. simpl.
    rewrite (keys_above_step _ _ k), size_union, size_singleton in Hlen
      by (eauto || unfold keys_above; set_solver by lia).
    rewrite (groups_above_step gid pid _ k g) by done.
    rewrite IH by lia. f_equal.
    pose proof (bucket_get_vidx sid k g h Hg) as Hb.
    unfold group_vidx. case_bool_decide; [|set_solver].
    rewrite <- Hb. destruct (fpaLibGroupEntryBucketGet _ _ _ _) as [st' b].
    destruct (failed st'); unfold bitmap_set1; set_solver.
  - rewrite (proj2 (failed_true st) Hst).
    rewrite groups_above_none by done. by rewrite union_empty_l_L.
Qed.

(** Both loops finish and the bitmap read is the one the switch holds. *)
Lemma vlan_fetch_port_vmap fuel sid pid h :
  (length (flows h sid FPA_FLOW_TABLE_TYPE_VLAN_E) < fuel)%nat →
  (size (groups h sid) < fuel)%nat →
  ∃ h', ops_fpa_vlan_fetch fuel sid pid h = Done (port_vmap h sid pid, h') ∧ hw_same h h'.
Proof.
  intros Hf Hg. unfold ops_fpa_vlan_fetch.
  edestruct (vlan_fetch_flows_spec fuel sid pid 1 ∅ h) as (h' & Hsame & ->); [done|done|].
  simpl. rewrite vlan_fetch_groups_spec.
  - exists h'. split; [|done]. rewrite (hw_same_groups _ _ _ Hsame). simpl.
    unfold port_vmap, port_ingress, port_egress. do 2 f_equal. set_solver.
  - rewrite (hw_same_groups _ _ _ Hsame). eapply Nat.le_lt_trans; [|exact Hg].
    rewrite <- size_dom. apply subseteq_size. unfold keys_above. set_solver.
Qed.
End port_vmap.

(** ** The hardware keys of an index

    Untagged ingress entries of a port share one cookie, and the two egress
    indices of a VLAN share one group; deletion goes by these keys. *)

Inductive vkey := KEgress (vid : Z) | KTagged (vid : Z) | KUntagged.

#[export] Instance vkey_eq_dec : EqDecision vkey.
Proof. solve_decision. Defined.

Definition vidx_key (v : Z) : vkey :=
  if OPS_FPA_VIDX_IS_EGRESS v then KEgress (OPS_FPA_VIDX_VID v)
  else if OPS_FPA_VIDX_ARG v then KTagged (OPS_FPA_VIDX_VID v) else KUntagged.

(** An index of a real VLAN. *)
Definition vidx_l2 (v : Z) : Prop := vidx_ok v ∧ OPS_FPA_VIDX_VID v ≠ 0.

(** The abstract port: a set of indices. *)
Definition vmap_del (v : Z) (m : bitmap) : bitmap := filter (λ w, vidx_key w ≠ vidx_key v) m.

(** Some index of [m] has the key of [v]. *)
Definition key_present (v : Z) (m : bitmap) : bool :=
  bool_decide (set_Exists (λ w, vidx_key w = vidx_key v) m).

(** A second egress index for a VLAN is refused. *)
Definition vmap_add (v : Z) (m : bitmap) : bitmap :=
  if OPS_FPA_VIDX_IS_EGRESS v && key_present v m then m else {[v]} ∪ m.

Lemma elem_of_vmap_del v m w : w ∈ vmap_del v m ↔ w ∈ m ∧ vidx_key w ≠ vidx_key v.
Proof. unfold vmap_del. rewrite elem_of_filter. naive_solver. Qed.

Lemma key_present_spec v m :
  key_present v m = true ↔ ∃ w, w ∈ m ∧ vidx_key w = vidx_key v.
Proof. unfold key_present. by rewrite bool_decide_eq_true. Qed.

Lemma vmap_del_absent v m : key_present v m = false → vmap_del v m = m.
Proof.
  intros Hk. apply set_eq. intros w. rewrite elem_of_vmap_del. split; [naive_solver|].
  intros Hw. split; [done|]. intros Heq.
  assert (key_present v m = true) by (apply key_present_spec; eauto). congruence.
Qed.

Lemma vlan_cookie_value pid vid tagged :
  pid_ok pid → vid_ok vid →
  OPS_FPA_VLAN_COOKIE pid vid tagged = (if tagged then vid * 2 ^ 32 else 0) + pid.
Proof.
  unfold pid_ok, vid_ok. intros Hp Hv. unfold OPS_FPA_VLAN_COOKIE, u64. destruct tagged.
  - rewrite (wrap_small 64 vid), (wrap_small 64 pid) by lia.
    rewrite (wrap_small 64) by (rewrite Z.shiftl_mul_pow2; lia).
    apply lor_shiftl_add; lia.
  - rewrite wrap_small; lia.
Qed.

Section port_refinement.
Context {F : FPA_SDK} {O : FPA_OBS F}.

Definition vlan_mask (tagged : bool) : Z :=
  if tagged then FPA_FLOW_VLAN_MASK_TAG else FPA_FLOW_VLAN_MASK_UNTAG.

(** A VLAN table entry of the plugin. *)
Definition vlan_flow_wf (e : FPA_FLOW_TABLE_ENTRY_STC) : Prop :=
  ∃ pid vid tagged, pid_ok pid ∧ vid_ok vid ∧
    vl_inPort (data_vlan e) = pid ∧ vl_vlanId (data_vlan e) = vid ∧
    vl_vlanIdMask (data_vlan e) = vlan_mask tagged ∧
    cookie e = OPS_FPA_VLAN_COOKIE pid vid tagged.

(** A group is an L2 interface group with its bucket, or carries no VLAN. *)
Definition vlan_group_wf (gid : Z) (g : group) : Prop :=
  (∃ pid vid pop, pid_ok pid ∧ vid_ok vid ∧
     l2_group_id pid vid = (FPA_OK, gid) ∧ g = l2_group gid pid pop) ∨
  OPS_FPA_GID_VLAN gid = 0.

(** What the plugin keeps true of the tables of switch [sid]. *)
Definition vlan_wf (h : hw) (sid : Z) : Prop :=
  Forall vlan_flow_wf (flows h sid FPA_FLOW_TABLE_TYPE_VLAN_E) ∧
  map_Forall vlan_group_wf (groups h sid).

(** The port's bitmap without VLAN 0. *)
Definition l2map (h : hw) (sid pid : Z) : bitmap :=
  filter (λ v, OPS_FPA_VIDX_VID v ≠ 0) (port_vmap h sid pid).

Lemma vlan_wf_same h h' sid : hw_same h h' → vlan_wf h sid → vlan_wf h' sid.
Proof. intros [Hf Hg] [? ?]. split; [by rewrite Hf|by rewrite Hg]. Qed.

Lemma l2map_same h h' sid pid : hw_same h h' → l2map h' sid pid = l2map h sid pid.
Proof. intros Hs. unfold l2map. by rewrite <- Hs. Qed.

Context `{!FPA_LAWS F O}.

Lemma vlan_mask_tag tagged : bool_decide (vlan_mask tagged = FPA_FLOW_VLAN_MASK_TAG) = tagged.
Proof.
  pose proof vlan_masks_differ. destruct tagged; simpl.
  - by apply bool_decide_eq_true_2.
  - by apply bool_decide_eq_false_2.
Qed.

Lemma vlan_mask_inj t t' : vlan_mask t = vlan_mask t' → t = t'.
Proof. intros Heq. by rewrite <- (vlan_mask_tag t), Heq, vlan_mask_tag. Qed.

Lemma l2_group_id_fields pid vid st gid :
  pid_ok pid → vid_ok vid → l2_group_id pid vid = (st, gid) →
  st = FPA_OK ∧ OPS_FPA_GID_PORT gid = pid ∧ OPS_FPA_GID_VLAN gid = vid ∧ 0 ≤ gid.
Proof.
  intros Hp Hv Hid. eapply group_build_l2 in Hid as (? & ? & ? & ? & ?); [|done..].
  split_and!; [done|done|done|lia].
Qed.

(** The entry or group that stands for an index of port [pid]. *)
Definition holds_ingress (h : hw) (sid pid : Z) (vid : Z) (tagged : bool) : Prop :=
  ∃ e, e ∈ flows h sid FPA_FLOW_TABLE_TYPE_VLAN_E ∧ vl_inPort (data_vlan e) = pid ∧
    vl_vlanId (data_vlan e) = vid ∧ vl_vlanIdMask (data_vlan e) = vlan_mask tagged.

Definition holds_egress (h : hw) (sid pid : Z) (vid : Z) (pop : bool) : Prop :=
  groups h sid !! (l2_group_id pid vid).2 = Some (l2_group (l2_group_id pid vid).2 pid pop).

Definition holds (h : hw) (sid pid v : Z) : Prop :=
  if OPS_FPA_VIDX_IS_EGRESS v
  then holds_egress h sid pid (OPS_FPA_VIDX_VID v) (OPS_FPA_VIDX_ARG v)
  else holds_ingress h sid pid (OPS_FPA_VIDX_VID v) (OPS_FPA_VIDX_ARG v).

Lemma vidx_eta v egress arg vid :
  vidx_ok v → OPS_FPA_VIDX_IS_EGRESS v = egress → OPS_FPA_VIDX_ARG v = arg →
  OPS_FPA_VIDX_VID v = vid → v = vidx_make egress arg vid.
Proof. intros Hv <- <- <-. by apply vidx_ok_make. Qed.

Lemma vidx_make_ok egress arg vid : vid_ok vid → vidx_ok (vidx_make egress arg vid).
Proof.
  intros Hv. unfold vidx_ok. rewrite vidx_make_value by done. unfold vid_ok in Hv.
  destruct egress, arg; simpl; lia.
Qed.

Lemma flow_vidx_holds h sid pid e v :
  vlan_wf h sid → e ∈ flows h sid FPA_FLOW_TABLE_TYPE_VLAN_E → flow_vidx pid e = Some v →
  vidx_ok v ∧ holds h sid pid v.
Proof.
  intros [Hfl _] He Hv. unfold flow_vidx in Hv. case_bool_decide as Hin; [|done]. simplify_eq/=.
  eapply Forall_forall in Hfl as (p & vid & t & Hp & Hvid & Hd1 & Hd2 & Hd3 & _); [|done].
  rewrite Hd3, vlan_mask_tag, ingress_make, Hd2.
  pose proof (vidx_fields false t vid Hvid) as (Hf1 & Hf2 & Hf3).
  split; [by apply vidx_make_ok|].
  unfold holds. rewrite Hf1, Hf2, Hf3. exists e. split_and!; congruence.
Qed.

Lemma group_vidx_holds h sid pid gid g v :
  vlan_wf h sid → groups h sid !! gid = Some g → group_vidx pid gid g = Some v →
  OPS_FPA_VIDX_VID v ≠ 0 → vidx_ok v ∧ holds h sid pid v.
Proof.
  intros [_ Hgr] Hg Hv Hnz. unfold group_vidx in Hv. case_bool_decide as Hport; [|done].
  apply bind_Some in Hv as (b & Hb & [= <-]). rewrite egress_make in *.
  destruct (Hgr _ _ Hg) as [(p & vid & pop & Hp & Hvid & Hid & ->)|Hz].
  - pose proof Hid as Hid'.
    apply l2_group_id_fields in Hid' as (_ & Hf & Hv' & _); [|done|done].
    simpl in Hb. rewrite lookup_singleton_eq in Hb. simplify_eq/=.
    unfold bucket_pop; simpl.
    pose proof (vidx_fields true pop _ Hvid) as (Hf1 & Hf2 & Hf3).
    split; [by apply vidx_make_ok|].
    unfold holds. rewrite Hf1, Hf2, Hf3. unfold holds_egress. by rewrite Hid.
  - exfalso. apply Hnz. rewrite Hz. by apply vidx_fields.
Qed.

Lemma holds_port_vmap h sid pid v :
  pid_ok pid → vidx_l2 v → holds h sid pid v → v ∈ port_vmap h sid pid.
Proof.
  intros Hpid [Hok Hnz] Hh. destruct (vidx_ok_make _ Hok) as [Hmk Hvid].
  unfold port_vmap. rewrite elem_of_union, elem_of_port_ingress, elem_of_port_egress.
  unfold holds in Hh. destruct (OPS_FPA_VIDX_IS_EGRESS v) eqn:Heg.
  - right. unfold holds_egress in Hh.
    destruct (l2_group_id pid (OPS_FPA_VIDX_VID v)) as [st gid] eqn:Hid. simpl in Hh.
    apply l2_group_id_fields in Hid as (_ & Hf & Hv' & Hnn); [|done|done].
    exists gid, (l2_group gid pid (OPS_FPA_VIDX_ARG v)). split_and!; [done| |].
    + assert (gid ≠ 0); [|lia]. intros ->. by rewrite <- Hv' in Hnz.
    + unfold group_vidx. rewrite bool_decide_eq_true_2 by congruence.
      simpl. rewrite lookup_singleton_eq; simpl. unfold bucket_pop; simpl.
      f_equal. rewrite Hv'. symmetry. exact Hmk.
  - left. destruct Hh as (e & He & Hd1 & Hd2 & Hd3). exists e. split; [done|].
    unfold flow_vidx. rewrite bool_decide_eq_true_2 by congruence.
    rewrite Hd3, vlan_mask_tag, Hd2. f_equal. symmetry. exact Hmk.
Qed.

Lemma elem_of_l2map h sid pid v :
  vlan_wf h sid → pid_ok pid → v ∈ l2map h sid pid ↔ vidx_l2 v ∧ holds h sid pid v.
Proof.
  intros Hwf Hpid. unfold l2map. rewrite elem_of_filter. split.
  - unfold port_vmap. rewrite elem_of_union, elem_of_port_ingress, elem_of_port_egress.
    intros [Hnz [(e & He & Hv)|(gid & g & Hg & _ & Hv)]].
    + destruct (flow_vidx_holds _ _ _ _ _ Hwf He Hv). by split; [split|].
    + destruct (group_vidx_holds _ _ _ _ _ _ Hwf Hg Hv Hnz). by split; [split|].
  - intros [[Hok Hnz] Hh]. split; [done|]. by apply holds_port_vmap.
Qed.

(** *** Ingress indices *)

Lemma vlan_flow_entry_wf e pid vid tagged :
  pid_ok pid → vid_ok vid → vlan_flow_wf (vlan_flow_entry e pid vid tagged).
Proof. intros. exists pid, vid, tagged. by destruct tagged. Qed.

Lemma vlan_add_ingress_ok sid pid v h h' :
  pid_ok pid → vidx_ok v → OPS_FPA_VIDX_IS_EGRESS v = false → vlan_wf h sid →
  ops_fpa_vlan_add sid pid v h = (false, h') →
  vlan_wf h' sid ∧ hw_same_but_table sid FPA_FLOW_TABLE_TYPE_VLAN_E h h' ∧
  ∀ pid' vid tagged, holds_ingress h' sid pid' vid tagged ↔
    holds_ingress h sid pid' vid tagged ∨
    (pid' = pid ∧ vid = OPS_FPA_VIDX_VID v ∧ tagged = OPS_FPA_VIDX_ARG v).
Proof.
  intros Hpid Hv Heg [Hfl Hgr]. destruct (vidx_ok_make _ Hv) as [_ Hvid].
  unfold ops_fpa_vlan_add. rewrite Heg. intros Hadd. fpa_run.
  match goal with H : fpaLibFlowEntryAdd _ _ ?e _ = _ |- _ =>
    set (n := e) in *; apply flow_add_ok in H as [(Hin & Hnew & Hold) Hsame] end.
  split_and!; [split| done |].
  - apply Forall_forall. intros e' [->|He']%Hnew; [by apply vlan_flow_entry_wf|].
    by eapply Forall_forall in Hfl.
  - destruct Hsame as [_ Hg]. by rewrite Hg.
  - intros pid' vid tagged. split.
    + intros (e' & [->|He']%Hnew & Hd1 & Hd2 & Hd3); [right|left; by exists e'].
      simpl in Hd1, Hd2, Hd3. subst. split_and!; [done|done|]. by apply vlan_mask_inj.
    + intros [(e' & He' & Hd1 & Hd2 & Hd3)|(-> & -> & ->)].
      * destruct (Hold _ He') as [?|Hm]; [by exists e'|].
        unfold match_of in Hm. injection Hm as Hm1 Hm2 Hm3.
        exists n. split_and!; [done|etrans; [symmetry; eassumption|done]..].
      * by exists n.
Qed.

Lemma vlan_add_ingress_err sid pid v h h' :
  OPS_FPA_VIDX_IS_EGRESS v = false →
  ops_fpa_vlan_add sid pid v h = (true, h') → hw_same h h'.
Proof.
  intros Heg. unfold ops_fpa_vlan_add. rewrite Heg. intros Hadd. fpa_run.
  by eapply flow_add_err.
Qed.

Lemma vlan_cookie_inj p v t p' v' t' :
  pid_ok p → vid_ok v → v ≠ 0 → pid_ok p' → vid_ok v' → v' ≠ 0 →
  OPS_FPA_VLAN_COOKIE p v t = OPS_FPA_VLAN_COOKIE p' v' t' ↔
  p = p' ∧ t = t' ∧ (t = true → v = v').
Proof.
  intros Hp Hv Hnz Hp' Hv' Hnz'. rewrite !vlan_cookie_value by done.
  unfold pid_ok, vid_ok in *.
  destruct t, t'; split; intros; destruct_and?; try split_and!; try done; try lia.
Qed.

(** What the cookie of an index stands for: the index itself when it is tagged,
    all untagged indices of the port otherwise. *)
Lemma vlan_del_ingress_ok sid pid v h h' :
  pid_ok pid → vidx_l2 v → OPS_FPA_VIDX_IS_EGRESS v = false → vlan_wf h sid →
  ops_fpa_vlan_del sid pid v h = (false, h') →
  vlan_wf h' sid ∧ hw_same_but_table sid FPA_FLOW_TABLE_TYPE_VLAN_E h h' ∧
  ∀ pid' vid tagged, vid_ok vid → vid ≠ 0 → pid_ok pid' →
    holds_ingress h' sid pid' vid tagged ↔
    holds_ingress h sid pid' vid tagged ∧
    ¬ (pid' = pid ∧ tagged = OPS_FPA_VIDX_ARG v ∧ (tagged = true → vid = OPS_FPA_VIDX_VID v)).
Proof.
  intros Hpid [Hv Hnz] Heg [Hfl Hgr]. destruct (vidx_ok_make _ Hv) as [_ Hvid].
  unfold ops_fpa_vlan_del. rewrite Heg. intros Hdel. fpa_run.
  match goal with H : fpaLibFlowTableCookieDelete _ _ _ _ = _ |- _ =>
    apply flow_cookie_delete_ok in H as [Hin Hsame] end.
  split_and!; [split|done|].
  - apply Forall_forall. intros e' [He' _]%Hin. by eapply Forall_forall in Hfl.
  - destruct Hsame as [_ Hg]. by rewrite Hg.
  - intros pid' vid tagged Hvid' Hnz' Hpid'.
    assert (Hck : ∀ e, e ∈ flows h sid FPA_FLOW_TABLE_TYPE_VLAN_E →
      vl_inPort (data_vlan e) = pid' → vl_vlanId (data_vlan e) = vid →
      vl_vlanIdMask (data_vlan e) = vlan_mask tagged →
      cookie e = OPS_FPA_VLAN_COOKIE pid' vid tagged).
    { intros e He <- <- Hm. eapply Forall_forall in Hfl as (p & w & t & _ & _ & <- & <- & Hm' & ->); [|done].
      f_equal. apply vlan_mask_inj. congruence. }
    pose proof (vlan_cookie_inj pid' vid tagged pid (OPS_FPA_VIDX_VID v) (OPS_FPA_VIDX_ARG v)
      Hpid' Hvid' Hnz' Hpid Hvid Hnz) as Hinj.
    split.
    + intros (e & [He Hc]%Hin & Hd1 & Hd2 & Hd3). split; [by exists e|].
      rewrite (Hck e He Hd1 Hd2 Hd3), Hinj in Hc. done.
    + intros [(e & He & Hd1 & Hd2 & Hd3) Hne]. exists e. split_and!; [|done..].
      apply Hin. split; [done|]. by rewrite (Hck e He Hd1 Hd2 Hd3), Hinj.
Qed.

Lemma vlan_del_ingress_err sid pid v h h' :
  OPS_FPA_VIDX_IS_EGRESS v = false →
  ops_fpa_vlan_del sid pid v h = (true, h') → hw_same h h'.
Proof.
  intros Heg. unfold ops_fpa_vlan_del. rewrite Heg. intros Hdel. fpa_run.
  by eapply flow_cookie_delete_err.
Qed.

(** *** Egress indices *)

Lemma l2_group_id_inj pid vid pid' vid' :
  pid_ok pid → vid_ok vid → pid_ok pid' → vid_ok vid' →
  (l2_group_id pid vid).2 = (l2_group_id pid' vid').2 ↔ pid = pid' ∧ vid = vid'.
Proof.
  intros Hp Hv Hp' Hv'. split; [|by intros [-> ->]].
  destruct (l2_group_id pid vid) as [st gid] eqn:Hid.
  destruct (l2_group_id pid' vid') as [st' gid'] eqn:Hid'. simpl. intros ->.
  apply l2_group_id_fields in Hid as (_ & <- & <- & _); [|done..].
  by apply l2_group_id_fields in Hid' as (_ & <- & <- & _).
Qed.

Lemma l2_group_id_ok pid vid :
  pid_ok pid → vid_ok vid → l2_group_id pid vid = (FPA_OK, (l2_group_id pid vid).2).
Proof.
  intros Hp Hv. destruct (l2_group_id pid vid) as [st gid] eqn:Hid. simpl.
  by apply l2_group_id_fields in Hid as (-> & _).
Qed.

Lemma egress_present h sid pid vid :
  vlan_wf h sid → pid_ok pid → vid_ok vid → vid ≠ 0 →
  is_Some (groups h sid !! (l2_group_id pid vid).2) ↔ ∃ pop, holds_egress h sid pid vid pop.
Proof.
  intros [_ Hgr] Hp Hv Hnz. unfold holds_egress. split; [|intros [pop ->]; eauto].
  intros [g Hg]. destruct (Hgr _ _ Hg) as [(p & w & pop & Hp' & Hw & Hid & Heq)|Hz].
  - exists pop. rewrite Hg, Heq. do 2 f_equal.
    assert ((l2_group_id p w).2 = (l2_group_id pid vid).2) as Hq by (by rewrite Hid).
    by apply l2_group_id_inj in Hq as [-> _].
  - pose proof (l2_group_id_ok pid vid Hp Hv) as Hid.
    apply l2_group_id_fields in Hid as (_ & _ & Hf & _); [|done..]. congruence.
Qed.

Lemma vlan_add_egress_ok sid pid v h h' :
  pid_ok pid → vidx_ok v → OPS_FPA_VIDX_IS_EGRESS v = true → vlan_wf h sid →
  ops_fpa_vlan_add sid pid v h = (false, h') →
  groups h sid !! (l2_group_id pid (OPS_FPA_VIDX_VID v)).2 = None ∧
  vlan_wf h' sid ∧ hw_same_but_groups sid h h' ∧
  ∀ pid' vid pop, pid_ok pid' → vid_ok vid →
    holds_egress h' sid pid' vid pop ↔
    holds_egress h sid pid' vid pop ∨
    (pid' = pid ∧ vid = OPS_FPA_VIDX_VID v ∧ pop = OPS_FPA_VIDX_ARG v).
Proof.
  intros Hpid Hv Heg [Hfl Hgr]. destruct (vidx_ok_make _ Hv) as [_ Hvid].
  unfold ops_fpa_vlan_add. rewrite Heg. intros Hadd.
  destruct (ops_fpa_route_add_l2_group _ _ _ _ _) as [[err gid] h1] eqn:Hl2. simplify_eq.
  apply add_l2_group_ok in Hl2 as (Hid & Hn & Hg & Hsame).
  assert (Hgid : (l2_group_id pid (OPS_FPA_VIDX_VID v)).2 = gid) by (by rewrite Hid).
  split_and!; [congruence|split|done|].
  - destruct Hsame as [Hf _]. by rewrite Hf.
  - rewrite Hg. apply map_Forall_insert_2; [|done]. left. eauto 10.
  - intros pid' vid pop Hpid' Hvid'. unfold holds_egress.
    rewrite Hg, lookup_insert. case_decide as Hd.
    + assert (pid = pid' ∧ OPS_FPA_VIDX_VID v = vid) as [<- <-].
      { apply l2_group_id_inj; [done..|congruence]. }
      rewrite Hgid, Hn. split.
      * intros Hq%Some_inj%l2_group_inj. auto.
      * by intros [|(_ & _ & ->)].
    + split; [auto|]. intros [|(-> & -> & _)]; [done|]. congruence.
Qed.

Lemma vlan_add_egress_err `{!FPA_DELETES F O} sid pid v h h' :
  OPS_FPA_VIDX_IS_EGRESS v = true →
  ops_fpa_vlan_add sid pid v h = (true, h') → hw_same h h'.
Proof.
  intros Heg. unfold ops_fpa_vlan_add. rewrite Heg. intros Hadd.
  destruct (ops_fpa_route_add_l2_group _ _ _ _ _) as [[err gid] h1] eqn:Hl2. simplify_eq.
  by eapply add_l2_group_err.
Qed.

Lemma vlan_del_egress_ok sid pid v h h' :
  pid_ok pid → vidx_ok v → OPS_FPA_VIDX_IS_EGRESS v = true → vlan_wf h sid →
  ops_fpa_vlan_del sid pid v h = (false, h') →
  vlan_wf h' sid ∧ hw_same_but_groups sid h h' ∧
  ∀ pid' vid pop, pid_ok pid' → vid_ok vid →
    holds_egress h' sid pid' vid pop ↔
    holds_egress h sid pid' vid pop ∧ ¬ (pid' = pid ∧ vid = OPS_FPA_VIDX_VID v).
Proof.
  intros Hpid Hv Heg [Hfl Hgr]. destruct (vidx_ok_make _ Hv) as [_ Hvid].
  unfold ops_fpa_vlan_del. rewrite Heg. change (fpaLibGroupIdentifierBuild _) with
    (l2_group_id pid (OPS_FPA_VIDX_VID v)).
  destruct (l2_group_id pid (OPS_FPA_VIDX_VID v)) as [st gid] eqn:Hid. intros. fpa_run.
  match goal with H : fpaLibGroupTableEntryDelete _ _ _ = _ |- _ =>
    apply group_delete_ok in H as [Hg Hsame] end.
  split_and!; [split|done|].
  - destruct Hsame as [Hf _]. by rewrite Hf.
  - rewrite Hg. by apply map_Forall_delete.
  - intros pid' vid pop Hpid' Hvid'. unfold holds_egress.
    rewrite Hg, lookup_delete.
    assert (gid = (l2_group_id pid (OPS_FPA_VIDX_VID v)).2) as Heq by (by rewrite Hid).
    rewrite Heq. case_decide as Hd.
    + apply l2_group_id_inj in Hd as [<- <-]; [|done..]. naive_solver.
    + split; [|by intros [? _]]. intros Hl. split; [done|]. intros [-> ->]. done.
Qed.

Lemma vlan_del_egress_err sid pid v h h' :
  OPS_FPA_VIDX_IS_EGRESS v = true →
  ops_fpa_vlan_del sid pid v h = (true, h') → hw_same h h'.
Proof.
  intros Heg. unfold ops_fpa_vlan_del. rewrite Heg. intros Hdel. fpa_run.
  by eapply group_delete_err.
Qed.

(** *** The port as an abstract set *)

Lemma vidx_l2_eq v w :
  vidx_l2 v → vidx_l2 w → OPS_FPA_VIDX_IS_EGRESS v = OPS_FPA_VIDX_IS_EGRESS w →
  OPS_FPA_VIDX_ARG v = OPS_FPA_VIDX_ARG w → OPS_FPA_VIDX_VID v = OPS_FPA_VIDX_VID w → v = w.
Proof.
  intros [Hv _] [Hw _] He Ha Hd.
  rewrite (proj1 (vidx_ok_make v Hv)), (proj1 (vidx_ok_make w Hw)). congruence.
Qed.

Lemma vidx_l2_vid v : vidx_l2 v → vid_ok (OPS_FPA_VIDX_VID v) ∧ OPS_FPA_VIDX_VID v ≠ 0.
Proof. intros [Hv ?]. split; [|done]. by apply vidx_ok_make. Qed.

(** Ingress and egress live in different tables. *)
Lemma holds_ingress_frame h h' sid sid' pid vid t :
  hw_same_but_groups sid h h' →
  holds_ingress h' sid' pid vid t ↔ holds_ingress h sid' pid vid t.
Proof. intros [Hf _]. unfold holds_ingress. by rewrite Hf. Qed.

Lemma holds_egress_frame h h' sid t sid' pid vid p :
  hw_same_but_table sid t h h' →
  holds_egress h' sid' pid vid p ↔ holds_egress h sid' pid vid p.
Proof. intros [_ Hg]. unfold holds_egress. by rewrite Hg. Qed.

(** On success an index is added to its port and to no other. *)
Lemma vlan_add_holds sid pid v h h' :
  pid_ok pid → vidx_l2 v → vlan_wf h sid → ops_fpa_vlan_add sid pid v h = (false, h') →
  vlan_wf h' sid ∧
  (∀ pid' w, pid_ok pid' → vidx_l2 w →
     holds h' sid pid' w ↔ holds h sid pid' w ∨ (pid' = pid ∧ w = v)) ∧
  (OPS_FPA_VIDX_IS_EGRESS v = true → ∀ pop, ¬ holds_egress h sid pid (OPS_FPA_VIDX_VID v) pop).
Proof.
  intros Hpid Hv Hwf Hadd. pose proof Hv as [Hok _].
  destruct (OPS_FPA_VIDX_IS_EGRESS v) eqn:Heg.
  - apply vlan_add_egress_ok in Hadd as (Hn & Hwf' & Hsame & Hh); [|done..].
    split_and!; [done| |intros _ pop Hpop; unfold holds_egress in Hpop; congruence].
    intros pid' w Hpid' Hw. pose proof (vidx_l2_vid w Hw) as [Hwv _].
    unfold holds. destruct (OPS_FPA_VIDX_IS_EGRESS w) eqn:Hew.
    + rewrite Hh by done. split; intros [?|[-> Hrest]]; auto; right; split; auto.
      * destruct Hrest. apply vidx_l2_eq; congruence.
      * by subst.
    + rewrite holds_ingress_frame by done. split; [auto|].
      intros [?|[_ ->]]; [done|congruence].
  - apply vlan_add_ingress_ok in Hadd as (Hwf' & Hsame & Hh); [|done..].
    split_and!; [done| |done].
    intros pid' w Hpid' Hw. unfold holds. destruct (OPS_FPA_VIDX_IS_EGRESS w) eqn:Hew.
    + rewrite holds_egress_frame by done. split; [auto|].
      intros [?|[_ ->]]; [done|congruence].
    + rewrite Hh. split; intros [?|[-> Hrest]]; auto; right; split; auto.
      * destruct Hrest. apply vidx_l2_eq; congruence.
      * by subst.
Qed.

Ltac solve_keys := clear; repeat case_match; simplify_eq; intuition congruence.

(** On success every index of the port with the same key is gone. *)
Lemma vlan_del_holds sid pid v h h' :
  pid_ok pid → vidx_l2 v → vlan_wf h sid → ops_fpa_vlan_del sid pid v h = (false, h') →
  vlan_wf h' sid ∧
  (∀ pid' w, pid_ok pid' → vidx_l2 w →
     holds h' sid pid' w ↔ holds h sid pid' w ∧ ¬ (pid' = pid ∧ vidx_key w = vidx_key v)).
Proof.
  intros Hpid Hv Hwf Hdel. pose proof Hv as [Hok _].
  unfold vidx_key, holds. destruct (OPS_FPA_VIDX_IS_EGRESS v) eqn:Heg.
  - apply vlan_del_egress_ok in Hdel as (Hwf' & Hsame & Hh); [|done..].
    split; [done|]. intros pid' w Hpid' Hw. pose proof (vidx_l2_vid w Hw) as [Hwv _].
    destruct (OPS_FPA_VIDX_IS_EGRESS w) eqn:Hew.
    + rewrite Hh by done. solve_keys.
    + rewrite holds_ingress_frame by done. solve_keys.
  - apply vlan_del_ingress_ok in Hdel as (Hwf' & Hsame & Hh); [|done..].
    split; [done|]. intros pid' w Hpid' Hw. pose proof (vidx_l2_vid w Hw) as [Hwv Hwn].
    destruct (OPS_FPA_VIDX_IS_EGRESS w) eqn:Hew.
    + rewrite holds_egress_frame by done. solve_keys.
    + rewrite Hh by done.
      destruct (OPS_FPA_VIDX_ARG v), (OPS_FPA_VIDX_ARG w); solve_keys.
Qed.

Lemma l2map_vidx h sid pid v :
  vlan_wf h sid → pid_ok pid → v ∈ l2map h sid pid → vidx_l2 v.
Proof. intros Hwf Hp Hv. by apply elem_of_l2map in Hv as [? _]. Qed.

Lemma key_present_egress h sid pid v :
  vlan_wf h sid → pid_ok pid → vidx_l2 v → OPS_FPA_VIDX_IS_EGRESS v = true →
  key_present v (l2map h sid pid) = true ↔
  ∃ pop, holds_egress h sid pid (OPS_FPA_VIDX_VID v) pop.
Proof.
  intros Hwf Hp Hv Heg. rewrite key_present_spec. unfold vidx_key; rewrite Heg. split.
  - intros (w & [Hw Hh]%elem_of_l2map & Hk); [|done..]. unfold holds in Hh.
    destruct (OPS_FPA_VIDX_IS_EGRESS w); [|by case_match].
    injection Hk as Hk. rewrite <- Hk. eauto.
  - intros [pop Hpop]. destruct (vidx_l2_vid _ Hv) as [Hvv Hvn].
    set (w := vidx_make true pop (OPS_FPA_VIDX_VID v)).
    destruct (vidx_fields true pop _ Hvv) as (Hf1 & Hf2 & Hf3).
    exists w. fold w in Hf1, Hf2, Hf3. rewrite Hf1, Hf2. split; [|done].
    apply elem_of_l2map; [done..|]. split; [split|].
    + by apply vidx_make_ok.
    + by rewrite Hf1.
    + unfold holds. by rewrite Hf1, Hf2, Hf3.
Qed.

Lemma vlan_add_succeeds `{!FPA_NOFAIL F O} sid pid v h :
  vlan_wf h sid → pid_ok pid → vidx_l2 v →
  OPS_FPA_VIDX_IS_EGRESS v && key_present v (l2map h sid pid) = false →
  (ops_fpa_vlan_add sid pid v h).1 = false.
Proof.
  intros Hwf Hp Hv Hk. destruct (vidx_l2_vid _ Hv) as [Hvv Hvn].
  unfold ops_fpa_vlan_add. destruct (OPS_FPA_VIDX_IS_EGRESS v) eqn:Heg.
  - assert (Hn : groups h sid !! (l2_group_id pid (OPS_FPA_VIDX_VID v)).2 = None).
    { apply eq_None_not_Some. rewrite egress_present by done.
      rewrite <- key_present_egress by done. simpl in Hk. congruence. }
    pose proof (add_l2_group_succeeds sid pid _ (OPS_FPA_VIDX_ARG v) h _
      (l2_group_id_ok pid _ Hp Hvv) Hn) as Hok.
    destruct (ops_fpa_route_add_l2_group _ _ _ _ _) as [[err gid] h']. by simplify_eq/=.
  - destruct (fpaLibFlowEntryInit _ _ _) as [? e].
    match goal with |- context [fpaLibFlowEntryAdd _ ?t ?e _] =>
      pose proof (flow_add_succeeds sid t e h) as Hok;
      destruct (fpaLibFlowEntryAdd sid t e h) as [st h'] end.
    simpl in *. by rewrite Hok.
Qed.

(** [ops_fpa_vlan_add] implements [vmap_add] on its port and leaves the others. *)
Lemma vlan_add_refines `{!FPA_NOFAIL F O, !FPA_DELETES F O} sid pid v h err h' :
  vlan_wf h sid → pid_ok pid → vidx_l2 v →
  ops_fpa_vlan_add sid pid v h = (err, h') →
  vlan_wf h' sid ∧ l2map h' sid pid = vmap_add v (l2map h sid pid) ∧
  ∀ pid', pid_ok pid' → pid' ≠ pid → l2map h' sid pid' = l2map h sid pid'.
Proof.
  intros Hwf Hp Hv Hadd. unfold vmap_add.
  destruct (OPS_FPA_VIDX_IS_EGRESS v && key_present v (l2map h sid pid)) eqn:Hk.
  - apply andb_true_iff in Hk as [Heg [pop Hpop]%key_present_egress]; [|done..].
    destruct err.
    + apply vlan_add_egress_err in Hadd; [|done].
      split_and!; [by eapply vlan_wf_same|by apply l2map_same|intros; by apply l2map_same].
    + by apply vlan_add_holds in Hadd as (_ & _ & Hno); [destruct (Hno Heg pop)|..].
  - pose proof (vlan_add_succeeds sid pid v h Hwf Hp Hv Hk) as Hok.
    rewrite Hadd in Hok; simplify_eq/=.
    apply vlan_add_holds in Hadd as (Hwf' & Hh & _); [|done..].
    split_and!; [done| |].
    + apply set_eq. intros w.
      rewrite elem_of_union, elem_of_singleton, !elem_of_l2map by done. split.
      * intros [Hw Hhw]. apply Hh in Hhw as [?|[_ ->]]; auto.
      * intros [->|[Hw Hhw]]; (split; [done|]); apply Hh; auto.
    + intros pid' Hp' Hne. apply set_eq. intros w. rewrite !elem_of_l2map by done. split.
      * intros [Hw Hhw]. apply Hh in Hhw as [?|[? _]]; auto; done.
      * intros [Hw Hhw]. split; [done|]. apply Hh; auto.
Qed.

Lemma vlan_del_succeeds `{!FPA_DELETES F O} sid pid v h :
  vlan_wf h sid → pid_ok pid → vidx_l2 v → key_present v (l2map h sid pid) = true →
  (ops_fpa_vlan_del sid pid v h).1 = false.
Proof.
  intros Hwf Hp Hv Hk. destruct (vidx_l2_vid _ Hv) as [Hvv Hvn].
  unfold ops_fpa_vlan_del. destruct (OPS_FPA_VIDX_IS_EGRESS v) eqn:Heg.
  - apply key_present_egress in Hk; [|done..]. rewrite <- egress_present in Hk by done.
    change (fpaLibGroupIdentifierBuild _) with (l2_group_id pid (OPS_FPA_VIDX_VID v)).
    apply group_delete_succeeds in Hk.
    destruct (l2_group_id pid _) as [? gid]; simpl in *.
    destruct (fpaLibGroupTableEntryDelete _ _ _). by simplify_eq/=.
  - apply key_present_spec in Hk as (w & [Hw Hh]%elem_of_l2map & Hkw); [|done..].
    unfold vidx_key in Hkw. rewrite Heg in Hkw. unfold holds in Hh.
    destruct (OPS_FPA_VIDX_IS_EGRESS w); [by case_match|].
    destruct Hh as (e & He & Hd1 & Hd2 & Hd3).
    match goal with |- context [fpaLibFlowTableCookieDelete _ ?t ?c _] =>
      pose proof (flow_cookie_delete_succeeds sid t c h) as Hok;
      destruct (fpaLibFlowTableCookieDelete sid t c h) as [st h'] end.
    simpl in *. rewrite Hok; [done|]. exists e. split; [done|].
    destruct Hwf as [Hfl _].
    eapply Forall_forall in Hfl as (p & x & t & _ & _ & <- & <- & Hm & ->); [|done].
    rewrite Hd1, Hd2. rewrite Hd3 in Hm. apply vlan_mask_inj in Hm as <-.
    destruct (OPS_FPA_VIDX_ARG w), (OPS_FPA_VIDX_ARG v); simplify_eq; simpl; congruence.
Qed.

(** [ops_fpa_vlan_del] implements [vmap_del] on its port and leaves the others. *)
Lemma vlan_del_refines `{!FPA_DELETES F O} sid pid v h err h' :
  vlan_wf h sid → pid_ok pid → vidx_l2 v →
  ops_fpa_vlan_del sid pid v h = (err, h') →
  vlan_wf h' sid ∧ l2map h' sid pid = vmap_del v (l2map h sid pid) ∧
  ∀ pid', pid_ok pid' → pid' ≠ pid → l2map h' sid pid' = l2map h sid pid'.
Proof.
  intros Hwf Hp Hv Hdel. destruct err.
  - assert (hw_same h h').
    { destruct (OPS_FPA_VIDX_IS_EGRESS v) eqn:Heg;
        [by eapply vlan_del_egress_err|by eapply vlan_del_ingress_err]. }
    destruct (key_present v (l2map h sid pid)) eqn:Hk.
    { apply vlan_del_succeeds in Hk; [|done..]. by rewrite Hdel in Hk. }
    rewrite vmap_del_absent by done.
    split_and!; [by eapply vlan_wf_same|by apply l2map_same|intros; by apply l2map_same].
  - apply vlan_del_holds in Hdel as (Hwf' & Hh); [|done..].
    split_and!; [done| |].
    + apply set_eq. intros w. rewrite elem_of_vmap_del, !elem_of_l2map by done. split.
      * intros [Hw Hhw]. apply Hh in Hhw as [? Hne]; auto.
      * intros [[Hw Hhw] Hne]. split; [done|]. apply Hh; [done..|]. naive_solver.
    + intros pid' Hp' Hne. apply set_eq. intros w. rewrite !elem_of_l2map by done. split.
      * intros [Hw Hhw]. apply Hh in Hhw as [? _]; auto.
      * intros [Hw Hhw]. split; [done|]. apply Hh; [done..|]. naive_solver.
Qed.
End port_refinement.

(** ** Internal VLANs *)

Section internal_vlans.
Context {F : FPA_SDK} {O : FPA_OBS F} `{!FPA_LAWS F O}.

Lemma internal_vidx_l2 egress vid :
  vid_ok vid → vid ≠ 0 → vidx_l2 (vidx_make egress false vid).
Proof.
  intros Hv Hn. split; [by apply vidx_make_ok|]. by rewrite (proj1 (vidx_fields _ _ _ Hv)).
Qed.

Lemma internal_keys vid :
  vid_ok vid →
  vidx_key (vidx_make false false vid) = KUntagged ∧
  vidx_key (vidx_make true false vid) = KEgress vid.
Proof.
  intros Hv. unfold vidx_key.
  destruct (vidx_fields false false vid Hv) as (-> & -> & ->).
  destruct (vidx_fields true false vid Hv) as (-> & -> & _). done.
Qed.

(** Both indices are added, unless the VLAN already has an egress group. *)
Lemma vlan_add_internal_spec `{!FPA_NOFAIL F O, !FPA_DELETES F O} sid pid vid iv h err iv' h' :
  vlan_wf h sid → pid_ok pid → vid_ok vid → vid ≠ 0 →
  ops_fpa_vlan_add_internal sid pid vid iv h = (err, iv', h') →
  let ing := vidx_make false false vid in
  let eg := vidx_make true false vid in
  vlan_wf h' sid ∧
  (∀ pid', pid_ok pid' → pid' ≠ pid → l2map h' sid pid' = l2map h sid pid') ∧
  if key_present eg (l2map h sid pid)
  then err = true ∧ iv' = iv ∧ l2map h' sid pid = vmap_del ing (l2map h sid pid)
  else err = bitmap_is_set iv vid ∧ iv' = bitmap_set1 iv vid ∧
       l2map h' sid pid = {[eg; ing]} ∪ l2map h sid pid.
Proof.
  intros Hwf Hp Hv Hn Hadd ing eg. unfold ops_fpa_vlan_add_internal in Hadd.
  rewrite ingress_make, egress_make in Hadd. fold ing eg in Hadd.
  destruct (vidx_fields false false vid Hv) as (_ & Hi & _). fold ing in Hi.
  destruct (vidx_fields true false vid Hv) as (_ & He & _). fold eg in He.
  destruct (internal_keys vid Hv) as [Hki Hke]. fold ing in Hki. fold eg in Hke.
  pose proof (internal_vidx_l2 false vid Hv Hn) as Hli. fold ing in Hli.
  pose proof (internal_vidx_l2 true vid Hv Hn) as Hle. fold eg in Hle.
  destruct (ops_fpa_vlan_add sid pid ing h) as [e1 h1] eqn:E1.
  pose proof (vlan_add_succeeds sid pid ing h Hwf Hp Hli) as Hok. rewrite Hi, E1 in Hok.
  simpl in Hok. rewrite Hok in Hadd by done.
  apply vlan_add_refines in E1 as (Hwf1 & Hm1 & Ho1); [|done..].
  unfold vmap_add in Hm1. rewrite Hi in Hm1. simpl in Hm1.
  assert (Hkp : key_present eg (l2map h1 sid pid) = key_present eg (l2map h sid pid)).
  { apply eq_bool_prop_intro. rewrite !Is_true_true, !key_present_spec, Hm1. split.
    - intros (w & [->%elem_of_singleton|Hw]%elem_of_union & Hk); [congruence|eauto].
    - intros (w & Hw & Hk). exists w. set_solver. }
  destruct (ops_fpa_vlan_add sid pid eg h1) as [e2 h2] eqn:E2.
  pose proof (vlan_add_succeeds sid pid eg h1 Hwf1 Hp Hle) as Hok2.
  pose proof (vlan_add_holds sid pid eg h1 h2 Hp Hle Hwf1) as Hno.
  pose proof E2 as E2'. apply vlan_add_refines in E2' as (Hwf2 & Hm2 & Ho2); [|done..].
  unfold vmap_add in Hm2. rewrite He, Hkp in Hm2. rewrite He, Hkp, E2 in Hok2. simpl in *.
  destruct (key_present eg (l2map h sid pid)) eqn:Hk.
  - apply key_present_egress in Hkp as [pop Hpop]; [|done..].
    destruct e2; [|by destruct (proj2 (proj2 (Hno E2)) He pop)].
    destruct (ops_fpa_vlan_del sid pid ing h2) as [e3 h3] eqn:E3.
    apply vlan_del_refines in E3 as (Hwf3 & Hm3 & Ho3); [|done..].
    injection Hadd as <- <- <-. split_and!; [done| |done|done|].
    + intros pid' Hp' Hne. by rewrite Ho3, Ho2, Ho1.
    + rewrite Hm3, Hm2, Hm1. apply set_eq. intros w. rewrite !elem_of_vmap_del. set_solver.
  - rewrite Hok2 in Hadd by done.
    assert (Hmap : l2map h2 sid pid = {[eg; ing]} ∪ l2map h sid pid)
      by (rewrite Hm2, Hm1; set_solver).
    assert (Hoth : ∀ pid', pid_ok pid' → pid' ≠ pid → l2map h2 sid pid' = l2map h sid pid')
      by (intros; by rewrite Ho2, Ho1).
    unfold ops_fpa_vlan_internal in Hadd. destruct (bitmap_is_set iv vid) eqn:Hiv;
      injection Hadd as <- <- <-; split_and!; try done.
    symmetry. by apply bitmap_set1_idem, bitmap_is_set_spec.
Qed.

(** Both indices are removed, and every index that shares a key with them. *)
Lemma vlan_del_internal_spec `{!FPA_DELETES F O} sid pid vid iv h err iv' h' :
  vlan_wf h sid → pid_ok pid → vid_ok vid → vid ≠ 0 →
  ops_fpa_vlan_del_internal sid pid vid iv h = (err, iv', h') →
  vlan_wf h' sid ∧ iv' = bitmap_set0 iv vid ∧
  (∀ pid', pid_ok pid' → pid' ≠ pid → l2map h' sid pid' = l2map h sid pid') ∧
  ∀ w, w ∈ l2map h' sid pid ↔
    w ∈ l2map h sid pid ∧ vidx_key w ≠ KUntagged ∧ vidx_key w ≠ KEgress vid.
Proof.
  intros Hwf Hp Hv Hn Hdel. unfold ops_fpa_vlan_del_internal in Hdel.
  rewrite ingress_make, egress_make in Hdel.
  destruct (ops_fpa_vlan_del sid pid (vidx_make false false vid) h) as [e1 h1] eqn:E1.
  apply vlan_del_refines in E1 as (Hwf1 & Hm1 & Ho1); [|done|done|by apply internal_vidx_l2].
  destruct (ops_fpa_vlan_del sid pid (vidx_make true false vid) h1) as [e2 h2] eqn:E2.
  apply vlan_del_refines in E2 as (Hwf2 & Hm2 & Ho2); [|done|done|by apply internal_vidx_l2].
  destruct (internal_keys vid Hv) as [Hki Hke].
  injection Hdel as <- <- <-. split_and!; [done|done|intros; by rewrite Ho2, Ho1|].
  intros w. rewrite Hm2, elem_of_vmap_del, Hm1, elem_of_vmap_del, Hki, Hke. tauto.
Qed.
End internal_vlans.

(** ** Properties *)

(** The VIDX encoding is a bijection: building an index from a direction, an
    argument and a VLAN and taking its fields gives them back, and every 14-bit
    index is built from its fields, so no two properties of a port share a bit of
    the port's bitmap. *)
Theorem vidx_encoding_bijective :
  (∀ egress arg vid, vid_ok vid →
     let v := vidx_make egress arg vid in
     0 ≤ v < OPS_FPA_VMAP_BITS ∧ OPS_FPA_VIDX_VID v = vid ∧
     OPS_FPA_VIDX_IS_EGRESS v = egress ∧ OPS_FPA_VIDX_ARG v = arg) ∧
  (∀ v, 0 ≤ v < OPS_FPA_VMAP_BITS →
     v = (if OPS_FPA_VIDX_IS_EGRESS v then OPS_FPA_VIDX_EGRESS else OPS_FPA_VIDX_INGRESS)
           (OPS_FPA_VIDX_VID v) (OPS_FPA_VIDX_ARG v)).
Proof.
  split.
  - intros egress arg vid Hv v. split; [by apply vidx_make_ok|by apply vidx_fields].
  - intros v Hv. rewrite (proj1 (vidx_ok_make v Hv)) at 1. unfold vidx_make. by case_match.
Qed.

Section vlan_properties.
Context {F : FPA_SDK} {O : FPA_OBS F} `{!FPA_LAWS F O}.

(** C14: Reading a port's bitmap from the switch terminates within one iteration
    more than the table sizes, changes nothing, and yields exactly the ingress
    index of every VLAN flow of the port and the egress index of every group whose
    identifier carries the port and that has a bucket 0. *)
Theorem vlan_fetch_correct fuel sid pid h :
  (length (flows h sid FPA_FLOW_TABLE_TYPE_VLAN_E) < fuel)%nat →
  (size (groups h sid) < fuel)%nat →
  ∃ vmap h', ops_fpa_vlan_fetch fuel sid pid h = Done (vmap, h') ∧ hw_same h h' ∧
    ∀ v, v ∈ vmap ↔
      (∃ e, e ∈ flows h sid FPA_FLOW_TABLE_TYPE_VLAN_E ∧ vl_inPort (data_vlan e) = pid ∧
         v = OPS_FPA_VIDX_INGRESS (vl_vlanId (data_vlan e))
               (bool_decide (vl_vlanIdMask (data_vlan e) = FPA_FLOW_VLAN_MASK_TAG))) ∨
      (∃ gid g b, groups h sid !! gid = Some g ∧ 0 < gid ∧ OPS_FPA_GID_PORT gid = pid ∧
         group_buckets g !! 0 = Some b ∧
         v = OPS_FPA_VIDX_EGRESS (OPS_FPA_GID_VLAN gid) (bucket_pop b)).
Proof.
  intros Hf Hg. destruct (vlan_fetch_port_vmap fuel sid pid h Hf Hg) as (h' & Hfetch & Hsame).
  exists (port_vmap h sid pid), h'. split_and!; [done|done|]. intros v.
  unfold port_vmap. rewrite elem_of_union, elem_of_port_ingress, elem_of_port_egress.
  apply Morphisms_Prop.or_iff_morphism.
  - apply Morphisms_Prop.ex_iff_morphism. intros e. unfold flow_vidx. case_bool_decide; naive_solver.
  - apply Morphisms_Prop.ex_iff_morphism. intros gid. split.
    + intros (g & Hl & Hpos & Hv). unfold group_vidx in Hv. case_bool_decide; [|done].
      apply bind_Some in Hv as (b & Hb & [= <-]). eauto 10.
    + intros (g & b & Hl & Hpos & <- & Hb & ->). exists g. split_and!; [done..|].
      unfold group_vidx. rewrite bool_decide_eq_true_2 by done. by rewrite Hb.
Qed.


(** C13: Deleting an index refines the abstract port: exactly the indices of the
    port with the same hardware key disappear; the tables stay well formed and no
    other port is affected. *)
Theorem vlan_del_refinement `{!FPA_DELETES F O} sid pid v h err h' :
  vlan_wf h sid → pid_ok pid → vidx_l2 v →
  ops_fpa_vlan_del sid pid v h = (err, h') →
  vlan_wf h' sid ∧ l2map h' sid pid = vmap_del v (l2map h sid pid) ∧
  ∀ pid', pid_ok pid' → pid' ≠ pid → l2map h' sid pid' = l2map h sid pid'.
Proof. apply vlan_del_refines. Qed.

(** The untagged ingress entries of a port share one cookie: deleting the
    untagged index of one VLAN also removes the untagged index of any other VLAN
    from the port. *)
Theorem untagged_delete_removes_all `{!FPA_DELETES F O} sid pid a b h err h' :
  vlan_wf h sid → pid_ok pid → vid_ok a → a ≠ 0 → vid_ok b →
  ops_fpa_vlan_del sid pid (OPS_FPA_VIDX_INGRESS a false) h = (err, h') →
  OPS_FPA_VIDX_INGRESS b false ∉ l2map h' sid pid.
Proof.
  intros Hwf Hp Ha Hn Hb Hdel. rewrite ingress_make in *.
  apply vlan_del_refines in Hdel as (_ & -> & _); [|done|done|by apply internal_vidx_l2].
  rewrite elem_of_vmap_del, (proj1 (internal_keys a Ha)), (proj1 (internal_keys b Hb)). tauto.
Qed.

(** An internal VLAN can be set up and taken down again: on a port with no
    untagged ingress and no egress on a VLAN that is not internal yet, adding it
    succeeds, the port then has both indices, and deleting it restores the bitmap
    of every port and the set of internal VLANs. *)
Theorem internal_vlan_roundtrip `{!FPA_NOFAIL F O, !FPA_DELETES F O} sid pid vid iv h :
  vlan_wf h sid → pid_ok pid → vid_ok vid → vid ≠ 0 → vid ∉ iv →
  (∀ w, w ∈ l2map h sid pid → vidx_key w ≠ KUntagged ∧ vidx_key w ≠ KEgress vid) →
  ∃ h1, ops_fpa_vlan_add_internal sid pid vid iv h = (false, bitmap_set1 iv vid, h1) ∧
    l2map h1 sid pid =
      {[OPS_FPA_VIDX_EGRESS vid false; OPS_FPA_VIDX_INGRESS vid false]} ∪ l2map h sid pid ∧
    ∃ err h2, ops_fpa_vlan_del_internal sid pid vid (bitmap_set1 iv vid) h1 = (err, iv, h2) ∧
      ∀ pid', pid_ok pid' → l2map h2 sid pid' = l2map h sid pid'.
Proof.
  intros Hwf Hp Hv Hn Hiv Hfree.
  destruct (ops_fpa_vlan_add_internal sid pid vid iv h) as [[err iv1] h1] eqn:Hadd.
  apply vlan_add_internal_spec in Hadd as (Hwf1 & Ho1 & Hm1); [|done..].
  destruct (internal_keys vid Hv) as [Hki Hke].
  assert (key_present (vidx_make true false vid) (l2map h sid pid) = false) as Hk.
  { apply not_true_iff_false. rewrite key_present_spec. intros (w & Hw & Hkw).
    apply Hfree in Hw as [_ Hw]. congruence. }
  rewrite Hk in Hm1. destruct Hm1 as (-> & -> & Hm1). exists h1.
  assert (bitmap_is_set iv vid = false) as -> by (by apply bool_decide_eq_false_2).
  split_and!; [done..|].
  destruct (ops_fpa_vlan_del_internal sid pid vid (bitmap_set1 iv vid) h1)
    as [[err2 iv2] h2] eqn:Hdel. exists err2, h2.
  apply vlan_del_internal_spec in Hdel as (Hwf2 & -> & Ho2 & Hm2); [|done..].
  split; [by rewrite bitmap_set0_set1|].
  intros pid' Hp'. destruct (decide (pid' = pid)) as [->|]; [|by rewrite Ho2, Ho1].
  apply set_eq. intros w. rewrite Hm2, Hm1, !elem_of_union, !elem_of_singleton.
  split; [intros [[[->| ->]|?] ?]; naive_solver|]. intros Hw. split; [auto|by apply Hfree].
Qed.

(** Adding an internal VLAN that is already internal reports an error but
    does not undo its work: the port keeps both new indices. *)
Theorem add_internal_error_leaks `{!FPA_NOFAIL F O, !FPA_DELETES F O} sid pid vid iv h err iv' h' :
  vlan_wf h sid → pid_ok pid → vid_ok vid → vid ≠ 0 → vid ∈ iv →
  (∀ w, w ∈ l2map h sid pid → vidx_key w ≠ KEgress vid) →
  ops_fpa_vlan_add_internal sid pid vid iv h = (err, iv', h') →
  err = true ∧ iv' = iv ∧
  l2map h' sid pid =
    {[OPS_FPA_VIDX_EGRESS vid false; OPS_FPA_VIDX_INGRESS vid false]} ∪ l2map h sid pid.
Proof.
  intros Hwf Hp Hv Hn Hiv Hfree Hadd.
  apply vlan_add_internal_spec in Hadd as (_ & _ & Hm); [|done..].
  destruct (key_present _ _) eqn:Hk.
  - apply key_present_spec in Hk as (w & Hw & Hkw). apply Hfree in Hw.
    destruct (internal_keys vid Hv) as [_ Hke]. congruence.
  - destruct Hm as (-> & -> & ->). split_and!; [by apply bool_decide_eq_true_2| |done].
    by apply bitmap_set1_idem.
Qed.
End vlan_properties.

(** ** Witnesses on the reference switch *)

Lemma vidx_encoding_bijective_witness :
  let v := vidx_make true false 100 in
  0 ≤ v < OPS_FPA_VMAP_BITS ∧ OPS_FPA_VIDX_VID v = 100 ∧
  OPS_FPA_VIDX_IS_EGRESS v = true ∧ OPS_FPA_VIDX_ARG v = false.
Proof. exact (proj1 vidx_encoding_bijective true false 100 ltac:(unfold vid_ok; lia)). Defined.

Abbreviation SimNF := (SimFpa no_faults).

(** Port 3 is an access port of VLAN 10: untagged ingress, egress with tag removal. *)
Definition w_port : @hw SimNF :=
  let h := (ops_fpa_vlan_add 0 3 (OPS_FPA_VIDX_INGRESS 10 false) (sim_empty : @hw SimNF)).2 in
  (ops_fpa_vlan_add 0 3 (OPS_FPA_VIDX_EGRESS 10 true) h).2.

Lemma vlan_wf_empty faults sid : @vlan_wf (SimFpa faults) (SimObs faults) sim_empty sid.
Proof. split; [by apply Forall_nil|]. intros k g Hg. simpl in Hg. by rewrite map_lookup_imap in Hg. Qed.

Lemma w_vidx : vidx_l2 (OPS_FPA_VIDX_INGRESS 10 false) ∧ vidx_l2 (OPS_FPA_VIDX_EGRESS 10 true).
Proof.
  unfold vidx_l2, vidx_ok. split; (split; [|by vm_compute]).
  - change (OPS_FPA_VIDX_INGRESS 10 false) with 10. lia.
  - change (OPS_FPA_VIDX_EGRESS 10 true) with 12298. lia.
Qed.

Lemma w_pid : pid_ok 3.
Proof. unfold pid_ok; lia. Qed.

Lemma w_vid vid : bool_decide (1 ≤ vid < 4096) = true → vid_ok vid ∧ vid ≠ 0.
Proof. intros ?%bool_decide_eq_true. unfold vid_ok. lia. Qed.

Lemma w_port_wf : vlan_wf w_port 0.
Proof.
  apply (vlan_add_refines (F := SimNF) 0 3 (OPS_FPA_VIDX_EGRESS 10 true)
    (ops_fpa_vlan_add 0 3 (OPS_FPA_VIDX_INGRESS 10 false) (sim_empty : @hw SimNF)).2 false w_port);
    [|apply w_pid|apply w_vidx|vm_compute; reflexivity].
  eapply (vlan_add_refines (F := SimNF) 0 3 (OPS_FPA_VIDX_INGRESS 10 false) sim_empty false);
    [apply vlan_wf_empty|apply w_pid|apply w_vidx|vm_compute; reflexivity].
Qed.

Lemma vlan_fetch_correct_witness :
  ∃ vmap h', ops_fpa_vlan_fetch 2 0 3 w_port = Done (vmap, h') ∧ hw_same w_port h'.
Proof.
  destruct (vlan_fetch_correct (F := SimNF) 2 0 3 w_port
    ltac:(apply Nat.ltb_lt; vm_compute; reflexivity)
    ltac:(apply Nat.ltb_lt; vm_compute; reflexivity)) as (vmap & h' & Hf & Hs & _).
  exists vmap, h'. exact (conj Hf Hs).
Defined.


Lemma vlan_del_refinement_witness :
  l2map (ops_fpa_vlan_del 0 3 (OPS_FPA_VIDX_EGRESS 10 true) w_port).2 0 3 =
  vmap_del (OPS_FPA_VIDX_EGRESS 10 true) (l2map w_port 0 3).
Proof.
  exact (proj1 (proj2 (vlan_del_refinement (F := SimNF) 0 3 (OPS_FPA_VIDX_EGRESS 10 true) w_port
    false (ops_fpa_vlan_del 0 3 (OPS_FPA_VIDX_EGRESS 10 true) w_port).2
    w_port_wf w_pid (proj2 w_vidx) ltac:(vm_compute; reflexivity)))).
Defined.

(** Deleting the untagged index of VLAN 20 takes VLAN 10's away. *)
Lemma untagged_delete_removes_all_witness :
  OPS_FPA_VIDX_INGRESS 10 false ∉
    l2map (ops_fpa_vlan_del 0 3 (OPS_FPA_VIDX_INGRESS 20 false) w_port).2 0 3.
Proof.
  exact (untagged_delete_removes_all (F := SimNF) 0 3 20 10 w_port false
    (ops_fpa_vlan_del 0 3 (OPS_FPA_VIDX_INGRESS 20 false) w_port).2 w_port_wf w_pid
    (proj1 (w_vid 20 eq_refl)) (proj2 (w_vid 20 eq_refl)) (proj1 (w_vid 10 eq_refl))
    ltac:(vm_compute; reflexivity)).
Defined.

Lemma internal_vlan_roundtrip_witness :
  ∃ h1, ops_fpa_vlan_add_internal 0 3 1024 ∅ (sim_empty : @hw SimNF)
        = (false, bitmap_set1 ∅ 1024, h1).
Proof.
  destruct (internal_vlan_roundtrip (F := SimNF) 0 3 1024 ∅ sim_empty (vlan_wf_empty _ 0) w_pid
    (proj1 (w_vid 1024 eq_refl)) (proj2 (w_vid 1024 eq_refl)) (not_elem_of_empty _)
    ltac:(intros w [_ Hw]%elem_of_filter; by apply not_elem_of_empty in Hw)) as (h1 & Hadd & _).
  exists h1. exact Hadd.
Defined.

Lemma add_internal_error_leaks_witness :
  let r := ops_fpa_vlan_add_internal 0 3 1024 {[1024]} (sim_empty : @hw SimNF) in
  r.1.1 = true ∧ r.1.2 = {[1024]} ∧
  l2map r.2 0 3 = {[OPS_FPA_VIDX_EGRESS 1024 false; OPS_FPA_VIDX_INGRESS 1024 false]}
                    ∪ l2map (sim_empty : @hw SimNF) 0 3.
Proof.
  intros r.
  apply (add_internal_error_leaks (F := SimNF) 0 3 1024 {[1024]} sim_empty r.1.1 r.1.2 r.2
    (vlan_wf_empty _ 0) w_pid
    (proj1 (w_vid 1024 eq_refl)) (proj2 (w_vid 1024 eq_refl)) (elem_of_singleton_2 _ _ eq_refl)
    ltac:(intros w [_ Hw]%elem_of_filter; by apply not_elem_of_empty in Hw)).
  vm_compute. reflexivity.
Defined.
