(* ===== verification/Routing.v ===== *)
(** * Routing on a VLAN (src/ops-fpa-routing.c)

    An L3 interface traps ARP and DHCP requests, terminates the interface's MAC
    and, for a physical port, owns an internal VLAN.  [ops_fpa_enable_routing_vlan]
    installs four flows and unwinds them on failure; [ops_fpa_disable_routing]
    removes them. *)

From S2P Require Import Prelude Fpa FpaSim Wrap Route Vlan.

Definition ETHERTYPE_IP : Z := 0x0800.
Definition ETHERTYPE_ARP : Z := 0x0806.

Definition mac_ff : mac := replicate 6 0xFF.

Definition OPS_FPA_CONTROL_PKT_COOKIE (type vlanId : Z) : Z := Z.lor (Z.shiftl type 16) vlanId.
Definition OPS_FPA_TERMINATION_COOKIE (vlanId : Z) : Z := vlanId.
Definition OPS_FPA_L2_BRIDGING_COOKIE (vlanId : Z) : Z := vlanId.

(** [struct fpa_l3_intf] of include/ops-fpa-routing.h *)
Record fpa_l3_intf := {
  switchId : Z;
  intf_id : Z;
  vlan_id : Z;
  l3_mac : mac;
  vlan_intf : bool;
  routes_count : Z
}.

#[export] Instance fpa_l3_intf_eq_dec : EqDecision fpa_l3_intf.
Proof. solve_decision. Defined.

Section routing.
Context {F : FPA_SDK}.

(** ** The four flows *)

Definition arp_bcast_entry (e : FPA_FLOW_TABLE_ENTRY_STC) (vid : Z) :
    FPA_FLOW_TABLE_ENTRY_STC :=
  let d := data_control_pkt e in {|
  cookie := OPS_FPA_CONTROL_PKT_COOKIE ETHERTYPE_ARP vid;
  priority := priority e; timeoutIdleTime := timeoutIdleTime e;
  timeoutHardTime := timeoutHardTime e; flowModFlags := flowModFlags e;
  entryType := entryType e;
  data_control_pkt := {|
    cp_entry_type := FPA_CONTROL_PKTS_TYPE_ARP_REQUEST_MESSAGES_E;
    cp_inPort := cp_inPort d; cp_inPortMask := cp_inPortMask d;
    cp_vlanId := vid; cp_vlanIdMask := 0xFFFF;
    cp_dstMac := mac_ff; cp_dstMacMask := mac_ff;
    cp_etherType := ETHERTYPE_ARP; cp_etherTypeMask := 0xFFFF;
    cp_ipProtocol := cp_ipProtocol d; cp_ipProtocolMask := cp_ipProtocolMask d;
    cp_icmpV6Type := cp_icmpV6Type d; cp_icmpV6TypeMask := cp_icmpV6TypeMask d;
    cp_dstL4Port := cp_dstL4Port d; cp_dstL4PortMask := cp_dstL4PortMask d;
    cp_outputPort := FPA_OUTPUT_CONTROLLER;
    cp_clearActions := cp_clearActions d; cp_gotoTableNo := cp_gotoTableNo d |};
  data_vlan := data_vlan e; data_termination := data_termination e;
  data_l2_bridging := data_l2_bridging e; data_l3_unicast := data_l3_unicast e
|}.

Definition ops_fpa_vlan_set_arp_bcast (switch_id vid : Z) (h : hw) : FPA_STATUS * hw :=
  let '(_, flowEntry) := fpaLibFlowEntryInit switch_id FPA_FLOW_TABLE_TYPE_CONTROL_PKT_E h in
  wrap_fpaLibFlowEntryAdd switch_id FPA_FLOW_TABLE_TYPE_CONTROL_PKT_E
    (arp_bcast_entry flowEntry vid) h.

Definition ops_fpa_vlan_unset_arp_bcast (switch_id vid : Z) (h : hw) : FPA_STATUS * hw :=
  wrap_fpaLibFlowTableCookieDelete switch_id FPA_FLOW_TABLE_TYPE_CONTROL_PKT_E
    (OPS_FPA_CONTROL_PKT_COOKIE ETHERTYPE_ARP vid) h.

Definition arp_fwd_entry (e : FPA_FLOW_TABLE_ENTRY_STC) (vid : Z) (m : mac) :
    FPA_FLOW_TABLE_ENTRY_STC :=
  let d := data_l2_bridging e in {|
  cookie := OPS_FPA_L2_BRIDGING_COOKIE vid;
  priority := priority e; timeoutIdleTime := timeoutIdleTime e;
  timeoutHardTime := timeoutHardTime e; flowModFlags := flowModFlags e;
  entryType := entryType e;
  data_control_pkt := data_control_pkt e; data_vlan := data_vlan e;
  data_termination := data_termination e;
  data_l2_bridging := {|
    l2_vlanId := vid; l2_vlanIdMask := 0xFFFF;
    l2_destMac := m; l2_destMacMask := mac_ff;
    l2_groupId := 0xFFFFFFFF; l2_outputPort := FPA_OUTPUT_CONTROLLER;
    l2_clearActions := l2_clearActions d; l2_gotoTableNo := l2_gotoTableNo d |};
  data_l3_unicast := data_l3_unicast e
|}.

Definition ops_fpa_set_arp_fwd (switch_id vid : Z) (m : mac) (h : hw) : FPA_STATUS * hw :=
  let '(_, flowEntry) := fpaLibFlowEntryInit switch_id FPA_FLOW_TABLE_TYPE_L2_BRIDGING_E h in
  wrap_fpaLibFlowEntryAdd switch_id FPA_FLOW_TABLE_TYPE_L2_BRIDGING_E
    (arp_fwd_entry flowEntry vid m) h.

Definition ops_fpa_unset_arp_fwd (switch_id vid : Z) (m : mac) (h : hw) : FPA_STATUS * hw :=
  wrap_fpaLibFlowTableCookieDelete switch_id FPA_FLOW_TABLE_TYPE_L2_BRIDGING_E
    (OPS_FPA_L2_BRIDGING_COOKIE vid) h.

Definition termination_entry (e : FPA_FLOW_TABLE_ENTRY_STC) (vid : Z) (m : mac) :
    FPA_FLOW_TABLE_ENTRY_STC :=
  let d := data_termination e in {|
  cookie := OPS_FPA_TERMINATION_COOKIE vid;
  priority := priority e; timeoutIdleTime := timeoutIdleTime e;
  timeoutHardTime := timeoutHardTime e; flowModFlags := flowModFlags e;
  entryType := entryType e;
  data_control_pkt := data_control_pkt e; data_vlan := data_vlan e;
  data_termination := {|
    tm_inPort := tm_inPort d; tm_inPortMask := tm_inPortMask d;
    tm_vlanId := vid; tm_vlanIdMask := 0xFFFF;
    tm_etherType := ETHERTYPE_IP; tm_etherTypeMask := 0xFFFF;
    tm_destMac := m; tm_destMacMask := mac_ff;
    tm_metadataValue := FPA_FLOW_TABLE_METADATA_MAC2ME_BIT;
    tm_metadataMask := FPA_FLOW_TABLE_METADATA_MAC2ME_BIT;
    tm_gotoTableNo := tm_gotoTableNo d |};
  data_l2_bridging := data_l2_bridging e; data_l3_unicast := data_l3_unicast e
|}.

Definition ops_fpa_vlan_enable_unicast_routing (switch_id vid : Z) (m : mac) (h : hw) :
    FPA_STATUS * hw :=
  let '(_, flowEntry) := fpaLibFlowEntryInit switch_id FPA_FLOW_TABLE_TYPE_TERMINATION_E h in
  wrap_fpaLibFlowEntryAdd switch_id FPA_FLOW_TABLE_TYPE_TERMINATION_E
    (termination_entry flowEntry vid m) h.

Definition ops_fpa_vlan_disable_unicast_routing (switch_id vid : Z) (m : mac) (h : hw) :
    FPA_STATUS * hw :=
  wrap_fpaLibFlowTableCookieDelete switch_id FPA_FLOW_TABLE_TYPE_TERMINATION_E
    (OPS_FPA_TERMINATION_COOKIE vid) h.

Definition udp_dhcp_entry (e : FPA_FLOW_TABLE_ENTRY_STC) (vid : Z) :
    FPA_FLOW_TABLE_ENTRY_STC :=
  let d := data_control_pkt e in {|
  cookie := OPS_FPA_CONTROL_PKT_COOKIE ETHERTYPE_IP vid;
  priority := priority e; timeoutIdleTime := timeoutIdleTime e;
  timeoutHardTime := timeoutHardTime e; flowModFlags := flowModFlags e;
  entryType := entryType e;
  data_control_pkt := {|
    cp_entry_type := FPA_CONTROL_PKTS_TYPE_UDP_BROADCAST_CTRL_E;
    cp_inPort := cp_inPort d; cp_inPortMask := cp_inPortMask d;
    cp_vlanId := vid; cp_vlanIdMask := 0xFFFF;
    cp_dstMac := mac_ff; cp_dstMacMask := mac_ff;
    cp_etherType := ETHERTYPE_IP; cp_etherTypeMask := 0xFFFF;
    cp_ipProtocol := 17; cp_ipProtocolMask := 0xFFFF;
    cp_icmpV6Type := cp_icmpV6Type d; cp_icmpV6TypeMask := 0;
    cp_dstL4Port := 67; cp_dstL4PortMask := 0xFFFF;
    cp_outputPort := FPA_OUTPUT_CONTROLLER;
    cp_clearActions := cp_clearActions d; cp_gotoTableNo := cp_gotoTableNo d |};
  data_vlan := data_vlan e; data_termination := data_termination e;
  data_l2_bridging := data_l2_bridging e; data_l3_unicast := data_l3_unicast e
|}.

Definition ops_fpa_vlan_set_udp_dhcp (switch_id vid : Z) (h : hw) : FPA_STATUS * hw :=
  let '(_, flowEntry) := fpaLibFlowEntryInit switch_id FPA_FLOW_TABLE_TYPE_CONTROL_PKT_E h in
  wrap_fpaLibFlowEntryAdd switch_id FPA_FLOW_TABLE_TYPE_CONTROL_PKT_E
    (udp_dhcp_entry flowEntry vid) h.

Definition ops_fpa_vlan_unset_udp_dhcp (switch_id vid : Z) (h : hw) : FPA_STATUS * hw :=
  wrap_fpaLibFlowTableCookieDelete switch_id FPA_FLOW_TABLE_TYPE_CONTROL_PKT_E
    (OPS_FPA_CONTROL_PKT_COOKIE ETHERTYPE_IP vid) h.

(** ** Enabling and disabling *)

Definition ops_fpa_enable_routing_vlan (switch_id vid : Z) (m : mac) (h : hw) :
    option fpa_l3_intf * hw :=
  (* the labels of the goto chain, innermost first *)
  let fail_set_arp_fwd h :=
    let '(_, h) := ops_fpa_vlan_unset_arp_bcast switch_id vid h in (None, h) in
  let fail_set_dhcp h :=
    let '(_, h) := ops_fpa_unset_arp_fwd switch_id vid m h in fail_set_arp_fwd h in
  let fail_vlan_enable_unicast_routing h :=
    let '(_, h) := ops_fpa_vlan_unset_udp_dhcp switch_id vid h in fail_set_dhcp h in
  let '(err, h) := ops_fpa_vlan_set_arp_bcast switch_id vid h in
  if failed err then (None, h) else
  let '(err, h) := ops_fpa_set_arp_fwd switch_id vid m h in
  if failed err then fail_set_arp_fwd h else
  let '(err, h) := ops_fpa_vlan_set_udp_dhcp switch_id vid h in
  if failed err then fail_set_dhcp h else
  let '(err, h) := ops_fpa_vlan_enable_unicast_routing switch_id vid m h in
  if failed err then fail_vlan_enable_unicast_routing h else
  (Some {| switchId := switch_id; intf_id := 0; vlan_id := vid; l3_mac := m;
           vlan_intf := false; routes_count := 0 |}, h).

Definition ops_fpa_enable_routing_interface (switch_id port_num vid : Z) (m : mac)
    (internal_vlans : bitmap) (h : hw) : option fpa_l3_intf * bitmap * hw :=
  let '(err, internal_vlans, h) :=
    ops_fpa_vlan_add_internal switch_id port_num vid internal_vlans h in
  if err then (None, internal_vlans, h) else
  let '(l3_intf, h) := ops_fpa_enable_routing_vlan switch_id vid m h in
  match l3_intf with
  | None =>
      let '(_, internal_vlans, h) :=
        ops_fpa_vlan_del_internal switch_id port_num vid internal_vlans h in
      (None, internal_vlans, h)
  | Some l3 =>
      (Some {| switchId := switchId l3; intf_id := port_num; vlan_id := vlan_id l3;
               l3_mac := l3_mac l3; vlan_intf := true; routes_count := routes_count l3 |},
       internal_vlans, h)
  end.

Definition ops_fpa_disable_routing (l3_intf : fpa_l3_intf) (internal_vlans : bitmap) (h : hw) :
    bitmap * hw :=
  let '(internal_vlans, h) :=
    if vlan_intf l3_intf then
      let '(_, iv, h) := ops_fpa_vlan_del_internal (switchId l3_intf) (intf_id l3_intf)
                           (vlan_id l3_intf) internal_vlans h in (iv, h)
    else (internal_vlans, h) in
  let '(err, h) := ops_fpa_vlan_unset_arp_bcast (switchId l3_intf) (vlan_id l3_intf) h in
  if failed err then (internal_vlans, h) else
  let '(err, h) :=
    ops_fpa_unset_arp_fwd (switchId l3_intf) (vlan_id l3_intf) (l3_mac l3_intf) h in
  if failed err then (internal_vlans, h) else
  let '(err, h) := ops_fpa_vlan_unset_udp_dhcp (switchId l3_intf) (vlan_id l3_intf) h in
  if failed err then (internal_vlans, h) else
  let '(_, h) := ops_fpa_vlan_disable_unicast_routing
                   (switchId l3_intf) (vlan_id l3_intf) (l3_mac l3_intf) h in
  (internal_vlans, h).
End routing.

(** ** Cookies *)

Lemma control_pkt_cookie_value type vid :
  0 ≤ vid < 2 ^ 16 → OPS_FPA_CONTROL_PKT_COOKIE type vid = type * 2 ^ 16 + vid.
Proof. intros. unfold OPS_FPA_CONTROL_PKT_COOKIE. apply lor_shiftl_add; lia. Qed.

Lemma control_pkt_cookie_inj type vid type' vid' :
  0 ≤ vid < 2 ^ 16 → 0 ≤ vid' < 2 ^ 16 →
  OPS_FPA_CONTROL_PKT_COOKIE type vid = OPS_FPA_CONTROL_PKT_COOKIE type' vid' →
  type = type' ∧ vid = vid'.
Proof. intros Hv Hv'. rewrite !control_pkt_cookie_value by done. by apply pack_inj. Qed.

Section routing_lemmas.
Context {F : FPA_SDK} {O : FPA_OBS F}.

(** None of the flows [P] of a switch routes VLAN [vid] or uses one of its cookies. *)
Definition unrouted (P : flow_table → FPA_FLOW_TABLE_ENTRY_STC → Prop) (vid : Z) : Prop :=
  (∀ e, P FPA_FLOW_TABLE_TYPE_CONTROL_PKT_E e →
     cp_vlanId (data_control_pkt e) ≠ vid ∧
     cookie e ≠ OPS_FPA_CONTROL_PKT_COOKIE ETHERTYPE_ARP vid ∧
     cookie e ≠ OPS_FPA_CONTROL_PKT_COOKIE ETHERTYPE_IP vid) ∧
  (∀ e, P FPA_FLOW_TABLE_TYPE_L2_BRIDGING_E e →
     l2_vlanId (data_l2_bridging e) ≠ vid ∧ cookie e ≠ OPS_FPA_L2_BRIDGING_COOKIE vid) ∧
  (∀ e, P FPA_FLOW_TABLE_TYPE_TERMINATION_E e →
     tm_vlanId (data_termination e) ≠ vid ∧ cookie e ≠ OPS_FPA_TERMINATION_COOKIE vid).

Definition routing_free (h : hw) (sid : Z) : Z → Prop := unrouted (λ t e, e ∈ flows h sid t).

(** The flows of a routed VLAN, on top of the initial entries of the SDK. *)
Definition flow_a e vid := (FPA_FLOW_TABLE_TYPE_CONTROL_PKT_E, arp_bcast_entry e vid).
Definition flow_b e vid m := (FPA_FLOW_TABLE_TYPE_L2_BRIDGING_E, arp_fwd_entry e vid m).
Definition flow_c e vid := (FPA_FLOW_TABLE_TYPE_CONTROL_PKT_E, udp_dhcp_entry e vid).
Definition flow_d e vid m := (FPA_FLOW_TABLE_TYPE_TERMINATION_E, termination_entry e vid m).

Section vlan.
Context (sid vid : Z) (m : mac) (T : tables).
(* flows on the switch besides those of [T] *)
Context (r : list (flow_table * FPA_FLOW_TABLE_ENTRY_STC)).
Hypothesis vid_u16 : 0 ≤ vid < 2 ^ 16.
Hypothesis free : unrouted (λ t e, (t, e) ∈ r ∨ e ∈ tb_flows T sid t) vid.

Lemma split_extra {A} (l r' : list A) (x : A) (P : Prop) : x ∈ l ++ r' ∨ P → x ∈ l ∨ x ∈ r' ∨ P.
Proof. rewrite elem_of_app. tauto. Qed.

Lemma arp_dhcp_cookies_differ :
  OPS_FPA_CONTROL_PKT_COOKIE ETHERTYPE_ARP vid ≠ OPS_FPA_CONTROL_PKT_COOKIE ETHERTYPE_IP vid.
Proof. intros Heq. by apply control_pkt_cookie_inj in Heq as [? _]. Qed.

Ltac solve_fresh :=
  let x := fresh "x" in let Hx := fresh "Hx" in
  pose proof arp_dhcp_cookies_differ;
  unfold flow_a, flow_b, flow_c, flow_d;
  destruct free as (Hc & Hl & Ht);
  intros x Hx; apply split_extra in Hx as [Hx|Hx];
  [ repeat (apply elem_of_cons in Hx as [Hx|Hx]; [simplify_eq/=; split; congruence|]);
    by apply not_elem_of_nil in Hx
  | first [ apply Hc in Hx as (? & ? & ?) | apply Hl in Hx as (? & ?)
          | apply Ht in Hx as (? & ?) ];
    split; [intros Hm; simplify_eq/=|]; done ].

Lemma fresh_a e : fresh_flow sid ([] ++ r) T FPA_FLOW_TABLE_TYPE_CONTROL_PKT_E (arp_bcast_entry e vid).
Proof. solve_fresh. Qed.
Lemma fresh_b e a :
  fresh_flow sid ([flow_a a vid] ++ r) T FPA_FLOW_TABLE_TYPE_L2_BRIDGING_E (arp_fwd_entry e vid m).
Proof. solve_fresh. Qed.
Lemma fresh_c e a b :
  fresh_flow sid ([flow_b b vid m; flow_a a vid] ++ r) T
    FPA_FLOW_TABLE_TYPE_CONTROL_PKT_E (udp_dhcp_entry e vid).
Proof. solve_fresh. Qed.
Lemma fresh_d e a b c :
  fresh_flow sid ([flow_c c vid; flow_b b vid m; flow_a a vid] ++ r) T
    FPA_FLOW_TABLE_TYPE_TERMINATION_E (termination_entry e vid m).
Proof. solve_fresh. Qed.
Lemma fresh_a_bcd e b c d :
  fresh_flow sid ([flow_d d vid m; flow_c c vid; flow_b b vid m] ++ r) T
    FPA_FLOW_TABLE_TYPE_CONTROL_PKT_E (arp_bcast_entry e vid).
Proof. solve_fresh. Qed.
Lemma fresh_b_cd e c d :
  fresh_flow sid ([flow_d d vid m; flow_c c vid] ++ r) T
    FPA_FLOW_TABLE_TYPE_L2_BRIDGING_E (arp_fwd_entry e vid m).
Proof. solve_fresh. Qed.
Lemma fresh_c_d e d :
  fresh_flow sid ([flow_d d vid m] ++ r) T
    FPA_FLOW_TABLE_TYPE_CONTROL_PKT_E (udp_dhcp_entry e vid).
Proof. solve_fresh. Qed.
Lemma fresh_d_nil e :
  fresh_flow sid ([] ++ r) T FPA_FLOW_TABLE_TYPE_TERMINATION_E (termination_entry e vid m).
Proof. solve_fresh. Qed.

(** ** Enabling installs the four flows or nothing *)

Context `{!FPA_LAWS F O, !FPA_DELETES F O}.

(** The four flows of a routed VLAN, newest first, for some initial entries. *)
Definition routing_flows (l : list (flow_table * FPA_FLOW_TABLE_ENTRY_STC)) : Prop :=
  ∃ a b c d, l = [flow_d d vid m; flow_c c vid; flow_b b vid m; flow_a a vid].

(** A set routine installs its flow on top of [l] or changes nothing. *)
Lemma set_arp_bcast_spec h st h' :
  tables_plus sid ([] ++ r) T h → ops_fpa_vlan_set_arp_bcast sid vid h = (st, h') →
  if failed st then tables_plus sid ([] ++ r) T h' else ∃ a, tables_plus sid ([flow_a a vid] ++ r) T h'.
Proof.
  unfold ops_fpa_vlan_set_arp_bcast. destruct (fpaLibFlowEntryInit _ _ _) as [? e].
  intros Hp Hadd. pose proof (install_flow _ _ _ _ _ _ _ _ Hp (fresh_a e) Hadd).
  destruct (failed st); eauto.
Qed.

Lemma set_arp_fwd_spec a h st h' :
  tables_plus sid ([flow_a a vid] ++ r) T h → ops_fpa_set_arp_fwd sid vid m h = (st, h') →
  if failed st then tables_plus sid ([flow_a a vid] ++ r) T h'
  else ∃ b, tables_plus sid ([flow_b b vid m; flow_a a vid] ++ r) T h'.
Proof.
  unfold ops_fpa_set_arp_fwd. destruct (fpaLibFlowEntryInit _ _ _) as [? e].
  intros Hp Hadd. pose proof (install_flow _ _ _ _ _ _ _ _ Hp (fresh_b e a) Hadd).
  destruct (failed st); eauto.
Qed.

Lemma set_udp_dhcp_spec a b h st h' :
  tables_plus sid ([flow_b b vid m; flow_a a vid] ++ r) T h →
  ops_fpa_vlan_set_udp_dhcp sid vid h = (st, h') →
  if failed st then tables_plus sid ([flow_b b vid m; flow_a a vid] ++ r) T h'
  else ∃ c, tables_plus sid ([flow_c c vid; flow_b b vid m; flow_a a vid] ++ r) T h'.
Proof.
  unfold ops_fpa_vlan_set_udp_dhcp. destruct (fpaLibFlowEntryInit _ _ _) as [? e].
  intros Hp Hadd. pose proof (install_flow _ _ _ _ _ _ _ _ Hp (fresh_c e a b) Hadd).
  destruct (failed st); eauto.
Qed.

Lemma enable_unicast_spec a b c h st h' :
  tables_plus sid ([flow_c c vid; flow_b b vid m; flow_a a vid] ++ r) T h →
  ops_fpa_vlan_enable_unicast_routing sid vid m h = (st, h') →
  if failed st then tables_plus sid ([flow_c c vid; flow_b b vid m; flow_a a vid] ++ r) T h'
  else ∃ d, tables_plus sid ([flow_d d vid m; flow_c c vid; flow_b b vid m; flow_a a vid] ++ r) T h'.
Proof.
  unfold ops_fpa_vlan_enable_unicast_routing. destruct (fpaLibFlowEntryInit _ _ _) as [? e].
  intros Hp Hadd. pose proof (install_flow _ _ _ _ _ _ _ _ Hp (fresh_d e a b c) Hadd).
  destruct (failed st); eauto.
Qed.

(** Removing the newest flow of the list. *)
Lemma uninstall_newest t e l h st h' :
  tables_plus sid (((t, e) :: l) ++ r) T h → fresh_flow sid (l ++ r) T t e →
  wrap_fpaLibFlowTableCookieDelete sid t (cookie e) h = (st, h') →
  st = FPA_OK ∧ tables_plus sid (l ++ r) T h'.
Proof.
  intros Hp Hfr Hd. eapply uninstall_flow; [done|left|done| |done].
  intros p. apply elem_of_cons.
Qed.

Lemma unwind_a a h st h' :
  tables_plus sid ([flow_a a vid] ++ r) T h → ops_fpa_vlan_unset_arp_bcast sid vid h = (st, h') →
  tables_plus sid ([] ++ r) T h'.
Proof. intros Hp Hd. by eapply (uninstall_newest _ _ _ _ _ _ Hp (fresh_a a)). Qed.

Lemma unwind_b a b h st h' :
  tables_plus sid ([flow_b b vid m; flow_a a vid] ++ r) T h → ops_fpa_unset_arp_fwd sid vid m h = (st, h') →
  tables_plus sid ([flow_a a vid] ++ r) T h'.
Proof. intros Hp Hd. by eapply (uninstall_newest _ _ _ _ _ _ Hp (fresh_b b a)). Qed.

Lemma unwind_c a b c h st h' :
  tables_plus sid ([flow_c c vid; flow_b b vid m; flow_a a vid] ++ r) T h →
  ops_fpa_vlan_unset_udp_dhcp sid vid h = (st, h') →
  tables_plus sid ([flow_b b vid m; flow_a a vid] ++ r) T h'.
Proof. intros Hp Hd. by eapply (uninstall_newest _ _ _ _ _ _ Hp (fresh_c c a b)). Qed.

Ltac routing_call lem :=
  lazymatch goal with
  | |- context [let '(_, _) := ?c in _] =>
      let st := fresh "st" in let h := fresh "h" in let E := fresh "E" in
      destruct c as [st h] eqn:E; eapply lem in E; [|eassumption]
  end.

Ltac routing_set lem :=
  routing_call lem;
  lazymatch goal with
  | |- context [if failed ?st then _ else _] =>
      destruct (failed st); [|match goal with H : ∃ _, _ |- _ => destruct H end]
  end.

Lemma enable_vlan_spec h res h' :
  tables_plus sid ([] ++ r) T h → ops_fpa_enable_routing_vlan sid vid m h = (res, h') →
  match res with
  | None => tables_plus sid ([] ++ r) T h'
  | Some l3 =>
      l3 = {| switchId := sid; intf_id := 0; vlan_id := vid; l3_mac := m;
              vlan_intf := false; routes_count := 0 |} ∧
      ∃ l, routing_flows l ∧ tables_plus sid (l ++ r) T h'
  end.
Proof.
  intros Hp. unfold ops_fpa_enable_routing_vlan.
  routing_set set_arp_bcast_spec; [by intros [= <- <-]|].
  routing_set set_arp_fwd_spec.
  { routing_call unwind_a. by intros [= <- <-]. }
  routing_set set_udp_dhcp_spec.
  { routing_call unwind_b. routing_call unwind_a. by intros [= <- <-]. }
  routing_set enable_unicast_spec.
  { routing_call unwind_c. routing_call unwind_b. routing_call unwind_a. by intros [= <- <-]. }
  intros [= <- <-]. split; [done|]. eexists. split; [by do 4 eexists|done].
Qed.

(** ** Disabling removes the four flows *)

Lemma uninstall_oldest t e l h st h' :
  tables_plus sid ((l ++ [(t, e)]) ++ r) T h → fresh_flow sid (l ++ r) T t e →
  wrap_fpaLibFlowTableCookieDelete sid t (cookie e) h = (st, h') →
  failed st = false ∧ tables_plus sid (l ++ r) T h'.
Proof.
  intros Hp Hfr Hd. rewrite failed_false. eapply uninstall_flow; [done| |done| |done].
  - rewrite !elem_of_app. left. right. by left.
  - intros p. rewrite !elem_of_app, list_elem_of_singleton. naive_solver.
Qed.

Lemma disable_vlan_spec l intf routes iv h iv' h' :
  routing_flows l → tables_plus sid (l ++ r) T h →
  ops_fpa_disable_routing
    {| switchId := sid; intf_id := intf; vlan_id := vid; l3_mac := m;
       vlan_intf := false; routes_count := routes |} iv h = (iv', h') →
  iv' = iv ∧ tables_plus sid ([] ++ r) T h'.
Proof.
  intros (a & b & c & d & ->) Hp. unfold ops_fpa_disable_routing. simpl.
  destruct (ops_fpa_vlan_unset_arp_bcast _ _ _) as [st1 h1] eqn:E1.
  apply (uninstall_oldest _ _ [flow_d d vid m; flow_c c vid; flow_b b vid m] _ _ _ Hp
    (fresh_a_bcd a b c d)) in E1 as [-> Hp1].
  destruct (ops_fpa_unset_arp_fwd _ _ _ _) as [st2 h2] eqn:E2.
  apply (uninstall_oldest _ _ [flow_d d vid m; flow_c c vid] _ _ _ Hp1
    (fresh_b_cd b c d)) in E2 as [-> Hp2].
  destruct (ops_fpa_vlan_unset_udp_dhcp _ _ _) as [st3 h3] eqn:E3.
  apply (uninstall_oldest _ _ [flow_d d vid m] _ _ _ Hp2 (fresh_c_d c d)) in E3 as [-> Hp3].
  destruct (ops_fpa_vlan_disable_unicast_routing _ _ _ _) as [st4 h4] eqn:E4.
  apply (uninstall_oldest _ _ [] _ _ _ Hp3 (fresh_d_nil d)) in E4 as [_ Hp4].
  by intros [= <- <-].
Qed.
End vlan.
End routing_lemmas.

(** ** Properties *)

Section routing_properties.
Context {F : FPA_SDK} {O : FPA_OBS F} `{!FPA_LAWS F O}.

Lemma routing_free_nil (h : hw) sid vid :
  routing_free h sid vid → unrouted (λ t e, (t, e) ∈ ([] : list (flow_table * FPA_FLOW_TABLE_ENTRY_STC))
    ∨ e ∈ flows h sid t) vid.
Proof.
  intros (Hc & Hl & Ht). split_and!; intros e [Hn%not_elem_of_nil|He]; [done|by apply Hc|done|by apply Hl
    |done|by apply Ht].
Qed.

Lemma enable_vlan_succeeds `{!FPA_NOFAIL F O} sid vid m h :
  is_Some (ops_fpa_enable_routing_vlan sid vid m h).1.
Proof.
  unfold ops_fpa_enable_routing_vlan, ops_fpa_vlan_set_arp_bcast, ops_fpa_set_arp_fwd,
    ops_fpa_vlan_set_udp_dhcp, ops_fpa_vlan_enable_unicast_routing.
  repeat (destruct (fpaLibFlowEntryInit _ _ _);
    match goal with |- context [wrap_fpaLibFlowEntryAdd ?sid ?t ?e ?h] =>
      let H := fresh "Hok" in
      pose proof (wrap_flow_add_succeeds sid t e h) as H;
      destruct (wrap_fpaLibFlowEntryAdd sid t e h); simpl in H; rewrite H; simpl end).
  done.
Qed.

(** C15: Enabling routing on a VLAN is all or nothing: if it returns an interface,
    exactly the four flows of that VLAN (ARP broadcast trap, unicast ARP trap, DHCP
    trap, MAC termination) were added to the switch; if it returns NULL, whichever
    of the four steps failed, the unwinding has left every flow table with the same
    entries and every group table unchanged. *)
Theorem enable_routing_vlan_atomic `{!FPA_DELETES F O} sid vid m h res h' :
  0 ≤ vid < 2 ^ 16 → routing_free h sid vid →
  ops_fpa_enable_routing_vlan sid vid m h = (res, h') →
  match res with
  | None => hw_plus sid [] h h'
  | Some l3 =>
      l3 = {| switchId := sid; intf_id := 0; vlan_id := vid; l3_mac := m;
              vlan_intf := false; routes_count := 0 |} ∧
      ∃ l, routing_flows vid m l ∧ hw_plus sid l h h'
  end.
Proof.
  intros Hv Hfree He.
  pose proof (enable_vlan_spec sid vid m (observed h) [] Hv (routing_free_nil _ _ _ Hfree) h res h'
    (hw_plus_nil _ _) He) as Hspec.
  destruct res as [l3|]; [|done]. destruct Hspec as (-> & l & Hl & Hp). rewrite app_nil_r in Hp. eauto.
Qed.

(** On a switch that refuses no call, enabling routing on a VLAN succeeds and
    disabling the returned interface afterwards restores every flow table (as a set
    of entries) and every group table, and leaves the internal VLANs alone. *)
Theorem enable_disable_routing_roundtrip `{!FPA_NOFAIL F O, !FPA_DELETES F O} sid vid m iv h :
  0 ≤ vid < 2 ^ 16 → routing_free h sid vid →
  ∃ l3 h1, ops_fpa_enable_routing_vlan sid vid m h = (Some l3, h1) ∧
    ∃ h2, ops_fpa_disable_routing l3 iv h1 = (iv, h2) ∧ hw_plus sid [] h h2.
Proof.
  intros Hv Hfree. destruct (enable_vlan_succeeds sid vid m h) as [l3 Hl3].
  destruct (ops_fpa_enable_routing_vlan sid vid m h) as [res h1] eqn:He. simpl in Hl3. subst res.
  apply routing_free_nil in Hfree.
  pose proof (enable_vlan_spec sid vid m (observed h) [] Hv Hfree h _ h1 (hw_plus_nil _ _) He)
    as (-> & l & Hl & Hp).
  do 2 eexists. split; [done|].
  destruct (ops_fpa_disable_routing _ iv h1) as [iv' h2] eqn:Hd. exists h2.
  by eapply disable_vlan_spec in Hd as [-> ?].
Qed.
End routing_properties.

Definition w_mac : mac := [0x00; 0x11; 0x22; 0x33; 0x44; 0x55].

Lemma routing_free_empty faults sid vid : @routing_free (SimFpa faults) (SimObs faults) sim_empty sid vid.
Proof. split_and!; intros e He; by apply not_elem_of_nil in He. Qed.

(** The termination flow is refused: the three other flows are taken back. *)
Lemma enable_routing_vlan_atomic_witness :
  let F := SimFpa (add_fault 3) in
  (ops_fpa_enable_routing_vlan 0 100 w_mac sim_empty).1 = None ∧
  hw_plus 0 [] sim_empty (ops_fpa_enable_routing_vlan 0 100 w_mac sim_empty).2.
Proof.
  intros F. split; [vm_compute; reflexivity|].
  exact (enable_routing_vlan_atomic 0 100 w_mac sim_empty None
    (ops_fpa_enable_routing_vlan 0 100 w_mac sim_empty).2
    ltac:(lia) (routing_free_empty _ 0 100) ltac:(vm_compute; reflexivity)).
Defined.

Lemma enable_disable_routing_roundtrip_witness :
  let F := SimFpa no_faults in
  ∃ l3 h1, ops_fpa_enable_routing_vlan 0 100 w_mac sim_empty = (Some l3, h1) ∧
    ∃ h2, ops_fpa_disable_routing l3 ∅ h1 = (∅, h2) ∧ hw_plus 0 [] sim_empty h2.
Proof.
  intros F.
  exact (enable_disable_routing_roundtrip 0 100 w_mac ∅ sim_empty
    ltac:(lia) (routing_free_empty _ 0 100)).
Defined.
