(* ===== verification/Util.v ===== *)
(** * Conversions (src/ops-fpa.c)

    Names of SDK errors, of VLAN modes and of route actions; integers and IPv4
    prefixes read from strings; prefix lengths and network masks.  The host is
    little endian: the first octet in memory is the low one of the word. *)

From stdpp Require Import pretty.
From Stdlib Require Import Ascii.
From S2P Require Import Prelude Fpa Route.

Local Open Scope string_scope.
Local Open Scope Z_scope.

Definition OPS_FPA_MAX_IP_PREFIX : Z := 32.

(** ** Names *)

Definition ops_fpa_strerr (err : FPA_STATUS) : string :=
  match err with
  | FPA_ERROR => "Generic error"
  | FPA_OK => "Operation succeeded"
  | FPA_FAIL => "Operation failed"
  | FPA_BAD_VALUE => "Illegal value"
  | FPA_OUT_OF_RANGE => "Value is out of range"
  | FPA_BAD_PARAM => "Illegal parameter in function called"
  | FPA_BAD_PTR => "Illegal pointer value"
  | FPA_BAD_SIZE => "Illegal size"
  | FPA_BAD_STATE => "Illegal state of state machine"
  | FPA_SET_ERROR => "Set operation failed"
  | FPA_GET_ERROR => "Get operation failed"
  | FPA_CREATE_ERROR => "Fail while creating an item"
  | FPA_NOT_FOUND => "Item not found"
  | FPA_NO_MORE => "No more items found"
  | FPA_NO_SUCH => "No such item"
  | FPA_TIMEOUT => "Time out"
  | FPA_NO_CHANGE => "The parameter is already in this value"
  | FPA_NOT_SUPPORTED => "This request is not supported"
  | FPA_NOT_IMPLEMENTED => "This request is not implemented"
  | FPA_NOT_INITIALIZED => "The item is not initialized"
  | FPA_NO_RESOURCE => "Resource not available"
  | FPA_FULL => "Item is full"
  | FPA_EMPTY => "Item is empty"
  | FPA_INIT_ERROR => "Error occured while INIT process"
  | FPA_NOT_READY => "The other side is not ready yet"
  | FPA_ALREADY_EXIST => "Tried to create existing item"
  | FPA_OUT_OF_CPU_MEM => "Cpu memory allocation failed"
  | FPA_ABORTED => "Operation has been aborted"
  | FPA_NOT_APPLICABLE_DEVICE =>
      "API not applicable to device, can be returned only on devNum parameter"
  | FPA_UNFIXABLE_ECC_ERROR => "CPSS detected memory ECC error that can't be fixed"
  | FPA_UNFIXABLE_BIST_ERROR => "Built-in self-test detected unfixable error"
  | FPA_CHECKSUM_ERROR => "Checksum doesn't fits received data"
  | FPA_DSA_PARSING_ERROR => "DSA tag parsing error"
  | FPA_STATUS_OTHER _ => "Unknown error"
  end.

(** [enum port_vlan_mode] of ofproto.h; any other [int] is invalid. *)
Inductive port_vlan_mode :=
  | PORT_VLAN_ACCESS
  | PORT_VLAN_TRUNK
  | PORT_VLAN_NATIVE_TAGGED
  | PORT_VLAN_NATIVE_UNTAGGED
  | PORT_VLAN_OTHER (mode : Z).

#[export] Instance port_vlan_mode_eq_dec : EqDecision port_vlan_mode.
Proof. solve_decision. Defined.

Definition ops_fpa_str_vlan_mode (vlan_mode : port_vlan_mode) : string :=
  match vlan_mode with
  | PORT_VLAN_ACCESS => "access"
  | PORT_VLAN_TRUNK => "trunk"
  | PORT_VLAN_NATIVE_TAGGED => "native_tagged"
  | PORT_VLAN_NATIVE_UNTAGGED => "native_untagged"
  | PORT_VLAN_OTHER _ => "invalid"
  end.

Inductive ofproto_route_action :=
  | OFPROTO_ROUTE_ADD
  | OFPROTO_ROUTE_DELETE
  | OFPROTO_ROUTE_DELETE_NH
  | OFPROTO_ROUTE_OTHER (action : Z).

Definition ops_fpa_str_raction (action : ofproto_route_action) : string :=
  match action with
  | OFPROTO_ROUTE_ADD => "add"
  | OFPROTO_ROUTE_DELETE => "delete"
  | OFPROTO_ROUTE_DELETE_NH => "delete_nh"
  | OFPROTO_ROUTE_OTHER _ => "invalid"
  end.

(** ** [strtol] in base 10, for a 64-bit [long] *)

Definition LONG_MIN : Z := - 2 ^ 63.
Definition LONG_MAX : Z := 2 ^ 63 - 1.

Definition char_code (c : ascii) : Z := Z.of_N (N_of_ascii c).

(** [isspace] in the C locale: the codes 9 to 13 and the space. *)
Definition isspace (c : ascii) : bool :=
  let n := char_code c in ((9 <=? n) && (n <=? 13)) || (n =? 32).

Definition digit (c : ascii) : option Z :=
  let n := char_code c in if (48 <=? n) && (n <=? 57) then Some (n - 48) else None.

Fixpoint skip_spaces (s : string) : string :=
  match s with
  | String c s' => if isspace c then skip_spaces s' else s
  | EmptyString => EmptyString
  end.

(** The sign and what follows it. *)
Definition take_sign (s : string) : bool * string :=
  match s with
  | String c s' =>
      if bool_decide (c = "-"%char) then (true, s')
      else if bool_decide (c = "+"%char) then (false, s') else (false, s)
  | EmptyString => (false, EmptyString)
  end.

(** The value of the leading digits and what follows them. *)
Fixpoint take_digits (acc : Z) (s : string) : Z * string :=
  match s with
  | String c s' =>
      match digit c with
      | Some d => take_digits (acc * 10 + d) s'
      | None => (acc, s)
      end
  | EmptyString => (acc, EmptyString)
  end.

Definition starts_digit (s : string) : bool :=
  match s with String c _ => bool_decide (is_Some (digit c)) | EmptyString => false end.

(** The result, the unread rest ([None]: nothing was read, [e == s]) and whether
    [errno] was set to [ERANGE]. *)
Definition strtol (s : string) : Z * option string * bool :=
  let '(neg, s') := take_sign (skip_spaces s) in
  if starts_digit s' then
    let '(v, rest) := take_digits 0 s' in
    let l := if neg : bool then - v else v in
    if l <? LONG_MIN then (LONG_MIN, Some rest, true)
    else if LONG_MAX <? l then (LONG_MAX, Some rest, true)
    else (l, Some rest, false)
  else (0, None, false).

(** ** Integers and prefixes from strings *)

(** [i] is the old value of the output argument; [true] is an error. *)
Definition ops_fpa_str2int (s : option string) (i : Z) : bool * Z :=
  match s with
  | None => (true, i)
  | Some s =>
      let '(l, e, erange) := strtol s in
      let bad_end := match e with None => true | Some rest => negb (String.eqb rest EmptyString) end in
      if erange || bad_end || (l <? INT_MIN) || (INT_MAX <? l) then (true, i) else (false, l)
  end.

Definition ip_octet (addr k : Z) : Z := (addr / 2 ^ (8 * k)) mod 256.

Definition ops_fpa_ip2str (ipAddr : Z) : string :=
  pretty (ip_octet ipAddr 0) +:+ "." +:+ pretty (ip_octet ipAddr 1) +:+ "."
    +:+ pretty (ip_octet ipAddr 2) +:+ "." +:+ pretty (ip_octet ipAddr 3).

(** [strchr (s, c)] with the character found overwritten by a terminator: the part
    before it and, if there was one, the part after it. *)
Fixpoint cut_at (c : ascii) (s : string) : string * option string :=
  match s with
  | EmptyString => (EmptyString, None)
  | String c' s' =>
      if bool_decide (c' = c) then (EmptyString, Some s')
      else let '(a, b) := cut_at c s' in (String c' a, b)
  end.

Definition INADDR_NONE : Z := 0xFFFFFFFF.

(** [inet_addr] is the C library's; [addr] is the old value of the output. *)
Definition ops_fpa_str2ip (inet_addr : string → Z) (ip_address : string) (addr : Z) :
    bool * Z * Z :=
  let '(tmp_ip_addr, p) := cut_at "/"%char ip_address in
  let '(bad, prefixlen) :=
    match p with
    | None => (false, OPS_FPA_MAX_IP_PREFIX)
    | Some p =>
        let '(err, prefixlen) := ops_fpa_str2int (Some p) OPS_FPA_MAX_IP_PREFIX in
        (err || (OPS_FPA_MAX_IP_PREFIX <? prefixlen), prefixlen)
    end in
  if bad : bool then (true, addr, prefixlen) else
  let addr := inet_addr tmp_ip_addr in
  if addr =? INADDR_NONE then (true, addr, prefixlen) else (false, addr, prefixlen).

(** ** Prefix lengths and masks *)

(** [htonl] on a little-endian host. *)
Definition htonl (x : Z) : Z := ip4_word (ip_octet x 3) (ip_octet x 2) (ip_octet x 1) (ip_octet x 0).

(** One plus the position of the lowest one bit, 0 for 0. *)
Definition ffs (x : Z) : Z :=
  match find (λ i, Z.testbit x i) (seqZ 0 32) with
  | Some i => i + 1
  | None => 0
  end.

Definition ops_fpa_ip4mask_to_prefix_len (ipMask : Z) : Z :=
  let prefixLen := ffs (htonl ipMask) in
  if prefixLen =? 0 then prefixLen else OPS_FPA_MAX_IP_PREFIX + 1 - prefixLen.

(** [1 << (31 - i)] is undefined for [i > 31]. *)
Definition ops_fpa_prefix_len_to_ip4mask (prefix : Z) : outcome Z :=
  foldl (λ ip i, let* ip := ip in
           if i <=? 31 then Done (Z.lor ip (u32 (Z.shiftl 1 (31 - i)))) else Crash Undefined)
    (Done 0) (seqZ 0 prefix).

(** ** The integers [ops_fpa_str2int] reads *)

(** The characters [cs] followed by [t]. *)
Definition prepend (cs : list ascii) (t : string) : string := foldr String t cs.

Definition digit_char (d : Z) : ascii := ascii_of_N (Z.to_N (48 + d)).

Definition digits_value (ds : list Z) : Z := foldl (λ acc d, acc * 10 + d) 0 ds.

Inductive sign := NoSign | Plus | Minus.

#[export] Instance sign_eq_dec : EqDecision sign.
Proof. solve_decision. Defined.

Definition sign_chars (sg : sign) : list ascii :=
  match sg with NoSign => [] | Plus => ["+"%char] | Minus => ["-"%char] end.

(** A decimal numeral: spaces, a sign and at least one digit, and nothing else. *)
Definition numeral (s : string) (z : Z) : Prop :=
  ∃ ws sg ds, Forall (λ c, isspace c = true) ws ∧ Forall (λ d, 0 ≤ d ≤ 9) ds ∧ ds ≠ [] ∧
    s = prepend (ws ++ sign_chars sg ++ (digit_char <$> ds)) EmptyString ∧
    z = match sg with Minus => - digits_value ds | _ => digits_value ds end.

Lemma prepend_app cs cs' t : prepend (cs ++ cs') t = prepend cs (prepend cs' t).
Proof. unfold prepend. apply foldr_app. Qed.

(** Checks a statement about a character on each of the 256 characters. *)
Lemma ascii_cases (P : ascii → bool) :
  forallb (λ n, P (ascii_of_N (N.of_nat n))) (seq 0 256) = true → ∀ c, P c = true.
Proof.
  intros Hall c. rewrite forallb_forall in Hall.
  rewrite <- (ascii_N_embedding c), <- (N2Nat.id (N_of_ascii c)). apply Hall, in_seq.
  pose proof (N_ascii_bounded c). lia.
Qed.

Lemma digit_digit_char d : 0 ≤ d ≤ 9 → digit (digit_char d) = Some d.
Proof.
  intros Hd. assert (Forall (λ d, digit (digit_char d) = Some d) (seqZ 0 10)) as Hall
    by (repeat constructor).
  eapply Forall_forall in Hall; [done|]. apply elem_of_seqZ. lia.
Qed.

Lemma digit_inv c d : digit c = Some d → 0 ≤ d ≤ 9 ∧ c = digit_char d.
Proof.
  intros Hd. unfold digit in Hd. case_match eqn:Hc; [|done]. injection Hd as <-.
  apply andb_true_iff in Hc as [?%Z.leb_le ?%Z.leb_le]. split; [lia|].
  unfold digit_char. replace (48 + (char_code c - 48)) with (char_code c) by lia.
  unfold char_code. by rewrite N2Z.id, ascii_N_embedding.
Qed.

(** A sign or a digit is no space, and a digit is no sign. *)
Lemma digit_plain c : is_Some (digit c) →
  isspace c = false ∧ c ≠ "-"%char ∧ c ≠ "+"%char.
Proof.
  pose proof (ascii_cases (λ c, match digit c with
    | Some _ => negb (isspace c) && negb (Ascii.eqb c "-") && negb (Ascii.eqb c "+")
    | None => true end) ltac:(vm_compute; reflexivity) c) as Hc.
  intros [d Hd]. simpl in Hc. rewrite Hd in Hc.
  apply andb_true_iff in Hc as [[H1%negb_true_iff H2%negb_true_iff]%andb_true_iff
    H3%negb_true_iff].
  by apply Ascii.eqb_neq in H2, H3.
Qed.

Lemma skip_spaces_split s :
  ∃ ws, Forall (λ c, isspace c = true) ws ∧ s = prepend ws (skip_spaces s).
Proof.
  induction s as [|c s (ws & Hws & Hs)]; simpl; [by exists []|].
  destruct (isspace c) eqn:Hc; [|by exists []].
  exists (c :: ws). split; [by constructor|]. simpl. by f_equal.
Qed.

(** Whether [s] starts with a space. *)
Definition starts_space (s : string) : bool :=
  match s with String c _ => isspace c | EmptyString => false end.

Lemma skip_spaces_prepend ws t :
  Forall (λ c, isspace c = true) ws → starts_space t = false →
  skip_spaces (prepend ws t) = t.
Proof.
  intros Hws Ht. induction Hws as [|c ws Hc _ IH]; simpl; [|by rewrite Hc].
  destruct t as [|c t]; simpl in *; [done|]. by rewrite Ht.
Qed.

Lemma take_digits_split acc s :
  ∃ ds, Forall (λ d, 0 ≤ d ≤ 9) ds ∧ s = prepend (digit_char <$> ds) (take_digits acc s).2 ∧
    (take_digits acc s).1 = foldl (λ acc d, acc * 10 + d) acc ds ∧
    (starts_digit s = true → ds ≠ []).
Proof.
  revert acc. induction s as [|c s IH]; intros acc; simpl; [by exists []|].
  destruct (digit c) as [d|] eqn:Hd; simpl.
  - destruct (IH (acc * 10 + d)) as (ds & Hds & Hs & Hv & _).
    apply digit_inv in Hd as [Hd ->]. exists (d :: ds). split_and!; simpl; [by constructor| |done|done].
    by f_equal.
  - exists []. split_and!; [done|done|done|]. intros H; vm_compute in H. done.
Qed.

Lemma take_digits_prepend acc ds :
  Forall (λ d, 0 ≤ d ≤ 9) ds →
  take_digits acc (prepend (digit_char <$> ds) EmptyString) =
  (foldl (λ acc d, acc * 10 + d) acc ds, EmptyString).
Proof.
  intros Hds. revert acc. induction Hds as [|d ds Hd _ IH]; intros acc; simpl; [done|].
  by rewrite digit_digit_char.
Qed.

(** [strtol] on a numeral, and what it has read when it consumed everything. *)
Definition clamp_long (z : Z) : Z * bool :=
  if z <? LONG_MIN then (LONG_MIN, true) else if LONG_MAX <? z then (LONG_MAX, true) else (z, false).

Lemma strtol_numeral s z :
  numeral s z → strtol s = ((clamp_long z).1, Some EmptyString, (clamp_long z).2).
Proof.
  intros (ws & sg & ds & Hws & Hds & Hne & -> & ->).
  destruct ds as [|d ds]; [done|]. pose proof (Forall_inv Hds) as Hd.
  destruct (digit_plain (digit_char d)) as (Hsp & Hm & Hp); [by rewrite digit_digit_char|].
  unfold strtol. rewrite prepend_app, skip_spaces_prepend; [|done|by destruct sg].
  rewrite prepend_app.
  assert (take_sign (prepend (sign_chars sg) (prepend (digit_char <$> d :: ds) EmptyString)) =
    (bool_decide (sg = Minus), prepend (digit_char <$> d :: ds) EmptyString)) as ->.
  { destruct sg; [|done..]. simpl. by rewrite !bool_decide_eq_false_2. }
  assert (starts_digit (prepend (digit_char <$> d :: ds) EmptyString) = true) as ->.
  { simpl. rewrite digit_digit_char by done. done. }
  rewrite take_digits_prepend by done. fold (digits_value (d :: ds)).
  unfold clamp_long. destruct sg; simpl; by repeat case_match.
Qed.

Lemma take_sign_split s neg s' :
  take_sign s = (neg, s') →
  ∃ sg, s = prepend (sign_chars sg) s' ∧ neg = bool_decide (sg = Minus).
Proof.
  destruct s as [|c s]; simpl; [intros [= <- <-]; by exists NoSign|].
  case_bool_decide as Hm; [intros [= <- <-]; subst; by exists Minus|].
  case_bool_decide as Hp; intros [= <- <-]; subst; [by exists Plus|by exists NoSign].
Qed.

Lemma strtol_sound s l : strtol s = (l, Some EmptyString, false) → numeral s l.
Proof.
  unfold strtol. destruct (take_sign (skip_spaces s)) as [neg s'] eqn:Hsg.
  destruct (skip_spaces_split s) as (ws & Hws & Hs).
  apply take_sign_split in Hsg as (sg & Hsg & ->). rewrite Hsg in Hs.
  destruct (starts_digit s') eqn:Hst; [|done].
  destruct (take_digits_split 0 s') as (ds & Hds & Hs' & Hv & Hne).
  destruct (take_digits 0 s') as [v rest]. simpl in *. intros Hr.
  assert (rest = EmptyString) as -> by (repeat case_match; by simplify_eq).
  exists ws, sg, ds. split_and!; [done|done|auto| |].
  - by rewrite Hs, Hs', !prepend_app.
  - unfold digits_value. rewrite <- Hv. destruct sg; simpl in Hr; repeat case_match; by simplify_eq.
Qed.

Lemma str2int_spec s i :
  ops_fpa_str2int None i = (true, i) ∧
  (∀ z, numeral s z ∧ INT_MIN ≤ z ≤ INT_MAX ↔ ops_fpa_str2int (Some s) i = (false, z)) ∧
  ((ops_fpa_str2int (Some s) i).1 = true → (ops_fpa_str2int (Some s) i).2 = i).
Proof.
  split_and!; [done| |].
  - intros z. unfold ops_fpa_str2int. split.
    + intros [Hn Hz]. rewrite (strtol_numeral _ _ Hn). unfold clamp_long.
      rewrite !(proj2 (Z.ltb_ge _ _)) by (unfold INT_MIN, INT_MAX, LONG_MIN, LONG_MAX in *; lia).
      simpl. by rewrite !(proj2 (Z.ltb_ge _ _)) by lia.
    + destruct (strtol s) as [[l e] erange] eqn:Hs.
      destruct erange; [done|]. destruct e as [rest|]; [|done].
      destruct (String.eqb rest EmptyString) eqn:Hr; [|done].
      apply String.eqb_eq in Hr as ->. simpl.
      destruct (Z.ltb_spec l INT_MIN); [done|]. destruct (Z.ltb_spec INT_MAX l); [done|].
      intros [= <-]. split; [by apply strtol_sound|lia].
  - unfold ops_fpa_str2int. destruct (strtol s) as [[l e] erange]. by case_match.
Qed.

(** C40: [ops_fpa_str2int] accepts exactly the decimal numerals (spaces, an
    optional sign, at least one digit, nothing after it) whose value fits an [int],
    and returns that value; on any other string, a null one included, it reports an
    error and leaves the output as it was. *)
Theorem str2int_correct s i :
  ops_fpa_str2int None i = (true, i) ∧
  (∀ z, numeral s z ∧ INT_MIN ≤ z ≤ INT_MAX ↔ ops_fpa_str2int (Some s) i = (false, z)) ∧
  ((ops_fpa_str2int (Some s) i).1 = true → (ops_fpa_str2int (Some s) i).2 = i).
Proof. apply str2int_spec. Qed.

(** ** IPv4 addresses *)

Definition dotted (a b c d : Z) : string :=
  pretty a +:+ "." +:+ pretty b +:+ "." +:+ pretty c +:+ "." +:+ pretty d.

Definition octet_ok (a : Z) : Prop := 0 ≤ a < 256.

(** What the plugin relies on of [inet_addr]: a dotted quad is read as the word
    in network order. *)
Definition inet_addr_law (inet_addr : string → Z) : Prop :=
  ∀ a b c d, octet_ok a → octet_ok b → octet_ok c → octet_ok d →
    inet_addr (dotted a b c d) = ip4_word a b c d.

(** The character [c] does not occur in [s]. *)
Fixpoint lacks (c : ascii) (s : string) : bool :=
  match s with
  | EmptyString => true
  | String c' s' => negb (bool_decide (c' = c)) && lacks c s'
  end.

Lemma lacks_app c s t : lacks c (s +:+ t) = lacks c s && lacks c t.
Proof. induction s as [|c' s IH]; simpl; [done|]. by rewrite IH, andb_assoc. Qed.

Lemma cut_at_none c s : lacks c s = true → cut_at c s = (s, None).
Proof.
  induction s as [|c' s IH]; simpl; [done|].
  intros [Hc%negb_true_iff Hs]%andb_true_iff. by rewrite Hc, IH.
Qed.

Lemma cut_at_app c s t : lacks c s = true → cut_at c (s +:+ String c t) = (s, Some t).
Proof.
  induction s as [|c' s IH]; simpl; [intros; by rewrite bool_decide_eq_true_2|].
  intros [Hc%negb_true_iff Hs]%andb_true_iff. by rewrite Hc, IH.
Qed.

(** Checks a statement about an octet on each of the 256 values. *)
Lemma octet_cases (P : Z → bool) :
  forallb P (seqZ 0 256) = true → ∀ a, octet_ok a → P a = true.
Proof.
  intros Hall a Ha. rewrite forallb_forall in Hall. apply Hall.
  apply list_elem_of_In, elem_of_seqZ. unfold octet_ok in Ha. lia.
Qed.

Lemma octet_lacks a : octet_ok a → lacks "/" (pretty a) = true ∧ lacks "." (pretty a) = true.
Proof.
  intros Ha. apply andb_true_iff.
  by apply (octet_cases (λ a, lacks "/" (pretty a) && lacks "." (pretty a))).
Qed.

Lemma ip_octet_ok addr k : octet_ok (ip_octet addr k).
Proof. unfold ip_octet, octet_ok. apply Z.mod_pos_bound. lia. Qed.

Lemma ip_octets_word addr :
  0 ≤ addr < 2 ^ 32 →
  ip4_word (ip_octet addr 0) (ip_octet addr 1) (ip_octet addr 2) (ip_octet addr 3) = addr.
Proof.
  intros Ha. unfold ip4_word, ip_octet.
  change (2 ^ (8 * 0)) with 1. change (2 ^ (8 * 1)) with 256.
  change (2 ^ (8 * 2)) with 65536. change (2 ^ (8 * 3)) with 16777216.
  change (2 ^ 8) with 256. change (2 ^ 16) with 65536. change (2 ^ 24) with 16777216.
  Z.div_mod_to_equations. lia.
Qed.

Lemma ip2str_lacks_slash addr : lacks "/" (ops_fpa_ip2str addr) = true.
Proof.
  unfold ops_fpa_ip2str. rewrite !lacks_app.
  by rewrite !(proj1 (octet_lacks _ (ip_octet_ok _ _))).
Qed.

(** A concrete [inet_addr] for dotted quads without leading zeros. *)
Definition octet_of_string (s : string) : option Z :=
  find (λ a, String.eqb (pretty a) s) (seqZ 0 256).

Definition inet_addr_ref (s : string) : Z :=
  let '(a, r) := cut_at "." s in
  let '(b, r) := cut_at "." (default EmptyString r) in
  let '(c, r) := cut_at "." (default EmptyString r) in
  match octet_of_string a, octet_of_string b, octet_of_string c,
        octet_of_string (default EmptyString r) with
  | Some a, Some b, Some c, Some d => ip4_word a b c d
  | _, _, _, _ => INADDR_NONE
  end.

Lemma octet_of_string_pretty a : octet_ok a → octet_of_string (pretty a) = Some a.
Proof.
  intros Ha. apply (octet_cases (λ a, match octet_of_string (pretty a) with
    | Some b => a =? b | None => false end)) in Ha; [|vm_compute; reflexivity].
  destruct (octet_of_string (pretty a)) as [b|]; [|done]. by apply Z.eqb_eq in Ha as ->.
Qed.

Lemma append_dot s : "." +:+ s = String "." s.
Proof. done. Qed.

Lemma inet_addr_ref_law : inet_addr_law inet_addr_ref.
Proof.
  intros a b c d Ha Hb Hc Hd. unfold inet_addr_ref, dotted.
  rewrite !append_dot.
  rewrite cut_at_app by apply octet_lacks, Ha. cbn [default from_option id].
  rewrite cut_at_app by apply octet_lacks, Hb. cbn [default from_option id].
  rewrite cut_at_app by apply octet_lacks, Hc. cbn [default from_option id].
  by rewrite !octet_of_string_pretty.
Qed.

(** An address printed by [ops_fpa_ip2str] is read back by [ops_fpa_str2ip]
    with prefix length 32, and followed by a slash and a numeral with that prefix
    length; a numeral above 32 is rejected and leaves the address alone.  Negative
    prefix lengths are accepted. *)
Theorem ip_string_roundtrip inet_addr addr old :
  inet_addr_law inet_addr → 0 ≤ addr < 2 ^ 32 → addr ≠ INADDR_NONE →
  ops_fpa_str2ip inet_addr (ops_fpa_ip2str addr) old = (false, addr, 32) ∧
  ∀ t n, numeral t n → INT_MIN ≤ n ≤ INT_MAX →
    ops_fpa_str2ip inet_addr (ops_fpa_ip2str addr +:+ "/" +:+ t) old =
      if 32 <? n then (true, old, n) else (false, addr, n).
Proof.
  intros Hlaw Ha Hnone. unfold ops_fpa_str2ip.
  assert (inet_addr (ops_fpa_ip2str addr) = addr) as Hinet.
  { unfold ops_fpa_ip2str. etransitivity; [apply Hlaw; apply ip_octet_ok|].
    by apply ip_octets_word. }
  split.
  - rewrite cut_at_none by apply ip2str_lacks_slash. rewrite Hinet.
    by rewrite (proj2 (Z.eqb_neq _ _)).
  - intros t n Hn Hr.
    change ("/" +:+ t) with (String "/" t). rewrite cut_at_app by apply ip2str_lacks_slash.
    rewrite (proj1 (proj1 (proj2 (str2int_spec t OPS_FPA_MAX_IP_PREFIX)) n)) by done. simpl.
    unfold OPS_FPA_MAX_IP_PREFIX. destruct (32 <? n); [done|].
    by rewrite Hinet, (proj2 (Z.eqb_neq _ _)).
Qed.

(** ** Masks *)

(** [ops_fpa_prefix_len_to_ip4mask] computes, for every length up to 32, the
    host-order mask with that many leading ones, and its result in network order
    is the octet-wise network mask of the prefix, from which
    [ops_fpa_ip4mask_to_prefix_len] recovers the length. *)
Theorem prefix_mask_roundtrip n :
  0 ≤ n ≤ 32 →
  ops_fpa_prefix_len_to_ip4mask n = Done (2 ^ 32 - 2 ^ (32 - n)) ∧
  htonl (2 ^ 32 - 2 ^ (32 - n)) = netmask_word n ∧
  ops_fpa_ip4mask_to_prefix_len (netmask_word n) = n.
Proof.
  intros Hn.
  assert (Forall (λ n, ops_fpa_prefix_len_to_ip4mask n = Done (2 ^ 32 - 2 ^ (32 - n)) ∧
    htonl (2 ^ 32 - 2 ^ (32 - n)) = netmask_word n ∧
    ops_fpa_ip4mask_to_prefix_len (netmask_word n) = n) (seqZ 0 33)) as Hall
    by (repeat (constructor; [vm_compute; split_and!; reflexivity|]); constructor).
  eapply Forall_forall in Hall; [done|]. apply elem_of_seqZ. lia.
Qed.

(** ** Witnesses *)

Lemma str2int_correct_witness : ops_fpa_str2int (Some " -42") 7 = (false, -42).
Proof.
  apply (proj1 (proj2 (str2int_correct " -42" 7)) (-42)). split; [|unfold INT_MIN, INT_MAX; lia].
  exists [" "%char], Minus, [4; 2]. split_and!; [by repeat constructor|by repeat constructor; lia|done..].
Defined.

(** 10.0.0.1 with the prefix length -3. *)
Lemma ip_string_roundtrip_witness :
  ops_fpa_str2ip inet_addr_ref "10.0.0.1/-3" 0 = (false, ip4_word 10 0 0 1, -3).
Proof.
  apply (proj2 (ip_string_roundtrip inet_addr_ref (ip4_word 10 0 0 1) 0 inet_addr_ref_law
    ltac:(unfold ip4_word; lia) ltac:(vm_compute; discriminate)) "-3" (-3));
    [|unfold INT_MIN, INT_MAX; lia].
  exists [], Minus, [3]. split_and!; [done|by repeat constructor; lia|done..].
Defined.

Lemma prefix_mask_roundtrip_witness :
  ops_fpa_prefix_len_to_ip4mask 20 = Done (2 ^ 32 - 2 ^ (32 - 20)) ∧
  htonl (2 ^ 32 - 2 ^ (32 - 20)) = netmask_word 20 ∧
  ops_fpa_ip4mask_to_prefix_len (netmask_word 20) = 20.
Proof. apply (prefix_mask_roundtrip 20). lia. Defined.

