(* ===== verification/PortVlans.v ===== *)
(** * VLAN configuration of a port (src/ops-fpa-ofproto.c)

    The bridging half of [ops_fpa_ofproto_bundle_set] turns the settings of a port
    into the bitmap of indices it wants, compares it with the one the switch has and
    applies the difference in ascending order: indices of enabled VLANs are written
    to the switch, the others are kept in the port's pending bitmap.
    [ops_fpa_ofproto_set_vlan] moves the indices of one VLAN between the two. *)

From S2P Require Import Prelude Fpa FpaSim Wrap Route Vlan Util.

(** The fields of [struct ofproto_bundle_settings] that the plugin reads. *)
Record ofproto_bundle_settings := {
  s_name : string;
  slaves : list Z;
  s_vlan : Z;
  vlan_mode : port_vlan_mode;
  trunks : option bitmap;
  enable : bool;
  (* smap_get_int (port_options[PORT_HW_CONFIG], "internal_vlan_id", 0) *)
  internal_vlan_id : Z;
  (* the bits of ip_change *)
  PORT_PRIMARY_IPv4_CHANGED : bool;
  PORT_SECONDARY_IPv4_CHANGED : bool;
  ip4_address : option string;
  ip4_address_secondary : list string
}.

Section port_vlans.
Context {F : FPA_SDK}.

(** ** bundle_set *)

(** The bitmap [vnew] the settings ask for. *)
Definition bundle_vnew (set : ofproto_bundle_settings) : bitmap :=
  let vnew := ∅ in
  let vnew :=
    match trunks set with
    | Some trunks =>
        bitmap_for_each_1 VLAN_BITMAP_SIZE (λ _, trunks)
          (λ vid vnew,
             bitmap_set1 (bitmap_set1 vnew (OPS_FPA_VIDX_INGRESS vid true))
               (OPS_FPA_VIDX_EGRESS vid false)) vnew
    | None => vnew
    end in
  if bool_decide (vlan_mode set ≠ PORT_VLAN_TRUNK) then
    bitmap_set1 (bitmap_set1 vnew (OPS_FPA_VIDX_INGRESS (s_vlan set) false))
      (OPS_FPA_VIDX_EGRESS (s_vlan set) (bool_decide (vlan_mode set ≠ PORT_VLAN_NATIVE_TAGGED)))
  else vnew.

(** The body of the loop over [vdiff]; the state is the pending bitmap
    [port->vmap] and the switch. *)
Definition bundle_apply_vidx (switch_id pid : Z) (vlans vnew : bitmap) (vidx : Z)
    (s : bitmap * hw) : bitmap * hw :=
  let '(vmap, h) := s in
  let vid := OPS_FPA_VIDX_VID vidx in
  if bitmap_is_set vlans vid then
    if bitmap_is_set vnew vidx
    then let '(_, h) := ops_fpa_vlan_add switch_id pid vidx h in (vmap, h)
    else let '(_, h) := ops_fpa_vlan_del switch_id pid vidx h in (vmap, h)
  else
    if bitmap_is_set vnew vidx then (bitmap_set1 vmap vidx, h) else (vmap, h).

(** The bridging part: the new pending bitmap and the switch. *)
Definition bundle_set_l2 (fuel : nat) (switch_id pid : Z) (vlans : bitmap)
    (set : ofproto_bundle_settings) (h : hw) : outcome (bitmap * hw) :=
  let vnew := bundle_vnew set in
  let* (vdiff, h) := ops_fpa_vlan_fetch fuel switch_id pid h in
  let vdiff := bitmap_xor vdiff vnew in
  Done (bitmap_for_each_1 OPS_FPA_VMAP_BITS (λ _, vdiff)
          (bundle_apply_vidx switch_id pid vlans vnew) (∅, h)).

(** ** set_vlan, for one port: [ifindex] is that of its netdev *)

Definition set_vlan_port (fuel : nat) (switch_id ifindex ofp_port vid : Z) (add : bool)
    (vmap : bitmap) (h : hw) : outcome (bitmap * hw) :=
  if add then
    Done (bitmap_for_each_1 OPS_FPA_VMAP_BITS fst
      (λ vidx '(vmap, h),
         if bool_decide (OPS_FPA_VIDX_VID vidx = vid) then
           let '(_, h) := ops_fpa_vlan_add switch_id ifindex vidx h in
           (bitmap_set0 vmap vidx, h)
         else (vmap, h)) (vmap, h))
  else
    let* (l2asic, h) := ops_fpa_vlan_fetch fuel switch_id ofp_port h in
    Done (bitmap_for_each_1 OPS_FPA_VMAP_BITS (λ _, l2asic)
      (λ vidx '(vmap, h),
         if bool_decide (OPS_FPA_VIDX_VID vidx = vid) then
           let '(_, h) := ops_fpa_vlan_del switch_id ifindex vidx h in
           (bitmap_set1 vmap vidx, h)
         else (vmap, h)) (vmap, h)).
End port_vlans.

(** ** The indices the settings ask for *)

Lemma elem_of_bundle_vnew set v :
  v ∈ bundle_vnew set ↔
  (∃ t vid, trunks set = Some t ∧ vid ∈ t ∧ 0 ≤ vid < VLAN_BITMAP_SIZE ∧
     (v = vidx_make false true vid ∨ v = vidx_make true false vid)) ∨
  (vlan_mode set ≠ PORT_VLAN_TRUNK ∧
     (v = vidx_make false false (s_vlan set) ∨
      v = vidx_make true (bool_decide (vlan_mode set ≠ PORT_VLAN_NATIVE_TAGGED)) (s_vlan set))).
Proof.
  unfold bundle_vnew.
  set (tr := match trunks set with Some _ => _ | None => _ end).
  assert (v ∈ tr ↔ ∃ t vid, trunks set = Some t ∧ vid ∈ t ∧ 0 ≤ vid < VLAN_BITMAP_SIZE ∧
     (v = vidx_make false true vid ∨ v = vidx_make true false vid)) as Htr.
  { unfold tr. destruct (trunks set) as [t|]; [|set_solver].
    match goal with |- _ ∈ ?m ↔ _ =>
      assert (v ∈ m ↔ ∃ vid, vid ∈ t ∧ 0 ≤ vid < VLAN_BITMAP_SIZE ∧
        (v = vidx_make false true vid ∨ v = vidx_make true false vid)) as ->; [|naive_solver] end.
    apply (bitmap_for_each_1_inv (λ i s, v ∈ s ↔ ∃ vid, vid ∈ t ∧ 0 ≤ vid < i ∧
      (v = vidx_make false true vid ∨ v = vidx_make true false vid))).
    - done.
    - split; [set_solver|]. intros (vid & _ & ? & _). lia.
    - intros i s Hi IH. destruct (bitmap_is_set t i) eqn:Hb.
      + apply bitmap_is_set_spec in Hb. unfold bitmap_set1.
        rewrite !elem_of_union, !elem_of_singleton, IH, ingress_make, egress_make. split.
        * intros [->|[->|(vid & ? & ? & ?)]];
            [exists i|exists i|exists vid]; split_and!; auto; lia.
        * intros (vid & ? & ? & Hv). destruct (decide (vid = i)) as [->|];
            [naive_solver|]. right; right. exists vid. split_and!; [done|lia|lia|done].
      + apply not_true_iff_false in Hb. rewrite bitmap_is_set_spec in Hb. rewrite IH. split.
        * intros (vid & ? & ? & ?). exists vid. split_and!; [done|lia|lia|done].
        * intros (vid & ? & ? & ?). exists vid. destruct (decide (vid = i)) as [->|]; [done|].
          split_and!; [done|lia|lia|done]. }
  case_bool_decide as Hmode.
  - unfold bitmap_set1. rewrite !elem_of_union, !elem_of_singleton, Htr, ingress_make, egress_make.
    tauto.
  - rewrite Htr. tauto.
Qed.

(** Settings with VLANs between 1 and 4095 only. *)
Definition settings_ok (set : ofproto_bundle_settings) : Prop :=
  (∀ t vid, trunks set = Some t → vid ∈ t → 1 ≤ vid < VLAN_BITMAP_SIZE) ∧
  (vlan_mode set ≠ PORT_VLAN_TRUNK → 1 ≤ s_vlan set < VLAN_BITMAP_SIZE).

Lemma vidx_make_l2 egress arg vid : 1 ≤ vid < VLAN_BITMAP_SIZE → vidx_l2 (vidx_make egress arg vid).
Proof.
  unfold VLAN_BITMAP_SIZE. intros Hv. assert (vid_ok vid) as Hok by (unfold vid_ok; lia).
  split; [by apply vidx_make_ok|]. rewrite (proj1 (vidx_fields egress arg vid Hok)). lia.
Qed.

Lemma bundle_vnew_l2 set v : settings_ok set → v ∈ bundle_vnew set → vidx_l2 v.
Proof.
  intros [Ht Hn] [(t & vid & Hs & Hv & _ & [->| ->])|[Hm [->| ->]]]%elem_of_bundle_vnew;
    apply vidx_make_l2; eauto.
Qed.

(** ** The abstract loop

    Two different indices of the old or the new configuration with the same
    hardware key are harmless only as an old one that goes and a new one with a
    larger index that comes. *)

Definition ordered_keys (old new : bitmap) : Prop :=
  ∀ v w, v ∈ old ∪ new → w ∈ old ∪ new → vidx_key v = vidx_key w → v < w →
    v ∈ old ∧ v ∉ new ∧ w ∈ new ∧ w ∉ old.

(** The switch after the indices below [i] have been handled. *)
Definition l2_partial (vlans old new : bitmap) (i w : Z) : Prop :=
  (w ∈ old ∧ ¬ (w < i ∧ w ∉ new ∧ OPS_FPA_VIDX_VID w ∈ vlans)) ∨
  (w ∈ new ∧ w ∉ old ∧ w < i ∧ OPS_FPA_VIDX_VID w ∈ vlans).

(** The switch and the pending bitmap at the end. *)
Definition l2_final (vlans old new : bitmap) : bitmap :=
  filter (λ w, OPS_FPA_VIDX_VID w ∈ vlans) new ∪ filter (λ w, OPS_FPA_VIDX_VID w ∉ vlans) old.

Definition pending_final (vlans old new : bitmap) : bitmap :=
  filter (λ w, OPS_FPA_VIDX_VID w ∉ vlans ∧ w ∉ old) new.

(** Egress indices with the same key are on the same VLAN. *)
Lemma egress_key_vid v w :
  OPS_FPA_VIDX_IS_EGRESS v = true → vidx_key w = vidx_key v →
  OPS_FPA_VIDX_VID w = OPS_FPA_VIDX_VID v.
Proof. intros He. unfold vidx_key. rewrite He. repeat case_match; congruence. Qed.

Lemma l2_add_step vlans old new v (m : bitmap) :
  ordered_keys old new → v ∈ new → v ∉ old → OPS_FPA_VIDX_VID v ∈ vlans →
  (∀ w, w ∈ m ↔ l2_partial vlans old new v w) →
  ∀ w, w ∈ vmap_add v m ↔ l2_partial vlans old new (v + 1) w.
Proof.
  intros Hord Hnew Hold Hen Hm w.
  assert (OPS_FPA_VIDX_IS_EGRESS v && key_present v m = false) as Hk.
  { apply not_true_iff_false. intros [He (u & Hu & Hku)%key_present_spec]%andb_true_iff.
    pose proof (egress_key_vid v u He Hku) as Hvid. apply Hm in Hu.
    assert (u ≠ v) as Hne by (intros ->; destruct Hu as [[? _]|(_ & _ & ? & _)]; [done|lia]).
    assert (u ∈ old ∪ new) as Hin by (destruct Hu as [[? _]|[? _]]; set_solver).
    destruct (Z.lt_total u v) as [Hlt|[?|Hlt]]; [|done|].
    - destruct (Hord u v) as (? & ? & _); [done|set_solver|done|done|].
      destruct Hu as [[_ Hu]|(? & _)]; [|done]. apply Hu. rewrite Hvid. auto.
    - destruct (Hord v u) as (? & _); [set_solver|done|done|done|done]. }
  unfold vmap_add. rewrite Hk, elem_of_union, elem_of_singleton, Hm. unfold l2_partial. split.
  - intros [->|[[? Hn]|(? & ? & ? & ?)]]; [right; split_and!; [done|done|lia|done]| |].
    + left. split; [done|]. intros (? & ? & ?). apply Hn. split_and!; [|done|done].
      destruct (decide (w = v)) as [->|]; [done|lia].
    + right. split_and!; [done|done|lia|done].
  - intros [[? Hn]|(? & ? & ? & ?)].
    + right; left. split; [done|]. intros (? & ? & ?). apply Hn. split_and!; [lia|done|done].
    + destruct (decide (w = v)) as [->|]; [by left|]. right; right. split_and!; [done|done|lia|done].
Qed.

Lemma l2_del_step vlans old new v (m : bitmap) :
  ordered_keys old new → v ∈ old → v ∉ new → OPS_FPA_VIDX_VID v ∈ vlans →
  (∀ w, w ∈ m ↔ l2_partial vlans old new v w) →
  ∀ w, w ∈ vmap_del v m ↔ l2_partial vlans old new (v + 1) w.
Proof.
  intros Hord Hold Hnew Hen Hm w. rewrite elem_of_vmap_del, Hm.
  assert (l2_partial vlans old new v w → vidx_key w = vidx_key v → w = v) as Huniq.
  { intros Hw Hk. destruct (Z.lt_total w v) as [Hlt|[?|Hlt]]; [|done|].
    - destruct (Hord w v) as (? & ? & ? & _); [|set_solver|done|done|done].
      destruct Hw as [[? _]|[? _]]; set_solver.
    - destruct (Hord v w) as (? & ? & ? & ?); [set_solver| |done|done|].
      + destruct Hw as [[? _]|[? _]]; set_solver.
      + destruct Hw as [[? _]|(_ & _ & ? & _)]; [done|lia]. }
  unfold l2_partial in *. split.
  - intros [Hw Hk]. assert (w ≠ v) by (by intros ->). destruct Hw as [[? Hn]|(? & ? & ? & ?)].
    + left. split; [done|]. intros (? & ? & ?). apply Hn. split_and!; [lia|done|done].
    + right. split_and!; [done|done|lia|done].
  - intros Hw. assert (w ≠ v).
    { intros ->. destruct Hw as [[_ Hw]|(? & _)]; [|done]. apply Hw. split_and!; [lia|done|done]. }
    assert (l2_partial vlans old new v w) as Hw'.
    { destruct Hw as [[? Hn]|(? & ? & ? & ?)].
      - left. split; [done|]. intros (? & ? & ?). apply Hn. split_and!; [lia|done|done].
      - right. split_and!; [done|done|lia|done]. }
    split; [exact Hw'|]. intros Hk. auto.
Qed.

(** An index outside the difference, or of a disabled VLAN, leaves the switch. *)
Lemma l2_skip_step vlans old new v :
  (v ∈ old ↔ v ∈ new) ∨ OPS_FPA_VIDX_VID v ∉ vlans →
  ∀ w, l2_partial vlans old new v w ↔ l2_partial vlans old new (v + 1) w.
Proof.
  intros Hsk w. unfold l2_partial.
  destruct (decide (w = v)) as [->|Hne]; [|assert (w < v ↔ w < v + 1) as -> by lia; done].
  assert (v < v ↔ False) as -> by lia. assert (v < v + 1 ↔ True) as -> by lia. tauto.
Qed.

(** ** What configuring a port leaves alone *)

Section frame.
Context {F : FPA_SDK} {O : FPA_OBS F}.

(** Only the VLAN table and the L2 interface groups of port [pid] of switch [sid] may
    have changed. *)
Definition port_vlans_only (sid pid : Z) (h h' : hw) : Prop :=
  (∀ sid' t, sid' ≠ sid ∨ t ≠ FPA_FLOW_TABLE_TYPE_VLAN_E → flows h' sid' t = flows h sid' t) ∧
  (∀ sid', sid' ≠ sid → groups h' sid' = groups h sid') ∧
  (∀ gid, (∀ vid, vid_ok vid → gid ≠ (l2_group_id pid vid).2) →
     groups h' sid !! gid = groups h sid !! gid).

#[export] Instance port_vlans_only_preorder sid pid : PreOrder (port_vlans_only sid pid).
Proof.
  split; [intros h; split; [done|by split]|]. intros h1 h2 h3 (F1 & G1 & K1) (F2 & G2 & K2).
  split; [intros; rewrite F2 by done; auto|].
  split; [intros; rewrite G2 by done; auto|intros; rewrite K2 by done; auto].
Qed.

Lemma port_vlans_only_same sid pid h h' : hw_same h h' → port_vlans_only sid pid h h'.
Proof. intros [Hf Hg]. split; [by intros; rewrite Hf|]. split; intros; by rewrite Hg. Qed.

Context `{!FPA_LAWS F O, !FPA_DELETES F O}.

Lemma vlan_add_only sid pid v h err h' :
  vidx_ok v → ops_fpa_vlan_add sid pid v h = (err, h') → port_vlans_only sid pid h h'.
Proof.
  intros Hv Hadd. destruct (vidx_ok_make _ Hv) as [_ Hvid].
  destruct (OPS_FPA_VIDX_IS_EGRESS v) eqn:Heg, err.
  - by apply port_vlans_only_same, (vlan_add_egress_err sid pid v).
  - unfold ops_fpa_vlan_add in Hadd. rewrite Heg in Hadd.
    destruct (ops_fpa_route_add_l2_group _ _ _ _ _) as [[err gid] h1] eqn:Hl2. simplify_eq.
    apply add_l2_group_ok in Hl2 as (Hid & _ & Hg & Hf & Hg'). split; [by intros; apply Hf|]. split; [done|].
    intros gid' Hne. rewrite Hg, lookup_insert_ne; [done|].
    specialize (Hne _ Hvid). rewrite Hid in Hne. done.
  - by apply port_vlans_only_same, (vlan_add_ingress_err sid pid v).
  - unfold ops_fpa_vlan_add in Hadd. rewrite Heg in Hadd. fpa_run.
    match goal with H : fpaLibFlowEntryAdd _ _ _ _ = _ |- _ => apply flow_add_ok in H as [_ [Hf Hg]] end.
    split; [done|]. split; intros; by rewrite Hg.
Qed.

Lemma vlan_del_only sid pid v h err h' :
  vidx_ok v → ops_fpa_vlan_del sid pid v h = (err, h') → port_vlans_only sid pid h h'.
Proof.
  intros Hv Hdel. destruct (vidx_ok_make _ Hv) as [_ Hvid].
  destruct (OPS_FPA_VIDX_IS_EGRESS v) eqn:Heg, err.
  - by apply port_vlans_only_same, (vlan_del_egress_err sid pid v).
  - unfold ops_fpa_vlan_del in Hdel. rewrite Heg in Hdel.
    change (fpaLibGroupIdentifierBuild _) with (l2_group_id pid (OPS_FPA_VIDX_VID v)) in Hdel.
    destruct (l2_group_id pid (OPS_FPA_VIDX_VID v)) as [st gid] eqn:Hid. fpa_run.
    match goal with H : fpaLibGroupTableEntryDelete _ _ _ = _ |- _ =>
      apply group_delete_ok in H as [Hg [Hf Hg']] end.
    split; [by intros; apply Hf|]. split; [done|]. intros gid' Hne. rewrite Hg, lookup_delete_ne; [done|].
    specialize (Hne _ Hvid). rewrite Hid in Hne. done.
  - by apply port_vlans_only_same, (vlan_del_ingress_err sid pid v).
  - unfold ops_fpa_vlan_del in Hdel. rewrite Heg in Hdel. fpa_run.
    match goal with H : fpaLibFlowTableCookieDelete _ _ _ _ = _ |- _ =>
      apply flow_cookie_delete_ok in H as [_ [Hf Hg]] end.
    split; [done|]. split; intros; by rewrite Hg.
Qed.

Lemma bundle_apply_only sid pid vlans vnew i s h :
  vidx_ok i → port_vlans_only sid pid h s.2 →
  port_vlans_only sid pid h (bundle_apply_vidx sid pid vlans vnew i s).2.
Proof.
  intros Hi Hs. destruct s as [vmap h1]. simpl in *.
  destruct (bitmap_is_set vlans _), (bitmap_is_set vnew i); try done.
  - destruct (ops_fpa_vlan_add sid pid i h1) as [err h2] eqn:Hadd. etrans; [done|]. by eapply vlan_add_only.
  - destruct (ops_fpa_vlan_del sid pid i h1) as [err h2] eqn:Hdel. etrans; [done|]. by eapply vlan_del_only.
Qed.

Lemma bundle_set_l2_only fuel sid pid vlans set h v h' :
  (length (flows h sid FPA_FLOW_TABLE_TYPE_VLAN_E) < fuel)%nat → (size (groups h sid) < fuel)%nat →
  bundle_set_l2 fuel sid pid vlans set h = Done (v, h') → port_vlans_only sid pid h h'.
Proof.
  intros Hf Hg. unfold bundle_set_l2.
  destruct (vlan_fetch_port_vmap fuel sid pid h Hf Hg) as (h1 & -> & Hs). cbn [obind].
  match goal with |- Done ?r = _ → _ => set (s := r) end.
  assert (port_vlans_only sid pid h s.2) as Honly.
  { apply (bitmap_for_each_1_inv (λ _ s, port_vlans_only sid pid h s.2)); [done| |].
    - by apply port_vlans_only_same.
    - intros i s' Hi Hs1. destruct (bitmap_is_set _ i); [|done]. by apply bundle_apply_only. }
  clearbody s. destruct s as [v1 h2]. by intros [= <- <-].
Qed.
End frame.

(** ** The concrete loops *)

Section bundle_loop.
Context {F : FPA_SDK} {O : FPA_OBS F} `{!FPA_LAWS F O, !FPA_NOFAIL F O, !FPA_DELETES F O}.
Context (sid pid : Z) (vlans : bitmap) (h0 : hw).
Hypothesis wf0 : vlan_wf h0 sid.
Hypothesis pid_u16 : pid_ok pid.
Hypothesis no_vlan0 : 0 ∉ vlans.

Section diff.
Context (new : bitmap).
Hypothesis new_l2 : ∀ v, v ∈ new → vidx_l2 v.

Let old : bitmap := l2map h0 sid pid.
Hypothesis ordered : ordered_keys old new.

(** What holds before index [i] of the difference is looked at. *)
Definition bundle_inv (i : Z) (s : bitmap * hw) : Prop :=
  vlan_wf s.2 sid ∧
  (∀ w, w ∈ l2map s.2 sid pid ↔ l2_partial vlans old new i w) ∧
  (∀ pid', pid_ok pid' → pid' ≠ pid → l2map s.2 sid pid' = l2map h0 sid pid') ∧
  (∀ w, w ∈ s.1 ↔ w ∈ new ∧ w ∉ old ∧ OPS_FPA_VIDX_VID w ∉ vlans ∧ w < i).

Lemma fetched_old v : OPS_FPA_VIDX_VID v ≠ 0 → v ∈ port_vmap h0 sid pid ↔ v ∈ old.
Proof. intros Hv. unfold old, l2map. rewrite elem_of_filter. tauto. Qed.

Lemma bundle_inv_step i s :
  0 ≤ i < OPS_FPA_VMAP_BITS → bundle_inv i s →
  bundle_inv (i + 1)
    (if bitmap_is_set (bitmap_xor (port_vmap h0 sid pid) new) i
     then bundle_apply_vidx sid pid vlans new i s else s).
Proof.
  intros Hi (Hwf & Hm & Ho & Hp). destruct s as [vmap h]; simpl in *.
  assert (∀ w, w < i + 1 ↔ w = i ∨ w < i) as Hlt by lia.
  destruct (decide (OPS_FPA_VIDX_VID i ∈ vlans)) as [Hen|Hdis].
  - (* an enabled VLAN: the switch follows *)
    assert (OPS_FPA_VIDX_VID i ≠ 0) as Hnz by (by intros Hz; rewrite Hz in Hen).
    assert (vidx_l2 i) as Hl2 by done.
    assert (∀ w, w ∈ vmap ↔ w ∈ new ∧ w ∉ old ∧ OPS_FPA_VIDX_VID w ∉ vlans ∧ w < i + 1) as Hp'.
    { intros w. rewrite Hp, Hlt. naive_solver. }
    destruct (bitmap_is_set (bitmap_xor _ new) i) eqn:Hd.
    + apply bitmap_is_set_spec, elem_of_bitmap_xor in Hd. rewrite fetched_old in Hd by done.
      simpl. rewrite (proj2 (bitmap_is_set_spec vlans _) Hen).
      destruct (bitmap_is_set new i) eqn:Hn.
      * apply bitmap_is_set_spec in Hn.
        destruct (ops_fpa_vlan_add sid pid i h) as [err h'] eqn:Hadd.
        apply vlan_add_refines in Hadd as (Hwf' & Hm' & Ho'); [|done..].
        split_and!; simpl; [done| |intros; rewrite Ho'; auto|done].
        rewrite Hm'. apply l2_add_step; [done|done|tauto|done|done].
      * apply not_true_iff_false in Hn. rewrite bitmap_is_set_spec in Hn.
        destruct (ops_fpa_vlan_del sid pid i h) as [err h'] eqn:Hdel.
        apply vlan_del_refines in Hdel as (Hwf' & Hm' & Ho'); [|done..].
        split_and!; simpl; [done| |intros; rewrite Ho'; auto|done].
        rewrite Hm'. apply l2_del_step; [done|tauto|done|done|done].
    + apply not_true_iff_false in Hd.
      rewrite bitmap_is_set_spec, elem_of_bitmap_xor, fetched_old in Hd by done.
      split_and!; simpl; [done| |done|done]. intros w. rewrite Hm. apply l2_skip_step. left.
      destruct (decide (i ∈ old)), (decide (i ∈ new)); tauto.
  - (* a disabled VLAN: only the pending bitmap *)
    assert (∀ w, w ∈ l2map h sid pid ↔ l2_partial vlans old new (i + 1) w) as Hm'.
    { intros w. rewrite Hm. apply l2_skip_step. auto. }
    assert (i ∈ new → i ∈ port_vmap h0 sid pid ↔ i ∈ old) as Hfo
      by (intros Hn; apply fetched_old, new_l2, Hn).
    destruct (bitmap_is_set (bitmap_xor _ new) i) eqn:Hd; simpl.
    + apply bitmap_is_set_spec, elem_of_bitmap_xor in Hd.
      assert (bitmap_is_set vlans (OPS_FPA_VIDX_VID i) = false) as ->
        by (by apply bool_decide_eq_false_2).
      destruct (bitmap_is_set new i) eqn:Hn.
      * apply bitmap_is_set_spec in Hn. specialize (Hfo Hn). split_and!; simpl; [done|done|done|].
        intros w. unfold bitmap_set1. rewrite elem_of_union, elem_of_singleton, Hp, Hlt.
        split; [intros [->|?]; tauto|]. intros (? & ? & ? & [->|?]); tauto.
      * apply not_true_iff_false in Hn. rewrite bitmap_is_set_spec in Hn.
        split_and!; simpl; [done|done|done|]. intros w. rewrite Hp, Hlt. naive_solver.
    + apply not_true_iff_false in Hd. rewrite bitmap_is_set_spec, elem_of_bitmap_xor in Hd.
      split_and!; simpl; [done|done|done|]. intros w. rewrite Hp, Hlt. split; [tauto|].
      intros (? & ? & ? & [->|?]); [|tauto]. exfalso. apply Hd. right. rewrite Hfo; auto.
Qed.

Lemma old_l2 v : v ∈ old → vidx_l2 v.
Proof. apply l2map_vidx; done. Qed.

Lemma vidx_l2_lt v : vidx_l2 v → v < OPS_FPA_VMAP_BITS.
Proof. intros [[_ Hlt] _]. exact Hlt. Qed.

(** The whole loop, started on a switch that reads like [h0]. *)
Lemma bundle_loop_spec h :
  hw_same h0 h →
  let s := bitmap_for_each_1 OPS_FPA_VMAP_BITS (λ _, bitmap_xor (port_vmap h0 sid pid) new)
             (bundle_apply_vidx sid pid vlans new) (∅, h) in
  vlan_wf s.2 sid ∧ l2map s.2 sid pid = l2_final vlans old new ∧
  s.1 = pending_final vlans old new ∧
  ∀ pid', pid_ok pid' → pid' ≠ pid → l2map s.2 sid pid' = l2map h0 sid pid'.
Proof.
  intros Hs s.
  assert (bundle_inv OPS_FPA_VMAP_BITS s) as (Hwf & Hm & Ho & Hp).
  { apply (bitmap_for_each_1_inv bundle_inv); [done| |intros; by apply bundle_inv_step].
    assert (∀ w, w ∈ old ∪ new → ¬ w < 0) as Hneg.
    { intros w [Hw|Hw]%elem_of_union; [apply old_l2 in Hw|apply new_l2 in Hw];
        destruct Hw as [[? _] _]; lia. }
    split_and!; simpl.
    - by eapply vlan_wf_same.
    - intros w. rewrite (l2map_same _ _ _ _ Hs). fold old. unfold l2_partial. split; [intros Hw|].
      + left. split; [done|]. intros [? _]. apply (Hneg w); [set_solver|done].
      + intros [[? _]|(? & _ & ? & _)]; [done|]. destruct (Hneg w); [set_solver|done].
    - intros. by apply l2map_same.
    - intros w. split; [set_solver|]. intros (? & _ & _ & ?). destruct (Hneg w); [set_solver|done]. }
  split_and!; [done| | |done].
  - apply set_eq. intros w. rewrite Hm. unfold l2_final, l2_partial.
    rewrite elem_of_union, !elem_of_filter. split.
    + intros [[Hw Hn]|(? & _ & _ & ?)]; [|by left].
      destruct (decide (OPS_FPA_VIDX_VID w ∈ vlans)); [|by right].
      left. split; [done|]. destruct (decide (w ∈ new)); [done|]. exfalso. apply Hn.
      split_and!; [by apply vidx_l2_lt, old_l2|done|done].
    + intros [[Hen Hw]|[Hen Hw]]; [|left; tauto].
      destruct (decide (w ∈ old)); [left; tauto|]. right.
      split_and!; [done|done|by apply vidx_l2_lt, new_l2|done].
  - apply set_eq. intros w. rewrite Hp. unfold pending_final. rewrite elem_of_filter.
    split; [tauto|]. intros [[? ?] ?]. split_and!; [done|done|done|by apply vidx_l2_lt, new_l2].
Qed.
End diff.

(** Configuring a port whose old and new indices do not get in each other's way. *)
Lemma bundle_set_l2_spec fuel set :
  (length (flows h0 sid FPA_FLOW_TABLE_TYPE_VLAN_E) < fuel)%nat →
  (size (groups h0 sid) < fuel)%nat →
  settings_ok set → ordered_keys (l2map h0 sid pid) (bundle_vnew set) →
  ∃ vmap h', bundle_set_l2 fuel sid pid vlans set h0 = Done (vmap, h') ∧ vlan_wf h' sid ∧
    l2map h' sid pid = l2_final vlans (l2map h0 sid pid) (bundle_vnew set) ∧
    vmap = pending_final vlans (l2map h0 sid pid) (bundle_vnew set) ∧
    ∀ pid', pid_ok pid' → pid' ≠ pid → l2map h' sid pid' = l2map h0 sid pid'.
Proof.
  intros Hf Hg Hset Hord. unfold bundle_set_l2.
  destruct (vlan_fetch_port_vmap fuel sid pid h0 Hf Hg) as (h1 & -> & Hs). simpl.
  pose proof (bundle_loop_spec (bundle_vnew set) (λ v, bundle_vnew_l2 set v Hset) Hord h1 Hs)
    as Hloop.
  destruct (bitmap_for_each_1 _ _ _ _) as [vmap h']. exists vmap, h'. by split.
Qed.
End bundle_loop.

(** ** A port in step with its configuration *)

(** At most one index of [D] per hardware key. *)
Definition unique_keys (D : bitmap) : Prop :=
  ∀ v w, v ∈ D → w ∈ D → vidx_key v = vidx_key w → v = w.

Section port_sync.
Context {F : FPA_SDK} {O : FPA_OBS F}.

(** The desired indices [D] are on the switch where their VLAN is enabled and
    pending where it is not. *)
Definition port_sync (h : hw) (sid pid : Z) (vlans vmap D : bitmap) : Prop :=
  (∀ w, w ∈ l2map h sid pid ↔ w ∈ D ∧ OPS_FPA_VIDX_VID w ∈ vlans) ∧
  (∀ w, w ∈ vmap ↔ w ∈ D ∧ OPS_FPA_VIDX_VID w ∉ vlans).

Context `{!FPA_LAWS F O, !FPA_NOFAIL F O, !FPA_DELETES F O}.
Context (sid pid vid : Z) (vlans D : bitmap) (h0 : hw).
Hypothesis pid_u16 : pid_ok pid.
Hypothesis D_l2 : ∀ v, v ∈ D → vidx_l2 v.
Hypothesis D_keys : unique_keys D.

(** The state while [vid] is being moved, before index [i]: [moved w] tells
    whether [w] has been moved. *)
Definition moved (i w : Z) : Prop := OPS_FPA_VIDX_VID w = vid ∧ w < i.

#[local] Instance moved_dec i w : Decision (moved i w).
Proof. unfold moved. apply _. Defined.

Definition enabling (i : Z) (s : bitmap * hw) : Prop :=
  vlan_wf s.2 sid ∧
  (∀ w, w ∈ l2map s.2 sid pid ↔ w ∈ D ∧ (OPS_FPA_VIDX_VID w ∈ vlans ∨ moved i w)) ∧
  (∀ w, w ∈ s.1 ↔ w ∈ D ∧ ¬ (OPS_FPA_VIDX_VID w ∈ vlans ∨ moved i w)) ∧
  (∀ pid', pid_ok pid' → pid' ≠ pid → l2map s.2 sid pid' = l2map h0 sid pid').

Definition disabling (i : Z) (s : bitmap * hw) : Prop :=
  vlan_wf s.2 sid ∧
  (∀ w, w ∈ l2map s.2 sid pid ↔ w ∈ D ∧ OPS_FPA_VIDX_VID w ∈ vlans ∧ ¬ moved i w) ∧
  (∀ w, w ∈ s.1 ↔ w ∈ D ∧ ¬ (OPS_FPA_VIDX_VID w ∈ vlans ∧ ¬ moved i w)) ∧
  (∀ pid', pid_ok pid' → pid' ≠ pid → l2map s.2 sid pid' = l2map h0 sid pid').

Lemma moved_succ i w : moved (i + 1) w ↔ moved i w ∨ (w = i ∧ OPS_FPA_VIDX_VID w = vid).
Proof. unfold moved. lia. Qed.

Lemma enabling_step i s :
  enabling i s →
  enabling (i + 1)
    (if bitmap_is_set s.1 i then
       (λ vidx '(vmap, h),
          if bool_decide (OPS_FPA_VIDX_VID vidx = vid) then
            let '(_, h) := ops_fpa_vlan_add sid pid vidx h in (bitmap_set0 vmap vidx, h)
          else (vmap, h)) i s
     else s).
Proof.
  intros (Hwf & Hm & Hp & Ho). destruct s as [vmap h]; simpl in *.
  destruct (bitmap_is_set vmap i) eqn:Hb; [case_bool_decide as Hv|].
  - apply bitmap_is_set_spec, Hp in Hb as [HD Hno].
    destruct (ops_fpa_vlan_add sid pid i h) as [err h'] eqn:Hadd.
    apply vlan_add_refines in Hadd as (Hwf' & Hm' & Ho'); [|by auto..].
    unfold vmap_add in Hm'.
    assert (OPS_FPA_VIDX_IS_EGRESS i && key_present i (l2map h sid pid) = false) as Hk.
    { apply not_true_iff_false. intros [_ (u & [Hu Hu']%Hm & Hku)%key_present_spec]%andb_true_iff.
      by rewrite (D_keys u i) in Hu'. }
    rewrite Hk in Hm'. split_and!; simpl; [done| | |intros; rewrite Ho'; auto].
    + intros w. rewrite Hm', elem_of_union, elem_of_singleton, Hm, moved_succ.
      split; [intros [->|?]|]; naive_solver.
    + intros w. unfold bitmap_set0. rewrite elem_of_difference, elem_of_singleton, Hp, moved_succ.
      naive_solver.
  - split_and!; simpl; [done| | |done]; intros w; rewrite ?Hm, ?Hp, moved_succ; naive_solver.
  - assert (i ∉ vmap) as Hn by (rewrite <- bitmap_is_set_spec; congruence). rewrite Hp in Hn.
    assert (∀ w, w ∈ D → (OPS_FPA_VIDX_VID w ∈ vlans ∨ moved (i + 1) w) ↔
      (OPS_FPA_VIDX_VID w ∈ vlans ∨ moved i w)) as Heq.
    { intros w Hw. rewrite moved_succ. split; [|tauto]. intros [?|[?|[-> ?]]]; [tauto..|].
      destruct (decide (OPS_FPA_VIDX_VID i ∈ vlans ∨ moved i i)); tauto. }
    split_and!; simpl; [done| | |done]; intros w; rewrite ?Hm, ?Hp;
      pose proof (Heq w); tauto.
Qed.

Lemma disabling_step asic i s :
  (∀ w, OPS_FPA_VIDX_VID w = vid → w ∈ asic ↔ w ∈ D ∧ OPS_FPA_VIDX_VID w ∈ vlans) →
  disabling i s →
  disabling (i + 1)
    (if bitmap_is_set asic i then
       (λ vidx '(vmap, h),
          if bool_decide (OPS_FPA_VIDX_VID vidx = vid) then
            let '(_, h) := ops_fpa_vlan_del sid pid vidx h in (bitmap_set1 vmap vidx, h)
          else (vmap, h)) i s
     else s).
Proof.
  intros Hasic (Hwf & Hm & Hp & Ho). destruct s as [vmap h]; simpl in *.
  destruct (bitmap_is_set asic i) eqn:Hb; [case_bool_decide as Hv|].
  - apply bitmap_is_set_spec, Hasic in Hb as [HD Hen]; [|done].
    destruct (ops_fpa_vlan_del sid pid i h) as [err h'] eqn:Hdel.
    apply vlan_del_refines in Hdel as (Hwf' & Hm' & Ho'); [|by auto..].
    split_and!; simpl; [done| | |intros; rewrite Ho'; auto].
    + intros w. rewrite Hm', elem_of_vmap_del, Hm, moved_succ. split.
      * intros [(? & ? & ?) Hk]. split_and!; [done|done|]. intros [?|[-> _]]; done.
      * intros (? & ? & Hno). split; [split_and!; [done|done|tauto]|].
        intros Hk. apply Hno. right. rewrite (D_keys w i); auto.
    + intros w. unfold bitmap_set1. rewrite elem_of_union, elem_of_singleton, Hp, moved_succ.
      split; [intros [->|[? ?]]; (split; [done|]); naive_solver|].
      intros [? Hn]. destruct (decide (w = i)) as [->|]; [by left|]. right. split; [done|].
      intros [? ?]. apply Hn. split; [done|]. naive_solver.
  - split_and!; simpl; [done| | |done]; intros w; rewrite ?Hm, ?Hp, moved_succ;
      destruct (decide (w = i)) as [->|]; tauto.
  - assert (i ∉ asic) as Hn by (rewrite <- bitmap_is_set_spec; congruence).
    assert (∀ w, w ∈ D → (OPS_FPA_VIDX_VID w ∈ vlans ∧ ¬ moved (i + 1) w) ↔
      (OPS_FPA_VIDX_VID w ∈ vlans ∧ ¬ moved i w)) as Heq.
    { intros w Hw. rewrite moved_succ. split; [tauto|]. intros [? ?]. split; [done|].
      intros [?|[-> ?]]; [tauto|]. rewrite Hasic in Hn by done. tauto. }
    split_and!; simpl; [done| | |done]; intros w; rewrite ?Hm, ?Hp;
      pose proof (Heq w); tauto.
Qed.

Lemma vmap_bits_bound w : w ∈ D → moved OPS_FPA_VMAP_BITS w ↔ OPS_FPA_VIDX_VID w = vid.
Proof. intros Hw. unfold moved. apply D_l2 in Hw as [[_ Hlt] _]. split; [tauto|done]. Qed.

Lemma moved_0 w : w ∈ D → ¬ moved 0 w.
Proof. intros Hw [_ Hlt]. apply D_l2 in Hw as [[? _] _]. lia. Qed.

(** Moving a VLAN keeps the port in step with its configuration. *)
Lemma set_vlan_port_spec fuel ofp_port add vmap :
  vlan_wf h0 sid → port_sync h0 sid pid vlans vmap D → vid ≠ 0 →
  (add = false → ofp_port = pid ∧
     (length (flows h0 sid FPA_FLOW_TABLE_TYPE_VLAN_E) < fuel)%nat ∧
     (size (groups h0 sid) < fuel)%nat) →
  ∃ vmap' h', set_vlan_port fuel sid pid ofp_port vid add vmap h0 = Done (vmap', h') ∧
    vlan_wf h' sid ∧ port_sync h' sid pid (bitmap_set vlans vid add) vmap' D ∧
    ∀ pid', pid_ok pid' → pid' ≠ pid → l2map h' sid pid' = l2map h0 sid pid'.
Proof.
  intros Hwf [Hm Hp] Hnz Hdel. unfold set_vlan_port. destruct add.
  - match goal with |- context [Done ?r] => set (s := r) end.
    assert (enabling OPS_FPA_VMAP_BITS s) as (Hwf' & Hm' & Hp' & Ho').
    { apply (bitmap_for_each_1_inv enabling); [done| |intros; by apply enabling_step].
      split_and!; simpl; [done| | |done]; intros w; rewrite ?Hm, ?Hp; pose proof (moved_0 w); tauto. }
    destruct s as [vmap' h']. exists vmap', h'. split_and!; [done|done| |done].
    unfold port_sync, bitmap_set, bitmap_set1. simpl in *.
    split; intros w; rewrite ?Hm', ?Hp', elem_of_union, elem_of_singleton;
      pose proof (vmap_bits_bound w); tauto.
  - destruct (Hdel eq_refl) as (-> & Hf & Hg).
    destruct (vlan_fetch_port_vmap fuel sid pid h0 Hf Hg) as (h1 & -> & Hs). simpl.
    match goal with |- context [Done ?r] => set (s := r) end.
    assert (disabling OPS_FPA_VMAP_BITS s) as (Hwf' & Hm' & Hp' & Ho').
    { apply (bitmap_for_each_1_inv disabling); [done| |].
      - split_and!; simpl; [by eapply vlan_wf_same| | |intros; by apply l2map_same];
          intros w; rewrite ?(l2map_same _ _ _ _ Hs), ?Hm, ?Hp; pose proof (moved_0 w);
          destruct (decide (OPS_FPA_VIDX_VID w ∈ vlans)); tauto.
      - intros i s' Hi Hs'. apply disabling_step; [|done]. intros w Hw. rewrite <- Hm.
        unfold l2map. rewrite elem_of_filter, Hw. tauto. }
    destruct s as [vmap' h']. exists vmap', h'. split_and!; [done|done| |done].
    unfold port_sync, bitmap_set, bitmap_set0. simpl in *.
    split; intros w; rewrite ?Hm', ?Hp', elem_of_difference, elem_of_singleton;
      pose proof (vmap_bits_bound w); destruct (decide (OPS_FPA_VIDX_VID w = vid)); tauto.
Qed.
End port_sync.

(** ** When indices get in each other's way *)

Section conflicts.
Context {F : FPA_SDK} {O : FPA_OBS F} `{!FPA_LAWS F O, !FPA_NOFAIL F O, !FPA_DELETES F O}.
Context (sid pid : Z) (vlans new : bitmap) (h0 : hw).
Hypothesis pid_u16 : pid_ok pid.
Hypothesis no_vlan0 : 0 ∉ vlans.

Let old : bitmap := l2map h0 sid pid.

(** What one iteration does to the switch. *)
Lemma bundle_apply_cases i s :
  0 ≤ i < OPS_FPA_VMAP_BITS → vlan_wf s.2 sid →
  let s' := if bitmap_is_set (bitmap_xor (port_vmap h0 sid pid) new) i
            then bundle_apply_vidx sid pid vlans new i s else s in
  vlan_wf s'.2 sid ∧
  (l2map s'.2 sid pid = l2map s.2 sid pid ∧ (i ∈ old ∧ i ∈ new ∨ i ∉ old ∧ i ∉ new ∨
      OPS_FPA_VIDX_VID i ∉ vlans) ∨
   l2map s'.2 sid pid = vmap_add i (l2map s.2 sid pid) ∧ i ∈ new ∧ i ∉ old ∧
      OPS_FPA_VIDX_VID i ∈ vlans ∨
   l2map s'.2 sid pid = vmap_del i (l2map s.2 sid pid) ∧ i ∈ old ∧ i ∉ new ∧
      OPS_FPA_VIDX_VID i ∈ vlans).
Proof.
  intros Hi Hwf. destruct s as [vmap h]; simpl in *.
  destruct (decide (OPS_FPA_VIDX_VID i ∈ vlans)) as [Hen|Hdis].
  - assert (OPS_FPA_VIDX_VID i ≠ 0) as Hnz by (by intros Hz; rewrite Hz in Hen).
    assert (vidx_l2 i) as Hl2 by done.
    assert (i ∈ port_vmap h0 sid pid ↔ i ∈ old) as Hfo
      by (unfold old, l2map; rewrite elem_of_filter; tauto).
    destruct (bitmap_is_set (bitmap_xor _ new) i) eqn:Hd.
    + apply bitmap_is_set_spec, elem_of_bitmap_xor in Hd. rewrite Hfo in Hd. simpl.
      rewrite (proj2 (bitmap_is_set_spec vlans _) Hen).
      destruct (bitmap_is_set new i) eqn:Hn.
      * apply bitmap_is_set_spec in Hn.
        destruct (ops_fpa_vlan_add sid pid i h) as [err h'] eqn:Hadd.
        apply vlan_add_refines in Hadd as (Hwf' & Hm' & _); [|done..]. simpl. tauto.
      * apply not_true_iff_false in Hn. rewrite bitmap_is_set_spec in Hn.
        destruct (ops_fpa_vlan_del sid pid i h) as [err h'] eqn:Hdel.
        apply vlan_del_refines in Hdel as (Hwf' & Hm' & _); [|done..]. simpl. tauto.
    + apply not_true_iff_false in Hd. rewrite bitmap_is_set_spec, elem_of_bitmap_xor, Hfo in Hd.
      split; [done|]. left. split; [done|].
      destruct (decide (i ∈ old)), (decide (i ∈ new)); tauto.
  - assert (∀ b : bool, (if b then bundle_apply_vidx sid pid vlans new i (vmap, h) else (vmap, h)).2
      = h) as Hh.
    { intros []; simpl; [|done].
      assert (bitmap_is_set vlans (OPS_FPA_VIDX_VID i) = false) as ->
        by (by apply bool_decide_eq_false_2). by destruct (bitmap_is_set new i). }
    rewrite Hh. tauto.
Qed.

(** An index that is added before an old one with the same key is deleted is lost. *)
Lemma bundle_loop_loses a d vmap h :
  vlan_wf h sid → a ∈ new → d ∈ old → d ∉ new → vidx_key a = vidx_key d → a < d →
  OPS_FPA_VIDX_VID d ∈ vlans → 0 ≤ d < OPS_FPA_VMAP_BITS →
  (∀ w, w ∈ new → vidx_key w = vidx_key a → w = a) →
  a ∉ l2map (bitmap_for_each_1 OPS_FPA_VMAP_BITS
               (λ _, bitmap_xor (port_vmap h0 sid pid) new)
               (bundle_apply_vidx sid pid vlans new) (vmap, h)).2 sid pid.
Proof.
  intros Hwf Ha Hd Hdn Hk Hlt Hen Hdr Huniq.
  match goal with |- _ ∉ l2map ?s.2 _ _ =>
    assert (vlan_wf s.2 sid ∧ (d < OPS_FPA_VMAP_BITS →
      ∀ w, w ∈ l2map s.2 sid pid → vidx_key w ≠ vidx_key d)) as [_ Hnone];
    [|intros Hin; by apply (Hnone (proj2 Hdr) a)] end.
  apply (bitmap_for_each_1_inv (λ i s, vlan_wf s.2 sid ∧ (d < i →
      ∀ w, w ∈ l2map s.2 sid pid → vidx_key w ≠ vidx_key d))); [done|split; [done|lia]|].
  intros i s Hi [Hwf' Hnone].
  destruct (bundle_apply_cases i s Hi Hwf') as [Hwf2 Hcase]. split; [done|].
  intros Hdi w. destruct (decide (i = d)) as [->|Hne].
  - destruct Hcase as [[_ ?]|[(_ & ? & _)|(-> & _)]]; [tauto|done|].
    rewrite elem_of_vmap_del. tauto.
  - specialize (Hnone ltac:(lia)). destruct Hcase as [[-> _]|[(-> & Hi' & _)|(-> & _)]].
    + apply Hnone.
    + unfold vmap_add. destruct (_ && _); [apply Hnone|].
      rewrite elem_of_union, elem_of_singleton. intros [->|?]; [|by apply Hnone].
      intros Hki. assert (i = a) as -> by (apply Huniq; congruence). lia.
    + rewrite elem_of_vmap_del. intros [? _]. by apply Hnone.
Qed.

(** Of two new egress indices for a VLAN that had none, the lower one wins. *)
Lemma bundle_loop_first_egress a b vmap h :
  vlan_wf h sid → l2map h sid pid = old → a ∈ new → b ∈ new → a < b →
  OPS_FPA_VIDX_IS_EGRESS a = true → vidx_key a = vidx_key b →
  OPS_FPA_VIDX_VID a ∈ vlans → 0 ≤ a → b < OPS_FPA_VMAP_BITS →
  (∀ w, w ∈ old → vidx_key w ≠ vidx_key a) →
  (∀ w, w ∈ new → vidx_key w = vidx_key a → w = a ∨ w = b) →
  let s := bitmap_for_each_1 OPS_FPA_VMAP_BITS (λ _, bitmap_xor (port_vmap h0 sid pid) new)
             (bundle_apply_vidx sid pid vlans new) (vmap, h) in
  a ∈ l2map s.2 sid pid ∧ b ∉ l2map s.2 sid pid.
Proof.
  intros Hwf Hold Ha Hb Hlt Heg Hk Hen Ha0 Hbb Hno Huniq s.
  assert (vlan_wf s.2 sid ∧ ∀ w, vidx_key w = vidx_key a →
    w ∈ l2map s.2 sid pid ↔ w = a ∧ a < OPS_FPA_VMAP_BITS) as [_ Hfin].
  { apply (bitmap_for_each_1_inv (λ i s, vlan_wf s.2 sid ∧ ∀ w, vidx_key w = vidx_key a →
      w ∈ l2map s.2 sid pid ↔ w = a ∧ a < i)); [done| |].
    - split; [done|]. intros w Hw. simpl. rewrite Hold. split; [intros Hin; by destruct (Hno w)|lia].
    - intros i s' Hi [Hwf' Hst].
      destruct (bundle_apply_cases i s' Hi Hwf') as [Hwf2 Hcase]. split; [done|].
      intros w Hw. pose proof (Hst w Hw) as Hstw.
      assert (a ∉ old) by (intros ?; by destruct (Hno a)).
      destruct (decide (vidx_key i = vidx_key a)) as [Hki|Hki].
      + destruct Hcase as [[-> Hc]|[(-> & Hi' & _)|(_ & Hi' & _)]]; [| |by destruct (Hno i)].
        * rewrite Hstw. split; [lia|]. intros [-> ?]. split; [done|].
          destruct (decide (i = a)) as [->|]; [tauto|lia].
        * unfold vmap_add. destruct (Huniq i Hi' Hki) as [->| ->].
          -- assert (key_present a (l2map s'.2 sid pid) = false) as ->.
             { apply not_true_iff_false. rewrite key_present_spec. intros (u & Hu & Hku).
               apply Hst in Hu; [lia|done]. }
             rewrite andb_false_r, elem_of_union, elem_of_singleton, Hstw. lia.
          -- assert (key_present b (l2map s'.2 sid pid) = true) as ->.
             { apply key_present_spec. exists a. split; [|done]. apply Hst; [done|lia]. }
             assert (OPS_FPA_VIDX_IS_EGRESS b = true) as ->.
             { unfold vidx_key in Hk. rewrite Heg in Hk. by repeat case_match. }
             simpl. rewrite Hstw. lia.
      + assert (i ≠ a) by congruence.
        destruct Hcase as [[-> _]|[(-> & _)|(-> & _)]].
        * rewrite Hstw. lia.
        * unfold vmap_add. destruct (_ && _); [rewrite Hstw; lia|].
          rewrite elem_of_union, elem_of_singleton, Hstw.
          split; [intros [->|?]; [congruence|lia]|]. intros. right. lia.
        * rewrite elem_of_vmap_del, Hstw. split; [lia|]. intros [-> ?]. split; [lia|congruence]. }
  split; [apply Hfin; [done|split; [done|lia]]|]. rewrite Hfin by done. lia.
Qed.
End conflicts.

(** ** Settings without conflicts *)

Lemma vidx_key_make egress arg vid :
  vid_ok vid → vidx_key (vidx_make egress arg vid) =
    if egress then KEgress vid else if arg then KTagged vid else KUntagged.
Proof.
  intros Hv. unfold vidx_key. by destruct (vidx_fields egress arg vid Hv) as (-> & -> & ->).
Qed.

(** A port whose access or untagged native VLAN is not in its trunks. *)
Definition settings_unambiguous (set : ofproto_bundle_settings) : Prop :=
  ∀ t, trunks set = Some t → vlan_mode set ≠ PORT_VLAN_TRUNK →
    vlan_mode set ≠ PORT_VLAN_NATIVE_TAGGED → s_vlan set ∉ t.

Lemma vlan_range_ok vid : 1 ≤ vid < VLAN_BITMAP_SIZE → vid_ok vid.
Proof. unfold VLAN_BITMAP_SIZE, vid_ok. lia. Qed.

Lemma bundle_vnew_unique set :
  settings_ok set → settings_unambiguous set → unique_keys (bundle_vnew set).
Proof.
  intros [Ht Hn] Hun v w Hv Hw Hk.
  apply elem_of_bundle_vnew in Hv, Hw.
  destruct Hv as [(t & x & Hs & Hx & _ & [->| ->])|[Hm [->| ->]]],
    Hw as [(t' & y & Hs' & Hy & _ & [->| ->])|[Hm' [->| ->]]]; try reflexivity;
    rewrite !vidx_key_make in Hk by eauto using vlan_range_ok; simplify_eq; try done;
    case_bool_decide as Hmode; try done; exfalso; by eapply Hun.
Qed.

(** ** Properties *)

Section port_vlan_properties.
Context {F : FPA_SDK} {O : FPA_OBS F} `{!FPA_LAWS F O, !FPA_NOFAIL F O, !FPA_DELETES F O}.

(** Configuring a port brings it in step with its settings: if the port was in
    step with some earlier configuration and every old index that shares a hardware
    key with a new one is the smaller of the two, the loop ends with exactly the
    requested indices of the enabled VLANs on the switch and exactly those of the
    disabled VLANs pending, whatever was there before; no other port changes. *)
Theorem bundle_set_reaches_configuration fuel sid pid vlans vmap0 D0 set h :
  vlan_wf h sid → pid_ok pid → 0 ∉ vlans → settings_ok set →
  (length (flows h sid FPA_FLOW_TABLE_TYPE_VLAN_E) < fuel)%nat →
  (size (groups h sid) < fuel)%nat →
  port_sync h sid pid vlans vmap0 D0 →
  ordered_keys (l2map h sid pid) (bundle_vnew set) →
  ∃ vmap h', bundle_set_l2 fuel sid pid vlans set h = Done (vmap, h') ∧ vlan_wf h' sid ∧
    port_sync h' sid pid vlans vmap (bundle_vnew set) ∧
    ∀ pid', pid_ok pid' → pid' ≠ pid → l2map h' sid pid' = l2map h sid pid'.
Proof.
  intros Hwf Hp H0 Hset Hf Hg [Hm _] Hord.
  destruct (bundle_set_l2_spec sid pid vlans h Hwf Hp H0 fuel set Hf Hg Hset Hord)
    as (vmap & h' & Hrun & Hwf' & Hm' & -> & Ho).
  eexists _, h'. split_and!; [done|done| |done]. split; intros w.
  - rewrite Hm'. unfold l2_final. rewrite elem_of_union, !elem_of_filter, Hm. tauto.
  - unfold pending_final. rewrite elem_of_filter, Hm. tauto.
Qed.

(** Any unambiguous configuration can be given to a port that has no index on
    the switch: it ends up in step with it. *)
Theorem fresh_port_configured fuel sid pid vlans set h :
  vlan_wf h sid → pid_ok pid → 0 ∉ vlans → settings_ok set → settings_unambiguous set →
  (length (flows h sid FPA_FLOW_TABLE_TYPE_VLAN_E) < fuel)%nat →
  (size (groups h sid) < fuel)%nat → l2map h sid pid = ∅ →
  ∃ vmap h', bundle_set_l2 fuel sid pid vlans set h = Done (vmap, h') ∧ vlan_wf h' sid ∧
    port_sync h' sid pid vlans vmap (bundle_vnew set) ∧ unique_keys (bundle_vnew set).
Proof.
  intros Hwf Hp H0 Hset Hun Hf Hg Hempty.
  pose proof (bundle_vnew_unique set Hset Hun) as Huniq.
  assert (ordered_keys (l2map h sid pid) (bundle_vnew set)) as Hord.
  { rewrite Hempty. intros v w Hv Hw Hk Hlt.
    rewrite (Huniq v w) in Hlt; [lia| | |done]; set_solver. }
  destruct (bundle_set_l2_spec sid pid vlans h Hwf Hp H0 fuel set Hf Hg Hset Hord)
    as (vmap & h' & Hrun & Hwf' & Hm' & -> & Ho).
  eexists _, h'. split_and!; [done|done| |done]. rewrite Hempty in *. split; intros w.
  - rewrite Hm'. unfold l2_final. rewrite elem_of_union, !elem_of_filter. set_solver.
  - unfold pending_final. rewrite elem_of_filter. set_solver.
Qed.

(** An index can get lost: if the settings ask for an index that the switch does
    not have yet and drop a larger one with the same hardware key, the ascending loop
    adds (or is refused) the new one first and then deletes both, so the port ends
    without the index it was configured with. *)
Theorem bundle_set_loses_index fuel sid pid vlans set h a d :
  vlan_wf h sid → pid_ok pid → 0 ∉ vlans →
  (length (flows h sid FPA_FLOW_TABLE_TYPE_VLAN_E) < fuel)%nat →
  (size (groups h sid) < fuel)%nat →
  a ∈ bundle_vnew set → d ∈ l2map h sid pid → d ∉ bundle_vnew set →
  vidx_key a = vidx_key d → a < d → OPS_FPA_VIDX_VID d ∈ vlans →
  unique_keys (bundle_vnew set) →
  ∃ vmap h', bundle_set_l2 fuel sid pid vlans set h = Done (vmap, h') ∧ a ∉ l2map h' sid pid.
Proof.
  intros Hwf Hp H0 Hf Hg Ha Hd Hdn Hk Hlt Hen Huniq. unfold bundle_set_l2.
  destruct (vlan_fetch_port_vmap fuel sid pid h Hf Hg) as (h1 & -> & Hs). simpl.
  pose proof (bundle_loop_loses sid pid vlans (bundle_vnew set) h Hp H0 a d ∅ h1) as Hlose.
  destruct (bitmap_for_each_1 _ _ _ _) as [vmap h']. exists vmap, h'. split; [done|].
  apply Hlose; auto; [by eapply vlan_wf_same|].
  apply l2map_vidx in Hd as [Hok _]; [exact Hok|done|done].
Qed.

(** An untagged native VLAN that is also in the trunks keeps its tag on egress:
    both egress indices are requested, the one that keeps the tag is added first and
    the one that removes it is refused. *)
Theorem native_in_trunks_keeps_tag fuel sid pid vlans set t h :
  vlan_wf h sid → pid_ok pid → 0 ∉ vlans → settings_ok set →
  (length (flows h sid FPA_FLOW_TABLE_TYPE_VLAN_E) < fuel)%nat →
  (size (groups h sid) < fuel)%nat →
  vlan_mode set = PORT_VLAN_NATIVE_UNTAGGED → trunks set = Some t → s_vlan set ∈ t →
  s_vlan set ∈ vlans → (∀ w, w ∈ l2map h sid pid → vidx_key w ≠ KEgress (s_vlan set)) →
  ∃ vmap h', bundle_set_l2 fuel sid pid vlans set h = Done (vmap, h') ∧
    OPS_FPA_VIDX_EGRESS (s_vlan set) false ∈ l2map h' sid pid ∧
    OPS_FPA_VIDX_EGRESS (s_vlan set) true ∉ l2map h' sid pid.
Proof.
  intros Hwf Hp H0 Hset Hf Hg Hmode Htr Hin Hen Hno. unfold bundle_set_l2.
  assert (1 ≤ s_vlan set < VLAN_BITMAP_SIZE) as Hr by (apply Hset; rewrite Hmode; done).
  pose proof (vlan_range_ok _ Hr) as Hvid.
  destruct (vlan_fetch_port_vmap fuel sid pid h Hf Hg) as (h1 & -> & Hs). simpl.
  pose proof (bundle_loop_first_egress sid pid vlans (bundle_vnew set) h Hp H0
    (OPS_FPA_VIDX_EGRESS (s_vlan set) false) (OPS_FPA_VIDX_EGRESS (s_vlan set) true) ∅ h1) as Hwin.
  destruct (bitmap_for_each_1 _ _ _ _) as [vmap h']. exists vmap, h'. split; [done|].
  pose proof (vidx_fields true false _ Hvid) as (Hv & He & _).
  pose proof (vidx_make_value true false _ Hvid) as Hfv.
  pose proof (vidx_make_value true true _ Hvid) as Htv.
  rewrite !egress_make in *. unfold VLAN_BITMAP_SIZE in Hr. simpl in Hfv, Htv.
  apply Hwin.
  - by eapply vlan_wf_same.
  - by apply l2map_same.
  - apply elem_of_bundle_vnew. left. exists t, (s_vlan set). unfold VLAN_BITMAP_SIZE.
    split_and!; [done|done|lia|lia|by right].
  - apply elem_of_bundle_vnew. right. rewrite Hmode. split; [done|]. right. done.
  - rewrite Hfv, Htv. lia.
  - done.
  - by rewrite !vidx_key_make.
  - by rewrite Hv.
  - rewrite Hfv. lia.
  - rewrite Htv. change OPS_FPA_VMAP_BITS with 16384. lia.
  - rewrite vidx_key_make by done. done.
  - rewrite vidx_key_make by done.
    intros w [(t' & x & Hs' & Hx & Hxr & [->| ->])|[_ [->| ->]]]%elem_of_bundle_vnew;
      rewrite vidx_key_make by (first [done|unfold vid_ok, VLAN_BITMAP_SIZE in *; lia]); intros [=].
    + left. congruence.
    + right. by rewrite Hmode.
Qed.
End port_vlan_properties.

(** ** Witnesses on the reference switch *)

(** The conditions on finite sets of indices, decided. *)
#[export] Instance ordered_keys_dec old new : Decision (ordered_keys old new).
Proof.
  refine (cast_if (decide (set_Forall (λ v, set_Forall (λ w, vidx_key v = vidx_key w → v < w →
    v ∈ old ∧ v ∉ new ∧ w ∈ new ∧ w ∉ old) (old ∪ new)) (old ∪ new)))).
  - intros v w Hv Hw. by apply (s v Hv w Hw).
  - intros Hord. apply n. intros v Hv w Hw. by apply Hord.
Defined.

#[export] Instance unique_keys_dec D : Decision (unique_keys D).
Proof.
  refine (cast_if (decide (set_Forall (λ v, set_Forall (λ w, vidx_key v = vidx_key w → v = w) D) D))).
  - intros v w Hv Hw. by apply (s v Hv w Hw).
  - intros Hord. apply n. intros v Hv w Hw. by apply Hord.
Defined.

Definition w_set (mode : port_vlan_mode) (vlan : Z) (t : option bitmap) : ofproto_bundle_settings :=
  {| s_name := "3"; slaves := [3]; s_vlan := vlan; vlan_mode := mode; trunks := t;
     enable := true; internal_vlan_id := 0; PORT_PRIMARY_IPv4_CHANGED := false;
     PORT_SECONDARY_IPv4_CHANGED := false; ip4_address := None; ip4_address_secondary := [] |}.

Definition w_access (vlan : Z) : ofproto_bundle_settings := w_set PORT_VLAN_ACCESS vlan None.

Definition w_vlans : bitmap := {[5; 10; 20]}.

Lemma w_access_ok vlan : bool_decide (1 ≤ vlan < 4096) = true → settings_ok (w_access vlan).
Proof. intros ?%bool_decide_eq_true. split; [done|]. intros _. unfold VLAN_BITMAP_SIZE. simpl. lia. Qed.

Lemma w_vlans_0 : 0 ∉ w_vlans.
Proof. unfold w_vlans. set_solver by lia. Qed.

(** [w_port] is port 3 as an access port of VLAN 10. *)
Lemma w_port_l2map : l2map w_port 0 3 = bundle_vnew (w_access 10).
Proof. vm_compute. reflexivity. Qed.

Lemma w_port_sync : port_sync w_port 0 3 w_vlans ∅ (bundle_vnew (w_access 10)).
Proof.
  assert (∀ w, w ∈ bundle_vnew (w_access 10) → OPS_FPA_VIDX_VID w ∈ w_vlans) as Hen.
  { apply (bool_decide_eq_true_1 (set_Forall _ _)). vm_compute. reflexivity. }
  split; intros w; [rewrite w_port_l2map; naive_solver|]. set_solver.
Qed.

Ltac w_decide := apply (bool_decide_unpack _); vm_compute; exact I.
Ltac w_size := apply Nat.ltb_lt; vm_compute; reflexivity.

(** From access VLAN 10 to access VLAN 20. *)
Lemma bundle_set_reaches_configuration_witness :
  ∃ vmap h', bundle_set_l2 5 0 3 w_vlans (w_access 20) w_port = Done (vmap, h') ∧
    port_sync h' 0 3 w_vlans vmap (bundle_vnew (w_access 20)).
Proof.
  destruct (bundle_set_reaches_configuration (F := SimNF) 5 0 3 w_vlans ∅
    (bundle_vnew (w_access 10)) (w_access 20) w_port w_port_wf w_pid w_vlans_0
    (w_access_ok 20 eq_refl) ltac:(w_size) ltac:(w_size) w_port_sync
    ltac:(w_decide)) as (vmap & h' & Hr & _ & Hs & _).
  exists vmap, h'. exact (conj Hr Hs).
Defined.

Lemma fresh_port_configured_witness :
  ∃ vmap h', bundle_set_l2 1 0 3 w_vlans (w_access 10) (sim_empty : @hw SimNF) = Done (vmap, h') ∧
    port_sync h' 0 3 w_vlans vmap (bundle_vnew (w_access 10)).
Proof.
  destruct (fresh_port_configured (F := SimNF) 1 0 3 w_vlans (w_access 10) sim_empty
    (vlan_wf_empty no_faults 0) w_pid w_vlans_0 (w_access_ok 10 eq_refl)
    ltac:(intros ? [=]) ltac:(w_size) ltac:(w_size) ltac:(vm_compute; reflexivity))
    as (vmap & h' & Hr & _ & Hs & _).
  exists vmap, h'. exact (conj Hr Hs).
Defined.

(** From access VLAN 10 to access VLAN 5: the untagged ingress entry is lost. *)
Lemma bundle_set_loses_index_witness :
  ∃ vmap h', bundle_set_l2 5 0 3 w_vlans (w_access 5) w_port = Done (vmap, h') ∧
    OPS_FPA_VIDX_INGRESS 5 false ∉ l2map h' 0 3.
Proof.
  exact (bundle_set_loses_index (F := SimNF) 5 0 3 w_vlans (w_access 5) w_port
    (OPS_FPA_VIDX_INGRESS 5 false) (OPS_FPA_VIDX_INGRESS 10 false) w_port_wf w_pid w_vlans_0
    ltac:(w_size) ltac:(w_size) ltac:(w_decide)
    ltac:(w_decide)
    ltac:(w_decide)
    ltac:(vm_compute; reflexivity) ltac:(vm_compute; reflexivity)
    ltac:(w_decide)
    ltac:(w_decide)).
Defined.

Lemma w_native_ok : settings_ok (w_set PORT_VLAN_NATIVE_UNTAGGED 10 (Some {[10; 20]})).
Proof.
  split; [|intros _; unfold VLAN_BITMAP_SIZE; simpl; lia].
  intros t vid [= <-] Hv. unfold VLAN_BITMAP_SIZE. set_solver by lia.
Qed.

Lemma native_in_trunks_keeps_tag_witness :
  ∃ vmap h', bundle_set_l2 1 0 3 w_vlans (w_set PORT_VLAN_NATIVE_UNTAGGED 10 (Some {[10; 20]}))
      (sim_empty : @hw SimNF) = Done (vmap, h') ∧
    OPS_FPA_VIDX_EGRESS 10 false ∈ l2map h' 0 3 ∧ OPS_FPA_VIDX_EGRESS 10 true ∉ l2map h' 0 3.
Proof.
  exact (native_in_trunks_keeps_tag (F := SimNF) 1 0 3 w_vlans
    (w_set PORT_VLAN_NATIVE_UNTAGGED 10 (Some {[10; 20]})) {[10; 20]} sim_empty
    (vlan_wf_empty no_faults 0) w_pid w_vlans_0 w_native_ok ltac:(w_size) ltac:(w_size)
    eq_refl eq_refl ltac:(w_decide)
    ltac:(w_decide)
    ltac:(intros w [_ Hw]%elem_of_filter; by apply not_elem_of_empty in Hw)).
Defined.
