(* ===== verification/Arp.v ===== *)
(** * ARP indices (src/ops-fpa-ofproto.c)

    The indices of L3 unicast groups come from an array that holds a free list:
    element 0 is the first free index, element [i] the one after [i], 0 ends it.
    The abstract allocator is the stack of the free indices. *)

From S2P Require Import Prelude.

Definition ARP_INDICES_SIZE : Z := 1024.

(** Reading and writing the array; outside of it the behaviour is undefined. *)
Definition arr_get (a : list Z) (i : Z) : outcome Z :=
  if 0 <=? i then match a !! Z.to_nat i with Some x => Done x | None => Crash Undefined end
  else Crash Undefined.

Definition arr_set (a : list Z) (i x : Z) : outcome (list Z) :=
  if (0 <=? i) && (i <? Z.of_nat (length a)) then Done (<[Z.to_nat i := x]> a) else Crash Undefined.

(** The loop of [ops_fpa_ofproto_init], on a zero-initialised array. *)
Definition arp_init_loop (a : list Z) : outcome (list Z) :=
  foldl (λ a i, let* a := a in arr_set a i (i + 1)) (Done a) (seqZ 0 ARP_INDICES_SIZE).

Definition arp_init : outcome (list Z) :=
  let* a := arp_init_loop (replicate (Z.to_nat (ARP_INDICES_SIZE + 1)) 0) in
  arr_set a ARP_INDICES_SIZE 0.

(** [None]: no index is left. *)
Definition arp_alloc (a : list Z) : outcome (option Z * list Z) :=
  let* first := arr_get a 0 in
  if first =? 0 then Done (None, a) else
  let arp_index := first in
  let* next := arr_get a arp_index in
  let* a := arr_set a 0 next in
  let* a := arr_set a arp_index 0 in
  Done (Some arp_index, a).

Definition arp_release (a : list Z) (arp_index : Z) : outcome (list Z) :=
  let* first := arr_get a 0 in
  let* a := arr_set a arp_index first in
  arr_set a 0 arp_index.

(** ** The free list *)

Definition arp_ok (i : Z) : Prop := 1 ≤ i ≤ ARP_INDICES_SIZE.

(** Following the links from [i] visits [l] and ends at 0. *)
Fixpoint chain (a : list Z) (i : Z) (l : list Z) : Prop :=
  match l with
  | [] => i = 0
  | x :: l => i = x ∧ arp_ok x ∧ ∃ next, a !! Z.to_nat x = Some next ∧ chain a next l
  end.

(** [l] is the stack of free indices of [a]. *)
Definition arp_free (a : list Z) (l : list Z) : Prop :=
  length a = Z.to_nat (ARP_INDICES_SIZE + 1) ∧ NoDup l ∧
  ∃ first, a !! 0%nat = Some first ∧ chain a first l.

Lemma chain_ok a i l : chain a i l → Forall arp_ok l.
Proof.
  revert i. induction l as [|x l IH]; intros i; simpl; [constructor|].
  intros (_ & Hx & next & _ & Hc). constructor; eauto.
Qed.

(** A write to an index that is not on the chain does not change it. *)
Lemma chain_insert a i l j x :
  arp_ok j ∨ j = 0 → j ∉ l → chain a i l → chain (<[Z.to_nat j := x]> a) i l.
Proof.
  intros Hj Hn. revert i Hn. induction l as [|y l IH]; intros i Hn; simpl; [done|].
  rewrite not_elem_of_cons in Hn. intros (-> & Hy & next & Hl & Hc).
  split_and!; [done|done|]. exists next. split; [|by apply IH; tauto].
  rewrite list_lookup_insert_ne; [done|]. unfold arp_ok in *. lia.
Qed.

Lemma arr_get_lookup a i x : 0 ≤ i → a !! Z.to_nat i = Some x → arr_get a i = Done x.
Proof. intros Hi Hx. unfold arr_get. by rewrite (proj2 (Z.leb_le _ _) Hi), Hx. Qed.

Lemma arr_set_in a i x :
  0 ≤ i < Z.of_nat (length a) → arr_set a i x = Done (<[Z.to_nat i := x]> a).
Proof.
  intros Hi. unfold arr_set. by rewrite (proj2 (Z.leb_le _ _)), (proj2 (Z.ltb_lt _ _)) by lia.
Qed.

Lemma arp_alloc_spec a l :
  arp_free a l →
  match l with
  | [] => arp_alloc a = Done (None, a)
  | x :: l => arp_ok x ∧ ∃ a', arp_alloc a = Done (Some x, a') ∧ arp_free a' l
  end.
Proof.
  intros (Hlen & Hnd & first & H0 & Hc). unfold arp_alloc.
  rewrite (arr_get_lookup a 0 first) by done. simpl. destruct l as [|x l]; simpl in Hc.
  - by subst first.
  - destruct Hc as (-> & Hx & next & Hl & Hc). apply NoDup_cons in Hnd as [Hxl Hnd].
    pose proof (chain_ok _ _ _ Hc) as Hok. split; [done|].
    unfold arp_ok, ARP_INDICES_SIZE in *.
    rewrite (proj2 (Z.eqb_neq _ _)) by lia. rewrite (arr_get_lookup a x next) by (lia || done). simpl.
    rewrite arr_set_in by lia. simpl. rewrite arr_set_in by (rewrite length_insert; lia). simpl.
    eexists. split; [done|]. split_and!; [by rewrite !length_insert|done|].
    exists next. split.
    + rewrite list_lookup_insert_ne by lia. change (Z.to_nat 0) with 0%nat.
      apply list_lookup_insert_eq. lia.
    + apply chain_insert; [left; unfold arp_ok, ARP_INDICES_SIZE; lia|done|].
      change 0%nat with (Z.to_nat 0). apply chain_insert; [by right| |done].
      intros H0l. rewrite Forall_forall in Hok. specialize (Hok 0 H0l). lia.
Qed.

Lemma arp_release_spec a l x :
  arp_free a l → arp_ok x → x ∉ l →
  ∃ a', arp_release a x = Done a' ∧ arp_free a' (x :: l).
Proof.
  intros (Hlen & Hnd & first & H0 & Hc) Hx Hn. unfold arp_release.
  pose proof (chain_ok _ _ _ Hc) as Hok. unfold arp_ok, ARP_INDICES_SIZE in *.
  rewrite (arr_get_lookup a 0 first) by done. simpl. rewrite arr_set_in by lia. simpl.
  rewrite arr_set_in by (rewrite length_insert; lia). eexists. split; [done|].
  split_and!; [by rewrite !length_insert|by apply NoDup_cons|].
  exists x. split.
  - change (Z.to_nat 0) with 0%nat. apply list_lookup_insert_eq. rewrite length_insert. lia.
  - simpl. split; [done|]. split; [exact Hx|]. exists first. split.
    + rewrite list_lookup_insert_ne by lia. apply list_lookup_insert_eq. lia.
    + apply chain_insert; [by right| |].
      * intros H0l. rewrite Forall_forall in Hok. specialize (Hok 0 H0l). simpl in Hok. lia.
      * apply chain_insert; [left; unfold arp_ok, ARP_INDICES_SIZE; lia|done|done].
Qed.

(** ** The initial list *)

Fixpoint chainb (a : list Z) (i : Z) (l : list Z) : bool :=
  match l with
  | [] => i =? 0
  | x :: l =>
      (i =? x) && (1 <=? x) && (x <=? ARP_INDICES_SIZE) &&
      match a !! Z.to_nat x with Some next => chainb a next l | None => false end
  end.

Lemma chainb_spec a i l : chainb a i l = true → chain a i l.
Proof.
  revert i. induction l as [|x l IH]; intros i; simpl; [apply Z.eqb_eq|].
  intros [[[Hx%Z.eqb_eq H1%Z.leb_le]%andb_true_iff H2%Z.leb_le]%andb_true_iff Hc]%andb_true_iff.
  split; [done|]. split; [done|]. destruct (a !! Z.to_nat x) as [next|]; [|done]. eauto.
Qed.

(** The array after [ops_fpa_ofproto_init]. *)
Definition arp_initial : list Z := seqZ 1 ARP_INDICES_SIZE ++ [0].

Lemma arp_init_value : arp_init = Done arp_initial.
Proof. vm_compute. reflexivity. Qed.

Lemma arp_init_free : arp_free arp_initial (seqZ 1 ARP_INDICES_SIZE).
Proof.
  split; [vm_compute; reflexivity|]. split; [apply NoDup_seqZ|].
  exists 1. split; [done|]. apply chainb_spec. vm_compute. reflexivity.
Qed.

(** ** Properties *)

(** C38: The array implements a stack of free indices: after initialisation it
    holds 1 to 1024 in order, allocation pops the top (and reports exhaustion exactly
    when the stack is empty), releasing an allocated index pushes it; no access leaves
    the array. *)
Theorem arp_refines_stack :
  (∃ a, arp_init = Done a ∧ arp_free a (seqZ 1 ARP_INDICES_SIZE)) ∧
  (∀ a l, arp_free a l →
     match l with
     | [] => arp_alloc a = Done (None, a)
     | x :: l' => ∃ a', arp_alloc a = Done (Some x, a') ∧ arp_free a' l'
     end) ∧
  (∀ a l x, arp_free a l → arp_ok x → x ∉ l →
     ∃ a', arp_release a x = Done a' ∧ arp_free a' (x :: l)).
Proof.
  split_and!.
  - exists arp_initial. split; [apply arp_init_value|apply arp_init_free].
  - intros a l Hf. apply arp_alloc_spec in Hf. destruct l; [done|apply Hf].
  - apply arp_release_spec.
Qed.

(** The states reached by allocating, and by releasing allocated indices; [used] are
    the indices in use. *)
Inductive arp_reach : list Z → list Z → Prop :=
  | arp_reach_init a : arp_init = Done a → arp_reach a []
  | arp_reach_alloc a used x a' :
      arp_reach a used → arp_alloc a = Done (Some x, a') → arp_reach a' (x :: used)
  | arp_reach_release a used x used' a' :
      arp_reach a used → used ≡ₚ x :: used' → arp_release a x = Done a' → arp_reach a' used'.

Lemma arp_reach_inv a used :
  arp_reach a used → ∃ l, arp_free a l ∧ l ++ used ≡ₚ seqZ 1 ARP_INDICES_SIZE.
Proof.
  induction 1 as [a Ha|a used x a' _ (l & Hf & Hp) Ha|a used x used' a' _ (l & Hf & Hp) Hu Ha].
  - rewrite arp_init_value in Ha. injection Ha as <-.
    exists (seqZ 1 ARP_INDICES_SIZE). split; [apply arp_init_free|by rewrite app_nil_r].
  - apply arp_alloc_spec in Hf. destruct l as [|y l]; [rewrite Ha in Hf; done|].
    destruct Hf as (_ & a'' & Ha' & Hf). rewrite Ha in Ha'. simplify_eq.
    exists l. split; [done|]. rewrite <- Hp. simpl. by rewrite Permutation_middle.
  - assert (x ∈ seqZ 1 ARP_INDICES_SIZE ∧ x ∉ l) as [Hx Hn].
    { pose proof (NoDup_seqZ 1 ARP_INDICES_SIZE) as Hnd. rewrite <- Hp, Hu in Hnd |- *.
      split; [set_solver|]. rewrite <- Permutation_middle in Hnd.
      apply NoDup_cons in Hnd as [Hnd _]. set_solver. }
    apply elem_of_seqZ in Hx.
    destruct (arp_release_spec a l x Hf) as (a'' & Ha' & Hf'); [unfold arp_ok; lia|done|].
    rewrite Ha in Ha'. simplify_eq. exists (x :: l). split; [done|].
    rewrite <- Hp, Hu. simpl. by rewrite Permutation_middle.
Qed.

(** In every reachable state the indices in use are distinct and between 1 and
    1024, allocation works and never returns one of them, it reports exhaustion
    exactly when all 1024 are in use, and every index in use can be released. *)
Theorem arp_indices_exclusive a used :
  arp_reach a used →
  NoDup used ∧ Forall arp_ok used ∧
  (∃ r a', arp_alloc a = Done (r, a') ∧ (r = None ↔ Z.of_nat (length used) = ARP_INDICES_SIZE) ∧
     ∀ x, r = Some x → x ∉ used ∧ arp_ok x) ∧
  ∀ x, x ∈ used → ∃ a', arp_release a x = Done a'.
Proof.
  intros (l & Hf & Hp)%arp_reach_inv.
  pose proof (NoDup_seqZ 1 ARP_INDICES_SIZE) as Hnd. rewrite <- Hp in Hnd.
  apply NoDup_app in Hnd as (_ & Hdis & Hnd).
  assert (∀ x, x ∈ used → arp_ok x) as Hok.
  { intros x Hx. assert (x ∈ seqZ 1 ARP_INDICES_SIZE) as Hin by (rewrite <- Hp; set_solver).
    apply elem_of_seqZ in Hin. unfold arp_ok. lia. }
  split_and!; [done|by apply Forall_forall| |].
  - pose proof (arp_alloc_spec a l Hf) as Ha.
    assert (length l + length used = 1024)%nat as Hlen.
    { rewrite <- length_app, Hp, length_seqZ. done. }
    unfold ARP_INDICES_SIZE. destruct l as [|x l].
    + exists None, a. split_and!; [done| |done]. simpl in Hlen. split; [lia|done].
    + destruct Ha as (Hx & a' & Ha & _). exists (Some x), a'. split_and!; [done| |].
      * simpl in Hlen. split; [done|lia].
      * intros y [= <-]. split; [|done]. apply Hdis. by left.
  - intros x Hx. destruct (arp_release_spec a l x Hf) as (a' & Ha & _); [by apply Hok| |eauto].
    intros Hl. by apply (Hdis x Hl).
Qed.

(** The state after two allocations of which the first was released. *)
Lemma w_arp_reach : arp_reach ([1; 3] ++ [0] ++ seqZ 4 1021 ++ [0]) [2].
Proof.
  apply (arp_reach_release ([3; 0; 0] ++ seqZ 4 1021 ++ [0]) [2; 1] 1);
    [|apply Permutation_swap|vm_compute; reflexivity].
  apply (arp_reach_alloc ([2; 0; 3] ++ seqZ 4 1021 ++ [0]) [1] 2); [|vm_compute; reflexivity].
  apply (arp_reach_alloc arp_initial [] 1); [|vm_compute; reflexivity].
  apply arp_reach_init, arp_init_value.
Qed.

Lemma arp_indices_exclusive_witness :
  NoDup [2] ∧ ∃ r a', arp_alloc ([1; 3] ++ [0] ++ seqZ 4 1021 ++ [0]) = Done (r, a') ∧
    ∀ x, r = Some x → x ∉ [2] ∧ arp_ok x.
Proof.
  destruct (arp_indices_exclusive _ _ w_arp_reach) as (Hnd & _ & (r & a' & Ha & _ & Hx) & _).
  split; [exact Hnd|]. exists r, a'. exact (conj Ha Hx).
Defined.
