(* ===== verification/Hmap.v ===== *)
(** * The Open vSwitch hash map

    [lib/hmap.h] is not part of the repository.  A map holds nodes, each a
    structure of the program identified by its address, with the hash it was
    inserted with; the program keeps the structures themselves in a store.  The
    order of iteration is unspecified; a bucket holds all the nodes of a hash and
    may hold nodes of other hashes. *)

From S2P Require Import Prelude.

Class HMAP := {
  hmap : Type;
  hmap_init : hmap;
  (* hmap_insert (map, node, hash) *)
  hmap_insert : hmap → Z → Z → hmap;
  (* hmap_remove (map, node) *)
  hmap_remove : hmap → Z → hmap;
  (* the (node, hash) pairs in the order of HMAP_FOR_EACH *)
  hmap_nodes : hmap → list (Z * Z);
  (* the chain that starts at hmap_first_in_bucket (map, hash) *)
  hmap_bucket : hmap → Z → list (Z * Z)
}.

Class HMAP_LAWS (H : HMAP) : Prop := {
  hmap_nodes_init : hmap_nodes hmap_init = [];
  hmap_nodes_insert m p h : hmap_nodes (hmap_insert m p h) ≡ₚ (p, h) :: hmap_nodes m;
  hmap_nodes_remove m p h l :
    NoDup (hmap_nodes m).*1 → hmap_nodes m ≡ₚ (p, h) :: l → hmap_nodes (hmap_remove m p) ≡ₚ l;
  hmap_bucket_nodes m h p h' : (p, h') ∈ hmap_bucket m h → (p, h') ∈ hmap_nodes m;
  hmap_bucket_hash m h p : (p, h) ∈ hmap_nodes m → (p, h) ∈ hmap_bucket m h
}.

Section hmap.
Context {H : HMAP}.

Definition hmap_count (m : hmap) : Z := Z.of_nat (length (hmap_nodes m)).

(** The nodes visited by [HMAP_FOR_EACH_WITH_HASH]. *)
Definition hmap_with_hash (m : hmap) (h : Z) : list Z :=
  (filter (λ n, n.2 = h) (hmap_bucket m h)).*1.

Definition hmap_first_with_hash (m : hmap) (h : Z) : option Z := head (hmap_with_hash m h).

Definition hmap_first_in_bucket (m : hmap) (h : Z) : option Z := head (hmap_bucket m h).*1.

Definition hmap_clear (m : hmap) : hmap := hmap_init.

(** [p] is a node of [m]. *)
Definition hmap_in (m : hmap) (p : Z) : Prop := p ∈ (hmap_nodes m).*1.

Context `{!HMAP_LAWS H}.

Lemma elem_of_hmap_with_hash m h p : p ∈ hmap_with_hash m h ↔ (p, h) ∈ hmap_nodes m.
Proof.
  unfold hmap_with_hash. rewrite list_elem_of_fmap. split.
  - intros ([q h'] & -> & [Hh Hin]%list_elem_of_filter). simpl in *. subst.
    by eapply hmap_bucket_nodes.
  - intros Hin. exists (p, h). split; [done|]. apply list_elem_of_filter. split; [done|].
    by apply hmap_bucket_hash.
Qed.

Lemma hmap_first_with_hash_some m h p :
  hmap_first_with_hash m h = Some p → (p, h) ∈ hmap_nodes m.
Proof.
  unfold hmap_first_with_hash. intros Hp. apply elem_of_hmap_with_hash.
  destruct (hmap_with_hash m h); simplify_eq/=. by left.
Qed.

Lemma hmap_first_with_hash_none m h :
  hmap_first_with_hash m h = None ↔ ∀ p, (p, h) ∉ hmap_nodes m.
Proof.
  unfold hmap_first_with_hash. split.
  - intros Hn p Hin%elem_of_hmap_with_hash. destruct (hmap_with_hash m h); [|done].
    by apply not_elem_of_nil in Hin.
  - intros Hno. destruct (hmap_with_hash m h) as [|p l] eqn:Hl; [done|].
    destruct (Hno p). apply elem_of_hmap_with_hash. rewrite Hl. by left.
Qed.

Lemma elem_of_hmap_insert m p h n : n ∈ hmap_nodes (hmap_insert m p h) ↔ n = (p, h) ∨ n ∈ hmap_nodes m.
Proof. rewrite hmap_nodes_insert. apply elem_of_cons. Qed.

Lemma hmap_insert_ptrs m p h : (hmap_nodes (hmap_insert m p h)).*1 ≡ₚ p :: (hmap_nodes m).*1.
Proof. by rewrite hmap_nodes_insert. Qed.

Lemma hmap_count_insert m p h : hmap_count (hmap_insert m p h) = hmap_count m + 1.
Proof. unfold hmap_count. rewrite hmap_nodes_insert. simpl. lia. Qed.

(** Removing a node that is in the map leaves the others. *)
Lemma hmap_remove_spec m p h :
  NoDup (hmap_nodes m).*1 → (p, h) ∈ hmap_nodes m →
  hmap_nodes m ≡ₚ (p, h) :: hmap_nodes (hmap_remove m p).
Proof.
  intros Hnd [l Hl]%elem_of_Permutation. by rewrite (hmap_nodes_remove m p h l).
Qed.

Lemma elem_of_hmap_remove m p h n :
  NoDup (hmap_nodes m).*1 → (p, h) ∈ hmap_nodes m →
  n ∈ hmap_nodes (hmap_remove m p) ↔ n ∈ hmap_nodes m ∧ n.1 ≠ p.
Proof.
  intros Hnd Hin. pose proof (hmap_remove_spec m p h Hnd Hin) as Hperm.
  rewrite Hperm in Hnd |- *. rewrite elem_of_cons. apply NoDup_cons in Hnd as [Hp _]. simpl in Hp.
  split; [intros Hn; split; [auto|]|intros [[->|?] ?]; done].
  intros <-. by apply Hp, list_elem_of_fmap_2.
Qed.

Lemma hmap_node_hash m p h h' :
  NoDup (hmap_nodes m).*1 → (p, h) ∈ hmap_nodes m → (p, h') ∈ hmap_nodes m → h = h'.
Proof.
  intros Hnd [i Hi]%list_elem_of_lookup [j Hj]%list_elem_of_lookup.
  assert (i = j) as ->; [|congruence].
  apply (NoDup_lookup _ i j p Hnd); by rewrite list_lookup_fmap, ?Hi, ?Hj.
Qed.

Lemma hmap_remove_nodup m p h :
  NoDup (hmap_nodes m).*1 → (p, h) ∈ hmap_nodes m → NoDup (hmap_nodes (hmap_remove m p)).*1.
Proof.
  intros Hnd Hin. pose proof (hmap_remove_spec m p h Hnd Hin) as Hperm.
  rewrite Hperm in Hnd. by apply NoDup_cons in Hnd as [_ ?].
Qed.

Lemma hmap_count_remove m p h :
  NoDup (hmap_nodes m).*1 → (p, h) ∈ hmap_nodes m → hmap_count (hmap_remove m p) = hmap_count m - 1.
Proof.
  intros Hnd Hin. unfold hmap_count. rewrite (hmap_remove_spec m p h) by done. simpl. lia.
Qed.
End hmap.

(** ** A reference map: one list, [buckets] chains by residue of the hash *)

Section list_hmap.
Variable buckets : Z.

#[local] Instance ListHmap : HMAP := {|
  hmap := list (Z * Z);
  hmap_init := [];
  hmap_insert m p h := (p, h) :: m;
  hmap_remove m p := filter (λ n, n.1 ≠ p) m;
  hmap_nodes m := m;
  hmap_bucket m h := filter (λ n, n.2 mod buckets = h mod buckets) m
|}.

#[local] Instance ListHmapLaws : HMAP_LAWS ListHmap.
Proof.
  split; simpl.
  - done.
  - done.
  - intros m p h l Hnd Hm. rewrite Hm in Hnd |- *. apply NoDup_cons in Hnd as [Hp Hnd].
    rewrite filter_cons_False by naive_solver. clear Hm. simpl in *.
    induction l as [|[q h'] l IH]; [done|]. simpl in *.
    rewrite not_elem_of_cons in Hp. apply NoDup_cons in Hnd as [_ Hnd].
    rewrite filter_cons_True by naive_solver. constructor. apply IH; naive_solver.
  - intros m h p h' Hin. by apply list_elem_of_filter in Hin as [_ ?].
  - intros m h p Hin. by apply list_elem_of_filter.
Qed.
End list_hmap.

#[export] Existing Instances ListHmap ListHmapLaws.
