(* ===== verification/MacLearning.v ===== *)
(** * MAC learning (src/ops-fpa-mac-learning.c)

    The software FDB is a hash map of heap entries.  Every change of it is also
    recorded as an event in one of two buffers; a full buffer, or the timer, hands
    the events over to the bridge and makes the other buffer the current one.

    The entries are kept in a store by address, as are the nodes of an event
    buffer by their index in the buffer's array.  [ports] is
    [ops_fpa_get_ofport_by_pid], reduced to the name of the port's netdev.  The
    handlers run under the table's write lock, so each is one step. *)

From S2P Require Import Prelude Fpa Hmap.

(** ** Data *)

Inductive au_type :=
  | FPA_EVENT_ADDRESS_UPDATE_NEW_E
  | FPA_EVENT_ADDRESS_UPDATE_AGED_E
  | FPA_EVENT_ADDRESS_OTHER (type : Z).

Record FPA_EVENT_ADDRESS_MSG_STC := {
  au_msg_type : au_type;
  portNum : Z;
  vid : Z;
  address : mac
}.

Inductive mac_event := MLEARN_UNDEFINED | MLEARN_ADD | MLEARN_DEL | MLEARN_MOVE.

(** [struct mlearn_hmap_node] of the mac-learning plugin, less its hmap node. *)
Record mlearn_hmap_node := {
  ev_mac : mac;
  ev_port : Z;
  ev_vlan : Z;
  ev_hw_unit : Z;
  ev_oper : mac_event;
  ev_port_name : string
}.

#[export] Instance mac_event_eq_dec : EqDecision mac_event.
Proof. solve_decision. Defined.
#[export] Instance au_type_eq_dec : EqDecision au_type.
Proof. solve_decision. Defined.
#[export] Instance msg_eq_dec : EqDecision FPA_EVENT_ADDRESS_MSG_STC.
Proof. solve_decision. Defined.
#[export] Instance mlearn_hmap_node_eq_dec : EqDecision mlearn_hmap_node.
Proof. solve_decision. Defined.

(** Constants of the mac-learning plugin and the hash of Open vSwitch. *)
Class ML_ENV := {
  BUFFER_SIZE : Z;
  PORT_NAME_SIZE : nat;
  hash_bytes : list Z → Z → Z
}.

Section mac_learning.
Context {H : HMAP} {E : ML_ENV}.

(** [struct mlearn_hmap]: the node of the array at index [i] has address [i]. *)
Record mlearn_hmap := {
  ev_table : hmap;
  ev_nodes : gmap Z mlearn_hmap_node;
  actual_size : Z;
  buf_size : Z
}.

Record fpa_mac_learning := {
  table : hmap;
  (* the heap: struct fpa_mac_entry by address *)
  entries : gmap Z FPA_EVENT_ADDRESS_MSG_STC;
  idle_time : Z;
  max_entries : Z;
  ml_switchId : Z;
  mlearn_event_tables : bool → mlearn_hmap;
  (* index of the table in use, 0 or 1 *)
  curr_mlearn_table_in_use : bool;
  (* whether the plugin interface was found, and how often it was triggered *)
  plugin_interface : bool;
  triggered : nat
}.

Definition set_table (t : hmap) (es : gmap Z FPA_EVENT_ADDRESS_MSG_STC) (ml : fpa_mac_learning) :
    fpa_mac_learning :=
  {| table := t; entries := es; idle_time := idle_time ml; max_entries := max_entries ml;
     ml_switchId := ml_switchId ml; mlearn_event_tables := mlearn_event_tables ml;
     curr_mlearn_table_in_use := curr_mlearn_table_in_use ml;
     plugin_interface := plugin_interface ml; triggered := triggered ml |}.

(** Replaces the event table with index [i]. *)
Definition set_events (i : bool) (m : mlearn_hmap) (ml : fpa_mac_learning) : fpa_mac_learning :=
  {| table := table ml; entries := entries ml; idle_time := idle_time ml;
     max_entries := max_entries ml; ml_switchId := ml_switchId ml;
     mlearn_event_tables := λ j, if bool_decide (j = i) then m else mlearn_event_tables ml j;
     curr_mlearn_table_in_use := curr_mlearn_table_in_use ml;
     plugin_interface := plugin_interface ml; triggered := triggered ml |}.

Definition curr_events (ml : fpa_mac_learning) : mlearn_hmap :=
  mlearn_event_tables ml (curr_mlearn_table_in_use ml).

(** ** Parameters of the table *)

Definition normalize_idle_time (idle_time : Z) : Z :=
  if idle_time <? 10 then 10 else if 3600 <? idle_time then 3600 else idle_time.

Definition ops_fpa_mac_learning_set_max_entries (ml : fpa_mac_learning) (n : Z) :
    fpa_mac_learning :=
  {| table := table ml; entries := entries ml; idle_time := idle_time ml;
     max_entries := if n <? 10 then 10 else if 1000 * 1000 <? n then 1000 * 1000 else n;
     ml_switchId := ml_switchId ml; mlearn_event_tables := mlearn_event_tables ml;
     curr_mlearn_table_in_use := curr_mlearn_table_in_use ml;
     plugin_interface := plugin_interface ml; triggered := triggered ml |}.

(** [aging_set] is [fpaLibSwitchAgingTimeoutSet] on the device; [true] is [EPERM]. *)
Definition ops_fpa_mac_learning_set_idle_time {hw} (aging_set : Z → Z → hw → FPA_STATUS * hw)
    (ml : fpa_mac_learning) (t : Z) (h : hw) : bool * fpa_mac_learning * hw :=
  let t := normalize_idle_time t in
  let '(err, h) := aging_set (ml_switchId ml) t h in
  if failed err then (true, ml, h) else
  (false,
   {| table := table ml; entries := entries ml; idle_time := t; max_entries := max_entries ml;
      ml_switchId := ml_switchId ml; mlearn_event_tables := mlearn_event_tables ml;
      curr_mlearn_table_in_use := curr_mlearn_table_in_use ml;
      plugin_interface := plugin_interface ml; triggered := triggered ml |}, h).

Definition ops_fpa_mac_learning_may_learn (ml : fpa_mac_learning) (src_mac : mac) (vlan : Z) :
    bool := true.

(** ** Lookup *)

Definition fpa_hash_fdb_entry (fdb_entry : FPA_EVENT_ADDRESS_MSG_STC) : Z :=
  hash_bytes ([vid fdb_entry mod 256; vid fdb_entry / 256 mod 256] ++ address fdb_entry) 0.

(** The first node of [ps] whose entry passes [P]. *)
Definition find_entry (ml : fpa_mac_learning) (P : FPA_EVENT_ADDRESS_MSG_STC → bool)
    (ps : list Z) : option Z :=
  find (λ p, match entries ml !! p with Some e => P e | None => false end) ps.

Definition ops_fpa_mac_learning_lookup (ml : fpa_mac_learning)
    (fdb_entry : FPA_EVENT_ADDRESS_MSG_STC) : option Z :=
  find_entry ml (λ e, bool_decide (address e = address fdb_entry) &&
                      bool_decide (vid e = vid fdb_entry))
    (hmap_with_hash (table ml) (fpa_hash_fdb_entry fdb_entry)).

Definition ops_fpa_mac_learning_lookup_by_vlan_and_mac (ml : fpa_mac_learning)
    (vlan_id : Z) (macAddr : mac) : option Z :=
  find_entry ml (λ e, bool_decide (address e = macAddr) && bool_decide (vid e = vlan_id))
    (hmap_nodes (table ml)).*1.

(** ** Event buffers *)

Definition ops_fpa_mac_learning_mlearn_table_is_full (mhmap : mlearn_hmap) : bool :=
  actual_size mhmap =? buf_size mhmap.

Definition ops_fpa_mac_learning_clear_mlearn_hmap (mhmap : mlearn_hmap) : mlearn_hmap :=
  {| ev_table := hmap_clear (ev_table mhmap); ev_nodes := ∅; actual_size := 0;
     buf_size := BUFFER_SIZE |}.

(** Fills a node; the port must exist. *)
Definition ops_fpa_mac_learning_mlearn_entry_fill_data (ports : Z → option string)
    (switchId : Z) (fdb_entry : FPA_EVENT_ADDRESS_MSG_STC) (event : mac_event) :
    outcome mlearn_hmap_node :=
  match ports (portNum fdb_entry) with
  | None => Crash AssertFailed
  | Some name =>
      Done {| ev_mac := address fdb_entry; ev_port := portNum fdb_entry;
              ev_vlan := vid fdb_entry; ev_hw_unit := switchId; ev_oper := event;
              ev_port_name := String.substring 0 PORT_NAME_SIZE name |}
  end.

(** Writes node [i] of the buffer's array of [BUFFER_SIZE] nodes. *)
Definition ev_write (i : Z) (n : mlearn_hmap_node) (mhmap : mlearn_hmap) : outcome mlearn_hmap :=
  if (0 <=? i) && (i <? BUFFER_SIZE) then
    Done {| ev_table := ev_table mhmap; ev_nodes := <[i := n]> (ev_nodes mhmap);
            actual_size := actual_size mhmap; buf_size := buf_size mhmap |}
  else Crash Undefined.

Definition ops_fpa_mac_learning_process_mlearn (ml : fpa_mac_learning) : fpa_mac_learning :=
  if plugin_interface ml then
    if negb (hmap_count (ev_table (curr_events ml)) =? 0) then
      let cur := negb (curr_mlearn_table_in_use ml) in
      set_events cur (ops_fpa_mac_learning_clear_mlearn_hmap (mlearn_event_tables ml cur))
        {| table := table ml; entries := entries ml; idle_time := idle_time ml;
           max_entries := max_entries ml; ml_switchId := ml_switchId ml;
           mlearn_event_tables := mlearn_event_tables ml;
           curr_mlearn_table_in_use := cur;
           plugin_interface := true; triggered := S (triggered ml) |}
    else ml
  else ml.

(** The part of [ops_fpa_mac_learning_mlearn_action_add] that records the event in
    the current buffer: under an existing node with the hash, else under a new one. *)
Definition mlearn_record (ports : Z → option string) (switchId : Z)
    (fdb_entry : FPA_EVENT_ADDRESS_MSG_STC) (index : Z) (event : mac_event)
    (mhmap : mlearn_hmap) : outcome mlearn_hmap :=
  match hmap_first_with_hash (ev_table mhmap) index with
  | Some i =>
      let* n := ops_fpa_mac_learning_mlearn_entry_fill_data ports switchId fdb_entry event in
      ev_write i n mhmap
  | None =>
      if actual_size mhmap <? buf_size mhmap then
        let* n := ops_fpa_mac_learning_mlearn_entry_fill_data ports switchId fdb_entry event in
        let* mhmap := ev_write (actual_size mhmap) n mhmap in
        Done {| ev_table := hmap_insert (ev_table mhmap) (actual_size mhmap) index;
                ev_nodes := ev_nodes mhmap;
                actual_size := actual_size mhmap + 1; buf_size := buf_size mhmap |}
      else Done mhmap
  end.

Definition ops_fpa_mac_learning_mlearn_action_add (ports : Z → option string)
    (ml : fpa_mac_learning) (fdb_entry : FPA_EVENT_ADDRESS_MSG_STC)
    (index reHashIndex : Z) (event : mac_event) : outcome fpa_mac_learning :=
  let* mhmap := mlearn_record ports (ml_switchId ml) fdb_entry index event (curr_events ml) in
  let ml := set_events (curr_mlearn_table_in_use ml) mhmap ml in
  Done (if ops_fpa_mac_learning_mlearn_table_is_full mhmap
        then ops_fpa_mac_learning_process_mlearn ml else ml).

(** ** Changes of the table; [Some errno] is an error *)

(** [e] is the address of an allocated entry. *)
Definition ops_fpa_mac_learning_insert (ports : Z → option string) (ml : fpa_mac_learning)
    (p : Z) (e : FPA_EVENT_ADDRESS_MSG_STC) : outcome (option errno * fpa_mac_learning) :=
  if max_entries ml <=? hmap_count (table ml) then
    (* free(e) *)
    Done (Some EPERM, set_table (table ml) (delete p (entries ml)) ml)
  else
    let index := fpa_hash_fdb_entry e in
    let ml := set_table (hmap_insert (table ml) p index) (entries ml) ml in
    let* ml := ops_fpa_mac_learning_mlearn_action_add ports ml e index 0 MLEARN_ADD in
    Done (None, ml).

(** [hash] is the hash kept in the node of [p]. *)
Definition ops_fpa_mac_learning_expire (ports : Z → option string) (ml : fpa_mac_learning)
    (p hash : Z) : outcome (option errno * fpa_mac_learning) :=
  match entries ml !! p with
  | None => Crash NullDeref
  | Some e =>
      let ml := set_table (hmap_remove (table ml) p) (entries ml) ml in
      let* ml := ops_fpa_mac_learning_mlearn_action_add ports ml e hash hash MLEARN_DEL in
      Done (None, set_table (table ml) (delete p (entries ml)) ml)
  end.

(** The next node is read before the body runs: the nodes of the table at the
    start of the loop are visited. *)
Fixpoint flush_nodes (ports : Z → option string) (ns : list (Z * Z)) (ml : fpa_mac_learning) :
    outcome fpa_mac_learning :=
  match ns with
  | [] => Done ml
  | (p, hash) :: ns =>
      let* (_, ml) := ops_fpa_mac_learning_expire ports ml p hash in
      flush_nodes ports ns ml
  end.

Definition ops_fpa_mac_learning_flush (ports : Z → option string) (ml : fpa_mac_learning) :
    outcome fpa_mac_learning :=
  flush_nodes ports (hmap_nodes (table ml)) ml.

(** The entry allocated first is not freed on the early returns; what it holds
    before the copy is never read. *)
Definition ops_fpa_mac_learning_learn (ports : Z → option string) (ml : fpa_mac_learning)
    (data : FPA_EVENT_ADDRESS_MSG_STC) : outcome (option errno * fpa_mac_learning) :=
  let p := fresh (dom (entries ml)) in
  let ml := set_table (table ml) (<[p := data]> (entries ml)) ml in
  match ports (portNum data) with
  | None => Done (Some EPERM, ml)
  | Some _ =>
      if negb (ops_fpa_mac_learning_may_learn ml (address data) (vid data))
      then Done (Some EPERM, ml)
      else ops_fpa_mac_learning_insert ports ml p data
  end.

(** The hash kept in the node of [p]. *)
Definition node_hash (ml : fpa_mac_learning) (p : Z) : Z :=
  match find (λ n, n.1 =? p) (hmap_nodes (table ml)) with Some n => n.2 | None => 0 end.

Definition ops_fpa_mac_learning_age_by_entry (ports : Z → option string) (ml : fpa_mac_learning)
    (fdb_entry : FPA_EVENT_ADDRESS_MSG_STC) : outcome (option errno * fpa_mac_learning) :=
  match ops_fpa_mac_learning_lookup ml fdb_entry with
  | Some p => ops_fpa_mac_learning_expire ports ml p (node_hash ml p)
  | None => Done (None, ml)
  end.

Definition ops_fpa_mac_learning_age_by_vlan_and_mac (ports : Z → option string)
    (ml : fpa_mac_learning) (vlan : Z) (macAddr : mac) :
    outcome (option errno * fpa_mac_learning) :=
  match ops_fpa_mac_learning_lookup_by_vlan_and_mac ml vlan macAddr with
  | Some p => ops_fpa_mac_learning_expire ports ml p (node_hash ml p)
  | None => Done (Some EPERM, ml)
  end.

(** One message of the event thread's loop; [None]: no message could be read. *)
Definition mac_learning_asic_event (ports : Z → option string) (ml : fpa_mac_learning)
    (msg : option FPA_EVENT_ADDRESS_MSG_STC) : outcome fpa_mac_learning :=
  match msg with
  | None => Done ml
  | Some msg =>
      match au_msg_type msg with
      | FPA_EVENT_ADDRESS_UPDATE_NEW_E =>
          let* (_, ml) := ops_fpa_mac_learning_learn ports ml msg in Done ml
      | FPA_EVENT_ADDRESS_UPDATE_AGED_E =>
          let* (_, ml) := ops_fpa_mac_learning_age_by_entry ports ml msg in Done ml
      | FPA_EVENT_ADDRESS_OTHER _ => Done ml
      end
  end.

(** What [fpaLibBridgingAuMsgGet] gives is handled only if it succeeds. *)
Definition au_received (r : FPA_STATUS * FPA_EVENT_ADDRESS_MSG_STC) :
    option FPA_EVENT_ADDRESS_MSG_STC := if failed r.1 then None else Some r.2.

(** The event thread, where [au n] is what its [n]-th call of
    [fpaLibBridgingAuMsgGet] gives.  The loop has no exit: the test of the exit latch
    is commented out. *)
Fixpoint mac_learning_asic_events_handler (fuel : nat) (ports : Z → option string)
    (au : nat → FPA_STATUS * FPA_EVENT_ADDRESS_MSG_STC) (ml : fpa_mac_learning) :
    outcome fpa_mac_learning :=
  match fuel with
  | O => OutOfFuel
  | S fuel =>
      let* ml := mac_learning_asic_event ports ml (au_received (au O)) in
      mac_learning_asic_events_handler fuel ports (λ n, au (S n)) ml
  end.

Definition ops_fpa_mac_learning_on_mlearn_timer_expired (ml : fpa_mac_learning) :
    fpa_mac_learning := ops_fpa_mac_learning_process_mlearn ml.

(** The pointer [ops_fpa_ml_hmap_get] stores: the index of the buffer that is not
    current, or null if it is empty.  The buffer itself stays in the table. *)
Definition ml_hmap_get (ml : fpa_mac_learning) : option bool :=
  let other := negb (curr_mlearn_table_in_use ml) in
  if negb (hmap_count (ev_table (mlearn_event_tables ml other)) =? 0) then Some other else None.

(** The table [ops_fpa_mac_learning_create] builds. *)
Definition mlearn_hmap_new : mlearn_hmap :=
  {| ev_table := hmap_init; ev_nodes := ∅; actual_size := 0; buf_size := BUFFER_SIZE |}.

Definition ml_new (default_size default_idle switchId : Z) (plugin : bool) : fpa_mac_learning :=
  {| table := hmap_init; entries := ∅; idle_time := normalize_idle_time default_idle;
     max_entries := default_size; ml_switchId := switchId;
     mlearn_event_tables := λ _, mlearn_hmap_new; curr_mlearn_table_in_use := false;
     plugin_interface := plugin; triggered := 0 |}.

(** [aging_set] and [learning_set] are [fpaLibSwitchAgingTimeoutSet] and
    [fpaLibSwitchSrcMacLearningSet] with [FPA_SRCMAC_LEARNING_AUTO_E]. *)
Definition ops_fpa_mac_learning_create {hw} (aging_set : Z → Z → hw → FPA_STATUS * hw)
    (learning_set : Z → hw → FPA_STATUS * hw) (default_size default_idle switchId : Z)
    (plugin : bool) (h : hw) : option errno * option fpa_mac_learning * hw :=
  let ml := ml_new default_size default_idle switchId plugin in
  let '(err, h) := aging_set switchId (idle_time ml) h in
  if failed err then (Some EPERM, None, h) else
  let '(err, h) := learning_set switchId h in
  if failed err then (Some EPERM, None, h) else
  (None, Some ml, h).
End mac_learning.

(** ** Invariants *)

Section event_buffer.
Context {H : HMAP} {E : ML_ENV} `{!HMAP_LAWS H}.

(** The nodes in use are the first [actual_size] ones, each with its own hash. *)
Record ev_inv (m : mlearn_hmap) : Prop := {
  ev_inv_size : buf_size m = BUFFER_SIZE;
  ev_inv_range : 0 ≤ actual_size m ≤ BUFFER_SIZE;
  ev_inv_ptrs : (hmap_nodes (ev_table m)).*1 ≡ₚ seqZ 0 (actual_size m);
  ev_inv_hashes : NoDup (hmap_nodes (ev_table m)).*2;
  ev_inv_nodes i : is_Some (ev_nodes m !! i) ↔ 0 ≤ i < actual_size m
}.

(** The event recorded for a hash. *)
Definition event_at (m : mlearn_hmap) (h : Z) : option mlearn_hmap_node :=
  i ← hmap_first_with_hash (ev_table m) h; ev_nodes m !! i.

Definition event_node (switchId : Z) (name : string) (e : FPA_EVENT_ADDRESS_MSG_STC)
    (event : mac_event) : mlearn_hmap_node :=
  {| ev_mac := address e; ev_port := portNum e; ev_vlan := vid e; ev_hw_unit := switchId;
     ev_oper := event; ev_port_name := String.substring 0 PORT_NAME_SIZE name |}.

Lemma ev_inv_nodup m : ev_inv m → NoDup (hmap_nodes (ev_table m)).*1.
Proof. intros Hm. rewrite (ev_inv_ptrs m Hm). apply NoDup_seqZ. Qed.

(** A hash has one node. *)
Lemma ev_inv_hash_unique m i j h :
  ev_inv m → (i, h) ∈ hmap_nodes (ev_table m) → (j, h) ∈ hmap_nodes (ev_table m) → i = j.
Proof.
  intros Hm Hi Hj. pose proof (ev_inv_hashes m Hm) as Hnd.
  apply elem_of_Permutation in Hi as [l Hl]. rewrite Hl in Hnd, Hj.
  apply elem_of_cons in Hj as [Hj|Hj]; [congruence|].
  apply NoDup_cons in Hnd as [Hn _]. destruct Hn. by apply (list_elem_of_fmap_2 snd _ (j, h)).
Qed.

Lemma first_with_hash_unique m i h :
  ev_inv m → hmap_first_with_hash (ev_table m) h = Some i ↔ (i, h) ∈ hmap_nodes (ev_table m).
Proof.
  intros Hm. split; [apply hmap_first_with_hash_some|]. intros Hi.
  destruct (hmap_first_with_hash (ev_table m) h) as [j|] eqn:Hj.
  - f_equal. apply hmap_first_with_hash_some in Hj. by eapply ev_inv_hash_unique.
  - rewrite hmap_first_with_hash_none in Hj. by destruct (Hj i).
Qed.

Lemma ev_inv_ptr_range m i h :
  ev_inv m → (i, h) ∈ hmap_nodes (ev_table m) → 0 ≤ i < actual_size m.
Proof.
  intros Hm Hi. apply (list_elem_of_fmap_2 fst) in Hi. rewrite (ev_inv_ptrs m Hm) in Hi.
  apply elem_of_seqZ in Hi. simpl in Hi. lia.
Qed.

Lemma ev_inv_new : 0 ≤ BUFFER_SIZE → ev_inv mlearn_hmap_new.
Proof.
  intros Hb. split; simpl; rewrite ?hmap_nodes_init; simpl; [done|lia|done|constructor|].
  intros i. rewrite lookup_empty. split; [by intros []|lia].
Qed.

Lemma ev_inv_clear m : 0 ≤ BUFFER_SIZE → ev_inv (ops_fpa_mac_learning_clear_mlearn_hmap m).
Proof. apply ev_inv_new. Qed.

Lemma ev_write_in_range i n m :
  0 ≤ i < BUFFER_SIZE →
  ev_write i n m = Done {| ev_table := ev_table m; ev_nodes := <[i := n]> (ev_nodes m);
                           actual_size := actual_size m; buf_size := buf_size m |}.
Proof.
  intros Hi. unfold ev_write.
  by rewrite (proj2 (Z.leb_le _ _)), (proj2 (Z.ltb_lt _ _)) by lia.
Qed.

(** Whether the buffer takes an event for hash [h]. *)
Definition ev_accepts (m : mlearn_hmap) (h : Z) : bool :=
  bool_decide (is_Some (event_at m h)) || (actual_size m <? buf_size m).

Lemma event_at_some m h i :
  ev_inv m → hmap_first_with_hash (ev_table m) h = Some i → is_Some (event_at m h).
Proof.
  intros Hm Hi. unfold event_at. rewrite Hi. simpl. apply (ev_inv_nodes m Hm).
  eapply ev_inv_ptr_range; [done|]. by apply hmap_first_with_hash_some.
Qed.

(** Filling an existing node changes the event of its hash only. *)
Lemma ev_overwrite m i h n :
  ev_inv m → hmap_first_with_hash (ev_table m) h = Some i →
  let m' := {| ev_table := ev_table m; ev_nodes := <[i := n]> (ev_nodes m);
               actual_size := actual_size m; buf_size := buf_size m |} in
  ev_inv m' ∧ ∀ h', event_at m' h' = if bool_decide (h' = h) then Some n else event_at m h'.
Proof.
  intros Hm Hi m'. pose proof Hi as Hin. apply first_with_hash_unique in Hin; [|done].
  pose proof (ev_inv_ptr_range _ _ _ Hm Hin) as Hr. split.
  - destruct Hm as [? ? ? ? Hn]. split; simpl; try done.
    intros j. rewrite lookup_insert_is_Some, Hn.
    split; [intros [<-|[_ ?]]; done|]. intros ?. destruct (decide (i = j)); auto.
  - intros h'. unfold event_at; simpl. case_bool_decide as Hh.
    + subst. rewrite Hi. simpl. by rewrite lookup_insert_eq.
    + destruct (hmap_first_with_hash (ev_table m) h') as [j|] eqn:Hj; [|done]. simpl.
      apply lookup_insert_ne. intros ->. apply first_with_hash_unique in Hj; [|done].
      apply Hh. assert (NoDup (hmap_nodes (ev_table m)).*1) as Hnd by by apply ev_inv_nodup.
      apply elem_of_Permutation in Hin as [l Hl]. rewrite Hl in Hnd, Hj.
      apply elem_of_cons in Hj as [Hj|Hj]; [congruence|].
      apply NoDup_cons in Hnd as [Hn _]. destruct Hn.
      by apply (list_elem_of_fmap_2 fst _ (j, h')).
Qed.

(** A new node adds the event of a hash that had none. *)
Lemma ev_append m h n :
  ev_inv m → hmap_first_with_hash (ev_table m) h = None → actual_size m < BUFFER_SIZE →
  let m' := {| ev_table := hmap_insert (ev_table m) (actual_size m) h;
               ev_nodes := <[actual_size m := n]> (ev_nodes m);
               actual_size := actual_size m + 1; buf_size := buf_size m |} in
  ev_inv m' ∧ ∀ h', event_at m' h' = if bool_decide (h' = h) then Some n else event_at m h'.
Proof.
  intros Hm Hno Hlt m'. pose proof (ev_inv_range m Hm) as Hr.
  assert (ev_inv m') as Hm'.
  { pose proof Hm as [? ? Hp Hh Hn]. split; simpl.
    - done.
    - lia.
    - rewrite hmap_insert_ptrs, Hp, (seqZ_app 0 (actual_size m) 1) by lia.
      apply Permutation_cons_append.
    - rewrite hmap_nodes_insert. simpl. apply NoDup_cons. split; [|done].
      intros ([i h'] & Heq & Hin)%list_elem_of_fmap. simpl in Heq. subst h'.
      rewrite hmap_first_with_hash_none in Hno. by destruct (Hno i).
    - intros i. rewrite lookup_insert_is_Some, Hn. lia. }
  split; [done|]. intros h'. unfold event_at.
  destruct (bool_decide_reflect (h' = h)) as [->|Hne].
  - rewrite (proj2 (first_with_hash_unique m' (actual_size m) h Hm')); simpl;
      [by rewrite lookup_insert_eq|]. apply elem_of_hmap_insert. by left.
  - destruct (hmap_first_with_hash (ev_table m) h') as [j|] eqn:Hj.
    + apply first_with_hash_unique in Hj; [|done].
      rewrite (proj2 (first_with_hash_unique m' j h' Hm')); simpl.
      * apply lookup_insert_ne. pose proof (ev_inv_ptr_range _ _ _ Hm Hj). lia.
      * apply elem_of_hmap_insert. by right.
    + rewrite (proj2 (hmap_first_with_hash_none (ev_table m') h')); [done|].
      intros j [Hj'|Hj']%elem_of_hmap_insert; [congruence|].
      rewrite hmap_first_with_hash_none in Hj. by destruct (Hj j).
Qed.

(** Recording an event for a known port always works, within the array, and
    changes the event of its hash only. *)
Lemma mlearn_record_ok ports sw e h ev m name :
  ev_inv m → ports (portNum e) = Some name →
  ∃ m', mlearn_record ports sw e h ev m = Done m' ∧ ev_inv m' ∧
    actual_size m ≤ actual_size m' ∧
    (∀ h', event_at m' h' =
       if bool_decide (h' = h) && ev_accepts m h then Some (event_node sw name e ev)
       else event_at m h').
Proof.
  intros Hm Hport. unfold mlearn_record, ops_fpa_mac_learning_mlearn_entry_fill_data.
  rewrite Hport. fold (event_node sw name e ev). unfold ev_accepts. simpl.
  destruct (hmap_first_with_hash (ev_table m) h) as [i|] eqn:Hi; simpl.
  - rewrite (bool_decide_eq_true_2 (is_Some (event_at m h))) by (by eapply event_at_some).
    pose proof (hmap_first_with_hash_some _ _ _ Hi) as Hin.
    pose proof (ev_inv_ptr_range _ _ _ Hm Hin). pose proof (ev_inv_range m Hm).
    rewrite ev_write_in_range by lia.
    destruct (ev_overwrite m i h (event_node sw name e ev) Hm Hi) as [Hm' He].
    eexists. split_and!; [done|done|simpl; lia|]. intros h'. rewrite He. by rewrite andb_true_r.
  - assert (event_at m h = None) as He0 by (unfold event_at; by rewrite Hi).
    rewrite (bool_decide_eq_false_2 (is_Some (event_at m h))) by (rewrite He0; by intros []).
    rewrite (ev_inv_size m Hm). simpl. destruct (Z.ltb_spec (actual_size m) BUFFER_SIZE) as [Hlt|Hge].
    + rewrite ev_write_in_range by (pose proof (ev_inv_range m Hm); lia). simpl.
      destruct (ev_append m h (event_node sw name e ev) Hm Hi Hlt) as [Hm' He].
      eexists. split_and!; [done|done|simpl; lia|]. intros h'. rewrite He. by rewrite andb_true_r.
    + exists m. split_and!; [done|done|lia|]. intros h'. by rewrite andb_false_r.
Qed.
End event_buffer.

Section table_lemmas.
Context {H : HMAP} {E : ML_ENV} `{!HMAP_LAWS H}.
Hypothesis buffer_pos : 0 < BUFFER_SIZE.

(** The event buffers are well formed, and the current one has room when there is
    a plugin to hand it to. *)
Definition events_inv (ml : fpa_mac_learning) : Prop :=
  (∀ i, ev_inv (mlearn_event_tables ml i)) ∧
  (plugin_interface ml = true → actual_size (curr_events ml) < BUFFER_SIZE).

(** The nodes of the table are distinct, allocated, and hashed by their entry. *)
Definition table_inv (ml : fpa_mac_learning) : Prop :=
  NoDup (hmap_nodes (table ml)).*1 ∧
  ∀ p h, (p, h) ∈ hmap_nodes (table ml) →
    ∃ e, entries ml !! p = Some e ∧ h = fpa_hash_fdb_entry e.

Definition ml_inv (ml : fpa_mac_learning) : Prop := events_inv ml ∧ table_inv ml.

(** The entries of the table, in the order of iteration. *)
Definition fdb (ml : fpa_mac_learning) : list FPA_EVENT_ADDRESS_MSG_STC :=
  omap (λ n, entries ml !! n.1) (hmap_nodes (table ml)).

(** Only the event buffers differ. *)
Definition same_table (ml ml' : fpa_mac_learning) : Prop :=
  table ml' = table ml ∧ entries ml' = entries ml ∧ max_entries ml' = max_entries ml ∧
  idle_time ml' = idle_time ml ∧ ml_switchId ml' = ml_switchId ml ∧
  plugin_interface ml' = plugin_interface ml.

(** What the bridge finds at the pointer it gets. *)
Definition handed (ml : fpa_mac_learning) : option mlearn_hmap :=
  mlearn_event_tables ml <$> ml_hmap_get ml.

(** The event of hash [h] is [n] in the current buffer or in the one the bridge gets. *)
Definition recorded (ml : fpa_mac_learning) (h : Z) (n : mlearn_hmap_node) : Prop :=
  event_at (curr_events ml) h = Some n ∨
  ∃ m, handed ml = Some m ∧ event_at m h = Some n.

Lemma handed_eq ml :
  handed ml =
    let other := mlearn_event_tables ml (negb (curr_mlearn_table_in_use ml)) in
    if negb (hmap_count (ev_table other) =? 0) then Some other else None.
Proof. unfold handed, ml_hmap_get. simpl. by destruct (negb _). Qed.

Lemma ev_count m : ev_inv m → hmap_count (ev_table m) = actual_size m.
Proof.
  intros Hm. unfold hmap_count. rewrite <- (length_fmap fst), (ev_inv_ptrs m Hm).
  rewrite length_seqZ. pose proof (ev_inv_range m Hm). lia.
Qed.

(** Handing over: the filled buffer is what the bridge gets, the other one, now
    empty, becomes current. *)
Lemma process_swap ml :
  (∀ i, ev_inv (mlearn_event_tables ml i)) →
  plugin_interface ml = true → actual_size (curr_events ml) ≠ 0 →
  let ml' := ops_fpa_mac_learning_process_mlearn ml in
  same_table ml ml' ∧ events_inv ml' ∧ triggered ml' = S (triggered ml) ∧
  handed ml' = Some (curr_events ml) ∧
  ∀ h, event_at (curr_events ml') h = None.
Proof.
  intros Hev Hpl Hne ml'. subst ml'. unfold ops_fpa_mac_learning_process_mlearn.
  rewrite Hpl, ev_count by apply Hev. rewrite (proj2 (Z.eqb_neq _ _)) by done. simpl.
  split_and!; [by split_and!| |done| |].
  - split; simpl.
    + intros i. case_bool_decide; [apply ev_inv_clear; lia|apply Hev].
    + intros _. unfold curr_events; simpl. rewrite bool_decide_eq_true_2 by done. done.
  - rewrite handed_eq. simpl. rewrite negb_involutive.
    rewrite bool_decide_eq_false_2 by (by destruct (curr_mlearn_table_in_use ml)).
    fold (curr_events ml). rewrite ev_count by apply Hev.
    by rewrite (proj2 (Z.eqb_neq _ _)).
  - intros h. unfold curr_events; simpl. rewrite bool_decide_eq_true_2 by done.
    unfold event_at; simpl. unfold hmap_clear.
    rewrite (proj2 (hmap_first_with_hash_none hmap_init h)); [done|].
    intros p. rewrite hmap_nodes_init. apply not_elem_of_nil.
Qed.

Lemma process_inv ml :
  events_inv ml → same_table ml (ops_fpa_mac_learning_process_mlearn ml) ∧
  events_inv (ops_fpa_mac_learning_process_mlearn ml).
Proof.
  intros [Hev Hroom]. destruct (plugin_interface ml) eqn:Hpl.
  - destruct (decide (actual_size (curr_events ml) = 0)) as [H0|Hne].
    + unfold ops_fpa_mac_learning_process_mlearn. rewrite Hpl, ev_count, H0 by apply Hev.
      split; [by split_and!|]. split; auto.
    + pose proof (process_swap ml Hev Hpl Hne) as (? & ? & _). done.
  - unfold ops_fpa_mac_learning_process_mlearn. rewrite Hpl. split; [by split_and!|].
    split; [done|by rewrite Hpl].
Qed.

(** Recording an event for a known port never fails, keeps the buffers well
    formed, and with a plugin the event is never dropped. *)
Lemma action_add_ok ports ml e index rehash ev name :
  events_inv ml → ports (portNum e) = Some name →
  ∃ ml', ops_fpa_mac_learning_mlearn_action_add ports ml e index rehash ev = Done ml' ∧
    same_table ml ml' ∧ events_inv ml' ∧
    (plugin_interface ml = true → recorded ml' index (event_node (ml_switchId ml) name e ev)).
Proof.
  intros [Hev Hroom] Hport. unfold ops_fpa_mac_learning_mlearn_action_add.
  destruct (mlearn_record_ok ports (ml_switchId ml) e index ev (curr_events ml) name
    (Hev _) Hport) as (m' & -> & Hm' & Hle & Hat). simpl.
  set (ml1 := set_events (curr_mlearn_table_in_use ml) m' ml).
  assert (curr_events ml1 = m') as Hcur.
  { unfold curr_events; simpl. by rewrite bool_decide_eq_true_2. }
  assert (∀ i, ev_inv (mlearn_event_tables ml1 i)) as Hev1.
  { intros i. simpl. case_bool_decide; [done|apply Hev]. }
  assert (plugin_interface ml = true →
    event_at m' index = Some (event_node (ml_switchId ml) name e ev)) as Hrec.
  { intros Hpl. rewrite Hat, bool_decide_eq_true_2 by done. unfold ev_accepts.
    rewrite (ev_inv_size (curr_events ml) (Hev _)), (proj2 (Z.ltb_lt _ _)) by auto.
    by rewrite orb_true_r. }
  pose proof (ev_inv_size m' Hm') as Hsz. pose proof (ev_inv_range m' Hm') as Hrg.
  unfold ops_fpa_mac_learning_mlearn_table_is_full. rewrite Hsz.
  destruct (Z.eqb_spec (actual_size m') BUFFER_SIZE) as [Hfull|Hnf]; eexists; (split; [done|]).
  - destruct (plugin_interface ml) eqn:Hpl.
    + pose proof (process_swap ml1 Hev1 Hpl) as (Hs & Hi & _ & Hg & _); [rewrite Hcur; lia|].
      rewrite Hcur in Hg. split_and!; [done|done|]. intros _. right. exists m'. auto.
    + destruct (process_inv ml1) as [? ?]; [split; [done|intros Hf; exfalso; simpl in Hf; congruence]|]. by split_and!.
  - split_and!; [by split_and!| |].
    + split; [done|]. intros _. rewrite Hcur. lia.
    + intros Hpl. left. rewrite Hcur. auto.
Qed.

(** For an unknown port the assertion of [..._entry_fill_data] fails. *)
Lemma action_add_unknown_port ports ml e index rehash ev :
  events_inv ml → plugin_interface ml = true → ports (portNum e) = None →
  ops_fpa_mac_learning_mlearn_action_add ports ml e index rehash ev = Crash AssertFailed.
Proof.
  intros [Hev Hroom] Hpl Hport. unfold ops_fpa_mac_learning_mlearn_action_add, mlearn_record,
    ops_fpa_mac_learning_mlearn_entry_fill_data. rewrite Hport.
  destruct (hmap_first_with_hash _ _); simpl; [done|].
  by rewrite (ev_inv_size (curr_events ml) (Hev _)), (proj2 (Z.ltb_lt _ _)) by auto.
Qed.

(** *** Lookup *)

(** The entry [e] is for the VLAN and address of [k]. *)
Definition same_key (k e : FPA_EVENT_ADDRESS_MSG_STC) : Prop :=
  address e = address k ∧ vid e = vid k.

#[local] Instance same_key_dec k e : Decision (same_key k e).
Proof. unfold same_key. apply _. Defined.

Lemma same_key_bool k e :
  bool_decide (address e = address k) && bool_decide (vid e = vid k) = true ↔ same_key k e.
Proof. by rewrite andb_true_iff, !bool_decide_eq_true. Qed.

Lemma same_key_hash k e : same_key k e → fpa_hash_fdb_entry e = fpa_hash_fdb_entry k.
Proof. intros [Ha Hv]. unfold fpa_hash_fdb_entry. by rewrite Ha, Hv. Qed.

Lemma find_entry_some ml P ps p :
  find_entry ml P ps = Some p → p ∈ ps ∧ ∃ e, entries ml !! p = Some e ∧ P e = true.
Proof.
  intros [Hin Hp]%find_some. split; [by apply list_elem_of_In|].
  destruct (entries ml !! p); [eauto|done].
Qed.

Lemma find_entry_none ml P ps p e :
  find_entry ml P ps = None → p ∈ ps → entries ml !! p = Some e → P e = false.
Proof.
  intros Hn Hin He. apply list_elem_of_In in Hin.
  pose proof (find_none _ _ Hn p Hin) as Hf. simpl in Hf. by rewrite He in Hf.
Qed.

Lemma elem_of_fdb ml e :
  e ∈ fdb ml ↔ ∃ p h, (p, h) ∈ hmap_nodes (table ml) ∧ entries ml !! p = Some e.
Proof.
  unfold fdb. rewrite list_elem_of_omap. split; [intros ([p h] & ? & ?)|intros (p & h & ? & ?)];
    [|exists (p, h)]; eauto.
Qed.

Lemma node_in_ptrs (t : hmap) p h : (p, h) ∈ hmap_nodes t → p ∈ (hmap_nodes t).*1.
Proof. intros Hin. by apply (list_elem_of_fmap_2 fst _ (p, h)). Qed.

Lemma lookup_some ml k p :
  table_inv ml → ops_fpa_mac_learning_lookup ml k = Some p →
  ∃ e, entries ml !! p = Some e ∧ same_key k e ∧
    (p, fpa_hash_fdb_entry e) ∈ hmap_nodes (table ml).
Proof.
  intros [_ Hn] (Hin & e & He & Hk)%find_entry_some. apply same_key_bool in Hk.
  exists e. split_and!; [done|done|]. rewrite (same_key_hash _ _ Hk).
  by apply elem_of_hmap_with_hash.
Qed.

Lemma lookup_none ml k :
  table_inv ml → ops_fpa_mac_learning_lookup ml k = None ↔ ∀ e, e ∈ fdb ml → ¬ same_key k e.
Proof.
  intros Hinv. pose proof Hinv as [_ Hn]. split.
  - intros Hno e (p & h & Hin & He)%elem_of_fdb Hk.
    destruct (Hn _ _ Hin) as (e' & He' & ->). simplify_eq.
    rewrite (same_key_hash _ _ Hk) in Hin. apply elem_of_hmap_with_hash in Hin.
    pose proof (find_entry_none _ _ _ _ _ Hno Hin He) as Hf. apply same_key_bool in Hk. congruence.
  - intros Hno. destruct (ops_fpa_mac_learning_lookup ml k) as [p|] eqn:Hp; [|done].
    apply lookup_some in Hp as (e & He & Hk & Hin); [|done].
    destruct (Hno e); [|done]. apply elem_of_fdb. eauto.
Qed.

Lemma lookup_linear_some ml v m p :
  table_inv ml → ops_fpa_mac_learning_lookup_by_vlan_and_mac ml v m = Some p →
  ∃ e, entries ml !! p = Some e ∧ address e = m ∧ vid e = v ∧
    (p, fpa_hash_fdb_entry e) ∈ hmap_nodes (table ml).
Proof.
  intros [_ Hn] (Hin & e & He & Hk)%find_entry_some.
  apply andb_true_iff in Hk as [Ha%bool_decide_eq_true Hv%bool_decide_eq_true].
  exists e. split_and!; [done..|]. apply list_elem_of_fmap in Hin as ([q h] & -> & Hin). simpl in *.
  destruct (Hn _ _ Hin) as (e' & He' & ->). by simplify_eq.
Qed.

Lemma lookup_linear_none ml v m :
  table_inv ml → ops_fpa_mac_learning_lookup_by_vlan_and_mac ml v m = None ↔
  ∀ e, e ∈ fdb ml → ¬ (address e = m ∧ vid e = v).
Proof.
  intros Hinv. split.
  - intros Hno e (p & h & Hin & He)%elem_of_fdb [Ha Hv].
    pose proof (find_entry_none _ _ _ _ _ Hno (node_in_ptrs _ _ _ Hin) He) as Hf.
    simpl in Hf. by rewrite !bool_decide_eq_true_2 in Hf.
  - intros Hno. destruct (ops_fpa_mac_learning_lookup_by_vlan_and_mac ml v m) as [p|] eqn:Hp; [|done].
    apply lookup_linear_some in Hp as (e & He & Ha & Hv & Hin); [|done].
    destruct (Hno e); [|done]. apply elem_of_fdb. eauto.
Qed.

Lemma node_hash_in ml p h :
  NoDup (hmap_nodes (table ml)).*1 → (p, h) ∈ hmap_nodes (table ml) → node_hash ml p = h.
Proof.
  intros Hnd Hin. unfold node_hash. destruct (find _ _) as [[q h']|] eqn:Hf.
  - apply find_some in Hf as [Hin' Hq]. apply list_elem_of_In in Hin'. apply Z.eqb_eq in Hq.
    simpl in *. subst q. apply elem_of_Permutation in Hin as [l Hl]. rewrite Hl in Hnd, Hin'.
    apply elem_of_cons in Hin' as [[= ->]|Hin']; [done|].
    apply NoDup_cons in Hnd as [Hn _]. destruct Hn. by apply (list_elem_of_fmap_2 fst _ (p, h')).
  - apply list_elem_of_In in Hin. pose proof (find_none _ _ Hf _ Hin) as Hq. simpl in Hq.
    by rewrite Z.eqb_refl in Hq.
Qed.

(** *** Insertion and removal *)

(** The store matters only at the nodes of the table. *)
Lemma omap_entries_ext (es es' : gmap Z FPA_EVENT_ADDRESS_MSG_STC) (ns : list (Z * Z)) :
  (∀ p h, (p, h) ∈ ns → es !! p = es' !! p) →
  omap (λ n, es !! n.1) ns = omap (λ n, es' !! n.1) ns.
Proof.
  intros Heq. apply list_omap_ext, Forall_Forall2_diag, Forall_forall.
  intros [p h] Hin. by eapply Heq.
Qed.

Lemma table_inv_fresh ml p : table_inv ml → entries ml !! p = None → p ∉ (hmap_nodes (table ml)).*1.
Proof.
  intros [_ Hn] Hp ([q h] & -> & Hin)%list_elem_of_fmap. simpl in Hp.
  destruct (Hn _ _ Hin) as (e & He & _). congruence.
Qed.

Lemma same_table_fdb ml ml' : same_table ml ml' → fdb ml' = fdb ml.
Proof. intros (Ht & He & _). unfold fdb. by rewrite Ht, He. Qed.

Lemma same_table_inv ml ml' : same_table ml ml' → table_inv ml → table_inv ml'.
Proof. intros (Ht & He & _) Hinv. unfold table_inv. by rewrite Ht, He. Qed.

(** Removing a node and freeing its entry. *)
Lemma table_remove ml p h e t es :
  table_inv ml → (p, h) ∈ hmap_nodes (table ml) → entries ml !! p = Some e →
  t = hmap_remove (table ml) p → es = delete p (entries ml) →
  table_inv (set_table t es ml) ∧ fdb ml ≡ₚ e :: fdb (set_table t es ml).
Proof.
  intros [Hnd Hn] Hin He -> ->. split; [split|]; simpl.
  - by eapply hmap_remove_nodup.
  - intros q h' Hq. apply (elem_of_hmap_remove _ p h) in Hq as [Hq Hne]; [|done..]. simpl in Hne.
    rewrite lookup_delete_ne by done. by apply Hn.
  - unfold fdb; simpl. rewrite (hmap_remove_spec (table ml) p h) at 1 by done.
    cbn. rewrite He. constructor. erewrite omap_entries_ext; [done|].
    intros q h' Hq. apply (elem_of_hmap_remove _ p h) in Hq as [_ Hne]; [|done..]. simpl in Hne.
    by rewrite lookup_delete_ne.
Qed.

Lemma expire_ok ports ml p h e name :
  ml_inv ml → (p, h) ∈ hmap_nodes (table ml) → entries ml !! p = Some e →
  ports (portNum e) = Some name →
  ∃ ml', ops_fpa_mac_learning_expire ports ml p h = Done (None, ml') ∧ ml_inv ml' ∧
    fdb ml ≡ₚ e :: fdb ml' ∧ hmap_nodes (table ml) ≡ₚ (p, h) :: hmap_nodes (table ml') ∧
    entries ml' = delete p (entries ml) ∧ max_entries ml' = max_entries ml ∧
    plugin_interface ml' = plugin_interface ml ∧
    (plugin_interface ml = true →
     recorded ml' h (event_node (ml_switchId ml) name e MLEARN_DEL)).
Proof.
  intros [Hev Htab] Hin He Hport. unfold ops_fpa_mac_learning_expire. rewrite He.
  set (ml1 := set_table (hmap_remove (table ml) p) (entries ml) ml).
  destruct (action_add_ok ports ml1 e h h MLEARN_DEL name Hev Hport)
    as (ml2 & -> & (Ht & Hes & Hmx & Hid & Hsw & Hpl) & Hev2 & Hrec). simpl.
  destruct (table_remove ml p h e (table ml2) (delete p (entries ml2)) Htab Hin He)
    as [Hinv Hperm]; [done|by rewrite Hes|].
  eexists. split; [done|]. split; [split; [exact Hev2|exact Hinv]|]. split_and!.
  - exact Hperm.
  - simpl. rewrite Ht. simpl. apply hmap_remove_spec; [apply Htab|done].
  - simpl. by rewrite Hes.
  - exact Hmx.
  - exact Hpl.
  - exact Hrec.
Qed.

Lemma insert_ok ports ml p e name :
  ml_inv ml → p ∉ (hmap_nodes (table ml)).*1 → entries ml !! p = Some e →
  ports (portNum e) = Some name → hmap_count (table ml) < max_entries ml →
  ∃ ml', ops_fpa_mac_learning_insert ports ml p e = Done (None, ml') ∧ ml_inv ml' ∧
    fdb ml' ≡ₚ e :: fdb ml ∧ hmap_count (table ml') = hmap_count (table ml) + 1 ∧
    max_entries ml' = max_entries ml ∧ plugin_interface ml' = plugin_interface ml ∧
    (plugin_interface ml = true →
     recorded ml' (fpa_hash_fdb_entry e) (event_node (ml_switchId ml) name e MLEARN_ADD)).
Proof.
  intros [Hev [Hnd Hn]] Hp He Hport Hlt. unfold ops_fpa_mac_learning_insert.
  rewrite (proj2 (Z.leb_gt _ _)) by done.
  set (h := fpa_hash_fdb_entry e).
  set (ml1 := set_table (hmap_insert (table ml) p h) (entries ml) ml).
  destruct (action_add_ok ports ml1 e h 0 MLEARN_ADD name Hev Hport)
    as (ml2 & -> & Hsame & Hev2 & Hrec). simpl.
  assert (table_inv ml1) as Htab1.
  { split; simpl.
    - rewrite hmap_insert_ptrs. by apply NoDup_cons.
    - intros q h' [[= -> ->]|Hq]%elem_of_hmap_insert; [by exists e|by apply Hn]. }
  exists ml2. split; [done|]. split; [split; [done|by eapply same_table_inv]|].
  rewrite (same_table_fdb _ _ Hsame). destruct Hsame as (Ht & _ & Hmx & _ & _ & Hpl).
  split_and!; [|by rewrite Ht; apply hmap_count_insert|done|done|done].
  unfold fdb; simpl. rewrite hmap_nodes_insert. cbn. by rewrite He.
Qed.

(** A learned address is allocated, checked and inserted. *)
Lemma learn_ok ports ml data name :
  ml_inv ml → ports (portNum data) = Some name → hmap_count (table ml) < max_entries ml →
  ∃ ml', ops_fpa_mac_learning_learn ports ml data = Done (None, ml') ∧ ml_inv ml' ∧
    fdb ml' ≡ₚ data :: fdb ml ∧ hmap_count (table ml') = hmap_count (table ml) + 1 ∧
    max_entries ml' = max_entries ml ∧ plugin_interface ml' = plugin_interface ml ∧
    (plugin_interface ml = true →
     recorded ml' (fpa_hash_fdb_entry data)
       (event_node (ml_switchId ml) name data MLEARN_ADD)).
Proof.
  intros [Hev Htab] Hport Hlt. unfold ops_fpa_mac_learning_learn. rewrite Hport. simpl.
  set (p := fresh (dom (entries ml))).
  assert (entries ml !! p = None) as Hp by apply not_elem_of_dom, is_fresh.
  set (ml1 := set_table (table ml) (<[p := data]> (entries ml)) ml).
  assert (fdb ml1 = fdb ml) as Hfdb.
  { apply omap_entries_ext. intros q h Hq. apply lookup_insert_ne. intros <-.
    by apply (table_inv_fresh ml p Htab Hp), (node_in_ptrs _ _ h). }
  rewrite <- Hfdb. apply (insert_ok ports ml1 p data name);
    [|exact (table_inv_fresh ml p Htab Hp)|apply lookup_insert_eq|done|done].
  split; [done|]. destruct Htab as [Hnd Hn]. split; [done|]. intros q h Hq.
  destruct (Hn _ _ Hq) as (e & He & ->). exists e. split; [|done]. simpl.
  rewrite lookup_insert_ne; [done|]. intros <-. congruence.
Qed.

(** A refused address changes neither the table nor the events. *)
Lemma learn_refused ports ml data :
  ml_inv ml → ports (portNum data) = None ∨ max_entries ml ≤ hmap_count (table ml) →
  ∃ ml', ops_fpa_mac_learning_learn ports ml data = Done (Some EPERM, ml') ∧ ml_inv ml' ∧
    fdb ml' = fdb ml ∧ table ml' = table ml ∧ max_entries ml' = max_entries ml ∧
    plugin_interface ml' = plugin_interface ml ∧
    mlearn_event_tables ml' = mlearn_event_tables ml ∧
    curr_mlearn_table_in_use ml' = curr_mlearn_table_in_use ml.
Proof.
  intros [Hev Htab] Hno. unfold ops_fpa_mac_learning_learn.
  set (p := fresh (dom (entries ml))).
  assert (entries ml !! p = None) as Hp by apply not_elem_of_dom, is_fresh.
  assert (∀ es, (∀ q, q ≠ p → es !! q = entries ml !! q) →
    ml_inv (set_table (table ml) es ml) ∧ fdb (set_table (table ml) es ml) = fdb ml) as Hext.
  { intros es Hes. assert (∀ q h, (q, h) ∈ hmap_nodes (table ml) → es !! q = entries ml !! q) as Hq.
    { intros q h Hq. apply Hes. intros ->. by apply (table_inv_fresh ml p Htab Hp), (node_in_ptrs _ _ h). }
    split; [split; [done|]|by apply omap_entries_ext]. destruct Htab as [Hnd Hn]. split; [done|].
    intros q h Hin. simpl. rewrite (Hq q h Hin). by apply Hn. }
  destruct (ports (portNum data)) as [name|] eqn:Hport; simpl.
  - destruct Hno as [?|Hfull]; [done|]. unfold ops_fpa_mac_learning_insert. simpl.
    rewrite (proj2 (Z.leb_le _ _)) by done. eexists. split; [done|].
    destruct (Hext (delete p (<[p:=data]> (entries ml)))) as [Hi Hf].
    { intros q Hq. by rewrite lookup_delete_ne, lookup_insert_ne. }
    by split_and!.
  - eexists. split; [done|]. destruct (Hext (<[p:=data]> (entries ml))) as [Hi Hf].
    { intros q Hq. by rewrite lookup_insert_ne. }
    by split_and!.
Qed.

(** Flushing expires every node when every entry's port is known. *)
Lemma flush_nodes_ok ports ns ml :
  ml_inv ml → hmap_nodes (table ml) ≡ₚ ns →
  (∀ e, e ∈ fdb ml → is_Some (ports (portNum e))) →
  ∃ ml', flush_nodes ports ns ml = Done ml' ∧ ml_inv ml' ∧ fdb ml' = [] ∧
    hmap_nodes (table ml') = [] ∧ max_entries ml' = max_entries ml.
Proof.
  revert ml. induction ns as [|[p h] ns IH]; intros ml Hinv Hns Hports; simpl.
  - apply Permutation_nil_r in Hns. exists ml. split_and!; [done|done| |done|done].
    unfold fdb. by rewrite Hns.
  - assert ((p, h) ∈ hmap_nodes (table ml)) as Hin by (rewrite Hns; by left).
    destruct (proj2 (proj2 Hinv) _ _ Hin) as (e & He & _).
    destruct (Hports e) as [name Hname]; [apply elem_of_fdb; eauto|].
    destruct (expire_ok ports ml p h e name Hinv Hin He Hname)
      as (ml1 & -> & Hinv1 & Hfdb & Hns1 & _ & <- & _). simpl.
    apply IH; [done| |].
    + rewrite Hns in Hns1. by apply Permutation_cons_inv in Hns1.
    + intros e' He'. apply Hports. rewrite Hfdb. by right.
Qed.
End table_lemmas.

(** ** Properties *)

Section ml_properties.
Context {H : HMAP} {E : ML_ENV} `{!HMAP_LAWS H}.

(** The inputs of the table: a message of the switch, the timer, a flush, a new
    limit. *)
Inductive ml_input :=
  | InMsg (msg : option FPA_EVENT_ADDRESS_MSG_STC)
  | InTimer
  | InFlush
  | InMaxEntries (n : Z).

Definition ml_step (ports : Z → option string) (ml : fpa_mac_learning) (i : ml_input) :
    outcome fpa_mac_learning :=
  match i with
  | InMsg msg => mac_learning_asic_event ports ml msg
  | InTimer => Done (ops_fpa_mac_learning_on_mlearn_timer_expired ml)
  | InFlush => ops_fpa_mac_learning_flush ports ml
  | InMaxEntries n => Done (ops_fpa_mac_learning_set_max_entries ml n)
  end.

Fixpoint ml_run (ports : Z → option string) (ml : fpa_mac_learning) (ins : list ml_input) :
    outcome fpa_mac_learning :=
  match ins with
  | [] => Done ml
  | i :: ins => let* ml := ml_step ports ml i in ml_run ports ml ins
  end.

(** The table is well formed, holds entries of known ports only and at most [B]
    of them. *)
Definition ml_safe (ports : Z → option string) (B : Z) (ml : fpa_mac_learning) : Prop :=
  ml_inv ml ∧ (∀ e, e ∈ fdb ml → is_Some (ports (portNum e))) ∧
  hmap_count (table ml) ≤ B ∧ max_entries ml ≤ B.

Lemma age_step ports ml k :
  0 < BUFFER_SIZE → ml_inv ml → (∀ e, e ∈ fdb ml → is_Some (ports (portNum e))) →
  match ops_fpa_mac_learning_lookup ml k with
  | None => ops_fpa_mac_learning_age_by_entry ports ml k = Done (None, ml)
  | Some p => ∃ e name ml', entries ml !! p = Some e ∧ same_key k e ∧
      ports (portNum e) = Some name ∧
      ops_fpa_mac_learning_age_by_entry ports ml k = Done (None, ml') ∧ ml_inv ml' ∧
      fdb ml ≡ₚ e :: fdb ml' ∧ hmap_count (table ml') = hmap_count (table ml) - 1 ∧
      max_entries ml' = max_entries ml ∧
      (plugin_interface ml = true →
       recorded ml' (fpa_hash_fdb_entry e) (event_node (ml_switchId ml) name e MLEARN_DEL))
  end.
Proof.
  intros Hb Hinv Hports. unfold ops_fpa_mac_learning_age_by_entry.
  destruct (ops_fpa_mac_learning_lookup ml k) as [p|] eqn:Hp; [|done].
  apply lookup_some in Hp as (e & He & Hk & Hin); [|apply Hinv].
  destruct (Hports e) as [name Hname]; [apply elem_of_fdb; eauto|].
  rewrite (node_hash_in ml p _ (proj1 (proj2 Hinv)) Hin).
  destruct (expire_ok Hb ports ml p _ e name Hinv Hin He Hname)
    as (ml' & Hex & Hinv' & Hfdb & Hns & _ & Hmx & _ & Hrec).
  exists e, name, ml'. split_and!; try done.
  unfold hmap_count. rewrite Hns. simpl. lia.
Qed.

Lemma ml_step_safe ports B ml i :
  0 < BUFFER_SIZE → 1000000 ≤ B → ml_safe ports B ml →
  ∃ ml', ml_step ports ml i = Done ml' ∧ ml_safe ports B ml'.
Proof.
  intros Hb HB (Hinv & Hports & Hcount & Hmax). destruct i as [[msg|]| | |n]; simpl.
  - unfold mac_learning_asic_event. destruct (au_msg_type msg).
    + destruct (decide (is_Some (ports (portNum msg)) ∧ hmap_count (table ml) < max_entries ml))
        as [[[name Hname] Hlt]|Hno].
      * destruct (learn_ok Hb ports ml msg name Hinv Hname Hlt)
          as (ml' & -> & Hinv' & Hfdb & Hc & Hmx & _). exists ml'. split; [done|].
        split_and!; [done| |lia|lia]. intros e. rewrite Hfdb. intros [->|?]%elem_of_cons; eauto.
      * destruct (learn_refused ports ml msg Hinv) as (ml' & -> & Hinv' & Hfdb & Ht & Hmx & _).
        { destruct (ports (portNum msg)); [right|by left].
          apply Z.nlt_ge. intros ?. apply Hno. eauto. }
        exists ml'. split; [done|]. split_and!; [done|by rewrite Hfdb|by rewrite Ht|lia].
    + pose proof (age_step ports ml msg Hb Hinv Hports) as Hage.
      destruct (ops_fpa_mac_learning_lookup ml msg) as [p|].
      * destruct Hage as (e & name & ml' & _ & _ & _ & -> & Hinv' & Hfdb & Hc & Hmx & _).
        exists ml'. split; [done|]. split_and!; [done| |lia|lia].
        intros e' He'. apply Hports. rewrite Hfdb. by right.
      * rewrite Hage. by exists ml.
    + by exists ml.
  - by exists ml.
  - eexists. split; [done|]. destruct Hinv as [Hev Htab].
    destruct (process_inv Hb ml Hev) as [Hs Hev'].
    unfold ops_fpa_mac_learning_on_mlearn_timer_expired. split_and!.
    + split; [done|by eapply same_table_inv].
    + by rewrite (same_table_fdb _ _ Hs).
    + by rewrite (proj1 Hs).
    + destruct Hs as (_ & _ & -> & _). done.
  - destruct (flush_nodes_ok Hb ports _ ml Hinv (reflexivity _) Hports)
      as (ml' & Hf & Hinv' & Hfdb & Hns & Hmx).
    exists ml'. split; [exact Hf|]. split_and!; [done| | |lia].
    + intros e. rewrite Hfdb. by intros ?%not_elem_of_nil.
    + unfold hmap_count. rewrite Hns. simpl. lia.
  - eexists. split; [done|]. split_and!; [done|done|done|]. simpl.
    destruct (Z.ltb_spec n 10); [lia|]. destruct (Z.ltb_spec (1000 * 1000) n); lia.
Qed.

(** The event thread does not end. *)
Lemma handler_never_returns fuel ports au ml ml' :
  mac_learning_asic_events_handler fuel ports au ml ≠ Done ml'.
Proof.
  revert au ml. induction fuel as [|fuel IH]; intros au ml; simpl; [done|].
  intros (ml1 & _ & Hr)%obind_done. by apply IH in Hr.
Qed.

(** It keeps running, whatever the switch sends. *)
Lemma handler_runs ports B fuel au ml :
  0 < BUFFER_SIZE → 1000000 ≤ B → ml_safe ports B ml →
  mac_learning_asic_events_handler fuel ports au ml = OutOfFuel.
Proof.
  intros Hb HB. revert au ml. induction fuel as [|fuel IH]; intros au ml Hs; simpl; [done|].
  destruct (ml_step_safe ports B ml (InMsg (au_received (au 0%nat))) Hb HB Hs) as (ml1 & Hstep & Hs1).
  simpl in Hstep. rewrite Hstep. simpl. by apply IH.
Qed.

Lemma ml_new_safe ports default_size default_idle switchId plugin :
  0 < BUFFER_SIZE → 0 ≤ default_size →
  ml_safe ports (Z.max default_size 1000000) (ml_new default_size default_idle switchId plugin).
Proof.
  intros Hb Hd. split_and!; [split; split| | |]; simpl.
  - intros _. apply ev_inv_new. lia.
  - intros _. done.
  - rewrite hmap_nodes_init. constructor.
  - intros p h. rewrite hmap_nodes_init. by intros ?%not_elem_of_nil.
  - intros e. unfold fdb. simpl. rewrite hmap_nodes_init. by intros ?%not_elem_of_nil.
  - unfold hmap_count. rewrite hmap_nodes_init. simpl. lia.
  - lia.
Qed.

(** C16: From a new table, any sequence of switch messages, timer expiries, flushes
    and limit changes runs to completion without a failed assertion or a write
    outside an event buffer; the table stays well formed, has entries of known ports
    only, and never more than the larger of its initial limit and a million. *)
Theorem ml_run_safe ports default_size default_idle switchId plugin ins :
  0 < BUFFER_SIZE → 0 ≤ default_size →
  ∃ ml, ml_run ports (ml_new default_size default_idle switchId plugin) ins = Done ml ∧
    ml_safe ports (Z.max default_size 1000000) ml.
Proof.
  intros Hb Hd.
  pose proof (ml_new_safe ports default_size default_idle switchId plugin Hb Hd) as Hsafe.
  revert Hsafe. generalize (ml_new default_size default_idle switchId plugin) as ml.
  induction ins as [|i ins IH]; intros ml Hsafe; simpl; [by exists ml|].
  destruct (ml_step_safe ports _ ml i Hb (Z.le_max_r _ _) Hsafe) as (ml' & -> & Hsafe'). simpl.
  by apply IH.
Qed.

(** C39: The hash lookup finds an address exactly when the linear scan does, and
    both when, and only when, the table has an entry for that VLAN and address; if
    the entry is unique they return the same one. *)
Theorem lookup_equivalence ml k :
  table_inv ml →
  let hashed := ops_fpa_mac_learning_lookup ml k in
  let linear := ops_fpa_mac_learning_lookup_by_vlan_and_mac ml (vid k) (address k) in
  (is_Some hashed ↔ is_Some linear) ∧ (is_Some hashed ↔ ∃ e, e ∈ fdb ml ∧ same_key k e) ∧
  ((∀ p q e e', entries ml !! p = Some e → entries ml !! q = Some e' →
      same_key k e → same_key k e' → p = q) → hashed = linear).
Proof.
  intros Hinv hashed linear.
  assert (hashed = None ↔ linear = None) as Hnone.
  { unfold hashed, linear. by rewrite lookup_none, lookup_linear_none. }
  split_and!.
  - rewrite <- !not_eq_None_Some. by rewrite Hnone.
  - split.
    + intros [p (e & He & Hk & Hin)%lookup_some]; [|done].
      exists e. split; [|done]. apply elem_of_fdb. eauto.
    + intros (e & He & Hk). apply not_eq_None_Some. unfold hashed. rewrite lookup_none by done.
      intros Hno. by apply (Hno e).
  - intros Huniq. unfold hashed, linear in *. clear hashed linear.
    destruct (ops_fpa_mac_learning_lookup ml k) as [p|] eqn:Hp,
      (ops_fpa_mac_learning_lookup_by_vlan_and_mac ml (vid k) (address k)) as [q|] eqn:Hq.
    + apply lookup_some in Hp as (e & He & Hk & _); [|done].
      apply lookup_linear_some in Hq as (e' & He' & Ha & Hv & _); [|done].
      f_equal. by eapply Huniq.
    + by apply Hnone.
    + symmetry. by apply Hnone.
    + done.
Qed.

(** C21: Learning an address: on a known port and below the limit exactly that
    entry is added, the lookup then finds the address, and with a plugin an
    ADD event for it awaits the bridge; on an unknown port or at the limit the
    table, its entries and its events stay as they were and [EPERM] is returned. *)
Theorem learn_correct ports ml data :
  0 < BUFFER_SIZE → ml_inv ml →
  ∃ err ml', ops_fpa_mac_learning_learn ports ml data = Done (err, ml') ∧ ml_inv ml' ∧
    match ports (portNum data), decide (hmap_count (table ml) < max_entries ml) with
    | Some name, left _ =>
        err = None ∧ fdb ml' ≡ₚ data :: fdb ml ∧
        is_Some (ops_fpa_mac_learning_lookup ml' data) ∧
        (plugin_interface ml = true →
         recorded ml' (fpa_hash_fdb_entry data)
           (event_node (ml_switchId ml) name data MLEARN_ADD))
    | _, _ =>
        err = Some EPERM ∧ fdb ml' = fdb ml ∧ table ml' = table ml ∧
        mlearn_event_tables ml' = mlearn_event_tables ml
    end.
Proof.
  intros Hb Hinv. destruct (ports (portNum data)) as [name|] eqn:Hport; [destruct (decide _)|].
  - destruct (learn_ok Hb ports ml data name Hinv Hport) as (ml' & -> & Hinv' & Hfdb & _ & _ & _ & Hrec);
      [done|].
    eexists _, ml'. split_and!; [done|done|done|done| |done].
    apply not_eq_None_Some. rewrite lookup_none by apply Hinv'. intros Hno.
    apply (Hno data); [rewrite Hfdb; by left|done].
  - destruct (learn_refused ports ml data Hinv) as (ml' & -> & ? & ? & ? & _ & _ & ? & _);
      [right; lia|]. by eexists _, ml'.
  - destruct (learn_refused ports ml data Hinv) as (ml' & -> & ? & ? & ? & _ & _ & ? & _);
      [by left|]. by eexists _, ml'.
Qed.

(** C22: Aging an address out of a table whose ports are all known: if the address
    is there, exactly one entry for it is removed and, with a plugin, a DEL event for
    it awaits the bridge; otherwise nothing changes.  It never fails. *)
Theorem age_correct ports ml k :
  0 < BUFFER_SIZE → ml_inv ml → (∀ e, e ∈ fdb ml → is_Some (ports (portNum e))) →
  ∃ ml', ops_fpa_mac_learning_age_by_entry ports ml k = Done (None, ml') ∧ ml_inv ml' ∧
    ((∀ e, e ∈ fdb ml → ¬ same_key k e) ∧ ml' = ml ∨
     ∃ e name, same_key k e ∧ ports (portNum e) = Some name ∧ fdb ml ≡ₚ e :: fdb ml' ∧
       (plugin_interface ml = true →
        recorded ml' (fpa_hash_fdb_entry k) (event_node (ml_switchId ml) name e MLEARN_DEL))).
Proof.
  intros Hb Hinv Hports. pose proof (age_step ports ml k Hb Hinv Hports) as Hage.
  destruct (ops_fpa_mac_learning_lookup ml k) as [p|] eqn:Hp.
  - destruct Hage as (e & name & ml' & _ & Hk & Hname & -> & Hinv' & Hfdb & _ & _ & Hrec).
    exists ml'. split_and!; [done|done|]. right. exists e, name.
    rewrite <- (same_key_hash _ _ Hk). done.
  - exists ml. split_and!; [done|done|]. left. split; [|done]. apply lookup_none; [apply Hinv|done].
Qed.

(** Handing events over: with a plugin and events in the current buffer, the
    bridge is triggered once and from then on gets exactly that buffer, the other
    buffer becomes current and is empty; the FDB is not touched, and events recorded
    later leave the bridge's buffer alone until the next hand-over. *)
Theorem mlearn_handover ml :
  0 < BUFFER_SIZE → events_inv ml → plugin_interface ml = true →
  actual_size (curr_events ml) ≠ 0 →
  let ml' := ops_fpa_mac_learning_process_mlearn ml in
  same_table ml ml' ∧ events_inv ml' ∧ triggered ml' = S (triggered ml) ∧
  handed ml' = Some (curr_events ml) ∧
  (∀ h, event_at (curr_events ml') h = None) ∧
  ∀ ports e h r ev ml'',
    ops_fpa_mac_learning_mlearn_action_add ports ml' e h r ev = Done ml'' →
    curr_mlearn_table_in_use ml'' = curr_mlearn_table_in_use ml' →
    handed ml'' = Some (curr_events ml).
Proof.
  intros Hb [Hev _] Hpl Hne. cbv zeta.
  destruct (process_swap Hb ml Hev Hpl Hne) as (Hs & Hi & Ht & Hg & Hempty).
  set (ml' := ops_fpa_mac_learning_process_mlearn ml) in *. clearbody ml'.
  split_and!; try done. intros ports e h r ev ml'' Hadd Hcur. rewrite <- Hg.
  unfold ops_fpa_mac_learning_mlearn_action_add in Hadd.
  apply obind_done in Hadd as (m & _ & [= <-]). revert Hcur.
  assert (∀ c, bool_decide (negb c = c) = false) as Hneg by by intros [].
  destruct (ops_fpa_mac_learning_mlearn_table_is_full m); intros Hcur.
  - unfold ops_fpa_mac_learning_process_mlearn in Hcur |- *. simpl in *.
    destruct (plugin_interface ml'); [|rewrite !handed_eq; simpl; by rewrite Hneg].
    destruct (negb _); [simpl in Hcur; by destruct (curr_mlearn_table_in_use ml')|].
    rewrite !handed_eq; simpl. by rewrite Hneg.
  - rewrite !handed_eq; simpl. by rewrite Hneg.
Qed.

(** Events are kept per 32-bit hash only: when two addresses collide, the
    event of the second replaces that of the first in the buffer, so the bridge is
    never told about the first. *)
Theorem mlearn_collision_overwrites ports sw e1 e2 ev1 ev2 m n1 n2 :
  ev_inv m → ports (portNum e1) = Some n1 → ports (portNum e2) = Some n2 →
  fpa_hash_fdb_entry e1 = fpa_hash_fdb_entry e2 → ev_accepts m (fpa_hash_fdb_entry e1) = true →
  ∃ m1 m2, mlearn_record ports sw e1 (fpa_hash_fdb_entry e1) ev1 m = Done m1 ∧
    mlearn_record ports sw e2 (fpa_hash_fdb_entry e2) ev2 m1 = Done m2 ∧
    event_at m1 (fpa_hash_fdb_entry e1) = Some (event_node sw n1 e1 ev1) ∧
    event_at m2 (fpa_hash_fdb_entry e1) = Some (event_node sw n2 e2 ev2) ∧
    ∀ h, h ≠ fpa_hash_fdb_entry e1 → event_at m2 h = event_at m h.
Proof.
  intros Hm Hn1 Hn2 Hh Hacc. rewrite <- Hh.
  destruct (mlearn_record_ok ports sw e1 (fpa_hash_fdb_entry e1) ev1 m n1 Hm Hn1)
    as (m1 & H1 & Hm1 & _ & Hat1).
  destruct (mlearn_record_ok ports sw e2 (fpa_hash_fdb_entry e1) ev2 m1 n2 Hm1 Hn2)
    as (m2 & H2 & Hm2 & _ & Hat2).
  assert (event_at m1 (fpa_hash_fdb_entry e1) = Some (event_node sw n1 e1 ev1)) as Hev.
  { by rewrite Hat1, Hacc, bool_decide_eq_true_2. }
  exists m1, m2. split_and!; [done|done|done| |].
  - rewrite Hat2, bool_decide_eq_true_2 by done. unfold ev_accepts.
    rewrite (bool_decide_eq_true_2 (is_Some _)) by (rewrite Hev; eauto). done.
  - intros h Hne. rewrite Hat2, bool_decide_eq_false_2 by done. simpl.
    rewrite Hat1, bool_decide_eq_false_2 by done. done.
Qed.

(** An address is inserted without looking for an old entry: learning the same
    message twice leaves two entries, and aging it once still leaves one. *)
Theorem learn_twice_duplicates ports ml data name :
  0 < BUFFER_SIZE → ml_inv ml → ports (portNum data) = Some name →
  (∀ e, e ∈ fdb ml → is_Some (ports (portNum e))) →
  hmap_count (table ml) + 1 < max_entries ml →
  ∃ ml1 ml2 ml3, ops_fpa_mac_learning_learn ports ml data = Done (None, ml1) ∧
    ops_fpa_mac_learning_learn ports ml1 data = Done (None, ml2) ∧
    fdb ml2 ≡ₚ data :: data :: fdb ml ∧
    ops_fpa_mac_learning_age_by_entry ports ml2 data = Done (None, ml3) ∧
    is_Some (ops_fpa_mac_learning_lookup ml3 data).
Proof.
  intros Hb Hinv Hname Hports Hlt.
  destruct (learn_ok Hb ports ml data name Hinv Hname) as (ml1 & H1 & Hinv1 & Hf1 & Hc1 & Hm1 & _);
    [lia|].
  destruct (learn_ok Hb ports ml1 data name Hinv1 Hname) as (ml2 & H2 & Hinv2 & Hf2 & _);
    [lia|].
  rewrite Hf1 in Hf2.
  assert (∀ e, e ∈ fdb ml2 → is_Some (ports (portNum e))) as Hports2.
  { intros e. rewrite Hf2. intros [->|[->|?]%elem_of_cons]%elem_of_cons; eauto. }
  pose proof (age_step ports ml2 data Hb Hinv2 Hports2) as Hage.
  destruct (ops_fpa_mac_learning_lookup ml2 data) as [p|] eqn:Hp.
  - destruct Hage as (e & nm & ml3 & _ & Hk & _ & Hage & Hinv3 & Hf3 & _).
    exists ml1, ml2, ml3. split_and!; [done..|].
    apply not_eq_None_Some. rewrite lookup_none by apply Hinv3. intros Hno.
    assert (data ∈ fdb ml3) as Hin; [|by apply (Hno data Hin)].
    rewrite Hf3 in Hf2. destruct (decide (e = data)) as [->|Hne].
    + apply Permutation_cons_inv in Hf2. rewrite Hf2. by left.
    + assert (data ∈ e :: fdb ml3) as [?|?]%elem_of_cons by (rewrite Hf2; by left); congruence.
  - rewrite lookup_none in Hp by apply Hinv2. destruct (Hp data); [|done]. rewrite Hf2. by left.
Qed.

(** Aging an address whose port has disappeared since it was learned fails
    the assertion that the port exists, which aborts the daemon. *)
Theorem age_unknown_port_aborts ports ml k p e :
  ml_inv ml → plugin_interface ml = true → ops_fpa_mac_learning_lookup ml k = Some p →
  entries ml !! p = Some e → ports (portNum e) = None →
  ops_fpa_mac_learning_age_by_entry ports ml k = Crash AssertFailed.
Proof.
  intros [Hev Htab] Hpl Hp He Hport. unfold ops_fpa_mac_learning_age_by_entry. rewrite Hp.
  unfold ops_fpa_mac_learning_expire. rewrite He.
  by rewrite action_add_unknown_port.
Qed.
End ml_properties.

(** ** Witnesses *)

(** Four events per buffer and a hash that adds the octets up. *)
#[local] Instance WEnv : ML_ENV := {|
  BUFFER_SIZE := 4; PORT_NAME_SIZE := 16;
  hash_bytes bs basis := foldl Z.add basis bs
|}.
#[local] Instance WHmap : HMAP := ListHmap 1.
#[local] Instance WHmapLaws : HMAP_LAWS WHmap := ListHmapLaws 1.

Definition w_ports (p : Z) : option string := if p <=? 8 then Some "port" else None.

Definition w_msg (t : au_type) (port v last : Z) : FPA_EVENT_ADDRESS_MSG_STC :=
  {| au_msg_type := t; portNum := port; vid := v; address := [0; 0; 0; 0; 0; last] |}.

Definition w_new : fpa_mac_learning := ml_new 100 300 0 true.

Definition w_add (port v last : Z) : ml_input :=
  InMsg (Some (w_msg FPA_EVENT_ADDRESS_UPDATE_NEW_E port v last)).

(** The table after learning an address on port 3. *)
Definition w_ml : fpa_mac_learning :=
  match ml_run w_ports w_new [w_add 3 1 7] with Done ml => ml | _ => w_new end.

Lemma w_pos : 0 < BUFFER_SIZE.
Proof. done. Qed.

Lemma w_new_safe : ml_safe w_ports 1000000 w_new.
Proof. apply (ml_new_safe w_ports 100 300 0 true); [done|lia]. Qed.

Lemma w_ml_safe : ml_safe w_ports 1000000 w_ml.
Proof.
  destruct (ml_step_safe w_ports 1000000 w_new (w_add 3 1 7) w_pos ltac:(lia) w_new_safe)
    as (ml & Hstep & Hsafe).
  assert (w_ml = ml) as ->; [|done]. unfold w_ml, ml_run. by rewrite Hstep.
Qed.

Lemma ml_run_safe_witness :
  ∃ ml, ml_run w_ports w_new
          [w_add 3 1 7; w_add 9 1 8; InTimer; w_add 4 2 9; InMaxEntries 3; InFlush] = Done ml ∧
    ml_safe w_ports (Z.max 100 1000000) ml.
Proof.
  exact (ml_run_safe w_ports 100 300 0 true
    [w_add 3 1 7; w_add 9 1 8; InTimer; w_add 4 2 9; InMaxEntries 3; InFlush] w_pos ltac:(lia)).
Defined.

Lemma lookup_equivalence_witness :
  is_Some (ops_fpa_mac_learning_lookup w_ml (w_msg FPA_EVENT_ADDRESS_UPDATE_AGED_E 3 1 7)) ↔
  is_Some (ops_fpa_mac_learning_lookup_by_vlan_and_mac w_ml 1 [0; 0; 0; 0; 0; 7]).
Proof.
  exact (proj1 (lookup_equivalence w_ml (w_msg FPA_EVENT_ADDRESS_UPDATE_AGED_E 3 1 7)
    (proj2 (proj1 w_ml_safe)))).
Defined.

Lemma learn_correct_witness :
  ∃ err ml', ops_fpa_mac_learning_learn w_ports w_ml
    (w_msg FPA_EVENT_ADDRESS_UPDATE_NEW_E 4 2 9) = Done (err, ml') ∧ ml_inv ml'.
Proof.
  destruct (learn_correct w_ports w_ml (w_msg FPA_EVENT_ADDRESS_UPDATE_NEW_E 4 2 9) w_pos
    (proj1 w_ml_safe)) as (err & ml' & Hl & Hi & _).
  exists err, ml'. exact (conj Hl Hi).
Defined.

Lemma age_correct_witness :
  ∃ ml', ops_fpa_mac_learning_age_by_entry w_ports w_ml
    (w_msg FPA_EVENT_ADDRESS_UPDATE_AGED_E 3 1 7) = Done (None, ml') ∧ ml_inv ml'.
Proof.
  destruct (age_correct w_ports w_ml (w_msg FPA_EVENT_ADDRESS_UPDATE_AGED_E 3 1 7) w_pos
    (proj1 w_ml_safe) (proj1 (proj2 w_ml_safe))) as (ml' & Hl & Hi & _).
  exists ml'. exact (conj Hl Hi).
Defined.

Lemma mlearn_handover_witness :
  handed (ops_fpa_mac_learning_process_mlearn w_ml) = Some (curr_events w_ml).
Proof.
  exact (proj1 (proj2 (proj2 (proj2 (mlearn_handover w_ml w_pos (proj1 (proj1 w_ml_safe))
    ltac:(vm_compute; reflexivity) ltac:(vm_compute; discriminate)))))).
Defined.

(** The VLANs 1 and 2 with addresses ending in 8 and 7 have the same hash here. *)
Lemma mlearn_collision_overwrites_witness :
  let e1 := w_msg FPA_EVENT_ADDRESS_UPDATE_NEW_E 3 1 8 in
  let e2 := w_msg FPA_EVENT_ADDRESS_UPDATE_NEW_E 4 2 7 in
  ∃ m1 m2, mlearn_record w_ports 0 e1 (fpa_hash_fdb_entry e1) MLEARN_ADD mlearn_hmap_new = Done m1 ∧
    mlearn_record w_ports 0 e2 (fpa_hash_fdb_entry e2) MLEARN_ADD m1 = Done m2 ∧
    event_at m2 (fpa_hash_fdb_entry e1) = Some (event_node 0 "port" e2 MLEARN_ADD).
Proof.
  intros e1 e2.
  destruct (mlearn_collision_overwrites (H := WHmap) w_ports 0 e1 e2 MLEARN_ADD MLEARN_ADD mlearn_hmap_new
    "port" "port" (ev_inv_new (Z.lt_le_incl _ _ w_pos)) eq_refl eq_refl eq_refl
    ltac:(vm_compute; reflexivity))
    as (m1 & m2 & H1 & H2 & _ & H3 & _).
  exists m1, m2. exact (conj H1 (conj H2 H3)).
Defined.

Lemma learn_twice_duplicates_witness :
  let data := w_msg FPA_EVENT_ADDRESS_UPDATE_NEW_E 4 2 9 in
  ∃ ml1 ml2 ml3, ops_fpa_mac_learning_learn w_ports w_ml data = Done (None, ml1) ∧
    ops_fpa_mac_learning_learn w_ports ml1 data = Done (None, ml2) ∧
    fdb ml2 ≡ₚ data :: data :: fdb w_ml ∧
    ops_fpa_mac_learning_age_by_entry w_ports ml2 data = Done (None, ml3) ∧
    is_Some (ops_fpa_mac_learning_lookup ml3 data).
Proof.
  intros data.
  exact (learn_twice_duplicates w_ports w_ml data "port" w_pos (proj1 w_ml_safe) eq_refl
    (proj1 (proj2 w_ml_safe)) ltac:(vm_compute; reflexivity)).
Defined.

(** Port 3 is gone when its address ages out. *)
Lemma age_unknown_port_aborts_witness :
  ops_fpa_mac_learning_age_by_entry (λ _, None) w_ml
    (w_msg FPA_EVENT_ADDRESS_UPDATE_AGED_E 3 1 7) = Crash AssertFailed.
Proof.
  exact (age_unknown_port_aborts (λ _, None) w_ml (w_msg FPA_EVENT_ADDRESS_UPDATE_AGED_E 3 1 7)
    (fresh (dom (entries w_new))) (w_msg FPA_EVENT_ADDRESS_UPDATE_NEW_E 3 1 7)
    (proj1 w_ml_safe) ltac:(vm_compute; reflexivity) ltac:(vm_compute; reflexivity)
    ltac:(vm_compute; reflexivity) eq_refl).
Defined.
