(* ===== verification/Show.v ===== *)
(** * Printing the tables of the switch (src/ops-fpa-dev.c, src/ops-fpa-mac-learning.c)

    The commands of the device's control socket and the dump of the MAC table.  They
    build a string with [ds_put_format]; the part of printf they use is an
    interpreter of format strings, so that the format strings below are those of the
    source. *)

From Stdlib Require Import Ascii.
From S2P Require Import Prelude Fpa FpaSim Route Util Hmap MacLearning.

Local Open Scope string_scope.
Local Open Scope list_scope.
Local Open Scope Z_scope.

(** ** printf *)

Inductive printf_arg := PInt (z : Z) | PStr (s : string).

(** A directive between its [%] and its conversion: flags, width, length. *)
Record fspec := { f_left : bool; f_zero : bool; f_width : nat; f_long : bool }.

Definition fspec0 : fspec := {| f_left := false; f_zero := false; f_width := 0; f_long := false |}.

Fixpoint chars (c : ascii) (n : nat) : string :=
  match n with O => EmptyString | S n => String c (chars c n) end.

(** The value a directive reads its argument as: [int] or [long], signed or not. *)
Definition as_signed (w z : Z) : Z := if wrap w z <? 2 ^ (w - 1) then wrap w z else wrap w z - 2 ^ w.
Definition arg_width (sp : fspec) : Z := if f_long sp then 64 else 32.

Definition digit_of (d : Z) : ascii := ascii_of_N (Z.to_N (if d <? 10 then 48 + d else 87 + d)).

(** At most [n] digits of [z] in front of [acc]. *)
Fixpoint digits_go (base : Z) (n : nat) (z : Z) (acc : string) : string :=
  match n with
  | O => acc
  | S n => if z =? 0 then acc
           else digits_go base n (z / base) (String (digit_of (z mod base)) acc)
  end.

(** 20 digits are enough for 64 bits in base 10 and 16. *)
Definition number (base z : Z) : string :=
  if z =? 0 then "0" else digits_go base 20 z EmptyString.

Definition decimal (z : Z) : string :=
  if z <? 0 then "-" +:+ number 10 (- z) else number 10 z.

Definition pad (sp : fspec) (s : string) : string :=
  let fill := (f_width sp - String.length s)%nat in
  if f_left sp then s +:+ chars " " fill
  else chars (if f_zero sp then "0" else " ") fill +:+ s.

Definition conversion (c : ascii) (sp : fspec) (a : printf_arg) : string :=
  match a with
  | PStr s => pad sp s
  | PInt z =>
      if Ascii.eqb c "x" then pad sp (number 16 (wrap (arg_width sp) z))
      else if Ascii.eqb c "u" then pad sp (number 10 (wrap (arg_width sp) z))
      else pad sp (decimal (as_signed (arg_width sp) z))
  end.

(** [None] outside of a directive. *)
Fixpoint format_from (sp : option fspec) (f : string) (args : list printf_arg) : string :=
  match f with
  | EmptyString => EmptyString
  | String c f =>
      match sp with
      | None =>
          if Ascii.eqb c "%" then format_from (Some fspec0) f args
          else String c (format_from None f args)
      | Some sp =>
          if Ascii.eqb c "-" then
            format_from (Some {| f_left := true; f_zero := f_zero sp; f_width := f_width sp;
                                 f_long := f_long sp |}) f args
          else if Ascii.eqb c "0" && (f_width sp =? 0)%nat then
            format_from (Some {| f_left := f_left sp; f_zero := true; f_width := f_width sp;
                                 f_long := f_long sp |}) f args
          else if Ascii.eqb c "l" then
            format_from (Some {| f_left := f_left sp; f_zero := f_zero sp; f_width := f_width sp;
                                 f_long := true |}) f args
          else match digit c with
          | Some d =>
              format_from (Some {| f_left := f_left sp; f_zero := f_zero sp;
                                   f_width := f_width sp * 10 + Z.to_nat d; f_long := f_long sp |})
                f args
          | None =>
              match args with
              | a :: args => conversion c sp a +:+ format_from None f args
              | [] => EmptyString
              end
          end
      end
  end.

Definition printf (f : string) (args : list printf_arg) : string := format_from None f args.

Definition newline : string := String "010" EmptyString.

Definition ETH_ADDR_FMT : string := "%02x:%02x:%02x:%02x:%02x:%02x".

Definition mac_args (m : mac) : list printf_arg := PInt <$> m.

(** [(mask)? 1:0]. *)
Definition flag (z : Z) : printf_arg := PInt (if z =? 0 then 0 else 1).

(** ** Flow tables *)

Definition FPA_FLOW_TABLE_MAX : Z := 9.

Definition opsFpaFlowTablesName : list string :=
  ["CONTROL_PKT"; "VLAN"; "TERMINATION"; "PCL0"; "PCL1"; "PCL2"; "L2_BRIDGING"; "L3_UNICAST"; "EPCL"].

(** The tables by number, in the order of their names. *)
Definition flow_tables : list flow_table :=
  [FPA_FLOW_TABLE_TYPE_CONTROL_PKT_E; FPA_FLOW_TABLE_TYPE_VLAN_E; FPA_FLOW_TABLE_TYPE_TERMINATION_E;
   FPA_FLOW_TABLE_TYPE_PCL0_E; FPA_FLOW_TABLE_TYPE_PCL1_E; FPA_FLOW_TABLE_TYPE_PCL2_E;
   FPA_FLOW_TABLE_TYPE_L2_BRIDGING_E; FPA_FLOW_TABLE_TYPE_L3_UNICAST_E; FPA_FLOW_TABLE_TYPE_EPCL_E].

Definition table_number (t : flow_table) : Z :=
  match t with
  | FPA_FLOW_TABLE_TYPE_CONTROL_PKT_E => 0
  | FPA_FLOW_TABLE_TYPE_VLAN_E => 1
  | FPA_FLOW_TABLE_TYPE_TERMINATION_E => 2
  | FPA_FLOW_TABLE_TYPE_PCL0_E => 3
  | FPA_FLOW_TABLE_TYPE_PCL1_E => 4
  | FPA_FLOW_TABLE_TYPE_PCL2_E => 5
  | FPA_FLOW_TABLE_TYPE_L2_BRIDGING_E => 6
  | FPA_FLOW_TABLE_TYPE_L3_UNICAST_E => 7
  | FPA_FLOW_TABLE_TYPE_EPCL_E => 8
  end.

(** Reading an element of a static array. *)
Definition array_get {A} (a : list A) (i : Z) : outcome A :=
  if 0 <=? i then match a !! Z.to_nat i with Some x => Done x | None => Crash Undefined end
  else Crash Undefined.

Definition ops_fpa_dev_unixctl_print_mac_address (m : mac) : string := printf ETH_ADDR_FMT (mac_args m).

(** Three lines: a rule of [n] dashes, the columns, the rule again. *)
Definition table_title (n : nat) (columns : string) : string :=
  chars "-" n +:+ newline +:+ columns +:+ newline +:+ chars "-" n +:+ newline.

Definition table_columns (t : flow_table) : string :=
  match t with
  | FPA_FLOW_TABLE_TYPE_CONTROL_PKT_E =>
      table_title 153
        "|      cookie     |   prio  |    time    | hard |   flags    |type| port/m | vlan/m|     destMac/m       | ethT/m |ipPrt/m |icmp/m|L4Prt/m|ctrl|clr|goto|"
  | FPA_FLOW_TABLE_TYPE_VLAN_E =>
      table_title 105
        "|     cookie      | prio |    time    | hard |   flags    | port | vlan |  mask  | pvid  |  pcp  | goto |"
  | FPA_FLOW_TABLE_TYPE_TERMINATION_E =>
      table_title 145
        "|      cookie     | prio |    time    | hard |   flags    | port/m | vlan/m |   eth/m  |   mac address    |    mac mask      | metadat/m | goto |"
  | FPA_FLOW_TABLE_TYPE_L2_BRIDGING_E =>
      table_title 119
        "|      cookie     | prio |    time    | hard |   flags    | vlan/m | mac address / mask  | cntrl| grp(HEX) |clr| goto |"
  | FPA_FLOW_TABLE_TYPE_PCL0_E | FPA_FLOW_TABLE_TYPE_PCL1_E | FPA_FLOW_TABLE_TYPE_PCL2_E =>
      table_title 213
        "|     cookie      |prio |  time   |hard|  flags    |port/m|  eth/m |vlan/m |src mac addr /mask  |dst mac addr /mask  |up/m|    src ip /m    |    dst ip /m    ||actn|ctrl| grp(HEX) |metr|qu|up|dscp|clr|hwIdx |goto|"
  | FPA_FLOW_TABLE_TYPE_EPCL_E =>
      table_title 196
        "|     cookie      |prio |  time   |hard|  flags    |port/m|  eth/m |vlan/m |src mac addr /mask  |dst mac addr /mask  |up/m|    src ip /m    |    dst ip /m    ||actn|metr| vlan |up|dscp|clr|hwIdx |"
  | FPA_FLOW_TABLE_TYPE_L3_UNICAST_E =>
      table_title 115
        "|     cookie      | prio |    time    | hard |   flags    | vrId |      ipAddr/m     | cntrl| grp(HEX) |clr| goto |"
  end.

Definition ops_fpa_dev_unixctl_print_table_title (flowTableNo : Z) : outcome string :=
  let* name := array_get opsFpaFlowTablesName flowTableNo in
  let title := "Flow table: " +:+ name +:+ newline in
  Done (title +:+
    match flow_tables !! Z.to_nat flowTableNo with
    | Some t => table_columns t
    | None => printf "table type %d: to output information not implemented yet" [PInt flowTableNo]
                +:+ newline
    end).

Section show.
Context {F : FPA_SDK}.

(** The column that marks entries whose frames go to the controller. *)
Definition to_controller (port : Z) : printf_arg :=
  PStr (if port =? FPA_OUTPUT_CONTROLLER then "+" else " ").

Definition ops_fpa_dev_unixctl_print_table_entry (flowEntry : FPA_FLOW_TABLE_ENTRY_STC) : string :=
  match entryType flowEntry with
  | FPA_FLOW_TABLE_TYPE_CONTROL_PKT_E =>
      let d := data_control_pkt flowEntry in
      printf "|%16llx |%8x | %10d | %4d | 0x%08x | %2d | %4d/%d | %4d/%d |"
        [PInt (cookie flowEntry); PInt (priority flowEntry); PInt (timeoutIdleTime flowEntry);
         PInt (timeoutHardTime flowEntry); PInt (flowModFlags flowEntry);
         PInt (table_number (entryType flowEntry));
         PInt (cp_inPort d); flag (cp_inPortMask d); PInt (cp_vlanId d); flag (cp_vlanIdMask d)] +:+
      ops_fpa_dev_unixctl_print_mac_address (cp_dstMac d) +:+
      printf "/%d | %4x/%d |%4x/%d |%4x/%d |%4x/%d |  %s |%2d |%2d |"
        [flag (default 0 (head (cp_dstMacMask d))); PInt (cp_etherType d); flag (cp_etherTypeMask d);
         PInt (cp_ipProtocol d); flag (cp_ipProtocolMask d); PInt (cp_icmpV6Type d);
         flag (cp_icmpV6TypeMask d); PInt (cp_dstL4Port d); flag (cp_dstL4PortMask d);
         to_controller (cp_outputPort d); PInt (cp_clearActions d); PInt (cp_gotoTableNo d)] +:+ newline
  | FPA_FLOW_TABLE_TYPE_VLAN_E =>
      let d := data_vlan flowEntry in
      printf "|%16llx | %4d | %10d | %4d | 0x%08x | %4d | %4d | 0x%04x | %5d | %5d | %4d |"
        [PInt (cookie flowEntry); PInt (priority flowEntry); PInt (timeoutIdleTime flowEntry);
         PInt (timeoutHardTime flowEntry); PInt (flowModFlags flowEntry);
         PInt (vl_inPort d); PInt (vl_vlanId d); PInt (vl_vlanIdMask d); PInt (vl_newTagVid d);
         PInt (vl_newTagPcp d); PInt (vl_gotoTableNo d)] +:+ newline
  | FPA_FLOW_TABLE_TYPE_TERMINATION_E =>
      let d := data_termination flowEntry in
      printf "|%16llx | %4d | %10d | %4d | 0x%08x | %4d/%d | %4d/%d | 0x%04x/%d |"
        [PInt (cookie flowEntry); PInt (priority flowEntry); PInt (timeoutIdleTime flowEntry);
         PInt (timeoutHardTime flowEntry); PInt (flowModFlags flowEntry);
         PInt (tm_inPort d); flag (tm_inPortMask d); PInt (tm_vlanId d); flag (tm_vlanIdMask d);
         PInt (tm_etherType d); flag (tm_etherTypeMask d)] +:+
      ops_fpa_dev_unixctl_print_mac_address (tm_destMac d) +:+ " |" +:+
      ops_fpa_dev_unixctl_print_mac_address (tm_destMacMask d) +:+
      printf " | %4lld/%4lld | %4d |"
        [PInt (tm_metadataValue d); PInt (tm_metadataMask d); PInt (tm_gotoTableNo d)] +:+ newline
  | FPA_FLOW_TABLE_TYPE_L2_BRIDGING_E =>
      let d := data_l2_bridging flowEntry in
      printf "|%16llx | %4d | %10d | %4d | 0x%08x | %4d/%d | "
        [PInt (cookie flowEntry); PInt (priority flowEntry); PInt (timeoutIdleTime flowEntry);
         PInt (timeoutHardTime flowEntry); PInt (flowModFlags flowEntry);
         PInt (l2_vlanId d); flag (l2_vlanIdMask d)] +:+
      ops_fpa_dev_unixctl_print_mac_address (l2_destMac d) +:+
      printf "/%d |   %s  | %8x | %d | %4d |"
        [flag (default 0 (head (l2_destMacMask d))); to_controller (l2_outputPort d);
         PInt (l2_groupId d); PInt (l2_clearActions d); PInt (l2_gotoTableNo d)] +:+ newline
  | FPA_FLOW_TABLE_TYPE_L3_UNICAST_E =>
      let d := data_l3_unicast flowEntry in
      printf "|%16llx | %4d | %10d | %4d | 0x%08x | %4d |%15s/%2d |  %s   | %8x | %d | %4d |"
        [PInt (cookie flowEntry); PInt (priority flowEntry); PInt (timeoutIdleTime flowEntry);
         PInt (timeoutHardTime flowEntry); PInt (flowModFlags flowEntry);
         PInt (l3_vrfId d); PStr (ops_fpa_ip2str (l3_dstIp4 d));
         PInt (ops_fpa_ip4mask_to_prefix_len (l3_dstIp4Mask d)); to_controller (l3_outputPort d);
         PInt (l3_groupId d); PInt (l3_clearActions d); PInt (l3_gotoTableNo d)] +:+ newline
  | t => printf "entry type %d: to output information not implemented yet" [PInt (table_number t)]
           +:+ newline
  end.

(** ** The commands *)

Inductive reply := Reply (s : string) | ReplyError (s : string).

(** The lines of the tables from number [table] on. *)
Fixpoint flow_table_list (table : Z) (names : list string) : string :=
  match names with
  | [] => EmptyString
  | name :: names =>
      printf "  flowTableNo: %d; name: %s" [PInt table; PStr name] +:+ newline +:+
      flow_table_list (table + 1) names
  end.

Definition ops_fpa_dev_unixctl_flow_table_list : reply :=
  Reply ("Flow table list:" +:+ newline +:+ flow_table_list 0 opsFpaFlowTablesName).

(** The loop over the entries; [i] is 1 for the first call and 0 for the others. *)
Fixpoint flow_table_show_loop (fuel : nat) (sid : Z) (t : flow_table) (i : Z) (h : hw) :
    outcome (string * hw) :=
  match fuel with
  | O => OutOfFuel
  | S fuel =>
      let '(err, entry, h) := fpaLibFlowTableGetNext sid t i h in
      if failed err then Done (EmptyString, h) else
      let* (rest, h) := flow_table_show_loop fuel sid t 0 h in
      Done (ops_fpa_dev_unixctl_print_table_entry entry +:+ rest, h)
  end.

(** [argv1] and [argv2] are the arguments; a table number below 0 passes the test. *)
Definition ops_fpa_dev_unixctl_flow_table_show (fuel : nat) (argv1 argv2 : string) (h : hw) :
    outcome (reply * hw) :=
  let '(bad, sid) := ops_fpa_str2int (Some argv1) 0 in
  if bad then Done (ReplyError "invalid args", h) else
  let '(bad, tid) := ops_fpa_str2int (Some argv2) 0 in
  if bad || (FPA_FLOW_TABLE_MAX <=? tid) then Done (ReplyError "invalid args", h) else
  let* title := ops_fpa_dev_unixctl_print_table_title (u32 tid) in
  let* t := array_get flow_tables tid in
  let* (lines, h) := flow_table_show_loop fuel sid t 1 h in
  Done (Reply (title +:+ lines), h).

Definition ops_fpa_dev_unixctl_group_table_show : reply :=
  Reply ("See group tables in switchd log file" +:+ newline).
End show.

(** ** The MAC table *)

Section dump.
Context {H : HMAP} {E : ML_ENV}.

Definition mac_line (e : FPA_EVENT_ADDRESS_MSG_STC) (hash : Z) : string :=
  let iface_name := String.substring 0 (PORT_NAME_SIZE - 1) (printf "%u" [PInt (portNum e)]) in
  printf "%-8s %4d  " [PStr iface_name; PInt (vid e)] +:+
  printf ETH_ADDR_FMT (mac_args (address e)) +:+ printf "  0x%lx" [PInt hash] +:+ newline.

Fixpoint dump_nodes (ml : fpa_mac_learning) (ns : list (Z * Z)) : outcome string :=
  match ns with
  | [] => Done EmptyString
  | (p, hash) :: ns =>
      match entries ml !! p with
      | None => Crash Undefined
      | Some e => let* rest := dump_nodes ml ns in Done (mac_line e hash +:+ rest)
      end
  end.

Definition ops_fpa_mac_learning_dump_table (ml : fpa_mac_learning) : outcome string :=
  let* lines := dump_nodes ml (hmap_nodes (table ml)) in
  Done (" port    VLAN  MAC                index" +:+ newline +:+ lines).
End dump.
(** ** Numbers in strings *)

Definition digit_value (c : ascii) : Z :=
  if Z.of_N (N_of_ascii c) <? 58 then Z.of_N (N_of_ascii c) - 48 else Z.of_N (N_of_ascii c) - 87.

(** Reads the digits of a string; spaces in front count as zeros. *)
Fixpoint read_number (base acc : Z) (s : string) : Z :=
  match s with
  | EmptyString => acc
  | String c s => read_number base (if Ascii.eqb c " " then acc else acc * base + digit_value c) s
  end.

Lemma digit_of_cases d :
  0 ≤ d < 16 → digit_value (digit_of d) = d ∧ digit_of d ≠ " "%char ∧ digit_of d ≠ "|"%char.
Proof.
  intros Hd. assert (d ∈ seqZ 0 16) as Hin by (apply elem_of_seqZ; lia).
  repeat (apply elem_of_cons in Hin as [->|Hin]; [vm_compute; split_and!; done|]).
  by apply not_elem_of_nil in Hin.
Qed.

Lemma read_number_app base acc s t :
  read_number base acc (s +:+ t) = read_number base (read_number base acc s) t.
Proof. revert acc. induction s as [|c s IH]; intros acc; simpl; [done|]. apply IH. Qed.

(** Digits in front of [acc] add their value, scaled by the place of [acc]. *)
Lemma read_digits base n z t :
  2 ≤ base ≤ 16 → 0 ≤ z < base ^ Z.of_nat n →
  ∃ k, 0 ≤ k ∧ (∀ a, read_number base a (digits_go base n z t) =
    read_number base (a * base ^ k + z) t) ∧ (z = 0 ∨ 0 < k).
Proof.
  intros Hb. revert z t. induction n as [|n IH]; intros z t Hz; simpl.
  { rewrite Z.pow_0_r in Hz. exists 0. split_and!; [lia| |lia]. intros a.
    rewrite Z.pow_0_r. f_equal. lia. }
  destruct (Z.eqb_spec z 0) as [->|Hne].
  { exists 0. split_and!; [lia| |by left]. intros a. rewrite Z.pow_0_r. f_equal. lia. }
  rewrite Nat2Z.inj_succ, Z.pow_succ_r in Hz by lia.
  destruct (IH (z / base) (String (digit_of (z mod base)) t)) as (k & Hk & Hread & _).
  { split; [apply Z.div_pos; lia|]. apply Z.div_lt_upper_bound; lia. }
  exists (k + 1). split_and!; [lia| |lia]. intros a. rewrite Hread. simpl.
  destruct (digit_of_cases (z mod base)) as (-> & Hsp & _); [pose proof (Z.mod_pos_bound z base); lia|].
  destruct (Ascii.eqb_spec (digit_of (z mod base)) " "); [done|]. f_equal.
  rewrite Z.pow_add_r, Z.pow_1_r by lia. pose proof (Z.div_mod z base). lia.
Qed.

Lemma read_number_number base z :
  2 ≤ base ≤ 16 → 0 ≤ z < base ^ 20 → read_number base 0 (number base z) = z.
Proof.
  intros Hb Hz. unfold number. destruct (Z.eqb_spec z 0) as [->|Hne]; [done|].
  destruct (read_digits base 20 z EmptyString Hb Hz) as (k & _ & Hread & _).
  rewrite Hread. simpl. lia.
Qed.

Lemma read_chars base acc c n :
  c = " "%char ∨ c = "0"%char → acc = 0 → read_number base acc (chars c n) = 0.
Proof.
  intros Hc ->. induction n as [|n IH]; simpl; [done|].
  destruct Hc as [-> | ->]; simpl; [done|]. by rewrite Z.mul_0_l.
Qed.

Lemma read_pad base sp s :
  f_left sp = false → read_number base 0 (pad sp s) = read_number base 0 s.
Proof.
  intros Hl. unfold pad. rewrite Hl, read_number_app. rewrite read_chars; [done| |done].
  destruct (f_zero sp); auto.
Qed.

(** Numbers have no column separator in them. *)
Lemma lacks_chars c d n : d ≠ c → lacks c (chars d n) = true.
Proof. intros Hd. induction n; simpl; [done|]. by rewrite bool_decide_eq_false_2. Qed.

Lemma lacks_digits base n z t :
  2 ≤ base ≤ 16 → lacks "|" t = true → lacks "|" (digits_go base n z t) = true.
Proof.
  intros Hb. revert z t. induction n as [|n IH]; intros z t Ht; simpl; [done|].
  destruct (z =? 0); [done|]. apply IH. simpl. rewrite Ht.
  destruct (digit_of_cases (z mod base)) as (_ & _ & Hbar).
  { pose proof (Z.mod_pos_bound z base). lia. }
  by rewrite bool_decide_eq_false_2.
Qed.

Lemma lacks_number base z : 2 ≤ base ≤ 16 → lacks "|" (number base z) = true.
Proof. intros Hb. unfold number. destruct (z =? 0); [done|]. by apply lacks_digits. Qed.

Lemma lacks_pad sp s : lacks "|" s = true → lacks "|" (pad sp s) = true.
Proof.
  intros Hs. unfold pad. destruct (f_left sp); rewrite lacks_app, Hs, lacks_chars; try done.
  by destruct (f_zero sp).
Qed.

(** A right-justified number is read back from its column. *)
Lemma column_inj base sp z z' :
  2 ≤ base ≤ 16 → f_left sp = false → 0 ≤ z < base ^ 20 → 0 ≤ z' < base ^ 20 →
  pad sp (number base z) = pad sp (number base z') → z = z'.
Proof.
  intros Hb Hl Hz Hz' Heq. apply (f_equal (read_number base 0)) in Heq.
  by rewrite !read_pad, !read_number_number in Heq.
Qed.

Lemma string_app_assoc (s t u : string) : (s +:+ t) +:+ u = s +:+ (t +:+ u).
Proof.
  induction s as [|c s IH]; [done|].
  change (String c ((s +:+ t) +:+ u) = String c (s +:+ (t +:+ u))). by rewrite IH.
Qed.

Lemma string_length_app (s t : string) :
  String.length (s +:+ t) = (String.length s + String.length t)%nat.
Proof.
  induction s as [|c s IH]; [done|].
  change (S (String.length (s +:+ t)) = (S (String.length s) + String.length t)%nat). by rewrite IH.
Qed.

Lemma append_inj_r (s s' t : string) : s +:+ t = s' +:+ t → s = s'.
Proof.
  intros Heq. assert (String.length s = String.length s') as Hlen.
  { apply (f_equal String.length) in Heq. rewrite !string_length_app in Heq. lia. }
  revert s' Heq Hlen. induction s as [|c s IH]; intros [|c' s'] Heq Hlen; try done.
  change (String c (s +:+ t) = String c' (s' +:+ t)) in Heq. injection Heq as -> Heq.
  f_equal. apply IH; [done|]. simpl in Hlen. lia.
Qed.

(** Two columns, each followed by a space and the separator. *)
Lemma column_split s s' t t' :
  lacks "|" s = true → lacks "|" s' = true →
  s +:+ String " " (String "|" t) = s' +:+ String " " (String "|" t') → s = s' ∧ t = t'.
Proof.
  intros Hs Hs' Heq.
  assert (∀ s t, lacks "|" s = true →
    cut_at "|" (s +:+ String " " (String "|" t)) = (s +:+ " ", Some t)) as Hcut.
  { intros u v Hu. replace (u +:+ String " " (String "|" v)) with ((u +:+ " ") +:+ String "|" v)
      by (apply string_app_assoc). apply cut_at_app. by rewrite lacks_app, Hu. }
  apply (f_equal (cut_at "|")) in Heq. rewrite !Hcut in Heq by done.
  injection Heq as Hst ->. split; [|done]. by apply append_inj_r in Hst.
Qed.

(** Cells, each followed by a space and the separator. *)
Definition columns (cells : list string) : string :=
  foldr (λ s t, s +:+ String " " (String "|" t)) EmptyString cells.

Lemma columns_inj cs cs' :
  Forall (λ s, lacks "|" s = true) cs → Forall (λ s, lacks "|" s = true) cs' →
  length cs = length cs' → columns cs = columns cs' → cs = cs'.
Proof.
  revert cs'. induction cs as [|s cs IH]; intros [|s' cs'] Hl Hl' Hlen Heq; try done.
  apply Forall_cons in Hl as [Hs Hl], Hl' as [Hs' Hl']. simpl in Hlen, Heq.
  apply column_split in Heq as [-> Heq]; [|done..]. f_equal. apply IH; try done. lia.
Qed.

(** ** What the commands print *)

Section show_properties.
Context {F : FPA_SDK}.

(** The fields of a VLAN entry fit the types they are printed as. *)
Definition vlan_entry_ok (e : FPA_FLOW_TABLE_ENTRY_STC) : Prop :=
  entryType e = FPA_FLOW_TABLE_TYPE_VLAN_E ∧ 0 ≤ cookie e < 2 ^ 64 ∧ 0 ≤ priority e < 2 ^ 31 ∧
  0 ≤ timeoutIdleTime e < 2 ^ 31 ∧ 0 ≤ timeoutHardTime e < 2 ^ 31 ∧ 0 ≤ flowModFlags e < 2 ^ 32 ∧
  0 ≤ vl_inPort (data_vlan e) < 2 ^ 31 ∧ 0 ≤ vl_vlanId (data_vlan e) < 2 ^ 31 ∧
  0 ≤ vl_vlanIdMask (data_vlan e) < 2 ^ 32 ∧ 0 ≤ vl_newTagVid (data_vlan e) < 2 ^ 31 ∧
  0 ≤ vl_newTagPcp (data_vlan e) < 2 ^ 31 ∧ 0 ≤ vl_gotoTableNo (data_vlan e) < 2 ^ 31.

Lemma decimal_signed z : 0 ≤ z < 2 ^ 31 → decimal (as_signed 32 z) = number 10 z.
Proof.
  intros Hz. unfold as_signed, decimal. rewrite (wrap_small 32 z) by lia.
  change (32 - 1) with 31. rewrite (proj2 (Z.ltb_lt z (2 ^ 31))) by lia.
  by rewrite (proj2 (Z.ltb_ge z 0)) by lia.
Qed.

Definition col (zero : bool) (w : nat) (long : bool) (base z : Z) : string :=
  pad {| f_left := false; f_zero := zero; f_width := w; f_long := long |} (number base z).

Definition dec_col (w : nat) (z : Z) : string :=
  pad {| f_left := false; f_zero := false; f_width := w; f_long := false |} (decimal (as_signed 32 z)).

(** The format string of a VLAN line, interpreted. *)
Lemma vlan_format a1 a2 a3 a4 a5 a6 a7 a8 a9 a10 a11 :
  printf "|%16llx | %4d | %10d | %4d | 0x%08x | %4d | %4d | 0x%04x | %5d | %5d | %4d |"
    [PInt a1; PInt a2; PInt a3; PInt a4; PInt a5; PInt a6; PInt a7; PInt a8; PInt a9; PInt a10;
     PInt a11] =
    String "|" (columns [col false 16 true 16 (wrap 64 a1); " " +:+ dec_col 4 a2;
      " " +:+ dec_col 10 a3; " " +:+ dec_col 4 a4; " 0x" +:+ col true 8 false 16 (wrap 32 a5);
      " " +:+ dec_col 4 a6; " " +:+ dec_col 4 a7; " 0x" +:+ col true 4 false 16 (wrap 32 a8);
      " " +:+ dec_col 5 a9; " " +:+ dec_col 5 a10; " " +:+ dec_col 4 a11]).
Proof. reflexivity. Qed.

Definition vlan_cells (e : FPA_FLOW_TABLE_ENTRY_STC) : list string :=
  let d := data_vlan e in
  [col false 16 true 16 (cookie e); " " +:+ col false 4 false 10 (priority e);
   " " +:+ col false 10 false 10 (timeoutIdleTime e);
   " " +:+ col false 4 false 10 (timeoutHardTime e);
   " 0x" +:+ col true 8 false 16 (flowModFlags e); " " +:+ col false 4 false 10 (vl_inPort d);
   " " +:+ col false 4 false 10 (vl_vlanId d); " 0x" +:+ col true 4 false 16 (vl_vlanIdMask d);
   " " +:+ col false 5 false 10 (vl_newTagVid d); " " +:+ col false 5 false 10 (vl_newTagPcp d);
   " " +:+ col false 4 false 10 (vl_gotoTableNo d)].

Lemma vlan_line e :
  vlan_entry_ok e →
  ops_fpa_dev_unixctl_print_table_entry e = String "|" (columns (vlan_cells e)) +:+ newline.
Proof.
  intros (Ht & Hc & Hp & Hi & Hh & Hf & H1 & H2 & H3 & H4 & H5 & H6).
  unfold ops_fpa_dev_unixctl_print_table_entry, vlan_cells, dec_col. rewrite Ht, vlan_format.
  unfold dec_col. rewrite !decimal_signed by done. by rewrite !wrap_small by done.
Qed.

Lemma lacks_cell p zero w long base z :
  2 ≤ base ≤ 16 → lacks "|" p = true → lacks "|" (p +:+ col zero w long base z) = true.
Proof. intros Hb Hp. rewrite lacks_app, Hp. by apply lacks_pad, lacks_number. Qed.

Lemma vlan_cells_lack e : Forall (λ s, lacks "|" s = true) (vlan_cells e).
Proof.
  unfold vlan_cells. constructor; [by apply lacks_pad, lacks_number|].
  repeat (constructor; [by apply lacks_cell|]). constructor.
Qed.

Lemma append_inj_l (p s t : string) : p +:+ s = p +:+ t → s = t.
Proof.
  induction p as [|c p IH]; [done|]. intros Heq. apply IH.
  change (String c (p +:+ s) = String c (p +:+ t)) in Heq. by injection Heq.
Qed.

(** The line printed for a VLAN entry determines the entry: two VLAN entries
    with the same line have the same cookie, priority, timeouts, flags and match. *)
Theorem vlan_lines_faithful e e' :
  vlan_entry_ok e → vlan_entry_ok e' →
  ops_fpa_dev_unixctl_print_table_entry e = ops_fpa_dev_unixctl_print_table_entry e' →
  cookie e = cookie e' ∧ priority e = priority e' ∧ timeoutIdleTime e = timeoutIdleTime e' ∧
  timeoutHardTime e = timeoutHardTime e' ∧ flowModFlags e = flowModFlags e' ∧
  data_vlan e = data_vlan e'.
Proof.
  intros He He'. rewrite !vlan_line by done. intros Heq%append_inj_r.
  apply (append_inj_l "|" (columns (vlan_cells e)) (columns (vlan_cells e'))) in Heq.
  apply (columns_inj (vlan_cells e) (vlan_cells e')) in Heq as Hcols; [|apply vlan_cells_lack..|done].
  unfold vlan_cells, col in Hcols. injection Hcols as C1 C2 C3 C4 C5 C6 C7 C8 C9 C10 C11.
  repeat match goal with H : _ +:+ _ = _ +:+ _ |- _ => apply append_inj_l in H end.
  destruct He as (_ & ? & ? & ? & ? & ? & ? & ? & ? & ? & ? & ?),
    He' as (_ & ? & ? & ? & ? & ? & ? & ? & ? & ? & ? & ?).
  repeat match goal with H : pad _ _ = pad _ _ |- _ => apply column_inj in H; [|done||lia..] end.
  split_and!; try done. destruct (data_vlan e), (data_vlan e'). simpl in *. by subst.
Qed.

(** ** The commands print the tables *)

Definition concat_lines (ls : list string) : string := foldr (λ s t, s +:+ t) EmptyString ls.

Context {O : FPA_OBS F} `{!FPA_LAWS F O}.

(** From position [pos] of the table on; enough fuel is one more than the entries left. *)
Lemma show_loop_ok fuel sid t i h pos :
  pos = (if decide (i = 1) then 0%nat else flow_cursor h) →
  (length (flows h sid t) < fuel + pos)%nat → (pos ≤ length (flows h sid t))%nat →
  ∃ h', flow_table_show_loop fuel sid t i h =
      Done (concat_lines (ops_fpa_dev_unixctl_print_table_entry <$> drop pos (flows h sid t)), h') ∧
    hw_same h h'.
Proof.
  revert i h pos. induction fuel as [|fuel IH]; intros i h pos Hpos Hfuel Hle; [lia|]. simpl.
  destruct (fpaLibFlowTableGetNext sid t i h) as [[err e] h1] eqn:Hget.
  apply flow_get_next in Hget as [Hsame Hpos']. cbv zeta in Hpos'.
  rewrite <- Hpos in Hpos'.
  destruct (flows h sid t !! pos) as [e'|] eqn:He.
  - destruct Hpos' as (-> & -> & Hcur). simpl.
    assert (pos < length (flows h sid t))%nat by by eapply lookup_lt_Some.
    destruct (IH 0 h1 (S pos)) as (h2 & -> & Hsame2);
      [by rewrite Hcur|rewrite (hw_same_flows _ _ _ _ Hsame); lia..|].
    simpl. exists h2. split; [|by etrans]. rewrite (drop_S _ _ _ He). simpl.
    by rewrite (hw_same_flows _ _ _ _ Hsame).
  - exists h1. destruct (failed err) eqn:Herr; [|by apply failed_false in Herr].
    split; [|done]. rewrite drop_ge; [done|]. by apply lookup_ge_None.
Qed.

(** C35: The command that shows a flow table, on all arguments: what is not a number
    or a table number above the last is refused; a table is printed as its title and
    one line for each of its entries in order, the switch unchanged; a negative table
    number is not refused and reads outside the array of names. *)
Theorem flow_table_show_correct fuel argv1 argv2 h :
  let '(bad1, sid) := ops_fpa_str2int (Some argv1) 0 in
  let '(bad2, tid) := ops_fpa_str2int (Some argv2) 0 in
  let show := ops_fpa_dev_unixctl_flow_table_show fuel argv1 argv2 h in
  if bad1 || bad2 || (FPA_FLOW_TABLE_MAX <=? tid) then show = Done (ReplyError "invalid args", h)
  else if tid <? 0 then show = Crash Undefined
  else ∃ t name, flow_tables !! Z.to_nat tid = Some t ∧
    opsFpaFlowTablesName !! Z.to_nat tid = Some name ∧
    ((length (flows h sid t) < fuel)%nat → ∃ h', show =
      Done (Reply (("Flow table: " +:+ name +:+ newline +:+ table_columns t) +:+
        concat_lines (ops_fpa_dev_unixctl_print_table_entry <$> flows h sid t)), h') ∧ hw_same h h').
Proof.
  unfold ops_fpa_dev_unixctl_flow_table_show.
  pose proof (proj1 (proj2 (str2int_spec argv2 0))) as Hrange.
  destruct (ops_fpa_str2int (Some argv1) 0) as [bad1 sid].
  destruct (ops_fpa_str2int (Some argv2) 0) as [bad2 tid].
  destruct bad1; [done|]. destruct bad2; simpl; [done|].
  destruct (proj2 (Hrange tid) eq_refl) as [_ Hr].
  destruct (Z.leb_spec FPA_FLOW_TABLE_MAX tid) as [|Hlt]; [done|].
  unfold FPA_FLOW_TABLE_MAX in Hlt. unfold ops_fpa_dev_unixctl_print_table_title, array_get.
  destruct (Z.ltb_spec tid 0) as [Hneg|Hpos].
  - assert (u32 tid = tid + 2 ^ 32) as ->.
    { unfold u32, wrap. symmetry. apply (Z.mod_unique _ _ (-1)); unfold INT_MIN, INT_MAX in *; lia. }
    rewrite (proj2 (Z.leb_le 0 _)) by (unfold INT_MIN in *; lia).
    rewrite (lookup_ge_None_2 opsFpaFlowTablesName); [done|]. simpl. unfold INT_MIN in *. lia.
  - assert (u32 tid = tid) as -> by (apply wrap_small; lia).
    rewrite (proj2 (Z.leb_le 0 tid)) by lia.
    destruct (lookup_lt_is_Some_2 flow_tables (Z.to_nat tid)) as [t Ht]; [simpl; lia|].
    destruct (lookup_lt_is_Some_2 opsFpaFlowTablesName (Z.to_nat tid)) as [name Hname]; [simpl; lia|].
    exists t, name. rewrite Ht, Hname. split_and!; [done..|]. intros Hfuel. simpl.
    destruct (show_loop_ok fuel sid t 1 h 0) as (h' & -> & Hsame); [done|lia|lia|].
    simpl. exists h'. split; [|done]. by rewrite !string_app_assoc.
Qed.
End show_properties.

Section dump_properties.
Context {H : HMAP} {E : ML_ENV} `{!HMAP_LAWS H}.

(** The dump of a well-formed MAC table is its header and one line for each
    learned address, with the hash it is filed under, and never follows a stale
    pointer. *)
Theorem dump_table_lists_fdb ml :
  table_inv ml →
  ops_fpa_mac_learning_dump_table ml =
    Done (" port    VLAN  MAC                index" +:+ newline +:+
      concat_lines ((λ e, mac_line e (fpa_hash_fdb_entry e)) <$> fdb ml)).
Proof.
  intros [_ Hin]. unfold ops_fpa_mac_learning_dump_table, fdb.
  assert (dump_nodes ml (hmap_nodes (table ml)) = Done (concat_lines
    ((λ e, mac_line e (fpa_hash_fdb_entry e)) <$> omap (λ n, entries ml !! n.1) (hmap_nodes (table ml)))))
    as ->; [|done].
  induction (hmap_nodes (table ml)) as [|[p h] ns IH]; [done|]. simpl.
  destruct (Hin p h) as (e & -> & ->); [by left|]. simpl.
  rewrite IH by (intros; apply Hin; by right). done.
Qed.
End dump_properties.

(** ** Witnesses *)

#[local] Instance ShowEnv : ML_ENV := {|
  BUFFER_SIZE := 4; PORT_NAME_SIZE := 16;
  hash_bytes bs basis := foldl Z.add basis bs
|}.
#[local] Instance ShowHmap : HMAP := ListHmap 16.
#[local] Instance ShowHmapLaws : HMAP_LAWS ShowHmap := ListHmapLaws 16.

(** A VLAN entry; what is not part of it does not show. *)
Definition w_vlan_entry (other : FPA_FLOW_TABLE_ENTRY_STC) : FPA_FLOW_TABLE_ENTRY_STC :=
  {| cookie := 3; priority := 0; timeoutIdleTime := 0; timeoutHardTime := 0; flowModFlags := 0;
     entryType := FPA_FLOW_TABLE_TYPE_VLAN_E; data_control_pkt := data_control_pkt other;
     data_vlan := {| vl_inPort := 3; vl_vlanId := 10; vl_vlanIdMask := 4096; vl_newTagVid := 10;
                     vl_newTagPcp := 0; vl_gotoTableNo := 2 |};
     data_termination := data_termination other; data_l2_bridging := data_l2_bridging other;
     data_l3_unicast := data_l3_unicast other |}.

Lemma w_vlan_entry_ok other : vlan_entry_ok (w_vlan_entry other).
Proof. unfold vlan_entry_ok. simpl. split_and!; done || lia. Qed.

Lemma vlan_lines_faithful_witness :
  ops_fpa_dev_unixctl_print_table_entry (F := SimFpa no_faults)
    (w_vlan_entry (sim_entry FPA_FLOW_TABLE_TYPE_VLAN_E)) =
    "|               3 |    0 |          0 |    0 | 0x00000000 |    3 |   10 | 0x1000 |    10 |     0 |    2 |"
      +:+ newline ∧
  data_vlan (w_vlan_entry (sim_entry FPA_FLOW_TABLE_TYPE_VLAN_E)) =
    data_vlan (w_vlan_entry (sim_entry FPA_FLOW_TABLE_TYPE_TERMINATION_E)).
Proof.
  split; [vm_compute; reflexivity|].
  apply (vlan_lines_faithful (F := SimFpa no_faults)
    (w_vlan_entry (sim_entry FPA_FLOW_TABLE_TYPE_VLAN_E))
    (w_vlan_entry (sim_entry FPA_FLOW_TABLE_TYPE_TERMINATION_E)));
    [apply w_vlan_entry_ok|apply w_vlan_entry_ok|vm_compute; reflexivity].
Defined.

(** A switch with that entry in its VLAN table, which is table 1. *)
Definition w_switch : @hw (SimFpa no_faults) :=
  (fpaLibFlowEntryAdd (FPA_SDK := SimFpa no_faults) 0 FPA_FLOW_TABLE_TYPE_VLAN_E
     (w_vlan_entry (sim_entry FPA_FLOW_TABLE_TYPE_VLAN_E)) sim_empty).2.

Lemma flow_table_show_correct_witness :
  ∃ h', ops_fpa_dev_unixctl_flow_table_show (F := SimFpa no_faults) 2 "0" "1" w_switch =
      Done (Reply (("Flow table: " +:+ "VLAN" +:+ newline +:+ table_columns FPA_FLOW_TABLE_TYPE_VLAN_E)
        +:+ concat_lines (ops_fpa_dev_unixctl_print_table_entry (F := SimFpa no_faults) <$>
              flows w_switch 0 FPA_FLOW_TABLE_TYPE_VLAN_E)), h') ∧ hw_same w_switch h'.
Proof.
  pose proof (flow_table_show_correct (F := SimFpa no_faults) 2 "0" "1" w_switch) as Hshow.
  change (ops_fpa_str2int (Some "0") 0) with (false, 0) in Hshow.
  change (ops_fpa_str2int (Some "1") 0) with (false, 1) in Hshow.
  cbn beta iota zeta delta [orb Z.leb Z.ltb Z.compare FPA_FLOW_TABLE_MAX Pos.compare] in Hshow.
  destruct Hshow as (t & name & Ht & Hname & Hshow).
  injection Ht as <-. injection Hname as <-. apply Hshow. vm_compute. lia.
Defined.

(** Address 2:0:0:0:0:1 learned on port 3 in VLAN 10. *)
Definition w_learned : fpa_mac_learning :=
  let e := {| au_msg_type := FPA_EVENT_ADDRESS_UPDATE_NEW_E; portNum := 3; vid := 10;
              address := [2; 0; 0; 0; 0; 1] |} in
  match ops_fpa_mac_learning_learn (λ _, Some "3") (ml_new 100 300 0 true) e with
  | Done (_, ml) => ml
  | _ => ml_new 100 300 0 true
  end.

Lemma dump_table_lists_fdb_witness :
  ops_fpa_mac_learning_dump_table w_learned =
    Done (" port    VLAN  MAC                index" +:+ newline +:+
          "3          10  02:00:00:00:00:01  0xd" +:+ newline).
Proof.
  refine (eq_trans (dump_table_lists_fdb w_learned _) _); [|vm_compute; reflexivity].
  split; [vm_compute; repeat constructor; set_solver|].
  intros p h Hin. apply list_elem_of_singleton in Hin. injection Hin as -> ->.
  eexists. split; [vm_compute; reflexivity|vm_compute; reflexivity].
Defined.
