(* ===== verification/MlThreads.v ===== *)
(** * The MAC table and its two threads (src/ops-fpa-mac-learning.c, the lock)

    The event thread and the thread of the daemon work on the same table under a
    read-write lock.  [ml_threads] has both threads with the point each has reached:
    at a lock call, inside a section, or outside; a flush and a dump of the table are
    made of one step per node.  The sections of the daemon are the timer, the flush
    and dump commands, [ops_fpa_ml_hmap_get] and the search for the next hop of a
    host, which reads the entry it found after it has released the lock. *)

From S2P Require Import Prelude Fpa Hmap MacLearning Show.

Local Open Scope string_scope.
Local Open Scope list_scope.
Local Open Scope Z_scope.

(** ** The threads *)

(** Operations of the daemon on the table. *)
Inductive ml_call :=
  | CallTimer
  | CallFlush
  | CallDump
  | CallGet
  | CallFind (vlan : Z) (m : mac).

Inductive daemon_pc :=
  | DIdle
  (* at [ovs_rwlock_wrlock] or [ovs_rwlock_rdlock] *)
  | DWait (c : ml_call)
  | DTimer
  | DFlush (ns : list (Z * Z))
  | DDump (ns : list (Z * Z)) (text : string)
  | DGet
  | DFind (vlan : Z) (m : mac)
  (* at [ovs_rwlock_unlock] *)
  | DUnlock (next : daemon_pc)
  (* outside, about to read the port of the entry found *)
  | DHost (p : option Z).

Inductive event_pc :=
  (* in [fpaLibBridgingAuMsgGet] *)
  | EvRecv
  | EvWait (msg : FPA_EVENT_ADDRESS_MSG_STC)
  | EvIn (msg : FPA_EVENT_ADDRESS_MSG_STC)
  | EvUnlock.

Inductive ml_thread := DaemonThread | EventThread.

(** What a call gives its caller. *)
Inductive ml_output :=
  | OutText (text : string)
  | OutBuffer (b : option bool)
  | OutEntry (p : option Z)
  | OutPort (port : Z).

Section threads.
Context {H : HMAP} {E : ML_ENV}.
Context (ports : Z → option string).

(** The lock is free, or held by a thread for writing or for reading; only the daemon
    reads, so there is never more than one reader. *)
Record ml_threads := {
  t_ml : fpa_mac_learning;
  t_lock : option ml_thread;
  t_daemon : daemon_pc;
  t_event : event_pc;
  (* what the calls gave, the latest first *)
  t_out : list ml_output
}.

Definition event_at_lock (msg : FPA_EVENT_ADDRESS_MSG_STC) : bool :=
  match au_msg_type msg with
  | FPA_EVENT_ADDRESS_UPDATE_NEW_E | FPA_EVENT_ADDRESS_UPDATE_AGED_E => true
  | FPA_EVENT_ADDRESS_OTHER _ => false
  end.

Definition set_daemon (pc : daemon_pc) (s : ml_threads) : ml_threads :=
  {| t_ml := t_ml s; t_lock := t_lock s; t_daemon := pc; t_event := t_event s; t_out := t_out s |}.
Definition set_event (pc : event_pc) (s : ml_threads) : ml_threads :=
  {| t_ml := t_ml s; t_lock := t_lock s; t_daemon := t_daemon s; t_event := pc; t_out := t_out s |}.
Definition set_lock (l : option ml_thread) (s : ml_threads) : ml_threads :=
  {| t_ml := t_ml s; t_lock := l; t_daemon := t_daemon s; t_event := t_event s; t_out := t_out s |}.
Definition set_tml (ml : fpa_mac_learning) (s : ml_threads) : ml_threads :=
  {| t_ml := ml; t_lock := t_lock s; t_daemon := t_daemon s; t_event := t_event s; t_out := t_out s |}.
Definition add_out (o : ml_output) (s : ml_threads) : ml_threads :=
  {| t_ml := t_ml s; t_lock := t_lock s; t_daemon := t_daemon s; t_event := t_event s;
     t_out := o :: t_out s |}.

(** Where a call is once it has the lock; an iteration visits the nodes of the table. *)
Definition call_section (c : ml_call) (ml : fpa_mac_learning) : daemon_pc :=
  match c with
  | CallTimer => DTimer
  | CallFlush => DFlush (hmap_nodes (table ml))
  | CallDump => DDump (hmap_nodes (table ml)) (" port    VLAN  MAC                index" +:+ newline)
  | CallGet => DGet
  | CallFind v m => DFind v m
  end.

(** The next step of the event thread; [r] is what [fpaLibBridgingAuMsgGet] gives.
    [None] if it has to wait. *)
Definition event_step (r : FPA_STATUS * FPA_EVENT_ADDRESS_MSG_STC) (s : ml_threads) :
    option (outcome ml_threads) :=
  match t_event s with
  | EvRecv =>
      Some (Done match au_received r with
                 | Some msg => if event_at_lock msg then set_event (EvWait msg) s else s
                 | None => s
                 end)
  | EvWait msg =>
      match t_lock s with
      | None => Some (Done (set_lock (Some EventThread) (set_event (EvIn msg) s)))
      | Some _ => None
      end
  | EvIn msg =>
      Some (let* ml := mac_learning_asic_event ports (t_ml s) (Some msg) in
            Done (set_event EvUnlock (set_tml ml s)))
  | EvUnlock => Some (Done (set_lock None (set_event EvRecv s)))
  end.

(** The sections of the calls, step by step.  Each ends at the release of the lock. *)

Definition timer_section (s : ml_threads) : outcome ml_threads :=
  Done (set_daemon (DUnlock DIdle)
          (set_tml (ops_fpa_mac_learning_on_mlearn_timer_expired (t_ml s)) s)).

Definition flush_section (ns : list (Z * Z)) (s : ml_threads) : outcome ml_threads :=
  match ns with
  | [] => Done (set_daemon (DUnlock DIdle) s)
  | (p, hash) :: ns =>
      let* (_, ml) := ops_fpa_mac_learning_expire ports (t_ml s) p hash in
      Done (set_daemon (DFlush ns) (set_tml ml s))
  end.

Definition dump_section (ns : list (Z * Z)) (text : string) (s : ml_threads) : outcome ml_threads :=
  match ns with
  | [] => Done (set_daemon (DUnlock DIdle) (add_out (OutText text) s))
  | (p, hash) :: ns =>
      let* e := deref (entries (t_ml s)) (Some p) in
      Done (set_daemon (DDump ns (text +:+ mac_line e hash)) s)
  end.

Definition get_section (s : ml_threads) : outcome ml_threads :=
  Done (set_daemon (DUnlock DIdle) (add_out (OutBuffer (ml_hmap_get (t_ml s))) s)).

Definition find_section (v : Z) (m : mac) (s : ml_threads) : outcome ml_threads :=
  let p := ops_fpa_mac_learning_lookup_by_vlan_and_mac (t_ml s) v m in
  Done (set_daemon (DUnlock (DHost p)) (add_out (OutEntry p) s)).

(** [*l3_egress_id] is read from the entry, without the lock. *)
Definition host_egress_read (p : option Z) (s : ml_threads) : outcome ml_threads :=
  let* e := deref (entries (t_ml s)) p in
  Done (set_daemon DIdle (add_out (OutPort (portNum e)) s)).

(** The next step of the daemon; [c] is the call it makes next. *)
Definition daemon_thread_step (c : ml_call) (s : ml_threads) : option (outcome ml_threads) :=
  match t_daemon s with
  | DIdle => Some (Done (set_daemon (DWait c) s))
  | DWait c =>
      match t_lock s with
      | None => Some (Done (set_lock (Some DaemonThread) (set_daemon (call_section c (t_ml s)) s)))
      | Some _ => None
      end
  | DTimer => Some (timer_section s)
  | DFlush ns => Some (flush_section ns s)
  | DDump ns text => Some (dump_section ns text s)
  | DGet => Some (get_section s)
  | DFind v m => Some (find_section v m s)
  | DUnlock next => Some (Done (set_lock None (set_daemon next s)))
  | DHost p => Some (host_egress_read p s)
  end.

(** Any interleaving. *)
Inductive threads_step (s : ml_threads) : outcome ml_threads → Prop :=
  | StepEvent r o : event_step r s = Some o → threads_step s o
  | StepDaemon c o : daemon_thread_step c s = Some o → threads_step s o.

Inductive threads_reach (s0 : ml_threads) : ml_threads → Prop :=
  | threads_init : threads_reach s0 s0
  | threads_next s s' : threads_reach s0 s → threads_step s (Done s') → threads_reach s0 s'.

(** ** Without interleaving *)

(** The same operations, each at once. *)
Inductive ml_atomic :=
  | AtMsg (msg : FPA_EVENT_ADDRESS_MSG_STC)
  | AtCall (c : ml_call).

Definition ml_atomic_step (a : ml_atomic) (ml : fpa_mac_learning) :
    outcome (fpa_mac_learning * list ml_output) :=
  match a with
  | AtMsg msg => let* ml := mac_learning_asic_event ports ml (Some msg) in Done (ml, [])
  | AtCall CallTimer => Done (ops_fpa_mac_learning_on_mlearn_timer_expired ml, [])
  | AtCall CallFlush => let* ml := ops_fpa_mac_learning_flush ports ml in Done (ml, [])
  | AtCall CallDump => let* text := ops_fpa_mac_learning_dump_table ml in Done (ml, [OutText text])
  | AtCall CallGet => Done (ml, [OutBuffer (ml_hmap_get ml)])
  | AtCall (CallFind v m) =>
      Done (ml, [OutEntry (ops_fpa_mac_learning_lookup_by_vlan_and_mac ml v m)])
  end.

(** The operations in order, with their outputs, the latest first. *)
Fixpoint ml_atomic_run (ats : list ml_atomic) (ml : fpa_mac_learning) (out : list ml_output) :
    outcome (fpa_mac_learning * list ml_output) :=
  match ats with
  | [] => Done (ml, out)
  | a :: ats => let* (ml, o) := ml_atomic_step a ml in ml_atomic_run ats ml (o ++ out)
  end.
End threads.

Ltac unfold_daemon :=
  unfold daemon_thread_step, timer_section, flush_section, dump_section, get_section, find_section,
    host_egress_read.
Ltac unfold_daemon_in H :=
  unfold daemon_thread_step, timer_section, flush_section, dump_section, get_section, find_section,
    host_egress_read in H.

(** ** The lock serialises the threads *)

Section atomicity.
Context {H : HMAP} {E : ML_ENV} `{!HMAP_LAWS H}.
Context (ports : Z → option string) (B : Z).
Hypothesis buffer_pos : 0 < BUFFER_SIZE.
Hypothesis bound_pos : 1000000 ≤ B.

Notation reach := (threads_reach ports).
Notation step := (threads_step ports).
Notation atomic_run := (ml_atomic_run ports).

Definition threads_start (ml : fpa_mac_learning) : ml_threads :=
  {| t_ml := ml; t_lock := None; t_daemon := DIdle; t_event := EvRecv; t_out := [] |}.

Definition daemon_in (pc : daemon_pc) : bool :=
  match pc with DIdle | DWait _ | DHost _ => false | _ => true end.
Definition event_in (pc : event_pc) : bool :=
  match pc with EvRecv | EvWait _ => false | EvIn _ | EvUnlock => true end.

(** The lock belongs to the thread that is in a section. *)
Definition lock_inv (s : ml_threads) : Prop :=
  (daemon_in (t_daemon s) = true ↔ t_lock s = Some DaemonThread) ∧
  (event_in (t_event s) = true ↔ t_lock s = Some EventThread).

(** After releasing the lock the daemon is outside. *)
Definition daemon_wf (pc : daemon_pc) : Prop :=
  match pc with DUnlock DIdle | DUnlock (DHost _) => True | DUnlock _ => False | _ => True end.

(** The table [ml] of the operations made so far and where the daemon has got from it
    in an operation that is not finished. *)
Definition in_progress (ml : fpa_mac_learning) (s : ml_threads) : Prop :=
  match t_daemon s with
  | DFlush ns => flush_nodes ports ns (t_ml s) = ops_fpa_mac_learning_flush ports ml
  | DDump ns text => t_ml s = ml ∧
      (let* l := dump_nodes ml ns in Done (text +:+ l)) = ops_fpa_mac_learning_dump_table ml
  | _ => t_ml s = ml
  end.

(** The outputs of sections, without what was read outside. *)
Definition section_out : list ml_output → list ml_output :=
  List.filter (λ o, match o with OutPort _ => false | _ => true end).

(** [ats] are the operations whose sections have ended. *)
Definition threads_inv (ml0 : fpa_mac_learning) (ats : list ml_atomic) (s : ml_threads) : Prop :=
  lock_inv s ∧ daemon_wf (t_daemon s) ∧
  ∃ ml, atomic_run ats ml0 [] = Done (ml, section_out (t_out s)) ∧ ml_safe ports B ml ∧
    in_progress ml s.

(** The operation whose section ends with the next step of a thread. *)
Definition event_done (s : ml_threads) : list ml_atomic :=
  match t_event s with EvIn msg => [AtMsg msg] | _ => [] end.
Definition daemon_done (s : ml_threads) : list ml_atomic :=
  match t_daemon s with
  | DTimer => [AtCall CallTimer]
  | DFlush [] => [AtCall CallFlush]
  | DDump [] _ => [AtCall CallDump]
  | DGet => [AtCall CallGet]
  | DFind v m => [AtCall (CallFind v m)]
  | _ => []
  end.

Lemma atomic_run_snoc ats a ml0 out :
  atomic_run (ats ++ [a]) ml0 out =
  let* (ml, out) := atomic_run ats ml0 out in
  let* (ml, o) := ml_atomic_step ports a ml in Done (ml, o ++ out).
Proof.
  revert ml0 out. induction ats as [|a' ats IH]; intros ml0 out; simpl.
  - by destruct (ml_atomic_step ports a ml0) as [[? ?]| |].
  - destruct (ml_atomic_step ports a' ml0) as [[ml1 o]| |]; simpl; [apply IH|done|done].
Qed.

(** One more operation, made at once. *)
Lemma inv_atomic ml0 s s' ats ml ml' out a :
  atomic_run ats ml0 [] = Done (ml, section_out (t_out s)) →
  ml_atomic_step ports a ml = Done (ml', out) → section_out (t_out s') = out ++ section_out (t_out s) →
  ml_safe ports B ml' → lock_inv s' → daemon_wf (t_daemon s') → in_progress ml' s' →
  threads_inv ml0 (ats ++ [a]) s'.
Proof.
  intros Hrun Hstep Hout Hsafe Hl Hw Hp. split; [done|]. split; [done|].
  exists ml'. rewrite atomic_run_snoc, Hrun. simpl.
  by rewrite Hstep, Hout.
Qed.

Lemma string_app_nil (s : string) : s +:+ EmptyString = s.
Proof.
  induction s as [|c s IH]; [done|]. change (String c (s +:+ EmptyString) = String c s). by rewrite IH.
Qed.

Lemma dump_ok ml : ml_safe ports B ml → is_done (ops_fpa_mac_learning_dump_table ml).
Proof. intros [[_ Ht] _]. rewrite dump_table_lists_fdb by done. by eexists. Qed.

(** A section of the event thread. *)
Lemma event_step_inv ml0 ats s r o :
  threads_inv ml0 ats s → event_step ports r s = Some o →
  ∃ s', o = Done s' ∧ threads_inv ml0 (ats ++ event_done s) s'.
Proof.
  intros ([Hld Hle] & Hw & ml & Hrun & Hsafe & Hp). unfold event_step, event_done.
  destruct (t_event s) as [|msg|msg|] eqn:Hev; simpl in Hle; rewrite ?app_nil_r.
  - intros [= <-]. eexists. split; [done|].
    destruct (au_received r) as [msg|]; [destruct (event_at_lock msg)|];
      (split; [split; simpl; rewrite ?Hev; done|]); (split; [done|]); by exists ml.
  - destruct (t_lock s) as [th|] eqn:Hlk; [done|]. intros [= <-]. eexists. split; [done|].
    split; [split; simpl; [|done]|].
    { split; [|done]. intros Hd. apply Hld in Hd. done. }
    split; [done|]. by exists ml.
  - assert (t_lock s = Some EventThread) as Hlk by by apply Hle.
    assert (daemon_in (t_daemon s) = false) as Hd.
    { apply not_true_is_false. intros Hd. apply Hld in Hd. congruence. }
    assert (t_ml s = ml) as Hml by (unfold in_progress in Hp; destruct (t_daemon s); done).
    destruct (ml_step_safe ports B ml (InMsg (Some msg)) buffer_pos bound_pos Hsafe)
      as (ml' & Hstep & Hsafe').
    change (mac_learning_asic_event ports ml (Some msg) = Done ml') in Hstep.
    rewrite Hml, Hstep. intros [= <-]. eexists. split; [done|].
    eapply (inv_atomic _ s _ ats ml ml' [] (AtMsg msg));
      [done|by cbn [ml_atomic_step]; rewrite Hstep|done|done| |done|].
    + split; [done|]. simpl. by rewrite Hlk.
    + unfold in_progress. simpl. by destruct (t_daemon s).
  - intros [= <-]. eexists. split; [done|].
    assert (t_lock s = Some EventThread) as Hlk by by apply Hle.
    split; [split; simpl; [|done]|].
    { split; [|done]. intros Hd. apply Hld in Hd. congruence. }
    split; [done|]. by exists ml.
Qed.

(** Steps of the daemon in a section keep the lock. *)
Lemma lock_kept s pc ml out :
  lock_inv s → daemon_in (t_daemon s) = true → daemon_in pc = true →
  lock_inv {| t_ml := ml; t_lock := t_lock s; t_daemon := pc; t_event := t_event s; t_out := out |}.
Proof. intros [Hld Hle] Hd Hpc. split; simpl; [|done]. split; [|done]. intros _. by apply Hld. Qed.

Lemma flush_progress ml0 s ats ml ns :
  lock_inv s → t_daemon s = DFlush ns →
  atomic_run ats ml0 [] = Done (ml, section_out (t_out s)) → ml_safe ports B ml →
  in_progress ml s → ∃ o s', daemon_thread_step ports CallFlush s = Some o ∧ o = Done s' ∧
    threads_inv ml0 (ats ++ daemon_done s) s'.
Proof.
  intros Hl Hd Hrun Hsafe Hp. unfold in_progress in Hp. unfold daemon_done. rewrite Hd in Hp |- *.
  destruct (ml_step_safe ports B ml InFlush buffer_pos bound_pos Hsafe) as (ml' & Hstep & Hsafe').
  cbn [ml_step] in Hstep. unfold_daemon. rewrite Hd.
  assert (daemon_in (t_daemon s) = true) as Hin by by rewrite Hd.
  destruct ns as [|[p h] ns].
  - do 2 eexists. split; [done|]. split; [done|]. simpl in Hp. rewrite Hstep in Hp. injection Hp as Hp.
    eapply (inv_atomic _ s _ ats ml ml' [] (AtCall CallFlush));
      [done|by cbn [ml_atomic_step]; rewrite Hstep|done|done|by apply (lock_kept s)|done|done].
  - simpl in Hp. rewrite Hstep in Hp. apply obind_done in Hp as ([err ml1] & Hex & Hp).
    do 2 eexists. split; [done|]. rewrite Hex. split; [done|].
    rewrite app_nil_r. split; [by apply (lock_kept s)|]. split; [done|]. exists ml. split_and!; [done|done|].
    unfold in_progress. simpl. by rewrite Hstep.
Qed.

Lemma dump_progress ml0 s ats ml ns text :
  lock_inv s → t_daemon s = DDump ns text →
  atomic_run ats ml0 [] = Done (ml, section_out (t_out s)) → ml_safe ports B ml →
  in_progress ml s → ∃ o s', daemon_thread_step ports CallDump s = Some o ∧ o = Done s' ∧
    threads_inv ml0 (ats ++ daemon_done s) s'.
Proof.
  intros Hl Hd Hrun Hsafe Hp. unfold in_progress in Hp. unfold daemon_done. rewrite Hd in Hp |- *.
  destruct Hp as [Hml Hp].
  destruct (dump_ok ml Hsafe) as [text' Hdump]. rewrite Hdump in Hp.
  unfold_daemon. rewrite Hd.
  assert (daemon_in (t_daemon s) = true) as Hin by by rewrite Hd.
  destruct ns as [|[p h] ns].
  - do 2 eexists. split; [done|]. split; [done|]. simpl in Hp. rewrite string_app_nil in Hp.
    injection Hp as ->.
    eapply (inv_atomic _ s _ ats ml ml [OutText text'] (AtCall CallDump));
      [done|by cbn [ml_atomic_step]; rewrite Hdump|done|done|by apply (lock_kept s)|done|done].
  - simpl in Hp. destruct (entries ml !! p) as [e|] eqn:He; [|done].
    do 2 eexists. split; [done|]. simpl. rewrite Hml, He. split; [done|].
    rewrite app_nil_r. split; [by apply (lock_kept s)|]. split; [done|]. exists ml. split_and!; [done|done|].
    unfold in_progress. simpl. split; [done|]. rewrite Hdump, <- Hp.
    destruct (dump_nodes ml ns) as [l| |]; simpl; [|done|done]. by rewrite string_app_assoc.
Qed.

(** Every step of the daemon but the read outside a section. *)
Lemma daemon_step_inv ml0 ats s c o :
  threads_inv ml0 ats s → daemon_thread_step ports c s = Some o →
  (∃ s', o = Done s' ∧ threads_inv ml0 (ats ++ daemon_done s) s') ∨ ∃ p, t_daemon s = DHost p ∧
    ∀ s', o = Done s' → threads_inv ml0 (ats ++ daemon_done s) s'.
Proof.
  intros (Hl & Hw & ml & Hrun & Hsafe & Hp) Hstep.
  destruct (t_daemon s) as [|c'| |ns|ns text| |v m|next|p] eqn:Hd.
  all: unfold_daemon_in Hstep; rewrite Hd in Hstep; try (assert (daemon_done s = []) as ->
    by (unfold daemon_done; by rewrite Hd); rewrite app_nil_r).
  all: assert (in_progress ml s) as Hp' by done; unfold in_progress in Hp; rewrite Hd in Hp.
  - injection Hstep as <-. left. eexists. split; [done|].  split; [|by split; [|exists ml]].
    destruct Hl as [Hld Hle]. split; simpl; [|done]. by rewrite Hd in Hld.
  - destruct (t_lock s) as [th|] eqn:Hlk; [done|]. injection Hstep as <-. left. eexists. split; [done|].
    split; [|split; [by destruct c'|exists ml; split_and!; [done|done|]]].
    + destruct Hl as [Hld Hle]. split; simpl; [by destruct c'|].
      split; [|done]. intros Hev. apply Hle in Hev. congruence.
    + unfold in_progress. simpl. destruct c'; simpl; [done| |split; [done|]|done|done]; by rewrite Hp.
  - injection Hstep as <-. left. eexists. split; [done|].
    destruct (ml_step_safe ports B ml InTimer buffer_pos bound_pos Hsafe) as (ml' & [= Hml'] & Hsafe').
    unfold daemon_done. rewrite Hd.
    eapply (inv_atomic _ s _ ats ml ml' [] (AtCall CallTimer));
      [done|by cbn [ml_atomic_step]; rewrite Hml'|done|done| |done|].
    + apply (lock_kept s); [done|by rewrite Hd|done].
    + unfold in_progress. simpl. by rewrite Hp.
  - left. destruct (flush_progress ml0 s ats ml ns) as (o' & s' & Hs & -> & Hinv); [done..|].
    exists s'. split; [|done]. unfold_daemon_in Hs. rewrite Hd in Hs.
    destruct ns as [|[? ?] ?]; congruence.
  - left. destruct (dump_progress ml0 s ats ml ns text) as (o' & s' & Hs & -> & Hinv); [done..|].
    exists s'. split; [|done]. unfold_daemon_in Hs. rewrite Hd in Hs.
    destruct ns as [|[? ?] ?]; congruence.
  - injection Hstep as <-. left. eexists. split; [done|].
    unfold daemon_done. rewrite Hd.
    eapply (inv_atomic _ s _ ats ml ml [_] (AtCall CallGet)); [done|done|by simpl; rewrite Hp|done| |done|done].
    apply (lock_kept s); [done|by rewrite Hd|done].
  - injection Hstep as <-. left. eexists. split; [done|].
    unfold daemon_done. rewrite Hd.
    eapply (inv_atomic _ s _ ats ml ml [_] (AtCall (CallFind v m)));
      [done|done|by simpl; rewrite Hp|done| |done|done].
    apply (lock_kept s); [done|by rewrite Hd|done].
  - injection Hstep as <-. left. eexists. split; [done|]. simpl in Hw. destruct Hl as [Hld Hle].
    assert (t_lock s = Some DaemonThread) as Hlk by (apply Hld; by rewrite Hd).
    split; [split; simpl; [by destruct next|]|].
    { split; [|done]. intros Hev. apply Hle in Hev. congruence. }
    split; [by destruct next|]. exists ml. split_and!; [done|done|].
    unfold in_progress. simpl. by destruct next.
  - injection Hstep as <-. right. exists p. split; [done|]. intros s' (e & _ & Hs')%obind_done.
    injection Hs' as <-.
    split; [|split; [done|by exists ml]].
    destruct Hl as [Hld Hle]. split; simpl; [|done]. by rewrite Hd in Hld.
Qed.

Lemma reach_threads_inv ml0 s :
  ml_safe ports B ml0 → reach (threads_start ml0) s → ∃ ats, threads_inv ml0 ats s.
Proof.
  intros Hsafe. induction 1 as [|s s' _ [ats IH] Hstep].
  - exists []. split; [by split|]. split; [done|]. by exists ml0.
  - inversion Hstep as [r o Hs|c o Hs]; subst.
    + destruct (event_step_inv ml0 ats s r _ IH Hs) as (s1 & [= <-] & ?). by eexists.
    + destruct (daemon_step_inv ml0 ats s c _ IH Hs) as [(s1 & [= <-] & ?)|(p & _ & Hinv)]; [by eexists|].
      eexists. by apply Hinv.
Qed.

(** *** The order of the operations *)

(** What a step of the event thread takes from the switch: messages that are neither
    of a new nor of an aged address are not operations on the table. *)
Definition received (s : ml_threads) (r : FPA_STATUS * FPA_EVENT_ADDRESS_MSG_STC) :
    list FPA_EVENT_ADDRESS_MSG_STC :=
  match t_event s, au_received r with
  | EvRecv, Some msg => if event_at_lock msg then [msg] else []
  | _, _ => []
  end.
Definition called (s : ml_threads) (c : ml_call) : list ml_call :=
  match t_daemon s with DIdle => [c] | _ => [] end.
(** The thread that takes the lock in a step. *)
Definition taken (s s' : ml_threads) : list ml_thread :=
  match t_lock s, t_lock s' with None, Some th => [th] | _, _ => [] end.

(** An interleaving, with the messages received and the calls made so far, and the
    threads in the order in which they took the lock. *)
Inductive threads_trace (s0 : ml_threads) :
    list FPA_EVENT_ADDRESS_MSG_STC → list ml_call → list ml_thread → ml_threads → Prop :=
  | trace_start : threads_trace s0 [] [] [] s0
  | trace_event ms cs ls s r s' :
      threads_trace s0 ms cs ls s → event_step ports r s = Some (Done s') →
      threads_trace s0 (ms ++ received s r) cs (ls ++ taken s s') s'
  | trace_daemon ms cs ls s c s' :
      threads_trace s0 ms cs ls s → daemon_thread_step ports c s = Some (Done s') →
      threads_trace s0 ms (cs ++ called s c) (ls ++ taken s s') s'.

(** [ats] are the messages [ms] and the calls [cs], each in its order and once, with
    the threads alternating as in [ls]. *)
Inductive serial : list ml_thread → list FPA_EVENT_ADDRESS_MSG_STC → list ml_call →
    list ml_atomic → Prop :=
  | serial_nil : serial [] [] [] []
  | serial_event ls ms cs ats m :
      serial ls ms cs ats → serial (ls ++ [EventThread]) (ms ++ [m]) cs (ats ++ [AtMsg m])
  | serial_daemon ls ms cs ats c :
      serial ls ms cs ats → serial (ls ++ [DaemonThread]) ms (cs ++ [c]) (ats ++ [AtCall c]).

(** Waiting for the lock. *)
Definition waiting_msg (s : ml_threads) : list FPA_EVENT_ADDRESS_MSG_STC :=
  match t_event s with EvWait msg => [msg] | _ => [] end.
Definition waiting_call (s : ml_threads) : list ml_call :=
  match t_daemon s with DWait c => [c] | _ => [] end.

(** The operation that has the lock and is not finished. *)
Definition in_section (s : ml_threads) : list ml_atomic :=
  match t_event s, t_daemon s with
  | EvIn msg, _ => [AtMsg msg]
  | _, DTimer => [AtCall CallTimer]
  | _, DFlush _ => [AtCall CallFlush]
  | _, DDump _ _ => [AtCall CallDump]
  | _, DGet => [AtCall CallGet]
  | _, DFind v m => [AtCall (CallFind v m)]
  | _, _ => []
  end.

Definition trace_inv ms cs ls ats (s : ml_threads) : Prop :=
  ∃ ms' cs', ms = ms' ++ waiting_msg s ∧ cs = cs' ++ waiting_call s ∧
    serial ls ms' cs' (ats ++ in_section s).

Lemma trace_event_inv ms cs ls ats s r s' :
  lock_inv s → trace_inv ms cs ls ats s → event_step ports r s = Some (Done s') →
  trace_inv (ms ++ received s r) cs (ls ++ taken s s') (ats ++ event_done s) s'.
Proof.
  intros [Hld Hle] (ms' & cs' & -> & -> & Hser). unfold event_step, received, event_done, taken, trace_inv,
    waiting_msg, waiting_call, in_section in *.
  destruct (t_event s) as [|msg|msg|] eqn:Hev; simpl in Hle.
  - intros [= <-]. exists ms', cs'. rewrite !app_nil_r.
    destruct (au_received r) as [msg|]; [destruct (event_at_lock msg)|]; simpl;
      destruct (t_lock s); rewrite ?Hev, ?app_nil_r; done.
  - destruct (t_lock s) as [th|] eqn:Hlk; [done|]. intros [= <-]. exists (ms' ++ [msg]), cs'. simpl.
    rewrite !app_nil_r. split; [done|]. split; [done|].
    destruct (t_daemon s); simpl in Hld; try (discriminate (proj1 Hld eq_refl));
      rewrite app_nil_r in Hser; by apply serial_event.
  - intros [= (ml & _ & Hs')%obind_done]. injection Hs' as <-. exists ms', cs'. simpl.
    rewrite !app_nil_r. split; [done|]. split; [done|].
    assert (t_lock s = Some EventThread) as Hlk by by apply Hle. rewrite Hlk, app_nil_r.
    destruct (t_daemon s); simpl in Hld; try (by rewrite app_nil_r);
      pose proof (proj1 Hld eq_refl); congruence.
  - intros [= <-]. exists ms', cs'. simpl. rewrite !app_nil_r. split; [done|]. split; [done|].
    assert (t_lock s = Some EventThread) as Hlk by by apply Hle. by rewrite Hlk, app_nil_r.
Qed.

Lemma trace_daemon_inv ms cs ls ats s c s' :
  lock_inv s → daemon_wf (t_daemon s) → trace_inv ms cs ls ats s → daemon_thread_step ports c s = Some (Done s') →
  trace_inv ms (cs ++ called s c) (ls ++ taken s s') (ats ++ daemon_done s) s'.
Proof.
  intros [Hld Hle] Hw (ms' & cs' & -> & -> & Hser).
  assert (daemon_in (t_daemon s) = true → t_lock s = Some DaemonThread ∧
    ∀ ev, t_event s = ev → event_in ev = false) as Hin.
  { intros Hd. apply Hld in Hd. split; [done|]. intros ev <-. apply not_true_is_false.
    intros He. apply Hle in He. congruence. }
  unfold called, daemon_done, taken, trace_inv, waiting_msg, waiting_call, in_section in *. unfold_daemon.
  destruct (t_daemon s) as [|c'| |ns|ns text| |v m|next|p] eqn:Hd; simpl in Hin.
  { intros [= <-]. exists ms', cs'. simpl. rewrite !app_nil_r in *. destruct (t_lock s); by rewrite app_nil_r. }
  { destruct (t_lock s) as [th|] eqn:Hlk; [done|]. intros [= <-]. exists ms', (cs' ++ [c']). simpl.
    rewrite !app_nil_r. split; [done|].
    assert (event_in (t_event s) = false) as Hev.
    { apply not_true_is_false. intros He. by apply Hle in He. }
    destruct (t_event s); try done; rewrite ?app_nil_r in Hser;
      (split; [by destruct c'; simpl; rewrite ?app_nil_r|]);
      apply (serial_daemon _ _ _ _ c') in Hser; by destruct c'. }
  all: destruct (Hin eq_refl) as [Hlk Hev] || clear Hin.
  all: try (rewrite Hlk; specialize (Hev _ eq_refl)).
  all: destruct (t_event s) eqn:Hpc; try done; try clear Hev.
  all: try destruct ns as [|[q h] ns]; try destruct next; try done.
  all: intros Hs'; try (injection Hs' as Hs'; apply obind_done in Hs' as ([? ?] & _ & Hs')
    || apply obind_done in Hs' as (? & _ & Hs')).
  all: simplify_eq; exists ms', cs'; simpl; rewrite ?Hlk, ?Hpc; try destruct (t_lock s); rewrite ?app_nil_r in *; done.
Qed.

Lemma trace_threads_inv ml0 ms cs ls s :
  ml_safe ports B ml0 → threads_trace (threads_start ml0) ms cs ls s →
  ∃ ats, threads_inv ml0 ats s ∧ trace_inv ms cs ls ats s.
Proof.
  intros Hsafe. induction 1 as [|ms cs ls s r s' _ (ats & IH & Ht) Hs|ms cs ls s c s' _ (ats & IH & Ht) Hs].
  - exists []. split; [split; [by split|]; split; [done|]; by exists ml0|].
    exists [], []. split; [done|]. split; [done|]. constructor.
  - destruct (event_step_inv ml0 ats s r _ IH Hs) as (s1 & [= <-] & ?).
    eexists. split; [done|]. apply trace_event_inv; [apply IH|done|done].
  - eexists. split; [|apply trace_daemon_inv; [apply IH|apply IH|exact Ht|exact Hs]].
    destruct (daemon_step_inv ml0 ats s c _ IH Hs) as [(s1 & [= <-] & ?)|(p & _ & Hinv)]; [done|].
    by apply Hinv.
Qed.

(** C17: The lock makes the two threads atomic.  Take any interleaving, in which the
    event thread has received the messages [ms] of new and aged addresses, the daemon
    has made the calls [cs], and the threads took the lock in the order [ls].  Every
    step in and around the sections succeeds (only the read of the entry found for a
    host, outside, may not).  No message and no call is lost or made twice: all but
    those waiting for the lock are operations, in the order of the lock.  The table
    and everything the calls gave are those of the operations [ats] that are finished,
    made one after the other; the one that has the lock, if any, is on its way from
    that table. *)
Theorem ml_threads_atomic ml0 ms cs ls s :
  ml_safe ports B ml0 → threads_trace (threads_start ml0) ms cs ls s →
  (∀ o, step s o → (∃ s', o = Done s') ∨ ∃ p, t_daemon s = DHost p) ∧
  ∃ ms' cs' ats ml, ms = ms' ++ waiting_msg s ∧ cs = cs' ++ waiting_call s ∧
    serial ls ms' cs' (ats ++ in_section s) ∧
    atomic_run ats ml0 [] = Done (ml, section_out (t_out s)) ∧ in_progress ml s.
Proof.
  intros Hsafe Htrace.
  destruct (trace_threads_inv ml0 ms cs ls s Hsafe Htrace) as (ats & Hinv & ms' & cs' & Hms & Hcs & Hser).
  split.
  - intros o [r o' Hs|c o' Hs].
    + destruct (event_step_inv ml0 ats s r _ Hinv Hs) as (s' & -> & _). left. by exists s'.
    + destruct (daemon_step_inv ml0 ats s c _ Hinv Hs) as [(s' & -> & _)|(p & Hd & _)];
        [left; by exists s'|right; by exists p].
  - destruct Hinv as (_ & _ & ml & Hrun & _ & Hp). by exists ms', cs', ats, ml.
Qed.

(** *** The lock is released *)

Definition holder_step (s s' : ml_threads) : Prop :=
  match t_lock s with
  | Some DaemonThread => ∃ c, daemon_thread_step ports c s = Some (Done s')
  | Some EventThread => ∃ r, event_step ports r s = Some (Done s')
  | None => False
  end.

(** Steps to the end of a section. *)
Definition section_steps (s : ml_threads) : nat :=
  match t_lock s with
  | None => 0
  | Some EventThread => match t_event s with EvIn _ => 2 | _ => 1 end
  | Some DaemonThread =>
      match t_daemon s with
      | DFlush ns | DDump ns _ => 2 + length ns
      | DUnlock _ => 1
      | _ => 2
      end
  end.

Lemma holder_progress ml0 ats s th :
  threads_inv ml0 ats s → t_lock s = Some th →
  ∃ ats' s', holder_step s s' ∧ threads_inv ml0 ats' s' ∧ S (section_steps s') = section_steps s.
Proof.
  intros Hinv Hlk. pose proof Hinv as ([Hld Hle] & Hw & _).
  unfold holder_step, section_steps. rewrite Hlk. destruct th.
  - assert (daemon_in (t_daemon s) = true) as Hd by by apply Hld.
    assert (∃ o, daemon_thread_step ports CallGet s = Some o) as [o Ho].
    { unfold_daemon. destruct (t_daemon s) as [| | |[|[? ?] ?]|[|[? ?] ?]| | | |]; try done; by eexists. }
    destruct (daemon_step_inv ml0 ats s CallGet o Hinv Ho) as [(s' & -> & Hinv')|(p & Hp & _)];
      [|by rewrite Hp in Hd].
    eexists _, s'. split; [by exists CallGet|]. split; [done|]. unfold_daemon_in Ho.
    destruct (t_daemon s) as [| | |[|[? ?] ?]|[|[? ?] ?]| | | |] eqn:Hpc; try done.
    all: try (injection Ho as Ho; apply obind_done in Ho as ([? ?] & _ & Ho) || apply obind_done in Ho as (? & _ & Ho)).
    all: simplify_eq; simpl; by rewrite ?Hlk.
  - assert (event_in (t_event s) = true) as Hd by by apply Hle.
    set (r := (FPA_OK, {| au_msg_type := FPA_EVENT_ADDRESS_UPDATE_NEW_E; portNum := 0; vid := 0; address := [] |})).
    assert (∃ o, event_step ports r s = Some o) as [o Ho].
    { unfold event_step. destruct (t_event s); try done; by eexists. }
    destruct (event_step_inv ml0 ats s r o Hinv Ho) as (s' & -> & Hinv').
    eexists _, s'. split; [by exists r|]. split; [done|]. unfold event_step in Ho.
    destruct (t_event s) as [| |msg|] eqn:Hpc; try done.
    + assert (∃ ml, s' = set_event EvUnlock (set_tml ml s)) as [ml ->].
      { assert (obind (mac_learning_asic_event ports (t_ml s) (Some msg))
          (λ ml, Done (set_event EvUnlock (set_tml ml s))) = Done s') as (ml & _ & Hs')%obind_done
          by congruence. exists ml. congruence. }
      simpl. by rewrite Hlk.
    + by simplify_eq.
Qed.

(** C18: No thread keeps the lock: a thread in a section can always go on, and the lock
    is free again after as many of its steps as the section has left, which is at most
    two more than the nodes it has to visit; a thread waits only while the other one
    is in a section. *)
Theorem ml_lock_released ml0 s th :
  ml_safe ports B ml0 → reach (threads_start ml0) s → t_lock s = Some th →
  (∃ s', nsteps holder_step (section_steps s) s s' ∧ t_lock s' = None) ∧
  ∀ s', holder_step s s' → reach (threads_start ml0) s'.
Proof.
  intros Hsafe Hreach Hlk. split.
  - destruct (reach_threads_inv ml0 s Hsafe Hreach) as [ats Hinv]. clear Hreach.
    remember (section_steps s) as n eqn:Hn. revert ats s th Hlk Hinv Hn.
    induction n as [|n IH]; intros ats s th Hlk Hinv Hn.
    { destruct (holder_progress ml0 ats s th Hinv Hlk) as (? & s' & _ & _ & Hs). congruence. }
    destruct (holder_progress ml0 ats s th Hinv Hlk) as (ats1 & s1 & H1 & Hinv1 & Hs1).
    assert (n = section_steps s1) as Hn1 by congruence.
    destruct (t_lock s1) as [th1|] eqn:Hlk1.
    + destruct (IH ats1 s1 th1 Hlk1 Hinv1 Hn1) as (s' & Hs' & Hfree). exists s'.
      split; [by eapply nsteps_l|done].
    + assert (n = 0%nat) as -> by (rewrite Hn1; unfold section_steps; by rewrite Hlk1).
      exists s1. split; [by apply nsteps_once|done].
  - intros s' Hs'. eapply threads_next; [done|]. unfold holder_step in Hs'. rewrite Hlk in Hs'.
    destruct th, Hs' as [x Hx]; [by eapply StepDaemon|by eapply StepEvent].
Qed.

(** *** The entry read outside *)

(** C20: The entry found for a next hop is read after the lock was released: while the
    daemon is about to read it, a message that ages the address frees the entry, and
    the daemon then reads freed memory. *)
Theorem host_reads_freed_entry ml0 s p e msg :
  ml_safe ports B ml0 → reach (threads_start ml0) s →
  t_daemon s = DHost (Some p) → t_event s = EvRecv → t_lock s = None →
  entries (t_ml s) !! p = Some e →
  au_msg_type msg = FPA_EVENT_ADDRESS_UPDATE_AGED_E →
  ops_fpa_mac_learning_lookup (t_ml s) msg = Some p →
  ∃ s', reach (threads_start ml0) s' ∧ t_daemon s' = DHost (Some p) ∧
    ∀ c, daemon_thread_step ports c s' = Some (Crash Undefined).
Proof.
  intros Hsafe Hreach Hd Hev Hlk He Hty Hlook.
  destruct (reach_threads_inv ml0 s Hsafe Hreach) as (ats & _ & _ & ml & _ & (Hi & Hports & _) & Hp).
  unfold in_progress in Hp. rewrite Hd in Hp. subst ml.
  pose proof (age_step ports (t_ml s) msg buffer_pos Hi Hports) as Hage. rewrite Hlook in Hage.
  destruct Hage as (e' & name & ml' & He' & _ & _ & Hage & _).
  assert (entries ml' !! p = None) as Hgone.
  { unfold ops_fpa_mac_learning_age_by_entry in Hage. rewrite Hlook in Hage.
    unfold ops_fpa_mac_learning_expire in Hage. rewrite He in Hage.
    apply obind_done in Hage as (ml1 & _ & Hml). injection Hml as <-. simpl. apply lookup_delete_eq. }
  set (s1 := set_event (EvWait msg) s).
  set (s2 := set_lock (Some EventThread) (set_event (EvIn msg) s1)).
  set (s3 := set_event EvUnlock (set_tml ml' s2)).
  exists s3. split; [|split; [done|]].
  - assert (step s (Done s1)).
    { apply (StepEvent _ _ (FPA_OK, msg)). unfold event_step. rewrite Hev. simpl.
      unfold event_at_lock. by rewrite Hty. }
    assert (step s1 (Done s2)).
    { apply (StepEvent _ _ (FPA_OK, msg)). unfold event_step. simpl. by rewrite Hlk. }
    assert (step s2 (Done s3)).
    { apply (StepEvent _ _ (FPA_OK, msg)). unfold event_step. simpl. by rewrite Hty, Hage. }
    eauto using threads_next.
  - intros c. unfold_daemon. simpl. by rewrite Hd; simpl; rewrite Hgone.
Qed.
End atomicity.

(** ** The buffer given to the bridge

    The bridge reads the buffer through the pointer it got, without the lock. *)

Section buffer_lifetime.
Context {H : HMAP} {E : ML_ENV} (ports : Z → option string).

(** From [ml] to [ml'] the buffers changed places once for each time the bridge was
    triggered, and if it was not, only the current one changed. *)
Definition handovers (ml ml' : fpa_mac_learning) : Prop :=
  ∃ n, triggered ml' = (n + triggered ml)%nat ∧
    curr_mlearn_table_in_use ml' = Nat.iter n negb (curr_mlearn_table_in_use ml) ∧
    (n = 0%nat → mlearn_event_tables ml' (negb (curr_mlearn_table_in_use ml)) =
                 mlearn_event_tables ml (negb (curr_mlearn_table_in_use ml))).

#[local] Instance handovers_preorder : PreOrder handovers.
Proof.
  split; [intros ml; by exists 0%nat|].
  intros ml1 ml2 ml3 (n & Ht & Hc & He) (m & Ht' & Hc' & He'). exists (m + n)%nat.
  split; [lia|]. split; [by rewrite Hc', Hc, Nat.iter_add|].
  intros [-> ->]%Nat.eq_add_0. simpl in *. rewrite Hc in He'. by rewrite He', He.
Qed.

Lemma table_handovers t es ml : handovers ml (set_table t es ml).
Proof. by exists 0%nat. Qed.

Lemma process_handovers ml : handovers ml (ops_fpa_mac_learning_process_mlearn ml).
Proof.
  unfold ops_fpa_mac_learning_process_mlearn. destruct (plugin_interface ml); [|done].
  destruct (negb _); [|done]. by exists 1%nat.
Qed.

Lemma action_add_handovers ml e index rehash ev ml' :
  ops_fpa_mac_learning_mlearn_action_add ports ml e index rehash ev = Done ml' → handovers ml ml'.
Proof.
  unfold ops_fpa_mac_learning_mlearn_action_add. intros (m & _ & [= <-])%obind_done.
  assert (handovers ml (set_events (curr_mlearn_table_in_use ml) m ml)) as Hs.
  { exists 0%nat. split_and!; [done|done|]. intros _. simpl. by destruct (curr_mlearn_table_in_use ml). }
  destruct (ops_fpa_mac_learning_mlearn_table_is_full m); [|done].
  etrans; [done|apply process_handovers].
Qed.

Lemma expire_handovers ml p h err ml' :
  ops_fpa_mac_learning_expire ports ml p h = Done (err, ml') → handovers ml ml'.
Proof.
  unfold ops_fpa_mac_learning_expire. destruct (entries ml !! p); [|done].
  intros (ml1 & Hadd%action_add_handovers & [= <- <-])%obind_done.
  etrans; [|apply table_handovers]. etrans; [apply table_handovers|exact Hadd].
Qed.

Lemma flush_handovers ns ml ml' : flush_nodes ports ns ml = Done ml' → handovers ml ml'.
Proof.
  revert ml. induction ns as [|[p h] ns IH]; intros ml; simpl; [by intros [= <-]|].
  intros ([err ml1] & Hex%expire_handovers & Hrest%IH)%obind_done. by etrans.
Qed.

Lemma step_handovers ml i ml' : ml_step ports ml i = Done ml' → handovers ml ml'.
Proof.
  destruct i as [[msg|]| | |n]; simpl; [|by intros [= <-]| | |intros [= <-]; by exists 0%nat].
  - unfold mac_learning_asic_event. destruct (au_msg_type msg); [| |by intros [= <-]].
    + intros ([err ml1] & Hl & [= <-])%obind_done. revert Hl. unfold ops_fpa_mac_learning_learn.
      destruct (ports (portNum msg)); simpl; [|intros [= _ <-]; apply table_handovers].
      unfold ops_fpa_mac_learning_insert. simpl.
      destruct (_ <=? _); [intros [= _ <-]; by exists 0%nat|].
      intros (ml1' & Hadd%action_add_handovers & [= _ <-])%obind_done.
      etrans; [|exact Hadd]. by exists 0%nat.
    + intros ([err ml1] & Hl & [= <-])%obind_done. revert Hl. unfold ops_fpa_mac_learning_age_by_entry.
      destruct (ops_fpa_mac_learning_lookup ml msg); [apply expire_handovers|by intros [= _ <-]].
  - intros [= <-]. apply process_handovers.
  - apply flush_handovers.
Qed.

Lemma run_handovers ins ml ml' : ml_run ports ml ins = Done ml' → handovers ml ml'.
Proof.
  revert ml. induction ins as [|i ins IH]; intros ml; simpl; [by intros [= <-]|].
  intros (ml1 & Hs%step_handovers & Hr%IH)%obind_done. by etrans.
Qed.

(** C19: How long the bridge can read the buffer it was given: as long as it is not
    triggered again the buffer keeps its events, whatever the table learns and ages,
    and asking for it gives the same one; from the next trigger on the buffer is the
    one new events are recorded in, so a bridge that still reads it reads others. *)
Theorem handed_buffer_lifetime ml i ins ml' :
  ml_hmap_get ml = Some i → ml_run ports ml ins = Done ml' →
  (triggered ml ≤ triggered ml')%nat ∧
  (triggered ml' = triggered ml →
    mlearn_event_tables ml' i = mlearn_event_tables ml i ∧ ml_hmap_get ml' = Some i) ∧
  (triggered ml' = S (triggered ml) → curr_mlearn_table_in_use ml' = i).
Proof.
  unfold ml_hmap_get. intros Hget (n & Ht & Hc & He)%run_handovers.
  destruct (negb (_ =? 0)) eqn:Hne in Hget; [|done]. injection Hget as <-. split_and!; [lia| |].
  - intros Hsame. assert (n = 0%nat) as -> by lia. simpl in Hc. rewrite Hc, He by done.
    split; [done|]. by rewrite Hne.
  - intros Hone. by assert (n = 1%nat) as -> by lia.
Qed.
End buffer_lifetime.

(** ** Witnesses *)

#[local] Instance TwEnv : ML_ENV := {|
  BUFFER_SIZE := 2; PORT_NAME_SIZE := 16;
  hash_bytes bs basis := foldl Z.add basis bs
|}.
#[local] Instance TwHmap : HMAP := ListHmap 1.
#[local] Instance TwHmapLaws : HMAP_LAWS TwHmap := ListHmapLaws 1.

Definition w_port_name (p : Z) : option string := if p <=? 8 then Some "port" else None.

Definition w_addr (t : au_type) (last : Z) : FPA_EVENT_ADDRESS_MSG_STC :=
  {| au_msg_type := t; portNum := 3; vid := 1; address := [0; 0; 0; 0; 0; last] |}.
Definition w_seen (last : Z) := w_addr FPA_EVENT_ADDRESS_UPDATE_NEW_E last.
Definition w_aged (last : Z) := w_addr FPA_EVENT_ADDRESS_UPDATE_AGED_E last.

Definition w_fresh : fpa_mac_learning := ml_new 100 300 0 true.
Definition w_at (s : ml_threads) (o : option (outcome ml_threads)) : ml_threads :=
  match o with Some (Done s') => s' | _ => s end.

Definition w_ev (r : FPA_STATUS * FPA_EVENT_ADDRESS_MSG_STC) (s : ml_threads) : ml_threads :=
  w_at s (event_step w_port_name r s).
Definition w_dm (c : ml_call) (s : ml_threads) : ml_threads :=
  w_at s (daemon_thread_step w_port_name c s).

(** An address is learned; the daemon has the lock for a flush. *)
Definition w_learned : ml_threads :=
  Nat.iter 4 (w_ev (FPA_OK, w_seen 7)) (threads_start w_fresh).
Definition w_flushing : ml_threads := Nat.iter 2 (w_dm CallFlush) w_learned.
(** The daemon has found the address and is outside again. *)
Definition w_found : ml_threads :=
  Nat.iter 4 (w_dm (CallFind 1 [0; 0; 0; 0; 0; 7])) w_learned.

Lemma w_reach_ev ml0 r s :
  threads_reach w_port_name ml0 s → threads_reach w_port_name ml0 (w_ev r s).
Proof.
  intros Hr. unfold w_ev, w_at. destruct (event_step w_port_name r s) as [[s'| |]|] eqn:Hs; try done.
  eapply threads_next; [done|]. by eapply StepEvent.
Qed.
Lemma w_reach_dm ml0 c s :
  threads_reach w_port_name ml0 s → threads_reach w_port_name ml0 (w_dm c s).
Proof.
  intros Hr. unfold w_dm, w_at. destruct (daemon_thread_step w_port_name c s) as [[s'| |]|] eqn:Hs; try done.
  eapply threads_next; [done|]. by eapply StepDaemon.
Qed.

Lemma w_learned_reach : threads_reach w_port_name (threads_start w_fresh) w_learned.
Proof. unfold w_learned. simpl. repeat apply w_reach_ev. apply threads_init. Qed.
Lemma w_flushing_reach : threads_reach w_port_name (threads_start w_fresh) w_flushing.
Proof. unfold w_flushing. simpl. do 2 apply w_reach_dm. apply w_learned_reach. Qed.
Lemma w_found_reach : threads_reach w_port_name (threads_start w_fresh) w_found.
Proof. unfold w_found. simpl. do 4 apply w_reach_dm. apply w_learned_reach. Qed.

Lemma w_fresh_safe : ml_safe w_port_name 1000000 w_fresh.
Proof. apply (ml_new_safe w_port_name 100 300 0 true); [done|lia]. Qed.

(** The message was received and learned, and the flush has the lock. *)
Lemma w_flushing_trace :
  threads_trace w_port_name (threads_start w_fresh) [w_seen 7] [CallFlush]
    [EventThread; DaemonThread] w_flushing.
Proof.
  set (r := (FPA_OK, w_seen 7)).
  assert (∀ ms cs ls s, threads_trace w_port_name (threads_start w_fresh) ms cs ls s →
    event_step w_port_name r s = Some (Done (w_ev r s)) →
    threads_trace w_port_name (threads_start w_fresh) (ms ++ received s r) cs
      (ls ++ taken s (w_ev r s)) (w_ev r s)) as He by (intros; by apply trace_event).
  assert (∀ ms cs ls s, threads_trace w_port_name (threads_start w_fresh) ms cs ls s →
    daemon_thread_step w_port_name CallFlush s = Some (Done (w_dm CallFlush s)) →
    threads_trace w_port_name (threads_start w_fresh) ms (cs ++ called s CallFlush)
      (ls ++ taken s (w_dm CallFlush s)) (w_dm CallFlush s)) as Hd by (intros; by apply trace_daemon).
  pose proof (trace_start w_port_name (threads_start w_fresh)) as Ht.
  do 4 (apply He in Ht; [|vm_compute; reflexivity]).
  do 2 (apply Hd in Ht; [|vm_compute; reflexivity]).
  exact Ht.
Qed.

Lemma ml_threads_atomic_witness :
  (∃ ms' cs' ats ml, [w_seen 7] = ms' ++ waiting_msg w_flushing ∧
    [CallFlush] = cs' ++ waiting_call w_flushing ∧
    serial [EventThread; DaemonThread] ms' cs' (ats ++ in_section w_flushing) ∧
    ml_atomic_run w_port_name ats w_fresh [] = Done (ml, section_out (t_out w_flushing)) ∧
    in_progress w_port_name ml w_flushing) ∧
  in_section w_flushing = [AtCall CallFlush] ∧ length (fdb (t_ml w_flushing)) = 1%nat.
Proof.
  split; [|vm_compute; split; reflexivity].
  exact (proj2 (ml_threads_atomic w_port_name 1000000 ltac:(done) ltac:(lia) w_fresh _ _ _ w_flushing
    w_fresh_safe w_flushing_trace)).
Defined.

(** Three steps: the node, the end of the loop and the release. *)
Lemma ml_lock_released_witness :
  ∃ s', nsteps (holder_step w_port_name) 3 w_flushing s' ∧ t_lock s' = None.
Proof.
  exact (proj1 (ml_lock_released w_port_name 1000000 ltac:(done) ltac:(lia) w_fresh w_flushing
    DaemonThread w_fresh_safe w_flushing_reach ltac:(vm_compute; reflexivity))).
Defined.

Lemma host_reads_freed_entry_witness :
  ∃ s', threads_reach w_port_name (threads_start w_fresh) s' ∧
    ∀ c, daemon_thread_step w_port_name c s' = Some (Crash Undefined).
Proof.
  destruct (host_reads_freed_entry w_port_name 1000000 ltac:(done) ltac:(lia) w_fresh w_found
    0 (w_seen 7) (w_aged 7) w_fresh_safe w_found_reach
    ltac:(vm_compute; reflexivity) ltac:(vm_compute; reflexivity) ltac:(vm_compute; reflexivity)
    ltac:(vm_compute; reflexivity) ltac:(vm_compute; reflexivity) ltac:(vm_compute; reflexivity))
    as (s' & Hr & _ & Hc).
  exists s'. exact (conj Hr Hc).
Defined.

Definition w_learn (l : list Z) (ml : fpa_mac_learning) : fpa_mac_learning :=
  match ml_run w_port_name ml ((λ x, InMsg (Some (w_seen x))) <$> l) with Done ml' => ml' | _ => ml end.

Definition w_handed : fpa_mac_learning := w_learn [1; 2] w_fresh.

Lemma w_learn_run l ml :
  ml_safe w_port_name 1000000 ml →
  ml_run w_port_name ml ((λ x, InMsg (Some (w_seen x))) <$> l) = Done (w_learn l ml) ∧
  ml_safe w_port_name 1000000 (w_learn l ml).
Proof.
  unfold w_learn. revert ml. induction l as [|x l IH]; intros ml Hs; [done|].
  cbn [fmap list_fmap ml_run].
  destruct (ml_step_safe w_port_name 1000000 ml (InMsg (Some (w_seen x)))) as (ml1 & H1 & Hs1);
    [done|done|done|]. rewrite H1. cbn [obind]. destruct (IH ml1 Hs1) as [Hr Hs2].
  fold (fmap (λ x, InMsg (Some (w_seen x))) l). destruct (ml_run _ ml1 _); done.
Qed.

Lemma w_handed_safe : ml_safe w_port_name 1000000 w_handed.
Proof. apply w_learn_run, w_fresh_safe. Qed.

Lemma w_handed_facts :
  ml_hmap_get w_handed = Some false ∧ triggered (w_learn [3] w_handed) = triggered w_handed ∧
  triggered (w_learn [3; 4] w_handed) = S (triggered w_handed).
Proof. vm_compute. done. Qed.

(** Two events fill a buffer; the third is recorded while the bridge reads, and the
    fourth takes the buffer away from it. *)
Lemma handed_buffer_lifetime_witness :
  mlearn_event_tables (w_learn [3] w_handed) false = mlearn_event_tables w_handed false ∧
  curr_mlearn_table_in_use (w_learn [3; 4] w_handed) = false.
Proof.
  destruct w_handed_facts as (Hget & H3 & H4). split.
  - exact (proj1 (proj1 (proj2 (handed_buffer_lifetime w_port_name w_handed false _ _ Hget
      (proj1 (w_learn_run [3] w_handed w_handed_safe)))) H3)).
  - exact (proj2 (proj2 (handed_buffer_lifetime w_port_name w_handed false _ _ Hget
      (proj1 (w_learn_run [3; 4] w_handed w_handed_safe)))) H4).
Defined.
