(* ===== verification/Dev.v ===== *)
(** * The switch device and its TAP interfaces (src/ops-fpa-dev.c, src/ops-fpa-tap.c)

    One device per process, with a reference count, its MAC table and the registry
    of its TAP interfaces; the registry tells two listener threads about interfaces
    through pipes.  The device mutex is part of the state: [true] while the calling
    thread holds it.  Taking it again never returns, since the thread waits for
    itself or, if the mutex checks for that, aborts; both are [Crash Deadlock].  The
    operating system is a parameter. *)

From S2P Require Import Prelude Fpa FpaSim Util Hmap MacLearning.

Local Open Scope string_scope.
Local Open Scope list_scope.
Local Open Scope Z_scope.

(** ** The operating system *)

(** What [system] returns. *)
Inductive wait_status := Exited (code : Z) | Signaled (sig : Z) | WaitOther (n : Z).

Inductive listener_thread := OPS_FPA_THREAD_TAP | OPS_FPA_THREAD_ASIC.

#[export] Instance listener_thread_eq_dec : EqDecision listener_thread.
Proof. solve_decision. Defined.

Class TAP_OS := {
  os : Type;
  (* open of /dev/net/tun: a descriptor or a negative number *)
  os_open_tun : os → Z * os;
  (* TUNSETIFF on a descriptor with flags and a name: the name of the interface or an errno *)
  os_tunsetiff : Z → Z → string → os → (string + Z) * os;
  (* set_nonblocking: 0 or an errno *)
  os_set_nonblocking : Z → os → Z * os;
  os_close : Z → os → os;
  os_system : string → os → wait_status * os;
  (* xpipe: the ends to read from and to write to *)
  os_xpipe : os → Z * Z * os;
  (* whether a command written to a pipe fits *)
  os_write : Z → os → bool * os;
  (* whether a listener thread has ended already, because a signal interrupted it *)
  os_thread_ended : listener_thread → os → bool;
  (* ether_ntoa_r *)
  os_ether_ntoa : mac → string;
  (* the bridge of the default configuration *)
  DEFAULT_BRIDGE_NAME : string
}.

Definition IFNAMSIZ : nat := 16.
Definition IFF_TAP : Z := 0x0002.
Definition IFF_NO_PI : Z := 0x1000.
Definition FPA_INVALID_SWITCH_ID : Z := 0xffff.
Definition FPA_INVALID_INTF_ID : Z := 0xffff.
Definition FPA_DEV_SWITCH_ID_DEFAULT : Z := 0.

Section commands.
Context {W : TAP_OS}.

(** [cmd] is the formatted command; the buffer takes 255 characters of it. *)
Definition ops_fpa_system (cmd : string) (s : os) : option errno * os :=
  let '(ret, s) := os_system (String.substring 0 255 cmd) s in
  match ret with
  | Exited code => (if code =? 0 then None else Some EFAULT, s)
  | Signaled _ => (Some EFAULT, s)
  | WaitOther _ => (Some EFAULT, s)
  end.

Definition ops_fpa_net_if_setup (name : string) (m : mac) (s : os) : option errno * os :=
  let '(rc, s) := ops_fpa_system ("/sbin/ifconfig " +:+ name +:+ " down") s in
  if rc then (Some EFAULT, s) else
  let '(rc, s) := ops_fpa_system ("/sbin/ip link set " +:+ name +:+ " address " +:+ os_ether_ntoa m) s in
  if rc then (Some EFAULT, s) else
  let '(rc, s) := ops_fpa_system ("/sbin/ifconfig " +:+ name +:+ " up") s in
  if rc then (Some EFAULT, s) else (None, s).

Definition ops_fpa_bridge_create (name : string) (m : mac) (s : os) : option errno * os :=
  let '(_, s) := ops_fpa_system ("ip link add name " +:+ name +:+ " type bridge") s in
  let '(rc, s) := ops_fpa_net_if_setup name m s in
  if rc then (Some EPERM, s) else
  let '(rc, s) := ops_fpa_system ("ip link set " +:+ name +:+ " up") s in
  if rc then (Some EPERM, s) else (None, s).

Definition ops_fpa_bridge_delete (name : string) (s : os) : option errno * os :=
  let '(rc, s) := ops_fpa_system ("ip link delete " +:+ name +:+ " type bridge") s in
  if rc then (Some EFAULT, s) else (None, s).

Definition ops_fpa_bridge_port_add (name : string) (s : os) : option errno * os :=
  let '(rc, s) := ops_fpa_system ("ip link set " +:+ name +:+ " master " +:+ DEFAULT_BRIDGE_NAME) s in
  if rc then (Some EFAULT, s) else (None, s).

Definition ops_fpa_bridge_port_rm (name : string) (s : os) : option errno * os :=
  let '(_, s) := ops_fpa_system ("ip link set " +:+ name +:+ " nomaster") s in (None, s).

(** The descriptor and the name of the interface, or a negative number. *)
Definition ops_fpa_tun_alloc (name : string) (flags : Z) (s : os) : Z * string * os :=
  let '(fd, s) := os_open_tun s in
  if fd <? 0 then (fd, name, s) else
  let '(r, s) := os_tunsetiff fd flags name s in
  match r with
  | inr errno => (- errno, name, os_close fd s)
  | inl name => (fd, name, s)
  end.
End commands.

(** ** Data *)

(** [struct tap_if_entry]; [fd] and [portNum] are members of a union, one cell. *)
Record tap_if_entry := {
  te_name : string;
  te_num : Z;
  te_mac : mac
}.

Inductive ctrl_cmd :=
  | OPS_FPA_CMD_THREAD_EXIT
  | OPS_FPA_CMD_ADD_IF (tap_if_name : string) (fd portNum : Z) (m : mac)
  | OPS_FPA_CMD_DEL_IF (fd portNum : Z).

#[export] Instance ctrl_cmd_eq_dec : EqDecision ctrl_cmd.
Proof. solve_decision. Defined.

Section device.
Context {W : TAP_OS} {H : HMAP} {E : ML_ENV}.

(** The pipes hold the commands not read yet, the oldest first. *)
Record tap_info := {
  ti_switchId : Z;
  fd_to_tap_if_map : hmap;
  ti_entries : gmap Z tap_if_entry;
  ctrl_fds : listener_thread → Z * Z;
  pipes : listener_thread → list ctrl_cmd
}.

Record fpa_dev := {
  dev_switchId : Z;
  ref_cnt : Z;
  tap_if_info : option tap_info;
  dev_ml : option fpa_mac_learning
}.

Context {hw : Type}.

(** The process as far as the device is concerned. *)
Record proc := {
  p_dev : option fpa_dev;
  p_mutex : bool;
  p_os : os;
  p_hw : hw
}.

Definition set_dev (d : option fpa_dev) (p : proc) : proc :=
  {| p_dev := d; p_mutex := p_mutex p; p_os := p_os p; p_hw := p_hw p |}.
Definition set_os (s : os) (p : proc) : proc :=
  {| p_dev := p_dev p; p_mutex := p_mutex p; p_os := s; p_hw := p_hw p |}.
Definition set_mutex (b : bool) (p : proc) : proc :=
  {| p_dev := p_dev p; p_mutex := b; p_os := p_os p; p_hw := p_hw p |}.
Definition set_phw (h : hw) (p : proc) : proc :=
  {| p_dev := p_dev p; p_mutex := p_mutex p; p_os := p_os p; p_hw := h |}.
Definition set_tap (t : option tap_info) (d : fpa_dev) : fpa_dev :=
  {| dev_switchId := dev_switchId d; ref_cnt := ref_cnt d; tap_if_info := t; dev_ml := dev_ml d |}.
Definition set_ref_cnt (n : Z) (d : fpa_dev) : fpa_dev :=
  {| dev_switchId := dev_switchId d; ref_cnt := n; tap_if_info := tap_if_info d; dev_ml := dev_ml d |}.
Definition set_ml (ml : option fpa_mac_learning) (d : fpa_dev) : fpa_dev :=
  {| dev_switchId := dev_switchId d; ref_cnt := ref_cnt d; tap_if_info := tap_if_info d; dev_ml := ml |}.

Definition ops_fpa_dev_mutex_lock (p : proc) : outcome proc :=
  if p_mutex p then Crash Deadlock else Done (set_mutex true p).
Definition ops_fpa_dev_mutex_unlock (p : proc) : outcome proc :=
  if p_mutex p then Done (set_mutex false p) else Crash NotReached.

Definition ops_fpa_dev_by_id (dev : option fpa_dev) (switchId : Z) : outcome fpa_dev :=
  match dev with
  | Some d => if dev_switchId d =? switchId then Done d else Crash NotReached
  | None => Crash NotReached
  end.

Definition get_tap_info_by_switch_id (dev : option fpa_dev) (switchId : Z) :
    outcome (option tap_info) :=
  let* d := ops_fpa_dev_by_id dev switchId in Done (tap_if_info d).

(** The call of the mac-learning plugin for the events: [mhmap] says whether the
    argument is not null, and the value stored there is the index of a buffer. *)
Definition ops_fpa_ml_hmap_get (dev : option fpa_dev) (mhmap : bool) :
    outcome (option errno * option (option bool)) :=
  let* d := ops_fpa_dev_by_id dev FPA_DEV_SWITCH_ID_DEFAULT in
  match dev_ml d with
  | None => Crash AssertFailed
  | Some ml =>
      if negb mhmap then Done (Some EINVAL, None) else Done (None, Some (ml_hmap_get ml))
  end.

(** [send_ctrl_cmd] to a thread's pipe; a write that fails is ignored. *)
Definition send_ctrl_cmd (t : listener_thread) (cmd : ctrl_cmd) (info : tap_info) (s : os) :
    tap_info * os :=
  let '(ok, s) := os_write (ctrl_fds info t).2 s in
  if ok : bool then
    ({| ti_switchId := ti_switchId info; fd_to_tap_if_map := fd_to_tap_if_map info;
        ti_entries := ti_entries info; ctrl_fds := ctrl_fds info;
        pipes := λ t', if decide (t' = t) then pipes info t' ++ [cmd] else pipes info t' |}, s)
  else (info, s).

Definition send_all (cmd : ctrl_cmd) (info : tap_info) (s : os) : tap_info * os :=
  let '(info, s) := send_ctrl_cmd OPS_FPA_THREAD_TAP cmd info s in
  send_ctrl_cmd OPS_FPA_THREAD_ASIC cmd info s.

Definition get_if_entry (map : hmap) (key : Z) : option Z := hmap_first_with_hash map key.

(** ** TAP interfaces *)

(** One pipe of [ops_fpa_tap_init]: [None] if an end cannot be made nonblocking. *)
Definition tap_init_pipe (s : os) : option (Z * Z) * os :=
  let '(fds, s) := os_xpipe s in
  let '(rc, s) := os_set_nonblocking fds.1 s in
  if negb (rc =? 0) then (None, os_close fds.1 s) else
  let '(rc, s) := os_set_nonblocking fds.2 s in
  if negb (rc =? 0) then (None, os_close fds.2 s) else
  (Some fds, s).

Definition ops_fpa_tap_init (switchId : Z) (p : proc) : outcome (option tap_info * proc) :=
  if switchId =? FPA_INVALID_SWITCH_ID then Crash AssertFailed else
  let* info := get_tap_info_by_switch_id (p_dev p) switchId in
  match info with
  | Some info => Done (Some info, p)
  | None =>
      let '(tap, s) := tap_init_pipe (p_os p) in
      match tap with
      | None => Done (None, set_os s p)
      | Some tap =>
          let '(asic, s) := tap_init_pipe s in
          match asic with
          | None => Done (None, set_os s p)
          | Some asic =>
              Done (Some {| ti_switchId := switchId; fd_to_tap_if_map := hmap_init; ti_entries := ∅;
                            ctrl_fds := λ t, match t with OPS_FPA_THREAD_TAP => tap
                                             | OPS_FPA_THREAD_ASIC => asic end;
                            pipes := λ _, [] |}, set_os s p)
          end
      end
  end.

Definition set_registry (m : hmap) (es : gmap Z tap_if_entry) (info : tap_info) : tap_info :=
  {| ti_switchId := ti_switchId info; fd_to_tap_if_map := m; ti_entries := es;
     ctrl_fds := ctrl_fds info; pipes := pipes info |}.

(** The result and the value of [*tap_fd], if it was written. *)
Definition ops_fpa_tap_if_create (switchId portNum : Z) (name : string) (m : option mac) (p : proc) :
    outcome (option errno * option Z * proc) :=
  if switchId =? FPA_INVALID_SWITCH_ID then Crash AssertFailed else
  match m with
  | None => Crash AssertFailed
  | Some m =>
      let* p := ops_fpa_dev_mutex_lock p in
      let* d := ops_fpa_dev_by_id (p_dev p) switchId in
      match tap_if_info d with
      | None => Done (Some EFAULT, None, p)
      | Some info =>
          let '(fd, tap_if_name, s) :=
            ops_fpa_tun_alloc (String.substring 0 (IFNAMSIZ - 1) name) (Z.lor IFF_TAP IFF_NO_PI)
              (p_os p) in
          if fd <=? 0 then Done (Some EFAULT, None, set_os s p) else
          let '(rc, s) := os_set_nonblocking fd s in
          if negb (rc =? 0) then Done (Some EFAULT, None, set_os (os_close fd s) p) else
          let '(rc, s) := ops_fpa_net_if_setup tap_if_name m s in
          if rc then Done (Some EFAULT, None, set_os (os_close fd s) p) else
          let q := fresh (dom (ti_entries info)) in
          let if_entry := {| te_name := tap_if_name; te_num := portNum; te_mac := m |} in
          let info := set_registry (hmap_insert (fd_to_tap_if_map info) q fd)
                        (<[q := if_entry]> (ti_entries info)) info in
          let '(info, s) := send_all (OPS_FPA_CMD_ADD_IF tap_if_name fd portNum m) info s in
          let* p := ops_fpa_dev_mutex_unlock (set_os s (set_dev (Some (set_tap (Some info) d)) p)) in
          Done (None, Some fd, p)
      end
  end.

Definition ops_fpa_tap_if_delete (switchId tap_fd : Z) (p : proc) : outcome (option errno * proc) :=
  if switchId =? FPA_INVALID_SWITCH_ID then Crash AssertFailed else
  if tap_fd <=? 0 then Crash AssertFailed else
  let* p := ops_fpa_dev_mutex_lock p in
  let* d := ops_fpa_dev_by_id (p_dev p) switchId in
  match tap_if_info d with
  | None => Done (Some EFAULT, p)
  | Some info =>
      match get_if_entry (fd_to_tap_if_map info) tap_fd with
      | None => Done (Some ENOENT, p)
      | Some q =>
          match ti_entries info !! q with
          | None => Crash Undefined
          | Some if_entry =>
              let '(info, s) := send_all (OPS_FPA_CMD_DEL_IF tap_fd (te_num if_entry)) info (p_os p) in
              let info := set_registry (hmap_remove (fd_to_tap_if_map info) q)
                            (delete q (ti_entries info)) info in
              let* p := ops_fpa_dev_mutex_unlock (set_os s (set_dev (Some (set_tap (Some info) d)) p)) in
              let '(_, s) := ops_fpa_bridge_port_rm (te_name if_entry) (p_os p) in
              let '(_, s) := ops_fpa_system ("/sbin/ifconfig " +:+ te_name if_entry +:+ " down") s in
              Done (None, set_os (os_close tap_fd s) p)
          end
      end
  end.

(** The loop over the interfaces: the descriptor passed is read from the union. *)
Fixpoint tap_deinit_loop (switchId : Z) (qs : list Z) (p : proc) : outcome proc :=
  match qs with
  | [] => Done p
  | q :: qs =>
      let* info := get_tap_info_by_switch_id (p_dev p) switchId in
      match info with
      | None => Crash NullDeref
      | Some info =>
          match ti_entries info !! q with
          | None => Crash Undefined
          | Some e =>
              let* (_, p) := ops_fpa_tap_if_delete switchId (te_num e) p in
              tap_deinit_loop switchId qs p
          end
      end
  end.

(** [xpthread_join] of a listener thread returns once the thread has read the command
    to end, which it does as long as its pipe holds one. *)
Definition join_listener (t : listener_thread) (info : tap_info) (s : os) : outcome unit :=
  if bool_decide (OPS_FPA_CMD_THREAD_EXIT ∈ pipes info t) || os_thread_ended t s
  then Done tt else Crash Deadlock.

(** The part of the last loop of [ops_fpa_tap_deinit] for one thread. *)
Definition stop_listener (t : listener_thread) (info : tap_info) (s : os) : outcome (tap_info * os) :=
  let '(info, s) := send_ctrl_cmd t OPS_FPA_CMD_THREAD_EXIT info s in
  let* _ := join_listener t info s in
  Done (info, os_close (ctrl_fds info t).2 (os_close (ctrl_fds info t).1 s)).

Definition ops_fpa_tap_deinit (switchId : Z) (p : proc) : outcome proc :=
  if switchId =? FPA_INVALID_SWITCH_ID then Crash AssertFailed else
  let* info := get_tap_info_by_switch_id (p_dev p) switchId in
  match info with
  | None => Done p
  | Some info =>
      let* p := tap_deinit_loop switchId (hmap_nodes (fd_to_tap_if_map info)).*1 p in
      let* info := get_tap_info_by_switch_id (p_dev p) switchId in
      match info with
      | None => Crash NullDeref
      | Some info =>
          let* (info, s) := stop_listener OPS_FPA_THREAD_TAP info (p_os p) in
          let* (_, s) := stop_listener OPS_FPA_THREAD_ASIC info s in
          Done (set_os s p)
      end
  end.

(** ** The device *)

Section init.
Context (aging_set : Z → Z → hw → FPA_STATUS * hw) (learning_set : Z → hw → FPA_STATUS * hw).
Context (default_size default_idle : Z) (plugin : bool) (ports : Z → option string).
(* how many messages the event thread is followed for, and the messages to come *)
Context (fuel : nat) (au : nat → FPA_STATUS * FPA_EVENT_ADDRESS_MSG_STC).

(** Only the creation takes a reference, so dropping one frees the table, after the
    event thread has been joined: it runs on until it ends. *)
Definition ops_fpa_mac_learning_unref (ml : option fpa_mac_learning) : outcome unit :=
  match ml with
  | None => Done tt
  | Some ml =>
      let* ml := mac_learning_asic_events_handler fuel ports au ml in
      let* _ := ops_fpa_mac_learning_flush ports ml in
      Done tt
  end.

(** The result and whether [*fdev] is not null, which it is. *)
Definition ops_fpa_dev_init (switchId : Z) (p : proc) : outcome (option errno * proc) :=
  let* p := ops_fpa_dev_mutex_lock p in
  let* (err, p) :=
    match p_dev p with
    | Some d => Done (None, set_dev (Some (set_ref_cnt (u32 (ref_cnt d + 1)) d)) p)
    | None =>
        let d := {| dev_switchId := switchId; ref_cnt := 1; tap_if_info := None; dev_ml := None |} in
        let* (info, p) := ops_fpa_tap_init switchId (set_dev (Some d) p) in
        let d := set_tap info d in
        let '(err, ml, h) := ops_fpa_mac_learning_create aging_set learning_set default_size
                               default_idle switchId plugin (p_hw p) in
        let p := set_phw h (set_dev (Some (set_ml ml d)) p) in
        Done (match err with Some _ => Some EAGAIN | None => None end, p)
    end in
  let* p := ops_fpa_dev_mutex_unlock p in
  Done (err, p).

Definition ops_fpa_dev_deinit (switchId : Z) (p : proc) : outcome proc :=
  let* p := ops_fpa_dev_mutex_lock p in
  let* fdev := ops_fpa_dev_by_id (p_dev p) switchId in
  let fdev := set_ref_cnt (u32 (ref_cnt fdev - 1)) fdev in
  let p := set_dev (Some fdev) p in
  let* p :=
    if ref_cnt fdev =? 0 then
      let* _ := ops_fpa_mac_learning_unref (dev_ml fdev) in
      let* p := ops_fpa_tap_deinit switchId p in
      Done (set_dev None p)
    else Done p in
  ops_fpa_dev_mutex_unlock p.
End init.
End device.

(** ** Reference counting *)

Section dev_properties.
Context {W : TAP_OS} {H : HMAP} {E : ML_ENV} `{!HMAP_LAWS H} {hw : Type}.
Context (aging_set : Z → Z → hw → FPA_STATUS * hw) (learning_set : Z → hw → FPA_STATUS * hw).
Context (default_size default_idle : Z) (plugin : bool) (ports : Z → option string).
Context (fuel : nat) (au : nat → FPA_STATUS * FPA_EVENT_ADDRESS_MSG_STC).

Notation dev_init := (ops_fpa_dev_init aging_set learning_set default_size default_idle plugin).
Notation dev_deinit := (ops_fpa_dev_deinit ports fuel au).

Inductive dev_op := DevInit | DevDeinit.

(** The calls in order, with what each [ops_fpa_dev_init] returned. *)
Fixpoint dev_run (sid : Z) (ops : list dev_op) (p : proc (hw := hw)) :
    outcome (list (option errno) * proc) :=
  match ops with
  | [] => Done ([], p)
  | DevInit :: ops =>
      let* (err, p) := dev_init sid p in
      let* (errs, p) := dev_run sid ops p in Done (err :: errs, p)
  | DevDeinit :: ops => let* p := dev_deinit sid p in dev_run sid ops p
  end.

(** The specification: a counter of users.  The last one does not get the device
    closed, and without users it cannot be closed. *)
Fixpoint dev_users (n : Z) (ops : list dev_op) : outcome Z :=
  match ops with
  | [] => Done n
  | DevInit :: ops => dev_users (n + 1) ops
  | DevDeinit :: ops =>
      if n =? 0 then Crash NotReached else if n =? 1 then OutOfFuel else dev_users (n - 1) ops
  end.

(** A free mutex, and a device with [n] users if there are any, with a registry of
    interfaces that satisfies [T] and a MAC table that satisfies [M]. *)
Definition dev_state (T : option tap_info → Prop) (M : fpa_mac_learning → Prop) (sid n : Z)
    (p : proc (hw := hw)) : Prop :=
  p_mutex p = false ∧
  if n =? 0 then p_dev p = None else
    ∃ d, p_dev p = Some d ∧ dev_switchId d = sid ∧ ref_cnt d = n ∧
      (∃ ml, dev_ml d = Some ml ∧ M ml) ∧ T (tap_if_info d).

(** The registry and the pipes of a device that is opened: none if the operating system
    does not make both ends of both pipes nonblocking. *)
Definition tap_opened (sid : Z) (s : os) : option tap_info :=
  match tap_init_pipe s with
  | (Some tap, s) =>
      match tap_init_pipe s with
      | (Some asic, _) =>
          Some {| ti_switchId := sid; fd_to_tap_if_map := hmap_init; ti_entries := ∅;
                  ctrl_fds := λ t, match t with OPS_FPA_THREAD_TAP => tap | OPS_FPA_THREAD_ASIC => asic end;
                  pipes := λ _, [] |}
      | (None, _) => None
      end
  | (None, _) => None
  end.

Definition no_interfaces (t : option tap_info) : Prop :=
  ∀ info, t = Some info → hmap_nodes (fd_to_tap_if_map info) = [].

Lemma opened_no_interfaces sid s : no_interfaces (tap_opened sid s).
Proof.
  unfold tap_opened, no_interfaces. destruct (tap_init_pipe s) as [[tap|] s1]; [|done].
  destruct (tap_init_pipe s1) as [[asic|] s2]; [|done]. intros i [= <-]. apply hmap_nodes_init.
Qed.

Lemma tap_init_spec sid (p : proc (hw := hw)) d :
  sid ≠ FPA_INVALID_SWITCH_ID → p_dev p = Some d → dev_switchId d = sid → tap_if_info d = None →
  ∃ s, ops_fpa_tap_init sid p = Done (tap_opened sid (p_os p), set_os s p).
Proof.
  intros Hsid Hd <- Htap. unfold ops_fpa_tap_init, get_tap_info_by_switch_id, tap_opened.
  rewrite (proj2 (Z.eqb_neq _ _)) by done. rewrite Hd. simpl. rewrite Z.eqb_refl. simpl. rewrite Htap.
  destruct (tap_init_pipe (p_os p)) as [[tap|] s]; [|by exists s].
  destruct (tap_init_pipe s) as [[asic|] s']; by exists s'.
Qed.

(** The MAC table is made if the switch accepts its settings. *)
Lemma ml_create_cases sid (h : hw) :
  ∃ err ml h', ops_fpa_mac_learning_create aging_set learning_set default_size default_idle sid plugin h =
    (err, ml, h') ∧
    (err = None ∧ ml = Some (ml_new default_size default_idle sid plugin) ∨ err = Some EPERM ∧ ml = None).
Proof.
  unfold ops_fpa_mac_learning_create. destruct (aging_set _ _ h) as [st h1].
  destruct (failed st); [do 3 eexists; eauto|]. destruct (learning_set sid h1) as [st' h2].
  destruct (failed st'); do 3 eexists; eauto.
Qed.

(** Opening the device fails only if it was closed and the switch refuses the settings
    of the MAC table. *)
Lemma dev_init_step T (M : fpa_mac_learning → Prop) sid n (p : proc (hw := hw)) :
  sid ≠ FPA_INVALID_SWITCH_ID → 0 ≤ n < 2 ^ 32 - 1 → dev_state T M sid n p →
  (n = 0 → T (tap_opened sid (p_os p)) ∧ M (ml_new default_size default_idle sid plugin)) →
  ∃ err p', dev_init sid p = Done (err, p') ∧
    match err with
    | None => dev_state T M sid (n + 1) p'
    | Some e => e = EAGAIN ∧ n = 0 ∧
        (ops_fpa_mac_learning_create aging_set learning_set default_size default_idle sid plugin
           (p_hw p)).1.1 = Some EPERM
    end.
Proof.
  intros Hsid Hn [Hm Hst] Hnew. unfold ops_fpa_dev_init, ops_fpa_dev_mutex_lock. rewrite Hm. simpl.
  destruct (Z.eqb_spec n 0) as [->|Hz].
  - rewrite Hst. simpl.
    set (d := {| dev_switchId := sid; ref_cnt := 1; tap_if_info := None; dev_ml := None |}).
    destruct (tap_init_spec sid (set_dev (Some d) (set_mutex true p)) d) as (s & ->); [done..|]. simpl.
    destruct (ml_create_cases sid (p_hw p)) as (err & ml & h' & -> & Hcase). simpl.
    destruct (Hnew eq_refl) as [HT HM].
    destruct Hcase as [[-> ->]|[-> ->]]; do 2 eexists; (split; [done|]); [|done].
    split; [done|]. eexists. split_and!; eauto.
  - destruct Hst as (d & -> & Hsw & Hr & Hml & Htap). simpl. eexists None, _. split; [done|].
    split; [done|]. rewrite (proj2 (Z.eqb_neq (n + 1) 0)) by lia.
    eexists. split; [done|]. simpl. split_and!; [done| |done|done].
    rewrite Hr. apply wrap_small. lia.
Qed.

(** The table cannot be dropped: its event thread is joined and does not end. *)
Lemma unref_hangs B ml :
  0 < BUFFER_SIZE → 1000000 ≤ B → ml_safe ports B ml →
  ops_fpa_mac_learning_unref ports fuel au (Some ml) = OutOfFuel.
Proof. intros Hb HB Hs. unfold ops_fpa_mac_learning_unref. by rewrite (handler_runs ports B). Qed.

Lemma unref_never_returns ml u : ops_fpa_mac_learning_unref ports fuel au (Some ml) ≠ Done u.
Proof. intros (ml' & Hr & _)%obind_done. by apply handler_never_returns in Hr. Qed.

Lemma dev_deinit_step T (M : fpa_mac_learning → Prop) sid n (p : proc (hw := hw)) :
  (∀ ml, M ml → ops_fpa_mac_learning_unref ports fuel au (Some ml) = OutOfFuel) →
  0 ≤ n < 2 ^ 32 → dev_state T M sid n p →
  if n =? 0 then dev_deinit sid p = Crash NotReached
  else if n =? 1 then dev_deinit sid p = OutOfFuel
  else ∃ p', dev_deinit sid p = Done p' ∧ dev_state T M sid (n - 1) p'.
Proof.
  intros HM Hn [Hm Hst]. unfold ops_fpa_dev_deinit, ops_fpa_dev_mutex_lock. rewrite Hm. simpl.
  destruct (Z.eqb_spec n 0) as [->|Hz].
  { by rewrite Hst. }
  destruct Hst as (d & Hd & Hsw & Hr & (ml & Hml & HMml) & Htap).
  rewrite Hd. simpl. rewrite Hsw, Z.eqb_refl. simpl.
  assert (u32 (ref_cnt d - 1) = n - 1) as ->.
  { rewrite Hr. apply wrap_small. lia. }
  destruct (Z.eqb_spec n 1) as [->|Hz1]; simpl.
  - by rewrite Hml, HM.
  - unfold dev_state. rewrite !(proj2 (Z.eqb_neq (n - 1) 0)) by lia. simpl.
    eexists. split; [done|]. split; [done|]. eexists. split_and!; eauto.
Qed.

(** C28: Opening and closing the device refines a counter of users, from the first
    opening if the switch accepts the settings of the MAC table then ([dev_init_failed]
    is about a switch that refuses them).  Every sequence of calls that does not close
    the device for its last user returns: every opening reports success, the mutex is
    free, and the device is there while it has users, with their number, the registry
    and pipes that the operating system gave at the first opening, and the new MAC
    table.  Closing it for the last user never returns, however long its event thread
    is waited for and whatever messages that gets; closing it without users aborts. *)
Theorem dev_refines_counter sid ops (p : proc (hw := hw)) :
  0 < BUFFER_SIZE → 0 ≤ default_size →
  sid ≠ FPA_INVALID_SWITCH_ID → Z.of_nat (length ops) < 2 ^ 32 →
  p_mutex p = false → p_dev p = None →
  (ops_fpa_mac_learning_create aging_set learning_set default_size default_idle sid plugin
     (p_hw p)).1.1 = None →
  match dev_users 0 ops with
  | Done n => ∃ errs p', dev_run sid ops p = Done (errs, p') ∧ Forall (λ err, err = None) errs ∧
      dev_state (λ t, t = tap_opened sid (p_os p))
        (λ ml, ml = ml_new default_size default_idle sid plugin) sid n p'
  | Crash e => dev_run sid ops p = Crash e
  | OutOfFuel => dev_run sid ops p = OutOfFuel
  end.
Proof.
  intros Hb Hds Hsid Hlen Hm Hd Hml.
  set (T := λ t, t = tap_opened sid (p_os p)).
  set (M := λ ml, ml = ml_new default_size default_idle sid plugin).
  assert (∀ ml, M ml → ops_fpa_mac_learning_unref ports fuel au (Some ml) = OutOfFuel) as HM.
  { intros ml ->. eapply unref_hangs; [done| |by apply ml_new_safe]. lia. }
  assert (∀ ops n q, 0 ≤ n → n + Z.of_nat (length ops) < 2 ^ 32 → dev_state T M sid n q →
    (n = 0 → q = p) →
    match dev_users n ops with
    | Done n => ∃ errs p', dev_run sid ops q = Done (errs, p') ∧ Forall (λ err, err = None) errs ∧
        dev_state T M sid n p'
    | Crash e => dev_run sid ops q = Crash e
    | OutOfFuel => dev_run sid ops q = OutOfFuel
    end) as Hgen; [|by apply Hgen; [lia|lia|split|]].
  clear ops Hlen. induction ops as [|[|] ops IH]; intros n q Hn Hlen Hst Hfirst; simpl in *.
  - by exists [], q.
  - destruct (dev_init_step T M sid n q) as (err & p' & -> & Hst'); [done|lia|done| |].
    { intros ->. by rewrite (Hfirst eq_refl). }
    destruct err as [e|].
    { destruct Hst' as (_ & -> & Hfail). rewrite (Hfirst eq_refl), Hml in Hfail. done. }
    cbn [obind]. specialize (IH (n + 1) p' ltac:(lia) ltac:(lia) Hst' ltac:(lia)).
    destruct (dev_users (n + 1) ops) as [k|e|].
    + destruct IH as (errs & q' & -> & Hf & Hs). simpl. do 2 eexists. split_and!; eauto.
    + by rewrite IH.
    + by rewrite IH.
  - pose proof (dev_deinit_step T M sid n q HM ltac:(lia) Hst) as Hstep.
    destruct (Z.eqb_spec n 0) as [->|Hz]; [by rewrite Hstep|].
    destruct (Z.eqb_spec n 1) as [->|Hz1]; [by rewrite Hstep|].
    destruct Hstep as (p' & -> & Hst'). apply IH; [lia|lia|done|lia].
Qed.

(** A device whose MAC table could not be created stays behind: the first call fails
    with [EAGAIN], but the next one finds the device, counts a second user and
    succeeds, and the device has no MAC table. *)
Lemma dev_init_failed sid (p : proc (hw := hw)) e h :
  sid ≠ FPA_INVALID_SWITCH_ID → p_mutex p = false → p_dev p = None →
  ops_fpa_mac_learning_create aging_set learning_set default_size default_idle sid plugin (p_hw p) =
    (Some e, None, h) →
  ∃ p1 d1, dev_init sid p = Done (Some EAGAIN, p1) ∧ p_dev p1 = Some d1 ∧
    ∃ p2 d2, dev_init sid p1 = Done (None, p2) ∧ p_dev p2 = Some d2 ∧ ref_cnt d2 = 2 ∧
      dev_ml d2 = None.
Proof.
  intros Hsid Hm Hd Hml. unfold ops_fpa_dev_init at 1. unfold ops_fpa_dev_mutex_lock. rewrite Hm. simpl.
  rewrite Hd. set (d := {| dev_switchId := sid; ref_cnt := 1; tap_if_info := None; dev_ml := None |}).
  destruct (tap_init_spec sid (set_dev (Some d) (set_mutex true p)) d)
    as (s & ->); [done..|]. simpl. rewrite Hml. simpl.
  do 2 eexists. split; [done|]. split; [done|]. unfold ops_fpa_dev_init. simpl. by do 2 eexists.
Qed.

(** ** The registry of interfaces *)

(** The calls that take the mutex. *)
Definition takes_mutex (p : proc (hw := hw)) : Prop :=
  (∀ sid, dev_init sid p = Crash Deadlock) ∧ (∀ sid, dev_deinit sid p = Crash Deadlock) ∧
  (∀ sid port name m, sid ≠ FPA_INVALID_SWITCH_ID →
     ops_fpa_tap_if_create sid port name (Some m) p = Crash Deadlock) ∧
  (∀ sid fd, sid ≠ FPA_INVALID_SWITCH_ID → 0 < fd →
     ops_fpa_tap_if_delete sid fd p = Crash Deadlock).

Lemma held_deadlocks (p : proc (hw := hw)) : p_mutex p = true → takes_mutex p.
Proof.
  intros Hm.
  split_and!; intros; unfold ops_fpa_dev_init, ops_fpa_dev_deinit, ops_fpa_tap_if_create,
    ops_fpa_tap_if_delete, ops_fpa_dev_mutex_lock; rewrite ?(proj2 (Z.eqb_neq _ _)) by done;
    rewrite ?(proj2 (Z.leb_gt _ _)) by done; by rewrite Hm.
Qed.

(** An interface that cannot be created leaves the device mutex locked: the call
    returns [EFAULT] on every failure of the operating system, and from then on no
    call of that thread that takes the mutex returns. *)
Theorem tap_create_error_keeps_mutex sid port name m (p p' : proc (hw := hw)) e fd :
  sid ≠ FPA_INVALID_SWITCH_ID →
  ops_fpa_tap_if_create sid port name (Some m) p = Done (Some e, fd, p') →
  e = EFAULT ∧ fd = None ∧ takes_mutex p'.
Proof.
  intros Hsid. unfold ops_fpa_tap_if_create, ops_fpa_dev_mutex_lock.
  rewrite (proj2 (Z.eqb_neq _ _)) by done. destruct (p_mutex p); [done|]. simpl.
  intros (d & _ & Hr)%obind_done. revert Hr.
  destruct (tap_if_info d) as [info|]; [|intros [= <- <- <-]; auto using held_deadlocks].
  destruct (ops_fpa_tun_alloc _ _ _) as [[f n] s]. destruct (f <=? 0);
    [intros [= <- <- <-]; auto using held_deadlocks|].
  destruct (os_set_nonblocking f s) as [rc s1]. destruct (negb (rc =? 0));
    [intros [= <- <- <-]; auto using held_deadlocks|].
  destruct (ops_fpa_net_if_setup n m s1) as [[rc'|] s2];
    [intros [= <- <- <-]; auto using held_deadlocks|].
  destruct (send_all _ _ _) as [info' s3]. done.
Qed.

(** Closing the device without a MAC table, as it is left when creating one failed:
    the last user of a device that still has an interface cannot close it, since the
    interfaces are deleted with the mutex held and deleting one takes it again. *)
Theorem deinit_with_interfaces_deadlocks sid (p : proc (hw := hw)) d info :
  sid ≠ FPA_INVALID_SWITCH_ID → p_mutex p = false → p_dev p = Some d → dev_switchId d = sid →
  ref_cnt d = 1 → dev_ml d = None →
  tap_if_info d = Some info → hmap_nodes (fd_to_tap_if_map info) ≠ [] →
  (∀ q k, (q, k) ∈ hmap_nodes (fd_to_tap_if_map info) → ∃ e, ti_entries info !! q = Some e ∧ 0 < te_num e) →
  dev_deinit sid p = Crash Deadlock.
Proof.
  intros Hsid Hm Hd Hsw Hr Hml Hi Hne Hent.
  unfold ops_fpa_dev_deinit, ops_fpa_dev_mutex_lock. rewrite Hm. simpl.
  rewrite Hd. simpl. rewrite Hsw, Z.eqb_refl. simpl. rewrite Hr. simpl. rewrite Hml. simpl.
  unfold ops_fpa_tap_deinit, get_tap_info_by_switch_id.
  rewrite (proj2 (Z.eqb_neq _ _)) by done. simpl. rewrite Hsw, Z.eqb_refl. simpl. rewrite Hi.
  destruct (hmap_nodes (fd_to_tap_if_map info)) as [|[q k] ns]; [done|]. simpl.
  unfold get_tap_info_by_switch_id. simpl. rewrite Hsw, Z.eqb_refl. simpl. rewrite Hi.
  destruct (Hent q k) as (e & -> & Hpos); [by left|].
  destruct (held_deadlocks (set_dev (Some (set_ref_cnt 0 d)) (set_mutex true p)) eq_refl)
    as (_ & _ & _ & Hdel). by rewrite Hdel.
Qed.

(** Whatever the numbers of the interfaces and the MAC table, that close does not
    return. *)
Lemma deinit_with_interfaces_fails sid (p p' : proc (hw := hw)) d info :
  sid ≠ FPA_INVALID_SWITCH_ID → p_dev p = Some d → dev_switchId d = sid → ref_cnt d = 1 →
  tap_if_info d = Some info → hmap_nodes (fd_to_tap_if_map info) ≠ [] →
  dev_deinit sid p ≠ Done p'.
Proof.
  intros Hsid Hd Hsw Hr Hi Hne.
  unfold ops_fpa_dev_deinit, ops_fpa_dev_mutex_lock. destruct (p_mutex p); [done|]. simpl.
  rewrite Hd. simpl. rewrite Hsw, Z.eqb_refl. simpl. rewrite Hr. simpl.
  destruct (dev_ml d) as [ml|]; [by intros (? & (u & Hu%unref_never_returns & _)%obind_done & _)%obind_done|].
  simpl. unfold ops_fpa_tap_deinit, get_tap_info_by_switch_id.
  rewrite (proj2 (Z.eqb_neq _ _)) by done. simpl. rewrite Hsw, Z.eqb_refl. simpl. rewrite Hi.
  destruct (hmap_nodes (fd_to_tap_if_map info)) as [|[q k] ns]; [done|]. simpl.
  unfold get_tap_info_by_switch_id. simpl. rewrite Hsw, Z.eqb_refl. simpl. rewrite Hi.
  destruct (ti_entries info !! q) as [e|]; [|done].
  unfold ops_fpa_tap_if_delete, ops_fpa_dev_mutex_lock. rewrite (proj2 (Z.eqb_neq _ _)) by done.
  by destruct (te_num e <=? 0).
Qed.

Lemma stop_listener_spec t (info : tap_info) s :
  (os_write (ctrl_fds info t).2 s).1 = true →
  ∃ info' s', stop_listener t info s = Done (info', s') ∧ ctrl_fds info' = ctrl_fds info.
Proof.
  intros Hw. unfold stop_listener, send_ctrl_cmd.
  destruct (os_write _ s) as [ok s']. simpl in Hw. subst ok. unfold join_listener. simpl.
  rewrite decide_True by done.
  rewrite bool_decide_eq_true_2 by (apply elem_of_app; right; by left). simpl. by do 2 eexists.
Qed.

(** Without a MAC table and without interfaces the last user closes the device: both
    listeners are told to end and are joined, if their pipes take the command. *)
Theorem deinit_closes_device sid (p : proc (hw := hw)) d :
  (∀ fd s, (os_write fd s).1 = true) →
  sid ≠ FPA_INVALID_SWITCH_ID → p_mutex p = false → p_dev p = Some d → dev_switchId d = sid →
  ref_cnt d = 1 → dev_ml d = None →
  (∀ info, tap_if_info d = Some info → hmap_nodes (fd_to_tap_if_map info) = []) →
  ∃ p', dev_deinit sid p = Done p' ∧ p_dev p' = None ∧ p_mutex p' = false.
Proof.
  intros Hw Hsid Hm Hd Hsw Hr Hml Htap.
  unfold ops_fpa_dev_deinit, ops_fpa_dev_mutex_lock. rewrite Hm. simpl.
  rewrite Hd. simpl. rewrite Hsw, Z.eqb_refl. simpl. rewrite Hr. simpl. rewrite Hml. simpl.
  unfold ops_fpa_tap_deinit, get_tap_info_by_switch_id.
  rewrite (proj2 (Z.eqb_neq _ _)) by done. simpl. rewrite Hsw, Z.eqb_refl. simpl.
  destruct (tap_if_info d) as [info|] eqn:Hi; [|by eexists].
  rewrite (Htap info eq_refl). simpl. rewrite Hsw, Z.eqb_refl. simpl. rewrite Hi.
  destruct (stop_listener_spec OPS_FPA_THREAD_TAP info (p_os p)) as (info1 & s1 & -> & _); [done|]. simpl.
  destruct (stop_listener_spec OPS_FPA_THREAD_ASIC info1 s1) as (info2 & s2 & -> & _); [done|]. simpl.
  by eexists.
Qed.
End dev_properties.

(** ** Tables of interfaces *)

Section tap_view.
Context {H : HMAP} `{!HMAP_LAWS H}.

(** A map of addresses and the entries they point to, seen as a finite map: every
    key has one node, whose entry is in the store. *)
Record tap_view (m : hmap) (es : gmap Z tap_if_entry) (g : gmap Z tap_if_entry) : Prop := {
  view_nodup : NoDup (hmap_nodes m).*1;
  view_stored q k : (q, k) ∈ hmap_nodes m → is_Some (es !! q);
  view_unique q q' k : (q, k) ∈ hmap_nodes m → (q', k) ∈ hmap_nodes m → q = q';
  view_lookup k e : g !! k = Some e ↔ ∃ q, (q, k) ∈ hmap_nodes m ∧ es !! q = Some e
}.

Lemma view_empty : tap_view hmap_init ∅ ∅.
Proof.
  split; rewrite ?hmap_nodes_init.
  - apply NoDup_nil_2.
  - by intros q k ?%not_elem_of_nil.
  - by intros q q' k ?%not_elem_of_nil.
  - intros k e. rewrite lookup_empty. split; [done|]. by intros (q & ?%not_elem_of_nil & _).
Qed.

Lemma view_find m es g k :
  tap_view m es g →
  match get_if_entry m k with
  | None => g !! k = None
  | Some q => ∃ e, (q, k) ∈ hmap_nodes m ∧ es !! q = Some e ∧ g !! k = Some e
  end.
Proof.
  intros V. unfold get_if_entry. destruct (hmap_first_with_hash m k) as [q|] eqn:Hq.
  - apply hmap_first_with_hash_some in Hq. destruct (view_stored _ _ _ V q k Hq) as [e He].
    exists e. split_and!; [done|done|]. apply (view_lookup _ _ _ V). by exists q.
  - rewrite hmap_first_with_hash_none in Hq. destruct (g !! k) as [e|] eqn:Hg; [|done].
    apply (view_lookup _ _ _ V) in Hg as (q & Hin & _). by destruct (Hq q).
Qed.

Lemma view_insert m es g k e :
  tap_view m es g → g !! k = None →
  tap_view (hmap_insert m (fresh (dom es)) k) (<[fresh (dom es) := e]> es) (<[k := e]> g).
Proof.
  intros V Hk. set (q0 := fresh (dom es)).
  assert (∀ q k', (q, k') ∈ hmap_nodes m → q ≠ q0) as Hq0.
  { intros q k' Hin ->. destruct (view_stored _ _ _ V _ _ Hin) as [? ?%elem_of_dom_2].
    by destruct (is_fresh (dom es)). }
  assert (∀ q, (q, k) ∉ hmap_nodes m) as Hnk.
  { intros q Hin. destruct (view_stored _ _ _ V _ _ Hin) as [e' He'].
    assert (g !! k = Some e') by (apply (view_lookup _ _ _ V); by exists q). congruence. }
  split.
  - rewrite hmap_insert_ptrs. apply NoDup_cons. split; [|apply V].
    intros ([q k'] & -> & Hin)%list_elem_of_fmap. by destruct (Hq0 _ _ Hin).
  - intros q k' [[= -> ->]|Hin]%elem_of_hmap_insert; [by rewrite lookup_insert_eq|].
    rewrite lookup_insert_ne by (symmetry; by eapply Hq0). by eapply view_stored.
  - intros q q' k' Hin Hin'. apply elem_of_hmap_insert in Hin, Hin'.
    destruct Hin as [Hin|Hin], Hin' as [Hin'|Hin']; simplify_eq; [done| | |by eapply view_unique].
    + by destruct (Hnk q').
    + by destruct (Hnk q).
  - intros k' e'. destruct (decide (k' = k)) as [->|Hne].
    + rewrite lookup_insert_eq. split.
      * intros [= <-]. exists q0. rewrite lookup_insert_eq. split; [|done]. apply elem_of_hmap_insert. by left.
      * intros (q & [[= ->]|Hin]%elem_of_hmap_insert & He); [|by destruct (Hnk q)].
        by rewrite lookup_insert_eq in He.
    + rewrite lookup_insert_ne by done. rewrite (view_lookup _ _ _ V). split.
      * intros (q & Hin & He). exists q. rewrite lookup_insert_ne by (symmetry; by eapply Hq0).
        split; [|done]. apply elem_of_hmap_insert. by right.
      * intros (q & [[= -> ->]|Hin]%elem_of_hmap_insert & He); [done|].
        rewrite lookup_insert_ne in He by (symmetry; by eapply Hq0). by exists q.
Qed.

Lemma view_delete m es g k q :
  tap_view m es g → get_if_entry m k = Some q →
  tap_view (hmap_remove m q) (delete q es) (delete k g).
Proof.
  intros V Hq. pose proof (view_find m es g k V) as Hf. rewrite Hq in Hf.
  destruct Hf as (e & Hin & He & Hg). pose proof (view_nodup _ _ _ V) as Hnd.
  assert (∀ n, n ∈ hmap_nodes (hmap_remove m q) ↔ n ∈ hmap_nodes m ∧ n.1 ≠ q) as Hrem
    by (intros n; by apply (elem_of_hmap_remove m q k)).
  assert (∀ k', (q, k') ∈ hmap_nodes m → k' = k) as Hqk
    by (intros k' Hin'; by eapply hmap_node_hash).
  split.
  - by eapply hmap_remove_nodup.
  - intros q' k' [Hin' Hne]%Hrem. simpl in Hne. rewrite lookup_delete_ne by done. by eapply view_stored.
  - intros q1 q2 k' [H1 _]%Hrem [H2 _]%Hrem. by eapply view_unique.
  - intros k' e'. destruct (decide (k' = k)) as [->|Hne].
    + rewrite lookup_delete_eq. split; [done|]. intros (q' & [Hin' Hn]%Hrem & _). simpl in Hn.
      destruct Hn. by eapply view_unique.
    + rewrite lookup_delete_ne by done. rewrite (view_lookup _ _ _ V). split.
      * intros (q' & Hin' & He'). assert (q' ≠ q) by (intros ->; by apply Hne, Hqk).
        exists q'. rewrite lookup_delete_ne by done. split; [|done]. by apply Hrem.
      * intros (q' & [Hin' Hn]%Hrem & He'). simpl in Hn. rewrite lookup_delete_ne in He' by done.
        by exists q'.
Qed.
End tap_view.

(** ** Witnesses *)

(** An operating system in which everything succeeds, except opening a TAP device
    if [tun] is false; the state is the next descriptor. *)
Section reference_os.
Variable tun : bool.

#[local] Instance RefOs : TAP_OS := {|
  os := Z;
  os_open_tun s := if tun then (s, s + 1) else (-1, s);
  os_tunsetiff fd flags name s := (inl name, s);
  os_set_nonblocking fd s := (0, s);
  os_close fd s := s;
  os_system cmd s := (Exited 0, s);
  os_xpipe s := (s, s + 1, s + 2);
  os_write fd s := (true, s);
  os_thread_ended t s := false;
  os_ether_ntoa m := "0:0:0:0:0:0";
  DEFAULT_BRIDGE_NAME := "bridge_normal"
|}.
End reference_os.
#[export] Existing Instance RefOs.

#[local] Instance WEnv : ML_ENV := {|
  BUFFER_SIZE := 4; PORT_NAME_SIZE := 16;
  hash_bytes bs basis := foldl Z.add basis bs
|}.
#[local] Instance WHmap : HMAP := ListHmap 16.
#[local] Instance WHmapLaws : HMAP_LAWS WHmap := ListHmapLaws 16.

Definition w_aging (st : FPA_STATUS) (sid t : Z) (h : unit) : FPA_STATUS * unit := (st, h).
Definition w_learning (sid : Z) (h : unit) : FPA_STATUS * unit := (FPA_OK, h).

Definition w_proc (tun : bool) : proc (W := RefOs tun) (hw := unit) :=
  {| p_dev := None; p_mutex := false; p_os := (3 : @os (RefOs tun)); p_hw := tt |}.

(** No message. *)
Definition w_au (n : nat) : FPA_STATUS * FPA_EVENT_ADDRESS_MSG_STC :=
  (FPA_NO_MORE, {| au_msg_type := FPA_EVENT_ADDRESS_UPDATE_NEW_E; portNum := 0; vid := 0; address := [] |}).

Lemma dev_refines_counter_witness :
  (∃ errs p', dev_run (W := RefOs true) (w_aging FPA_OK) w_learning 100 300 true (λ _, None) 5 w_au 0
      [DevInit; DevInit; DevDeinit] (w_proc true) = Done (errs, p') ∧ Forall (λ err, err = None) errs ∧
    dev_state (W := RefOs true) (λ t, t = tap_opened (W := RefOs true) 0 (p_os (w_proc true)))
      (λ ml, ml = ml_new 100 300 0 true) 0 1 p') ∧
  is_Some (tap_opened (W := RefOs true) 0 (p_os (w_proc true))) ∧
  dev_run (W := RefOs true) (w_aging FPA_OK) w_learning 100 300 true (λ _, None) 5 w_au 0
      [DevInit; DevDeinit] (w_proc true) = OutOfFuel.
Proof.
  split; [|split; [by eexists|]].
  - exact (dev_refines_counter (W := RefOs true) (w_aging FPA_OK) w_learning 100 300 true (λ _, None) 5 w_au 0
      [DevInit; DevInit; DevDeinit] (w_proc true)
      ltac:(done) ltac:(done) ltac:(discriminate) ltac:(simpl; lia) eq_refl eq_refl eq_refl).
  - exact (dev_refines_counter (W := RefOs true) (w_aging FPA_OK) w_learning 100 300 true (λ _, None) 5 w_au 0
      [DevInit; DevDeinit] (w_proc true)
      ltac:(done) ltac:(done) ltac:(discriminate) ltac:(simpl; lia) eq_refl eq_refl eq_refl).
Defined.

(** The process after opening the device and creating an interface on port 7. *)
Definition w_opened (tun : bool) : proc (W := RefOs tun) (hw := unit) :=
  match ops_fpa_dev_init (W := RefOs tun) (w_aging FPA_OK) w_learning 100 300 true 0 (w_proc tun) with
  | Done (_, p) => p
  | _ => w_proc tun
  end.

Definition w_mac1 : mac := [2; 0; 0; 0; 0; 1].

Lemma tap_create_error_keeps_mutex_witness :
  ∃ p', ops_fpa_tap_if_create (W := RefOs false) 0 7 "7" (Some w_mac1) (w_opened false) =
      Done (Some EFAULT, None, p') ∧
    takes_mutex (W := RefOs false) (w_aging FPA_OK) w_learning 100 300 true (λ _, None) 5 w_au p'.
Proof.
  eexists. split; [vm_compute; reflexivity|].
  exact (proj2 (proj2 (tap_create_error_keeps_mutex (W := RefOs false) (w_aging FPA_OK) w_learning
    100 300 true (λ _, None) 5 w_au 0 7 "7" w_mac1 (w_opened false) _ EFAULT None ltac:(discriminate)
    ltac:(vm_compute; reflexivity)))).
Defined.

(** The device of one user whose MAC table could not be created. *)
Definition w_failed : proc (W := RefOs true) (hw := unit) :=
  match ops_fpa_dev_init (W := RefOs true) (w_aging FPA_BAD_PARAM) w_learning 100 300 true 0 (w_proc true) with
  | Done (_, p) => p
  | _ => w_proc true
  end.

Definition w_tapped : proc (W := RefOs true) (hw := unit) :=
  match ops_fpa_tap_if_create (W := RefOs true) 0 7 "7" (Some w_mac1) w_failed with
  | Done (_, _, p) => p
  | _ => w_proc true
  end.

Lemma deinit_with_interfaces_deadlocks_witness :
  ops_fpa_dev_deinit (W := RefOs true) (λ _, None) 5 w_au 0 w_tapped = Crash Deadlock.
Proof.
  eapply (deinit_with_interfaces_deadlocks (W := RefOs true) (w_aging FPA_OK) w_learning 100 300 true
    (λ _, None) 5 w_au 0 w_tapped);
    [discriminate|reflexivity|reflexivity|reflexivity|reflexivity|reflexivity|reflexivity|discriminate|].
  intros q k [= -> ->]%list_elem_of_singleton. eexists. split; [vm_compute; reflexivity|]. simpl. lia.
Defined.

Lemma deinit_closes_device_witness :
  ∃ p', ops_fpa_dev_deinit (W := RefOs true) (λ _, None) 5 w_au 0 w_failed = Done p' ∧
    p_dev p' = None ∧ p_mutex p' = false.
Proof.
  eapply (deinit_closes_device (W := RefOs true) (λ _, None) 5 w_au 0 w_failed);
    [done|discriminate|reflexivity|reflexivity|reflexivity|reflexivity|reflexivity|].
  intros info Hi. vm_compute in Hi. injection Hi as <-. reflexivity.
Defined.
