(* ===== verification/Tap.v ===== *)
(** * The packet threads (src/ops-fpa-tap.c)

    [tap_listener] moves frames from the TAP interfaces to the switch and
    [asic_listener] moves them the other way.  Each keeps its own table of
    interfaces, which it learns from the commands in its pipe.  A frame lives in a
    buffer of [FPA_HAL_MAX_MTU_CNS] bytes, [FPA_PKT_SAFEGUARD] bytes from its start,
    so that a VLAN tag can be inserted in front of it. *)

From S2P Require Import Prelude Fpa FpaSim Vlan Route Hmap MacLearning Dev.

Local Open Scope list_scope.
Local Open Scope Z_scope.

Definition FPA_HAL_MAX_MTU_CNS : nat := Z.to_nat 10240.
Definition FPA_PKT_SAFEGUARD : nat := 32.
Definition DOT1Q_LEN : nat := 4.
Definition ETH_ALEN : nat := 6.
Definition ETHERTYPE_VLAN : Z := 0x8100.

(** ** Memory of one buffer *)

Definition buf_read (buf : list Z) (off n : nat) : outcome (list Z) :=
  if decide (off + n ≤ length buf)%nat then Done (take n (drop off buf)) else Crash Undefined.

Definition buf_write (buf : list Z) (off : nat) (bs : list Z) : outcome (list Z) :=
  if decide (off + length bs ≤ length buf)%nat
  then Done (take off buf ++ bs ++ drop (off + length bs) buf) else Crash Undefined.

Definition memmove (buf : list Z) (dst src n : nat) : outcome (list Z) :=
  let* bs := buf_read buf src n in buf_write buf dst bs.

(** Two bytes in network order. *)
Definition be16 (bs : list Z) : Z := match bs with [a; b] => a * 256 + b | _ => 0 end.
Definition to_be16 (z : Z) : list Z := [z / 256 mod 256; z mod 256].

Definition read_be16 (buf : list Z) (off : nat) : outcome Z :=
  let* bs := buf_read buf off 2 in Done (be16 bs).

Definition ops_fpa_get_eth_type (buf : list Z) (pkt : nat) : outcome Z :=
  read_be16 buf (pkt + 2 * ETH_ALEN).

(** ** The tables of the threads *)

Section listeners.
Context {F : FPA_SDK} {H : HMAP}.

Record listener := {
  l_map : hmap;
  l_entries : gmap Z tap_if_entry;
  (* interfaces [select] waits for; only the TAP listener uses it *)
  read_fd_set : gset Z
}.

Definition listener_init : listener :=
  {| l_map := hmap_init; l_entries := ∅; read_fd_set := ∅ |}.

Definition l_add (key num : Z) (name : string) (m : mac) (l : listener) : listener :=
  let q := fresh (dom (l_entries l)) in
  {| l_map := hmap_insert (l_map l) q key;
     l_entries := <[q := {| te_name := name; te_num := num; te_mac := m |}]> (l_entries l);
     read_fd_set := read_fd_set l |}.

Definition l_del (q : Z) (l : listener) : listener :=
  {| l_map := hmap_remove (l_map l) q; l_entries := delete q (l_entries l);
     read_fd_set := read_fd_set l |}.

Definition set_fds (s : gset Z) (l : listener) : listener :=
  {| l_map := l_map l; l_entries := l_entries l; read_fd_set := s |}.

(** A command in the TAP listener, which finds interfaces by descriptor; [None] ends
    the thread. *)
Definition tap_command (cmd : ctrl_cmd) (l : listener) : option listener :=
  match cmd with
  | OPS_FPA_CMD_THREAD_EXIT => None
  | OPS_FPA_CMD_ADD_IF name fd portNum m =>
      Some (set_fds ({[fd]} ∪ read_fd_set l) (l_add fd portNum name m l))
  | OPS_FPA_CMD_DEL_IF fd portNum =>
      match get_if_entry (l_map l) fd with
      | None => Some l
      | Some q => Some (set_fds (read_fd_set l ∖ {[fd]}) (l_del q l))
      end
  end.

(** The ASIC listener finds interfaces by port. *)
Definition asic_command (cmd : ctrl_cmd) (l : listener) : option listener :=
  match cmd with
  | OPS_FPA_CMD_THREAD_EXIT => None
  | OPS_FPA_CMD_ADD_IF name fd portNum m => Some (l_add portNum fd name m l)
  | OPS_FPA_CMD_DEL_IF fd portNum =>
      match get_if_entry (l_map l) portNum with
      | None => Some l
      | Some q => Some (l_del q l)
      end
  end.

Definition command (t : listener_thread) : ctrl_cmd → listener → option listener :=
  match t with OPS_FPA_THREAD_TAP => tap_command | OPS_FPA_THREAD_ASIC => asic_command end.

(** The loop that reads all commands of the pipe. *)
Fixpoint commands (t : listener_thread) (cmds : list ctrl_cmd) (l : listener) : option listener :=
  match cmds with
  | [] => Some l
  | cmd :: cmds => l ← command t cmd l; commands t cmds l
  end.

(** ** Frames from a TAP interface *)

(** What [read] on an interface gave; interrupted calls are repeated. *)
Inductive read_result := ReadBytes (bs : list Z) | ReadWouldBlock | ReadError.

Record sent := { outPortNum : Z; pktDataPtr : nat; pktDataSize : Z }.

Definition get_port_eg_tag_state (switchId portNum vlanId : Z) (h : hw) : errno + bool :=
  let ident := {| groupType := FPA_GROUP_L2_INTERFACE_E; id_portNum := portNum;
                  id_vlanId := u16 vlanId; id_index := 0 |} in
  let '(err, gid) := fpaLibGroupIdentifierBuild ident in
  if failed err then inl EFAULT else
  let '(err, bucket) := fpaLibGroupEntryBucketGet switchId gid 0 h in
  if failed err then inl ENOENT else inr (bucket_pop bucket).

(** One descriptor of the loop; [draining] in the first seconds of the thread.  The
    result is the frame given to [fpaLibPortPktSend], if any, and the buffer. *)
Definition tap_packet (switchId fd : Z) (r : read_result) (draining : bool) (l : listener)
    (buf : list Z) (h : hw) : outcome (option sent * list Z) :=
  let ptr := FPA_PKT_SAFEGUARD in
  match r with
  | ReadError => Done (None, buf)
  | _ =>
      let* (size, buf) :=
        match r with
        | ReadBytes bs => let* buf := buf_write buf ptr bs in Done (Z.of_nat (length bs), buf)
        | _ => Done (u32 (-1), buf)
        end in
      match get_if_entry (l_map l) fd with
      | None => Done (None, buf)
      | Some q =>
          match l_entries l !! q with
          | None => Crash Undefined
          | Some if_entry =>
              if draining then Done (None, buf) else
              let* eth_type := ops_fpa_get_eth_type buf ptr in
              if eth_type =? ETHERTYPE_VLAN then
                let* vid := read_be16 buf (ptr + 14) in
                match get_port_eg_tag_state switchId (te_num if_entry) vid h with
                | inl _ => Done (None, buf)
                | inr pop =>
                    if pop : bool then
                      let* buf := memmove buf (ptr + DOT1Q_LEN) ptr (2 * ETH_ALEN) in
                      Done (Some {| outPortNum := te_num if_entry; pktDataPtr := ptr + DOT1Q_LEN;
                                    pktDataSize := u32 (size - Z.of_nat DOT1Q_LEN) |}, buf)
                    else Done (Some {| outPortNum := te_num if_entry; pktDataPtr := ptr;
                                       pktDataSize := size |}, buf)
                end
              else
                let* shost := buf_read buf (ptr + ETH_ALEN) ETH_ALEN in
                if decide (shost = te_mac if_entry) then
                  Done (Some {| outPortNum := te_num if_entry; pktDataPtr := ptr;
                                pktDataSize := size |}, buf)
                else Done (None, buf)
          end
      end
  end.

(** ** Frames from the switch *)

(** [data] is what [fpaLibPktReceive] put into the buffer.  The result is the
    descriptor, the start and the size of what is written to it. *)
Definition asic_packet (internal_vlans : bitmap) (inPortNum vid : Z) (data : list Z) (l : listener)
    (buf : list Z) : outcome (option (Z * nat * Z) * list Z) :=
  let ptr := FPA_PKT_SAFEGUARD in
  let* buf := buf_write buf ptr data in
  let size := Z.of_nat (length data) in
  let* eth_type := ops_fpa_get_eth_type buf ptr in
  let* (ptr, size, buf) :=
    if negb (ops_fpa_vlan_internal internal_vlans vid) && negb (eth_type =? ETHERTYPE_VLAN) then
      let* buf := memmove buf (ptr - DOT1Q_LEN) ptr (2 * ETH_ALEN) in
      let ptr := (ptr - DOT1Q_LEN)%nat in
      let* buf := buf_write buf (ptr + 12) (to_be16 ETHERTYPE_VLAN) in
      let* buf := buf_write buf (ptr + 14) (to_be16 vid) in
      Done (ptr, size + Z.of_nat DOT1Q_LEN, buf)
    else Done (ptr, size, buf) in
  match get_if_entry (l_map l) inPortNum with
  | None => Done (None, buf)
  | Some q =>
      match l_entries l !! q with
      | None => Crash Undefined
      | Some if_entry => Done (Some (te_num if_entry, ptr, size), buf)
      end
  end.
End listeners.

(** ** The threads follow the registry *)

Section follow.
Context {W : TAP_OS} {H : HMAP} `{!HMAP_LAWS H} {E : ML_ENV} {hw0 : Type}.

(** What a command does to the table of a thread, keyed by descriptor or by port. *)
Definition spec_command (t : listener_thread) (cmd : ctrl_cmd) (g : gmap Z tap_if_entry) :
    gmap Z tap_if_entry :=
  match cmd, t with
  | OPS_FPA_CMD_THREAD_EXIT, _ => g
  | OPS_FPA_CMD_ADD_IF name fd port m, OPS_FPA_THREAD_TAP =>
      <[fd := {| te_name := name; te_num := port; te_mac := m |}]> g
  | OPS_FPA_CMD_ADD_IF name fd port m, OPS_FPA_THREAD_ASIC =>
      <[port := {| te_name := name; te_num := fd; te_mac := m |}]> g
  | OPS_FPA_CMD_DEL_IF fd _, OPS_FPA_THREAD_TAP => delete fd g
  | OPS_FPA_CMD_DEL_IF _ port, OPS_FPA_THREAD_ASIC => delete port g
  end.

Definition cmd_key (t : listener_thread) (fd port : Z) : Z :=
  match t with OPS_FPA_THREAD_TAP => fd | OPS_FPA_THREAD_ASIC => port end.

(** Commands a thread with table [g] can follow: no exit, new interfaces are new. *)
Fixpoint cmds_ok (t : listener_thread) (cmds : list ctrl_cmd) (g : gmap Z tap_if_entry) : Prop :=
  match cmds with
  | [] => True
  | cmd :: cmds =>
      match cmd with
      | OPS_FPA_CMD_THREAD_EXIT => False
      | OPS_FPA_CMD_ADD_IF _ fd port _ => g !! cmd_key t fd port = None
      | OPS_FPA_CMD_DEL_IF _ _ => True
      end ∧ cmds_ok t cmds (spec_command t cmd g)
  end.

Definition spec_commands (t : listener_thread) (cmds : list ctrl_cmd) (g : gmap Z tap_if_entry) :=
  foldl (λ g cmd, spec_command t cmd g) g cmds.

(** A thread's table; the TAP listener waits for the interfaces in it. *)
Definition listener_view (t : listener_thread) (l : listener) (g : gmap Z tap_if_entry) : Prop :=
  tap_view (l_map l) (l_entries l) g ∧ (t = OPS_FPA_THREAD_TAP → read_fd_set l = dom g).

Lemma command_step t cmd l g cmds :
  listener_view t l g → cmds_ok t (cmd :: cmds) g →
  ∃ l', command t cmd l = Some l' ∧ listener_view t l' (spec_command t cmd g) ∧
    cmds_ok t cmds (spec_command t cmd g).
Proof.
  intros [V Hfd] [Hok Hcmds]. destruct cmd as [|name fd port m|fd port]; [done| |].
  - exists (match t with
            | OPS_FPA_THREAD_TAP => set_fds ({[fd]} ∪ read_fd_set l) (l_add fd port name m l)
            | OPS_FPA_THREAD_ASIC => l_add port fd name m l end).
    destruct t; simpl in *; (split; [done|]); (split; [|done]); (split; [by apply view_insert|]).
    + intros _. by rewrite dom_insert_L, Hfd.
    + done.
  - pose proof (view_find _ _ _ (cmd_key t fd port) V) as Hf.
    destruct t; simpl in *;
      (destruct (get_if_entry (l_map l) _) as [q|] eqn:Hq;
        [eexists; split; [done|]; split; [|done]; split; [by apply view_delete|]
        |exists l; split; [done|]; rewrite delete_id in Hcmds |- * by done; done]).
    + intros _. simpl. by rewrite dom_delete_L, Hfd.
    + done.
Qed.

Lemma commands_follow t cmds l g :
  listener_view t l g → cmds_ok t cmds g →
  ∃ l', commands t cmds l = Some l' ∧ listener_view t l' (spec_commands t cmds g).
Proof.
  revert l g. induction cmds as [|cmd cmds IH]; intros l g V Hok; [by exists l|].
  destruct (command_step t cmd l g cmds V Hok) as (l' & Hc & V' & Hok').
  destruct (IH l' _ V' Hok') as (l2 & Hl2 & V2). exists l2. simpl. by rewrite Hc.
Qed.

Lemma cmds_ok_app t cmds cmds' g :
  cmds_ok t (cmds ++ cmds') g ↔ cmds_ok t cmds g ∧ cmds_ok t cmds' (spec_commands t cmds g).
Proof.
  revert g. induction cmds as [|cmd cmds IH]; intros g; simpl; [tauto|]. rewrite IH.
  unfold spec_commands. simpl. tauto.
Qed.

Lemma spec_commands_app t cmds cmds' g :
  spec_commands t (cmds ++ cmds') g = spec_commands t cmds' (spec_commands t cmds g).
Proof. apply foldl_app. Qed.

(** ** Creating and deleting an interface *)

(** A command is appended to a pipe or, if the pipe does not take it, lost. *)
Definition sent_or_lost (cmd : ctrl_cmd) (q q' : list ctrl_cmd) : Prop := q' = q ++ [cmd] ∨ q' = q.

Lemma send_all_ok cmd (info : tap_info) s :
  ∃ info' s', send_all cmd info s = (info', s') ∧
    fd_to_tap_if_map info' = fd_to_tap_if_map info ∧ ti_entries info' = ti_entries info ∧
    ∀ t, sent_or_lost cmd (pipes info t) (pipes info' t).
Proof.
  unfold send_all, send_ctrl_cmd, sent_or_lost. destruct (os_write _ s) as [[] s1];
    match goal with |- context [os_write ?fd ?s] => destruct (os_write fd s) as [[] s2] end;
    do 2 eexists; (split; [done|]); (split_and!; [done|done|]); intros []; simpl; auto.
Qed.

(** The registry of a process. *)
Definition registry (p : proc (hw := hw0)) : option tap_info := d ← p_dev p; tap_if_info d.

Lemma tap_create_ok sid port name m (p p' : proc (hw := hw0)) fd :
  ops_fpa_tap_if_create sid port name (Some m) p = Done (None, Some fd, p') →
  ∃ name' info info', registry p = Some info ∧ registry p' = Some info' ∧
    let e := {| te_name := name'; te_num := port; te_mac := m |} in
    let q := fresh (dom (ti_entries info)) in
    fd_to_tap_if_map info' = hmap_insert (fd_to_tap_if_map info) q fd ∧
    ti_entries info' = <[q := e]> (ti_entries info) ∧
    ∀ t, sent_or_lost (OPS_FPA_CMD_ADD_IF name' fd port m) (pipes info t) (pipes info' t).
Proof.
  unfold ops_fpa_tap_if_create, ops_fpa_dev_mutex_lock, registry.
  destruct (sid =? FPA_INVALID_SWITCH_ID); [done|]. destruct (p_mutex p); [done|]. simpl.
  destruct (p_dev p) as [d|]; [|done]. simpl. destruct (dev_switchId d =? sid); [|done]. simpl.
  destruct (tap_if_info d) as [info|]; [|done].
  destruct (ops_fpa_tun_alloc _ _ _) as [[f n] s]. destruct (f <=? 0); [done|].
  destruct (os_set_nonblocking f s) as [rc s1]. destruct (negb (rc =? 0)); [done|].
  destruct (ops_fpa_net_if_setup n m s1) as [[rc'|] s2]; [done|].
  match goal with |- context [send_all ?c ?i ?s] =>
    destruct (send_all_ok c i s) as (info' & s3 & -> & Hm & He & Hp) end.
  simpl. intros [= <- <-]. exists n, info, info'. by split_and!.
Qed.

Lemma tap_delete_ok sid fd (p p' : proc (hw := hw0)) :
  ops_fpa_tap_if_delete sid fd p = Done (None, p') →
  ∃ q e info info', registry p = Some info ∧ registry p' = Some info' ∧
    get_if_entry (fd_to_tap_if_map info) fd = Some q ∧ ti_entries info !! q = Some e ∧
    fd_to_tap_if_map info' = hmap_remove (fd_to_tap_if_map info) q ∧
    ti_entries info' = delete q (ti_entries info) ∧
    ∀ t, sent_or_lost (OPS_FPA_CMD_DEL_IF fd (te_num e)) (pipes info t) (pipes info' t).
Proof.
  unfold ops_fpa_tap_if_delete, ops_fpa_dev_mutex_lock, registry.
  destruct (sid =? FPA_INVALID_SWITCH_ID); [done|]. destruct (fd <=? 0); [done|].
  destruct (p_mutex p); [done|]. simpl.
  destruct (p_dev p) as [d|]; [|done]. simpl. destruct (dev_switchId d =? sid); [|done]. simpl.
  destruct (tap_if_info d) as [info|]; [|done].
  destruct (get_if_entry (fd_to_tap_if_map info) fd) as [q|] eqn:Hq; [|done].
  destruct (ti_entries info !! q) as [e|] eqn:He; [|done].
  match goal with |- context [send_all ?c ?i ?s] =>
    destruct (send_all_ok c i s) as (info' & s3 & -> & Hm & Hes & Hp) end.
  simpl. destruct (ops_fpa_bridge_port_rm _ _) as [? s4]. destruct (ops_fpa_system _ _) as [? s5].
  intros [= <-]. exists q, e, info. eexists. simpl. rewrite Hm, Hes. by split_and!.
Qed.

(** A call that fails leaves the registry and the pipes alone. *)
Lemma tap_create_failed sid port name m (p p' : proc (hw := hw0)) e fd :
  ops_fpa_tap_if_create sid port name m p = Done (Some e, fd, p') → registry p' = registry p.
Proof.
  unfold ops_fpa_tap_if_create, ops_fpa_dev_mutex_lock, registry.
  destruct (sid =? FPA_INVALID_SWITCH_ID); [done|]. destruct m as [m|]; [|done].
  destruct (p_mutex p); [done|]. simpl. intros (d & _ & Hr)%obind_done. revert Hr.
  destruct (tap_if_info d) as [info|]; [|by intros [= _ _ <-]].
  destruct (ops_fpa_tun_alloc _ _ _) as [[f n] s]. destruct (f <=? 0); [by intros [= _ _ <-]|].
  destruct (os_set_nonblocking f s) as [rc s1]. destruct (negb (rc =? 0)); [by intros [= _ _ <-]|].
  destruct (ops_fpa_net_if_setup n m s1) as [[rc'|] s2]; [by intros [= _ _ <-]|].
  by destruct (send_all _ _ _) as [info' s3].
Qed.

Lemma tap_delete_failed sid fd (p p' : proc (hw := hw0)) e :
  ops_fpa_tap_if_delete sid fd p = Done (Some e, p') → registry p' = registry p.
Proof.
  unfold ops_fpa_tap_if_delete, ops_fpa_dev_mutex_lock, registry.
  destruct (sid =? FPA_INVALID_SWITCH_ID); [done|]. destruct (fd <=? 0); [done|].
  destruct (p_mutex p); [done|]. simpl. intros (d & _ & Hr)%obind_done. revert Hr.
  destruct (tap_if_info d) as [info|]; [|by intros [= _ <-]].
  destruct (get_if_entry (fd_to_tap_if_map info) fd) as [q|]; [|by intros [= _ <-]].
  destruct (ti_entries info !! q) as [e'|]; [|done].
  destruct (send_all _ _ _) as [info' s3]. simpl.
  destruct (ops_fpa_bridge_port_rm _ _) as [? s4]. by destruct (ops_fpa_system _ _) as [? s5].
Qed.

(** ** The system: the process and the tables of the two threads *)

Record tap_sys := { sys_proc : proc (hw := hw0); sys_listener : listener_thread → listener }.

Definition set_pipe (t : listener_thread) (cmds : list ctrl_cmd) (info : tap_info) : tap_info :=
  {| ti_switchId := ti_switchId info; fd_to_tap_if_map := fd_to_tap_if_map info;
     ti_entries := ti_entries info; ctrl_fds := ctrl_fds info;
     pipes := λ t', if decide (t' = t) then cmds else pipes info t' |}.

Definition upd_registry (info : tap_info) (p : proc (hw := hw0)) : proc :=
  set_dev (set_tap (Some info) <$> p_dev p) p.

(** A thread reads its next command. *)
Inductive tap_listen : tap_sys → tap_sys → Prop :=
  | TapListen t info cmd cmds l p ls :
      registry p = Some info → pipes info t = cmd :: cmds → command t cmd (ls t) = Some l →
      tap_listen {| sys_proc := p; sys_listener := ls |}
        {| sys_proc := upd_registry (set_pipe t cmds info) p;
           sys_listener := λ t', if decide (t' = t) then l else ls t' |}.

(** Creating an interface on a port that has none, with a descriptor that is not
    open; deleting one; either call failing; a thread reading its next command.  The
    label says whether the step is a call that writes commands to the pipes. *)
Inductive tap_step : tap_sys → bool → tap_sys → Prop :=
  | TapCreate sid port name m fd info p p' ls :
      registry p = Some info →
      (∀ q k e, (q, k) ∈ hmap_nodes (fd_to_tap_if_map info) → ti_entries info !! q = Some e →
         k ≠ fd ∧ te_num e ≠ port) →
      ops_fpa_tap_if_create sid port name (Some m) p = Done (None, Some fd, p') →
      tap_step {| sys_proc := p; sys_listener := ls |} true {| sys_proc := p'; sys_listener := ls |}
  | TapDelete sid fd p p' ls :
      ops_fpa_tap_if_delete sid fd p = Done (None, p') →
      tap_step {| sys_proc := p; sys_listener := ls |} true {| sys_proc := p'; sys_listener := ls |}
  | TapCreateFailed sid port name m e fd p p' ls :
      ops_fpa_tap_if_create sid port name m p = Done (Some e, fd, p') →
      tap_step {| sys_proc := p; sys_listener := ls |} false {| sys_proc := p'; sys_listener := ls |}
  | TapDeleteFailed sid fd e p p' ls :
      ops_fpa_tap_if_delete sid fd p = Done (Some e, p') →
      tap_step {| sys_proc := p; sys_listener := ls |} false {| sys_proc := p'; sys_listener := ls |}
  | TapThread s s' : tap_listen s s' → tap_step s false s'.

Definition pipe_of (t : listener_thread) (s : tap_sys) : list ctrl_cmd :=
  match registry (sys_proc s) with Some info => pipes info t | None => [] end.

(** A run from [s0], with the threads a command for which was lost because their pipe
    did not take it. *)
Inductive tap_run (s0 : tap_sys) : (listener_thread → Prop) → tap_sys → Prop :=
  | tap_run_start : tap_run s0 (λ _, False) s0
  | tap_run_step lost s writes s' :
      tap_run s0 lost s → tap_step s writes s' →
      tap_run s0 (λ t, lost t ∨ writes = true ∧ pipe_of t s' = pipe_of t s) s'.

(** The table a thread should have for the interfaces [g]: the same by descriptor,
    the inverse by port. *)
Definition thread_table (t : listener_thread) (g gt : gmap Z tap_if_entry) : Prop :=
  match t with
  | OPS_FPA_THREAD_TAP => gt = g
  | OPS_FPA_THREAD_ASIC =>
      ∀ port e, gt !! port = Some e ↔
        g !! te_num e = Some {| te_name := te_name e; te_num := port; te_mac := te_mac e |}
  end.

Definition ports_once (g : gmap Z tap_if_entry) : Prop :=
  ∀ fd fd' e e', g !! fd = Some e → g !! fd' = Some e' → te_num e = te_num e' → fd = fd'.

Definition tap_inv (lost : listener_thread → Prop) (s : tap_sys) : Prop :=
  ∃ info g, registry (sys_proc s) = Some info ∧
    tap_view (fd_to_tap_if_map info) (ti_entries info) g ∧ ports_once g ∧
    ∀ t, OPS_FPA_CMD_THREAD_EXIT ∉ pipes info t ∧
      (¬ lost t → ∃ gt, listener_view t (sys_listener s t) gt ∧ cmds_ok t (pipes info t) gt ∧
        thread_table t g (spec_commands t (pipes info t) gt)).

Lemma thread_table_add t g gt name fd port m :
  thread_table t g gt → g !! fd = None → (∀ fd' e, g !! fd' = Some e → te_num e ≠ port) →
  gt !! cmd_key t fd port = None ∧
  thread_table t (<[fd := {| te_name := name; te_num := port; te_mac := m |}]> g)
    (spec_command t (OPS_FPA_CMD_ADD_IF name fd port m) gt).
Proof.
  intros Ht Hfd Hport. destruct t; simpl in *.
  { by subst. }
  split.
  { destruct (gt !! port) as [e|] eqn:He; [|done]. apply Ht in He. by apply Hport in He. }
  intros port' [n f m']. simpl. destruct (decide (port' = port)) as [->|Hp].
  - rewrite lookup_insert_eq. destruct (decide (f = fd)) as [->|Hf].
    + rewrite lookup_insert_eq. split; by intros [= <- <-].
    + rewrite lookup_insert_ne by done. split; [by intros [= <- <- <-]|].
      intros Hg. by apply Hport in Hg.
  - rewrite lookup_insert_ne by done. rewrite Ht. simpl. destruct (decide (f = fd)) as [->|Hf].
    + rewrite lookup_insert_eq, Hfd. split; [done|]. intros [= _ Heq _]. congruence.
    + by rewrite lookup_insert_ne.
Qed.

Lemma thread_table_del t g gt fd e :
  thread_table t g gt → ports_once g → g !! fd = Some e →
  thread_table t (delete fd g) (spec_command t (OPS_FPA_CMD_DEL_IF fd (te_num e)) gt).
Proof.
  intros Ht Hinj Hfd. destruct t; simpl in *; [by subst|].
  intros port [n f m]. simpl. destruct (decide (port = te_num e)) as [->|Hp].
  - rewrite lookup_delete_eq. split; [done|]. destruct (decide (f = fd)) as [->|Hf].
    + by rewrite lookup_delete_eq.
    + rewrite lookup_delete_ne by done. intros Hg. destruct Hf. by eapply Hinj.
  - rewrite lookup_delete_ne by done. rewrite Ht. simpl. destruct (decide (f = fd)) as [->|Hf].
    + rewrite lookup_delete_eq, Hfd. split; [|done]. intros [= ->]. by destruct Hp.
    + by rewrite lookup_delete_ne.
Qed.

Lemma sent_not_exit cmd q q' :
  cmd ≠ OPS_FPA_CMD_THREAD_EXIT → sent_or_lost cmd q q' →
  OPS_FPA_CMD_THREAD_EXIT ∉ q → OPS_FPA_CMD_THREAD_EXIT ∉ q'.
Proof. intros Hc [->| ->] Hq; [|done]. rewrite not_elem_of_app, list_elem_of_singleton. naive_solver. Qed.

(** A thread that was not sent a command lost it. *)
Lemma sent_unless_lost cmd q q' : sent_or_lost cmd q q' → q' ≠ q → q' = q ++ [cmd].
Proof. by intros [->| ->]. Qed.

Lemma tap_step_inv lost s writes s' :
  tap_step s writes s' → tap_inv lost s →
  tap_inv (λ t, lost t ∨ writes = true ∧ pipe_of t s' = pipe_of t s) s'.
Proof.
  intros [sid port name m fd info p p' ls Hinfo Hnew Hrun|sid fd p p' ls Hrun
    |sid port name m e fd p p' ls Hrun|sid fd e p p' ls Hrun
    |_ _ [t info cmd cmds l p ls Hinfo Hpipe Hcmd]] (info0 & g & Hinfo0 & V & Hinj & Ht);
    unfold pipe_of; simpl in *.
  - destruct (tap_create_ok _ _ _ _ _ _ _ Hrun) as (name' & i & info' & Hi & Hinfo' & Hm & He & Hp).
    simplify_eq. assert (∀ k e, g !! k = Some e → k ≠ fd ∧ te_num e ≠ port) as Hfree.
    { intros k e (q & Hin & Hq)%(view_lookup _ _ _ V). by eapply Hnew. }
    assert (g !! fd = None) as Hfd by (destruct (g !! fd) as [e|] eqn:Hg; [|done]; by destruct (Hfree _ _ Hg)).
    eexists info', _. split; [done|]. rewrite Hm, He.
    split; [by apply view_insert|]. split.
    + intros k k' e e'. rewrite !lookup_insert_Some.
      intros [[<- <-]|[? Hk]] [[<- <-]|[? Hk']]; [done| | |by eapply Hinj]; simpl; intros Heq.
      * by destruct (Hfree _ _ Hk') as [_ []].
      * by destruct (Hfree _ _ Hk) as [_ []].
    + intros t. destruct (Ht t) as [Hx Htt]. split; [eapply sent_not_exit; [|exact (Hp t)|exact Hx]; done|].
      repeat match goal with E : registry _ = _ |- _ => rewrite E end.
      intros Hnl. destruct Htt as (gt & Hl & Hok & Htab); [tauto|].
      exists gt. split; [done|]. rewrite (sent_unless_lost _ _ _ (Hp t)) by tauto.
      destruct (thread_table_add t g _ name' fd port m Htab Hfd) as [Hkey Htab'];
        [intros; by eapply Hfree|].
      rewrite cmds_ok_app, spec_commands_app. by split_and!.
  - destruct (tap_delete_ok _ _ _ _ Hrun) as (q & e & i & info' & Hi & Hinfo' & Hq & He & Hm & Hes & Hp).
    simplify_eq. pose proof (view_find _ _ _ fd V) as Hf. rewrite Hq in Hf.
    destruct Hf as (e' & _ & He' & Hg). simplify_eq. eexists info', _. split; [done|].
    rewrite Hm, Hes. split; [by apply view_delete|]. split.
    + intros k k' e1 e2 [_ H1]%lookup_delete_Some [_ H2]%lookup_delete_Some. by eapply Hinj.
    + intros t. destruct (Ht t) as [Hx Htt]. split; [eapply sent_not_exit; [|exact (Hp t)|exact Hx]; done|].
      repeat match goal with E : registry _ = _ |- _ => rewrite E end.
      intros Hnl. destruct Htt as (gt & Hl & Hok & Htab); [tauto|].
      exists gt. split; [done|]. rewrite (sent_unless_lost _ _ _ (Hp t)) by tauto.
      rewrite cmds_ok_app, spec_commands_app. split; [done|]. by apply thread_table_del.
  - exists info0, g. simpl. rewrite (tap_create_failed _ _ _ _ _ _ _ _ Hrun).
    do 3 (split; [done|]). intros t. destruct (Ht t) as [Hx Htt].
    split; [done|]. intros Hnl. apply Htt. tauto.
  - exists info0, g. simpl. rewrite (tap_delete_failed _ _ _ _ _ Hrun).
    do 3 (split; [done|]). intros t. destruct (Ht t) as [Hx Htt].
    split; [done|]. intros Hnl. apply Htt. tauto.
  - simplify_eq. exists (set_pipe t cmds info), g. split.
    { unfold registry, upd_registry in *. simpl. by destruct (p_dev p). }
    split; [done|]. split; [done|]. intros t'. destruct (Ht t') as [Hx Htt]. simpl.
    destruct (decide (t' = t)) as [->|]; [|split; [done|]; intros Hnl; apply Htt; tauto].
    rewrite Hpipe in Hx, Htt. apply not_elem_of_cons in Hx as [_ Hx]. split; [done|].
    intros Hnl. destruct Htt as (gt & Hl & Hok & Htab); [tauto|].
    destruct (command_step t cmd (ls t) gt cmds Hl Hok) as (l' & Hl' & V' & Hok').
    simplify_eq. by exists (spec_command t cmd gt).
Qed.

(** A device without interfaces, before the threads have read anything. *)
Definition tap_start (s : tap_sys) : Prop :=
  ∃ info, registry (sys_proc s) = Some info ∧ fd_to_tap_if_map info = hmap_init ∧
    ti_entries info = ∅ ∧ (∀ t, pipes info t = []) ∧ ∀ t, sys_listener s t = listener_init.

Lemma tap_start_inv s : tap_start s → tap_inv (λ _, False) s.
Proof.
  intros (info & Hi & Hm & He & Hp & Hl). exists info, ∅. rewrite Hm, He.
  split; [done|]. split; [by apply view_empty|].
  split; [by intros ????; rewrite lookup_empty|]. intros t. rewrite Hp, Hl.
  split; [apply not_elem_of_nil|]. intros _. exists ∅.
  split; [split; [by apply view_empty|done]|]. split; [done|].
  destruct t; [done|]. intros port e. simpl. by rewrite !lookup_empty.
Qed.

Lemma tap_run_inv s0 lost s : tap_start s0 → tap_run s0 lost s → tap_inv lost s.
Proof. intros Hs. induction 1; [by apply tap_start_inv|by eapply tap_step_inv]. Qed.

(** C23: The threads follow the registry.  Take any interleaving of creating interfaces
    (on ports that have none), deleting them, calls of both that fail, and commands
    read by the threads, in which any write to a pipe may fail.  A thread no command
    was lost for, and that reads the commands left in its pipe, ends with the table of
    the interfaces registered: the TAP listener by descriptor, waiting for exactly
    those descriptors, and the ASIC listener the inverse, by port. *)
Theorem listeners_follow_registry s0 lost s :
  tap_start s0 → tap_run s0 lost s →
  ∃ info g, registry (sys_proc s) = Some info ∧
    tap_view (fd_to_tap_if_map info) (ti_entries info) g ∧
    ∀ t, ¬ lost t → ∃ l gt, commands t (pipes info t) (sys_listener s t) = Some l ∧
      listener_view t l gt ∧ thread_table t g gt.
Proof.
  intros Hs Hrun. destruct (tap_run_inv s0 lost s Hs Hrun) as (info & g & Hinfo & V & _ & Ht).
  exists info, g. split; [done|]. split; [done|]. intros t Hnl.
  destruct (proj2 (Ht t) Hnl) as (gt & Hlv & Hok & Htab).
  destruct (commands_follow t _ _ _ Hlv Hok) as (l & Hc & Hlv').
  by exists l, (spec_commands t (pipes info t) gt).
Qed.

(** ** Catching up

    The commands in the pipes, and the state the threads work towards: nothing to
    read and the table of each thread that of the registry. *)

Definition pending (s : tap_sys) : nat :=
  match registry (sys_proc s) with
  | Some info => (length (pipes info OPS_FPA_THREAD_TAP) + length (pipes info OPS_FPA_THREAD_ASIC))%nat
  | None => 0
  end.

Definition caught_up (t : listener_thread) (s : tap_sys) : Prop :=
  ∃ info g, registry (sys_proc s) = Some info ∧
    tap_view (fd_to_tap_if_map info) (ti_entries info) g ∧ pipes info t = [] ∧
    ∃ gt, listener_view t (sys_listener s t) gt ∧ thread_table t g gt.

Lemma listen_pending s s' : tap_listen s s' → pending s = S (pending s').
Proof.
  intros [t info cmd cmds l p ls Hinfo Hpipe _]. unfold pending, upd_registry, registry in *. simpl.
  destruct (p_dev p) as [d|]; [|done]. simpl in *. rewrite Hinfo.
  destruct t; simpl; rewrite Hpipe; simpl; lia.
Qed.

Lemma command_some t cmd l : cmd ≠ OPS_FPA_CMD_THREAD_EXIT → is_Some (command t cmd l).
Proof. destruct t, cmd; simpl; intros Hc; try done; try case_match; by eexists. Qed.

Lemma listen_progress lost s : tap_inv lost s → pending s ≠ 0%nat → ∃ s', tap_listen s s'.
Proof.
  destruct s as [p ls]. intros (info & g & Hinfo & _ & _ & Ht) Hne. unfold pending in Hne. simpl in *.
  rewrite Hinfo in Hne.
  assert (∃ t cmd cmds, pipes info t = cmd :: cmds) as (t & cmd & cmds & Hp).
  { destruct (pipes info OPS_FPA_THREAD_TAP) as [|c cs] eqn:H1; [|by exists OPS_FPA_THREAD_TAP, c, cs].
    destruct (pipes info OPS_FPA_THREAD_ASIC) as [|c cs] eqn:H2; [done|by exists OPS_FPA_THREAD_ASIC, c, cs]. }
  destruct (Ht t) as [Hx _]. rewrite Hp in Hx. apply not_elem_of_cons in Hx as [Hx _].
  destruct (command_some t cmd (ls t)) as [l Hc]; [done|]. eexists. by econstructor.
Qed.

Lemma no_pending_caught_up lost s t :
  tap_inv lost s → pending s = 0%nat → ¬ lost t → caught_up t s.
Proof.
  intros (info & g & Hinfo & V & _ & Ht) Hp Hnl. unfold pending in Hp. rewrite Hinfo in Hp.
  exists info, g. split; [done|]. split; [done|].
  assert (pipes info t = []) as Hpt by (apply nil_length_inv; destruct t; lia).
  split; [done|]. destruct (proj2 (Ht t) Hnl) as (gt & Hl & _ & Htab). rewrite Hpt in Htab. by exists gt.
Qed.

(** C24: The threads catch up.  From every state of such an interleaving no schedule of
    the two threads gets stuck before both pipes are empty: after [k] reads exactly [k]
    commands fewer are pending, a thread with a command can always read it, and once as
    many reads were made as commands were pending, the table of every thread no command
    was lost for is that of the registry. *)
Theorem listeners_catch_up s0 lost s s' k :
  tap_start s0 → tap_run s0 lost s → nsteps tap_listen k s s' →
  (k + pending s' = pending s)%nat ∧
  ((k < pending s)%nat → ∃ s2, tap_listen s' s2) ∧
  (k = pending s → ∀ t, ¬ lost t → caught_up t s').
Proof.
  intros Hs Hrun Hk.
  assert ((k + pending s')%nat = pending s) as Hn.
  { clear -Hk. induction Hk as [|n s1 s2 s3 H1 _ IH]; [done|]. apply listen_pending in H1. lia. }
  assert (∃ lost', tap_inv lost' s' ∧ ∀ t, ¬ lost t → ¬ lost' t) as (lost' & Hinv & Hl).
  { apply tap_run_inv in Hrun; [|done]. clear -Hk Hrun HMAP_LAWS0. revert lost Hrun.
    induction Hk as [|n s1 s2 s3 H1 _ IH]; intros lost Hinv; [by exists lost|].
    destruct (IH _ (tap_step_inv _ _ _ _ (TapThread _ _ H1) Hinv)) as (lost' & Hinv' & Hl).
    exists lost'. split; [done|]. intros t Hnl. apply Hl. by intros [?|[? _]]. }
  split; [done|]. split; intros.
  - eapply listen_progress; [done|]. lia.
  - eapply no_pending_caught_up; [done| |by apply Hl]. lia.
Qed.
End follow.

(** ** Frames *)

(** The bytes of a frame in the buffer. *)
Definition frame_at (buf : list Z) (ptr : nat) (size : Z) : list Z := take (Z.to_nat size) (drop ptr buf).

Definition frame_type (d : list Z) : Z := be16 (take 2 (drop 12 d)).
Definition frame_src (d : list Z) : list Z := take 6 (drop 6 d).
Definition frame_tci (d : list Z) : Z := be16 (take 2 (drop 14 d)).

(** Inserting and removing a VLAN tag after the addresses. *)
Definition tag_frame (vid : Z) (d : list Z) : list Z :=
  take 12 d ++ to_be16 ETHERTYPE_VLAN ++ to_be16 vid ++ drop 12 d.
Definition strip_frame (d : list Z) : list Z := take 12 d ++ drop 16 d.

Lemma buf_read_at A x B n off :
  off = length A → n = length x → buf_read (A ++ x ++ B) off n = Done x.
Proof.
  intros -> ->. unfold buf_read. rewrite decide_True by (rewrite !length_app; lia).
  by rewrite drop_app_length, take_app_length.
Qed.

Lemma buf_write_at A x B y off :
  off = length A → length y = length x → buf_write (A ++ x ++ B) off y = Done (A ++ y ++ B).
Proof.
  intros -> Hy. unfold buf_write. rewrite decide_True by (rewrite !length_app; lia).
  rewrite take_app_length. do 3 f_equal.
  by rewrite Hy, <- drop_drop, drop_app_length, drop_app_length.
Qed.

(** The same on a buffer that can be cut that way. *)
Lemma buf_read_eq buf A x B n off :
  buf = A ++ x ++ B → off = length A → n = length x → buf_read buf off n = Done x.
Proof. intros ->. apply buf_read_at. Qed.

Lemma buf_write_eq buf A x B y off :
  buf = A ++ x ++ B → off = length A → length y = length x → buf_write buf off y = Done (A ++ y ++ B).
Proof. intros ->. apply buf_write_at. Qed.

Lemma frame_at_app A x B ptr size :
  ptr = length A → size = Z.of_nat (length x) → frame_at (A ++ x ++ B) ptr size = x.
Proof.
  intros -> ->. unfold frame_at. by rewrite Nat2Z.id, drop_app_length, take_app_length.
Qed.

Lemma strip_tag_frame vid d : (12 ≤ length d)%nat → strip_frame (tag_frame vid d) = d.
Proof.
  intros Hd. unfold strip_frame, tag_frame.
  assert (length (take 12 d) = 12%nat) as Hl by (rewrite length_take; lia).
  rewrite (take_app_length' _ _ 12), (app_assoc _ (to_be16 _)), (app_assoc _ (to_be16 vid)),
    (drop_app_length' _ _ 16) by (rewrite ?length_app, Hl; done).
  apply take_drop.
Qed.

Lemma frame_tci_tagged vid d :
  (12 ≤ length d)%nat → 0 ≤ vid < 2 ^ 16 →
  frame_type (tag_frame vid d) = ETHERTYPE_VLAN ∧ frame_tci (tag_frame vid d) = vid.
Proof.
  intros Hd Hv. unfold frame_type, frame_tci, tag_frame.
  assert (length (take 12 d) = 12%nat) as Hl by (rewrite length_take; lia).
  split.
  - by rewrite (drop_app_length' _ _ 12).
  - rewrite (app_assoc _ (to_be16 _)), (drop_app_length' _ _ 14) by (rewrite length_app, Hl; done).
    simpl. rewrite (Z.mod_small (vid / 256)).
    + rewrite (Z.div_mod vid 256) at 3 by lia. lia.
    + split; [apply Z.div_pos; lia|]. apply Z.div_lt_upper_bound; lia.
Qed.

(** Equalities of cut buffers and of lengths. *)
Ltac len_solve :=
  unfold FPA_PKT_SAFEGUARD, DOT1Q_LEN, ETH_ALEN;
  first [ by rewrite <- ?app_assoc
        | repeat progress (rewrite ?length_app, ?length_take, ?length_drop; simpl); lia ].

Section packets.
Context {F : FPA_SDK} {H : HMAP}.

(** A buffer with room for a frame of [n] bytes. *)
Lemma buf_split (buf : list Z) n :
  length buf = FPA_HAL_MAX_MTU_CNS → (n ≤ FPA_HAL_MAX_MTU_CNS - FPA_PKT_SAFEGUARD)%nat →
  ∃ A S X R, buf = A ++ S ++ X ++ R ∧ length A = 28%nat ∧ length S = 4%nat ∧ length X = n.
Proof.
  unfold FPA_HAL_MAX_MTU_CNS, FPA_PKT_SAFEGUARD. intros Hlen Hn.
  exists (take 28 buf), (take 4 (drop 28 buf)), (take n (drop 32 buf)), (drop n (drop 32 buf)).
  rewrite !length_take, !length_drop. split_and!; [|lia..].
  rewrite take_drop. change 32%nat with (28 + 4)%nat. rewrite <- drop_drop, take_drop. by rewrite take_drop.
Qed.

Lemma frame_split d :
  (14 ≤ length d)%nat →
  ∃ M T Y, d = M ++ T ++ Y ∧ length M = 12%nat ∧ length T = 2%nat ∧ be16 T = frame_type d.
Proof.
  intros Hd. exists (take 12 d), (take 2 (drop 12 d)), (drop 2 (drop 12 d)).
  rewrite !length_take, !length_drop. split_and!; [by rewrite !take_drop|lia|lia|done].
Qed.

Lemma mac_split (M : list Z) :
  length M = 12%nat → ∃ M1 M2 M3, M = M1 ++ M2 ++ M3 ∧
    length M1 = 8%nat ∧ length M2 = 2%nat ∧ length M3 = 2%nat.
Proof.
  intros HM. exists (take 8 M), (take 2 (drop 8 M)), (drop 2 (drop 8 M)).
  rewrite !take_drop, !length_take, !length_drop. split_and!; [done|lia..].
Qed.

(** What the ASIC listener writes to the interface of the port. *)
Definition asic_forward (internal_vlans : bitmap) (vid : Z) (d : list Z) : list Z :=
  if ops_fpa_vlan_internal internal_vlans vid || (frame_type d =? ETHERTYPE_VLAN) then d
  else tag_frame vid d.

(** The entry [r] a thread has for a key, if any. *)
Definition known (l : listener) (key : Z) (r : option tap_if_entry) : Prop :=
  match get_if_entry (l_map l) key with
  | None => r = None
  | Some q => ∃ e, l_entries l !! q = Some e ∧ r = Some e
  end.

Lemma asic_packet_known iv port vid d l r buf :
  length buf = FPA_HAL_MAX_MTU_CNS →
  (14 ≤ length d ≤ FPA_HAL_MAX_MTU_CNS - FPA_PKT_SAFEGUARD)%nat → known l port r →
  ∃ ptr size buf',
    asic_packet iv port vid d l buf = Done ((λ e, (te_num e, ptr, size)) <$> r, buf') ∧
    length buf' = length buf ∧ frame_at buf' ptr size = asic_forward iv vid d ∧
    size = Z.of_nat (length (asic_forward iv vid d)).
Proof.
  intros Hbuf Hd Hr.
  assert (∀ (ptr : nat) (size : Z) (buf' : list Z),
    match get_if_entry (l_map l) port with
    | Some q => match l_entries l !! q with
                | Some e => Done (Some (te_num e, ptr, size), buf') | None => Crash Undefined end
    | None => Done (None, buf')
    end = Done ((λ e, (te_num e, ptr, size)) <$> r, buf')) as Hend.
  { unfold known in Hr. destruct (get_if_entry (l_map l) port); [|by subst].
    destruct Hr as (e & -> & ->). done. }
  clear Hr.
  destruct (buf_split buf (length d) Hbuf (proj2 Hd)) as (A & S & X & R & -> & HA & HS & HX).
  destruct (frame_split d (proj1 Hd)) as (M & T & Y & Hdec & HM & HT & Hty). clear Hbuf Hd.
  assert (length d = 14 + length Y)%nat as HL by (rewrite Hdec, !length_app; lia).
  unfold asic_packet, asic_forward.
  rewrite (buf_write_eq _ (A ++ S) X R) by len_solve. simpl.
  unfold ops_fpa_get_eth_type, read_be16.
  rewrite (buf_read_eq _ (A ++ S ++ M) T (Y ++ R)) by (rewrite ?Hdec; len_solve). simpl.
  rewrite Hty, <- negb_orb.
  destruct (ops_fpa_vlan_internal iv vid || (frame_type d =? ETHERTYPE_VLAN)); simpl.
  - do 3 eexists. split; [apply Hend|]. split; [len_solve|]. split; [|done].
    by apply frame_at_app; len_solve.
  - destruct (mac_split M HM) as (M1 & M2 & M3 & HMM & H1 & H2 & H3).
    unfold memmove. rewrite (buf_read_eq _ (A ++ S) M (T ++ Y ++ R)) by (rewrite ?Hdec; len_solve). simpl.
    rewrite (buf_write_eq _ A (S ++ M1) (M2 ++ M3 ++ T ++ Y ++ R)) by (rewrite ?Hdec, ?HMM; len_solve). simpl.
    rewrite (buf_write_eq _ (A ++ M) M2 (M3 ++ T ++ Y ++ R)) by len_solve. simpl.
    rewrite (buf_write_eq _ (A ++ M ++ to_be16 ETHERTYPE_VLAN) M3 (T ++ Y ++ R)) by len_solve. simpl.
    do 3 eexists. split; [apply Hend|].
    assert (tag_frame vid d = M ++ to_be16 ETHERTYPE_VLAN ++ to_be16 vid ++ T ++ Y) as ->.
    { unfold tag_frame. by rewrite Hdec, (take_app_length' M _ 12), (drop_app_length' M _ 12). }
    split; [len_solve|]. split; [|len_solve].
    rewrite <- (frame_at_app A (M ++ to_be16 ETHERTYPE_VLAN ++ to_be16 vid ++ T ++ Y) R 28
      (Z.of_nat (length d) + Z.of_nat DOT1Q_LEN)) by len_solve.
    f_equal. len_solve.
Qed.

Lemma asic_packet_spec iv port vid d l q e buf :
  length buf = FPA_HAL_MAX_MTU_CNS →
  (14 ≤ length d ≤ FPA_HAL_MAX_MTU_CNS - FPA_PKT_SAFEGUARD)%nat →
  get_if_entry (l_map l) port = Some q → l_entries l !! q = Some e →
  ∃ ptr size buf', asic_packet iv port vid d l buf = Done (Some (te_num e, ptr, size), buf') ∧
    length buf' = length buf ∧ frame_at buf' ptr size = asic_forward iv vid d ∧
    size = Z.of_nat (length (asic_forward iv vid d)).
Proof.
  intros Hbuf Hd Hq He. apply (asic_packet_known _ _ _ _ _ (Some e)); [done|done|].
  unfold known. rewrite Hq. by exists e.
Qed.

(** What the TAP listener sends to the port of an interface for a frame read from it:
    a tagged frame if the port is in the VLAN, without its tag if the port strips it;
    an untagged frame if it comes from the interface's own address. *)
Definition tap_forward (switchId : Z) (e : tap_if_entry) (h : hw) (bs : list Z) : option (list Z) :=
  if frame_type bs =? ETHERTYPE_VLAN then
    match get_port_eg_tag_state switchId (te_num e) (frame_tci bs) h with
    | inl _ => None
    | inr pop => Some (if pop then strip_frame bs else bs)
    end
  else if decide (frame_src bs = te_mac e) then Some bs else None.

Lemma tap_frame_split (bs : list Z) :
  (16 ≤ length bs)%nat →
  ∃ M1 M2 T C Y, bs = M1 ++ M2 ++ T ++ C ++ Y ∧ length M1 = 4%nat ∧ length M2 = 8%nat ∧
    length T = 2%nat ∧ length C = 2%nat ∧ be16 T = frame_type bs ∧ be16 C = frame_tci bs ∧
    frame_src bs = take 6 (drop 6 (M1 ++ M2)) ∧ strip_frame bs = M1 ++ M2 ++ Y.
Proof.
  intros Hl. exists (take 4 bs), (take 8 (drop 4 bs)), (take 2 (drop 12 bs)), (take 2 (drop 14 bs)), (drop 16 bs).
  assert (take 4 bs ++ take 8 (drop 4 bs) = take 12 bs) as HM.
  { change 12%nat with (4 + 8)%nat. by rewrite take_take_drop. }
  rewrite !length_take, !length_drop. split_and!; try lia; try done.
  - rewrite (app_assoc (take 4 bs)), HM.
    change 16%nat with (14 + 2)%nat. rewrite <- (drop_drop bs 2 14), take_drop.
    change 14%nat with (12 + 2)%nat. rewrite <- (drop_drop bs 2 12), take_drop. by rewrite take_drop.
  - rewrite HM. unfold frame_src. rewrite skipn_firstn_comm, take_take. done.
  - by rewrite (app_assoc (take 4 bs)), HM.
Qed.

Lemma tap_packet_spec sid fd bs l q e buf h :
  length buf = FPA_HAL_MAX_MTU_CNS →
  (16 ≤ length bs ≤ FPA_HAL_MAX_MTU_CNS - FPA_PKT_SAFEGUARD)%nat →
  get_if_entry (l_map l) fd = Some q → l_entries l !! q = Some e →
  ∃ r buf', tap_packet sid fd (ReadBytes bs) false l buf h = Done (r, buf') ∧
    length buf' = length buf ∧
    (λ s, (outPortNum s, frame_at buf' (pktDataPtr s) (pktDataSize s))) <$> r =
    (λ f, (te_num e, f)) <$> tap_forward sid e h bs.
Proof.
  intros Hbuf Hd Hq He.
  assert (0 ≤ Z.of_nat (length bs) < 2 ^ 32) as Hsz.
  { unfold FPA_HAL_MAX_MTU_CNS in Hd. lia. }
  destruct (buf_split buf (length bs) Hbuf (proj2 Hd)) as (A & S & X & R & -> & HA & HS & HX).
  destruct (tap_frame_split bs (proj1 Hd))
    as (M1 & M2 & T & C & Y & Hdec & H1 & H2 & HT & HC & Hty & Htci & Hsrc & Hstrip). clear Hbuf Hd.
  assert (length bs = 16 + length Y)%nat as HL by (rewrite Hdec, !length_app; lia).
  unfold tap_packet, tap_forward.
  rewrite (buf_write_eq _ (A ++ S) X R) by len_solve. simpl. rewrite Hq, He.
  unfold ops_fpa_get_eth_type, read_be16.
  rewrite (buf_read_eq _ (A ++ S ++ M1 ++ M2) T (C ++ Y ++ R)) by (rewrite ?Hdec; len_solve). simpl.
  rewrite Hty. destruct (frame_type bs =? ETHERTYPE_VLAN).
  - rewrite (buf_read_eq _ (A ++ S ++ M1 ++ M2 ++ T) C (Y ++ R)) by (rewrite ?Hdec; len_solve). simpl.
    rewrite Htci. destruct (get_port_eg_tag_state sid (te_num e) (frame_tci bs) h) as [er|pop].
    { do 2 eexists. split; [done|]. split; [len_solve|done]. }
    destruct pop.
    + unfold memmove.
      rewrite (buf_read_eq _ (A ++ S) (M1 ++ M2) (T ++ C ++ Y ++ R)) by (rewrite ?Hdec; len_solve). simpl.
      rewrite (buf_write_eq _ (A ++ S ++ M1) (M2 ++ T ++ C) (Y ++ R)) by (rewrite ?Hdec; len_solve). simpl.
      do 2 eexists. split; [done|]. split; [len_solve|]. simpl. rewrite Hstrip.
      do 2 f_equal. rewrite (app_assoc (M1 ++ M2)), <- (app_assoc M1).
      apply frame_at_app; [len_solve|]. unfold u32. rewrite wrap_small; len_solve.
    + do 2 eexists. split; [done|]. split; [len_solve|]. simpl. do 2 f_equal.
      by apply frame_at_app; len_solve.
  - rewrite Hsrc. set (N1 := take 6 (M1 ++ M2)). set (N2 := take 6 (drop 6 (M1 ++ M2))).
    assert (M1 ++ M2 = N1 ++ N2) as HN.
    { unfold N1, N2. rewrite (take_ge (drop 6 _)) by (rewrite length_drop, length_app; lia).
      by rewrite take_drop. }
    assert (length N1 = 6%nat ∧ length N2 = 6%nat) as [HN1 HN2] by
      (unfold N1, N2; rewrite !length_take, length_drop, length_app; lia).
    rewrite (buf_read_eq _ (A ++ S ++ N1) N2 (T ++ C ++ Y ++ R)) by
      (rewrite ?Hdec, ?(app_assoc M1 M2), ?HN; len_solve). simpl.
    destruct (decide _).
    + do 2 eexists. split; [done|]. split; [len_solve|]. simpl. do 2 f_equal.
      by apply frame_at_app; len_solve.
    + do 2 eexists. split; [done|]. split; [len_solve|done].
Qed.

(** The TAP listener forwards a frame of any size that fits behind the
    safeguard exactly as specified: to the port of the interface, tagged frames only
    into VLANs of the port and without their tag where the port strips it, untagged
    frames only from the interface's own address, and all else is dropped. *)
Theorem tap_listener_forwards sid fd bs l q e buf h :
  length buf = FPA_HAL_MAX_MTU_CNS →
  (16 ≤ length bs ≤ FPA_HAL_MAX_MTU_CNS - FPA_PKT_SAFEGUARD)%nat →
  get_if_entry (l_map l) fd = Some q → l_entries l !! q = Some e →
  ∃ r buf', tap_packet sid fd (ReadBytes bs) false l buf h = Done (r, buf') ∧
    length buf' = length buf ∧
    (λ s, (outPortNum s, frame_at buf' (pktDataPtr s) (pktDataSize s))) <$> r =
    (λ f, (te_num e, f)) <$> tap_forward sid e h bs.
Proof. apply tap_packet_spec. Qed.

(** C27: A frame survives the way to the host and back: an untagged frame from a
    port in a VLAN that is not internal is written to the port's interface with a
    tag, and the same bytes read from that interface leave on the same port as the
    original frame if the port strips the tag of the VLAN. *)
Theorem frame_roundtrip iv sid port vid d la qa ea lt qt et bufa buft h :
  length bufa = FPA_HAL_MAX_MTU_CNS → length buft = FPA_HAL_MAX_MTU_CNS →
  (14 ≤ length d ≤ FPA_HAL_MAX_MTU_CNS - FPA_PKT_SAFEGUARD - DOT1Q_LEN)%nat →
  0 ≤ vid < 2 ^ 16 → ops_fpa_vlan_internal iv vid = false → frame_type d ≠ ETHERTYPE_VLAN →
  get_if_entry (l_map la) port = Some qa → l_entries la !! qa = Some ea →
  get_if_entry (l_map lt) (te_num ea) = Some qt → l_entries lt !! qt = Some et → te_num et = port →
  get_port_eg_tag_state sid port vid h = inr true →
  ∃ ptr size bufa' s buft',
    asic_packet iv port vid d la bufa = Done (Some (te_num ea, ptr, size), bufa') ∧
    tap_packet sid (te_num ea) (ReadBytes (frame_at bufa' ptr size)) false lt buft h =
      Done (Some s, buft') ∧
    outPortNum s = port ∧ frame_at buft' (pktDataPtr s) (pktDataSize s) = d.
Proof.
  intros Hba Hbt Hd Hv Hint Hty Hqa Hea Hqt Het <- Htag.
  destruct (asic_packet_spec iv (te_num et) vid d la qa ea bufa Hba) as (ptr & size & bufa' & Ha & _ & Hf & _);
    [unfold DOT1Q_LEN in Hd; lia|done|done|].
  unfold asic_forward in Hf. rewrite Hint, (proj2 (Z.eqb_neq _ _)) in Hf by done. simpl in Hf.
  assert (length (tag_frame vid d) = length d + 4)%nat as Hl.
  { unfold tag_frame. rewrite !length_app, length_take, length_drop.
    change (length (to_be16 _)) with 2%nat. change (length (to_be16 vid)) with 2%nat. lia. }
  destruct (tap_packet_spec sid (te_num ea) (tag_frame vid d) lt qt et buft h Hbt)
    as (r & buft' & Ht & _ & Hr);
    [unfold FPA_HAL_MAX_MTU_CNS, FPA_PKT_SAFEGUARD, DOT1Q_LEN in *; lia|done|done|].
  destruct (frame_tci_tagged vid d) as [Hty' Htci]; [lia|done|].
  unfold tap_forward in Hr. rewrite Hty', Htci, Htag, strip_tag_frame in Hr by lia.
  destruct r as [s|]; [|done]. injection Hr as Hout Hfr.
  exists ptr, size, bufa', s, buft'. by rewrite Hf.
Qed.

(** The read from an interface may overrun the buffer: the size passed is that
    of the whole buffer although the frame starts behind the safeguard, so a frame
    longer than the rest of the buffer is written past its end. *)
Theorem tap_read_overruns sid fd bs draining l buf h :
  length buf = FPA_HAL_MAX_MTU_CNS →
  (FPA_HAL_MAX_MTU_CNS - FPA_PKT_SAFEGUARD < length bs ≤ FPA_HAL_MAX_MTU_CNS)%nat →
  tap_packet sid fd (ReadBytes bs) draining l buf h = Crash Undefined.
Proof.
  intros Hbuf Hbs. unfold tap_packet, buf_write. rewrite decide_False; [done|].
  rewrite Hbuf. unfold FPA_PKT_SAFEGUARD in *. lia.
Qed.

(** An interface with nothing to read sends the previous frame again: only
    errors other than [EWOULDBLOCK] are skipped, so the frame left in the buffer is
    sent with a size of 2^32 - 1 bytes, beyond the end of the buffer. *)
Theorem would_block_resends sid fd l q e buf h :
  length buf = FPA_HAL_MAX_MTU_CNS →
  get_if_entry (l_map l) fd = Some q → l_entries l !! q = Some e →
  let d := drop FPA_PKT_SAFEGUARD buf in
  frame_type d ≠ ETHERTYPE_VLAN → frame_src d = te_mac e →
  tap_packet sid fd ReadWouldBlock false l buf h =
    Done (Some {| outPortNum := te_num e; pktDataPtr := FPA_PKT_SAFEGUARD;
                  pktDataSize := 2 ^ 32 - 1 |}, buf) ∧
  Z.of_nat (length d) < 2 ^ 32 - 1.
Proof.
  intros Hbuf Hq He d Hty Hsrc. unfold FPA_HAL_MAX_MTU_CNS in Hbuf. split.
  - unfold tap_packet. simpl. rewrite Hq, He. unfold ops_fpa_get_eth_type, read_be16, buf_read.
    unfold FPA_PKT_SAFEGUARD, ETH_ALEN in *. rewrite !decide_True by (simpl; lia). simpl.
    unfold frame_type in Hty. unfold frame_src in Hsrc. unfold d in Hty, Hsrc.
    rewrite drop_drop in Hty, Hsrc. simpl in Hty, Hsrc. rewrite (proj2 (Z.eqb_neq _ _)) by done.
    rewrite decide_True by done. done.
  - unfold d. rewrite length_drop. lia.
Qed.
End packets.

(** ** Witnesses *)

#[local] Instance WEnv : ML_ENV := {|
  BUFFER_SIZE := 4; PORT_NAME_SIZE := 16;
  hash_bytes bs basis := foldl Z.add basis bs
|}.
#[local] Instance WHmap : HMAP := ListHmap 16.
#[local] Instance WHmapLaws : HMAP_LAWS WHmap := ListHmapLaws 16.

Definition w_ctrl (t : listener_thread) : Z * Z :=
  match t with OPS_FPA_THREAD_TAP => (3, 4) | OPS_FPA_THREAD_ASIC => (5, 6) end.

Definition w_info : tap_info :=
  {| ti_switchId := 0; fd_to_tap_if_map := hmap_init; ti_entries := ∅; ctrl_fds := w_ctrl;
     pipes := λ _, [] |}.

(** A device without interfaces; the next descriptor is 7. *)
Definition w_sys : tap_sys (W := RefOs true) (hw0 := unit) :=
  {| sys_proc := {| p_dev := Some {| dev_switchId := 0; ref_cnt := 1; tap_if_info := Some w_info;
                                     dev_ml := None |};
                    p_mutex := false; p_os := (7 : @os (RefOs true)); p_hw := tt |};
     sys_listener := λ _, listener_init |}.

Definition w_created : proc (W := RefOs true) (hw := unit) :=
  match ops_fpa_tap_if_create (W := RefOs true) 0 9 "9" (Some w_mac1) (sys_proc w_sys) with
  | Done (_, _, p) => p
  | _ => sys_proc w_sys
  end.

Lemma w_sys_start : tap_start w_sys.
Proof. by exists w_info. Qed.

Definition w_sys_after : tap_sys (W := RefOs true) := {| sys_proc := w_created; sys_listener := λ _, listener_init |}.

Lemma w_sys_create :
  tap_run w_sys (λ t, False ∨ true = true ∧ pipe_of t w_sys_after = pipe_of t w_sys) w_sys_after.
Proof.
  eapply tap_run_step; [apply tap_run_start|].
  apply (TapCreate (W := RefOs true) 0 9 "9" w_mac1 7 w_info); [reflexivity| |vm_compute; reflexivity].
  intros q k e Hin. by apply not_elem_of_nil in Hin.
Qed.

Lemma w_none_lost t : ¬ (False ∨ true = true ∧ pipe_of t w_sys_after = pipe_of t w_sys).
Proof. intros [[]|[_ Heq]]. destruct t; vm_compute in Heq; discriminate. Qed.

(** An interface is created on port 9 and not yet known to the threads. *)
Lemma listeners_follow_registry_witness :
  ∃ info g, registry (W := RefOs true) w_created = Some info ∧
    tap_view (fd_to_tap_if_map info) (ti_entries info) g ∧
    ∀ t, ∃ l gt, commands t (pipes info t) listener_init = Some l ∧
      listener_view t l gt ∧ thread_table t g gt.
Proof.
  destruct (listeners_follow_registry (W := RefOs true) w_sys _ w_sys_after w_sys_start w_sys_create)
    as (info & g & Hi & Hv & Ht).
  exists info, g. exact (conj Hi (conj Hv (λ t, Ht t (w_none_lost t)))).
Defined.

(** Both threads have a command to read. *)
Lemma listeners_catch_up_witness : ∃ s2, tap_listen w_sys_after s2.
Proof.
  apply (listeners_catch_up (W := RefOs true) w_sys _ w_sys_after _ 0
    w_sys_start w_sys_create (nsteps_O _ _)). vm_compute. lia.
Defined.

Definition w_q : Z := fresh (∅ : gset Z).
Definition w_tap : listener := l_add 7 3 "3" w_mac1 listener_init.
Definition w_asic : listener := l_add 3 7 "3" w_mac1 listener_init.
Definition w_buf : list Z := replicate FPA_HAL_MAX_MTU_CNS 0.
(** A frame of 60 bytes from the interface's address. *)
Definition w_frame : list Z := replicate 6 255 ++ w_mac1 ++ replicate 48 1.

Lemma w_buf_length : length w_buf = FPA_HAL_MAX_MTU_CNS.
Proof. apply length_replicate. Qed.

Ltac w_room := unfold FPA_HAL_MAX_MTU_CNS, FPA_PKT_SAFEGUARD, DOT1Q_LEN; simpl length; lia.

Lemma tap_listener_forwards_witness :
  ∃ r buf', tap_packet (F := SimNF) 0 7 (ReadBytes w_frame) false w_tap w_buf w_port = Done (r, buf') ∧
    (λ s, (outPortNum s, frame_at buf' (pktDataPtr s) (pktDataSize s))) <$> r = Some (3, w_frame).
Proof.
  destruct (tap_listener_forwards (F := SimNF) 0 7 w_frame w_tap w_q
    {| te_name := "3"; te_num := 3; te_mac := w_mac1 |} w_buf w_port w_buf_length ltac:(w_room)
    ltac:(vm_compute; reflexivity) ltac:(vm_compute; reflexivity)) as (r & buf' & Hr & _ & Hf).
  exists r, buf'. exact (conj Hr Hf).
Defined.

(** VLAN 10 of port 3 leaves untagged. *)
Lemma frame_roundtrip_witness :
  ∃ ptr size bufa' s buft',
    asic_packet ∅ 3 10 w_frame w_asic w_buf = Done (Some (7, ptr, size), bufa') ∧
    tap_packet (F := SimNF) 0 7 (ReadBytes (frame_at bufa' ptr size)) false w_tap w_buf w_port =
      Done (Some s, buft') ∧
    outPortNum s = 3 ∧ frame_at buft' (pktDataPtr s) (pktDataSize s) = w_frame.
Proof.
  exact (frame_roundtrip (F := SimNF) ∅ 0 3 10 w_frame w_asic w_q
    {| te_name := "3"; te_num := 7; te_mac := w_mac1 |} w_tap w_q
    {| te_name := "3"; te_num := 3; te_mac := w_mac1 |} w_buf w_buf w_port w_buf_length w_buf_length
    ltac:(w_room) ltac:(lia) ltac:(vm_compute; reflexivity) ltac:(vm_compute; discriminate)
    ltac:(vm_compute; reflexivity) ltac:(vm_compute; reflexivity) ltac:(vm_compute; reflexivity)
    ltac:(vm_compute; reflexivity) eq_refl ltac:(vm_compute; reflexivity)).
Defined.

Lemma tap_read_overruns_witness :
  tap_packet (F := SimNF) 0 7 (ReadBytes (replicate (FPA_HAL_MAX_MTU_CNS - 1) 1)) false w_tap w_buf
    w_port = Crash Undefined.
Proof.
  apply (tap_read_overruns (F := SimNF) 0 7 (replicate (FPA_HAL_MAX_MTU_CNS - 1) 1) false w_tap w_buf
    w_port w_buf_length).
  rewrite length_replicate. unfold FPA_HAL_MAX_MTU_CNS, FPA_PKT_SAFEGUARD. lia.
Defined.

(** The buffer still holds the frame. *)
Definition w_used : list Z :=
  replicate FPA_PKT_SAFEGUARD 0 ++ w_frame ++ replicate (FPA_HAL_MAX_MTU_CNS - 92) 0.

Lemma would_block_resends_witness :
  tap_packet (F := SimNF) 0 7 ReadWouldBlock false w_tap w_used w_port =
    Done (Some {| outPortNum := 3; pktDataPtr := FPA_PKT_SAFEGUARD; pktDataSize := 2 ^ 32 - 1 |}, w_used).
Proof.
  refine (proj1 (would_block_resends (F := SimNF) 0 7 w_tap w_q
    {| te_name := "3"; te_num := 3; te_mac := w_mac1 |} w_used w_port _
    ltac:(vm_compute; reflexivity) ltac:(vm_compute; reflexivity)
    ltac:(vm_compute; discriminate) ltac:(vm_compute; reflexivity))).
  unfold w_used. rewrite !length_app, !length_replicate.
  unfold FPA_HAL_MAX_MTU_CNS, FPA_PKT_SAFEGUARD. simpl length. lia.
Defined.
