(* ===== verification/Listeners.v ===== *)
(** * The listener threads as loops (src/ops-fpa-tap.c)

    [tap_listener] and [asic_listener] from their start to their end.  What a round
    of the loop finds is its input: the result of [select] or [fpaLibPktReceive], the
    commands in the pipe, the bytes of the frames, the clock and the state of the
    switch.  The loops run over the rounds of a list, which may be of any length. *)

From S2P Require Import Prelude Fpa FpaSim Vlan Route Hmap MacLearning Dev Tap.

Local Open Scope list_scope.
Local Open Scope Z_scope.

Definition FD_SETSIZE : Z := 1024.
Definition INIT_DRAIN_TIME : Z := 5.

(** [SelectReady]: the interfaces and whether the pipe can be read.  When [select]
    fails it leaves the set it was given. *)
Inductive select_result :=
  | SelectReady (rd : gset Z) (ctrl : bool)
  | SelectEintr
  | SelectError.

Section listeners.
Context {F : FPA_SDK} {H : HMAP}.

Record tap_input := {
  in_select : select_result;
  in_cmds : list ctrl_cmd;
  (* what reading a descriptor gives *)
  in_read : Z → read_result;
  (* the clock in microseconds when the first and the second call of [gettimeofday]
     for a descriptor are made *)
  in_init_time : Z → Z;
  in_cur_time : Z → Z;
  in_hw : hw
}.

Record asic_input := {
  in_err : FPA_STATUS;
  in_portNum : Z;
  in_vid : Z;
  in_data : list Z;
  in_acmds : list ctrl_cmd;
  in_internal : bitmap
}.

(** Variables of [tap_listener] that survive a round; [tl_init] is [init_time] once
    [time_initialized]. *)
Record tap_state := {
  tl_listener : listener;
  tl_buf : list Z;
  tl_init : option Z
}.

(** [FD_SET] writes outside of the set for other descriptors. *)
Definition fd_settable (cmd : ctrl_cmd) : bool :=
  match cmd with
  | OPS_FPA_CMD_ADD_IF _ fd _ _ => (0 <=? fd) && (fd <? FD_SETSIZE)
  | _ => true
  end.

(** The commands of the TAP listener; [None] ends the thread. *)
Fixpoint tap_commands (cmds : list ctrl_cmd) (l : listener) : outcome (option listener) :=
  match cmds with
  | [] => Done (Some l)
  | cmd :: cmds =>
      if fd_settable cmd then
        match tap_command cmd l with
        | None => Done None
        | Some l => tap_commands cmds l
        end
      else Crash Undefined
  end.

(** One descriptor: the clock is read once its interface is known, and frames are
    dropped for the first seconds after that. *)
Definition tap_descriptor (switchId fd : Z) (i : tap_input) (st : tap_state) :
    outcome (option (sent * list Z) * tap_state) :=
  let found :=
    match in_read i fd with
    | ReadError => false
    | _ => bool_decide (is_Some (get_if_entry (l_map (tl_listener st)) fd))
    end in
  let init := if found then Some (default (in_init_time i fd) (tl_init st)) else tl_init st in
  let draining :=
    match init with
    | Some t => (in_cur_time i fd - t) / 1000000 <? INIT_DRAIN_TIME
    | None => false
    end in
  let* (s, buf) := tap_packet switchId fd (in_read i fd) draining (tl_listener st) (tl_buf st) (in_hw i) in
  Done ((λ s, (s, buf)) <$> s, {| tl_listener := tl_listener st; tl_buf := buf; tl_init := init |}).

(** The loop over the descriptors; the frames sent are given with the buffer they are
    sent from. *)
Fixpoint tap_packets (switchId : Z) (fds : list Z) (i : tap_input) (st : tap_state) :
    outcome (list (sent * list Z) * tap_state) :=
  match fds with
  | [] => Done ([], st)
  | fd :: fds =>
      let* (s, st) := tap_descriptor switchId fd i st in
      let* (out, st) := tap_packets switchId fds i st in
      Done (option_list s ++ out, st)
  end.

(** The descriptors of a set in the order of the loop. *)
Definition fds_in_order (rd : gset Z) : list Z :=
  List.filter (λ fd, bool_decide (fd ∈ rd)) (seqZ 0 FD_SETSIZE).

(** The set [rd] after [select], and whether the pipe is in it; [None] ends the thread. *)
Definition select_set (i : tap_input) (l : listener) : option (gset Z * bool) :=
  match in_select i with
  | SelectReady rd ctrl => Some (rd, ctrl)
  | SelectEintr => None
  | SelectError => Some (read_fd_set l, true)
  end.

Definition tap_round (switchId : Z) (i : tap_input) (st : tap_state) :
    outcome (list (sent * list Z) * option tap_state) :=
  match select_set i (tl_listener st) with
  | None => Done ([], None)
  | Some (rd, ctrl) =>
      let* l := if ctrl : bool then tap_commands (in_cmds i) (tl_listener st)
                else Done (Some (tl_listener st)) in
      match l with
      | None => Done ([], None)
      | Some l =>
          let* (out, st) := tap_packets switchId (fds_in_order rd) i
                              {| tl_listener := l; tl_buf := tl_buf st; tl_init := tl_init st |} in
          Done (out, Some st)
      end
  end.

(** From a state on; [None] once the thread has ended. *)
Fixpoint tap_rounds (switchId : Z) (ins : list tap_input) (st : tap_state) :
    outcome (list (sent * list Z) * option tap_state) :=
  match ins with
  | [] => Done ([], Some st)
  | i :: ins =>
      let* (out, st) := tap_round switchId i st in
      match st with
      | None => Done (out, None)
      | Some st => let* (out', st) := tap_rounds switchId ins st in Done (out ++ out', st)
      end
  end.

(** The thread; [info] is its argument. *)
Definition tap_listener (info : option Z) (ins : list tap_input) :
    outcome (list (sent * list Z) * option tap_state) :=
  match info with
  | None => Done ([], None)
  | Some switchId =>
      tap_rounds switchId ins
        {| tl_listener := listener_init; tl_buf := replicate FPA_HAL_MAX_MTU_CNS 0; tl_init := None |}
  end.

(** A round of the ASIC listener: what is written to which descriptor. *)
Definition asic_round (i : asic_input) (l : listener) (buf : list Z) :
    outcome (option (Z * list Z) * option (listener * list Z)) :=
  match commands OPS_FPA_THREAD_ASIC (in_acmds i) l with
  | None => Done (None, None)
  | Some l =>
      if failed (in_err i) then Done (None, Some (l, buf)) else
      let* (out, buf) := asic_packet (in_internal i) (in_portNum i) (in_vid i) (in_data i) l buf in
      Done ((λ '(fd, ptr, size), (fd, frame_at buf ptr size)) <$> out, Some (l, buf))
  end.

Fixpoint asic_rounds (ins : list asic_input) (l : listener) (buf : list Z) :
    outcome (list (Z * list Z) * option (listener * list Z)) :=
  match ins with
  | [] => Done ([], Some (l, buf))
  | i :: ins =>
      let* (out, st) := asic_round i l buf in
      match st with
      | None => Done ([], None)
      | Some (l, buf) =>
          let* (out', st) := asic_rounds ins l buf in Done (option_list out ++ out', st)
      end
  end.

Definition asic_listener (info : option Z) (ins : list asic_input) :
    outcome (list (Z * list Z) * option (listener * list Z)) :=
  match info with
  | None => Done ([], None)
  | Some _ => asic_rounds ins listener_init (replicate FPA_HAL_MAX_MTU_CNS 0)
  end.
End listeners.

(** ** What the threads are for

    A thread knows a set of interfaces, changes it by the commands, and forwards the
    frames of the interfaces it knows. *)

Section specification.
Context {F : FPA_SDK}.

(** [None] when the command to end is read. *)
Fixpoint spec_cmds (t : listener_thread) (cmds : list ctrl_cmd) (g : gmap Z tap_if_entry) :
    option (gmap Z tap_if_entry) :=
  match cmds with
  | [] => Some g
  | OPS_FPA_CMD_THREAD_EXIT :: _ => None
  | cmd :: cmds => spec_cmds t cmds (spec_command t cmd g)
  end.

(** Whether every descriptor added fits into a set of [select]. *)
Fixpoint spec_settable (cmds : list ctrl_cmd) : bool :=
  match cmds with
  | [] | OPS_FPA_CMD_THREAD_EXIT :: _ => true
  | cmd :: cmds => fd_settable cmd && spec_settable cmds
  end.

(** The frame read from [fd], if it is forwarded: port and bytes; and the time of the
    first frame of a known interface.  A frame that does not fit behind the safeguard
    is written past the end of the buffer. *)
Definition spec_descriptor (switchId fd : Z) (i : tap_input) (g : gmap Z tap_if_entry)
    (init : option Z) : outcome (option (Z * list Z) * option Z) :=
  match in_read i fd with
  | ReadBytes bs =>
      if decide (length bs ≤ FPA_HAL_MAX_MTU_CNS - FPA_PKT_SAFEGUARD)%nat then
        Done match g !! fd with
             | Some e =>
                 let start := default (in_init_time i fd) init in
                 (if (in_cur_time i fd - start) / 1000000 <? INIT_DRAIN_TIME then None
                  else (λ f, (te_num e, f)) <$> tap_forward switchId e (in_hw i) bs, Some start)
             | None => (None, init)
             end
      else Crash Undefined
  | _ => Done (None, init)
  end.

Fixpoint spec_descriptors (switchId : Z) (fds : list Z) (i : tap_input) (g : gmap Z tap_if_entry)
    (init : option Z) : outcome (list (Z * list Z) * option Z) :=
  match fds with
  | [] => Done ([], init)
  | fd :: fds =>
      let* (f, init) := spec_descriptor switchId fd i g init in
      let* (fs, init) := spec_descriptors switchId fds i g init in
      Done (option_list f ++ fs, init)
  end.

(** The interfaces reported readable and the commands read; [None] ends the thread. *)
Definition spec_select (i : tap_input) (g : gmap Z tap_if_entry) : option (gset Z * list ctrl_cmd) :=
  match in_select i with
  | SelectReady rd ctrl => Some (rd, if ctrl then in_cmds i else [])
  | SelectEintr => None
  | SelectError => Some (dom g, in_cmds i)
  end.

(** The frames forwarded, and the interfaces known in the end unless the thread ended. *)
Fixpoint spec_tap (switchId : Z) (ins : list tap_input) (g : gmap Z tap_if_entry) (init : option Z) :
    outcome (list (Z * list Z) * option (gmap Z tap_if_entry)) :=
  match ins with
  | [] => Done ([], Some g)
  | i :: ins =>
      match spec_select i g with
      | None => Done ([], None)
      | Some (rd, cmds) =>
          if negb (spec_settable cmds) then Crash Undefined else
          match spec_cmds OPS_FPA_THREAD_TAP cmds g with
          | None => Done ([], None)
          | Some g =>
              let* (fs, init) := spec_descriptors switchId (fds_in_order rd) i g init in
              let* (fs', r) := spec_tap switchId ins g init in Done (fs ++ fs', r)
          end
      end
  end.

Fixpoint spec_asic (ins : list asic_input) (g : gmap Z tap_if_entry) :
    list (Z * list Z) * option (gmap Z tap_if_entry) :=
  match ins with
  | [] => ([], Some g)
  | i :: ins =>
      match spec_cmds OPS_FPA_THREAD_ASIC (in_acmds i) g with
      | None => ([], None)
      | Some g =>
          let out :=
            if failed (in_err i) then None else
            (λ e, (te_num e, asic_forward (in_internal i) (in_vid i) (in_data i))) <$> g !! in_portNum i in
          let '(fs, r) := spec_asic ins g in (option_list out ++ fs, r)
      end
  end.

(** Commands that can be followed: new interfaces are new. *)
Fixpoint cmds_follow (t : listener_thread) (cmds : list ctrl_cmd) (g : gmap Z tap_if_entry) : Prop :=
  match cmds with
  | [] => True
  | cmd :: cmds =>
      match cmd with
      | OPS_FPA_CMD_THREAD_EXIT => True
      | OPS_FPA_CMD_ADD_IF _ fd port _ =>
          g !! cmd_key t fd port = None ∧
          cmds_follow t cmds (spec_command t cmd g)
      | OPS_FPA_CMD_DEL_IF _ _ => cmds_follow t cmds (spec_command t cmd g)
      end
  end.

(** A known interface that is reported readable has an error or a frame of at least 16
    bytes, the length of a tagged header up to the VLAN. *)
Definition frames_whole (i : tap_input) (rd : gset Z) (g : gmap Z tap_if_entry) : Prop :=
  ∀ fd, fd ∈ rd → is_Some (g !! fd) →
    match in_read i fd with
    | ReadBytes bs => (16 ≤ length bs)%nat
    | ReadWouldBlock => False
    | ReadError => True
    end.

(** The environment of the TAP listener behaves, round by round. *)
Fixpoint tap_env (ins : list tap_input) (g : gmap Z tap_if_entry) : Prop :=
  match ins with
  | [] => True
  | i :: ins =>
      match spec_select i g with
      | None => True
      | Some (rd, cmds) =>
          cmds_follow OPS_FPA_THREAD_TAP cmds g ∧
          match spec_cmds OPS_FPA_THREAD_TAP cmds g with
          | None => True
          | Some g => frames_whole i rd g ∧ tap_env ins g
          end
      end
  end.

Fixpoint asic_env (ins : list asic_input) (g : gmap Z tap_if_entry) : Prop :=
  match ins with
  | [] => True
  | i :: ins =>
      cmds_follow OPS_FPA_THREAD_ASIC (in_acmds i) g ∧
      match spec_cmds OPS_FPA_THREAD_ASIC (in_acmds i) g with
      | None => True
      | Some g =>
          (failed (in_err i) = false →
           (14 ≤ length (in_data i) ≤ FPA_HAL_MAX_MTU_CNS - FPA_PKT_SAFEGUARD)%nat) ∧ asic_env ins g
      end
  end.
End specification.

(** ** Refinement *)

Section refinement.
Context {F : FPA_SDK} {H : HMAP} `{!HMAP_LAWS H}.

Lemma command_follows t cmd l g :
  listener_view t l g → cmds_follow t [cmd] g → cmd ≠ OPS_FPA_CMD_THREAD_EXIT →
  ∃ l', command t cmd l = Some l' ∧ listener_view t l' (spec_command t cmd g).
Proof.
  intros V Hf He. destruct (command_step t cmd l g []) as (l' & Hc & V' & _); [done| |by exists l'].
  destruct cmd as [|name fd port m|fd port]; simpl in *; [done| |by split].
  split; [by destruct Hf|done].
Qed.

Lemma commands_spec t cmds l g :
  listener_view t l g → cmds_follow t cmds g →
  match spec_cmds t cmds g with
  | None => commands t cmds l = None
  | Some g' => ∃ l', commands t cmds l = Some l' ∧ listener_view t l' g'
  end.
Proof.
  revert l g. induction cmds as [|cmd cmds IH]; intros l g V Hf; [by exists l|].
  destruct (decide (cmd = OPS_FPA_CMD_THREAD_EXIT)) as [->|He].
  { simpl. by destruct t. }
  destruct (command_follows t cmd l g V) as (l' & Hc & V'); [|done|].
  { destruct cmd; simpl in *; [done|naive_solver|done]. }
  assert (spec_cmds t (cmd :: cmds) g = spec_cmds t cmds (spec_command t cmd g)) as ->
    by (by destruct cmd).
  simpl. rewrite Hc. simpl. apply IH; [done|]. destruct cmd; simpl in Hf; [done|naive_solver|done].
Qed.

(** A thread whose pipe holds the command to end finds it when it reads the pipe. *)
Lemma exit_ends_listener t cmds l :
  OPS_FPA_CMD_THREAD_EXIT ∈ cmds → commands t cmds l = None.
Proof.
  revert l. induction cmds as [|cmd cmds IH]; intros l; [by intros ?%not_elem_of_nil|].
  intros [<-|Hin]%elem_of_cons; [by destruct t|]. simpl.
  destruct (command t cmd l); [|done]. by apply IH.
Qed.

(** Descriptors that fit never leave the set. *)
Lemma tap_commands_eq cmds l :
  tap_commands cmds l =
    if spec_settable cmds then Done (commands OPS_FPA_THREAD_TAP cmds l) else Crash Undefined.
Proof.
  revert l. induction cmds as [|cmd cmds IH]; intros l; [done|]. cbn [tap_commands commands command].
  destruct cmd as [|name fd port m|fd port]; [done|..]; cbn [spec_settable fd_settable andb].
  - destruct ((0 <=? fd) && (fd <? FD_SETSIZE)); [|done]. cbn [andb tap_command mbind option_bind]. apply IH.
  - unfold tap_command. destruct (get_if_entry _ _); cbn [mbind option_bind]; apply IH.
Qed.

Lemma view_known t l g k : listener_view t l g → known l k (g !! k).
Proof.
  intros [V _]. pose proof (view_find _ _ _ k V) as Hf. unfold known.
  destruct (get_if_entry (l_map l) k) as [q|]; [|done].
  destruct Hf as (e & _ & He & ->). by exists e.
Qed.

(** A frame of an unknown interface, or one that is drained, stays in the buffer. *)
Lemma tap_packet_drops sid fd bs draining l r buf h :
  length buf = FPA_HAL_MAX_MTU_CNS →
  (length bs ≤ FPA_HAL_MAX_MTU_CNS - FPA_PKT_SAFEGUARD)%nat →
  known l fd r → r = None ∨ draining = true →
  ∃ buf', tap_packet sid fd (ReadBytes bs) draining l buf h = Done (None, buf') ∧
    length buf' = FPA_HAL_MAX_MTU_CNS.
Proof.
  intros Hbuf Hbs Hr Hcase. unfold tap_packet, buf_write.
  rewrite decide_True by (rewrite Hbuf; unfold FPA_PKT_SAFEGUARD, FPA_HAL_MAX_MTU_CNS in *; lia).
  cbn [obind]. set (buf' := take _ _ ++ _). exists buf'.
  assert (length buf' = FPA_HAL_MAX_MTU_CNS) as Hl.
  { unfold buf'. rewrite !length_app, length_take, length_drop, Hbuf.
    unfold FPA_PKT_SAFEGUARD, FPA_HAL_MAX_MTU_CNS in *. lia. }
  split; [|done]. unfold known in Hr. destruct (get_if_entry (l_map l) fd) as [q|]; [|done].
  destruct Hr as (e & -> & ->). destruct Hcase as [?|Hd]; [done|by rewrite Hd].
Qed.

(** The port a frame is sent to and its bytes. *)
Definition sent_frame (s : sent * list Z) : Z * list Z :=
  (outPortNum s.1, frame_at s.2 (pktDataPtr s.1) (pktDataSize s.1)).

(** A thread that knows the interfaces [g]. *)
Definition tap_knows (st : tap_state) (g : gmap Z tap_if_entry) : Prop :=
  listener_view OPS_FPA_THREAD_TAP (tl_listener st) g ∧ length (tl_buf st) = FPA_HAL_MAX_MTU_CNS.

Lemma tap_packet_overrun sid fd bs draining l buf h :
  length buf = FPA_HAL_MAX_MTU_CNS → ¬ (length bs ≤ FPA_HAL_MAX_MTU_CNS - FPA_PKT_SAFEGUARD)%nat →
  tap_packet sid fd (ReadBytes bs) draining l buf h = Crash Undefined.
Proof.
  intros Hbuf Hbs. unfold tap_packet, buf_write. rewrite decide_False; [done|].
  rewrite Hbuf. unfold FPA_PKT_SAFEGUARD, FPA_HAL_MAX_MTU_CNS in *. lia.
Qed.

Lemma descriptor_refines sid fd i st g rd :
  tap_knows st g → frames_whole i rd g → fd ∈ rd →
  match spec_descriptor sid fd i g (tl_init st) with
  | Done r => ∃ s st', tap_descriptor sid fd i st = Done (s, st') ∧ tap_knows st' g ∧
      (sent_frame <$> s, tl_init st') = r
  | _ => tap_descriptor sid fd i st = Crash Undefined
  end.
Proof.
  intros [V Hbuf] Hfit Hin. specialize (Hfit fd Hin). pose proof (view_known _ _ _ fd V) as Hk.
  unfold tap_descriptor, spec_descriptor.
  assert (bool_decide (is_Some (get_if_entry (l_map (tl_listener st)) fd)) = bool_decide (is_Some (g !! fd)))
    as ->.
  { apply bool_decide_ext. unfold known in Hk. destruct (get_if_entry _ _); [|by rewrite Hk].
    destruct Hk as (e & _ & ->). split; eauto. }
  destruct (in_read i fd) as [bs| |].
  - case_decide as Hlen; [|by rewrite tap_packet_overrun].
    destruct (g !! fd) as [e|] eqn:Hg; cbn [bool_decide].
    2: { edestruct (tap_packet_drops sid fd bs) as (buf' & -> & Hb); [done|done|done|by left|].
         cbn [obind]. do 2 eexists. split; [done|]. by split. }
    rewrite bool_decide_eq_true_2 by by eexists. specialize (Hfit (ltac:(by eexists))).
    set (start := default (in_init_time i fd) (tl_init st)).
    destruct ((in_cur_time i fd - start) / 1000000 <? INIT_DRAIN_TIME).
    + edestruct (tap_packet_drops sid fd bs true) as (buf' & -> & Hb); [done|done|done|by right|].
      cbn [obind]. do 2 eexists. split; [done|]. by split.
    + unfold known in Hk. destruct (get_if_entry (l_map (tl_listener st)) fd) as [q|] eqn:Hq; [|done].
      destruct Hk as (e' & He & [= <-]).
      destruct (tap_packet_spec sid fd bs (tl_listener st) q e (tl_buf st) (in_hw i) Hbuf (conj Hfit Hlen) Hq He)
        as (r & buf' & -> & Hb & Hr). cbn [obind]. do 2 eexists. split; [done|].
      split; [split; [done|simpl; congruence]|]. cbn [tl_init]. f_equal. rewrite <- Hr. by destruct r.
  - destruct (g !! fd) as [e|] eqn:Hg; [by destruct Hfit|]. unfold known in Hk.
    unfold tap_packet. cbn [obind].
    destruct (get_if_entry _ _); [by destruct Hk as (? & _ & ?)|].
    do 2 eexists. split; [done|]. by split.
  - do 2 eexists. split; [done|]. by split.
Qed.

Lemma descriptors_refine sid fds i st g rd :
  tap_knows st g → frames_whole i rd g → (∀ fd, fd ∈ fds → fd ∈ rd) →
  match spec_descriptors sid fds i g (tl_init st) with
  | Done r => ∃ out st', tap_packets sid fds i st = Done (out, st') ∧ tap_knows st' g ∧
      (sent_frame <$> out, tl_init st') = r
  | _ => tap_packets sid fds i st = Crash Undefined
  end.
Proof.
  intros Hk Hfit. revert st Hk. induction fds as [|fd fds IH]; intros st Hk Hin.
  { do 2 eexists. split; [done|]. by split. }
  pose proof (descriptor_refines sid fd i st g rd Hk Hfit (Hin fd ltac:(by left))) as Hd.
  cbn [tap_packets spec_descriptors].
  destruct (spec_descriptor sid fd i g (tl_init st)) as [[f init]| |]; cbn [obind]; [|by rewrite Hd..].
  destruct Hd as (s & st1 & -> & Hk1 & [= <- <-]). cbn [obind].
  assert (∀ fd', fd' ∈ fds → fd' ∈ rd) as Hin' by (intros; apply Hin; by right).
  specialize (IH st1 Hk1 Hin').
  destruct (spec_descriptors sid fds i g (tl_init st1)) as [[fs init]| |]; cbn [obind]; [|by rewrite IH..].
  destruct IH as (out & st2 & -> & Hk2 & [= <- <-]). cbn [obind].
  do 2 eexists. split; [done|]. split; [done|]. f_equal. rewrite fmap_app. by destruct s.
Qed.

Lemma fds_in_order_sub rd fd : fd ∈ fds_in_order rd → fd ∈ rd.
Proof.
  unfold fds_in_order. rewrite list_elem_of_In, filter_In. intros [_ Hb]. by apply bool_decide_eq_true in Hb.
Qed.

(** What a thread does against what its specification says. *)
Definition tap_matches (got : outcome (list (sent * list Z) * option tap_state))
    (want : outcome (list (Z * list Z) * option (gmap Z tap_if_entry))) : Prop :=
  match want with
  | Done (fs, r) => ∃ out st, got = Done (out, st) ∧ (sent_frame <$> out) = fs ∧
      match r with
      | None => st = None
      | Some g => ∃ st', st = Some st' ∧ tap_knows st' g
      end
  | _ => got = Crash Undefined
  end.

Lemma tap_rounds_refine sid ins st g :
  tap_knows st g → tap_env ins g →
  tap_matches (tap_rounds sid ins st) (spec_tap sid ins g (tl_init st)).
Proof.
  revert st g. induction ins as [|i ins IH]; intros st g Hk Henv.
  { do 2 eexists. split; [done|]. split; [done|]. by exists st. }
  cbn [tap_rounds spec_tap tap_env] in *. unfold tap_round.
  assert (∀ rd cmds, spec_select i g = Some (rd, cmds) →
    ∃ ctrl, select_set i (tl_listener st) = Some (rd, ctrl) ∧
      ((if ctrl : bool then tap_commands (in_cmds i) (tl_listener st) else Done (Some (tl_listener st)))
       = tap_commands cmds (tl_listener st))) as Hsel.
  { intros rd cmds. unfold spec_select, select_set. destruct Hk as [[_ Hfd] _].
    destruct (in_select i) as [rd' ctrl| |]; intros [= <- <-].
    - exists ctrl. by destruct ctrl.
    - exists true. by rewrite Hfd. }
  destruct (spec_select i g) as [[rd cmds]|] eqn:Hs.
  2: { unfold spec_select in Hs. unfold select_set. destruct (in_select i); try done.
       by do 2 eexists. }
  destruct (Hsel rd cmds eq_refl) as (ctrl & -> & ->). destruct Henv as [Hf Henv].
  rewrite tap_commands_eq. destruct (spec_settable cmds); cbn [negb obind]; [|done].
  pose proof (commands_spec OPS_FPA_THREAD_TAP cmds (tl_listener st) g (proj1 Hk) Hf) as Hc.
  destruct (spec_cmds OPS_FPA_THREAD_TAP cmds g) as [g1|].
  2: { rewrite Hc. by do 2 eexists. }
  destruct Hc as (l1 & -> & V1). destruct Henv as [Hfit Henv].
  set (st1 := {| tl_listener := l1; tl_buf := tl_buf st; tl_init := tl_init st |}).
  assert (tap_knows st1 g1) as Hk1 by (split; [done|apply Hk]).
  pose proof (descriptors_refine sid (fds_in_order rd) i st1 g1 rd Hk1 Hfit (fds_in_order_sub rd)) as Hd.
  change (tl_init st) with (tl_init st1).
  destruct (spec_descriptors sid (fds_in_order rd) i g1 (tl_init st1)) as [[fs init]| |];
    cbn [obind]; [|by rewrite Hd..].
  destruct Hd as (out & st2 & -> & Hk2 & [= <- <-]). cbn [obind]. specialize (IH st2 g1 Hk2 Henv).
  destruct (spec_tap sid ins g1 (tl_init st2)) as [[fs' r']| |]; cbn [obind]; cbn [tap_matches] in IH;
    [|by rewrite IH..].
  destruct IH as (out' & r & -> & Hout & Hend). cbn [obind].
  do 2 eexists. split; [done|]. split; [by rewrite fmap_app, Hout|done].
Qed.

Lemma asic_rounds_refine ins l buf g :
  listener_view OPS_FPA_THREAD_ASIC l g → length buf = FPA_HAL_MAX_MTU_CNS → asic_env ins g →
  ∃ out r, asic_rounds ins l buf = Done (out, r) ∧ out = (spec_asic ins g).1 ∧
    match (spec_asic ins g).2 with
    | None => r = None
    | Some g' => ∃ l' buf', r = Some (l', buf') ∧ listener_view OPS_FPA_THREAD_ASIC l' g'
    end.
Proof.
  revert l buf g. induction ins as [|i ins IH]; intros l buf g V Hbuf Henv.
  { do 2 eexists. split; [done|]. split; [done|]. by exists l, buf. }
  cbn [asic_rounds spec_asic asic_env] in *. unfold asic_round. destruct Henv as [Hf Henv].
  pose proof (commands_spec OPS_FPA_THREAD_ASIC (in_acmds i) l g V Hf) as Hc.
  destruct (spec_cmds OPS_FPA_THREAD_ASIC (in_acmds i) g) as [g1|].
  2: { rewrite Hc. by do 2 eexists. }
  destruct Hc as (l1 & -> & V1). destruct Henv as [Hfit Henv].
  destruct (failed (in_err i)).
  - cbn [obind]. destruct (IH l1 buf g1 V1 Hbuf Henv) as (out & r & -> & -> & Hend). cbn [obind].
    destruct (spec_asic ins g1) as [fs r']. by do 2 eexists.
  - pose proof (view_known _ _ _ (in_portNum i) V1) as Hk.
    destruct (asic_packet_known (in_internal i) (in_portNum i) (in_vid i) (in_data i) l1
      (g1 !! in_portNum i) buf) as (ptr & size & buf' & -> & Hb & Hfr & _); [done|by apply Hfit|done|].
    cbn [obind]. destruct (IH l1 buf' g1 V1) as (out & r & -> & -> & Hend); [congruence|done|]. cbn [obind].
    destruct (spec_asic ins g1) as [fs r']. do 2 eexists. split; [done|]. split; [|done]. cbn [fst].
    f_equal. by destruct (g1 !! in_portNum i); simpl; rewrite ?Hfr.
Qed.

Lemma init_view t : listener_view t listener_init ∅.
Proof. split; [apply view_empty|by intros _]. Qed.

(** C25: The TAP listener, from its start and for any number of rounds, forwards exactly
    the frames its specification does, in order and byte for byte: those of interfaces
    it was told about and not told to forget, once five seconds have passed since the
    first, to the port of the interface, tagged frames only into VLANs of the port and
    without their tag where the port strips it, untagged ones only from the
    interface's own address.  It ends when it is told to or when a signal interrupts
    [select], and otherwise knows the interfaces of the commands it has read.  It
    writes outside of its memory exactly when a frame is longer than the buffer less
    the 32 bytes in front of it, or a descriptor does not fit into a set of [select].
    Assumed: commands add interfaces that are not known yet, and a known interface
    that is reported readable has an error or a frame of at least 16 bytes, never
    EWOULDBLOCK. *)
Theorem tap_listener_refines sid ins :
  tap_env ins ∅ → tap_matches (tap_listener (Some sid) ins) (spec_tap sid ins ∅ None).
Proof.
  intros Henv. apply (tap_rounds_refine sid ins
    {| tl_listener := listener_init; tl_buf := replicate FPA_HAL_MAX_MTU_CNS 0; tl_init := None |} ∅);
    [|done]. split; [apply init_view|apply length_replicate].
Qed.

End refinement.

(** ** Witnesses *)

#[local] Instance LwHmap : HMAP := ListHmap 16.
#[local] Instance LwHmapLaws : HMAP_LAWS LwHmap := ListHmapLaws 16.

Definition w_add_if : ctrl_cmd := OPS_FPA_CMD_ADD_IF "3" 7 3 w_mac1.

(** A round in which interface 7 has the frame at second [t], or in which commands
    are to be read. *)
Definition w_ready (t : Z) : tap_input (F := SimNF) :=
  {| in_select := SelectReady {[7]} false; in_cmds := []; in_read _ := ReadBytes w_frame;
     in_init_time _ := t * 1000000; in_cur_time _ := t * 1000000; in_hw := w_port |}.
Definition w_cmds (cmds : list ctrl_cmd) : tap_input (F := SimNF) :=
  {| in_select := SelectReady ∅ true; in_cmds := cmds; in_read _ := ReadError;
     in_init_time _ := 0; in_cur_time _ := 0; in_hw := w_port |}.

(** The interface is added, its first frame is drained, its second forwarded, and the
    thread is told to end. *)
Definition w_rounds : list (tap_input (F := SimNF)) :=
  [w_cmds [w_add_if]; w_ready 1; w_ready 7; w_cmds [OPS_FPA_CMD_THREAD_EXIT]].

Lemma w_rounds_env : tap_env w_rounds ∅.
Proof.
  assert (∀ t g, frames_whole (w_ready t) {[7]} g) as Hfit.
  { intros t g fd _ _. change (16 ≤ length w_frame)%nat. w_room. }
  split; [by split|]. split; [by intros fd ?%not_elem_of_empty|].
  split; [done|]. split; [apply Hfit|]. split; [done|]. split; [apply Hfit|]. by split.
Qed.

(** A frame that does not fit. *)
Definition w_long : tap_input (F := SimNF) :=
  {| in_select := SelectReady {[7]} false; in_cmds := [];
     in_read _ := ReadBytes (replicate FPA_HAL_MAX_MTU_CNS 0);
     in_init_time _ := 0; in_cur_time _ := 0; in_hw := w_port |}.

Lemma tap_listener_refines_witness :
  (∃ out, tap_listener (Some 0) w_rounds = Done (out, None) ∧ (sent_frame <$> out) = [(3, w_frame)]) ∧
  tap_listener (Some 0) [w_long] = Crash Undefined.
Proof.
  split.
  - pose proof (tap_listener_refines 0 w_rounds w_rounds_env) as Hm.
    assert (spec_tap 0 w_rounds ∅ None = Done ([(3, w_frame)], None)) as Hspec by (vm_compute; reflexivity).
    rewrite Hspec in Hm. destruct Hm as (out & r & Hl & Hout & Hr). cbn in Hr. subst r.
    exists out. exact (conj Hl Hout).
  - assert (spec_tap 0 [w_long] ∅ None = Crash Undefined) as Hspec by (vm_compute; reflexivity).
    pose proof (tap_listener_refines 0 [w_long]) as Hm. rewrite Hspec in Hm. apply Hm.
    split; [exact I|]. split; [|exact I]. intros fd _ [e He]. rewrite lookup_empty in He. discriminate He.
Defined.

Definition w_received (cmds : list ctrl_cmd) : asic_input :=
  {| in_err := FPA_OK; in_portNum := 3; in_vid := 10; in_data := w_frame; in_acmds := cmds;
     in_internal := ∅ |}.

