(* ===== verification/Netdev.v ===== *)
(** * The netdev classes (src/ops-fpa-netdev.c)

    System interfaces are ports of the switch with a TAP interface; internal,
    subinterface and loopback ones have no port.  The port functions of the SDK and
    the constants of the SDK, of Open vSwitch and of the database schema are
    parameters.  Each operation holds the mutex of its netdev while it runs; that
    mutex is not modelled, the device mutex is (see [Dev]). *)

From S2P Require Import Prelude Fpa FpaSim Util Hmap MacLearning Dev.

Local Open Scope string_scope.
Local Open Scope list_scope.
Local Open Scope Z_scope.

(** ** The SDK's ports *)

(** The features of a port, [FPA_PORT_FEAT_*]. *)
Inductive fpa_feature :=
  | FPA_10MB_HD | FPA_10MB_FD | FPA_100MB_HD | FPA_100MB_FD | FPA_1GB_HD | FPA_1GB_FD
  | FPA_2_5GB_FD | FPA_10GB_FD | FPA_20GB_FD | FPA_40GB_FD | FPA_100GB_FD | FPA_1TB_FD
  | FPA_OTHER | FPA_COPPER | FPA_FIBER | FPA_AUTONEG | FPA_PAUSE | FPA_PAUSE_ASYM.

(** The features of a netdev, [NETDEV_F_*]. *)
Inductive netdev_feature :=
  | ND_10MB_HD | ND_10MB_FD | ND_100MB_HD | ND_100MB_FD | ND_1GB_HD | ND_1GB_FD
  | ND_10GB_FD | ND_40GB_FD | ND_100GB_FD | ND_1TB_FD
  | ND_OTHER | ND_COPPER | ND_FIBER | ND_AUTONEG | ND_PAUSE | ND_PAUSE_ASYM.

#[export] Instance fpa_feature_eq_dec : EqDecision fpa_feature.
Proof. solve_decision. Defined.
#[export] Instance netdev_feature_eq_dec : EqDecision netdev_feature.
Proof. solve_decision. Defined.

Record FPA_PORT_PROPERTIES_STC := {
  flags : Z;
  config : Z;
  featuresBmp : Z;
  advertBmp : Z;
  supportedBmp : Z;
  peerBmp : Z
}.

Record FPA_PORT_COUNTERS_STC := {
  rxPackets : Z; txPackets : Z; rxBytes : Z; txBytes : Z; rxDropped : Z; txDropped : Z;
  rxErrors : Z; txErrors : Z; rxFrameErr : Z; rxOverErr : Z; rxCrcErr : Z; collisions : Z
}.

Class FPA_PORTS := {
  ports_hw : Type;
  FPA_PORT_FEAT : fpa_feature → Z;
  FPA_PORT_CONFIG_DOWN : Z;
  FPA_PORT_PROPERTIES_CONFIG_FLAG : Z;
  FPA_PORT_PROPERTIES_FEATURES_FLAG : Z;
  FPA_PORT_PROPERTIES_ADVERTISED_FLAG : Z;
  FPA_PORT_PROPERTIES_SUPPORTED_FLAG : Z;
  FPA_PORT_PROPERTIES_PEER_FLAG : Z;
  NETDEV_F : netdev_feature → Z;
  NETDEV_UP : Z;
  (* the structure passed and the one returned in its place *)
  fpaLibPortPropertiesGet : Z → Z → FPA_PORT_PROPERTIES_STC → ports_hw →
    FPA_STATUS * FPA_PORT_PROPERTIES_STC;
  fpaLibPortPropertiesSet : Z → Z → FPA_PORT_PROPERTIES_STC → ports_hw → FPA_STATUS * ports_hw;
  fpaLibPortStatisticsGet : Z → Z → ports_hw → FPA_STATUS * FPA_PORT_COUNTERS_STC;
  (* values of the database schema *)
  DUPLEX_FULL : string;
  AUTONEG_ON : string;
  PAUSE_RX : string;
  PAUSE_TX : string;
  PAUSE_RXTX : string;
  (* str_to_mac, None for an error, and ether_aton, None for a null pointer *)
  str_to_mac : string → option mac;
  ether_aton : string → option mac
}.

(** ** Data *)

Record fpa_netdev := {
  n_type : string;
  n_name : string;
  n_sid : Z;
  n_pid : Z;
  n_mac : mac;
  inited : bool;
  link_status : bool;
  link_resets : Z;
  tap_fd : Z;
  n_flags : Z;
  (* how often [netdev_change_seq_changed] was called *)
  change_seq : nat;
  (* the references to the netdev, its [ref_cnt] *)
  n_refs : Z
}.

Definition set_ids (sid pid : Z) (d : fpa_netdev) : fpa_netdev :=
  {| n_type := n_type d; n_name := n_name d; n_sid := sid; n_pid := pid; n_mac := n_mac d;
     inited := inited d; link_status := link_status d; link_resets := link_resets d;
     tap_fd := tap_fd d; n_flags := n_flags d; change_seq := change_seq d; n_refs := n_refs d |}.
Definition set_mac (m : mac) (d : fpa_netdev) : fpa_netdev :=
  {| n_type := n_type d; n_name := n_name d; n_sid := n_sid d; n_pid := n_pid d; n_mac := m;
     inited := inited d; link_status := link_status d; link_resets := link_resets d;
     tap_fd := tap_fd d; n_flags := n_flags d; change_seq := change_seq d; n_refs := n_refs d |}.
Definition set_inited (fd : Z) (i : bool) (d : fpa_netdev) : fpa_netdev :=
  {| n_type := n_type d; n_name := n_name d; n_sid := n_sid d; n_pid := n_pid d; n_mac := n_mac d;
     inited := i; link_status := link_status d; link_resets := link_resets d;
     tap_fd := fd; n_flags := n_flags d; change_seq := change_seq d; n_refs := n_refs d |}.
Definition set_link (s : bool) (r : Z) (d : fpa_netdev) : fpa_netdev :=
  {| n_type := n_type d; n_name := n_name d; n_sid := n_sid d; n_pid := n_pid d; n_mac := n_mac d;
     inited := inited d; link_status := s; link_resets := r;
     tap_fd := tap_fd d; n_flags := n_flags d; change_seq := change_seq d; n_refs := n_refs d |}.
Definition set_flags (f : Z) (d : fpa_netdev) : fpa_netdev :=
  {| n_type := n_type d; n_name := n_name d; n_sid := n_sid d; n_pid := n_pid d; n_mac := n_mac d;
     inited := inited d; link_status := link_status d; link_resets := link_resets d;
     tap_fd := tap_fd d; n_flags := f; change_seq := change_seq d; n_refs := n_refs d |}.
Definition netdev_change_seq_changed (d : fpa_netdev) : fpa_netdev :=
  {| n_type := n_type d; n_name := n_name d; n_sid := n_sid d; n_pid := n_pid d; n_mac := n_mac d;
     inited := inited d; link_status := link_status d; link_resets := link_resets d;
     tap_fd := tap_fd d; n_flags := n_flags d; change_seq := S (change_seq d); n_refs := n_refs d |}.
Definition set_refs (r : Z) (d : fpa_netdev) : fpa_netdev :=
  {| n_type := n_type d; n_name := n_name d; n_sid := n_sid d; n_pid := n_pid d; n_mac := n_mac d;
     inited := inited d; link_status := link_status d; link_resets := link_resets d;
     tap_fd := tap_fd d; n_flags := n_flags d; change_seq := change_seq d; n_refs := r |}.

(** The arguments of [set_hw_intf_info] and of [set_hw_intf_config]: the values of
    their keys in the map, [None] where the key is missing. *)
Record hw_intf_info := {
  switch_unit : option string;
  switch_intf_id : option string;
  mac_addr : option string;
  is_bridge : bool
}.

Record hw_intf_config := {
  hw_enable : bool;
  cfg_duplex : option string;
  cfg_speeds : option string;
  cfg_autoneg : option string;
  cfg_pause : option string
}.

Definition opt_eq (s : option string) (v : string) : bool :=
  match s with Some s => String.eqb s v | None => false end.

Section netdev.
Context {N : FPA_PORTS}.

(** ** Features *)

(** The pairs of the two conversions, in the order of the source. *)
Definition feature_pairs : list (Z * Z) :=
  [ (FPA_PORT_FEAT FPA_10MB_HD, NETDEV_F ND_10MB_HD);
    (FPA_PORT_FEAT FPA_10MB_FD, NETDEV_F ND_10MB_FD);
    (FPA_PORT_FEAT FPA_100MB_HD, NETDEV_F ND_100MB_HD);
    (FPA_PORT_FEAT FPA_100MB_FD, NETDEV_F ND_100MB_FD);
    (FPA_PORT_FEAT FPA_1GB_HD, NETDEV_F ND_1GB_HD);
    (FPA_PORT_FEAT FPA_1GB_FD, NETDEV_F ND_1GB_FD);
    (FPA_PORT_FEAT FPA_2_5GB_FD, NETDEV_F ND_OTHER);
    (FPA_PORT_FEAT FPA_10GB_FD, NETDEV_F ND_10GB_FD);
    (FPA_PORT_FEAT FPA_20GB_FD, NETDEV_F ND_OTHER);
    (FPA_PORT_FEAT FPA_40GB_FD, NETDEV_F ND_40GB_FD);
    (FPA_PORT_FEAT FPA_100GB_FD, NETDEV_F ND_100GB_FD);
    (FPA_PORT_FEAT FPA_1TB_FD, NETDEV_F ND_1TB_FD);
    (FPA_PORT_FEAT FPA_OTHER, NETDEV_F ND_OTHER);
    (FPA_PORT_FEAT FPA_COPPER, NETDEV_F ND_COPPER);
    (FPA_PORT_FEAT FPA_FIBER, NETDEV_F ND_FIBER);
    (FPA_PORT_FEAT FPA_AUTONEG, NETDEV_F ND_AUTONEG);
    (FPA_PORT_FEAT FPA_PAUSE, NETDEV_F ND_PAUSE);
    (FPA_PORT_FEAT FPA_PAUSE_ASYM, NETDEV_F ND_PAUSE_ASYM) ].

(** One [if (f & a) n |= b] per pair. *)
Definition convert (pairs : list (Z * Z)) (f : Z) : Z :=
  foldl (λ n '(a, b), if Z.land f a =? 0 then n else Z.lor n b) 0 pairs.

Definition fpa_to_netdev_features (f : Z) : Z := convert feature_pairs f.
Definition netdev_to_fpa_features (n : Z) : Z := convert (prod_swap <$> feature_pairs) n.

Definition get_interface_speed_features (args : hw_intf_config) : Z :=
  let duplex := opt_eq (cfg_duplex args) DUPLEX_FULL in
  let '(_, speed) := ops_fpa_str2int (cfg_speeds args) 1000 in
  if speed =? 10 then FPA_PORT_FEAT (if duplex then FPA_10MB_FD else FPA_10MB_HD)
  else if speed =? 100 then FPA_PORT_FEAT (if duplex then FPA_100MB_FD else FPA_100MB_HD)
  else if speed =? 1000 then FPA_PORT_FEAT (if duplex then FPA_1GB_FD else FPA_1GB_HD)
  else if speed =? 2500 then FPA_PORT_FEAT FPA_2_5GB_FD
  else if speed =? 10000 then FPA_PORT_FEAT FPA_10GB_FD
  else if speed =? 20000 then FPA_PORT_FEAT FPA_20GB_FD
  else if speed =? 40000 then FPA_PORT_FEAT FPA_40GB_FD
  else if speed =? 100000 then FPA_PORT_FEAT FPA_100GB_FD
  else if speed =? 1000000 then FPA_PORT_FEAT FPA_1TB_FD
  else FPA_PORT_FEAT (if duplex then FPA_1GB_FD else FPA_1GB_HD).

Definition get_interface_autoneg_features (args : hw_intf_config) : Z :=
  if opt_eq (cfg_autoneg args) AUTONEG_ON then FPA_PORT_FEAT FPA_AUTONEG else 0.

Definition get_interface_pause_features (args : hw_intf_config) : Z :=
  if opt_eq (cfg_pause args) PAUSE_RX then FPA_PORT_FEAT FPA_PAUSE
  else if opt_eq (cfg_pause args) PAUSE_TX then FPA_PORT_FEAT FPA_PAUSE_ASYM
  else if opt_eq (cfg_pause args) PAUSE_RXTX
  then Z.lor (FPA_PORT_FEAT FPA_PAUSE) (FPA_PORT_FEAT FPA_PAUSE_ASYM)
  else 0.

(** ** Configuration of a port *)

Definition wrap_fpaLibPortPropertiesSet (switchId portNum : Z) (props : FPA_PORT_PROPERTIES_STC)
    (h : ports_hw) : FPA_STATUS * ports_hw :=
  fpaLibPortPropertiesSet switchId portNum props h.

(** [props] is the structure on the stack, whose fields are not initialised. *)
Definition ops_fpa_netdev_set_hw_intf_config (props : FPA_PORT_PROPERTIES_STC) (args : hw_intf_config)
    (d : fpa_netdev) (h : ports_hw) : option errno * fpa_netdev * ports_hw :=
  if negb (inited d) then (Some EPERM, d, h) else
  let props := {| flags := FPA_PORT_PROPERTIES_SUPPORTED_FLAG; config := config props;
                  featuresBmp := featuresBmp props; advertBmp := advertBmp props;
                  supportedBmp := supportedBmp props; peerBmp := peerBmp props |} in
  let '(err, props) := fpaLibPortPropertiesGet (n_sid d) (n_pid d) props h in
  if failed err then (Some EINVAL, d, h) else
  let '(props, d) :=
    if hw_enable args then
      let features := Z.lor (Z.lor (get_interface_speed_features args)
                               (get_interface_autoneg_features args))
                        (get_interface_pause_features args) in
      let features := Z.land features (supportedBmp props) in
      ({| flags := if features =? 0 then FPA_PORT_PROPERTIES_CONFIG_FLAG
                   else Z.lor FPA_PORT_PROPERTIES_CONFIG_FLAG FPA_PORT_PROPERTIES_FEATURES_FLAG;
          config := 0; featuresBmp := features; advertBmp := advertBmp props;
          supportedBmp := supportedBmp props; peerBmp := peerBmp props |}, set_flags NETDEV_UP d)
    else
      ({| flags := FPA_PORT_PROPERTIES_CONFIG_FLAG; config := FPA_PORT_CONFIG_DOWN;
          featuresBmp := featuresBmp props; advertBmp := advertBmp props;
          supportedBmp := supportedBmp props; peerBmp := peerBmp props |}, set_flags 0 d) in
  let '(err, h) := wrap_fpaLibPortPropertiesSet (n_sid d) (n_pid d) props h in
  if failed err then (Some EINVAL, d, h) else
  (None, netdev_change_seq_changed d, h).

(** The structure [{ .flags = FPA_PORT_PROPERTIES_CONFIG_FLAG, .config = 0 }]. *)
Definition props_config : FPA_PORT_PROPERTIES_STC :=
  {| flags := FPA_PORT_PROPERTIES_CONFIG_FLAG; config := 0; featuresBmp := 0; advertBmp := 0;
     supportedBmp := 0; peerBmp := 0 |}.

(** The old flags are [None] where the output argument is not written. *)
Definition ops_fpa_netdev_update_flags (off on : Z) (d : fpa_netdev) (h : ports_hw) :
    option errno * option Z * ports_hw :=
  if n_sid d =? FPA_INVALID_SWITCH_ID then (Some EOPNOTSUPP, None, h) else
  let '(err, props) := fpaLibPortPropertiesGet (n_sid d) (n_pid d) props_config h in
  if failed err then (Some EINVAL, None, h) else
  let down := negb (Z.land (config props) FPA_PORT_CONFIG_DOWN =? 0) in
  let old_flags := if down then 0 else NETDEV_UP in
  if negb (Z.land (Z.lor on off) NETDEV_UP =? 0) then
    let config' :=
      if negb (Z.land on NETDEV_UP =? 0) then Z.land (config props) (Z.lnot FPA_PORT_CONFIG_DOWN)
      else if negb (Z.land off NETDEV_UP =? 0) then Z.lor (config props) FPA_PORT_CONFIG_DOWN
      else config props in
    let props := {| flags := flags props; config := config'; featuresBmp := featuresBmp props;
                    advertBmp := advertBmp props; supportedBmp := supportedBmp props;
                    peerBmp := peerBmp props |} in
    let '(err, h) := wrap_fpaLibPortPropertiesSet (n_sid d) (n_pid d) props h in
    if failed err then (Some EINVAL, Some old_flags, h) else (None, Some old_flags, h)
  else (None, Some old_flags, h).

Definition ops_fpa_netdev_get_features (props : FPA_PORT_PROPERTIES_STC) (d : fpa_netdev)
    (h : ports_hw) : errno + Z * Z * Z * Z :=
  let '(err, props) := fpaLibPortPropertiesGet (n_sid d) (n_pid d) props h in
  if failed err then inl EINVAL else
  let part flag bmp := if Z.land (flags props) flag =? 0 then 0 else fpa_to_netdev_features bmp in
  inr (part FPA_PORT_PROPERTIES_FEATURES_FLAG (featuresBmp props),
       part FPA_PORT_PROPERTIES_ADVERTISED_FLAG (advertBmp props),
       part FPA_PORT_PROPERTIES_SUPPORTED_FLAG (supportedBmp props),
       part FPA_PORT_PROPERTIES_PEER_FLAG (peerBmp props)).

Definition ops_fpa_netdev_set_advertisements (advertise : Z) (d : fpa_netdev) (h : ports_hw) :
    option errno * ports_hw :=
  let props := {| flags := FPA_PORT_PROPERTIES_ADVERTISED_FLAG; config := 0; featuresBmp := 0;
                  advertBmp := netdev_to_fpa_features advertise; supportedBmp := 0; peerBmp := 0 |} in
  let '(err, h) := wrap_fpaLibPortPropertiesSet (n_sid d) (n_pid d) props h in
  if failed err then (Some EINVAL, h) else (None, h).

(** ** Link state *)

(** One netdev of [ops_fpa_netdev_run]. *)
Definition netdev_poll (h : ports_hw) (d : fpa_netdev) : fpa_netdev :=
  let '(err, props) := fpaLibPortPropertiesGet (n_sid d) (n_pid d) props_config h in
  if failed err then d else
  let status := if Z.land (config props) FPA_PORT_CONFIG_DOWN =? 0 then true else false in
  if Bool.eqb status (link_status d) then d else
  netdev_change_seq_changed
    (set_link status (if status then link_resets d + 1 else link_resets d) d).

(** The netdevs by address.  [netdev_get_devices] takes a reference to each netdev of
    the class, for the caller to release with [netdev_close]. *)
Definition netdev_get_devices (type : string) (devices : gmap Z fpa_netdev) : gmap Z fpa_netdev :=
  (λ d, if String.eqb (n_type d) type then set_refs (n_refs d + 1) d else d) <$> devices.

Definition ops_fpa_netdev_run (h : ports_hw) (devices : gmap Z fpa_netdev) : gmap Z fpa_netdev :=
  (λ d, if String.eqb (n_type d) "system" then netdev_poll h d else d) <$>
    netdev_get_devices "system" devices.

(** ** Construction *)

(** [n] is the value of the counter before the call. *)
Definition ops_fpa_netdev_construct (type name : string) (n : Z) : fpa_netdev :=
  {| n_type := type; n_name := name; n_sid := FPA_INVALID_SWITCH_ID; n_pid := FPA_INVALID_INTF_ID;
     n_mac := [0xaa; 0x55; u8 (Z.shiftr (u32 n) 24); u8 (Z.shiftr (u32 n) 16);
               u8 (Z.shiftr (u32 n) 8); u8 (u32 n)];
     inited := false; link_status := false; link_resets := 0; tap_fd := 0; n_flags := 0;
     change_seq := 0; n_refs := 1 |}.

Definition ops_fpa_netdev_set_etheraddr (m : mac) (d : fpa_netdev) : fpa_netdev :=
  if decide (n_mac d = m) then d else netdev_change_seq_changed (set_mac m d).

(** ** Statistics *)

(** All other counters are all ones. *)
Definition ops_fpa_netdev_get_stats (d : fpa_netdev) (h : ports_hw) :
    errno + option FPA_PORT_COUNTERS_STC :=
  if String.eqb (n_type d) "internal" then inr None else
  let '(err, counters) := fpaLibPortStatisticsGet (n_sid d) (n_pid d) h in
  if failed err then inl EINVAL else inr (Some counters).

(** ** Internal interfaces *)

Definition internal_netdev_set_hw_intf_config (args : hw_intf_config) (d : fpa_netdev) :
    option errno * fpa_netdev :=
  if negb (inited d) then (Some EPERM, d) else
  (None, netdev_change_seq_changed (set_flags (if hw_enable args then NETDEV_UP else 0) d)).

Definition internal_netdev_update_flags (off on : Z) (d : fpa_netdev) : Z := n_flags d.

(** ** Interfaces and the device *)

Context {W : TAP_OS} {H : HMAP} {E : ML_ENV} {hw0 : Type}.

Definition internal_netdev_set_hw_intf_info (args : hw_intf_info) (d : fpa_netdev) (s : os) :
    option errno * fpa_netdev * os :=
  if inited d then (None, d, s) else
  if is_bridge args then
    let '(ret, s) := ops_fpa_bridge_create (n_name d) (n_mac d) s in
    match ret with
    | Some _ => (Some EINVAL, d, s)
    | None => (None, set_inited (tap_fd d) true d, s)
    end
  else (None, set_inited (tap_fd d) true d, s).

(** Naming a port of the switch and creating its TAP interface. *)
Definition ops_fpa_netdev_set_hw_intf_info (args : hw_intf_info) (d : fpa_netdev)
    (p : proc (hw := hw0)) : outcome (option errno * fpa_netdev * proc (hw := hw0)) :=
  if inited d then Done (None, d, p) else
  if String.eqb (n_type d) "system" then
    let '(bad, sid) := ops_fpa_str2int (switch_unit args) (n_sid d) in
    if bad then Done (Some EINVAL, d, p) else
    let d := set_ids sid (n_pid d) d in
    if sid =? FPA_INVALID_SWITCH_ID then Crash AssertFailed else
    let '(bad, pid) := ops_fpa_str2int (switch_intf_id args) (n_pid d) in
    if bad then Done (Some EINVAL, d, p) else
    let d := set_ids sid pid d in
    if pid =? FPA_INVALID_INTF_ID then Crash AssertFailed else
    let parsed := match mac_addr args with
                  | None => Some (n_mac d)
                  | Some m => str_to_mac m
                  end in
    match parsed with
    | None => Done (Some EINVAL, d, p)
    | Some m =>
        let d := set_mac m d in
        match mac_addr args with
        | None => Crash NullDeref
        | Some m =>
            let* (ret, fd, p) :=
              ops_fpa_tap_if_create (u32 sid) (u32 pid) (n_name d) (ether_aton m) p in
            let d := set_inited (default (tap_fd d) fd) (inited d) d in
            match ret with
            | Some _ => Done (Some EINVAL, d, p)
            | None => Done (None, set_inited (tap_fd d) true d, p)
            end
        end
    end
  else Done (None, set_inited (tap_fd d) true d, p).

Definition ops_fpa_netdev_destruct (d : fpa_netdev) (p : proc (hw := hw0)) : outcome proc :=
  let* p :=
    if negb (tap_fd d =? 0) then
      let* (_, p) := ops_fpa_tap_if_delete (u32 (n_sid d)) (tap_fd d) p in Done p
    else Done p in
  if String.eqb (n_name d) "bridge_normal" then
    let '(_, s) := ops_fpa_bridge_delete "bridge_normal" (p_os p) in Done (set_os s p)
  else Done p.
End netdev.

(** ** Features, as sets of bits *)

(** Every constant is a bit of its own. *)
Class FEATURE_BITS (N : FPA_PORTS) := {
  fpa_bit : fpa_feature → Z;
  nd_bit : netdev_feature → Z;
  fpa_bit_nonneg f : 0 ≤ fpa_bit f;
  nd_bit_nonneg n : 0 ≤ nd_bit n;
  fpa_bit_inj : Inj (=) (=) fpa_bit;
  nd_bit_inj : Inj (=) (=) nd_bit;
  FPA_PORT_FEAT_bit f : FPA_PORT_FEAT f = 2 ^ fpa_bit f;
  NETDEV_F_bit n : NETDEV_F n = 2 ^ nd_bit n
}.

Section features.
Context {N : FPA_PORTS} {B : FEATURE_BITS N}.

(** The netdev feature a port feature is shown as. *)
Definition shown_as (f : fpa_feature) : netdev_feature :=
  match f with
  | FPA_10MB_HD => ND_10MB_HD | FPA_10MB_FD => ND_10MB_FD
  | FPA_100MB_HD => ND_100MB_HD | FPA_100MB_FD => ND_100MB_FD
  | FPA_1GB_HD => ND_1GB_HD | FPA_1GB_FD => ND_1GB_FD
  | FPA_10GB_FD => ND_10GB_FD | FPA_40GB_FD => ND_40GB_FD
  | FPA_100GB_FD => ND_100GB_FD | FPA_1TB_FD => ND_1TB_FD
  | FPA_2_5GB_FD | FPA_20GB_FD | FPA_OTHER => ND_OTHER
  | FPA_COPPER => ND_COPPER | FPA_FIBER => ND_FIBER | FPA_AUTONEG => ND_AUTONEG
  | FPA_PAUSE => ND_PAUSE | FPA_PAUSE_ASYM => ND_PAUSE_ASYM
  end.

Definition all_features : list fpa_feature :=
  [FPA_10MB_HD; FPA_10MB_FD; FPA_100MB_HD; FPA_100MB_FD; FPA_1GB_HD; FPA_1GB_FD; FPA_2_5GB_FD;
   FPA_10GB_FD; FPA_20GB_FD; FPA_40GB_FD; FPA_100GB_FD; FPA_1TB_FD; FPA_OTHER; FPA_COPPER;
   FPA_FIBER; FPA_AUTONEG; FPA_PAUSE; FPA_PAUSE_ASYM].

Lemma elem_of_all_features f : f ∈ all_features.
Proof. unfold all_features. destruct f; rewrite !elem_of_cons; tauto. Qed.

Lemma shown_as_surj n : ∃ f, shown_as f = n.
Proof.
  destruct n; [exists FPA_10MB_HD|exists FPA_10MB_FD|exists FPA_100MB_HD|exists FPA_100MB_FD
    |exists FPA_1GB_HD|exists FPA_1GB_FD|exists FPA_10GB_FD|exists FPA_40GB_FD|exists FPA_100GB_FD
    |exists FPA_1TB_FD|exists FPA_OTHER|exists FPA_COPPER|exists FPA_FIBER|exists FPA_AUTONEG
    |exists FPA_PAUSE|exists FPA_PAUSE_ASYM]; done.
Qed.

Lemma feature_pairs_shown :
  feature_pairs = (λ f, (FPA_PORT_FEAT f, NETDEV_F (shown_as f))) <$> all_features.
Proof. done. Qed.

Lemma land_pow2_zero x k : 0 ≤ k → (Z.land x (2 ^ k) =? 0) = negb (Z.testbit x k).
Proof.
  intros Hk. destruct (Z.testbit x k) eqn:Hb; simpl.
  - apply Z.eqb_neq. intros H0. apply (f_equal (λ z, Z.testbit z k)) in H0.
    by rewrite Z.land_spec, Hb, Z.pow2_bits_true, Z.bits_0 in H0.
  - apply Z.eqb_eq. apply Z.bits_inj'. intros i Hi. rewrite Z.land_spec, Z.bits_0.
    destruct (decide (i = k)) as [->|]; [by rewrite Hb|].
    by rewrite Z.pow2_bits_false, andb_false_r.
Qed.

(** Converting by pairs of bits. *)
Lemma convert_bits {A} (a b : A → Z) (l : list A) x i :
  (∀ f, 0 ≤ a f) → (∀ f, 0 ≤ b f) → 0 ≤ i →
  Z.testbit (convert ((λ f, (2 ^ a f, 2 ^ b f)) <$> l) x) i = true ↔
  ∃ f, f ∈ l ∧ Z.testbit x (a f) = true ∧ i = b f.
Proof.
  intros Ha Hb Hi. unfold convert.
  assert (∀ n, Z.testbit (foldl (λ n '(a, b), if Z.land x a =? 0 then n else Z.lor n b) n
      ((λ f, (2 ^ a f, 2 ^ b f)) <$> l)) i = true ↔
    Z.testbit n i = true ∨ ∃ f, f ∈ l ∧ Z.testbit x (a f) = true ∧ i = b f) as Hgen.
  { induction l as [|f l IH]; intros n; simpl.
    - split; [by left|]. intros [?|(f & ?%not_elem_of_nil & _)]; done.
    - rewrite IH, land_pow2_zero by done. setoid_rewrite elem_of_cons.
      destruct (Z.testbit x (a f)) eqn:Hx; simpl.
      + rewrite Z.lor_spec, orb_true_iff. split.
        * intros [[?|Hf]|?]; [by left| |naive_solver]. right. exists f. split_and!; [by left|done|].
          destruct (decide (i = b f)); [done|]. by rewrite Z.pow2_bits_false in Hf.
        * intros [?|(f' & [->|?] & ? & ->)]; [by left; left| |naive_solver].
          left. right. by apply Z.pow2_bits_true.
      + split; [naive_solver|]. intros [?|(f' & [->|?] & ? & ->)]; [by left|congruence|naive_solver]. }
  rewrite Hgen, Z.bits_0. naive_solver.
Qed.

Lemma to_netdev_bits x i :
  0 ≤ i → Z.testbit (fpa_to_netdev_features x) i = true ↔
    ∃ f, Z.testbit x (fpa_bit f) = true ∧ i = nd_bit (shown_as f).
Proof.
  intros Hi. unfold fpa_to_netdev_features. rewrite feature_pairs_shown.
  erewrite (list_fmap_ext _ (λ f, (2 ^ fpa_bit f, 2 ^ nd_bit (shown_as f)))) by
    (intros; by rewrite FPA_PORT_FEAT_bit, NETDEV_F_bit).
  rewrite convert_bits by (intros; first [apply fpa_bit_nonneg|apply nd_bit_nonneg|done]).
  split; [naive_solver|]. intros (f & ? & ?). exists f. split_and!; [apply elem_of_all_features|done..].
Qed.

Lemma to_fpa_bits x i :
  0 ≤ i → Z.testbit (netdev_to_fpa_features x) i = true ↔
    ∃ f, Z.testbit x (nd_bit (shown_as f)) = true ∧ i = fpa_bit f.
Proof.
  intros Hi. unfold netdev_to_fpa_features. rewrite feature_pairs_shown, <- list_fmap_compose.
  erewrite (list_fmap_ext _ (λ f, (2 ^ nd_bit (shown_as f), 2 ^ fpa_bit f))) by
    (intros; simpl; by rewrite FPA_PORT_FEAT_bit, NETDEV_F_bit).
  rewrite convert_bits by (intros; first [apply fpa_bit_nonneg|apply nd_bit_nonneg|done]).
  split; [naive_solver|]. intros (f & ? & ?). exists f. split_and!; [apply elem_of_all_features|done..].
Qed.

(** Converting netdev features to port features and back is the identity on the
    features there are, and converting port features there and back loses none. *)
Theorem features_roundtrip x :
  0 ≤ x →
  ((∀ i, Z.testbit x i = true → ∃ n, i = nd_bit n) →
   fpa_to_netdev_features (netdev_to_fpa_features x) = x) ∧
  ((∀ i, Z.testbit x i = true → ∃ f, i = fpa_bit f) →
   Z.land x (netdev_to_fpa_features (fpa_to_netdev_features x)) = x).
Proof.
  intros Hx. pose proof fpa_bit_inj as Hfi. pose proof nd_bit_inj as Hni. split.
  - intros Hknown. apply Z.bits_inj'. intros i Hi. apply eq_iff_eq_true.
    rewrite to_netdev_bits by done. split.
    + intros (f & (f' & Hb & Hf%Hfi)%to_fpa_bits & ->); [|apply fpa_bit_nonneg]. by subst f'.
    + intros Hb. destruct (Hknown i Hb) as [n ->]. destruct (shown_as_surj n) as [f <-].
      exists f. split; [|done]. apply to_fpa_bits; [apply fpa_bit_nonneg|]. by exists f.
  - intros Hknown. apply Z.bits_inj'. intros i Hi. rewrite Z.land_spec.
    destruct (Z.testbit x i) eqn:Hb; [simpl|done]. destruct (Hknown i Hb) as [f ->].
    apply to_fpa_bits; [apply fpa_bit_nonneg|]. exists f. split; [|done].
    apply to_netdev_bits; [apply nd_bit_nonneg|]. by exists f.
Qed.
End features.

(** ** Link state and configuration *)

Section link.
Context {N : FPA_PORTS}.

(** What a poll of a port tells: nothing if the switch fails, else whether it is up. *)
Definition link_reading (sid pid : Z) (h : ports_hw) : option bool :=
  let '(err, props) := fpaLibPortPropertiesGet sid pid props_config h in
  if failed err then None else Some (Z.land (config props) FPA_PORT_CONFIG_DOWN =? 0).

(** The readings that change the state [s], and those that change it to up. *)
Fixpoint link_changes (s : bool) (rs : list (option bool)) : nat :=
  match rs with
  | [] => 0
  | Some r :: rs => (if Bool.eqb r s then 0 else 1) + link_changes r rs
  | None :: rs => link_changes s rs
  end.

Fixpoint link_rises (s : bool) (rs : list (option bool)) : Z :=
  match rs with
  | [] => 0
  | Some r :: rs => (if r && negb s then 1 else 0) + link_rises r rs
  | None :: rs => link_rises s rs
  end.

Lemma netdev_poll_reading h d :
  netdev_poll h d =
    match link_reading (n_sid d) (n_pid d) h with
    | None => d
    | Some r => if Bool.eqb r (link_status d) then d else
        netdev_change_seq_changed (set_link r (if r then link_resets d + 1 else link_resets d) d)
    end.
Proof.
  unfold netdev_poll, link_reading. destruct (fpaLibPortPropertiesGet _ _ _ _) as [err props].
  destruct (failed err); [done|]. by destruct (Z.land (config props) FPA_PORT_CONFIG_DOWN =? 0).
Qed.

(** C37: Polling a port through any sequence of switch states follows its link: the
    status is the last reading, the resets count exactly the transitions to up, the
    change sequence counts the transitions, and failed readings change nothing. *)
Theorem netdev_poll_counts_resets hs d :
  let d' := foldl (λ d h, netdev_poll h d) d hs in
  let rs := link_reading (n_sid d) (n_pid d) <$> hs in
  link_status d' = default (link_status d) (last (omap id rs)) ∧
  link_resets d' = link_resets d + link_rises (link_status d) rs ∧
  change_seq d' = (change_seq d + link_changes (link_status d) rs)%nat ∧
  n_sid d' = n_sid d ∧ n_pid d' = n_pid d.
Proof.
  revert d. induction hs as [|h hs IH]; intros d; [simpl; split_and!; [done|lia|lia|done|done]|].
  destruct (IH (netdev_poll h d)) as (Hs & Hr & Hc & Hsid & Hpid). clear IH.
  cbv zeta. rewrite fmap_cons. cbn [foldl]. rewrite Hs, Hr, Hc, Hsid, Hpid. clear Hs Hr Hc Hsid Hpid.
  rewrite netdev_poll_reading. destruct (link_reading (n_sid d) (n_pid d) h) as [r|].
  2: { split_and!; done. }
  destruct (Bool.eqb_spec r (link_status d)) as [Heq|Hne].
  - generalize (link_reading (n_sid d) (n_pid d) <$> hs). intros rs. rewrite <- Heq. simpl.
    split_and!; [by rewrite last_cons; destruct (last _)|destruct r; simpl; lia|destruct r; simpl; lia|done|done].
  - cbn [n_sid n_pid link_status link_resets change_seq netdev_change_seq_changed set_link].
    generalize (link_reading (n_sid d) (n_pid d) <$> hs). intros rs. simpl.
    split_and!; [by rewrite last_cons; destruct (last _)| | |done|done];
      destruct r, (link_status d); simpl; done || lia.
Qed.
End link.

(** What the SDK documents of the properties of a port: reading and writing those
    whose flag is set. *)
Class PORTS_LAWS (N : FPA_PORTS) := {
  port_config : ports_hw → Z → Z → Z;
  port_features : ports_hw → Z → Z → Z;
  port_supported : ports_hw → Z → Z → Z;
  props_get_ok sid pid props h props' :
    fpaLibPortPropertiesGet sid pid props h = (FPA_OK, props') →
    (Z.land (flags props) FPA_PORT_PROPERTIES_CONFIG_FLAG ≠ 0 →
     config props' = port_config h sid pid) ∧
    (Z.land (flags props) FPA_PORT_PROPERTIES_SUPPORTED_FLAG ≠ 0 →
     supportedBmp props' = port_supported h sid pid);
  props_set_ok sid pid props h h' :
    fpaLibPortPropertiesSet sid pid props h = (FPA_OK, h') →
    port_config h' sid pid = (if Z.land (flags props) FPA_PORT_PROPERTIES_CONFIG_FLAG =? 0
      then port_config h sid pid else config props) ∧
    port_features h' sid pid = (if Z.land (flags props) FPA_PORT_PROPERTIES_FEATURES_FLAG =? 0
      then port_features h sid pid else featuresBmp props);
  config_flag_bit : FPA_PORT_PROPERTIES_CONFIG_FLAG ≠ 0;
  supported_flag_bit : FPA_PORT_PROPERTIES_SUPPORTED_FLAG ≠ 0;
  features_flag_bit : FPA_PORT_PROPERTIES_FEATURES_FLAG ≠ 0;
  flags_disjoint : Z.land FPA_PORT_PROPERTIES_CONFIG_FLAG FPA_PORT_PROPERTIES_FEATURES_FLAG = 0;
  config_down_bit : FPA_PORT_CONFIG_DOWN ≠ 0
}.

Section configuration.
Context {N : FPA_PORTS} {L : PORTS_LAWS N}.

(** The features a configuration asks for that the port supports. *)
Definition wanted_features (args : hw_intf_config) (supported : Z) : Z :=
  Z.land (Z.lor (Z.lor (get_interface_speed_features args) (get_interface_autoneg_features args))
            (get_interface_pause_features args)) supported.

Lemma land_lor_flags :
  Z.land (Z.lor FPA_PORT_PROPERTIES_CONFIG_FLAG FPA_PORT_PROPERTIES_FEATURES_FLAG)
    FPA_PORT_PROPERTIES_CONFIG_FLAG = FPA_PORT_PROPERTIES_CONFIG_FLAG ∧
  Z.land (Z.lor FPA_PORT_PROPERTIES_CONFIG_FLAG FPA_PORT_PROPERTIES_FEATURES_FLAG)
    FPA_PORT_PROPERTIES_FEATURES_FLAG = FPA_PORT_PROPERTIES_FEATURES_FLAG.
Proof.
  pose proof flags_disjoint as Hd.
  split; rewrite Z.land_lor_distr_l, Z.land_diag; rewrite ?Hd, ?(Z.land_comm _ FPA_PORT_PROPERTIES_CONFIG_FLAG), ?Hd.
  - apply Z.lor_0_r.
  - apply Z.lor_0_l.
Qed.

(** C36: A configuration that is accepted is in force: enabling brings the port up
    and gives it exactly those wanted features that it supports, keeping its features
    if there are none; disabling brings it down and keeps them; the next poll, if the
    switch answers, sees the link accordingly, and the change is announced. *)
Theorem hw_intf_config_applied junk args d h d' h' :
  ops_fpa_netdev_set_hw_intf_config junk args d h = (None, d', h') →
  let want := wanted_features args (port_supported h (n_sid d) (n_pid d)) in
  port_config h' (n_sid d) (n_pid d) = (if hw_enable args then 0 else FPA_PORT_CONFIG_DOWN) ∧
  port_features h' (n_sid d) (n_pid d) =
    (if hw_enable args && negb (want =? 0) then want else port_features h (n_sid d) (n_pid d)) ∧
  n_flags d' = (if hw_enable args then NETDEV_UP else 0) ∧ change_seq d' = S (change_seq d) ∧
  (∀ r, link_reading (n_sid d) (n_pid d) h' = Some r → r = hw_enable args).
Proof.
  unfold ops_fpa_netdev_set_hw_intf_config. destruct (inited d); [simpl|done].
  destruct (fpaLibPortPropertiesGet _ _ _ _) as [err props] eqn:Hget.
  destruct (failed err) eqn:Herr; [done|]. apply failed_false in Herr as ->.
  apply props_get_ok in Hget as [_ Hsup]. simpl in Hsup.
  rewrite Z.land_diag in Hsup. specialize (Hsup supported_flag_bit).
  pose proof config_flag_bit as Hcb. pose proof features_flag_bit as Hfb.
  pose proof land_lor_flags as [Hlc Hlf]. pose proof flags_disjoint as Hdis.
  assert (∀ pr h0 h1, wrap_fpaLibPortPropertiesSet (n_sid d) (n_pid d) pr h0 = (FPA_OK, h1) →
    Z.land (flags pr) FPA_PORT_PROPERTIES_CONFIG_FLAG ≠ 0 →
    port_config h1 (n_sid d) (n_pid d) = config pr ∧
    ∀ r, link_reading (n_sid d) (n_pid d) h1 = Some r →
      r = (Z.land (config pr) FPA_PORT_CONFIG_DOWN =? 0)) as Hset.
  { intros pr h0 h1 Hs Hf. apply props_set_ok in Hs as [Hc _].
    rewrite (proj2 (Z.eqb_neq _ _)) in Hc by done. split; [done|]. intros r. unfold link_reading.
    destruct (fpaLibPortPropertiesGet _ _ _ h1) as [err pr'] eqn:Hget.
    destruct (failed err) eqn:Herr; [done|]. apply failed_false in Herr as ->.
    apply props_get_ok in Hget as [Hc' _]. simpl in Hc'. rewrite Z.land_diag in Hc'.
    intros [= <-]. by rewrite Hc', Hc. }
  rewrite Hsup. fold (wanted_features args (port_supported h (n_sid d) (n_pid d))).
  set (want := wanted_features args (port_supported h (n_sid d) (n_pid d))).
  destruct (hw_enable args); simpl;
    match goal with |- context [wrap_fpaLibPortPropertiesSet ?s ?p ?pr ?h] =>
      destruct (wrap_fpaLibPortPropertiesSet s p pr h) as [err h1] eqn:Hs end;
    destruct (failed err) eqn:Herr; try done; apply failed_false in Herr as ->;
    intros [= <- <-]; simpl in *; pose proof (Hset _ _ _ Hs) as Hc; apply props_set_ok in Hs as [_ Hf];
    simpl in Hc, Hf.
  - destruct Hc as [Hc Hr]; [by destruct (want =? 0); rewrite ?Hlc, ?Z.land_diag|].
    split_and!; [done| |done|done|by intros r ->%Hr]. rewrite Hf.
    destruct (want =? 0); simpl; [by rewrite Hdis|]. by rewrite Hlf, (proj2 (Z.eqb_neq _ _)).
  - destruct Hc as [Hc Hr]; [by rewrite Z.land_diag|].
    split_and!; [done| |done|done|].
    + by rewrite Hf, Hdis.
    + intros r ->%Hr. rewrite Z.land_diag. apply Z.eqb_neq, config_down_bit.
Qed.
End configuration.

Section hw_info.
Context {N : FPA_PORTS} {W : TAP_OS} {H : HMAP} {E : ML_ENV} {hw0 : Type}.

(** A system interface described without a MAC address crashes the daemon: the
    address is treated as optional, but the null pointer is then parsed. *)
Theorem missing_mac_crashes args d (p : proc (hw := hw0)) sid pid :
  n_type d = "system" → inited d = false → mac_addr args = None →
  ops_fpa_str2int (switch_unit args) (n_sid d) = (false, sid) → sid ≠ FPA_INVALID_SWITCH_ID →
  ops_fpa_str2int (switch_intf_id args) (n_pid d) = (false, pid) → pid ≠ FPA_INVALID_INTF_ID →
  ops_fpa_netdev_set_hw_intf_info args d p = Crash NullDeref.
Proof.
  intros Ht Hi Hm Hs Hsid Hp Hpid. unfold ops_fpa_netdev_set_hw_intf_info.
  rewrite Hi, Ht, Hs. simpl. rewrite (proj2 (Z.eqb_neq _ _)) by done. rewrite Hp.
  rewrite (proj2 (Z.eqb_neq _ _)) by done. by rewrite Hm.
Qed.
End hw_info.

(** ** Witnesses *)

(** A switch of one port: its configuration, features and supported features. *)
Record sim_port := { sp_config : Z; sp_features : Z; sp_supported : Z }.

Definition fpa_feature_index (f : fpa_feature) : Z :=
  match f with
  | FPA_10MB_HD => 0 | FPA_10MB_FD => 1 | FPA_100MB_HD => 2 | FPA_100MB_FD => 3 | FPA_1GB_HD => 4
  | FPA_1GB_FD => 5 | FPA_2_5GB_FD => 6 | FPA_10GB_FD => 7 | FPA_20GB_FD => 8 | FPA_40GB_FD => 9
  | FPA_100GB_FD => 10 | FPA_1TB_FD => 11 | FPA_OTHER => 12 | FPA_COPPER => 13 | FPA_FIBER => 14
  | FPA_AUTONEG => 15 | FPA_PAUSE => 16 | FPA_PAUSE_ASYM => 17
  end.

Definition netdev_feature_index (n : netdev_feature) : Z :=
  match n with
  | ND_10MB_HD => 0 | ND_10MB_FD => 1 | ND_100MB_HD => 2 | ND_100MB_FD => 3 | ND_1GB_HD => 4
  | ND_1GB_FD => 5 | ND_10GB_FD => 6 | ND_40GB_FD => 7 | ND_100GB_FD => 8 | ND_1TB_FD => 9
  | ND_OTHER => 10 | ND_COPPER => 11 | ND_FIBER => 12 | ND_AUTONEG => 13 | ND_PAUSE => 14
  | ND_PAUSE_ASYM => 15
  end.

#[export] Instance SimPorts : FPA_PORTS := {|
  ports_hw := sim_port;
  FPA_PORT_FEAT f := 2 ^ fpa_feature_index f;
  FPA_PORT_CONFIG_DOWN := 1;
  FPA_PORT_PROPERTIES_CONFIG_FLAG := 1;
  FPA_PORT_PROPERTIES_FEATURES_FLAG := 2;
  FPA_PORT_PROPERTIES_ADVERTISED_FLAG := 4;
  FPA_PORT_PROPERTIES_SUPPORTED_FLAG := 8;
  FPA_PORT_PROPERTIES_PEER_FLAG := 16;
  NETDEV_F n := 2 ^ netdev_feature_index n;
  NETDEV_UP := 1;
  fpaLibPortPropertiesGet sid pid props h :=
    (FPA_OK, {| flags := flags props; config := sp_config h; featuresBmp := sp_features h;
                advertBmp := 0; supportedBmp := sp_supported h; peerBmp := 0 |});
  fpaLibPortPropertiesSet sid pid props h :=
    (FPA_OK, {| sp_config := if Z.land (flags props) 1 =? 0 then sp_config h else config props;
                sp_features := if Z.land (flags props) 2 =? 0 then sp_features h
                               else featuresBmp props;
                sp_supported := sp_supported h |});
  fpaLibPortStatisticsGet sid pid h :=
    (FPA_OK, {| rxPackets := 0; txPackets := 0; rxBytes := 0; txBytes := 0; rxDropped := 0;
                txDropped := 0; rxErrors := 0; txErrors := 0; rxFrameErr := 0; rxOverErr := 0;
                rxCrcErr := 0; collisions := 0 |});
  DUPLEX_FULL := "full"; AUTONEG_ON := "on"; PAUSE_RX := "rx"; PAUSE_TX := "tx";
  PAUSE_RXTX := "rxtx";
  str_to_mac s := if String.eqb s "2:0:0:0:0:1" then Some [2; 0; 0; 0; 0; 1] else None;
  ether_aton s := if String.eqb s "2:0:0:0:0:1" then Some [2; 0; 0; 0; 0; 1] else None
|}.

#[local] Instance SimFeatureBits : FEATURE_BITS SimPorts.
Proof.
  refine {| fpa_bit := fpa_feature_index; nd_bit := netdev_feature_index |}; try done.
  - by intros [].
  - by intros [].
  - by intros [] [].
  - by intros [] [].
Defined.

#[local] Instance SimPortsLaws : PORTS_LAWS SimPorts.
Proof.
  refine {| port_config (h : @ports_hw SimPorts) _ _ := sp_config h;
            port_features (h : @ports_hw SimPorts) _ _ := sp_features h;
            port_supported (h : @ports_hw SimPorts) _ _ := sp_supported h |}; try done.
  - by intros ????? [= <-].
  - by intros ????? [= <-].
Defined.

(** A gigabit fibre port, full duplex. *)
Lemma features_roundtrip_witness :
  fpa_to_netdev_features (netdev_to_fpa_features (2 ^ 5 + 2 ^ 12)) = 2 ^ 5 + 2 ^ 12.
Proof.
  apply (features_roundtrip (2 ^ 5 + 2 ^ 12)); [done|]. intros i Hi.
  destruct (decide (i = 5)) as [->|]; [by exists ND_1GB_FD|].
  destruct (decide (i = 12)) as [->|]; [by exists ND_FIBER|]. exfalso.
  change (2 ^ 5 + 2 ^ 12) with (Z.lor (2 ^ 5) (2 ^ 12)) in Hi.
  by rewrite Z.lor_spec, !Z.pow2_bits_false in Hi by done.
Defined.

Definition w_netdev : fpa_netdev :=
  set_inited 5 true (set_ids 0 3 (ops_fpa_netdev_construct "system" "3" 0)).

Definition w_config : hw_intf_config :=
  {| hw_enable := true; cfg_duplex := Some "full"; cfg_speeds := Some "1000";
     cfg_autoneg := Some "on"; cfg_pause := None |}.

(** The port supports the speed, but no negotiation; it is down, then up. *)
Definition w_down : @ports_hw SimPorts := {| sp_config := 1; sp_features := 0; sp_supported := 32 |}.
Definition w_up : @ports_hw SimPorts := {| sp_config := 0; sp_features := 32; sp_supported := 32 |}.

Lemma hw_intf_config_applied_witness :
  ops_fpa_netdev_set_hw_intf_config props_config w_config w_netdev w_down =
    (None, netdev_change_seq_changed (set_flags 1 w_netdev), w_up) ∧
  port_config w_up 0 3 = 0 ∧ port_features w_up 0 3 = 32 ∧
  (∀ r, link_reading 0 3 w_up = Some r → r = true).
Proof.
  split; [vm_compute; reflexivity|].
  destruct (hw_intf_config_applied props_config w_config w_netdev w_down
    (netdev_change_seq_changed (set_flags 1 w_netdev)) w_up
    ltac:(vm_compute; reflexivity)) as (Hc & Hf & _ & _ & Hr).
  split_and!; [exact Hc|exact Hf|exact Hr].
Defined.

#[local] Instance NdEnv : ML_ENV := {|
  BUFFER_SIZE := 4; PORT_NAME_SIZE := 16;
  hash_bytes bs basis := foldl Z.add basis bs
|}.
#[local] Instance NdHmap : HMAP := ListHmap 16.

Lemma missing_mac_crashes_witness :
  ops_fpa_netdev_set_hw_intf_info (W := RefOs true)
    {| switch_unit := Some "0"; switch_intf_id := Some "3"; mac_addr := None; is_bridge := false |}
    (ops_fpa_netdev_construct "system" "3" 0)
    {| p_dev := None; p_mutex := false; p_os := (3 : @os (RefOs true)); p_hw := tt |} = Crash NullDeref.
Proof.
  apply (missing_mac_crashes (W := RefOs true)
    {| switch_unit := Some "0"; switch_intf_id := Some "3"; mac_addr := None; is_bridge := false |}
    (ops_fpa_netdev_construct "system" "3" 0)
    {| p_dev := None; p_mutex := false; p_os := (3 : @os (RefOs true)); p_hw := tt |} 0 3);
    first [vm_compute; reflexivity | vm_compute; discriminate].
Defined.
