(* ===== verification/Ofproto.v ===== *)
(** * The ofproto class: bundles, VLANs, hosts and routes (src/ops-fpa-ofproto.c)

    The state is the part of the process that the class works on: the switch, the
    internal VLANs, the ARP indices, the host table, the ports by interface index
    and one bridge or VRF with its bundles.  Structures on the heap are in stores
    by address; a hash map holds their addresses. *)

From S2P Require Import Prelude Fpa FpaSim Wrap Route Vlan Routing Util PortVlans Arp Hmap MacLearning Dev.

Local Open Scope string_scope.
Local Open Scope list_scope.
Local Open Scope Z_scope.

(** [STR_EQ] is false on a null pointer. *)
Definition STR_EQ (s1 s2 : option string) : bool :=
  match s1, s2 with Some a, Some b => String.eqb a b | _, _ => false end.

(** The results of the class's operations: 0 or an errno. *)
Inductive retval := Ret0 | Err (e : errno).

#[export] Instance retval_eq_dec : EqDecision retval.
Proof. solve_decision. Defined.

Record host_table_entry := {
  ipv4_addr : Z;
  arp_index : Z;
  l3_group_id : Z;
  l2_group_id' : Z
}.

(** [struct fpa_ofport] with what is read of its netdev. *)
Record fpa_ofport := {
  netdev_ifindex : Z;
  netdev_name : string;
  netdev_type : string;
  netdev_mac : mac;
  mtu : Z;
  ofp_port : Z;
  vmap : bitmap
}.

Definition set_vmap (v : bitmap) (p : fpa_ofport) : fpa_ofport :=
  {| netdev_ifindex := netdev_ifindex p; netdev_name := netdev_name p;
     netdev_type := netdev_type p; netdev_mac := netdev_mac p; mtu := mtu p;
     ofp_port := ofp_port p; vmap := v |}.

(** Functions of Open vSwitch and of the C library. *)
Class OF_ENV := {
  hash_string : string → Z;
  hash_pointer : Z → Z;
  (* the keys of a string hash in the order of SHASH_FOR_EACH *)
  shash_for_each : list string → list string;
  inet_addr : string → Z;
  eth_addr_from_string : string → option mac
}.

Section ofproto.
Context {F : FPA_SDK} {H : HMAP} {E : ML_ENV} {V : OF_ENV}.

Record fpa_bundle := {
  aux : Z;
  name : option string;
  b_intf_id : Z;
  l3_intf : option fpa_l3_intf;
  ip4addr : option string;
  (* secondary addresses: a map of heap entries *)
  secondary_ip4addr : hmap;
  secondary_store : gmap Z string
}.

Definition set_name (n : option string) (b : fpa_bundle) : fpa_bundle :=
  {| aux := aux b; name := n; b_intf_id := b_intf_id b; l3_intf := l3_intf b;
     ip4addr := ip4addr b; secondary_ip4addr := secondary_ip4addr b;
     secondary_store := secondary_store b |}.
Definition set_l3_intf (l : option fpa_l3_intf) (b : fpa_bundle) : fpa_bundle :=
  {| aux := aux b; name := name b; b_intf_id := b_intf_id b; l3_intf := l;
     ip4addr := ip4addr b; secondary_ip4addr := secondary_ip4addr b;
     secondary_store := secondary_store b |}.
Definition set_ip4addr (a : option string) (b : fpa_bundle) : fpa_bundle :=
  {| aux := aux b; name := name b; b_intf_id := b_intf_id b; l3_intf := l3_intf b;
     ip4addr := a; secondary_ip4addr := secondary_ip4addr b;
     secondary_store := secondary_store b |}.
Definition set_secondary (m : hmap) (st : gmap Z string) (b : fpa_bundle) : fpa_bundle :=
  {| aux := aux b; name := name b; b_intf_id := b_intf_id b; l3_intf := l3_intf b;
     ip4addr := ip4addr b; secondary_ip4addr := m; secondary_store := st |}.

Record world := {
  w_hw : hw;
  internal_vlans : bitmap;
  arp_indices : list Z;
  host_table : hmap;
  hosts : gmap Z host_table_entry;
  ofports : gmap Z fpa_ofport;
  ports_by_pid : hmap;
  (* the bridge or VRF *)
  up_type : string;
  up_name : string;
  switch_id : Z;
  ofproto_get_port : Z → option Z;
  bundles : hmap;
  bundle_store : gmap Z fpa_bundle;
  vlans : bitmap;
  (* TAP interfaces put into (true) or taken out of (false) the Linux bridge *)
  tap_log : list (bool * string)
}.

Definition upd_hw (h : hw) (iv : bitmap) (w : world) : world :=
  {| w_hw := h; internal_vlans := iv; arp_indices := arp_indices w; host_table := host_table w;
     hosts := hosts w; ofports := ofports w; ports_by_pid := ports_by_pid w; up_type := up_type w;
     up_name := up_name w; switch_id := switch_id w; ofproto_get_port := ofproto_get_port w;
     bundles := bundles w; bundle_store := bundle_store w; vlans := vlans w; tap_log := tap_log w |}.
Definition upd_arp (a : list Z) (w : world) : world :=
  {| w_hw := w_hw w; internal_vlans := internal_vlans w; arp_indices := a;
     host_table := host_table w; hosts := hosts w; ofports := ofports w;
     ports_by_pid := ports_by_pid w; up_type := up_type w; up_name := up_name w;
     switch_id := switch_id w; ofproto_get_port := ofproto_get_port w; bundles := bundles w;
     bundle_store := bundle_store w; vlans := vlans w; tap_log := tap_log w |}.
Definition upd_hosts (t : hmap) (hs : gmap Z host_table_entry) (w : world) : world :=
  {| w_hw := w_hw w; internal_vlans := internal_vlans w; arp_indices := arp_indices w;
     host_table := t; hosts := hs; ofports := ofports w; ports_by_pid := ports_by_pid w;
     up_type := up_type w; up_name := up_name w; switch_id := switch_id w;
     ofproto_get_port := ofproto_get_port w; bundles := bundles w;
     bundle_store := bundle_store w; vlans := vlans w; tap_log := tap_log w |}.
Definition upd_ports (m : hmap) (ps : gmap Z fpa_ofport) (w : world) : world :=
  {| w_hw := w_hw w; internal_vlans := internal_vlans w; arp_indices := arp_indices w;
     host_table := host_table w; hosts := hosts w; ofports := ps; ports_by_pid := m;
     up_type := up_type w; up_name := up_name w; switch_id := switch_id w;
     ofproto_get_port := ofproto_get_port w; bundles := bundles w;
     bundle_store := bundle_store w; vlans := vlans w; tap_log := tap_log w |}.
Definition upd_bundles (m : hmap) (bs : gmap Z fpa_bundle) (w : world) : world :=
  {| w_hw := w_hw w; internal_vlans := internal_vlans w; arp_indices := arp_indices w;
     host_table := host_table w; hosts := hosts w; ofports := ofports w;
     ports_by_pid := ports_by_pid w; up_type := up_type w; up_name := up_name w;
     switch_id := switch_id w; ofproto_get_port := ofproto_get_port w; bundles := m;
     bundle_store := bs; vlans := vlans w; tap_log := tap_log w |}.
Definition upd_vlans (v : bitmap) (w : world) : world :=
  {| w_hw := w_hw w; internal_vlans := internal_vlans w; arp_indices := arp_indices w;
     host_table := host_table w; hosts := hosts w; ofports := ofports w;
     ports_by_pid := ports_by_pid w; up_type := up_type w; up_name := up_name w;
     switch_id := switch_id w; ofproto_get_port := ofproto_get_port w; bundles := bundles w;
     bundle_store := bundle_store w; vlans := v; tap_log := tap_log w |}.
Definition upd_tap (e : bool * string) (w : world) : world :=
  {| w_hw := w_hw w; internal_vlans := internal_vlans w; arp_indices := arp_indices w;
     host_table := host_table w; hosts := hosts w; ofports := ofports w;
     ports_by_pid := ports_by_pid w; up_type := up_type w; up_name := up_name w;
     switch_id := switch_id w; ofproto_get_port := ofproto_get_port w; bundles := bundles w;
     bundle_store := bundle_store w; vlans := vlans w; tap_log := e :: tap_log w |}.

Definition store_bundle (p : Z) (b : fpa_bundle) (w : world) : world :=
  upd_bundles (bundles w) (<[p := b]> (bundle_store w)) w.

(** ** Ports and bundles *)

Definition ops_fpa_get_ofport_by_pid (w : world) (pid : Z) : option Z :=
  hmap_first_in_bucket (ports_by_pid w) pid.

Definition ops_fpa_ofport (w : world) (ofp_port : Z) : option Z := ofproto_get_port w ofp_port.

Definition ops_fpa_find_bundle (w : world) (a : Z) : option Z :=
  find (λ p, match bundle_store w !! p with Some b => aux b =? a | None => false end)
    (hmap_bucket (bundles w) (hash_pointer a)).*1.

Definition ops_fpa_rm_bundle (w : world) (bundle : option Z) : outcome (retval * world) :=
  match bundle with
  | None => Done (Err EFAULT, w)
  | Some p =>
      let* b := deref (bundle_store w) (Some p) in
      let w :=
        match l3_intf b with
        | Some l3 =>
            let '(iv, h) := ops_fpa_disable_routing l3 (internal_vlans w) (w_hw w) in
            upd_hw h iv w
        | None => w
        end in
      (* the bundle is freed *)
      Done (Ret0, upd_bundles (hmap_remove (bundles w) p) (delete p (bundle_store w)) w)
  end.

(** Allocates a bundle and fills the fields [ops_fpa_ofproto_bundle_set] sets. *)
Definition ops_fpa_create_bundle_record (w : world) (b : fpa_bundle) : Z * world :=
  let p := fresh (dom (bundle_store w)) in
  (p, upd_bundles (hmap_insert (bundles w) p (hash_pointer (aux b)))
        (<[p := b]> (bundle_store w)) w).

(** ** The host table *)

Definition host_table_key (ipv4 : Z) : Z :=
  hash_bytes [ip_octet ipv4 0; ip_octet ipv4 1; ip_octet ipv4 2; ip_octet ipv4 3] 0.

Definition host_table_add (ipv4 arp l3 l2 : Z) (w : world) : world :=
  let p := fresh (dom (hosts w)) in
  upd_hosts (hmap_insert (host_table w) p (host_table_key ipv4))
    (<[p := {| ipv4_addr := ipv4; arp_index := arp; l3_group_id := l3; l2_group_id' := l2 |}]>
       (hosts w)) w.

Definition host_table_delete (p : Z) (w : world) : world :=
  upd_hosts (hmap_remove (host_table w) p) (delete p (hosts w)) w.

Definition host_table_find (w : world) (ipv4 : Z) : option Z :=
  find (λ p, match hosts w !! p with Some e => ipv4_addr e =? ipv4 | None => false end)
    (hmap_with_hash (host_table w) (host_table_key ipv4)).

(** The egress port of a next hop: that of the interface on an internal VLAN, else
    the one the MAC address was learned on.  Looking the device [dev] up aborts if it
    is not there, so the test for null after it never holds. *)
Definition host_egress (dev : option fpa_dev) (w : world) (l3 : fpa_l3_intf)
    (dst_mac_addr : mac) : outcome Z :=
  if ops_fpa_vlan_internal (internal_vlans w) (vlan_id l3) then Done (intf_id l3)
  else
    let* d := ops_fpa_dev_by_id dev (switchId l3) in
    match dev_ml d with
    | None => Crash NullDeref
    | Some ml =>
        let* e := deref (entries ml)
          (ops_fpa_mac_learning_lookup_by_vlan_and_mac ml (vlan_id l3) dst_mac_addr) in
        Done (portNum e)
    end.

(** The groups, the ARP index, the route and the table entry of a host. *)
Definition host_program (w : world) (sid vlan egress mtu : Z) (src_mac_addr dst_mac_addr : mac)
    (ipv4 mask_len : Z) : outcome (retval * world) :=
  let '(err, l2, h) := ops_fpa_route_add_l2_group sid egress vlan false (w_hw w) in
  let w := upd_hw h (internal_vlans w) w in
  if err then Done (Err EINVAL, w) else
  let* (idx, arps) := arp_alloc (arp_indices w) in
  match idx with
  | None =>
      let '(_, h) := ops_fpa_route_del_group sid l2 (w_hw w) in
      Done (Err EINVAL, upd_hw h (internal_vlans w) w)
  | Some idx =>
      let w := upd_arp arps w in
      let '(err, l3g, h) := ops_fpa_route_add_l3_group sid l2 idx vlan mtu
                              src_mac_addr dst_mac_addr (w_hw w) in
      if err then
        let '(_, h) := ops_fpa_route_del_group sid l2 h in
        Done (Err EINVAL, upd_hw h (internal_vlans w) w)
      else
      let* (err, h) := ops_fpa_route_add_route sid l3g ipv4 mask_len h in
      if err then
        let '(_, h) := ops_fpa_route_del_group sid l2 h in
        let '(_, h) := ops_fpa_route_del_group sid l3g h in
        Done (Err EINVAL, upd_hw h (internal_vlans w) w)
      else
      Done (Ret0, host_table_add ipv4 idx l3g l2 (upd_hw h (internal_vlans w) w))
  end.

(** [egress] is the value of [*l3_egress_id], returned with the result. *)
Definition add_l3_host_entry (dev : option fpa_dev) (w : world) (a : Z)
    (is_ipv6_addr : bool) (ip_addr : string) (next_hop_mac_addr : option string) (egress : Z) :
    outcome (retval * Z * world) :=
  if is_ipv6_addr then Done (Err EINVAL, egress, w) else
  match next_hop_mac_addr with
  | None => Done (Err EINVAL, egress, w)
  | Some next_hop_mac_addr =>
      let bp := ops_fpa_find_bundle w a in
      let* b := deref (bundle_store w) bp in
      let port := ops_fpa_get_ofport_by_pid w (b_intf_id b) in
      match l3_intf b with
      | None => Done (Err EINVAL, egress, w)
      | Some l3 =>
          let* port := deref (ofports w) port in
          match eth_addr_from_string next_hop_mac_addr with
          | None => Done (Err EINVAL, egress, w)
          | Some dst_mac_addr =>
              let* egress := host_egress dev w l3 dst_mac_addr in
              let '(bad, ipv4, mask_len) := ops_fpa_str2ip inet_addr ip_addr 0 in
              if bad || negb (mask_len =? 32) then Done (Err EINVAL, egress, w) else
              let* (r, w) := host_program w (switchId l3) (vlan_id l3) egress (mtu port)
                               (netdev_mac port) dst_mac_addr ipv4 mask_len in
              match r with
              | Ret0 =>
                  let l3' := {| switchId := switchId l3; intf_id := intf_id l3;
                                vlan_id := vlan_id l3; l3_mac := l3_mac l3;
                                vlan_intf := vlan_intf l3;
                                routes_count := u64 (routes_count l3 + 1) |} in
                  Done (Ret0, egress, store_bundle (default 0 bp) (set_l3_intf (Some l3') b) w)
              | _ => Done (r, egress, w)
              end
          end
      end
  end.

(** The routes, groups, ARP index and table entry of a host taken back. *)
Definition host_unprogram (w : world) (sid ipv4 mask_len p : Z) : outcome world :=
  let* entry := deref (hosts w) (Some p) in
  let '(_, h) := ops_fpa_route_del_route sid ipv4 mask_len (w_hw w) in
  let '(_, h) := ops_fpa_route_del_group sid (l3_group_id entry) h in
  let '(_, h) := ops_fpa_route_del_group sid (l2_group_id' entry) h in
  let* arps := arp_release (arp_indices w) (arp_index entry) in
  Done (host_table_delete p (upd_arp arps (upd_hw h (internal_vlans w) w))).

Definition delete_l3_host_entry (w : world) (a : Z) (is_ipv6_addr : bool) (ip_addr : string) :
    outcome (retval * world) :=
  if is_ipv6_addr then Done (Err EINVAL, w) else
  let bp := ops_fpa_find_bundle w a in
  let* b := deref (bundle_store w) bp in
  match l3_intf b with
  | None => Done (Err EINVAL, w)
  | Some l3 =>
      let sid := switchId l3 in
      let '(bad, ipv4, mask_len) := ops_fpa_str2ip inet_addr ip_addr 0 in
      if bad || negb (mask_len =? 32) then Done (Err EINVAL, w) else
      match host_table_find w ipv4 with
      | None => Done (Err EINVAL, w)
      | Some p =>
          let* w := host_unprogram w sid ipv4 mask_len p in
          let count := u64 (routes_count l3 - 1) in
          let l3' := {| switchId := switchId l3; intf_id := intf_id l3; vlan_id := vlan_id l3;
                        l3_mac := l3_mac l3; vlan_intf := vlan_intf l3; routes_count := count |} in
          if count =? 0 then
            let '(iv, h) := ops_fpa_disable_routing l3' (internal_vlans w) (w_hw w) in
            Done (Ret0, store_bundle (default 0 bp) (set_l3_intf None b) (upd_hw h iv w))
          else
            Done (Ret0, store_bundle (default 0 bp) (set_l3_intf (Some l3') b) w)
      end
  end.

Definition get_l3_host_hit (w : world) (is_ipv6_addr : bool) (ip_addr : string) (hit_bit : bool) :
    outcome (retval * bool) :=
  if is_ipv6_addr then Done (Err EINVAL, hit_bit) else
  let '(bad, ipv4, mask_len) := ops_fpa_str2ip inet_addr ip_addr 0 in
  if bad || negb (mask_len =? 32) then Done (Err EINVAL, hit_bit) else
  match host_table_find w ipv4 with
  | None => Done (Err EINVAL, hit_bit)
  | Some p =>
      let* e := deref (hosts w) (Some p) in
      let '(err, referenceCount) :=
        fpaLibGroupEntryStatisticsGet (switch_id w) (l3_group_id e) (w_hw w) in
      if failed err then Done (Err EINVAL, hit_bit) else Done (Ret0, 1 <? referenceCount)
  end.

(** ** Routes *)

(** A next hop: its address and whether it is resolved. *)
Record ofproto_route := {
  family_ipv4 : bool;
  prefix : string;
  nexthops : list (string * bool)
}.

Definition l3_route_action (w : world) (action : ofproto_route_action) (route : ofproto_route) :
    outcome (retval * world) :=
  if negb (family_ipv4 route) then Done (Err EINVAL, w) else
  let '(bad, ip, len) := ops_fpa_str2ip inet_addr (prefix route) 0 in
  if bad then Done (Err EINVAL, w) else
  let sid := switch_id w in
  match action with
  | OFPROTO_ROUTE_ADD =>
      match nexthops route with
      | [(id, resolved)] =>
          if resolved : bool then
            let '(bad, host_ip, _) := ops_fpa_str2ip inet_addr id 0 in
            if bad : bool then Done (Err EINVAL, w) else
            match host_table_find w host_ip with
            | None => Done (Err EINVAL, w)
            | Some p =>
                let* e := deref (hosts w) (Some p) in
                let '(_, h) := ops_fpa_route_del_route sid ip len (w_hw w) in
                let* (err, h) := ops_fpa_route_add_route sid (l3_group_id e) ip len h in
                Done (if err : bool then Err EINVAL else Ret0, upd_hw h (internal_vlans w) w)
            end
          else
            let '(_, h) := ops_fpa_route_del_route sid ip len (w_hw w) in
            let* (err, h) := ops_fpa_route_add_route_trap sid ip len h in
            Done (if err : bool then Err EINVAL else Ret0, upd_hw h (internal_vlans w) w)
      | _ => Done (Err EINVAL, w)
      end
  | OFPROTO_ROUTE_DELETE =>
      let '(_, h) := ops_fpa_route_del_route sid ip len (w_hw w) in
      Done (Ret0, upd_hw h (internal_vlans w) w)
  | OFPROTO_ROUTE_DELETE_NH | OFPROTO_ROUTE_OTHER _ => Done (Err EINVAL, w)
  end.

(** ** Addresses of a bundle *)

Definition find_ipv4_addr_in_bundle (b : fpa_bundle) (address : string) : option Z :=
  find (λ p, match secondary_store b !! p with Some s => String.eqb s address | None => false end)
    (hmap_with_hash (secondary_ip4addr b) (hash_string address)).

Section ip_reconfigure.
Context (dev : option fpa_dev).

(** Removes the secondary addresses [ps] that are not in [new]; the host entry
    deleted is that of the primary address. *)
Fixpoint secondary_remove (bp : Z) (new : list string) (ps : list Z) (w : world) :
    outcome world :=
  match ps with
  | [] => Done w
  | p :: ps =>
      let* b := deref (bundle_store w) (Some bp) in
      let* s := deref (secondary_store b) (Some p) in
      if bool_decide (s ∈ new) then secondary_remove bp new ps w else
      let w := store_bundle bp
        (set_secondary (hmap_remove (secondary_ip4addr b) p) (secondary_store b) b) w in
      match ip4addr b with
      | None => Crash NullDeref
      | Some primary =>
          let* (_, w) := delete_l3_host_entry w (aux b) false primary in
          let* b := deref (bundle_store w) (Some bp) in
          (* free(addr) *)
          let w := store_bundle bp
            (set_secondary (secondary_ip4addr b) (delete p (secondary_store b)) b) w in
          secondary_remove bp new ps w
      end
  end.

Fixpoint secondary_add (bp : Z) (new : list string) (w : world) : outcome world :=
  match new with
  | [] => Done w
  | s :: new =>
      let* b := deref (bundle_store w) (Some bp) in
      match find_ipv4_addr_in_bundle b s with
      | Some _ => secondary_add bp new w
      | None =>
          let p := fresh (dom (secondary_store b)) in
          let w := store_bundle bp
            (set_secondary (hmap_insert (secondary_ip4addr b) p (hash_string s))
               (<[p := s]> (secondary_store b)) b) w in
          match ip4addr b with
          | None => Crash NullDeref
          | Some primary =>
              let* (_, _, w) :=
                add_l3_host_entry dev w (aux b) false primary None (b_intf_id b) in
              secondary_add bp new w
          end
      end
  end.

Definition bundle_ipv4_secondary_reconfigure (bp : Z) (set : ofproto_bundle_settings) (w : world) :
    outcome world :=
  let new_ip_list := remove_dups (ip4_address_secondary set) in
  let* b := deref (bundle_store w) (Some bp) in
  let* w := secondary_remove bp new_ip_list (hmap_nodes (secondary_ip4addr b)).*1 w in
  secondary_add bp (shash_for_each new_ip_list) w.

Definition bundle_ip_reconfigure (bp : Z) (set : ofproto_bundle_settings) (w : world) :
    outcome world :=
  let* b := deref (bundle_store w) (Some bp) in
  if PORT_PRIMARY_IPv4_CHANGED set then
    match ip4_address set with
    | Some new =>
        match ip4addr b with
        | Some old =>
            if STR_EQ (Some old) (Some new) then Done w else
            let* (_, w) := delete_l3_host_entry w (aux b) false old in
            let* b := deref (bundle_store w) (Some bp) in
            let w := store_bundle bp (set_ip4addr (Some new) b) w in
            let* (_, _, w) := add_l3_host_entry dev w (aux b) false new None (b_intf_id b) in
            Done w
        | None =>
            let w := store_bundle bp (set_ip4addr (Some new) b) w in
            let* (_, _, w) := add_l3_host_entry dev w (aux b) false new None (b_intf_id b) in
            Done w
        end
    | None =>
        match ip4addr b with
        | Some old =>
            let* (_, w) := delete_l3_host_entry w (aux b) false old in
            let* b := deref (bundle_store w) (Some bp) in
            Done (store_bundle bp (set_ip4addr None b) w)
        | None => Done w
        end
    end
  else if PORT_SECONDARY_IPv4_CHANGED set then bundle_ipv4_secondary_reconfigure bp set w
  else Done w.

(** ** bundle_set *)

(** The bundle [ops_fpa_ofproto_bundle_set] makes for a new [aux]. *)
Definition bundle_create (w : world) (a : Z) (set : ofproto_bundle_settings) (slave : Z) :
    outcome (Z * world) :=
  let port := ofproto_get_port w slave in
  let* intf :=
    match port with
    | Some pp => let* p := deref (ofports w) (Some pp) in Done (netdev_ifindex p)
    | None => Done FPA_INVALID_INTF_ID
    end in
  let '(bp, w) := ops_fpa_create_bundle_record w
    {| aux := a; name := None; b_intf_id := intf; l3_intf := None; ip4addr := None;
       secondary_ip4addr := hmap_init; secondary_store := ∅ |} in
  let w :=
    match port with
    | Some pp =>
        if intf =? FPA_INVALID_INTF_ID then w
        else upd_ports (hmap_insert (ports_by_pid w) pp intf) (ofports w) w
    | None => w
    end in
  let w := if String.eqb (up_type w) "system" then upd_tap (true, s_name set) w
           else if String.eqb (up_type w) "vrf" then upd_tap (false, s_name set) w else w in
  Done (bp, w).

(** The interface types of the schema. *)
Definition OVSREC_INTERFACE_TYPE_SYSTEM : string := "system".
Definition OVSREC_INTERFACE_TYPE_INTERNAL : string := "internal".
Definition OVSREC_INTERFACE_TYPE_LOOPBACK : string := "loopback".
Definition OVSREC_INTERFACE_TYPE_VLANSUBINT : string := "vlansubint".

(** The VRF half: routing of the bundle's interface and its addresses. *)
Definition bundle_set_vrf (w : world) (bp slave : Z) (set : ofproto_bundle_settings) :
    outcome (retval * world) :=
  match ops_fpa_ofport w slave with
  | None => Done (Ret0, w)
  | Some pp =>
      let* port := deref (ofports w) (Some pp) in
      let type := netdev_type port in
      let vlan_of :=
        if String.eqb type OVSREC_INTERFACE_TYPE_SYSTEM then inl (internal_vlan_id set)
        else if String.eqb type OVSREC_INTERFACE_TYPE_INTERNAL then inl (s_vlan set)
        else if String.eqb type OVSREC_INTERFACE_TYPE_LOOPBACK then inr Ret0
        else inr (Err ENOSYS) in
      match vlan_of with
      | inr r => Done (r, w)
      | inl vlan =>
          let* b := deref (bundle_store w) (Some bp) in
          let w :=
            match l3_intf b with
            | Some l3 =>
                if negb (enable set) && (routes_count l3 =? 0) then
                  let '(iv, h) := ops_fpa_disable_routing l3 (internal_vlans w) (w_hw w) in
                  store_bundle bp (set_l3_intf None b) (upd_hw h iv w)
                else w
            | None => w
            end in
          let* b := deref (bundle_store w) (Some bp) in
          let '(r, w) :=
            if negb (vlan =? 0) && bool_decide (l3_intf b = None) && enable set then
              let m := netdev_mac port in
              if String.eqb type OVSREC_INTERFACE_TYPE_SYSTEM then
                let '(l3, iv, h) := ops_fpa_enable_routing_interface (switch_id w) (u32 (b_intf_id b))
                                      (u16 vlan) m (internal_vlans w) (w_hw w) in
                let w := store_bundle bp (set_l3_intf l3 b) (upd_hw h iv w) in
                (match l3 with None => Some (Err EINVAL) | Some _ => None end, w)
              else if String.eqb type OVSREC_INTERFACE_TYPE_VLANSUBINT then (Some (Err ENOSYS), w)
              else if String.eqb type OVSREC_INTERFACE_TYPE_INTERNAL then
                let '(l3, h) := ops_fpa_enable_routing_vlan (switch_id w) (u16 vlan) m (w_hw w) in
                (None, store_bundle bp (set_l3_intf l3 b) (upd_hw h (internal_vlans w) w))
              else (Some (Err EINVAL), w)
            else (None, w) in
          match r with
          | Some r => Done (r, w)
          | None => let* w := bundle_ip_reconfigure bp set w in Done (Ret0, w)
          end
      end
  end.

(** The bridge half, on the port registered under the bundle's interface. *)
Definition bundle_set_bridge (fuel : nat) (w : world) (bp : Z) (set : ofproto_bundle_settings) :
    outcome (retval * world) :=
  let* b := deref (bundle_store w) (Some bp) in
  if STR_EQ (Some (up_name w)) (name b) then Done (Ret0, w) else
  let pp := ops_fpa_get_ofport_by_pid w (b_intf_id b) in
  let* port := deref (ofports w) pp in
  let* (v, h) := bundle_set_l2 fuel (switch_id w) (netdev_ifindex port) (vlans w) set (w_hw w) in
  Done (Ret0, upd_ports (ports_by_pid w) (<[default 0 pp := set_vmap v port]> (ofports w))
                (upd_hw h (internal_vlans w) w)).

Definition ops_fpa_ofproto_bundle_set (fuel : nat) (w : world) (a : Z)
    (set : option ofproto_bundle_settings) : outcome (retval * world) :=
  let bundle := ops_fpa_find_bundle w a in
  match set with
  | None => ops_fpa_rm_bundle w bundle
  | Some set =>
      match slaves set with
      | [slave] =>
          let* (bp, w) :=
            match bundle with
            | Some bp => Done (bp, w)
            | None => bundle_create w a set slave
            end in
          let* b := deref (bundle_store w) (Some bp) in
          let w :=
            if negb (STR_EQ (Some (s_name set)) (name b))
            then store_bundle bp (set_name (Some (s_name set)) b) w else w in
          if String.eqb (up_type w) "vrf" then bundle_set_vrf w bp slave set
          else if negb (b_intf_id b =? FPA_INVALID_INTF_ID) then bundle_set_bridge fuel w bp set
          else Done (Ret0, w)
      | _ => Done (Err EINVAL, w)
      end
  end.
End ip_reconfigure.

(** ** set_vlan *)

(** One bundle of the loop. *)
Definition set_vlan_bundle (fuel : nat) (vid : Z) (add : bool) (bp : Z) (w : world) :
    outcome world :=
  let* b := deref (bundle_store w) (Some bp) in
  match ops_fpa_get_ofport_by_pid w (b_intf_id b) with
  | None => Done w
  | Some pp =>
      let* port := deref (ofports w) (Some pp) in
      let* (v, h) := set_vlan_port fuel (switch_id w) (netdev_ifindex port) (ofp_port port) vid add
                       (vmap port) (w_hw w) in
      Done (upd_ports (ports_by_pid w) (<[pp := set_vmap v port]> (ofports w))
              (upd_hw h (internal_vlans w) w))
  end.

Fixpoint set_vlan_bundles (fuel : nat) (vid : Z) (add : bool) (bps : list Z) (w : world) :
    outcome world :=
  match bps with
  | [] => Done w
  | bp :: bps =>
      let* w := set_vlan_bundle fuel vid add bp w in
      set_vlan_bundles fuel vid add bps w
  end.

Definition ops_fpa_ofproto_set_vlan (fuel : nat) (vid : Z) (add : bool) (w : world) :
    outcome (retval * world) :=
  let* w := set_vlan_bundles fuel vid add (hmap_nodes (bundles w)).*1 w in
  Done (Ret0, upd_vlans (bitmap_set (vlans w) vid add) w).
End ofproto.

(** ** Fuel *)

Section fuel.
Context {F : FPA_SDK}.

Lemma vlan_fetch_flows_mono fuel fuel' sid pid i vm h r :
  (fuel ≤ fuel')%nat → vlan_fetch_flows fuel sid pid i vm h = Done r →
  vlan_fetch_flows fuel' sid pid i vm h = Done r.
Proof.
  revert fuel' i vm h. induction fuel as [|fuel IH]; intros fuel' i vm h Hle; [done|].
  destruct fuel' as [|fuel']; [lia|]. simpl.
  destruct (fpaLibFlowTableGetNext _ _ _ _) as [[st e] h1]. destruct (failed st); [done|].
  apply IH. lia.
Qed.

Lemma vlan_fetch_groups_mono fuel fuel' sid pid gid vm h r :
  (fuel ≤ fuel')%nat → vlan_fetch_groups fuel sid pid gid vm h = Done r →
  vlan_fetch_groups fuel' sid pid gid vm h = Done r.
Proof.
  revert fuel' gid vm. induction fuel as [|fuel IH]; intros fuel' gid vm Hle; [done|].
  destruct fuel' as [|fuel']; [lia|]. simpl.
  destruct (fpaLibGroupTableGetNext _ _ _) as [st g]. destruct (failed st); [done|].
  apply IH. lia.
Qed.

Lemma vlan_fetch_mono fuel fuel' sid pid h r :
  (fuel ≤ fuel')%nat → ops_fpa_vlan_fetch fuel sid pid h = Done r →
  ops_fpa_vlan_fetch fuel' sid pid h = Done r.
Proof.
  intros Hle. unfold ops_fpa_vlan_fetch.
  intros ([vm1 h2] & Hf & (vm2 & Hg & Hr)%obind_done)%obind_done.
  rewrite (vlan_fetch_flows_mono fuel fuel' _ _ _ _ _ _ Hle Hf). simpl.
  by rewrite (vlan_fetch_groups_mono fuel fuel' _ _ _ _ _ _ Hle Hg).
Qed.

Lemma set_vlan_port_mono fuel fuel' sid pid ofp vid add vm h r :
  (fuel ≤ fuel')%nat → set_vlan_port fuel sid pid ofp vid add vm h = Done r →
  set_vlan_port fuel' sid pid ofp vid add vm h = Done r.
Proof.
  intros Hle. unfold set_vlan_port. destruct add; [exact id|].
  intros (l2 & Hf & Hr)%obind_done. apply obind_done. exists l2.
  split; [by apply (vlan_fetch_mono fuel)|exact Hr].
Qed.

Context {H : HMAP}.

Lemma set_vlan_bundle_mono fuel fuel' vid add bp (w w' : world) :
  (fuel ≤ fuel')%nat → set_vlan_bundle fuel vid add bp w = Done w' →
  set_vlan_bundle fuel' vid add bp w = Done w'.
Proof.
  intros Hle. unfold set_vlan_bundle.
  intros (b & Hb & Hr)%obind_done. apply obind_done. exists b. split; [done|]. revert Hr.
  destruct (ops_fpa_get_ofport_by_pid w (b_intf_id b)) as [pp|]; [|exact id].
  intros (port & Hp & Hr)%obind_done. apply obind_done. exists port. split; [done|].
  apply obind_done in Hr as (r & Hs & Hr). apply obind_done. exists r.
  split; [by apply (set_vlan_port_mono fuel)|exact Hr].
Qed.

Lemma set_vlan_bundles_mono fuel fuel' vid add bps (w w' : world) :
  (fuel ≤ fuel')%nat → set_vlan_bundles fuel vid add bps w = Done w' →
  set_vlan_bundles fuel' vid add bps w = Done w'.
Proof.
  intros Hle. revert w. induction bps as [|bp bps IH]; intros w; simpl; [done|].
  intros (w1 & Hb & Hr)%obind_done.
  rewrite (set_vlan_bundle_mono fuel fuel' _ _ _ _ _ Hle Hb). simpl. by apply IH.
Qed.
End fuel.

(** ** The bridge in step with the configuration of its ports *)

Section bridge.
Context {F : FPA_SDK} {O : FPA_OBS F} `{!FPA_LAWS F O, !FPA_NOFAIL F O, !FPA_DELETES F O}.
Context {H : HMAP}.

(** The port a bundle is found to have, by its interface index. *)
Definition bundle_port (w : world) (bp : Z) : option (Z * fpa_ofport) :=
  b ← bundle_store w !! bp; pp ← ops_fpa_get_ofport_by_pid w (b_intf_id b);
  port ← ofports w !! pp; Some (pp, port).

(** A bundle of the bridge whose port, if it has one, is in step with [D]. *)
Definition bundle_sync (w : world) (vl D : bitmap) (bp : Z) : Prop :=
  ∃ b, bundle_store w !! bp = Some b ∧
    ∀ pp, ops_fpa_get_ofport_by_pid w (b_intf_id b) = Some pp →
      ∃ port, ofports w !! pp = Some port ∧ pid_ok (netdev_ifindex port) ∧
        (∀ v, v ∈ D → vidx_l2 v) ∧
        port_sync (w_hw w) (switch_id w) (netdev_ifindex port) vl (vmap port) D.

(** Different bundles of [bps] have different ports with different indices. *)
Definition ports_distinct (w : world) (bps : list Z) : Prop :=
  ∀ bp bp' pp port pp' port', bp ∈ bps → bp' ∈ bps → bp ≠ bp' →
    bundle_port w bp = Some (pp, port) → bundle_port w bp' = Some (pp', port') →
    pp ≠ pp' ∧ netdev_ifindex port ≠ netdev_ifindex port'.

(** The ports of [bps] have the number of their interface as their OpenFlow number,
    which [ops_fpa_ofproto_set_vlan] passes to the switch to read their indices. *)
Definition ports_numbered (w : world) (bps : list Z) : Prop :=
  ∀ bp pp port, bp ∈ bps → bundle_port w bp = Some (pp, port) → ofp_port port = netdev_ifindex port.

(** The step of one bundle: only its port and the switch change. *)
Lemma set_vlan_bundle_step vid add (w : world) D bp :
  vlan_wf (w_hw w) (switch_id w) → vid ≠ 0 → unique_keys D →
  (add = false → ports_numbered w [bp]) → bundle_sync w (vlans w) D bp →
  ∃ fuel w', set_vlan_bundle fuel vid add bp w = Done w' ∧
    vlan_wf (w_hw w') (switch_id w') ∧ bundle_sync w' (bitmap_set (vlans w) vid add) D bp ∧
    vlans w' = vlans w ∧ switch_id w' = switch_id w ∧ bundles w' = bundles w ∧
    bundle_store w' = bundle_store w ∧ ports_by_pid w' = ports_by_pid w ∧
    match bundle_port w bp with
    | None => w' = w
    | Some (pp, port) =>
        (∃ v, ofports w' = <[pp := set_vmap v port]> (ofports w)) ∧
        ∀ pid, pid_ok pid → pid ≠ netdev_ifindex port →
          l2map (w_hw w') (switch_id w) pid = l2map (w_hw w) (switch_id w) pid
    end.
Proof.
  intros Hwf Hv Hu Hnum (b & Hb & Hport).
  destruct (ops_fpa_get_ofport_by_pid w (b_intf_id b)) as [pp|] eqn:Hpp.
  - destruct (Hport pp eq_refl) as (port & Hp & Hpid & HD & Hsync).
    assert (bundle_port w bp = Some (pp, port)) as Hbp.
    { unfold bundle_port. rewrite Hb. simpl. rewrite Hpp. simpl. by rewrite Hp. }
    rewrite Hbp. unfold set_vlan_bundle. simpl. rewrite Hb. simpl. rewrite Hpp. simpl. rewrite Hp. simpl.
    set (fuel := S (length (flows (w_hw w) (switch_id w) FPA_FLOW_TABLE_TYPE_VLAN_E) +
                    size (groups (w_hw w) (switch_id w)))).
    destruct (set_vlan_port_spec (switch_id w) (netdev_ifindex port) vid (vlans w) D (w_hw w)
      Hpid HD Hu fuel (ofp_port port) add (vmap port) Hwf Hsync Hv)
      as (v & h & Hrun & Hwf' & Hsync' & Hoth).
    { intros Hadd. unfold fuel. split_and!; [|lia|lia]. eapply (Hnum Hadd bp); [by left|done]. }
    exists fuel. rewrite Hrun. simpl. eexists. split; [done|]. split_and!; try done.
    + exists b. split; [done|]. intros pp' Hpp'.
      assert (pp' = pp) as -> by (unfold ops_fpa_get_ofport_by_pid in *; simpl in Hpp'; congruence).
      exists (set_vmap v port). simpl. split_and!; try done. apply lookup_insert_eq.
    + by exists v.
  - assert (bundle_port w bp = None) as -> by (unfold bundle_port; rewrite Hb; simpl; by rewrite Hpp).
    exists 0%nat, w. unfold set_vlan_bundle. simpl. rewrite Hb. simpl. rewrite Hpp.
    split_and!; try done. exists b. split; [done|]. by rewrite Hpp.
Qed.

(** A bundle with another port is not affected. *)
Lemma bundle_sync_frame (w w' : world) vl D bp pp port v :
  bundle_store w' = bundle_store w → ports_by_pid w' = ports_by_pid w →
  switch_id w' = switch_id w → ofports w' = <[pp := set_vmap v port]> (ofports w) →
  (∀ pid, pid_ok pid → pid ≠ netdev_ifindex port →
     l2map (w_hw w') (switch_id w) pid = l2map (w_hw w) (switch_id w) pid) →
  (∀ pp' port', bundle_port w bp = Some (pp', port') →
     pp' ≠ pp ∧ netdev_ifindex port' ≠ netdev_ifindex port) →
  bundle_sync w vl D bp → bundle_sync w' vl D bp.
Proof.
  intros Hbs Hpb Hsw Hop Hl2 Hdist (b & Hb & Hport).
  exists b. rewrite Hbs. split; [done|]. unfold ops_fpa_get_ofport_by_pid in *. rewrite Hpb.
  intros pp' Hpp'. destruct (Hport pp' Hpp') as (port' & Hp' & Hpid & HD & Hsync).
  destruct (Hdist pp' port') as [Hne Hnei].
  { unfold bundle_port. rewrite Hb. simpl. unfold ops_fpa_get_ofport_by_pid.
    rewrite Hpp'. simpl. by rewrite Hp'. }
  exists port'. rewrite Hop, lookup_insert_ne by done. split_and!; try done.
  rewrite Hsw. unfold port_sync. by rewrite Hl2.
Qed.

(** Rewriting a pending bitmap does not change which ports the bundles have. *)
Lemma bundle_port_frame (w w' : world) pp port v bp q port' :
  bundle_store w' = bundle_store w → ports_by_pid w' = ports_by_pid w →
  ofports w !! pp = Some port → ofports w' = <[pp := set_vmap v port]> (ofports w) →
  bundle_port w' bp = Some (q, port') →
  ∃ port0, bundle_port w bp = Some (q, port0) ∧ netdev_ifindex port0 = netdev_ifindex port' ∧
    ofp_port port0 = ofp_port port'.
Proof.
  intros Hbs Hpb Hp Hop. unfold bundle_port, ops_fpa_get_ofport_by_pid. rewrite Hbs, Hpb, Hop.
  destruct (bundle_store w !! bp) as [b|]; [simpl|done].
  destruct (hmap_first_in_bucket (ports_by_pid w) (b_intf_id b)) as [q'|]; [simpl|done].
  destruct (decide (q' = pp)) as [->|Hne].
  - rewrite lookup_insert_eq, Hp. simpl. intros [= <- <-]. eauto.
  - rewrite lookup_insert_ne by done. destruct (ofports w !! q'); [simpl|done].
    intros [= <- <-]. eauto.
Qed.

Lemma ports_distinct_frame (w w' : world) bps pp port v :
  bundle_store w' = bundle_store w → ports_by_pid w' = ports_by_pid w →
  ofports w !! pp = Some port → ofports w' = <[pp := set_vmap v port]> (ofports w) →
  ports_distinct w bps → ports_distinct w' bps.
Proof.
  intros Hbs Hpb Hp Hop Hdist bp bp' q port1 q' port2 Hin Hin' Hne H1 H2.
  eapply bundle_port_frame in H1 as (p1 & H1 & <- & _); [|done..].
  eapply bundle_port_frame in H2 as (p2 & H2 & <- & _); [|done..].
  exact (Hdist bp bp' q p1 q' p2 Hin Hin' Hne H1 H2).
Qed.

Lemma ports_numbered_frame (w w' : world) bps pp port v :
  bundle_store w' = bundle_store w → ports_by_pid w' = ports_by_pid w →
  ofports w !! pp = Some port → ofports w' = <[pp := set_vmap v port]> (ofports w) →
  ports_numbered w bps → ports_numbered w' bps.
Proof.
  intros Hbs Hpb Hp Hop Hnum bp q port1 Hin H1.
  eapply bundle_port_frame in H1 as (p1 & H1 & <- & <-); [|done..]. by eapply Hnum.
Qed.

(** The loop: the bundles of [dn] have been handled, those of [bps] have not. *)
Lemma set_vlan_bundles_ok vid add conf bps dn (w : world) :
  vlan_wf (w_hw w) (switch_id w) → vid ≠ 0 → NoDup (dn ++ bps) → ports_distinct w (dn ++ bps) →
  (∀ bp, unique_keys (conf bp)) → (add = false → ports_numbered w (dn ++ bps)) →
  (∀ bp, bp ∈ dn → bundle_sync w (bitmap_set (vlans w) vid add) (conf bp) bp) →
  (∀ bp, bp ∈ bps → bundle_sync w (vlans w) (conf bp) bp) →
  ∃ fuel w', set_vlan_bundles fuel vid add bps w = Done w' ∧
    vlan_wf (w_hw w') (switch_id w') ∧ vlans w' = vlans w ∧ bundles w' = bundles w ∧
    ports_distinct w' (dn ++ bps) ∧
    ∀ bp, bp ∈ dn ++ bps → bundle_sync w' (bitmap_set (vlans w) vid add) (conf bp) bp.
Proof.
  revert dn w. induction bps as [|bp bps IH]; intros dn w Hwf Hv Hnd Hdist Hu Hnum Hdn Htodo.
  - exists 0%nat, w. split_and!; try done. intros bp. rewrite app_nil_r. apply Hdn.
  - destruct (set_vlan_bundle_step vid add w (conf bp) bp Hwf Hv (Hu bp)
      ltac:(intros Hadd b q p ->%list_elem_of_singleton; apply (Hnum Hadd); set_solver)
      (Htodo bp ltac:(by left)))
      as (f1 & w1 & Hrun1 & Hwf1 & Hs1 & Hvl & Hsw & Hbu & Hbs & Hpb & Hfr).
    assert ((dn ++ [bp]) ++ bps = dn ++ bp :: bps)%list as Happ by by rewrite <- app_assoc.
    assert (∀ vl D bp', bp' ∈ dn ++ bp :: bps → bp' ≠ bp → bundle_sync w vl D bp' →
      bundle_sync w1 vl D bp') as Hframe.
    { intros vl D bp' Hin Hne Hs. destruct (bundle_port w bp) as [[pp port]|] eqn:Hbp; [|by subst].
      destruct Hfr as [[v Hop] Hl2].
      eapply bundle_sync_frame; [done|done|done|done|done| |done].
      intros pp' port' Hbp'. destruct (Hdist bp' bp pp' port' pp port); [done|set_solver|done..]. }
    assert (ports_distinct w1 (dn ++ bp :: bps) ∧ (add = false → ports_numbered w1 (dn ++ bp :: bps)))
      as [Hdist1 Hnum1].
    { destruct (bundle_port w bp) as [[pp port]|] eqn:Hbp; [|by subst].
      destruct Hfr as [[v Hop] _]. assert (ofports w !! pp = Some port) as Hp.
      2: { split; [by eapply ports_distinct_frame|]. intros Hadd. eapply ports_numbered_frame; eauto. }
      unfold bundle_port in Hbp. apply bind_Some in Hbp as (b & _ & Hbp).
      apply bind_Some in Hbp as (q & _ & Hbp). apply bind_Some in Hbp as (p & Hp & [= -> ->]). done. }
    apply NoDup_app in Hnd as Hnd'. destruct Hnd' as (_ & Hdisj & Hnd2).
    apply NoDup_cons in Hnd2 as [Hbn _].
    destruct (IH (dn ++ [bp]) w1) as (f2 & w2 & Hrun2 & Hwf2 & Hvl2 & Hbu2 & Hd2 & Hall).
    + done.
    + done.
    + by rewrite Happ.
    + by rewrite Happ.
    + done.
    + by rewrite Happ.
    + rewrite Hvl. intros bp' [Hin|Hin%list_elem_of_singleton]%elem_of_app; [|by subst].
      apply Hframe; [set_solver| |by apply Hdn]. intros ->. apply (Hdisj bp Hin). by left.
    + rewrite Hvl. intros bp' Hin. apply Hframe; [set_solver|by intros ->|].
      apply Htodo. by right.
    + exists (f1 + f2)%nat, w2. simpl.
      rewrite (set_vlan_bundle_mono f1 (f1 + f2) _ _ _ _ _ ltac:(lia) Hrun1). simpl.
      rewrite (set_vlan_bundles_mono f2 (f1 + f2) _ _ _ _ _ ltac:(lia) Hrun2).
      rewrite Happ, Hvl in *. split_and!; [done|done|congruence|congruence|done|done].
Qed.


End bridge.

(** ** Hosts *)

Section host_lemmas.
Context {F : FPA_SDK} {O : FPA_OBS F} `{!FPA_LAWS F O, !FPA_DELETES F O}.

(** Deleting a group that was just created restores the switch. *)
Lemma created_group_deleted sid gid g h h1 err h2 :
  groups h sid !! gid = None → groups h1 sid = <[gid := g]> (groups h sid) →
  hw_same_but_groups sid h h1 → ops_fpa_route_del_group sid gid h1 = (err, h2) → hw_same h h2.
Proof.
  intros Hn Hg [Hf Ho] Hdel.
  pose proof (del_group_succeeds sid gid h1) as Hok. rewrite Hdel in Hok. simpl in Hok.
  rewrite Hok in Hdel by (rewrite Hg, lookup_insert_eq; eauto).
  apply del_group_ok in Hdel as (Hg2 & Hf2 & Ho2). split.
  - intros sid' t. by rewrite Hf2, Hf.
  - intros sid'. destruct (decide (sid' = sid)) as [->|]; [|by rewrite Ho2, Ho].
    by rewrite Hg2, Hg, delete_insert_id.
Qed.

Context {H : HMAP} {E : ML_ENV}.

Lemma upd_hw_same_groups sid (h h' : hw) : hw_same h h' → groups h' sid = groups h sid.
Proof. intros [_ Hg]. apply Hg. Qed.

(** The error paths of programming a host. *)
Lemma host_program_failed (w w' : world) sid vlan egress mtu src dst ip e l :
  pid_ok egress → vid_ok vlan → 0 ≤ ip < 2 ^ 32 → route_wf (w_hw w) sid →
  arp_free (arp_indices w) l →
  host_program w sid vlan egress mtu src dst ip 32 = Done (Err e, w') →
  e = EINVAL ∧ hw_same (w_hw w) (w_hw w') ∧ host_table w' = host_table w ∧ hosts w' = hosts w ∧
  internal_vlans w' = internal_vlans w ∧
  (arp_indices w' = arp_indices w ∨
   ∃ x l', l = x :: l' ∧ arp_free (arp_indices w') l').
Proof.
  intros Hp Hv Hip Hwf Harp. unfold host_program.
  destruct (ops_fpa_route_add_l2_group sid egress vlan false (w_hw w)) as [[err l2] h1] eqn:E2.
  destruct err.
  { intros [= <- <-]. apply add_l2_group_err in E2. split_and!; auto. }
  apply add_l2_group_ok in E2 as (Hid2 & Hn2 & Hg2 & Hfr2).
  pose proof (arp_alloc_spec _ _ Harp) as Ha. destruct l as [|x l'].
  { simpl. rewrite Ha. simpl.
    destruct (ops_fpa_route_del_group sid l2 h1) as [e1 h2] eqn:Ed.
    intros [= <- <-]. simpl. split_and!; auto. by eapply created_group_deleted. }
  destruct Ha as (_ & arps & Ha & Hfree). simpl. rewrite Ha. simpl.
  destruct (ops_fpa_route_add_l3_group sid l2 x vlan mtu src dst h1) as [[err l3g] h2] eqn:E3.
  destruct err.
  { destruct (ops_fpa_route_del_group sid l2 h2) as [e1 h3] eqn:Ed.
    intros [= <- <-]. simpl. apply add_l3_group_err in E3. split_and!; eauto.
    eapply created_group_deleted; [done| | |done].
    - rewrite (upd_hw_same_groups _ _ _ E3). done.
    - destruct Hfr2 as [Hf Ho], E3 as [Hf3 Hg3]. split; intros; by rewrite ?Hf3, ?Hg3, ?Hf, ?Ho. }
  apply add_l3_group_ok in E3 as (Hid3 & Hn3 & Hg3 & Hfr3).
  assert (l2 ≠ l3g) as Hne by by eapply l2_l3_group_ids_differ.
  assert (route_wf h2 sid) as Hwf2.
  { unfold route_wf. destruct Hfr2 as [Hf2 _], Hfr3 as [Hf3 _]. by rewrite Hf3, Hf2. }
  destruct (add_route_spec sid l3g ip 32 h2 Hwf2) as (err & h3 & -> & Hroute); [by split|]. simpl.
  destruct err; [|done].
  destruct (ops_fpa_route_del_group sid l2 h3) as [e1 h4] eqn:Ed2.
  destruct (ops_fpa_route_del_group sid l3g h4) as [e2 h5] eqn:Ed3.
  intros [= <- <-]. simpl. split_and!; eauto.
  (* deleting the L2 group leaves the switch with the L3 group only *)
  assert (groups h3 sid = <[l3g := l3_group l3g l2 vlan mtu src dst]>
    (<[l2 := l2_group l2 egress false]> (groups (w_hw w) sid))) as Hg.
  { rewrite (upd_hw_same_groups _ _ _ Hroute), Hg3. by rewrite Hg2. }
  pose proof (del_group_succeeds sid l2 h3) as Hok. rewrite Ed2 in Hok. simpl in Hok.
  rewrite Hok in Ed2 by (rewrite Hg, lookup_insert_ne, lookup_insert_eq by done; eauto).
  apply del_group_ok in Ed2 as (Hg4 & Hfr4).
  rewrite Hg2, lookup_insert_ne in Hn3 by done.
  eapply (created_group_deleted sid l3g (l3_group l3g l2 vlan mtu src dst)); [done| | |done].
  - rewrite Hg4, Hg, delete_insert_ne, delete_insert_id by done. done.
  - destruct Hfr2 as [Hf2 Ho2], Hfr3 as [Hf3 Ho3], Hroute as [Hf Ho], Hfr4 as [Hf4 Ho4].
    split; [intros; by rewrite Hf4, Hf, Hf3, Hf2|].
    intros sid' Hs. by rewrite Ho4, Ho, Ho3, Ho2.
Qed.

(** C7: Programming a host either succeeds or undoes what it did on the switch: on
    every error path the flow tables, the group tables and the host table are as
    before.  The ARP index taken before the L3 group or the route failed is not put
    back, so the free list may be one shorter. *)
Theorem host_program_error_restores (w w' : world) sid vlan egress mtu src dst ip e l :
  pid_ok egress → vid_ok vlan → 0 ≤ ip < 2 ^ 32 → route_wf (w_hw w) sid →
  arp_free (arp_indices w) l →
  host_program w sid vlan egress mtu src dst ip 32 = Done (Err e, w') →
  e = EINVAL ∧ hw_same (w_hw w) (w_hw w') ∧ host_table w' = host_table w ∧ hosts w' = hosts w ∧
  internal_vlans w' = internal_vlans w ∧
  (arp_indices w' = arp_indices w ∨
   ∃ x l', l = x :: l' ∧ arp_free (arp_indices w') l').
Proof. apply host_program_failed. Qed.

(** An ARP index is lost each time the L3 group cannot be created: the host is
    refused and everything else is undone, but the index is neither free nor in use
    afterwards. *)
Theorem host_l3_failure_leaks_arp (w : world) sid vlan egress mtu src dst ip x l l2 h1 l3g h2 :
  arp_free (arp_indices w) (x :: l) →
  ops_fpa_route_add_l2_group sid egress vlan false (w_hw w) = (false, l2, h1) →
  ops_fpa_route_add_l3_group sid l2 x vlan mtu src dst h1 = (true, l3g, h2) →
  ∃ w', host_program w sid vlan egress mtu src dst ip 32 = Done (Err EINVAL, w') ∧
    host_table w' = host_table w ∧ hosts w' = hosts w ∧
    arp_free (arp_indices w') l ∧ ¬ x ∈ l.
Proof.
  intros Harp E2 E3. unfold host_program. rewrite E2. simpl.
  pose proof (arp_alloc_spec _ _ Harp) as (_ & arps & -> & Hfree). simpl. rewrite E3.
  destruct (ops_fpa_route_del_group sid l2 h2) as [e1 h3]. eexists. split; [done|].
  split_and!; try done. destruct Harp as (_ & Hnd & _). by apply NoDup_cons in Hnd as [? _].
Qed.

Lemma host_table_find_some (w : world) ip p :
  host_table_find w ip = Some p → ∃ e, hosts w !! p = Some e ∧ ipv4_addr e = ip.
Proof.
  intros [_ Hp]%find_some. destruct (hosts w !! p) as [e|]; [|done].
  apply Z.eqb_eq in Hp. by exists e.
Qed.

Lemma host_table_find_added `{!HMAP_LAWS H} (w : world) ip x l3g l2 :
  (∀ p e, hosts w !! p = Some e → ipv4_addr e ≠ ip) →
  host_table_find (host_table_add ip x l3g l2 w) ip = Some (fresh (dom (hosts w))).
Proof.
  intros Hfresh. set (q := fresh (dom (hosts w))).
  destruct (host_table_find (host_table_add ip x l3g l2 w) ip) as [p|] eqn:Hfind.
  - apply host_table_find_some in Hfind as (e & He & Hip). simpl in He.
    destruct (decide (p = q)) as [->|Hpq]; [done|].
    rewrite lookup_insert_ne in He by done. by destruct (Hfresh p e).
  - exfalso. unfold host_table_find in Hfind. apply (find_none _ _) with (x := q) in Hfind.
    + simpl in Hfind. rewrite lookup_insert_eq in Hfind. simpl in Hfind.
      by rewrite Z.eqb_refl in Hfind.
    + apply list_elem_of_In, elem_of_hmap_with_hash, elem_of_hmap_insert. by left.
Qed.

(** ** Taking a host back *)

(** The nodes of the host table are the hosts in the store. *)
Definition host_table_wf (w : world) : Prop :=
  NoDup (hmap_nodes (host_table w)).*1 ∧
  ∀ p, hmap_in (host_table w) p → p ∈ dom (hosts w).

Definition same_routes (sid : Z) (h h' : hw) : Prop :=
  ∀ ip len g port, 1 ≤ len ≤ 32 → has_route h' sid ip len g port ↔ has_route h sid ip len g port.

Lemma host_table_add_delete `{!HMAP_LAWS H} (w : world) ip x l3g l2 :
  host_table_wf w →
  let w' := host_table_delete (fresh (dom (hosts w))) (host_table_add ip x l3g l2 w) in
  hosts w' = hosts w ∧ hmap_nodes (host_table w') ≡ₚ hmap_nodes (host_table w).
Proof.
  intros [Hnd Hin] w'. unfold w'. simpl.
  assert (fresh (dom (hosts w)) ∉ dom (hosts w)) as Hq by apply is_fresh. split.
  - apply delete_insert_id, not_elem_of_dom, Hq.
  - apply (hmap_nodes_remove _ _ (host_table_key ip)).
    + rewrite hmap_insert_ptrs. apply NoDup_cons. split; [|done]. intros Hn. by apply Hq, Hin.
    + apply hmap_nodes_insert.
Qed.

Context {V : OF_ENV}.

(** The bundle found depends on the map and the keys only. *)
Lemma find_bundle_frame (w w' : world) a :
  bundles w' = bundles w → (∀ p, aux <$> bundle_store w' !! p = aux <$> bundle_store w !! p) →
  ops_fpa_find_bundle w' a = ops_fpa_find_bundle w a.
Proof.
  intros Hb Haux. unfold ops_fpa_find_bundle. rewrite Hb.
  induction (hmap_bucket _ _).*1 as [|p l IH]; [done|]. simpl. rewrite IH.
  specialize (Haux p). destruct (bundle_store w' !! p), (bundle_store w !! p); simpl in Haux; try done.
  by injection Haux as ->.
Qed.

Lemma find_bundle_store (w : world) a bp b b' :
  bundle_store w !! bp = Some b → aux b' = aux b →
  ops_fpa_find_bundle (store_bundle bp b' w) a = ops_fpa_find_bundle w a.
Proof.
  intros Hb Haux. apply find_bundle_frame; [done|]. intros p. simpl.
  destruct (decide (p = bp)) as [->|]; [|by rewrite lookup_insert_ne].
  by rewrite lookup_insert_eq, Hb; simpl; rewrite Haux.
Qed.

(** Taking a host back does not look at the bundles. *)
Lemma host_unprogram_store bp b (w w' : world) sid ip len p :
  host_unprogram w sid ip len p = Done w' →
  host_unprogram (store_bundle bp b w) sid ip len p =
    Done (upd_bundles (bundles w) (<[bp := b]> (bundle_store w)) w').
Proof.
  unfold host_unprogram. intros (e & He & Hr)%obind_done. simpl in He |- *.
  destruct (hosts w !! p); [|done]. injection He as ->. simpl. revert Hr.
  destruct (ops_fpa_route_del_route sid ip len (w_hw w)) as [e1 h1].
  destruct (ops_fpa_route_del_group sid (l3_group_id e) h1) as [e2 h2].
  destruct (ops_fpa_route_del_group sid (l2_group_id' e) h2) as [e3 h3].
  intros (arps & -> & Hr)%obind_done. simpl. by injection Hr as <-.
Qed.

(** A next hop on a VLAN of the bridge whose address has not been learned
    crashes the daemon: the lookup in the MAC table fails and its result is used. *)
Theorem unknown_next_hop_crashes dev (w : world) a bp b l3 pp port ip_addr next_hop dst d ml egress :
  ops_fpa_find_bundle w a = Some bp → bundle_store w !! bp = Some b → l3_intf b = Some l3 →
  ops_fpa_get_ofport_by_pid w (b_intf_id b) = Some pp → ofports w !! pp = Some port →
  eth_addr_from_string next_hop = Some dst →
  ops_fpa_vlan_internal (internal_vlans w) (vlan_id l3) = false →
  dev = Some d → dev_switchId d = switchId l3 → dev_ml d = Some ml →
  ops_fpa_mac_learning_lookup_by_vlan_and_mac ml (vlan_id l3) dst = None →
  add_l3_host_entry dev w a false ip_addr (Some next_hop) egress = Crash NullDeref.
Proof.
  intros Hfind Hb Hl3 Hpp Hport Hmac Hint -> Hd Hml Hno.
  unfold add_l3_host_entry. rewrite Hfind. simpl. rewrite Hb. simpl. rewrite Hl3, Hpp. simpl.
  rewrite Hport. simpl. rewrite Hmac. unfold host_egress. rewrite Hint. simpl. rewrite Hd, Z.eqb_refl. simpl.
  rewrite Hml, Hno. done.
Qed.

(** ** Route actions *)

(** What an action asks for its prefix: [None] if it is refused, [Some None] for no
    route, otherwise the group and the port of the route. *)
Definition route_target (w : world) (action : ofproto_route_action) (route : ofproto_route) :
    option (option (Z * Z)) :=
  match action, nexthops route with
  | OFPROTO_ROUTE_ADD, [(id, true)] =>
      let '(bad, host_ip, _) := ops_fpa_str2ip inet_addr id 0 in
      if bad : bool then None else
      p ← host_table_find w host_ip; e ← hosts w !! p; Some (Some (l3_group_id e, 0))
  | OFPROTO_ROUTE_ADD, [(_, false)] => Some (Some (0xffffffff, FPA_OUTPUT_CONTROLLER))
  | OFPROTO_ROUTE_DELETE, _ => Some None
  | _, _ => None
  end.

(** [h'] is [h] with the route of a prefix replaced by [tgt] (no route for [None]). *)
Definition route_replaced (sid ip len : Z) (tgt : option (Z * Z)) (h h' : hw) : Prop :=
  hw_same_but_table sid FPA_FLOW_TABLE_TYPE_L3_UNICAST_E h h' ∧ route_wf h' sid ∧
  (∀ g port, has_route h' sid ip len g port ↔ tgt = Some (g, port)) ∧
  ∀ ip' len' g port, 1 ≤ len' ≤ 32 → ip' ≠ ip ∨ len' ≠ len →
    has_route h' sid ip' len' g port ↔ has_route h sid ip' len' g port.

Lemma route_delete_replaces sid ip len h :
  route_wf h sid → prefix_ok ip len →
  route_replaced sid ip len None h (ops_fpa_route_del_route sid ip len h).2.
Proof.
  intros Hwf Hp. destruct (ops_fpa_route_del_route sid ip len h) as [err h'] eqn:Hd.
  apply del_route_spec in Hd as (Hfr & Hwf' & _ & Hr); [|done..].
  split_and!; [done|done| |].
  - intros g port. simpl. rewrite Hr by apply Hp. naive_solver.
  - intros ip' len' g port Hl Hne. simpl. rewrite Hr by done. naive_solver.
Qed.

Lemma route_install_replaces sid ip len g port h h1 h2 :
  route_replaced sid ip len None h h1 → route_installed sid ip len g port h1 h2 →
  route_replaced sid ip len (Some (g, port)) h h2.
Proof.
  intros (Hfr & Hwf & Hnone & Hoth) (Hfr' & Hwf' & Hhas & Hown & Hoth').
  split_and!; [by eapply hw_same_but_table_trans|done| |].
  - intros g' port'. split; [|by intros [= <- <-]].
    intros [[-> ->]|Hn%Hnone]%Hown; done.
  - intros ip' len' g' port' Hl Hne. by rewrite Hoth', Hoth.
Qed.

Lemma route_replaced_same sid ip len tgt h h1 h2 :
  route_replaced sid ip len tgt h h1 → hw_same h1 h2 → route_replaced sid ip len tgt h h2.
Proof.
  intros (Hfr & Hwf & Hnone & Hoth) Hs. split_and!.
  - by eapply hw_same_but_table_trans, hw_same_same_but_table.
  - by eapply route_wf_same.
  - intros g port. by rewrite (has_route_same h1 h2).
  - intros ip' len' g port Hl Hne. by rewrite (has_route_same h1 h2), Hoth.
Qed.

Lemma l3_route_action_spec (w : world) action route ip len :
  family_ipv4 route = true → ops_fpa_str2ip inet_addr (prefix route) 0 = (false, ip, len) →
  prefix_ok ip len → route_wf (w_hw w) (switch_id w) →
  match route_target w action route with
  | None => l3_route_action w action route = Done (Err EINVAL, w)
  | Some tgt =>
      ∃ r h', l3_route_action w action route = Done (r, upd_hw h' (internal_vlans w) w) ∧
        ((r = Ret0 ∧ route_replaced (switch_id w) ip len tgt (w_hw w) h') ∨
         (r = Err EINVAL ∧ tgt ≠ None ∧ route_replaced (switch_id w) ip len None (w_hw w) h'))
  end.
Proof.
  intros Hfam Hpre Hp Hwf. unfold l3_route_action, route_target. rewrite Hfam, Hpre. simpl.
  pose proof (route_delete_replaces (switch_id w) ip len (w_hw w) Hwf Hp) as Hdel.
  destruct (ops_fpa_route_del_route (switch_id w) ip len (w_hw w)) as [e0 h0]. simpl in Hdel.
  assert (route_wf h0 (switch_id w)) as Hwf0 by apply Hdel.
  destruct action as [| | |n].
  - destruct (nexthops route) as [|[id [|]] [|]]; try done.
    + destruct (ops_fpa_str2ip inet_addr id 0) as [[[|] host_ip] hlen]; [done|].
      destruct (host_table_find w host_ip) as [p|] eqn:Hf; [|done]. simpl.
      apply host_table_find_some in Hf as (e & -> & _). simpl.
      destruct (add_route_spec (switch_id w) (l3_group_id e) ip len h0 Hwf0 Hp) as (err & h1 & -> & Hr).
      do 2 eexists. split; [done|]. destruct err.
      * right. split_and!; [done|done|by eapply route_replaced_same].
      * left. split; [done|by eapply route_install_replaces].
    + destruct (add_route_trap_spec (switch_id w) ip len h0 Hwf0 Hp) as (err & h1 & -> & Hr).
      do 2 eexists. split; [done|]. destruct err.
      * right. split_and!; [done|done|by eapply route_replaced_same].
      * left. split; [done|by eapply route_install_replaces].
  - do 2 eexists. split; [done|]. by left.
  - done.
  - done.
Qed.

(** The prefix of an IPv4 route, if it can be read. *)
Definition route_prefix (route : ofproto_route) : option (Z * Z) :=
  if family_ipv4 route then
    match ops_fpa_str2ip inet_addr (prefix route) 0 with
    | (false, ip, len) => Some (ip, len)
    | _ => None
    end
  else None.

Lemma str2ip_len s a ip len :
  ops_fpa_str2ip inet_addr s a = (false, ip, len) → (∃ t, ip = inet_addr t) ∧ len ≤ 32.
Proof.
  unfold ops_fpa_str2ip. destruct (cut_at _ s) as [t [p|]].
  - destruct (ops_fpa_str2int (Some p) OPS_FPA_MAX_IP_PREFIX) as [[] n]; cbn [orb]; [done|].
    destruct (Z.ltb_spec OPS_FPA_MAX_IP_PREFIX n) as [|Hn]; [done|].
    destruct (inet_addr t =? INADDR_NONE); [done|]. intros [= <- <-]. by split; [exists t|].
  - destruct (inet_addr t =? INADDR_NONE); [done|]. intros [= <- <-]. by split; [exists t|].
Qed.

(** A shift by 32 bits and more is undefined. *)
Lemma route_add_undefined (w w' : world) action route ip len g :
  route_prefix route = Some (ip, len) → len < 1 → route_target w action route = Some (Some g) →
  l3_route_action w action route ≠ Done (Ret0, w').
Proof.
  unfold route_prefix, l3_route_action, route_target. intros Hp Hl Ht.
  destruct (family_ipv4 route); [|done]. simpl.
  destruct (ops_fpa_str2ip inet_addr (prefix route) 0) as [[[] ip'] len']; [done|]. injection Hp as -> ->.
  destruct action; try done. destruct (nexthops route) as [|[id [|]] [|]]; try done.
  - destruct (ops_fpa_str2ip inet_addr id 0) as [[[] hip] hlen]; [done|].
    destruct (host_table_find w hip) as [p|]; [|done]. simpl in Ht |- *.
    destruct (hosts w !! p) as [e|]; [|done]. simpl.
    destruct (ops_fpa_route_del_route _ _ _ _) as [e0 h0]. unfold ops_fpa_route_add_route.
    destruct (fpaLibFlowEntryInit _ _ _) as [st en]. destruct (failed st); [done|].
    rewrite route_mask_undefined by lia. done.
  - destruct (ops_fpa_route_del_route _ _ _ _) as [e0 h0]. unfold ops_fpa_route_add_route_trap.
    destruct (fpaLibFlowEntryInit _ _ _) as [st en]. destruct (failed st); [done|].
    rewrite route_mask_undefined by lia. done.
Qed.

(** C8: A route action on every branch.  A route that is not IPv4 or whose prefix
    cannot be read, an action other than adding and deleting, an addition without
    exactly one next hop and one through a resolved next hop that is no host return
    [EINVAL] and change nothing.  For a prefix of 1 to 32 bits adding replaces the entry
    kept for the prefix by one to the L3 group of the next hop's host, or by a trap to
    the controller for an unresolved next hop, and deleting removes it; the entries of
    the other prefixes, the other tables, the groups and the rest of the state stay;
    if the switch refuses the new entry, [EINVAL] is returned and the old one is gone.
    The entry then routes the addresses of the prefix exactly if the prefix ends on an
    octet, since the mask of other lengths is wrong.  A prefix of no bits or a negative
    length is never added with success (the shift is undefined), and deleting it
    removes the entry for the low eight bits of the length, if there is one. *)
Theorem l3_route_action_correct (w : world) action route :
  route_wf (w_hw w) (switch_id w) → (∀ s, 0 ≤ inet_addr s < 2 ^ 32) →
  match route_prefix route, route_target w action route with
  | Some (ip, len), Some tgt =>
      if decide (1 ≤ len) then
        ∃ r h', l3_route_action w action route = Done (r, upd_hw h' (internal_vlans w) w) ∧
          ((r = Ret0 ∧ route_replaced (switch_id w) ip len tgt (w_hw w) h' ∧
            ∀ g port, tgt = Some (g, port) →
              routes_prefix h' (switch_id w) ip len g port ↔ len mod 8 = 0) ∨
           (r = Err EINVAL ∧ tgt ≠ None ∧ route_replaced (switch_id w) ip len None (w_hw w) h'))
      else match tgt with
           | Some _ => ∀ w', l3_route_action w action route ≠ Done (Ret0, w')
           | None => ∃ h', l3_route_action w action route = Done (Ret0, upd_hw h' (internal_vlans w) w) ∧
               hw_same_but_table (switch_id w) FPA_FLOW_TABLE_TYPE_L3_UNICAST_E (w_hw w) h' ∧
               ∀ ip' len' g port, 1 ≤ len' ≤ 32 →
                 has_route h' (switch_id w) ip' len' g port ↔
                 has_route (w_hw w) (switch_id w) ip' len' g port ∧ ¬ (ip' = ip ∧ len' = Z.land len 0xff)
           end
  | _, _ => l3_route_action w action route = Done (Err EINVAL, w)
  end.
Proof.
  intros Hwf Hinet. destruct (route_prefix route) as [[ip len]|] eqn:Hpre.
  2: { unfold route_prefix in Hpre. unfold l3_route_action. destruct (family_ipv4 route); [|done]. simpl.
       by destruct (ops_fpa_str2ip inet_addr (prefix route) 0) as [[[] ip] len]. }
  assert (family_ipv4 route = true ∧ ops_fpa_str2ip inet_addr (prefix route) 0 = (false, ip, len)) as [Hfam Hip].
  { unfold route_prefix in Hpre. destruct (family_ipv4 route); [|done].
    destruct (ops_fpa_str2ip inet_addr (prefix route) 0) as [[[] ?] ?]; by simplify_eq. }
  destruct (str2ip_len _ _ _ _ Hip) as [[t Hin] Hlen].
  destruct (decide (1 ≤ len)) as [Hl|Hl].
  - assert (prefix_ok ip len) as Hok by (subst ip; by split).
    pose proof (l3_route_action_spec w action route ip len Hfam Hip Hok Hwf) as Hs.
    destruct (route_target w action route) as [tgt|]; [|done].
    destruct Hs as (r & h' & Hrun & [[-> Hrep]|Hrep]); exists r || exists Ret0; exists h'; (split; [done|]).
    + left. split; [done|]. split; [done|]. intros g port ->. destruct Hrep as (_ & Hwf' & Hhas & _).
      apply has_route_prefix; [done|lia|]. by apply Hhas.
    + by right.
  - destruct (route_target w action route) as [[tgt|]|] eqn:Ht.
    + intros w'. eapply route_add_undefined; [done|lia|done].
    + destruct (del_route_any (switch_id w) ip len (w_hw w) Hwf) as (Hs & _ & Hr); [subst ip; done|].
      unfold route_target in Ht. unfold l3_route_action. rewrite Hfam, Hip. simpl.
      destruct action as [| | |n]; try done.
      { destruct (nexthops route) as [|[id [|]] [|]]; try done.
        destruct (ops_fpa_str2ip inet_addr id 0) as [[[] hip] hlen]; [done|].
        destruct (host_table_find w hip) as [p|]; [|done]. simpl in Ht. by destruct (hosts w !! p). }
      destruct (ops_fpa_route_del_route _ _ _ _) as [e0 h0]. by exists h0.
    + unfold route_target in Ht. unfold l3_route_action. rewrite Hfam, Hip. simpl.
      destruct action as [| | |n]; try done. destruct (nexthops route) as [|[id [|]] [|]]; try done.
      destruct (ops_fpa_str2ip inet_addr id 0) as [[[] hip] hlen]; [done|].
      destruct (host_table_find w hip) as [p|] eqn:Hf; [|done]. simpl in Ht.
      apply host_table_find_some in Hf as (e & He & _). by rewrite He in Ht.
Qed.
End host_lemmas.

(** ** Witnesses on the reference switch *)

#[local] Instance WEnv : ML_ENV := {|
  BUFFER_SIZE := 4; PORT_NAME_SIZE := 16;
  hash_bytes bs basis := foldl Z.add basis bs
|}.

#[local] Instance WOf : OF_ENV := {|
  hash_string s := Z.of_nat (String.length s); hash_pointer a := a;
  shash_for_each l := l; inet_addr := inet_addr_ref;
  eth_addr_from_string s :=
    if String.eqb s "06:07:08:09:0a:0b" then Some w_dst
    else if String.eqb s "00:01:02:03:04:05" then Some w_src else None
|}.

#[local] Instance WHmap : HMAP := ListHmap 16.
#[local] Instance WHmapLaws : HMAP_LAWS WHmap := ListHmapLaws 16.

Lemma w_inet_range s : 0 ≤ inet_addr_ref s < 2 ^ 32.
Proof.
  assert (∀ t a, octet_of_string t = Some a → 0 ≤ a < 256) as Ho.
  { intros t a [Ha _]%find_some. apply list_elem_of_In, elem_of_seqZ in Ha. lia. }
  unfold inet_addr_ref. destruct (cut_at _ s) as [a r]. destruct (cut_at _ (default EmptyString r)) as [b r'].
  destruct (cut_at _ (default EmptyString r')) as [c r''].
  destruct (octet_of_string a) eqn:H1, (octet_of_string b) eqn:H2, (octet_of_string c) eqn:H3,
    (octet_of_string (default EmptyString r'')) eqn:H4; try (unfold INADDR_NONE; lia).
  apply Ho in H1, H2, H3, H4. unfold ip4_word. lia.
Qed.

Definition w_ofport : fpa_ofport :=
  {| netdev_ifindex := 3; netdev_name := "3"; netdev_type := "system"; netdev_mac := w_src;
     mtu := 1500; ofp_port := 3; vmap := ∅ |}.

(** A world with one bundle, at address 50 with key 1, on the port at address 60. *)
Definition w_world {F : FPA_SDK} (h : hw) (iv : bitmap) (l3 : option fpa_l3_intf) : world :=
  {| w_hw := h; internal_vlans := iv; arp_indices := arp_initial; host_table := hmap_init;
     hosts := ∅; ofports := {[60 := w_ofport]}; ports_by_pid := hmap_insert hmap_init 60 3;
     up_type := "system"; up_name := "bridge_normal"; switch_id := 0;
     ofproto_get_port := λ p, if p =? 3 then Some 60 else None;
     bundles := hmap_insert hmap_init 50 1;
     bundle_store := {[50 := {| aux := 1; name := Some "3"; b_intf_id := 3; l3_intf := l3;
       ip4addr := None; secondary_ip4addr := hmap_init; secondary_store := ∅ |}]};
     vlans := w_vlans; tap_log := [] |}.

Lemma w_bridge_sync :
  bundle_sync (F := SimNF) (w_world w_port ∅ None) w_vlans (bundle_vnew (w_access 10)) 50.
Proof.
  eexists. split; [vm_compute; reflexivity|]. intros pp [= <-]. exists w_ofport.
  split_and!; [reflexivity|exact w_pid| |exact w_port_sync].
  intros v. apply (bundle_vnew_l2 _ v (w_access_ok 10 eq_refl)).
Qed.



Definition w_ip : Z := ip4_word 10 0 0 1.
Definition w_l3 (count : Z) : fpa_l3_intf :=
  {| switchId := 0; intf_id := 3; vlan_id := 1024; l3_mac := w_src; vlan_intf := true;
     routes_count := count |}.

(** Routing on VLAN 1024 with an empty switch. *)
Definition w_routed (faults : sim_op → nat → bool) (count : Z) : world :=
  w_world (F := SimFpa faults) sim_empty {[1024]} (Some (w_l3 count)).

Lemma w_arp_free faults count :
  arp_free (arp_indices (F := SimFpa faults) (w_routed faults count)) (1 :: seqZ 2 1023).
Proof. exact arp_init_free. Qed.

(** A call that returned an errno. *)
Definition err_result {A} (r : outcome (retval * A)) : bool :=
  match r with Done (Err _, _) => true | _ => false end.

Lemma err_result_spec {A} (r : outcome (retval * A)) :
  err_result r = true → ∃ e a, r = Done (Err e, a).
Proof. destruct r as [[[] ?]| |]; naive_solver. Qed.

(** The L3 group is refused. *)
Lemma host_program_error_restores_witness :
  let F := SimFpa (add_fault 2) in
  let r := host_program (w_routed (add_fault 2) 0) 0 1024 3 1500 w_src w_dst w_ip 32 in
  ∃ w', r = Done (Err EINVAL, w') ∧ hw_same (w_hw (w_routed (add_fault 2) 0)) (w_hw w').
Proof.
  intros F r. destruct (err_result_spec r ltac:(vm_compute; reflexivity)) as (e & w' & Hr).
  exists w'.
  destruct (host_program_error_restores (F := SimFpa (add_fault 2)) (w_routed (add_fault 2) 0) w'
    0 1024 3 1500 w_src w_dst w_ip e (1 :: seqZ 2 1023) w_pid (proj1 (w_vid 1024 eq_refl))
    ltac:(unfold w_ip, ip4_word; lia) (route_wf_empty _ 0) (w_arp_free _ 0) Hr) as (-> & Hs & _).
  exact (conj Hr Hs).
Defined.

Lemma host_l3_failure_leaks_arp_witness :
  let F := SimFpa (add_fault 2) in
  ∃ w', host_program (w_routed (add_fault 2) 0) 0 1024 3 1500 w_src w_dst w_ip 32 =
      Done (Err EINVAL, w') ∧
    arp_free (arp_indices w') (seqZ 2 1023) ∧ ¬ 1 ∈ seqZ 2 1023.
Proof.
  intros F.
  set (r2 := ops_fpa_route_add_l2_group 0 3 1024 false (sim_empty : @hw F)).
  set (r3 := ops_fpa_route_add_l3_group 0 (1024 * 2 ^ 16 + 3) 1 1024 1500 w_src w_dst r2.2).
  destruct (host_l3_failure_leaks_arp (F := SimFpa (add_fault 2)) (w_routed (add_fault 2) 0)
    0 1024 3 1500 w_src w_dst w_ip 1 (seqZ 2 1023) (1024 * 2 ^ 16 + 3) r2.2 r3.1.2 r3.2
    (w_arp_free _ 0) ltac:(vm_compute; reflexivity) ltac:(vm_compute; reflexivity))
    as (w' & Hr & _ & _ & Ha).
  exists w'. exact (conj Hr Ha).
Defined.

Lemma w_no_route ip len g port : ¬ has_route (F := SimNF) sim_empty 0 ip len g port.
Proof. intros (e & He & _). by apply not_elem_of_nil in He. Qed.

Definition w_dev : fpa_dev :=
  {| dev_switchId := 0; ref_cnt := 1; tap_if_info := None; dev_ml := Some (ml_new 100 300 0 true) |}.

(** The same interface on a VLAN that is not internal, with an empty MAC table. *)
Lemma unknown_next_hop_crashes_witness :
  add_l3_host_entry (F := SimNF) (Some w_dev)
    (w_world (F := SimNF) sim_empty ∅ (Some (w_l3 0))) 1 false "10.0.0.1"
    (Some "06:07:08:09:0a:0b") 0 = Crash NullDeref.
Proof.
  exact (unknown_next_hop_crashes (F := SimNF) (Some w_dev)
    (w_world (F := SimNF) sim_empty ∅ (Some (w_l3 0))) 1 50 _ (w_l3 0) 60 w_ofport "10.0.0.1"
    "06:07:08:09:0a:0b" w_dst w_dev (ml_new 100 300 0 true) 0 eq_refl eq_refl eq_refl eq_refl
    eq_refl eq_refl eq_refl eq_refl eq_refl eq_refl ltac:(vm_compute; reflexivity)).
Defined.

Definition w_trap : option (Z * Z) := Some (0xffffffff, @FPA_OUTPUT_CONTROLLER SimNF).

(** The prefix 10.0.0.0/24 through an unresolved next hop, on a switch that has a
    route for it. *)
Lemma l3_route_action_correct_witness :
  let route := {| family_ipv4 := true; prefix := "10.0.0.0/24"; nexthops := [("10.0.0.1", false)] |} in
  let w := w_world (F := SimNF) w_routes ∅ None in
  ∃ r h', l3_route_action (F := SimNF) w OFPROTO_ROUTE_ADD route = Done (r, upd_hw h' ∅ w) ∧
    (r = Ret0 ∧ route_replaced (F := SimNF) 0 (ip4_word 10 0 0 0) 24 w_trap w_routes h' ∧
       (∀ g port, w_trap = Some (g, port) →
          routes_prefix (F := SimNF) h' 0 (ip4_word 10 0 0 0) 24 g port ↔ 24 mod 8 = 0) ∨
     r = Err EINVAL ∧ w_trap ≠ None ∧
       route_replaced (F := SimNF) 0 (ip4_word 10 0 0 0) 24 None w_routes h').
Proof.
  intros route w.
  assert (∀ s, 0 ≤ @inet_addr WOf s < 2 ^ 32) as Hinet by exact w_inet_range.
  pose proof (l3_route_action_correct (F := SimNF) (V := WOf) w OFPROTO_ROUTE_ADD route w_routes_wf Hinet) as Hr.
  assert (route_prefix (V := WOf) route = Some (ip4_word 10 0 0 0, 24)) as Hp by (vm_compute; reflexivity).
  rewrite Hp in Hr. exact Hr.
Defined.
