(* ===== verification/Hosts.v ===== *)
(** * Hosts and routes over sequences of operations (src/ops-fpa-ofproto.c)

    The host table, the groups and routes on the switch and the ARP indices stay in
    step through sequences of [add_l3_host_entry], [delete_l3_host_entry] and
    [l3_route_action], on a switch that may refuse any addition, and a host that was
    added is taken back completely.  [hosts_step] says which calls are steps. *)

From S2P Require Import Prelude Fpa FpaSim Route Vlan Routing Util Arp Hmap MacLearning Dev Ofproto.

Local Open Scope string_scope.
Local Open Scope list_scope.
Local Open Scope Z_scope.

Section hosts.
Context {F : FPA_SDK} {O : FPA_OBS F} `{!FPA_LAWS F O, !FPA_DELETES F O}.
Context {H : HMAP} `{!HMAP_LAWS H} {E : ML_ENV} {V : OF_ENV}.

(** ** The invariant *)

(** A host in force: its groups exist, the L3 group refers to the L2 group, and its
    address is routed to the L3 group. *)
Definition host_in_force (h : hw) (sid : Z) (e : host_table_entry) : Prop :=
  0 ≤ ipv4_addr e < 2 ^ 32 ∧ arp_ok (arp_index e) ∧
  (∃ port, groups h sid !! l2_group_id' e = Some (l2_group (l2_group_id' e) port false)) ∧
  (∃ vlan mtu src dst, groups h sid !! l3_group_id e =
     Some (l3_group (l3_group_id e) (l2_group_id' e) vlan mtu src dst)) ∧
  has_route h sid (ipv4_addr e) 32 (l3_group_id e) 0.

(** Two hosts share nothing. *)
Definition hosts_apart (e e' : host_table_entry) : Prop :=
  ipv4_addr e ≠ ipv4_addr e' ∧ arp_index e ≠ arp_index e' ∧ l2_group_id' e ≠ l2_group_id' e' ∧
  l3_group_id e ≠ l3_group_id e' ∧ l2_group_id' e ≠ l3_group_id e' ∧ l3_group_id e ≠ l2_group_id' e'.

Record hosts_inv (sid : Z) (w : world) : Prop := {
  hi_routes : route_wf (w_hw w) sid;
  hi_free : ∃ l, arp_free (arp_indices w) l ∧ ∀ p e, hosts w !! p = Some e → arp_index e ∉ l;
  hi_force p e : hosts w !! p = Some e → host_in_force (w_hw w) sid e;
  hi_own p e : hosts w !! p = Some e → l2_group_id' e ≠ l3_group_id e;
  hi_apart p p' e e' : hosts w !! p = Some e → hosts w !! p' = Some e' → p ≠ p' → hosts_apart e e';
  hi_nodup : NoDup (hmap_nodes (host_table w)).*1;
  hi_nodes p k : (p, k) ∈ hmap_nodes (host_table w) ↔
    ∃ e, hosts w !! p = Some e ∧ k = host_table_key (ipv4_addr e)
}.

(** The table finds every host by its address. *)
Lemma hosts_find sid w ip :
  hosts_inv sid w →
  match host_table_find w ip with
  | Some p => ∃ e, hosts w !! p = Some e ∧ ipv4_addr e = ip
  | None => ∀ p e, hosts w !! p = Some e → ipv4_addr e ≠ ip
  end.
Proof.
  intros I. destruct (host_table_find w ip) as [p|] eqn:Hf; [by apply host_table_find_some|].
  intros p e He <-. unfold host_table_find in Hf.
  apply (find_none _ _) with (x := p) in Hf.
  - rewrite He in Hf. by rewrite Z.eqb_refl in Hf.
  - apply list_elem_of_In, elem_of_hmap_with_hash, (hi_nodes _ _ I). by exists e.
Qed.

Lemma hosts_apart_sym e e' : hosts_apart e e' → hosts_apart e' e.
Proof. intros (?&?&?&?&?&?). split_and!; congruence. Qed.

(** The part of the state the invariant is about. *)
Lemma hosts_inv_frame sid w w' :
  hosts_inv sid w → hw_same (w_hw w) (w_hw w') → arp_indices w' = arp_indices w →
  hosts w' = hosts w → host_table w' = host_table w → hosts_inv sid w'.
Proof.
  intros I Hs Ha Hh Ht. split; rewrite ?Ha, ?Hh, ?Ht; try apply I.
  - by eapply route_wf_same, I.
  - intros p e He. destruct (hi_force _ _ I p e He) as (Hip & Harp & Hl2 & Hl3 & Hr).
    unfold host_in_force. rewrite (hw_same_groups _ _ _ Hs).
    split; [done|]. split; [done|]. split; [done|]. split; [done|]. by apply (has_route_same (w_hw w)).
Qed.

(** ** Adding a host *)

(** Programming a host always returns; if it succeeds it took an index and two new
    groups and routed the address. *)
Lemma host_program_runs w sid vlan egress mtu src dst ip l :
  pid_ok egress → vid_ok vlan → 0 ≤ ip < 2 ^ 32 → route_wf (w_hw w) sid →
  arp_free (arp_indices w) l →
  ∃ r w', host_program w sid vlan egress mtu src dst ip 32 = Done (r, w') ∧
    (r = Ret0 → ∃ x l' l2 l3g arps h, l = x :: l' ∧
       w' = host_table_add ip x l3g l2 (upd_hw h (internal_vlans w) (upd_arp arps w)) ∧
       arp_ok x ∧ arp_free arps l' ∧ l2 ≠ l3g ∧
       groups (w_hw w) sid !! l2 = None ∧ groups (w_hw w) sid !! l3g = None ∧
       groups h sid = <[l3g := l3_group l3g l2 vlan mtu src dst]>
         (<[l2 := l2_group l2 egress false]> (groups (w_hw w) sid)) ∧
       route_wf h sid ∧ has_route h sid ip 32 l3g 0 ∧
       ∀ ip' len' g port, 1 ≤ len' ≤ 32 → ip' ≠ ip ∨ len' ≠ 32 →
         has_route h sid ip' len' g port ↔ has_route (w_hw w) sid ip' len' g port).
Proof.
  intros Hp Hv Hip Hwf Harp. unfold host_program.
  destruct (ops_fpa_route_add_l2_group sid egress vlan false (w_hw w)) as [[err l2] h1] eqn:E2.
  destruct err; [by do 2 eexists|].
  apply add_l2_group_ok in E2 as (Hid2 & Hn2 & Hg2 & Hfr2).
  pose proof (arp_alloc_spec _ _ Harp) as Ha. destruct l as [|x l']; cbn [arp_indices upd_hw].
  { rewrite Ha. cbn [obind]. destruct (ops_fpa_route_del_group _ _ _) as [e1 h2]. by do 2 eexists. }
  destruct Ha as (Hx & arps & -> & Hfree). cbn [obind upd_arp upd_hw w_hw].
  destruct (ops_fpa_route_add_l3_group sid l2 x vlan mtu src dst h1) as [[err l3g] h2] eqn:E3.
  destruct err.
  { destruct (ops_fpa_route_del_group _ _ _) as [e1 h3]. by do 2 eexists. }
  apply add_l3_group_ok in E3 as (Hid3 & Hn3 & Hg3 & Hfr3).
  assert (l2 ≠ l3g) as Hne by by eapply l2_l3_group_ids_differ.
  assert (∀ t, flows h2 sid t = flows (w_hw w) sid t) as Hfl.
  { intros t. destruct Hfr2 as [Hf2 _], Hfr3 as [Hf3 _]. by rewrite Hf3, Hf2. }
  assert (route_wf h2 sid) as Hwf2 by (unfold route_wf; by rewrite Hfl).
  destruct (add_route_spec sid l3g ip 32 h2 Hwf2) as (err & h3 & -> & Hroute); [by split|].
  cbn [obind]. destruct err.
  { destruct (ops_fpa_route_del_group sid l2 h3) as [e1 h4].
    destruct (ops_fpa_route_del_group sid l3g h4) as [e2 h5]. by do 2 eexists. }
  do 2 eexists. split; [done|]. intros _. exists x, l', l2, l3g, arps, h3.
  destruct Hroute as ([Hf4 Hg4] & Hwf3 & Hhas & _ & Hoth).
  split_and!; try done.
  - by rewrite Hg2, lookup_insert_ne in Hn3 by done.
  - by rewrite Hg4, Hg3, Hg2.
  - intros ip' len' g port Hl Hd. rewrite (Hoth ip' len' g port Hl Hd). unfold has_route. by rewrite Hfl.
Qed.

(** A host that is new joins the others. *)
Lemma hosts_inv_added sid w ip x l l2 l3g arps h vlan egress mtu src dst :
  hosts_inv sid w → 0 ≤ ip < 2 ^ 32 → (∀ p e, hosts w !! p = Some e → ipv4_addr e ≠ ip) →
  (∀ p e, hosts w !! p = Some e → arp_index e ∉ x :: l) → x ∉ l →
  arp_ok x → arp_free arps l → l2 ≠ l3g →
  groups (w_hw w) sid !! l2 = None → groups (w_hw w) sid !! l3g = None →
  groups h sid = <[l3g := l3_group l3g l2 vlan mtu src dst]>
    (<[l2 := l2_group l2 egress false]> (groups (w_hw w) sid)) →
  route_wf h sid → has_route h sid ip 32 l3g 0 →
  (∀ ip' len' g port, 1 ≤ len' ≤ 32 → ip' ≠ ip ∨ len' ≠ 32 →
     has_route h sid ip' len' g port ↔ has_route (w_hw w) sid ip' len' g port) →
  hosts_inv sid (host_table_add ip x l3g l2 (upd_hw h (internal_vlans w) (upd_arp arps w))).
Proof.
  intros I Hip Hnew Hx Hxl Hok Hfree Hne Hn2 Hn3 Hg Hwf Hhas Hoth.
  set (q := fresh (dom (hosts w))).
  set (e0 := {| ipv4_addr := ip; arp_index := x; l3_group_id := l3g; l2_group_id' := l2 |}).
  assert (∀ p e, hosts w !! p = Some e → p ≠ q) as Hq.
  { intros p e He ->. apply (is_fresh (dom (hosts w))). by eapply elem_of_dom_2. }
  assert (∀ p e, hosts w !! p = Some e → hosts_apart e e0) as Hap.
  { intros p e He. destruct (hi_force _ _ I p e He) as (_ & _ & (port & Hl2) & (? & ? & ? & ? & Hl3) & _).
    pose proof (Hx p e He) as Hxe. apply not_elem_of_cons in Hxe as [Hxe _].
    split_and!; simpl; [by eapply Hnew|done|congruence..]. }
  split; cbn [w_hw arp_indices hosts host_table host_table_add upd_hosts upd_hw upd_arp]; fold q.
  - done.
  - exists l. split; [done|]. intros p e [[<- <-]|[_ He]]%lookup_insert_Some; [done|].
    pose proof (Hx p e He) as Hxe. by apply not_elem_of_cons in Hxe as [_ ?].
  - intros p e [[<- <-]|[_ He]]%lookup_insert_Some.
    + split; [done|]. split; [done|]. rewrite Hg. split; [|split; [|done]]; simpl.
      * exists egress. by rewrite lookup_insert_ne, lookup_insert_eq.
      * do 4 eexists. by rewrite lookup_insert_eq.
    + destruct (hi_force _ _ I p e He) as (H1 & H2 & (port & Hl2) & (v & m & s & d & Hl3) & Hr).
      destruct (Hap p e He) as (A1 & A2 & A3 & A4 & A5 & A6); simpl in *.
      split; [done|]. split; [done|]. rewrite Hg. split; [|split].
      * exists port. by rewrite !lookup_insert_ne.
      * exists v, m, s, d. by rewrite !lookup_insert_ne.
      * apply Hoth; [lia|by left|done].
  - intros p e [[<- <-]|[_ He]]%lookup_insert_Some; [done|by eapply hi_own].
  - intros p p' e e' [[<- <-]|[_ He]]%lookup_insert_Some [[<- <-]|[_ He']]%lookup_insert_Some Hpp;
      [done|by apply hosts_apart_sym, (Hap p')|by apply (Hap p)|by eapply hi_apart].
  - rewrite hmap_insert_ptrs. apply NoDup_cons. split; [|apply I].
    intros ([p k] & -> & (e & He & _)%(hi_nodes _ _ I))%list_elem_of_fmap. by eapply Hq.
  - intros p k. rewrite elem_of_hmap_insert, (hi_nodes _ _ I). split.
    + intros [[= -> ->]|(e & He & ->)]; [exists e0; by rewrite lookup_insert_eq|].
      exists e. rewrite lookup_insert_ne; [done|]. symmetry. by eapply Hq.
    + intros (e & [[<- <-]|[_ He]]%lookup_insert_Some & ->); [by left|right; by exists e].
Qed.

Lemma host_program_inv w sid vlan egress mtu src dst ip :
  pid_ok egress → vid_ok vlan → 0 ≤ ip < 2 ^ 32 → hosts_inv sid w → host_table_find w ip = None →
  ∃ r w', host_program w sid vlan egress mtu src dst ip 32 = Done (r, w') ∧ hosts_inv sid w'.
Proof.
  intros Hp Hv Hip I Hf. destruct (hi_free _ _ I) as (l & Harp & Hl).
  pose proof (hosts_find sid w ip I) as Hnew. rewrite Hf in Hnew.
  destruct (host_program_runs w sid vlan egress mtu src dst ip l) as (r & w' & Hrun & Hok);
    [done..|apply I|done|]. exists r, w'. split; [done|]. destruct r as [|e].
  - destruct Hok as (x & l' & l2 & l3g & arps & h & -> & -> & Hx & Hfree & Hne & Hn2 & Hn3 & Hg & Hwf & Hh & Ho);
      [done|]. eapply hosts_inv_added; try done.
    destruct Harp as (_ & Hnd & _). by apply NoDup_cons in Hnd as [? _].
  - destruct (host_program_failed w w' sid vlan egress mtu src dst ip e l)
      as (_ & Hs & Ht & Hh & _ & Ha); [done..|apply I|done|done|].
    destruct Ha as [Ha|(x & l' & -> & Ha)]; [by eapply hosts_inv_frame|].
    assert (hosts_inv sid (upd_arp (arp_indices w') w)) as I'.
    { split; try apply I. exists l'. split; [done|]. intros p e' He.
      pose proof (Hl p e' He) as Hn. by apply not_elem_of_cons in Hn as [_ ?]. }
    by apply (hosts_inv_frame _ _ w' I').
Qed.

(** A second host behind the same port and VLAN is refused: its L2 group is there
    already, and the switch does not add a group twice.  So is every host behind a
    port that is a member of the VLAN. *)
Lemma shared_port_refused w sid vlan egress mtu src dst ip l2 :
  l2_group_id egress vlan = (FPA_OK, l2) → is_Some (groups (w_hw w) sid !! l2) →
  ∃ w', host_program w sid vlan egress mtu src dst ip 32 = Done (Err EINVAL, w') ∧
    hw_same (w_hw w) (w_hw w') ∧ hosts w' = hosts w.
Proof.
  intros Hid [g Hg]. unfold host_program.
  destruct (ops_fpa_route_add_l2_group sid egress vlan false (w_hw w)) as [[[] l2'] h1] eqn:E2.
  - apply add_l2_group_err in E2. by eexists.
  - apply add_l2_group_ok in E2 as (Hid' & Hn & _). congruence.
Qed.

(** ** Deleting a host *)

(** What deleting the route and the groups of a host leaves on the switch. *)
Lemma host_resources_deleted sid h e e1 h1 e2 h2 e3 h3 :
  route_wf h sid → host_in_force h sid e → l2_group_id' e ≠ l3_group_id e →
  ops_fpa_route_del_route sid (ipv4_addr e) 32 h = (e1, h1) →
  ops_fpa_route_del_group sid (l3_group_id e) h1 = (e2, h2) →
  ops_fpa_route_del_group sid (l2_group_id' e) h2 = (e3, h3) →
  groups h3 sid = delete (l2_group_id' e) (delete (l3_group_id e) (groups h sid)) ∧
  route_wf h3 sid ∧
  ∀ ip len g port, 1 ≤ len ≤ 32 → has_route h3 sid ip len g port ↔
    has_route h sid ip len g port ∧ (ip ≠ ipv4_addr e ∨ len ≠ 32).
Proof.
  intros Hwf (Hip & _ & (port & Hl2) & (v & m & s & d & Hl3) & _) Hne Ed1 Ed2 Ed3.
  apply del_route_spec in Ed1 as ([Hf1 Hg1] & Hwf1 & _ & Hr1); [|done|by split].
  pose proof (del_group_succeeds sid (l3_group_id e) h1) as Hok. rewrite Ed2 in Hok. simpl in Hok.
  rewrite Hok in Ed2 by (rewrite Hg1, Hl3; eauto). clear Hok.
  apply del_group_ok in Ed2 as (Hg2 & Hf2 & _).
  pose proof (del_group_succeeds sid (l2_group_id' e) h2) as Hok. rewrite Ed3 in Hok. simpl in Hok.
  rewrite Hok in Ed3 by (rewrite Hg2, Hg1, lookup_delete_ne, Hl2 by done; eauto).
  apply del_group_ok in Ed3 as (Hg3 & Hf3 & _). split_and!.
  - by rewrite Hg3, Hg2, Hg1.
  - unfold route_wf. by rewrite Hf3, Hf2.
  - intros ip len g port' Hl. rewrite <- (Hr1 ip len g port' Hl). unfold has_route. by rewrite Hf3, Hf2.
Qed.

Lemma host_unprogram_inv w sid p e :
  hosts_inv sid w → hosts w !! p = Some e →
  ∃ w', host_unprogram w sid (ipv4_addr e) 32 p = Done w' ∧ hosts_inv sid w' ∧
    hosts w' = delete p (hosts w).
Proof.
  intros I He. destruct (hi_free _ _ I) as (l & Harp & Hl).
  pose proof (hi_force _ _ I p e He) as Hin.
  unfold host_unprogram. rewrite (deref_some _ _ _ He). cbn [obind].
  destruct (ops_fpa_route_del_route sid (ipv4_addr e) 32 (w_hw w)) as [e1 h1] eqn:Ed1.
  destruct (ops_fpa_route_del_group sid (l3_group_id e) h1) as [e2 h2] eqn:Ed2.
  destruct (ops_fpa_route_del_group sid (l2_group_id' e) h2) as [e3 h3] eqn:Ed3.
  destruct (host_resources_deleted sid (w_hw w) e e1 h1 e2 h2 e3 h3) as (Hg & Hwf & Hr);
    [apply I|done|by eapply hi_own|done..|].
  destruct (arp_release_spec _ _ (arp_index e) Harp) as (arps & -> & Hfree);
    [apply Hin|by eapply Hl|]. cbn [obind]. eexists. split; [done|]. split; [|done].
  assert (∀ p' e', delete p (hosts w) !! p' = Some e' → hosts w !! p' = Some e' ∧ hosts_apart e' e) as Hdel.
  { intros p' e' [Hne He']%lookup_delete_Some. split; [done|]. eapply hi_apart; [done..|congruence]. }
  assert ((p, host_table_key (ipv4_addr e)) ∈ hmap_nodes (host_table w)) as Hnode
    by (apply (hi_nodes _ _ I); by exists e).
  split; cbn [w_hw arp_indices hosts host_table host_table_delete upd_hosts upd_hw upd_arp].
  - done.
  - eexists. split; [done|]. intros p' e' (He' & _ & Ha & _)%Hdel.
    apply not_elem_of_cons. split; [done|by eapply Hl].
  - intros p' e' (He' & A1 & A2 & A3 & A4 & A5 & A6)%Hdel.
    destruct (hi_force _ _ I p' e' He') as (H1 & H2 & (port & Hl2) & (v & m & s & d & Hl3) & Hr').
    split; [done|]. split; [done|]. rewrite Hg. split; [|split].
    + exists port. by rewrite !lookup_delete_ne by done.
    + exists v, m, s, d. by rewrite !lookup_delete_ne by done.
    + apply Hr; [lia|]. split; [done|by left].
  - intros p' e' [He' _]%Hdel. by eapply hi_own.
  - intros p1 p2 e1' e2' [H1 _]%Hdel [H2 _]%Hdel. by eapply hi_apart.
  - eapply hmap_remove_nodup; [apply I|done].
  - intros p' k. rewrite (elem_of_hmap_remove _ _ _ _ (hi_nodup _ _ I) Hnode), (hi_nodes _ _ I). simpl.
    split.
    + intros [(e' & He' & ->) Hne]. exists e'. by rewrite lookup_delete_ne.
    + intros (e' & [Hne He']%lookup_delete_Some & ->). split; [by exists e'|done].
Qed.

(** ** Route actions *)

Lemma route_replaced_inv w sid ip len tgt h :
  hosts_inv sid w → route_replaced sid ip len tgt (w_hw w) h →
  (∀ p e, hosts w !! p = Some e → ip ≠ ipv4_addr e ∨ len ≠ 32) →
  hosts_inv sid (upd_hw h (internal_vlans w) w).
Proof.
  intros I ([_ Hg] & Hwf & _ & Hoth) Hother. split; try apply I; [done|].
  cbn [w_hw upd_hw hosts]. intros p e He.
  destruct (hi_force _ _ I p e He) as (H1 & H2 & H3 & H4 & Hr).
  unfold host_in_force. rewrite Hg. split; [done|]. split; [done|]. split; [done|]. split; [done|].
  apply Hoth; [lia| |done]. destruct (Hother p e He); [left|right]; congruence.
Qed.

(** ** What programming a host leaves alone *)

(** Only the L3 unicast table of switch [sid] has other flows. *)
Definition l3_only (sid : Z) (h h' : hw) : Prop :=
  ∀ s t, s ≠ sid ∨ t ≠ FPA_FLOW_TABLE_TYPE_L3_UNICAST_E → flows h' s t = flows h s t.

#[local] Instance l3_only_preorder sid : PreOrder (l3_only sid).
Proof. split; [done|]. intros ??? H1 H2 s t Hst. by rewrite H2, H1. Qed.

Lemma l3_only_groups sid h h' : hw_same_but_groups sid h h' → l3_only sid h h'.
Proof. intros [Hf _] s t _. apply Hf. Qed.
Lemma l3_only_table sid h h' :
  hw_same_but_table sid FPA_FLOW_TABLE_TYPE_L3_UNICAST_E h h' → l3_only sid h h'.
Proof. intros [Hf _] s t Hst. by apply Hf. Qed.
Lemma l3_only_same sid h h' : hw_same h h' → l3_only sid h h'.
Proof. intros [Hf _] s t _. apply Hf. Qed.
Lemma l3_only_del_group sid gid h : l3_only sid h (ops_fpa_route_del_group sid gid h).2.
Proof.
  destruct (ops_fpa_route_del_group sid gid h) as [[] h'] eqn:E0; simpl.
  - by eapply l3_only_same, del_group_err.
  - by eapply l3_only_groups, del_group_ok.
Qed.

(** The parts of the state that hosts do not concern. *)
Definition same_ofproto (w w' : world) : Prop :=
  bundles w' = bundles w ∧ bundle_store w' = bundle_store w ∧ ofports w' = ofports w ∧
  ports_by_pid w' = ports_by_pid w ∧ up_type w' = up_type w ∧ switch_id w' = switch_id w ∧
  ofproto_get_port w' = ofproto_get_port w ∧ internal_vlans w' = internal_vlans w.

Lemma host_program_frame w sid vlan egress mtu src dst ip r w' :
  0 ≤ ip < 2 ^ 32 → route_wf (w_hw w) sid →
  host_program w sid vlan egress mtu src dst ip 32 = Done (r, w') →
  same_ofproto w w' ∧ l3_only sid (w_hw w) (w_hw w') ∧ (r = Ret0 ∨ r = Err EINVAL).
Proof.
  intros Hip Hwf. unfold host_program.
  destruct (ops_fpa_route_add_l2_group sid egress vlan false (w_hw w)) as [[[] l2] h1] eqn:E2.
  { intros [= <- <-]. split; [done|]. split; [|by right]. by eapply l3_only_same, add_l2_group_err. }
  apply add_l2_group_ok in E2 as (_ & _ & _ & Hf1).
  intros ([idx arps] & _ & Hrun)%obind_done. revert Hrun.
  pose proof (l3_only_del_group sid l2 h1) as Hd. destruct idx as [idx|].
  2:{ cbn [w_hw upd_hw]. destruct (ops_fpa_route_del_group sid l2 h1) as [? h2].
      intros [= <- <-]. split; [done|]. split; [|by right]. etrans; [by apply l3_only_groups|exact Hd]. }
  cbn [w_hw upd_hw upd_arp]. clear Hd.
  destruct (ops_fpa_route_add_l3_group sid l2 idx vlan mtu src dst h1) as [[[] l3g] h2] eqn:E3.
  { pose proof (l3_only_del_group sid l2 h2) as Hd. destruct (ops_fpa_route_del_group sid l2 h2) as [? h3].
    intros [= <- <-]. split; [done|]. split; [|by right]. etrans; [by apply l3_only_groups|].
    etrans; [by eapply l3_only_same, add_l3_group_err|exact Hd]. }
  apply add_l3_group_ok in E3 as (_ & _ & _ & Hf2).
  assert (l3_only sid (w_hw w) h2) as Hw2 by (etrans; by apply l3_only_groups).
  assert (route_wf h2 sid) as Hwf2.
  { unfold route_wf. destruct Hf1 as [Hf1 _], Hf2 as [Hf2 _]. by rewrite Hf2, Hf1. }
  destruct (add_route_spec sid l3g ip 32 h2 Hwf2) as (err & h3 & -> & Hroute); [by split|]. cbn [obind].
  destruct err.
  - pose proof (l3_only_del_group sid l2 h3) as Hd2.
    destruct (ops_fpa_route_del_group sid l2 h3) as [? h4].
    pose proof (l3_only_del_group sid l3g h4) as Hd3.
    destruct (ops_fpa_route_del_group sid l3g h4) as [? h5]. simpl in Hd2, Hd3.
    intros [= <- <-]. split; [done|]. split; [|by right]. etrans; [exact Hw2|].
    etrans; [by apply l3_only_same|]. by etrans.
  - intros [= <- <-]. split; [done|]. split; [|by left]. etrans; [exact Hw2|].
    apply l3_only_table, Hroute.
Qed.

Lemma host_unprogram_frame w sid ip len p w' :
  prefix_ok ip len → route_wf (w_hw w) sid → host_unprogram w sid ip len p = Done w' →
  same_ofproto w w' ∧ l3_only sid (w_hw w) (w_hw w').
Proof.
  intros Hp Hwf. unfold host_unprogram. intros (e & _ & Hrun)%obind_done. revert Hrun.
  destruct (ops_fpa_route_del_route sid ip len (w_hw w)) as [e1 h1] eqn:E1.
  apply del_route_spec in E1 as (Hf1 & _); [|done|done].
  pose proof (l3_only_del_group sid (l3_group_id e) h1) as Hd2.
  destruct (ops_fpa_route_del_group sid (l3_group_id e) h1) as [e2 h2].
  pose proof (l3_only_del_group sid (l2_group_id' e) h2) as Hd3.
  destruct (ops_fpa_route_del_group sid (l2_group_id' e) h2) as [e3 h3]. simpl in Hd2, Hd3.
  intros (arps & _ & [= <-])%obind_done. split; [done|]. etrans; [by apply l3_only_table|]. by etrans.
Qed.

(** ** The groups of hosts *)

Definition host_group (hs : gmap Z host_table_entry) (g : Z) : Prop :=
  ∃ p e, hs !! p = Some e ∧ (g = l2_group_id' e ∨ g = l3_group_id e).

(** Besides the groups of hosts the switch has the groups [G0]. *)
Definition groups_besides (G0 : gmap Z group) (sid : Z) (w : world) : Prop :=
  (∀ g, ¬ host_group (hosts w) g → groups (w_hw w) sid !! g = G0 !! g) ∧
  (∀ g, host_group (hosts w) g → G0 !! g = None).

Lemma host_group_dec hs g : Decision (host_group hs g).
Proof.
  destruct (decide (map_Exists (λ _ e, g = l2_group_id' e ∨ g = l3_group_id e) hs)) as [Hy|Hn].
  - left. destruct Hy as (p & e & He & Hg). by exists p, e.
  - right. intros (p & e & He & Hg). apply Hn. by exists p, e.
Qed.

Lemma host_group_in_force sid w g : hosts_inv sid w → host_group (hosts w) g → is_Some (groups (w_hw w) sid !! g).
Proof.
  intros I (p & e & He & Hg).
  destruct (hi_force _ _ I p e He) as (_ & _ & (port & Hl2) & (? & ? & ? & ? & Hl3) & _).
  destruct Hg as [->| ->]; eauto.
Qed.

Lemma groups_besides_frame G0 sid w w' :
  groups_besides G0 sid w → groups (w_hw w') sid = groups (w_hw w) sid → hosts w' = hosts w →
  groups_besides G0 sid w'.
Proof. intros [H1 H2] Hg Hh. split; by rewrite ?Hg, Hh. Qed.

(** A host that is programmed joins the hosts with groups of its own; a host that is
    refused changes nothing of them. *)
Lemma host_program_effect G0 w sid vlan egress mtu src dst ip :
  pid_ok egress → vid_ok vlan → 0 ≤ ip < 2 ^ 32 → hosts_inv sid w → groups_besides G0 sid w →
  host_table_find w ip = None →
  ∃ r w', host_program w sid vlan egress mtu src dst ip 32 = Done (r, w') ∧
    hosts_inv sid w' ∧ groups_besides G0 sid w' ∧ same_ofproto w w' ∧ l3_only sid (w_hw w) (w_hw w') ∧
    match r with
    | Ret0 => ∃ p e, hosts w !! p = None ∧ hosts w' = <[p := e]> (hosts w) ∧ ipv4_addr e = ip
    | Err e => e = EINVAL ∧ hosts w' = hosts w
    end.
Proof.
  intros Hp Hv Hip I Hgb Hf. destruct (hi_free _ _ I) as (l & Harp & Hl).
  destruct (host_program_inv w sid vlan egress mtu src dst ip) as (r & w' & Hrun & I'); [done..|].
  exists r, w'. destruct (host_program_frame w sid vlan egress mtu src dst ip r w') as (Hso & Hlo & _);
    [done|apply I|done|].
  split; [done|]. split; [done|]. destruct r as [|e].
  - destruct (host_program_runs w sid vlan egress mtu src dst ip l) as (r & w2 & Hrun2 & Hok);
      [done..|apply I|done|]. rewrite Hrun in Hrun2. injection Hrun2 as <- <-.
    destruct Hok as (x & l' & l2 & l3g & arps & h & _ & -> & _ & _ & Hne & Hn2 & Hn3 & Hg & _); [done|].
    assert (hosts w !! fresh (dom (hosts w)) = None) as Hq by apply not_elem_of_dom, is_fresh.
    split; [|split; [done|split; [done|]]]; [|by do 2 eexists].
    destruct Hgb as [H1 H2]. split; cbn [hosts w_hw host_table_add upd_hosts upd_hw upd_arp].
    + intros g Hn. assert (g ≠ l2 ∧ g ≠ l3g) as [? ?].
      { split; intros ->; apply Hn; do 2 eexists; rewrite lookup_insert_eq; (split; [done|]); simpl; auto. }
      rewrite Hg, !lookup_insert_ne by done. apply H1. intros (p & e & He & Hge). apply Hn.
      exists p, e. rewrite lookup_insert_ne by congruence. done.
    + intros g (p & e & [[<- <-]|[_ He]]%lookup_insert_Some & Hge); [|apply H2; by exists p, e]. simpl in Hge.
      destruct (host_group_dec (hosts w) g) as [Hy|Hn]; [by apply H2|].
      rewrite <- H1 by done. destruct Hge as [->| ->]; done.
  - destruct (host_program_failed w w' sid vlan egress mtu src dst ip e l)
      as (-> & Hs & _ & Hh & _); [done..|apply I|done|done|].
    split; [|done]. eapply groups_besides_frame; [done| |done]. by apply hw_same_groups.
Qed.

Lemma host_unprogram_effect G0 w sid p e :
  hosts_inv sid w → groups_besides G0 sid w → hosts w !! p = Some e →
  ∃ w', host_unprogram w sid (ipv4_addr e) 32 p = Done w' ∧ hosts_inv sid w' ∧
    groups_besides G0 sid w' ∧ same_ofproto w w' ∧ l3_only sid (w_hw w) (w_hw w') ∧
    hosts w' = delete p (hosts w).
Proof.
  intros I [H1 H2] He. destruct (host_unprogram_inv w sid p e I He) as (w' & Hrun & I' & Hh).
  pose proof (hi_force _ _ I p e He) as Hin.
  destruct (host_unprogram_frame w sid (ipv4_addr e) 32 p w') as [Hso Hlo];
    [split; [apply Hin|lia]|apply I|done|].
  exists w'. split_and!; try done.
  assert (groups (w_hw w') sid = delete (l2_group_id' e) (delete (l3_group_id e) (groups (w_hw w) sid))) as Hg.
  { revert Hrun. unfold host_unprogram. rewrite (deref_some _ _ _ He). cbn [obind].
    destruct (ops_fpa_route_del_route _ _ _ _) as [e1 h1] eqn:Ed1.
    destruct (ops_fpa_route_del_group sid (l3_group_id e) h1) as [e2 h2] eqn:Ed2.
    destruct (ops_fpa_route_del_group sid (l2_group_id' e) h2) as [e3 h3] eqn:Ed3.
    intros (arps & _ & [= <-])%obind_done.
    destruct (host_resources_deleted sid (w_hw w) e e1 h1 e2 h2 e3 h3)
      as (Hg & _ & _); [apply I|done|exact (hi_own _ _ I p e He)|done..|]. exact Hg. }
  assert (∀ g, host_group (hosts w) g ↔ host_group (hosts w') g ∨ g = l2_group_id' e ∨ g = l3_group_id e) as Hgr.
  { intros g. rewrite Hh. split.
    - intros (p' & e' & He' & Hge). destruct (decide (p' = p)) as [->|]; [right; congruence|].
      left. exists p', e'. by rewrite lookup_delete_ne.
    - intros [(p' & e' & [_ He']%lookup_delete_Some & Hge)|Hge]; [by exists p', e'|by exists p, e]. }
  split.
  - intros g Hn. rewrite Hg. destruct (decide (g = l2_group_id' e)) as [->|Hd2].
    { rewrite lookup_delete_eq. symmetry. apply H2, Hgr. auto. }
    rewrite lookup_delete_ne by done. destruct (decide (g = l3_group_id e)) as [->|Hd3].
    { rewrite lookup_delete_eq. symmetry. apply H2, Hgr. auto. }
    rewrite lookup_delete_ne by done. apply H1. rewrite Hgr. tauto.
  - intros g Hy. apply H2, Hgr. by left.
Qed.

(** There are no more hosts than ARP indices. *)
Lemma hosts_bound sid w : hosts_inv sid w → (size (hosts w) ≤ Z.to_nat ARP_INDICES_SIZE)%nat.
Proof.
  intros I. set (f := λ x : Z * host_table_entry, arp_index x.2).
  assert (NoDup (f <$> map_to_list (hosts w))) as Hnd.
  { apply NoDup_fmap_2_strong; [|apply NoDup_map_to_list].
    intros [p e] [p' e'] Hp%elem_of_map_to_list Hp'%elem_of_map_to_list Heq.
    destruct (decide (p = p')) as [->|Hne]; [congruence|].
    by destruct (hi_apart _ _ I p p' e e' Hp Hp' Hne) as (_ & ? & _). }
  rewrite <- length_map_to_list, <- (length_fmap f).
  rewrite <- (length_seqZ 1 ARP_INDICES_SIZE). apply submseteq_length, NoDup_submseteq; [done|].
  intros x ([p e] & -> & Hp%elem_of_map_to_list)%list_elem_of_fmap. apply elem_of_seqZ.
  destruct (hi_force _ _ I p e Hp) as (_ & Ha & _). unfold arp_ok in Ha. unfold f. simpl. lia.
Qed.

(** The hosts do not depend on the other tables. *)
Lemma hosts_inv_tables sid w w' :
  hosts_inv sid w → arp_indices w' = arp_indices w → hosts w' = hosts w → host_table w' = host_table w →
  groups (w_hw w') sid = groups (w_hw w) sid →
  (∀ x, x ∈ flows (w_hw w') sid FPA_FLOW_TABLE_TYPE_L3_UNICAST_E ↔
        x ∈ flows (w_hw w) sid FPA_FLOW_TABLE_TYPE_L3_UNICAST_E) →
  hosts_inv sid w'.
Proof.
  intros I Ha Hh Ht Hg Hf. split; rewrite ?Ha, ?Hh, ?Ht; try apply I.
  - unfold route_wf. apply Forall_forall. intros x Hx%Hf.
    by apply (proj1 (Forall_forall _ _) (hi_routes _ _ I)).
  - intros p e He. destruct (hi_force _ _ I p e He) as (Hip & Harp & Hl2 & Hl3 & Hr).
    unfold host_in_force. rewrite Hg. do 4 (split; [done|]).
    destruct Hr as (x & Hx & Hrest). exists x. split; [by apply Hf|done].
Qed.

(** ** Sequences of operations *)

Context (dev : option fpa_dev).

(** The L3 interface of the port at [a], if it has one. *)
Definition port_l3 (w : world) (a : Z) : option fpa_l3_intf :=
  bp ← ops_fpa_find_bundle w a; b ← bundle_store w !! bp; l3_intf b.

(** The operations the daemon may ask for: a host with an address that has none yet,
    behind an interface of switch [sid]; deleting a host that is not the last one of
    its interface; a route that is not the one of a host. *)
Inductive hosts_step (sid : Z) (w : world) : world → Prop :=
  | StepAdd a ipv6 ip_addr next_hop egress r egress' w' :
      (∀ l3, port_l3 w a = Some l3 → switchId l3 = sid ∧ vid_ok (vlan_id l3) ∧
         ∀ m port, host_egress dev w l3 m = Done port → pid_ok port) →
      (∀ ip, ops_fpa_str2ip inet_addr ip_addr 0 = (false, ip, 32) →
         0 ≤ ip < 2 ^ 32 ∧ host_table_find w ip = None) →
      add_l3_host_entry dev w a ipv6 ip_addr next_hop egress = Done (r, egress', w') →
      hosts_step sid w w'
  | StepDelete a ipv6 ip_addr r w' :
      (∀ l3, port_l3 w a = Some l3 → switchId l3 = sid ∧ u64 (routes_count l3 - 1) ≠ 0) →
      delete_l3_host_entry w a ipv6 ip_addr = Done (r, w') →
      hosts_step sid w w'
  | StepRoute action route r w' :
      switch_id w = sid →
      (∀ ip len, ops_fpa_str2ip inet_addr (prefix route) 0 = (false, ip, len) →
         prefix_ok ip len ∧ ∀ p e, hosts w !! p = Some e → ip ≠ ipv4_addr e ∨ len ≠ 32) →
      l3_route_action w action route = Done (r, w') →
      hosts_step sid w w'.

Lemma add_entry_inv sid w a ipv6 ip_addr next_hop egress r egress' w' :
  hosts_inv sid w →
  (∀ l3, port_l3 w a = Some l3 → switchId l3 = sid ∧ vid_ok (vlan_id l3) ∧
     ∀ m port, host_egress dev w l3 m = Done port → pid_ok port) →
  (∀ ip, ops_fpa_str2ip inet_addr ip_addr 0 = (false, ip, 32) →
     0 ≤ ip < 2 ^ 32 ∧ host_table_find w ip = None) →
  add_l3_host_entry dev w a ipv6 ip_addr next_hop egress = Done (r, egress', w') → hosts_inv sid w'.
Proof.
  intros I Hport Hip. unfold add_l3_host_entry.
  destruct ipv6; [by intros [= _ _ <-]|]. destruct next_hop as [nh|]; [|by intros [= _ _ <-]].
  intros (b & Hb & Hrun)%obind_done. unfold port_l3 in Hport.
  destruct (ops_fpa_find_bundle w a) as [bp|]; [|done]. cbn [deref] in Hb.
  destruct (bundle_store w !! bp) as [b'|] eqn:Hbp; [|done]. injection Hb as ->. revert Hrun.
  simpl in Hport. rewrite Hbp in Hport. simpl in Hport.
  destruct (l3_intf b) as [l3|]; [|by intros [= _ _ <-]].
  destruct (Hport l3 eq_refl) as (<- & Hv & Heg).
  intros (port & _ & Hrun)%obind_done. revert Hrun.
  destruct (eth_addr_from_string nh) as [m|]; [|by intros [= _ _ <-]].
  intros (eg & He & Hrun)%obind_done. revert Hrun.
  destruct (ops_fpa_str2ip inet_addr ip_addr 0) as [[[] ip] len]; [by intros [= _ _ <-]|].
  destruct (Z.eqb_spec len 32) as [->|]; cbn [orb negb]; [|by intros [= _ _ <-]].
  destruct (Hip ip eq_refl) as [Hr Hf].
  destruct (host_program_inv w (switchId l3) (vlan_id l3) eg (mtu port) (netdev_mac port) m ip)
    as (r' & w1 & -> & I1); [by eapply Heg|done..|]. cbn [obind].
  destruct r'; intros [= _ _ <-]; [|done]. by apply (hosts_inv_frame _ w1).
Qed.

Lemma delete_entry_inv sid w a ipv6 ip_addr r w' :
  hosts_inv sid w →
  (∀ l3, port_l3 w a = Some l3 → switchId l3 = sid ∧ u64 (routes_count l3 - 1) ≠ 0) →
  delete_l3_host_entry w a ipv6 ip_addr = Done (r, w') → hosts_inv sid w'.
Proof.
  intros I Hport. unfold delete_l3_host_entry. destruct ipv6; [by intros [= _ <-]|].
  intros (b & Hb & Hrun)%obind_done. unfold port_l3 in Hport.
  destruct (ops_fpa_find_bundle w a) as [bp|]; [|done]. cbn [deref] in Hb.
  destruct (bundle_store w !! bp) as [b'|] eqn:Hbp; [|done]. injection Hb as ->. revert Hrun.
  simpl in Hport. rewrite Hbp in Hport. simpl in Hport.
  destruct (l3_intf b) as [l3|]; [|by intros [= _ <-]].
  destruct (Hport l3 eq_refl) as (<- & Hc). cbv zeta.
  destruct (ops_fpa_str2ip inet_addr ip_addr 0) as [[[] ip] len]; [by intros [= _ <-]|].
  destruct (Z.eqb_spec len 32) as [->|]; cbn [orb negb]; [|by intros [= _ <-]].
  pose proof (hosts_find (switchId l3) w ip I) as Hf.
  destruct (host_table_find w ip) as [p|]; [|by intros [= _ <-]].
  destruct Hf as (e & He & <-).
  destruct (host_unprogram_inv w (switchId l3) p e I He) as (w1 & -> & I1 & _). cbn [obind].
  rewrite (proj2 (Z.eqb_neq _ _)) by done. intros [= _ <-]. by apply (hosts_inv_frame _ w1).
Qed.

Lemma route_action_inv sid w action route r w' :
  hosts_inv sid w → switch_id w = sid →
  (∀ ip len, ops_fpa_str2ip inet_addr (prefix route) 0 = (false, ip, len) →
     prefix_ok ip len ∧ ∀ p e, hosts w !! p = Some e → ip ≠ ipv4_addr e ∨ len ≠ 32) →
  l3_route_action w action route = Done (r, w') → hosts_inv sid w'.
Proof.
  intros I <- Hpre Hrun. destruct (family_ipv4 route) eqn:Hfam.
  2: { unfold l3_route_action in Hrun. rewrite Hfam in Hrun. by injection Hrun as _ <-. }
  destruct (ops_fpa_str2ip inet_addr (prefix route) 0) as [[[] ip] len] eqn:Hip.
  { unfold l3_route_action in Hrun. rewrite Hfam, Hip in Hrun. by injection Hrun as _ <-. }
  destruct (Hpre ip len eq_refl) as [Hok Hother].
  pose proof (l3_route_action_spec w action route ip len Hfam Hip Hok (hi_routes _ _ I)) as Hspec.
  destruct (route_target w action route) as [tgt|]; rewrite ?Hspec in Hrun; [|by injection Hrun as _ <-].
  destruct Hspec as (r' & h' & Hr & Hcase). rewrite Hr in Hrun. injection Hrun as _ <-.
  destruct Hcase as [[_ Hrep]|(_ & _ & Hrep)]; by eapply route_replaced_inv.
Qed.

(** ** Adding a host and taking it back *)

(** A call that added a host: what it found and what it programmed. *)
Lemma add_entry_done w a ip_addr next_hop e0 egress w1 :
  add_l3_host_entry dev w a false ip_addr next_hop e0 = Done (Ret0, egress, w1) →
  ∃ bp b l3 port m ip wp, ops_fpa_find_bundle w a = Some bp ∧ bundle_store w !! bp = Some b ∧
    l3_intf b = Some l3 ∧ host_egress dev w l3 m = Done egress ∧
    ops_fpa_str2ip inet_addr ip_addr 0 = (false, ip, 32) ∧
    host_program w (switchId l3) (vlan_id l3) egress (mtu port) (netdev_mac port) m ip 32 =
      Done (Ret0, wp) ∧
    w1 = store_bundle bp (set_l3_intf (Some {| switchId := switchId l3; intf_id := intf_id l3;
           vlan_id := vlan_id l3; l3_mac := l3_mac l3; vlan_intf := vlan_intf l3;
           routes_count := u64 (routes_count l3 + 1) |}) b) wp.
Proof.
  unfold add_l3_host_entry. destruct next_hop as [nh|]; [|done].
  intros (b & Hb & Hrun)%obind_done.
  destruct (ops_fpa_find_bundle w a) as [bp|] eqn:Hfind; [|done]. cbn [deref] in Hb.
  destruct (bundle_store w !! bp) as [b'|] eqn:Hbp; [|done]. injection Hb as ->. revert Hrun.
  destruct (l3_intf b) as [l3|] eqn:Hl3; [|done].
  intros (port & _ & Hrun)%obind_done. revert Hrun.
  destruct (eth_addr_from_string nh) as [m|]; [|done].
  intros (eg & He & Hrun)%obind_done. revert Hrun.
  destruct (ops_fpa_str2ip inet_addr ip_addr 0) as [[[] ip] len] eqn:Hip; [done|].
  destruct (Z.eqb_spec len 32) as [->|]; cbn [orb negb]; [|done].
  intros ([[|e] wp] & Hp & Hrun)%obind_done; [|done]. injection Hrun as <- <-.
  by exists bp, b, l3, port, m, ip, wp.
Qed.

(** What programming a host that succeeded did can be undone, completely. *)
Lemma host_program_undone w sid vlan egress mtu src dst ip l wp :
  hosts_inv sid w → arp_free (arp_indices w) l → pid_ok egress → vid_ok vlan → 0 ≤ ip < 2 ^ 32 →
  host_table_find w ip = None → (∀ g port, ¬ has_route (w_hw w) sid ip 32 g port) →
  host_program w sid vlan egress mtu src dst ip 32 = Done (Ret0, wp) →
  ∃ p w2, host_table_find wp ip = Some p ∧ host_unprogram wp sid ip 32 p = Done w2 ∧
    same_ofproto w wp ∧ same_ofproto wp w2 ∧
    groups (w_hw w2) sid = groups (w_hw w) sid ∧ l3_only sid (w_hw w) (w_hw w2) ∧
    same_routes sid (w_hw w) (w_hw w2) ∧ arp_free (arp_indices w2) l ∧
    hosts w2 = hosts w ∧ hmap_nodes (host_table w2) ≡ₚ hmap_nodes (host_table w).
Proof.
  intros I Harp Hp Hv Hip Hf Hno Hrun. pose proof (hosts_find sid w ip I) as Hnew. rewrite Hf in Hnew.
  destruct (host_program_frame w sid vlan egress mtu src dst ip Ret0 wp) as (Hso & Hlo & _);
    [done|apply I|done|].
  destruct (host_program_runs w sid vlan egress mtu src dst ip l) as (r & w' & Hrun' & Hok);
    [done..|apply I|done|]. rewrite Hrun in Hrun'. injection Hrun' as <- <-.
  destruct Hok as (x & l' & l2 & l3g & arps & h & -> & -> & Hx & Hfree & Hne & Hn2 & Hn3 & Hg & Hwf & Hh & Ho);
    [done|].
  set (w0 := upd_hw h (internal_vlans w) (upd_arp arps w)) in *.
  set (e := {| ipv4_addr := ip; arp_index := x; l3_group_id := l3g; l2_group_id' := l2 |}).
  exists (fresh (dom (hosts w))). rewrite (host_table_find_added w0 ip x l3g l2 Hnew).
  destruct (host_table_add_delete w0 ip x l3g l2) as [Hhs Hhn].
  { split; [apply I|]. intros p ([p' k] & -> & (e' & He' & _)%(hi_nodes _ _ I))%list_elem_of_fmap.
    by eapply elem_of_dom_2. }
  destruct (host_unprogram (host_table_add ip x l3g l2 w0) sid ip 32 (fresh (dom (hosts w)))) as [w2| |] eqn:Hun.
  2-3: exfalso; revert Hun; unfold host_unprogram; cbn [deref hosts host_table_add upd_hosts];
    change (hosts w0) with (hosts w); rewrite lookup_insert_eq; cbn [obind];
    repeat match goal with |- context [let '(_, _) := ?c in _] => destruct c end;
    destruct (arp_release_spec arps l' x Hfree Hx) as (arps' & Ha & _);
    [by destruct Harp as (_ & Hnd & _); apply NoDup_cons in Hnd as [? _]|]; cbn; by rewrite Ha.
  exists w2. split; [done|]. split; [done|]. split; [done|].
  destruct (host_unprogram_frame (host_table_add ip x l3g l2 w0) sid ip 32 (fresh (dom (hosts w))) w2)
    as [Hso2 Hlo2]; [by split|done|done|]. split; [done|].
  revert Hun. unfold host_unprogram. cbn [deref hosts host_table_add upd_hosts].
  change (hosts w0) with (hosts w). rewrite lookup_insert_eq.
  change (w_hw (host_table_add ip x l3g l2 w0)) with h. cbn [obind l3_group_id l2_group_id' arp_index].
  destruct (ops_fpa_route_del_route sid ip 32 h) as [e1 h1] eqn:Ed1.
  destruct (ops_fpa_route_del_group sid l3g h1) as [e2 h2] eqn:Ed2.
  destruct (ops_fpa_route_del_group sid l2 h2) as [e3 h3] eqn:Ed3.
  intros (arps' & Ha & Hw2)%obind_done.
  destruct (host_resources_deleted sid h e e1 h1 e2 h2 e3 h3) as (Hg3 & Hwf3 & Hr3); [done| |done..|].
  { split; [done|]. split; [done|]. rewrite Hg. split; [|split; [|done]]; simpl.
    - exists egress. by rewrite lookup_insert_ne, lookup_insert_eq.
    - do 4 eexists. by rewrite lookup_insert_eq. }
  assert (x ∉ l') as Hxl by (destruct Harp as (_ & Hnd & _); by apply NoDup_cons in Hnd as [? _]).
  destruct (arp_release_spec _ _ _ Hfree Hx Hxl) as (arps2 & Ha2 & Hfree2). cbn in Ha. rewrite Ha2 in Ha.
  injection Ha as <-. injection Hw2 as <-.
  cbn [w_hw arp_indices hosts host_table host_table_delete host_table_add upd_hosts upd_hw upd_arp] in *.
  split; [|split; [|split; [|split; [done|split; [exact Hhs|exact Hhn]]]]].
  - rewrite Hg3, Hg. cbn [l2_group_id' l3_group_id e].
    rewrite delete_insert_id by (by rewrite lookup_insert_ne). by apply delete_insert_id.
  - etrans; [exact Hlo|exact Hlo2].
  - intros ip' len' g port Hl. rewrite (Hr3 ip' len' g port Hl). cbn [ipv4_addr e].
    destruct (decide (ip' = ip ∧ len' = 32)) as [[-> ->]|Hd].
    + split; [by intros [_ [?|?]]|by intros ?%Hno].
    + assert (ip' ≠ ip ∨ len' ≠ 32) as Hd' by (destruct (decide (ip' = ip)); naive_solver).
      rewrite (Ho ip' len' g port Hl Hd'). naive_solver.
Qed.

(** C3: A host that was added is taken back completely.  Whenever [add_l3_host_entry]
    has added a host, through its own VLAN or a learned next hop, for an address that
    had neither a host nor a /32 route, [delete_l3_host_entry] of the address returns 0
    and restores the hosts, the host table, the free list of ARP indices in its order,
    the groups of the switch, the routes of every prefix and all flows outside the L3
    table.  If the interface had hosts before, its bundle with its count of routes and
    the internal VLANs are as before too; if not, the bundle has lost its L3 interface
    and the switch and the internal VLANs are as [ops_fpa_disable_routing] leaves
    them. *)
Theorem host_entry_roundtrip sid w a ip_addr next_hop e0 egress w1 l :
  hosts_inv sid w → arp_free (arp_indices w) l →
  (∀ l3, port_l3 w a = Some l3 → switchId l3 = sid ∧ vid_ok (vlan_id l3) ∧
     0 ≤ routes_count l3 < 2 ^ 64 - 1 ∧ ∀ m port, host_egress dev w l3 m = Done port → pid_ok port) →
  (∀ ip, ops_fpa_str2ip inet_addr ip_addr 0 = (false, ip, 32) →
     0 ≤ ip < 2 ^ 32 ∧ host_table_find w ip = None ∧ ∀ g port, ¬ has_route (w_hw w) sid ip 32 g port) →
  add_l3_host_entry dev w a false ip_addr next_hop e0 = Done (Ret0, egress, w1) →
  ∃ w2, delete_l3_host_entry w1 a false ip_addr = Done (Ret0, w2) ∧
    hosts w2 = hosts w ∧ hmap_nodes (host_table w2) ≡ₚ hmap_nodes (host_table w) ∧
    arp_free (arp_indices w2) l ∧ bundles w2 = bundles w ∧ ofports w2 = ofports w ∧
    ∃ bp b l3 h, ops_fpa_find_bundle w a = Some bp ∧ bundle_store w !! bp = Some b ∧
      l3_intf b = Some l3 ∧ groups h sid = groups (w_hw w) sid ∧ l3_only sid (w_hw w) h ∧
      same_routes sid (w_hw w) h ∧
      if routes_count l3 =? 0 then
        ops_fpa_disable_routing l3 (internal_vlans w) h = (internal_vlans w2, w_hw w2) ∧
        bundle_store w2 = <[bp := set_l3_intf None b]> (bundle_store w)
      else h = w_hw w2 ∧ internal_vlans w2 = internal_vlans w ∧ bundle_store w2 = bundle_store w.
Proof.
  intros I Harp Hport Hip Hadd.
  destruct (add_entry_done _ _ _ _ _ _ _ Hadd)
    as (bp & b & l3 & port & m & ip & wp & Hfind & Hb & Hl3 & Heg & Hs & Hrun & ->).
  destruct (Hport l3) as (<- & Hv & Hc & Hpid).
  { unfold port_l3. rewrite Hfind. simpl. rewrite Hb. done. }
  destruct (Hip ip Hs) as (Hr & Hf & Hno).
  destruct (host_program_undone w (switchId l3) (vlan_id l3) egress (mtu port) (netdev_mac port) m ip l wp)
    as (p & w2 & Hfp & Hun & Hso & Hso2 & Hg & Hlo & Hsr & Ha & Hh & Hn); [by eauto..|].
  destruct Hso as (Sb & Ss & So & _ & _ & _ & _ & Si), Hso2 as (Sb2 & Ss2 & So2 & _ & _ & _ & _ & Si2).
  set (b1 := set_l3_intf _ b). set (w1 := store_bundle bp b1 wp).
  assert (ops_fpa_find_bundle w1 a = Some bp) as Hfind1.
  { unfold w1. rewrite (find_bundle_store wp a bp b b1); [|by rewrite Ss|done].
    rewrite <- Hfind. apply find_bundle_frame; [done|by rewrite Ss]. }
  unfold delete_l3_host_entry. rewrite Hfind1. cbn [deref bundle_store w1 store_bundle upd_bundles].
  rewrite lookup_insert_eq. cbn [obind l3_intf b1 set_l3_intf]. rewrite Hs. cbn [orb negb Z.eqb Pos.eqb].
  change (host_table_find _ ip) with (host_table_find wp ip). rewrite Hfp.
  apply (host_unprogram_store bp b1) in Hun. cbn [switchId]. unfold w1, store_bundle in *. rewrite Hun.
  cbn [obind routes_count switchId intf_id vlan_id l3_mac vlan_intf].
  assert (u64 (u64 (routes_count l3 + 1) - 1) = routes_count l3) as ->.
  { unfold u64. rewrite (wrap_small 64 (routes_count l3 + 1)), wrap_small; lia. }
  assert ({| switchId := switchId l3; intf_id := intf_id l3; vlan_id := vlan_id l3; l3_mac := l3_mac l3;
             vlan_intf := vlan_intf l3; routes_count := routes_count l3 |} = l3) as -> by by destruct l3.
  cbn [internal_vlans w_hw upd_bundles].
  destruct (ops_fpa_disable_routing l3 (internal_vlans w2) (w_hw w2)) as [iv h] eqn:Hdis.
  destruct (routes_count l3 =? 0) eqn:Hz; (eexists; split; [done|]); cbn; split_and!; try done; try congruence;
    exists bp, b, l3, (w_hw w2); split_and!; try done; rewrite ?Hz; cbn.
  - rewrite <- Si, <- Si2. split; [done|]. by rewrite Ss, !insert_insert_eq.
  - split; [done|]. split; [congruence|]. rewrite Ss, !insert_insert_eq. apply insert_id. rewrite Hb. f_equal.
    destruct b. simpl in Hl3 |- *. by subst.
Qed.

(** C4: Hosts stay in force through every sequence of calls that return, on a switch
    that may refuse any addition, of: adding a host whose address has none yet behind an
    interface of the switch, deleting a host that is not the last one counted by its
    interface, and changing a route with a prefix length of 1 to 32 that is not the /32
    of a host.  Every host of the table keeps its two groups, its route and its ARP
    index; no two hosts share an address, a group or an index, and no index in use is
    free; the table finds exactly the hosts by their addresses, and any of them can be
    taken back without a crash, leaving the others in force. *)
Theorem hosts_stay_in_force sid w w' :
  hosts_inv sid w → rtc (hosts_step sid) w w' →
  hosts_inv sid w' ∧
  ∀ ip, match host_table_find w' ip with
        | None => ∀ p e, hosts w' !! p = Some e → ipv4_addr e ≠ ip
        | Some p => ∃ e w2, hosts w' !! p = Some e ∧ ipv4_addr e = ip ∧
            host_unprogram w' sid ip 32 p = Done w2 ∧ hosts w2 = delete p (hosts w') ∧
            hosts_inv sid w2
        end.
Proof.
  intros I Hsteps. assert (hosts_inv sid w') as I'.
  { clear -I Hsteps FPA_LAWS0 FPA_DELETES0 HMAP_LAWS0. induction Hsteps as [|w w1 w2 Hstep _ IH]; [done|].
    apply IH. destruct Hstep; eauto using add_entry_inv, delete_entry_inv, route_action_inv. }
  split; [done|]. intros ip. pose proof (hosts_find sid w' ip I') as Hf.
  destruct (host_table_find w' ip) as [p|]; [|done]. destruct Hf as (e & He & <-).
  destruct (host_unprogram_inv w' sid p e I' He) as (w2 & Hun & I2 & Hh). by exists e, w2.
Qed.
End hosts.

(** ** Witnesses: a host is added to a routed interface and taken back *)

#[local] Existing Instance Ofproto.WEnv.
#[local] Existing Instance Ofproto.WOf.
#[local] Existing Instance Ofproto.WHmap.
#[local] Existing Instance Ofproto.WHmapLaws.

(** Routing on VLAN 1024, which is not internal; the device has learned the next hop on
    port 3. *)
Definition w_learned_ml : fpa_mac_learning :=
  match ops_fpa_mac_learning_learn (λ _, Some "3") (ml_new 100 300 0 true)
    {| au_msg_type := FPA_EVENT_ADDRESS_UPDATE_NEW_E; portNum := 3; vid := 1024; address := w_dst |} with
  | Done (_, ml) => ml
  | _ => ml_new 100 300 0 true
  end.
Definition w_learned_dev : option fpa_dev :=
  Some {| dev_switchId := 0; ref_cnt := 1; tap_if_info := None; dev_ml := Some w_learned_ml |}.
Definition w_vlan_routed (count : Z) : world (F := SimNF) :=
  w_world (F := SimNF) sim_empty ∅ (Some (w_l3 count)).

Lemma w_hosts_inv count : hosts_inv (F := SimNF) 0 (w_vlan_routed count).
Proof.
  split.
  - apply route_wf_empty.
  - eexists. split; [exact arp_init_free|]. intros p e. cbn. by rewrite lookup_empty.
  - intros p e. cbn. by rewrite lookup_empty.
  - intros p e. cbn. by rewrite lookup_empty.
  - intros p p' e e'. cbn. by rewrite lookup_empty.
  - apply NoDup_nil_2.
  - intros p k. cbn. setoid_rewrite lookup_empty. split; [by intros ?%not_elem_of_nil|].
    by intros (e & ? & _).
Qed.

Definition w_add (count : Z) : outcome (retval * Z * world (F := SimNF)) :=
  add_l3_host_entry (F := SimNF) w_learned_dev (w_vlan_routed count) 1 false "10.0.0.1"
    (Some "06:07:08:09:0a:0b") 0.

Definition w_added (count : Z) : world (F := SimNF) :=
  match w_add count with Done (_, _, w) => w | _ => w_vlan_routed count end.

(** The host is added behind port 3. *)
Definition added_behind_3 {A} (r : outcome (retval * Z * A)) : bool :=
  match r with Done (Ret0, egress, _) => egress =? 3 | _ => false end.

Lemma w_added_run count : added_behind_3 (w_add count) = true → w_add count = Done (Ret0, 3, w_added count).
Proof.
  unfold w_added. destruct (w_add count) as [[[[|e] egress] w]| |]; try discriminate.
  intros ->%Z.eqb_eq. reflexivity.
Qed.

Lemma w_port_ok count l3 :
  port_l3 (F := SimNF) (w_vlan_routed count) 1 = Some l3 →
  l3 = w_l3 count ∧ vid_ok 1024 ∧
  ∀ m port, host_egress (F := SimNF) w_learned_dev (w_vlan_routed count) l3 m = Done port → pid_ok port.
Proof.
  intros Hl3. assert (l3 = w_l3 count) as -> by (by injection Hl3 as <-).
  split; [done|]. split; [exact (proj1 (w_vid 1024 eq_refl))|]. intros m port.
  unfold host_egress.
  assert (ops_fpa_vlan_internal (internal_vlans (w_vlan_routed count)) (vlan_id (w_l3 count)) = false) as Hi
    by (vm_compute; reflexivity).
  rewrite Hi. cbn [switchId w_l3].
  unfold ops_fpa_dev_by_id, w_learned_dev. cbn [dev_switchId Z.eqb obind dev_ml].
  intros (e & He & [= <-])%obind_done. revert He.
  destruct (ops_fpa_mac_learning_lookup_by_vlan_and_mac _ _ _) as [q|]; [|done].
  assert (map_Forall (λ _ e, portNum e = 3) (entries w_learned_ml)) as Hall
    by (apply (bool_decide_unpack _); vm_compute; exact I).
  cbn [deref]. destruct (entries w_learned_ml !! q) as [e'|] eqn:Hq; [|done]. intros [= <-].
  rewrite (Hall q e' Hq). exact w_pid.
Qed.

Lemma w_added_step : hosts_step (F := SimNF) w_learned_dev 0 (w_vlan_routed 1) (w_added 1).
Proof.
  apply (StepAdd (F := SimNF) w_learned_dev 0 (w_vlan_routed 1) 1 false "10.0.0.1"
    (Some "06:07:08:09:0a:0b") 0 Ret0 3 (w_added 1)).
  - intros l3 Hl3. destruct (w_port_ok 1 l3 Hl3) as (-> & Hv & He). by split_and!.
  - intros ip Hip. vm_compute in Hip. injection Hip as <-. split; [lia|vm_compute; reflexivity].
  - apply w_added_run. vm_compute. reflexivity.
Qed.

Lemma w_added_find : host_table_find (F := SimNF) (w_added 1) w_ip = Some (fresh (∅ : gset Z)).
Proof. vm_compute. reflexivity. Qed.

Lemma hosts_stay_in_force_witness :
  ∃ e w2, hosts (w_added 1) !! fresh (∅ : gset Z) = Some e ∧ ipv4_addr e = w_ip ∧
    host_unprogram (F := SimNF) (w_added 1) 0 w_ip 32 (fresh (∅ : gset Z)) = Done w2 ∧
    hosts w2 = delete (fresh (∅ : gset Z)) (hosts (w_added 1)) ∧ hosts_inv (F := SimNF) 0 w2.
Proof.
  pose proof (proj2 (hosts_stay_in_force (F := SimNF) (V := Ofproto.WOf) w_learned_dev 0 (w_vlan_routed 1)
    (w_added 1) (w_hosts_inv 1) (rtc_once _ _ w_added_step)) w_ip) as Hhost.
  rewrite w_added_find in Hhost. exact Hhost.
Defined.

(** The only host of an interface and one of two. *)
Lemma w_roundtrip_ready count :
  0 ≤ count < 2 ^ 64 - 1 → ∀ l3, port_l3 (F := SimNF) (w_vlan_routed count) 1 = Some l3 →
  switchId l3 = 0 ∧ vid_ok (vlan_id l3) ∧ 0 ≤ routes_count l3 < 2 ^ 64 - 1 ∧
  ∀ m port, host_egress (F := SimNF) w_learned_dev (w_vlan_routed count) l3 m = Done port → pid_ok port.
Proof.
  intros Hc l3 Hl3. destruct (w_port_ok count l3 Hl3) as (-> & Hv & He).
  split; [done|]. split; [exact Hv|]. split; [exact Hc|exact He].
Qed.

Lemma w_roundtrip_new count ip :
  ops_fpa_str2ip inet_addr "10.0.0.1" 0 = (false, ip, 32) →
  0 ≤ ip < 2 ^ 32 ∧ host_table_find (F := SimNF) (w_vlan_routed count) ip = None ∧
  ∀ g port, ¬ has_route (F := SimNF) (w_hw (w_vlan_routed count)) 0 ip 32 g port.
Proof.
  intros Hip. vm_compute in Hip. injection Hip as <-. split; [lia|]. split; [reflexivity|]. apply w_no_route.
Qed.

Lemma host_entry_roundtrip_witness :
  (∃ w2, delete_l3_host_entry (F := SimNF) (w_added 1) 1 false "10.0.0.1" = Done (Ret0, w2) ∧ hosts w2 = ∅) ∧
  ∃ w2, delete_l3_host_entry (F := SimNF) (w_added 0) 1 false "10.0.0.1" = Done (Ret0, w2) ∧ hosts w2 = ∅.
Proof.
  split.
  - destruct (host_entry_roundtrip (F := SimNF) w_learned_dev 0 (w_vlan_routed 1) 1 "10.0.0.1"
      (Some "06:07:08:09:0a:0b") 0 3 (w_added 1) _ (w_hosts_inv 1) arp_init_free
      (w_roundtrip_ready 1 ltac:(lia)) (w_roundtrip_new 1) (w_added_run 1 ltac:(vm_compute; reflexivity)))
      as (w2 & Hd & Hh & _). exists w2. exact (conj Hd Hh).
  - destruct (host_entry_roundtrip (F := SimNF) w_learned_dev 0 (w_vlan_routed 0) 1 "10.0.0.1"
      (Some "06:07:08:09:0a:0b") 0 3 (w_added 0) _ (w_hosts_inv 0) arp_init_free
      (w_roundtrip_ready 0 ltac:(lia)) (w_roundtrip_new 0) (w_added_run 0 ltac:(vm_compute; reflexivity)))
      as (w2 & Hd & Hh & _). exists w2. exact (conj Hd Hh).
Defined.
