(* ===== verification/Vrf.v ===== *)
(** * The L3 half of the class over its life (src/ops-fpa-ofproto.c, src/ops-fpa-routing.c)

    An ofproto of type "vrf": [ops_fpa_ofproto_bundle_set] with the creation and
    removal of bundles and the routing on their VLANs, hosts and routes, in any order,
    refine an abstract VRF: a map from the handle of an interface to its name, its
    routed VLAN, its address and its hosts, and the hosts that removed interfaces left.
    The switch may refuse any addition, and a request may crash.  [vrf_request_ok] says
    which requests are made; the interfaces are those without a physical port, since
    the internal VLANs of routed ports are in Routing.v. *)

From S2P Require Import Prelude Fpa FpaSim Wrap Route Vlan Routing Util PortVlans Arp Hmap MacLearning Dev Ofproto Hosts.

Local Open Scope string_scope.
Local Open Scope list_scope.
Local Open Scope Z_scope.

(** ** The abstract VRF *)

Record vrf_port := {
  vp_name : option string;
  vp_routing : option (Z * mac);
  vp_ip : option string;
  vp_hosts : gset Z
}.

Notation vrf_state := (gmap Z vrf_port).

Inductive vrf_request :=
  | VrfSet (a : Z) (set : ofproto_bundle_settings)
  | VrfRemove (a : Z)
  | VrfAddHost (a : Z) (ipv6 : bool) (ip_addr : string) (next_hop : option string) (egress : Z)
  | VrfDelHost (a : Z) (ipv6 : bool) (ip_addr : string)
  | VrfRoute (action : ofproto_route_action) (route : ofproto_route).

Definition new_vrf_port : vrf_port :=
  {| vp_name := None; vp_routing := None; vp_ip := None; vp_hosts := ∅ |}.

(** A routed interface stays on its VLAN until it is disabled without hosts; [ok]
    says whether the switch accepts the flows of a new one. *)
Definition vrf_routing (set : ofproto_bundle_settings) (m : mac) (ok : bool) (v : vrf_port) :
    option (Z * mac) :=
  if negb (enable set) then (if decide (vp_hosts v = ∅) then None else vp_routing v)
  else match vp_routing v with
  | Some x => Some x
  | None => if (s_vlan set =? 0) || negb ok then None else Some (s_vlan set, m)
  end.

Definition vrf_address (set : ofproto_bundle_settings) (ip : option string) : option string :=
  if PORT_PRIMARY_IPv4_CHANGED set then ip4_address set else ip.

Definition vrf_set (set : ofproto_bundle_settings) (port : option fpa_ofport) (ok : bool)
    (v : vrf_port) : retval * vrf_port :=
  let named := {| vp_name := Some (s_name set); vp_routing := vp_routing v; vp_ip := vp_ip v;
                  vp_hosts := vp_hosts v |} in
  match port with
  | None => (Ret0, named)
  | Some p =>
      if String.eqb (netdev_type p) OVSREC_INTERFACE_TYPE_INTERNAL then
        (Ret0, {| vp_name := Some (s_name set);
                  vp_routing := vrf_routing set (netdev_mac p) ok v;
                  vp_ip := vrf_address set (vp_ip v); vp_hosts := vp_hosts v |})
      else if String.eqb (netdev_type p) OVSREC_INTERFACE_TYPE_LOOPBACK then (Ret0, named)
      else (Err ENOSYS, named)
  end.

Definition add_host (ip : Z) (v : vrf_port) : vrf_port :=
  {| vp_name := vp_name v; vp_routing := vp_routing v; vp_ip := vp_ip v;
     vp_hosts := {[ip]} ∪ vp_hosts v |}.

(** The last host takes the routing of its interface with it. *)
Definition del_host (ip : Z) (v : vrf_port) : vrf_port :=
  let hosts := vp_hosts v ∖ {[ip]} in
  {| vp_name := vp_name v; vp_routing := if decide (hosts = ∅) then None else vp_routing v;
     vp_ip := vp_ip v; vp_hosts := hosts |}.

(** ** The flows of the routed VLANs *)

Section vrf.
Context {F : FPA_SDK} {O : FPA_OBS F} `{!FPA_LAWS F O, !FPA_DELETES F O}.

Notation flow := (flow_table * FPA_FLOW_TABLE_ENTRY_STC)%type.

Definition all_flows (fl : gmap Z (list flow)) : list flow := concat (map_to_list fl).*2.

Lemma elem_of_all_flows fl x : x ∈ all_flows fl ↔ ∃ a l, fl !! a = Some l ∧ x ∈ l.
Proof.
  unfold all_flows. rewrite list_elem_of_In, in_concat. split.
  - intros (l & Hl%list_elem_of_In & Hx%list_elem_of_In).
    apply list_elem_of_fmap in Hl as ([a l'] & -> & Hin%elem_of_map_to_list). eauto.
  - intros (a & l & Hl & Hx). exists l. rewrite <- !list_elem_of_In. split; [|done].
    apply list_elem_of_fmap. exists (a, l). split; [done|]. by apply elem_of_map_to_list.
Qed.

Lemma all_flows_insert fl a l x :
  fl !! a = None → x ∈ all_flows (<[a := l]> fl) ↔ x ∈ l ++ all_flows fl.
Proof.
  intros Ha. unfold all_flows. rewrite map_to_list_insert by done. done.
Qed.

(** The flows of one VLAN do not concern another. *)
Lemma routing_flows_other vid m vid' l t e :
  0 ≤ vid < 2 ^ 16 → 0 ≤ vid' < 2 ^ 16 → vid ≠ vid' → routing_flows vid m l → (t, e) ∈ l →
  unrouted (λ t' e', t' = t ∧ e' = e) vid'.
Proof.
  intros Hv Hv' Hne (a & b & c & d & ->) Hin. unfold flow_a, flow_b, flow_c, flow_d in Hin.
  assert (∀ ty ty', OPS_FPA_CONTROL_PKT_COOKIE ty vid ≠ OPS_FPA_CONTROL_PKT_COOKIE ty' vid') as Hck.
  { intros ty ty' Heq. by apply control_pkt_cookie_inj in Heq as [_ ?]. }
  repeat (apply elem_of_cons in Hin as [Hin|Hin];
    [simplify_eq; split_and!; intros e' [Ht ->]; simplify_eq/=; split_and!; auto|]).
  by apply not_elem_of_nil in Hin.
Qed.

Context (h0 : hw).

(** The tables of [h0], but the L3 unicast flows and the groups of [h]. *)
Definition base (sid : Z) (h : hw) : tables :=
  {| tb_flows s t := if decide (s = sid ∧ t = FPA_FLOW_TABLE_TYPE_L3_UNICAST_E) then flows h s t
                     else flows h0 s t;
     tb_groups := groups h |}.

Lemma base_flows sid h s t :
  s ≠ sid ∨ t ≠ FPA_FLOW_TABLE_TYPE_L3_UNICAST_E → tb_flows (base sid h) s t = flows h0 s t.
Proof. intros Hst. simpl. rewrite decide_False; [done|]. naive_solver. Qed.
Lemma base_l3 sid h :
  tb_flows (base sid h) sid FPA_FLOW_TABLE_TYPE_L3_UNICAST_E = flows h sid FPA_FLOW_TABLE_TYPE_L3_UNICAST_E.
Proof. simpl. by rewrite decide_True. Qed.

(** Interfaces routed on distinct VLANs that [h0] does not route. *)
Definition vlans_ok (sid : Z) (rt : gmap Z (Z * mac)) : Prop :=
  (∀ a vid m, rt !! a = Some (vid, m) → 0 ≤ vid < 2 ^ 16 ∧ routing_free h0 sid vid) ∧
  (∀ a a' vid m vid' m', rt !! a = Some (vid, m) → rt !! a' = Some (vid', m') → a ≠ a' → vid ≠ vid').

(** The flow tables, except the one of the L3 routes, are those of [h0] with the four
    flows of each routed VLAN. *)
Definition routed_on (sid : Z) (rt : gmap Z (Z * mac)) (h : hw) : Prop :=
  ∃ fl : gmap Z (list flow),
    (∀ a, option_Forall2 (λ vm l, routing_flows vm.1 vm.2 l) (rt !! a) (fl !! a)) ∧
    (∀ t x, t ≠ FPA_FLOW_TABLE_TYPE_L3_UNICAST_E →
       x ∈ flows h sid t ↔ (t, x) ∈ all_flows fl ∨ x ∈ flows h0 sid t) ∧
    (∀ s t, s ≠ sid → flows h s t = flows h0 s t).

Lemma routing_flows_not_l3 vid m l x :
  routing_flows vid m l → (FPA_FLOW_TABLE_TYPE_L3_UNICAST_E, x) ∉ l.
Proof.
  intros (a & b & c & d & ->). unfold flow_a, flow_b, flow_c, flow_d.
  rewrite !not_elem_of_cons. split_and!; [by intros [= ?]..|apply not_elem_of_nil].
Qed.

Lemma all_flows_not_l3 (rt : gmap Z (Z * mac)) fl x :
  (∀ a, option_Forall2 (λ vm l, routing_flows vm.1 vm.2 l) (rt !! a) (fl !! a)) →
  (FPA_FLOW_TABLE_TYPE_L3_UNICAST_E, x) ∉ all_flows fl.
Proof.
  intros Hfl (a & l & Hl & Hx)%elem_of_all_flows. specialize (Hfl a). rewrite Hl in Hfl.
  inversion Hfl as [vm ? Hr|]; subst. by eapply routing_flows_not_l3.
Qed.

(** The same as an addition to the tables [base]. *)
Lemma routed_plus (rt : gmap Z (Z * mac)) fl sid h l' :
  (∀ a, option_Forall2 (λ vm l, routing_flows vm.1 vm.2 l) (rt !! a) (fl !! a)) →
  (∀ x, x ∈ l' ↔ x ∈ all_flows fl) →
  (∀ t x, t ≠ FPA_FLOW_TABLE_TYPE_L3_UNICAST_E →
     x ∈ flows h sid t ↔ (t, x) ∈ all_flows fl ∨ x ∈ flows h0 sid t) →
  (∀ s t, s ≠ sid → flows h s t = flows h0 s t) →
  tables_plus sid l' (base sid h) h.
Proof.
  intros Hfl Hl' Hf Ho. split_and!; [|intros s t Hs; by rewrite base_flows, Ho by auto|done].
  intros t x. rewrite Hl'. destruct (decide (t = FPA_FLOW_TABLE_TYPE_L3_UNICAST_E)) as [->|Hne].
  - rewrite base_l3. pose proof (all_flows_not_l3 rt fl x Hfl). tauto.
  - rewrite base_flows by auto. by apply Hf.
Qed.

(** The L3 routes and the groups are the same. *)
Definition same_l3 (sid : Z) (h h' : hw) : Prop :=
  (∀ x, x ∈ flows h' sid FPA_FLOW_TABLE_TYPE_L3_UNICAST_E ↔
        x ∈ flows h sid FPA_FLOW_TABLE_TYPE_L3_UNICAST_E) ∧
  ∀ s, groups h' s = groups h s.

Lemma plus_routed (rt : gmap Z (Z * mac)) fl sid h h' l' :
  (∀ a, option_Forall2 (λ vm l, routing_flows vm.1 vm.2 l) (rt !! a) (fl !! a)) →
  (∀ x, x ∈ l' ↔ x ∈ all_flows fl) → tables_plus sid l' (base sid h) h' →
  routed_on sid rt h' ∧ same_l3 sid h h'.
Proof.
  intros Hfl Hl' (Hf & Ho & Hg). split; [exists fl; split; [done|split]|split].
  - intros t x Ht. rewrite Hf, Hl', base_flows by auto. done.
  - intros s t Hs. rewrite Ho, base_flows by auto. done.
  - intros x. rewrite Hf, Hl', base_l3. pose proof (all_flows_not_l3 rt fl x Hfl). tauto.
  - exact Hg.
Qed.

(** Host operations do not touch the tables of the routed VLANs. *)
Lemma routed_l3_only sid rt h h' : routed_on sid rt h → l3_only sid h h' → routed_on sid rt h'.
Proof.
  intros (fl & Hfl & Hf & Ho) Hl. exists fl. split; [done|]. split.
  - intros t x Ht. rewrite Hl by auto. by apply Hf.
  - intros s t Hs. rewrite Hl by auto. by apply Ho.
Qed.

(** A VLAN nobody routes is free for [enable_routing_vlan]. *)
Lemma others_unrouted sid rt (fl : gmap Z (list flow)) vid :
  vlans_ok sid rt → (∀ a, option_Forall2 (λ vm l, routing_flows vm.1 vm.2 l) (rt !! a) (fl !! a)) →
  0 ≤ vid < 2 ^ 16 → routing_free h0 sid vid →
  (∀ a vid' m, rt !! a = Some (vid', m) → vid' ≠ vid) →
  ∀ h, unrouted (λ t e, (t, e) ∈ all_flows fl ∨ e ∈ tb_flows (base sid h) sid t) vid.
Proof.
  intros [Hok _] Hfl Hv Hfree Hne h.
  assert (∀ t e, (t, e) ∈ all_flows fl → unrouted (λ t' e', t' = t ∧ e' = e) vid) as Hoth.
  { intros t e (a & l & Hl & Hin)%elem_of_all_flows.
    specialize (Hfl a). rewrite Hl in Hfl. inversion Hfl as [[vid' m] ? Hr Heq|]; subst.
    symmetry in Heq. destruct (Hok _ _ _ Heq) as [Hv' _].
    eapply routing_flows_other; [exact Hv'|done|by eapply Hne|done|done]. }
  destruct Hfree as (Hc & Hl & Ht).
  split_and!; intros e [Hin|He]; try (rewrite base_flows in He by auto; by auto);
    destruct (Hoth _ _ Hin) as (H1 & H2 & H3); auto.
Qed.

Definition vlan_l3 (sid count : Z) (vm : Z * mac) : fpa_l3_intf :=
  {| switchId := sid; intf_id := 0; vlan_id := vm.1; l3_mac := vm.2; vlan_intf := false;
     routes_count := count |}.

Definition switch_inv (sid : Z) (rt : gmap Z (Z * mac)) (h : hw) : Prop :=
  vlans_ok sid rt ∧ routed_on sid rt h.

(** [vid] may be routed for a handle that is not routed yet. *)
Definition vlan_free (sid : Z) (rt : gmap Z (Z * mac)) (vid : Z) : Prop :=
  0 ≤ vid < 2 ^ 16 ∧ routing_free h0 sid vid ∧ ∀ a vid' m, rt !! a = Some (vid', m) → vid' ≠ vid.

Lemma vlans_ok_insert sid rt a vid m :
  vlans_ok sid rt → vlan_free sid rt vid → rt !! a = None → vlans_ok sid (<[a := (vid, m)]> rt).
Proof.
  intros [Hok Hd] (Hv & Hfree & Hne) Ha. split.
  - intros a' vid' m' [(<- & [= <- <-])|[_ Hl]]%lookup_insert_Some; eauto.
  - intros a1 a2 v1 m1 v2 m2 [(<- & [= <- <-])|[? Hl1]]%lookup_insert_Some
      [(<- & [= <- <-])|[? Hl2]]%lookup_insert_Some Hn; try done.
    + intros ->. by eapply Hne.
    + intros ->. by eapply Hne.
    + by eapply Hd.
Qed.

Lemma vlans_ok_delete sid rt a : vlans_ok sid rt → vlans_ok sid (delete a rt).
Proof.
  intros [Hok Hd]. split.
  - intros a' vid m [_ Hl]%lookup_delete_Some. eauto.
  - intros a1 a2 v1 m1 v2 m2 [_ H1]%lookup_delete_Some [_ H2]%lookup_delete_Some. eauto.
Qed.

(** Enabling routing adds the interface or leaves the switch as it was. *)
Lemma switch_enable sid rt a vid m h res h' :
  switch_inv sid rt h → rt !! a = None → vlan_free sid rt vid →
  ops_fpa_enable_routing_vlan sid vid m h = (res, h') →
  same_l3 sid h h' ∧
  match res with
  | None => switch_inv sid rt h'
  | Some l3 => l3 = vlan_l3 sid 0 (vid, m) ∧ switch_inv sid (<[a := (vid, m)]> rt) h'
  end.
Proof.
  intros [Hok (fl & Hfl & Hf & Ho)] Ha Hvf He. pose proof Hvf as (Hv & Hfree & Hne).
  pose proof (others_unrouted sid rt fl vid Hok Hfl Hv Hfree Hne h) as Hun.
  pose proof (routed_plus rt fl sid h (all_flows fl) Hfl ltac:(done) Hf Ho) as Hp.
  pose proof (enable_vlan_spec sid vid m (base sid h) (all_flows fl) Hv Hun h res h' Hp He) as Hspec.
  destruct res as [l3|].
  2:{ destruct (plus_routed rt fl sid h h' (all_flows fl) Hfl ltac:(done) Hspec). by split; [|split]. }
  destruct Hspec as (-> & l & Hl & Hp').
  assert (fl !! a = None) as Hfa.
  { specialize (Hfl a). rewrite Ha in Hfl. by inversion Hfl. }
  destruct (plus_routed (<[a := (vid, m)]> rt) (<[a := l]> fl) sid h h' (l ++ all_flows fl))
    as [Hr Hs]; [| |done|].
  - intros a'. destruct (decide (a' = a)) as [->|Hn].
    + rewrite !lookup_insert_eq. by constructor.
    + by rewrite !lookup_insert_ne.
  - intros x. symmetry. by apply all_flows_insert.
  - split; [done|]. split; [done|]. split; [by apply vlans_ok_insert|done].
Qed.

(** Disabling routing takes the flows of that interface away and no others. *)
Lemma switch_disable sid rt a count vm iv h iv' h' :
  switch_inv sid rt h → rt !! a = Some vm →
  ops_fpa_disable_routing (vlan_l3 sid count vm) iv h = (iv', h') →
  iv' = iv ∧ same_l3 sid h h' ∧ switch_inv sid (delete a rt) h'.
Proof.
  destruct vm as [vid m]. intros [Hok (fl & Hfl & Hf & Ho)] Ha Hd.
  pose proof (Hfl a) as Hla. rewrite Ha in Hla. inversion Hla as [? l Hl Heq Hfa|]; subst.
  symmetry in Hfa. pose proof Hok as [Hvs Hdist]. destruct (Hvs _ _ _ Ha) as [Hv Hfree].
  assert (∀ a', option_Forall2 (λ vm l, routing_flows vm.1 vm.2 l)
    (delete a rt !! a') (delete a fl !! a')) as Hfl'.
  { intros a'. destruct (decide (a' = a)) as [->|Hn]; [rewrite !lookup_delete_eq; constructor|].
    by rewrite !lookup_delete_ne. }
  pose proof (vlans_ok_delete sid rt a Hok) as Hok'.
  assert (unrouted (λ t e, (t, e) ∈ all_flows (delete a fl) ∨ e ∈ tb_flows (base sid h) sid t) vid) as Hun.
  { eapply others_unrouted; [exact Hok'|exact Hfl'|done|done|].
    intros a' vid' m' [Hn Hl']%lookup_delete_Some ->. by eapply (Hdist a a'). }
  eapply (disable_vlan_spec sid vid m (base sid h) (all_flows (delete a fl)) Hv Hun l) in Hd
    as [-> Hp']; [|done|].
  - destruct (plus_routed (delete a rt) (delete a fl) sid h h' (all_flows (delete a fl)) Hfl' ltac:(done) Hp').
    done.
  - apply (routed_plus rt fl sid h); [done| |done|done]. intros x.
    rewrite <- (insert_delete_id fl a l) at 2 by done.
    symmetry. apply all_flows_insert, lookup_delete_eq.
Qed.

Lemma switch_inv_empty sid : switch_inv sid ∅ h0.
Proof.
  split; [by split|]. exists ∅. split; [intros a; rewrite !lookup_empty; constructor|].
  split; [|done]. intros t x _. rewrite elem_of_all_flows. setoid_rewrite lookup_empty. naive_solver.
Qed.

(** ** The bundles of a VRF *)

Context {H : HMAP} `{!HMAP_LAWS H} {E : ML_ENV} {V : OF_ENV}.

(** The address of a host in a request. *)
Definition host_ip (ipv6 : bool) (ip_addr : string) : option Z :=
  if ipv6 then None
  else let '(bad, ip, len) := ops_fpa_str2ip inet_addr ip_addr 0 in
       if bad || negb (len =? 32) then None else Some ip.

(** The bundle implements the port: its L3 interface counts the hosts, and its own
    address is not that of a host. *)
Definition bundle_matches (sid : Z) (b : fpa_bundle) (v : vrf_port) : Prop :=
  name b = vp_name v ∧ ip4addr b = vp_ip v ∧
  l3_intf b = vlan_l3 sid (Z.of_nat (size (vp_hosts v))) <$> vp_routing v ∧
  (vp_routing v = None → vp_hosts v = ∅) ∧
  (∀ s, vp_ip v = Some s → host_ip false s = None).

(** The hash map and the heap hold one bundle per handle of [σ]. *)
Record bundles_inv (w : world) (σ : vrf_state) : Prop := {
  vi_type : up_type w = "vrf";
  vi_nodup : NoDup (hmap_nodes (bundles w)).*1;
  vi_nodes p k : (p, k) ∈ hmap_nodes (bundles w) ↔
    ∃ b, bundle_store w !! p = Some b ∧ k = hash_pointer (aux b);
  vi_aux p p' b b' : bundle_store w !! p = Some b → bundle_store w !! p' = Some b' →
    aux b = aux b' → p = p';
  vi_ports p b : bundle_store w !! p = Some b →
    ∃ v, σ !! aux b = Some v ∧ bundle_matches (switch_id w) b v;
  vi_known a v : σ !! a = Some v → ∃ p b, bundle_store w !! p = Some b ∧ aux b = a
}.

(** Every handle is found, and only those. *)
Lemma vrf_find w σ a :
  bundles_inv w σ →
  match ops_fpa_find_bundle w a with
  | Some p => ∃ b v, bundle_store w !! p = Some b ∧ aux b = a ∧ σ !! a = Some v ∧
                bundle_matches (switch_id w) b v
  | None => σ !! a = None
  end.
Proof.
  intros I. unfold ops_fpa_find_bundle. destruct (find _ _) as [p|] eqn:Hf.
  - apply find_some in Hf as [_ Hp]. destruct (bundle_store w !! p) as [b|] eqn:Hb; [|done].
    apply Z.eqb_eq in Hp as <-. destruct (vi_ports _ _ I _ _ Hb) as (v & Hv & Hm). by exists b, v.
  - destruct (σ !! a) as [v|] eqn:Ha; [|done]. exfalso.
    destruct (vi_known _ _ I _ _ Ha) as (p & b & Hb & <-).
    apply (find_none _ _) with (x := p) in Hf.
    + rewrite Hb in Hf. by rewrite Z.eqb_refl in Hf.
    + apply list_elem_of_In, list_elem_of_fmap. exists (p, hash_pointer (aux b)). split; [done|].
      apply hmap_bucket_hash, (vi_nodes _ _ I). eauto.
Qed.

(** A known handle has its bundle. *)
Lemma vrf_find_known w σ a v :
  bundles_inv w σ → σ !! a = Some v →
  ∃ p b, ops_fpa_find_bundle w a = Some p ∧ bundle_store w !! p = Some b ∧ aux b = a ∧
    bundle_matches (switch_id w) b v.
Proof.
  intros I Ha. pose proof (vrf_find w σ a I) as Hf.
  destruct (ops_fpa_find_bundle w a) as [p|]; [|congruence].
  destruct Hf as (b & v' & Hb & Haux & Hv & Hm). exists p, b. by replace v with v' by congruence.
Qed.

Lemma vrf_find_some w σ p b :
  bundles_inv w σ → bundle_store w !! p = Some b → ops_fpa_find_bundle w (aux b) = Some p.
Proof.
  intros I Hb. destruct (vi_ports _ _ I _ _ Hb) as (v & Hv & _).
  destruct (vrf_find_known w σ (aux b) v I Hv) as (p' & b' & Hf & Hb' & Haux & _).
  rewrite Hf. f_equal. by eapply (vi_aux _ _ I).
Qed.

(** What the invariant of the bundles is about. *)
Lemma bundles_inv_frame w w' σ :
  bundles_inv w σ → up_type w' = up_type w →
  bundles w' = bundles w → bundle_store w' = bundle_store w → switch_id w' = switch_id w →
  bundles_inv w' σ.
Proof. intros I Hu Hb Hs Hi. split; rewrite ?Hu, ?Hb, ?Hs, ?Hi; apply I. Qed.

Lemma bundles_inv_same_ofproto w w' σ : bundles_inv w σ → same_ofproto w w' → bundles_inv w' σ.
Proof. intros I (Hb & Hs & _ & _ & Hu & Hi & _). by eapply bundles_inv_frame. Qed.

(** Changing a bundle changes its port. *)
Lemma bundles_inv_store w σ p b b' v' :
  bundles_inv w σ → bundle_store w !! p = Some b → aux b' = aux b →
  bundle_matches (switch_id w) b' v' →
  bundles_inv (store_bundle p b' w) (<[aux b := v']> σ).
Proof.
  intros I Hb Haux Hm.
  assert (∀ p' b1, <[p := b']> (bundle_store w) !! p' = Some b1 →
    ∃ b2, bundle_store w !! p' = Some b2 ∧ aux b2 = aux b1) as Hback.
  { intros p' b1 [(<- & <-)|[_ Hl]]%lookup_insert_Some; eauto. }
  split; simpl; try apply I.
  - intros p' k. rewrite (vi_nodes _ _ I). split.
    + intros (b1 & Hb1 & ->). destruct (decide (p' = p)) as [->|Hn].
      * exists b'. rewrite lookup_insert_eq. split; [done|]. congruence.
      * exists b1. by rewrite lookup_insert_ne.
    + intros (b1 & Hb1 & ->). destruct (Hback _ _ Hb1) as (b2 & ? & <-). eauto.
  - intros p1 p2 b1 b2 H1 H2 Heq.
    destruct (Hback _ _ H1) as (c1 & Hc1 & Ha1), (Hback _ _ H2) as (c2 & Hc2 & Ha2).
    eapply (vi_aux _ _ I); [done|done|congruence].
  - intros p' b1 [(<- & <-)|[Hn Hl]]%lookup_insert_Some; [exists v'; by rewrite Haux, lookup_insert_eq|].
    destruct (vi_ports _ _ I _ _ Hl) as (v & Hv & Hvm). exists v.
    rewrite lookup_insert_ne; [done|]. intros Heq. apply Hn. by eapply (vi_aux _ _ I).
  - intros a v [(<- & <-)|[Hn Hl]]%lookup_insert_Some.
    + exists p, b'. by rewrite lookup_insert_eq.
    + destruct (vi_known _ _ I _ _ Hl) as (p1 & b1 & Hb1 & <-). exists p1, b1.
      rewrite lookup_insert_ne; [done|]. congruence.
Qed.

(** A new bundle. *)
Lemma bundles_inv_new w σ b v :
  bundles_inv w σ → σ !! aux b = None → bundle_matches (switch_id w) b v →
  bundles_inv (ops_fpa_create_bundle_record w b).2 (<[aux b := v]> σ).
Proof.
  intros I Hnew Hm. unfold ops_fpa_create_bundle_record. set (p := fresh (dom (bundle_store w))).
  assert (bundle_store w !! p = None) as Hp by apply not_elem_of_dom, is_fresh.
  assert (∀ p' b1, bundle_store w !! p' = Some b1 → aux b1 ≠ aux b) as Hne.
  { intros p' b1 Hb1 Heq. destruct (vi_ports _ _ I _ _ Hb1) as (v1 & Hv1 & _). congruence. }
  split; simpl; try apply I.
  - rewrite hmap_insert_ptrs. constructor; [|apply I].
    intros ([p' k] & -> & Hin)%list_elem_of_fmap. simpl in *.
    apply (vi_nodes _ _ I) in Hin as (b1 & Hb1 & _). congruence.
  - intros p' k. rewrite elem_of_hmap_insert, (vi_nodes _ _ I). split.
    + intros [[= -> ->]|(b1 & Hb1 & ->)].
      * exists b. by rewrite lookup_insert_eq.
      * exists b1. rewrite lookup_insert_ne; [done|congruence].
    + intros (b1 & [(<- & <-)|[_ Hl]]%lookup_insert_Some & ->); eauto.
  - intros p1 p2 b1 b2 [(<- & <-)|[_ H1]]%lookup_insert_Some
      [(<- & <-)|[_ H2]]%lookup_insert_Some Heq; [done| | |by eapply (vi_aux _ _ I)].
    + by destruct (Hne _ _ H2).
    + by destruct (Hne _ _ H1).
  - intros p' b1 [(<- & <-)|[_ Hl]]%lookup_insert_Some; [exists v; by rewrite lookup_insert_eq|].
    destruct (vi_ports _ _ I _ _ Hl) as (v1 & Hv1 & Hm1). exists v1.
    rewrite lookup_insert_ne; [done|]. intros Heq. by eapply Hne.
  - intros a v1 [(<- & <-)|[Hn Hl]]%lookup_insert_Some.
    + exists p, b. by rewrite lookup_insert_eq.
    + destruct (vi_known _ _ I _ _ Hl) as (p1 & b1 & Hb1 & <-). exists p1, b1.
      rewrite lookup_insert_ne; [done|congruence].
Qed.

(** A bundle that is freed. *)
Lemma bundles_inv_free w σ p b :
  bundles_inv w σ → bundle_store w !! p = Some b →
  bundles_inv (upd_bundles (hmap_remove (bundles w) p) (delete p (bundle_store w)) w)
    (delete (aux b) σ).
Proof.
  intros I Hb.
  assert ((p, hash_pointer (aux b)) ∈ hmap_nodes (bundles w)) as Hin by (apply (vi_nodes _ _ I); eauto).
  split; simpl; try apply I.
  - eapply hmap_remove_nodup; [apply I|exact Hin].
  - intros p' k. rewrite (elem_of_hmap_remove _ _ _ _ (vi_nodup _ _ I) Hin). simpl.
    rewrite (vi_nodes _ _ I). split.
    + intros [(b1 & Hb1 & ->) Hn]. exists b1. by rewrite lookup_delete_ne.
    + intros (b1 & [Hn Hl]%lookup_delete_Some & ->). eauto.
  - intros p1 p2 b1 b2 [_ H1]%lookup_delete_Some [_ H2]%lookup_delete_Some. by apply (vi_aux _ _ I).
  - intros p' b1 [Hn Hl]%lookup_delete_Some. destruct (vi_ports _ _ I _ _ Hl) as (v1 & Hv1 & Hm1).
    exists v1. rewrite lookup_delete_ne; [done|]. intros Heq. apply Hn. by eapply (vi_aux _ _ I).
  - intros a v [Hn Hl]%lookup_delete_Some. destruct (vi_known _ _ I _ _ Hl) as (p1 & b1 & Hb1 & <-).
    exists p1, b1. rewrite lookup_delete_ne; [done|]. congruence.
Qed.

(** ** The invariant *)

Context (dev : option fpa_dev).

Definition hosts_of (σ : vrf_state) (a : Z) : gset Z := default ∅ (vp_hosts <$> σ !! a).

Lemma hosts_of_insert σ a v a' :
  hosts_of (<[a := v]> σ) a' = if decide (a' = a) then vp_hosts v else hosts_of σ a'.
Proof.
  unfold hosts_of. case_decide as Ha; [subst; by rewrite lookup_insert_eq|by rewrite lookup_insert_ne].
Qed.
Lemma hosts_of_delete σ a a' :
  hosts_of (delete a σ) a' = if decide (a' = a) then ∅ else hosts_of σ a'.
Proof.
  unfold hosts_of. case_decide as Ha; [subst; by rewrite lookup_delete_eq|by rewrite lookup_delete_ne].
Qed.
Lemma hosts_of_some σ a v : σ !! a = Some v → hosts_of σ a = vp_hosts v.
Proof. intros Ha. unfold hosts_of. by rewrite Ha. Qed.

Section left.
(** The hosts of interfaces that were removed. *)
Context (left : gset Z).

Definition owned (σ : vrf_state) (ip : Z) : Prop := (∃ a, ip ∈ hosts_of σ a) ∨ ip ∈ left.

(** Every host of the table belongs to one interface, or was left by one. *)
Definition owners (hs : gmap Z host_table_entry) (σ : vrf_state) : Prop :=
  (∀ ip, (∃ p e, hs !! p = Some e ∧ ipv4_addr e = ip) ↔ owned σ ip) ∧
  (∀ a a' ip, ip ∈ hosts_of σ a → ip ∈ hosts_of σ a' → a = a') ∧
  (∀ a ip, ip ∈ hosts_of σ a → ip ∉ left).

Lemma owners_ext hs σ σ' : (∀ a, hosts_of σ' a = hosts_of σ a) → owners hs σ → owners hs σ'.
Proof.
  intros He (H1 & H2 & H3). split_and!.
  - intros ip. rewrite H1. unfold owned. by setoid_rewrite He.
  - intros a a' ip. rewrite !He. apply H2.
  - intros a ip. rewrite He. apply H3.
Qed.

Lemma owners_insert hs σ a v : vp_hosts v = hosts_of σ a → owners hs σ → owners hs (<[a := v]> σ).
Proof.
  intros Hv. apply owners_ext. intros a'. rewrite hosts_of_insert. case_decide; [by subst|done].
Qed.

Lemma owners_add hs σ a v p e :
  owners hs σ → hs !! p = None → ¬ owned σ (ipv4_addr e) →
  vp_hosts v = {[ipv4_addr e]} ∪ hosts_of σ a → owners (<[p := e]> hs) (<[a := v]> σ).
Proof.
  intros (H1 & H2 & H3) Hp Hnew Hv.
  assert (∀ a' ip, ip ∈ hosts_of (<[a := v]> σ) a' ↔ (a' = a ∧ ip = ipv4_addr e) ∨ ip ∈ hosts_of σ a') as Hin.
  { intros a' ip. rewrite hosts_of_insert. case_decide as Ha; [subst a'|]; [rewrite Hv|]; set_solver. }
  split_and!.
  - intros ip. unfold owned. setoid_rewrite Hin. split.
    + intros (p' & e' & [(<- & <-)|[_ Hl]]%lookup_insert_Some & Hip); [left; exists a; by left|].
      destruct (proj1 (H1 ip)) as [[a' Ha']|Hleft]; [by exists p', e'| |by right].
      left. exists a'. by right.
    + intros Hown. assert (ip = ipv4_addr e ∨ owned σ ip) as [->|Hip].
      { destruct Hown as [(a' & [[_ ->]|Ha'])|Hleft]; [by left|right; left; eauto|right; by right]. }
      * exists p, e. by rewrite lookup_insert_eq.
      * destruct (proj2 (H1 ip) Hip) as (p' & e' & Hl & He'). exists p', e'.
        rewrite lookup_insert_ne by congruence. done.
  - intros a1 a2 ip. rewrite !Hin. intros [[-> ->]|Ha1] [[-> Heq]|Ha2]; [done| | |by eapply H2].
    + destruct Hnew. left. eauto.
    + subst ip. destruct Hnew. left. eauto.
  - intros a' ip. rewrite Hin. intros [[_ ->]|Ha']; [|by eapply H3].
    intros Hleft. destruct Hnew. by right.
Qed.

Lemma owners_remove hs σ a v p e :
  owners hs σ → hs !! p = Some e →
  (∀ p' e', hs !! p' = Some e' → ipv4_addr e' = ipv4_addr e → p' = p) →
  ipv4_addr e ∈ hosts_of σ a → vp_hosts v = hosts_of σ a ∖ {[ipv4_addr e]} →
  owners (delete p hs) (<[a := v]> σ).
Proof.
  intros (H1 & H2 & H3) Hp Huniq Hmem Hv. pose proof (H3 _ _ Hmem) as Hne3.
  assert (∀ a' ip, ip ∈ hosts_of (<[a := v]> σ) a' ↔ ip ≠ ipv4_addr e ∧ ip ∈ hosts_of σ a') as Hin.
  { intros a' ip. rewrite hosts_of_insert. case_decide as Ha; [subst a'; rewrite Hv; set_solver|].
    split; [|by intros [_ ?]]. intros Hip. split; [|done]. intros ->. by apply Ha, (H2 _ _ (ipv4_addr e)). }
  assert (∀ ip, owned (<[a := v]> σ) ip ↔ ip ≠ ipv4_addr e ∧ owned σ ip) as Hown.
  { intros ip. unfold owned. setoid_rewrite Hin. split.
    - intros [(a' & Hn & Ha')|Hl]; [split; [done|left; eauto]|split; [congruence|by right]].
    - intros [Hn [(a' & Ha')|Hl]]; [left; eauto|by right]. }
  split_and!.
  - intros ip. rewrite Hown, <- H1. split.
    + intros (p' & e' & [Hne Hl]%lookup_delete_Some & Hip). split; [|by exists p', e'].
      intros ->. apply Hne. symmetry. by eapply Huniq.
    + intros (Hne & p' & e' & Hl & Hip). exists p', e'. rewrite lookup_delete_ne by congruence. done.
  - intros a1 a2 ip. rewrite !Hin. intros [_ Ha1] [_ Ha2]. by eapply H2.
  - intros a' ip. rewrite Hin. intros [_ Ha']. by eapply H3.
Qed.

Record vrf_inv (w : world) (σ : vrf_state) : Prop := {
  vr_bundles : bundles_inv w σ;
  vr_owners : owners (hosts w) σ;
  vr_hosts : hosts_inv (switch_id w) w;
  vr_groups : groups_besides (groups h0 (switch_id w)) (switch_id w) w;
  vr_switch : switch_inv (switch_id w) (omap vp_routing σ) (w_hw w)
}.

(** A change of the switch that leaves the hosts alone, with a change of a bundle. *)
Lemma vrf_inv_switch w σ p b b' v' h iv :
  vrf_inv w σ → bundle_store w !! p = Some b → aux b' = aux b →
  bundle_matches (switch_id w) b' v' → vp_hosts v' = hosts_of σ (aux b) →
  same_l3 (switch_id w) (w_hw w) h →
  switch_inv (switch_id w) (omap vp_routing (<[aux b := v']> σ)) h →
  vrf_inv (store_bundle p b' (upd_hw h iv w)) (<[aux b := v']> σ).
Proof.
  intros I Hb Haux Hm Hhosts [Hl3 Hg] Hsw. split; simpl.
  - apply (bundles_inv_store (upd_hw h iv w) σ p b); [|done..]. by eapply bundles_inv_frame; [apply I|..].
  - apply owners_insert; [done|apply I].
  - eapply (hosts_inv_tables _ w); [apply I|done|done|done|apply Hg|exact Hl3].
  - eapply groups_besides_frame; [apply I|apply Hg|done].
  - done.
Qed.

Lemma upd_hw_id w : upd_hw (w_hw w) (internal_vlans w) w = w.
Proof. by destruct w. Qed.

(** A change of a bundle that leaves routing alone. *)
Lemma vrf_inv_store w σ p b v b' v' :
  vrf_inv w σ → bundle_store w !! p = Some b → σ !! aux b = Some v → aux b' = aux b →
  bundle_matches (switch_id w) b' v' → vp_hosts v' = vp_hosts v → vp_routing v' = vp_routing v →
  vrf_inv (store_bundle p b' w) (<[aux b := v']> σ).
Proof.
  intros I Hb Hv Haux Hm Hh Hr. rewrite <- (upd_hw_id w) at 1.
  apply vrf_inv_switch; try done.
  - by rewrite (hosts_of_some σ _ v).
  - replace (omap vp_routing (<[aux b := v']> σ)) with (omap vp_routing σ); [apply I|].
    apply map_eq. intros a. rewrite !lookup_omap. destruct (decide (a = aux b)) as [->|Hn].
    + rewrite lookup_insert_eq, Hv. simpl. by rewrite Hr.
    + by rewrite lookup_insert_ne.
Qed.

(** There are at most as many hosts behind an interface as ARP indices. *)
Lemma vrf_hosts_bound w σ a : vrf_inv w σ → (size (hosts_of σ a) ≤ Z.to_nat ARP_INDICES_SIZE)%nat.
Proof.
  intros I. etrans; [|exact (hosts_bound _ w (vr_hosts _ _ I))].
  change (size (hosts_of σ a)) with (length (elements (hosts_of σ a))).
  rewrite <- length_map_to_list.
  rewrite <- (length_fmap (λ x : Z * host_table_entry, ipv4_addr x.2)).
  apply submseteq_length, NoDup_submseteq; [apply NoDup_elements|].
  intros ip Hip%elem_of_elements. destruct (vr_owners _ _ I) as [Ho _].
  destruct (proj2 (Ho ip) (or_introl (ex_intro _ a Hip))) as (p & e & He & <-).
  apply list_elem_of_fmap. exists (p, e). split; [done|]. by apply elem_of_map_to_list.
Qed.

(** ** The operations *)

Lemma store_bundle_id w p b : bundle_store w !! p = Some b → store_bundle p b w = w.
Proof. intros Hb. destruct w; unfold store_bundle, upd_bundles; simpl in *. by rewrite insert_id. Qed.

Lemma set_ip4addr_id b : set_ip4addr (ip4addr b) b = b.
Proof. by destruct b. Qed.

(** The own address of an interface is not deleted as a host. *)
Lemma delete_no_host w a bp ip_addr :
  host_ip false ip_addr = None → ops_fpa_find_bundle w a = Some bp →
  is_Some (bundle_store w !! bp) → delete_l3_host_entry w a false ip_addr = Done (Err EINVAL, w).
Proof.
  intros Hno Hf [b Hb]. unfold delete_l3_host_entry. rewrite Hf. simpl. rewrite Hb. simpl.
  destruct (l3_intf b) as [l3|]; [|done]. unfold host_ip in Hno.
  destruct (ops_fpa_str2ip _ _ _) as [[bad ip] len]. by destruct (bad || negb (len =? 32)).
Qed.

(** The address of the bundle follows the settings. *)
Lemma vrf_ip_reconfigure w σ p b set :
  bundles_inv w σ → bundle_store w !! p = Some b →
  PORT_PRIMARY_IPv4_CHANGED set = true ∨ PORT_SECONDARY_IPv4_CHANGED set = false →
  bundle_ip_reconfigure dev p set w =
    Done (store_bundle p (set_ip4addr (vrf_address set (ip4addr b)) b) w).
Proof.
  intros I Hb Hset. unfold bundle_ip_reconfigure, vrf_address. cbn [deref]. rewrite Hb. cbn [obind].
  assert (∀ old, ip4addr b = Some old →
    delete_l3_host_entry w (aux b) false old = Done (Err EINVAL, w)) as Hdel.
  { intros old Hold. destruct (vi_ports _ _ I _ _ Hb) as (v & _ & _ & Hip & _ & _ & Hown).
    apply (delete_no_host w _ p); [apply Hown; congruence|by eapply vrf_find_some|eauto]. }
  destruct (PORT_PRIMARY_IPv4_CHANGED set).
  - destruct (ip4_address set) as [new|], (ip4addr b) as [old|] eqn:Hip; cbn [STR_EQ].
    + destruct (String.eqb_spec old new) as [->|].
      * by rewrite <- Hip, set_ip4addr_id, store_bundle_id.
      * rewrite Hdel by done. simpl. by rewrite Hb.
    + done.
    + rewrite Hdel by done. simpl. by rewrite Hb.
    + by rewrite <- Hip, set_ip4addr_id, store_bundle_id.
  - destruct Hset as [?| ->]; [done|]. by rewrite set_ip4addr_id, store_bundle_id.
Qed.

(** The port the settings name. *)
Definition slave_port (w : world) (set : ofproto_bundle_settings) : option fpa_ofport :=
  match slaves set with
  | [slave] => pp ← ofproto_get_port w slave; ofports w !! pp
  | _ => None
  end.

(** The worlds agree on the ports of the VRF and on its switch. *)
Definition same_ports (w w' : world) : Prop :=
  ofproto_get_port w' = ofproto_get_port w ∧ ofports w' = ofports w ∧ switch_id w' = switch_id w ∧
  w_hw w' = w_hw w.

(** What a new bundle changes besides the bundles. *)
Lemma vrf_inv_frame w w' σ :
  vrf_inv w σ → bundles_inv w' σ → switch_id w' = switch_id w → w_hw w' = w_hw w →
  arp_indices w' = arp_indices w → hosts w' = hosts w → host_table w' = host_table w → vrf_inv w' σ.
Proof.
  intros I Ib Hi Hw Ha Hh Ht. split; rewrite ?Hi, ?Hh, ?Hw; try done; try apply I.
  - eapply (hosts_inv_tables _ w); rewrite ?Hw; try done. apply I.
  - eapply groups_besides_frame; [apply I|by rewrite Hw|done].
Qed.

Lemma vrf_create w σ a set slave :
  vrf_inv w σ → σ !! a = None →
  (∀ pp, ofproto_get_port w slave = Some pp → is_Some (ofports w !! pp)) →
  ∃ p b w', bundle_create w a set slave = Done (p, w') ∧ bundle_store w' !! p = Some b ∧
    aux b = a ∧ bundle_matches (switch_id w) b new_vrf_port ∧
    vrf_inv w' (<[a := new_vrf_port]> σ) ∧ same_ports w w'.
Proof.
  intros I Ha Hport. unfold bundle_create.
  assert (∃ intf, (match ofproto_get_port w slave with
    | Some pp => let* p := deref (ofports w) (Some pp) in Done (netdev_ifindex p)
    | None => Done FPA_INVALID_INTF_ID end) = Done intf) as [intf ->].
  { destruct (ofproto_get_port w slave) as [pp|]; [|eauto].
    destruct (Hport pp eq_refl) as [port Hp]. simpl. rewrite Hp. simpl. eauto. }
  simpl. set (b := {| aux := a; name := None; b_intf_id := intf; l3_intf := None; ip4addr := None;
    secondary_ip4addr := hmap_init; secondary_store := ∅ |}).
  assert (bundle_matches (switch_id w) b new_vrf_port) as Hm by done.
  assert (vrf_inv (ops_fpa_create_bundle_record w b).2 (<[a := new_vrf_port]> σ)) as I'.
  { pose proof (bundles_inv_new w σ b new_vrf_port (vr_bundles _ _ I) Ha Hm) as Ib. split; [done|..].
    - apply owners_insert; [|apply I]. unfold hosts_of. by rewrite Ha.
    - eapply (hosts_inv_tables _ w); [apply I|done..].
    - eapply groups_besides_frame; [apply I|done..].
    - simpl. rewrite omap_insert. simpl. rewrite delete_id by by rewrite lookup_omap, Ha. apply I. }
  assert (∀ w1, w1 = (ops_fpa_create_bundle_record w b).2 ∨
      (∃ pp, w1 = upd_ports (hmap_insert (ports_by_pid w) pp intf) (ofports w)
        (ops_fpa_create_bundle_record w b).2) →
    ∃ w', (if String.eqb (up_type w1) "system" then upd_tap (true, s_name set) w1
      else if String.eqb (up_type w1) "vrf" then upd_tap (false, s_name set) w1 else w1) = w' ∧
    bundle_store w' !! fresh (dom (bundle_store w)) = Some b ∧
    vrf_inv w' (<[a := new_vrf_port]> σ) ∧ same_ports w w') as Hfin.
  { intros w1 Hw1. eexists. split; [done|].
    destruct Hw1 as [->|[pp ->]]; simpl; rewrite (vi_type _ _ (vr_bundles _ _ I)); simpl;
      (split; [apply lookup_insert_eq|]); (split; [|done]);
      (eapply (vrf_inv_frame (ops_fpa_create_bundle_record w b).2); [done| |done..]);
      (eapply bundles_inv_frame; [apply I'|done..]). }
  destruct (ofproto_get_port w slave) as [pp|]; [destruct (intf =? FPA_INVALID_INTF_ID)|].
  all: edestruct Hfin as (w' & Heq & Hst & Hin & Hs); [|
    exists (fresh (dom (bundle_store w))), b, w'; split; [by rewrite <- Heq|done]].
  - by left.
  - right. by eexists.
  - by left.
Qed.

(** Whether the switch takes the flows of the VLAN, if they are tried. *)
Definition switch_accepts (w : world) (set : ofproto_bundle_settings) : bool :=
  match slave_port w set with
  | Some port => bool_decide (is_Some
      (ops_fpa_enable_routing_vlan (switch_id w) (s_vlan set) (netdev_mac port) (w_hw w)).1)
  | None => false
  end.

(** The VLAN of an interface to be routed is not routed for another handle. *)
Definition vlan_available (w : world) (σ : vrf_state) (a : Z) (set : ofproto_bundle_settings) : Prop :=
  s_vlan set ≠ 0 → vlan_free (switch_id w) (delete a (omap vp_routing σ)) (s_vlan set).

Definition set_routing (r : option (Z * mac)) (v : vrf_port) : vrf_port :=
  {| vp_name := vp_name v; vp_routing := r; vp_ip := vp_ip v; vp_hosts := vp_hosts v |}.
Definition set_address (ip : option string) (v : vrf_port) : vrf_port :=
  {| vp_name := vp_name v; vp_routing := vp_routing v; vp_ip := ip; vp_hosts := vp_hosts v |}.

(** The last part of [bundle_set]: the address. *)
Lemma vrf_addresses w σ p b v set :
  vrf_inv w σ → bundle_store w !! p = Some b → σ !! aux b = Some v →
  bundle_matches (switch_id w) b v →
  PORT_PRIMARY_IPv4_CHANGED set = true ∨ PORT_SECONDARY_IPv4_CHANGED set = false →
  (∀ s, PORT_PRIMARY_IPv4_CHANGED set = true → ip4_address set = Some s → host_ip false s = None) →
  ∃ w', bundle_ip_reconfigure dev p set w = Done w' ∧
    vrf_inv w' (<[aux b := set_address (vrf_address set (vp_ip v)) v]> σ).
Proof.
  intros I Hb Hv (Hn & Hip & Hl3 & Hnh & Hown) Hset Hnew. eexists.
  split; [eapply vrf_ip_reconfigure; [apply I|done|done]|].
  eapply (vrf_inv_store w σ p b v); try done. rewrite Hip. split_and!; simpl; try done.
  intros s. unfold vrf_address. destruct (PORT_PRIMARY_IPv4_CHANGED set) eqn:Hp; [by apply Hnew|apply Hown].
Qed.

(** Disabling the interface of a routed bundle without hosts. *)
Lemma vrf_disable w σ p b v l3 iv h :
  vrf_inv w σ → bundle_store w !! p = Some b → σ !! aux b = Some v →
  bundle_matches (switch_id w) b v → l3_intf b = Some l3 → vp_hosts v = ∅ →
  ops_fpa_disable_routing l3 (internal_vlans w) (w_hw w) = (iv, h) →
  same_l3 (switch_id w) (w_hw w) h ∧
  switch_inv (switch_id w) (delete (aux b) (omap vp_routing σ)) h ∧
  vrf_inv (store_bundle p (set_l3_intf None b) (upd_hw h iv w)) (<[aux b := set_routing None v]> σ).
Proof.
  intros I Hb Hv (Hn & Hip & Hm & Hnh & Hown) Hl3 Hno Hd.
  rewrite Hl3 in Hm. destruct (vp_routing v) as [vm|] eqn:Hr; [|done]. injection Hm as ->.
  eapply (switch_disable _ _ (aux b)) in Hd as (-> & Hs & S');
    [|apply I|by rewrite lookup_omap, Hv; simpl; rewrite Hr].
  split; [done|]. split; [done|]. apply vrf_inv_switch; try done.
  - by rewrite (hosts_of_some σ _ v).
  - rewrite omap_insert. exact S'.
Qed.

(** Routing a bundle that is not routed. *)
Lemma vrf_enable w σ p b v vid m res h :
  vrf_inv w σ → bundle_store w !! p = Some b → σ !! aux b = Some v →
  bundle_matches (switch_id w) b v → vp_routing v = None →
  vlan_free (switch_id w) (delete (aux b) (omap vp_routing σ)) vid →
  ops_fpa_enable_routing_vlan (switch_id w) vid m (w_hw w) = (res, h) →
  ∃ r, (r = if bool_decide (is_Some res) then Some (vid, m) else None) ∧
    bundle_matches (switch_id w) (set_l3_intf res b) (set_routing r v) ∧
    vrf_inv (store_bundle p (set_l3_intf res b) (upd_hw h (internal_vlans w) w))
      (<[aux b := set_routing r v]> σ).
Proof.
  intros I Hb Hv (Hn & Hip & Hm & Hnh & Hown) Hr Hvf He.
  assert (omap vp_routing σ !! aux b = None) as Hnone by (by rewrite lookup_omap, Hv).
  rewrite delete_id in Hvf by done.
  eapply (switch_enable _ _ (aux b)) in He as [Hs He]; [|apply I|done|done].
  eexists. split; [done|]. specialize (Hnh Hr).
  assert (bundle_matches (switch_id w) (set_l3_intf res b)
    (set_routing (if bool_decide (is_Some res) then Some (vid, m) else None) v)) as Hm'.
  { split_and!; simpl; try done. rewrite Hnh, size_empty. destruct res as [l3|]; [|done].
    by destruct He as [-> _]. }
  split; [done|]. apply vrf_inv_switch; try done.
  - by rewrite (hosts_of_some σ _ v).
  - rewrite omap_insert. destruct res as [l3|]; [apply He|]. simpl. by rewrite delete_id.
Qed.

Lemma vrf_same w σ a v : σ !! a = Some v → vrf_inv w σ → vrf_inv w (<[a := v]> σ).
Proof. intros Hv I. by rewrite insert_id. Qed.

Lemma set_routing_id v : set_routing (vp_routing v) v = v.
Proof. by destruct v. Qed.

(** The two phases of [bundle_set_vrf] that change routing. *)
Lemma vrf_route_phase w σ p b v set port :
  vrf_inv w σ → bundle_store w !! p = Some b → σ !! aux b = Some v →
  bundle_matches (switch_id w) b v → slave_port w set = Some port →
  (enable set = true → vlan_available w σ (aux b) set) →
  ∃ w1 b1, (let w :=
      match l3_intf b with
      | Some l3 =>
          if negb (enable set) && (routes_count l3 =? 0) then
            let '(iv, h) := ops_fpa_disable_routing l3 (internal_vlans w) (w_hw w) in
            store_bundle p (set_l3_intf None b) (upd_hw h iv w)
          else w
      | None => w
      end in
    let* b := deref (bundle_store w) (Some p) in
    Done (if negb (s_vlan set =? 0) && bool_decide (l3_intf b = None) && enable set then
      let '(l3, h) := ops_fpa_enable_routing_vlan (switch_id w) (u16 (s_vlan set))
                        (netdev_mac port) (w_hw w) in
      store_bundle p (set_l3_intf l3 b) (upd_hw h (internal_vlans w) w)
    else w)) = Done w1 ∧
    let v1 := set_routing (vrf_routing set (netdev_mac port) (switch_accepts w set) v) v in
    bundle_store w1 !! p = Some b1 ∧ aux b1 = aux b ∧ switch_id w1 = switch_id w ∧
    bundle_matches (switch_id w) b1 v1 ∧ vrf_inv w1 (<[aux b := v1]> σ).
Proof.
  intros I Hb Hv Hm Hslave Hav. pose proof (vrf_same w σ _ _ Hv I) as Isame.
  unfold vrf_routing, switch_accepts. rewrite Hslave.
  pose proof Hm as (_ & _ & Hl3 & Hnh & _).
  destruct (enable set) eqn:Hen; cbn [negb andb].
  - (* enabled *)
    assert (match l3_intf b with Some _ => w | None => w end = w) as -> by by destruct (l3_intf b).
    rewrite (deref_some _ _ _ Hb). cbn [obind]. rewrite andb_true_r.
    destruct (vp_routing v) as [vm|] eqn:Hr.
    + exists w, b. rewrite Hl3. simpl fmap. rewrite bool_decide_false, andb_false_r by done.
      rewrite <- Hr, set_routing_id. done.
    + assert (l3_intf b = None) as Hnone by by rewrite Hl3. rewrite bool_decide_true by done.
      rewrite andb_true_r. destruct (Z.eqb_spec (s_vlan set) 0) as [H0|H0]; cbn [negb orb].
      * exists w, b. rewrite <- Hr, set_routing_id. done.
      * pose proof (Hav eq_refl H0) as Hvf.
        rewrite (wrap_small 16 (s_vlan set) (proj1 Hvf) : u16 (s_vlan set) = s_vlan set).
        destruct (ops_fpa_enable_routing_vlan _ _ _ _) as [res h] eqn:He.
        destruct (vrf_enable w σ p b v _ _ _ _ I Hb Hv Hm Hr Hvf He) as (r & -> & Hm' & I').
        eexists _, (set_l3_intf res b). split; [done|]. simpl fst.
        split; [apply lookup_insert_eq|]. split; [done|]. split; [done|].
        destruct (bool_decide (is_Some res)); done.
  - (* disabled *)
    destruct (vp_routing v) as [vm|] eqn:Hr.
    + rewrite Hl3. simpl fmap. cbv iota. cbn [routes_count vlan_l3].
      case_decide as Hh.
      * rewrite Hh, size_empty. cbn [Z.of_nat Z.eqb].
        destruct (ops_fpa_disable_routing _ _ _) as [iv h] eqn:Hd.
        destruct (vrf_disable w σ p b v (vlan_l3 (switch_id w) 0 vm) iv h I Hb Hv Hm)
          as (_ & _ & I'); [by rewrite Hl3, Hh, size_empty|done|done|].
        rewrite (deref_some _ p (set_l3_intf None b)) by apply lookup_insert_eq. cbn [obind].
        rewrite andb_false_r. eexists _, (set_l3_intf None b). split; [done|].
        split; [apply lookup_insert_eq|]. split; [done|]. split; [done|]. split; [|done].
        destruct Hm as (H1 & H2 & _ & _ & H5). by split_and!.
      * rewrite (proj2 (Z.eqb_neq _ _)) by (intros Hz; apply Hh, leibniz_equiv, size_empty_inv; lia).
        rewrite (deref_some _ _ _ Hb). cbn [obind]. rewrite andb_false_r.
        exists w, b. rewrite <- Hr, set_routing_id. done.
    + rewrite Hl3. simpl fmap. cbv iota. rewrite (deref_some _ _ _ Hb). cbn [obind]. rewrite andb_false_r.
      exists w, b. rewrite decide_True by by apply Hnh.
      replace (set_routing None v) with v by by rewrite <- Hr, set_routing_id. done.
Qed.

(** An interface on a VLAN: routing, then the address. *)
Lemma vrf_set_internal w σ p b v set slave pp port :
  vrf_inv w σ → bundle_store w !! p = Some b → σ !! aux b = Some v →
  bundle_matches (switch_id w) b v → slaves set = [slave] →
  ofproto_get_port w slave = Some pp → ofports w !! pp = Some port →
  netdev_type port = OVSREC_INTERFACE_TYPE_INTERNAL →
  PORT_PRIMARY_IPv4_CHANGED set = true ∨ PORT_SECONDARY_IPv4_CHANGED set = false →
  (∀ s, PORT_PRIMARY_IPv4_CHANGED set = true → ip4_address set = Some s → host_ip false s = None) →
  (enable set = true → vlan_available w σ (aux b) set) →
  ∃ w', bundle_set_vrf dev w p slave set = Done (Ret0, w') ∧
    vrf_inv w' (<[aux b := set_address (vrf_address set (vp_ip v))
      (set_routing (vrf_routing set (netdev_mac port) (switch_accepts w set) v) v)]> σ).
Proof.
  intros I Hb Hv Hm Hsl Hpp Hport Hty Hset Hnew Hav.
  destruct (vrf_route_phase w σ p b v set port I Hb Hv Hm) as
    (w1 & b1 & Hrun & Hb1 & Haux & Hsw & Hm1 & I1); [|done|].
  { unfold slave_port. rewrite Hsl, Hpp. exact Hport. }
  rewrite <- Hsw in Hm1. rewrite <- Haux in I1.
  destruct (vrf_addresses w1 _ p b1 _ set I1 Hb1 (lookup_insert_eq _ _ _) Hm1 Hset Hnew) as (w' & Hrun' & I').
  exists w'. split.
  - unfold bundle_set_vrf, ops_fpa_ofport. rewrite Hpp, (deref_some _ _ _ Hport). cbn [obind].
    rewrite Hty.
    change (String.eqb OVSREC_INTERFACE_TYPE_INTERNAL OVSREC_INTERFACE_TYPE_SYSTEM) with false.
    change (String.eqb OVSREC_INTERFACE_TYPE_INTERNAL OVSREC_INTERFACE_TYPE_INTERNAL) with true.
    change (String.eqb OVSREC_INTERFACE_TYPE_INTERNAL OVSREC_INTERFACE_TYPE_VLANSUBINT) with false.
    cbv iota. rewrite (deref_some _ _ _ Hb). cbn [obind].
    apply obind_done in Hrun as (b2 & Hb2 & Hrun). injection Hrun as Hrun.
    cbv zeta in Hb2 |- *. rewrite Hb2. cbn [obind].
    destruct (negb (s_vlan set =? 0) && bool_decide (l3_intf b2 = None) && enable set).
    + destruct (ops_fpa_enable_routing_vlan _ _ _ _) as [l3 h]. rewrite Hrun, Hrun'. done.
    + rewrite Hrun, Hrun'. done.
  - rewrite insert_insert_eq, Haux in I'. exact I'.
Qed.

(** The settings [set] for handle [a]: no physical port, a VLAN that is not routed
    for another handle, an address that is not that of a host, and no change of the
    secondary addresses alone. *)
Definition vrf_settings_ok (w : world) (σ : vrf_state) (a : Z) (set : ofproto_bundle_settings) : Prop :=
  (PORT_PRIMARY_IPv4_CHANGED set = true ∨ PORT_SECONDARY_IPv4_CHANGED set = false) ∧
  (∀ s, PORT_PRIMARY_IPv4_CHANGED set = true → ip4_address set = Some s → host_ip false s = None) ∧
  ∀ slave pp, slaves set = [slave] → ofproto_get_port w slave = Some pp →
    ∃ port, ofports w !! pp = Some port ∧ netdev_type port ≠ OVSREC_INTERFACE_TYPE_SYSTEM ∧
      (σ !! a = None → pp ∉ (hmap_nodes (ports_by_pid w)).*1) ∧
      (netdev_type port = OVSREC_INTERFACE_TYPE_INTERNAL → enable set = true →
       vlan_available w σ a set).

Lemma vrf_set_spec w σ p b v0 set slave :
  vrf_inv w σ → bundle_store w !! p = Some b → σ !! aux b = Some v0 →
  bundle_matches (switch_id w) b v0 → name b = Some (s_name set) → slaves set = [slave] →
  vrf_settings_ok w σ (aux b) set →
  ∃ r v w', vrf_set set (slave_port w set) (switch_accepts w set) v0 = (r, v) ∧
    bundle_set_vrf dev w p slave set = Done (r, w') ∧ vrf_inv w' (<[aux b := v]> σ).
Proof.
  intros I Hb Hv Hm Hname Hsl (Hset & Hnew & Hports).
  pose proof (vrf_same w σ _ _ Hv I) as Isame.
  assert (vp_name v0 = Some (s_name set)) as Hn by (destruct Hm as [<- _]; done).
  assert ({| vp_name := Some (s_name set); vp_routing := vp_routing v0; vp_ip := vp_ip v0;
    vp_hosts := vp_hosts v0 |} = v0) as Hid by (rewrite <- Hn; by destruct v0).
  unfold vrf_set. rewrite Hid.
  destruct (ofproto_get_port w slave) as [pp|] eqn:Hpp.
  2:{ exists Ret0, v0, w. unfold slave_port, bundle_set_vrf, ops_fpa_ofport. rewrite Hsl, Hpp. done. }
  destruct (Hports slave pp Hsl Hpp) as (port & Hport & Hsys & _ & Hav).
  assert (slave_port w set = Some port) as Hsp by (unfold slave_port; by rewrite Hsl, Hpp).
  destruct (String.eqb_spec (netdev_type port) OVSREC_INTERFACE_TYPE_INTERNAL) as [Hty|Hty].
  - destruct (vrf_set_internal w σ p b v0 set slave pp port I Hb Hv Hm Hsl Hpp Hport Hty Hset Hnew)
      as (w' & Hrun & I'); [by apply Hav|].
    rewrite Hsp, Hty, String.eqb_refl. do 3 eexists. split; [done|]. split; [exact Hrun|].
    unfold set_address, set_routing in I'. simpl in I'. rewrite Hn in I'. exact I'.
  - rewrite Hsp. rewrite (proj2 (String.eqb_neq _ _) Hty).
    unfold bundle_set_vrf, ops_fpa_ofport. rewrite Hpp, (deref_some _ _ _ Hport). cbn [obind].
    rewrite (proj2 (String.eqb_neq _ _) Hsys), (proj2 (String.eqb_neq _ _) Hty).
    destruct (String.eqb (netdev_type port) OVSREC_INTERFACE_TYPE_LOOPBACK); by do 3 eexists.
Qed.

(** The bundle that [bundle_set] works on, found or made, and then named. *)
Lemma vrf_get_bundle w σ a set slave :
  vrf_inv w σ → slaves set = [slave] → vrf_settings_ok w σ a set →
  ∃ p b w1, match ops_fpa_find_bundle w a with
      | Some bp => Done (bp, w) | None => bundle_create w a set slave end = Done (p, w1) ∧
    bundle_store w1 !! p = Some b ∧ aux b = a ∧
    bundle_matches (switch_id w1) b (default new_vrf_port (σ !! a)) ∧
    vrf_inv w1 (<[a := default new_vrf_port (σ !! a)]> σ) ∧ same_ports w w1.
Proof.
  intros I Hsl (_ & _ & Hports). pose proof (vrf_find w σ a (vr_bundles _ _ I)) as Hf.
  destruct (ops_fpa_find_bundle w a) as [p|].
  - destruct Hf as (b & v & Hb & <- & Hv & Hm). exists p, b, w. rewrite Hv. split_and!; try done.
    by apply vrf_same.
  - destruct (vrf_create w σ a set slave I Hf) as (p & b & w1 & Hrun & Hb & Haux & Hm & I1 & Hs).
    { intros pp Hpp. destruct (Hports slave pp Hsl Hpp) as (port & ? & _). eauto. }
    exists p, b, w1. rewrite Hf. by split_and!.
Qed.

Lemma slave_port_same w w' set : same_ports w w' → slave_port w' set = slave_port w set.
Proof. intros (Hg & Hp & _). unfold slave_port. by rewrite Hg, Hp. Qed.

Lemma switch_accepts_same w w' set : same_ports w w' → switch_accepts w' set = switch_accepts w set.
Proof.
  intros Hs. unfold switch_accepts. rewrite (slave_port_same w w' set Hs).
  by destruct Hs as (_ & _ & -> & ->).
Qed.

(** The settings stay acceptable once the bundle exists. *)
Lemma vrf_settings_ok_same w w' σ v a set :
  vrf_settings_ok w σ a set → same_ports w w' → vrf_settings_ok w' (<[a := v]> σ) a set.
Proof.
  intros (Hset & Hnew & Hports) (Hg & Hp & Hi & _). split; [done|]. split; [done|].
  rewrite Hg, Hp. intros slave pp Hsl Hpp.
  destruct (Hports slave pp Hsl Hpp) as (port & Hport & Hsys & _ & Hav).
  exists port. split_and!; [done|done|by rewrite lookup_insert_eq|].
  intros Hty Hen. unfold vlan_available. rewrite Hi.
  replace (delete a (omap vp_routing (<[a := v]> σ))) with (delete a (omap vp_routing σ)); [by apply Hav|].
  by rewrite <- !omap_delete, delete_insert_eq.
Qed.

(** ** Hosts *)

(** Programming or removing a host, with the change of its bundle. *)
Lemma vrf_inv_l3 w w' σ p b v b' v' :
  vrf_inv w σ → bundle_store w !! p = Some b → σ !! aux b = Some v → aux b' = aux b →
  bundle_matches (switch_id w) b' v' → vp_routing v' = vp_routing v →
  same_ofproto w w' → l3_only (switch_id w) (w_hw w) (w_hw w') → hosts_inv (switch_id w) w' →
  groups_besides (groups h0 (switch_id w)) (switch_id w) w' →
  owners (hosts w') (<[aux b := v']> σ) →
  vrf_inv (store_bundle p b' w') (<[aux b := v']> σ).
Proof.
  intros I Hb Hv Haux Hm Hr Hso Hl3 Hh Hg Ho.
  pose proof (bundles_inv_same_ofproto w w' σ (vr_bundles _ _ I) Hso) as Ib.
  destruct Hso as (_ & Hs & _ & _ & _ & Hi & _). rewrite <- Hi in Hm. split; simpl; rewrite ?Hi.
  - apply bundles_inv_store; [done|by rewrite Hs|done|done].
  - done.
  - by eapply (hosts_inv_tables _ w').
  - by eapply groups_besides_frame.
  - replace (omap vp_routing (<[aux b := v']> σ)) with (omap vp_routing σ).
    + destruct (vr_switch _ _ I). split; [done|]. by eapply routed_l3_only.
    + apply map_eq. intros a. rewrite !lookup_omap. destruct (decide (a = aux b)) as [->|Hn].
      * rewrite lookup_insert_eq, Hv. simpl. by rewrite Hr.
      * by rewrite lookup_insert_ne.
Qed.

(** The port registered under the number of the bundle of [a]. *)
Definition interface_port (w : world) (a : Z) : option Z :=
  p ← ops_fpa_find_bundle w a; b ← bundle_store w !! p; ops_fpa_get_ofport_by_pid w (b_intf_id b).

(** Where a routed interface [v] sends packets to the MAC address [m]: the lookup of
    an address that has not been learned crashes. *)
Definition vrf_egress (w : world) (v : vrf_port) (vm : Z * mac) (m : mac) : outcome Z :=
  host_egress dev w (vlan_l3 (switch_id w) (Z.of_nat (size (vp_hosts v))) vm) m.

(** What a request to add a host relies on: a new address, a registered port that
    exists, a VLAN and a way to the next hop, if there is one, that fit into a group. *)
Definition vrf_host_ok (w : world) (σ : vrf_state) (a : Z) (ipv6 : bool) (ip_addr : string)
    (next_hop : option string) : Prop :=
  (∀ ip, host_ip ipv6 ip_addr = Some ip → 0 ≤ ip < 2 ^ 32 ∧ ¬ owned σ ip) ∧
  (∀ pp, interface_port w a = Some pp → is_Some (ofports w !! pp)) ∧
  ∀ v vm, σ !! a = Some v → vp_routing v = Some vm → vid_ok vm.1 ∧
    ∀ m egress, next_hop ≫= eth_addr_from_string = Some m → vrf_egress w v vm m = Done egress →
      pid_ok egress.

(** A handle without a bundle, a bundle whose port is not registered and a next hop
    that has not been learned crash. *)
Definition vrf_add_host (w : world) (σ : vrf_state) (a : Z) (ipv6 : bool) (ip_addr : string)
    (next_hop : option string) (ok : bool) : outcome (retval * vrf_state) :=
  match ipv6, next_hop with
  | false, Some nh =>
      match σ !! a with
      | None => Crash NullDeref
      | Some v =>
          match vp_routing v, interface_port w a, eth_addr_from_string nh with
          | None, _, _ => Done (Err EINVAL, σ)
          | Some _, None, _ => Crash NullDeref
          | Some _, Some _, None => Done (Err EINVAL, σ)
          | Some vm, Some _, Some m =>
              let* _ := vrf_egress w v vm m in
              match host_ip false ip_addr with
              | Some ip => Done (if ok then (Ret0, <[a := add_host ip v]> σ) else (Err EINVAL, σ))
              | None => Done (Err EINVAL, σ)
              end
          end
      end
  | _, _ => Done (Err EINVAL, σ)
  end.

Lemma vrf_egress_ends w v vm m : vrf_egress w v vm m ≠ OutOfFuel.
Proof.
  unfold vrf_egress, host_egress, ops_fpa_dev_by_id. repeat (case_match; try done).
  all: unfold obind, deref; repeat (case_match; try done).
Qed.

Lemma vrf_not_found w σ ip : vrf_inv w σ → ¬ owned σ ip → host_table_find w ip = None.
Proof.
  intros I Hno. pose proof (hosts_find _ w ip (vr_hosts _ _ I)) as Hf.
  destruct (host_table_find w ip) as [p|]; [|done]. exfalso. destruct Hf as (e & He & Hip).
  apply Hno, (proj1 (vr_owners _ _ I) ip). by exists p, e.
Qed.

(** The host is programmed, and counted by its interface. *)
Lemma vrf_host_programmed w σ p b v vm egress mtu src dst ip :
  vrf_inv w σ → bundle_store w !! p = Some b → σ !! aux b = Some v →
  bundle_matches (switch_id w) b v → vp_routing v = Some vm → vid_ok vm.1 → pid_ok egress →
  0 ≤ ip < 2 ^ 32 → ¬ owned σ ip →
  ∃ r w', host_program w (switch_id w) vm.1 egress mtu src dst ip 32 = Done (r, w') ∧
    match r with
    | Ret0 => vrf_inv (store_bundle p (set_l3_intf
        (Some (vlan_l3 (switch_id w) (u64 (Z.of_nat (size (vp_hosts v)) + 1)) vm)) b) w')
        (<[aux b := add_host ip v]> σ)
    | Err e => e = EINVAL ∧ vrf_inv w' σ
    end.
Proof.
  intros I Hb Hv Hm Hr Hvid Hpid Hip Hnew.
  destruct (host_program_effect (groups h0 (switch_id w)) w (switch_id w) vm.1 egress mtu src dst ip)
    as (r & w' & Hrun & Hh & Hg & Hso & Hl & Hres);
    [done..|apply I|apply I|by eapply vrf_not_found|].
  exists r, w'. split; [done|]. destruct r as [|e].
  - destruct Hres as (q & e & Hq & Hhs & He). subst ip.
    assert (ipv4_addr e ∉ vp_hosts v) as Hne
      by (rewrite <- (hosts_of_some _ _ _ Hv); intros ?; apply Hnew; left; eauto).
    eapply (vrf_inv_l3 w w' σ p b v); try done.
    + destruct Hm as (H1 & H2 & H3 & H4 & H5). split_and!; simpl; try done; [|congruence].
      rewrite Hr. simpl. do 2 f_equal. rewrite size_union, size_singleton by set_solver.
      pose proof (vrf_hosts_bound w σ (aux b) I) as Hbound. rewrite (hosts_of_some _ _ _ Hv) in Hbound.
      unfold ARP_INDICES_SIZE in Hbound. unfold u64. rewrite wrap_small; lia.
    + rewrite Hhs. apply owners_add; [apply I|done|done|]. by rewrite (hosts_of_some _ _ _ Hv).
  - destruct Hres as [-> Hhs]. split; [done|].
    replace w' with (store_bundle p b w') by
      (apply store_bundle_id; by destruct Hso as (_ & -> & _)).
    rewrite <- (insert_id σ (aux b) v) by done. eapply (vrf_inv_l3 w w' σ p b v); try done.
    rewrite Hhs, insert_id by done. apply I.
Qed.

Lemma vrf_add_request w σ a ipv6 ip_addr next_hop egress :
  vrf_inv w σ → vrf_host_ok w σ a ipv6 ip_addr next_hop →
  ∃ ok, match vrf_add_host w σ a ipv6 ip_addr next_hop ok with
    | Done (r, σ') => ∃ egress' w',
        add_l3_host_entry dev w a ipv6 ip_addr next_hop egress = Done (r, egress', w') ∧ vrf_inv w' σ'
    | Crash c => add_l3_host_entry dev w a ipv6 ip_addr next_hop egress = Crash c
    | OutOfFuel => False
    end.
Proof.
  intros I (Hnew & Hports & Hpath). unfold vrf_add_host, add_l3_host_entry, host_ip in *.
  destruct ipv6; [by exists false; do 2 eexists|].
  destruct next_hop as [nh|]; [|by exists false; do 2 eexists].
  pose proof (vrf_find w σ a (vr_bundles _ _ I)) as Hf. unfold interface_port in *.
  destruct (ops_fpa_find_bundle w a) as [p|] eqn:Hfind; [|by exists false; rewrite Hf].
  destruct Hf as (b & v & Hb & <- & Hv & Hm). rewrite Hv. cbn [deref mbind option_bind] in *. rewrite Hb in *.
  cbn [obind mbind option_bind] in *.
  pose proof Hm as (_ & _ & Hl3 & _ & _). destruct (vp_routing v) as [vm|] eqn:Hr.
  2:{ rewrite Hl3. exists false. by do 2 eexists. }
  destruct (Hpath _ _ Hv Hr) as [Hvid Heg]. rewrite Hl3. simpl fmap. cbv iota.
  destruct (ops_fpa_get_ofport_by_pid w (b_intf_id b)) as [pp|]; [|by exists false].
  destruct (Hports pp eq_refl) as [port Hport]. rewrite (deref_some _ _ _ Hport). cbn [obind].
  destruct (eth_addr_from_string nh) as [m|]; [|exists false; by do 2 eexists].
  specialize (Heg m). pose proof (vrf_egress_ends w v vm m) as Hends. fold (vrf_egress w v vm m).
  destruct (vrf_egress w v vm m) as [eg|c|]; [|by exists false|done]. cbn [obind].
  specialize (Heg eg eq_refl eq_refl).
  destruct (ops_fpa_str2ip inet_addr ip_addr 0) as [[bad ip] len].
  destruct (bad || negb (len =? 32)) eqn:Hbad; [exists false; by do 2 eexists|].
  apply orb_false_iff in Hbad as [_ ->%negb_false_iff%Z.eqb_eq].
  destruct (Hnew ip eq_refl) as [Hip Hno].
  destruct (vrf_host_programmed w σ p b v vm eg (mtu port) (netdev_mac port) m ip)
    as (r & w' & Hrun & Hres); [done..|].
  cbn [vlan_l3 switchId vlan_id]. rewrite Hrun. cbn [obind]. destruct r as [|e].
  - exists true. by do 2 eexists.
  - destruct Hres as [-> I']. exists false. by do 2 eexists.
Qed.

(** *** Deleting *)

Definition vrf_del_host (σ : vrf_state) (a : Z) (ipv6 : bool) (ip_addr : string) :
    outcome (retval * vrf_state) :=
  if ipv6 then Done (Err EINVAL, σ) else
  match σ !! a, host_ip false ip_addr with
  | None, _ => Crash NullDeref
  | Some v, Some ip =>
      Done (if decide (ip ∈ vp_hosts v) then (Ret0, <[a := del_host ip v]> σ) else (Err EINVAL, σ))
  | Some _, None => Done (Err EINVAL, σ)
  end.

(** A host at the address is one of the interface's own. *)
Definition vrf_del_host_ok (σ : vrf_state) (a : Z) (ipv6 : bool) (ip_addr : string) : Prop :=
  ∀ ip, host_ip ipv6 ip_addr = Some ip → owned σ ip → ip ∈ hosts_of σ a.

(** The host is removed, and no longer counted by its interface. *)
Lemma vrf_host_unprogrammed w σ p b v vm q e :
  vrf_inv w σ → bundle_store w !! p = Some b → σ !! aux b = Some v →
  bundle_matches (switch_id w) b v → vp_routing v = Some vm → hosts w !! q = Some e →
  ipv4_addr e ∈ vp_hosts v →
  let count := Z.of_nat (size (vp_hosts v ∖ {[ipv4_addr e]})) in
  ∃ w', host_unprogram w (switch_id w) (ipv4_addr e) 32 q = Done w' ∧
    switch_id w' = switch_id w ∧ u64 (Z.of_nat (size (vp_hosts v)) - 1) = count ∧
    let b' := set_l3_intf (Some (vlan_l3 (switch_id w) count vm)) b in
    let v' := {| vp_name := vp_name v; vp_routing := vp_routing v; vp_ip := vp_ip v;
                 vp_hosts := vp_hosts v ∖ {[ipv4_addr e]} |} in
    bundle_matches (switch_id w) b' v' ∧ vrf_inv (store_bundle p b' w') (<[aux b := v']> σ).
Proof.
  intros I Hb Hv Hm Hr Hq Hin count.
  destruct (host_unprogram_effect (groups h0 (switch_id w)) w (switch_id w) q e)
    as (w' & Hrun & Hh & Hg & Hso & Hl & Hhs); [apply I|apply I|done|].
  exists w'. split; [done|]. split; [by destruct Hso as (_ & _ & _ & _ & _ & ? & _)|].
  assert (size (vp_hosts v) = S (size (vp_hosts v ∖ {[ipv4_addr e]}))) as Hsize.
  { rewrite (union_difference_L {[ipv4_addr e]} (vp_hosts v)) at 1 by set_solver.
    rewrite size_union, size_singleton by set_solver. lia. }
  pose proof (vrf_hosts_bound w σ (aux b) I) as Hbound. rewrite (hosts_of_some _ _ _ Hv) in Hbound.
  unfold ARP_INDICES_SIZE in Hbound. split.
  { unfold count, u64. rewrite Hsize, wrap_small; lia. }
  intros b' v'. assert (bundle_matches (switch_id w) b' v') as Hm'.
  { destruct Hm as (H1 & H2 & H3 & H4 & H5). split_and!; simpl; try done; [by rewrite Hr|congruence]. }
  split; [done|]. eapply (vrf_inv_l3 w w' σ p b v); try done.
  rewrite Hhs. eapply owners_remove; [apply I|done| | |].
  - intros q' e' Hq' Heq. destruct (decide (q' = q)) as [|Hne]; [done|].
    by destruct (hi_apart _ _ (vr_hosts _ _ I) q' q e' e Hq' Hq Hne).
  - by rewrite (hosts_of_some _ _ _ Hv).
  - by rewrite (hosts_of_some _ _ _ Hv).
Qed.

(** The table finds the hosts of the interfaces. *)
Lemma vrf_host_found w σ a v ip :
  vrf_inv w σ → σ !! a = Some v → (owned σ ip → ip ∈ hosts_of σ a) →
  match host_table_find w ip with
  | Some q => ∃ e, hosts w !! q = Some e ∧ ipv4_addr e = ip ∧ ip ∈ vp_hosts v
  | None => ip ∉ vp_hosts v
  end.
Proof.
  intros I Hv Hown. pose proof (hosts_find _ w ip (vr_hosts _ _ I)) as Hf.
  destruct (vr_owners _ _ I) as [H1 _]. rewrite (hosts_of_some _ _ _ Hv) in Hown.
  destruct (host_table_find w ip) as [q|].
  - destruct Hf as (e & He & Hip). exists e. split; [done|]. split; [done|].
    apply Hown, H1. by exists q, e.
  - intros Hin. destruct (proj2 (H1 ip)) as (q & e & He & Hip); [|by apply (Hf q e)].
    left. exists a. by rewrite (hosts_of_some _ _ _ Hv).
Qed.

Lemma store_bundle_hw p b b' h iv w :
  store_bundle p b' (upd_hw h iv (store_bundle p b w)) = store_bundle p b' (upd_hw h iv w).
Proof. destruct w; unfold store_bundle, upd_bundles, upd_hw; simpl. by rewrite insert_insert_eq. Qed.

Lemma vrf_delete_request w σ a ipv6 ip_addr :
  vrf_inv w σ → vrf_del_host_ok σ a ipv6 ip_addr →
  match vrf_del_host σ a ipv6 ip_addr with
  | Done (r, σ') => ∃ w', delete_l3_host_entry w a ipv6 ip_addr = Done (r, w') ∧ vrf_inv w' σ'
  | Crash c => delete_l3_host_entry w a ipv6 ip_addr = Crash c
  | OutOfFuel => False
  end.
Proof.
  intros I Hown. unfold vrf_del_host, vrf_del_host_ok, delete_l3_host_entry, host_ip in *.
  destruct ipv6; [by eexists|].
  pose proof (vrf_find w σ a (vr_bundles _ _ I)) as Hf.
  destruct (ops_fpa_find_bundle w a) as [p|] eqn:Hfind; [|by rewrite Hf].
  destruct Hf as (b & v & Hb & <- & Hv & Hm). rewrite Hv, (deref_some _ _ _ Hb). cbn [obind].
  pose proof Hm as (_ & _ & Hl3 & Hnh & _). destruct (vp_routing v) as [vm|] eqn:Hr.
  2:{ rewrite Hl3, Hnh by done. simpl fmap. cbv iota. destruct (ops_fpa_str2ip _ _ _) as [[bad ip] len].
      destruct (bad || negb (len =? 32)); [by eexists|].
      rewrite decide_False by set_solver. by eexists. }
  rewrite Hl3. simpl fmap. cbv iota zeta.
  destruct (ops_fpa_str2ip inet_addr ip_addr 0) as [[bad ip] len].
  destruct (bad || negb (len =? 32)) eqn:Hbad; [by eexists|].
  apply orb_false_iff in Hbad as [_ ->%negb_false_iff%Z.eqb_eq].
  pose proof (vrf_host_found w σ (aux b) v ip I Hv (Hown ip eq_refl)) as Hfound.
  destruct (host_table_find w ip) as [q|]; [|rewrite decide_False by done; by eexists].
  destruct Hfound as (e & He & <- & Hin). rewrite decide_True by done.
  destruct (vrf_host_unprogrammed w σ p b v vm q e I Hb Hv Hm Hr He Hin)
    as (w' & Hrun & Hsw & Hcount & Hm' & I').
  cbn [vlan_l3 switchId intf_id vlan_id l3_mac vlan_intf routes_count]. rewrite Hrun. cbn [obind].
  rewrite Hcount. unfold del_host.
  set (hs := vp_hosts v ∖ {[ipv4_addr e]}) in *. case_decide as Hhs.
  - rewrite Hhs, size_empty in I', Hm' |- *. cbn [Z.of_nat Z.eqb default id].
    set (b' := set_l3_intf (Some (vlan_l3 (switch_id w) 0 vm)) b) in *.
    destruct (ops_fpa_disable_routing _ _ _) as [iv h] eqn:Hd. eexists. split; [done|].
    set (v' := {| vp_name := vp_name v; vp_routing := vp_routing v; vp_ip := vp_ip v; vp_hosts := ∅ |}) in *.
    destruct (vrf_disable (store_bundle p b' w') (<[aux b := v']> σ) p b' v'
      (vlan_l3 (switch_id w) 0 vm) iv h I') as (_ & _ & I2);
      [apply lookup_insert_eq|apply lookup_insert_eq|by cbn [store_bundle upd_bundles switch_id]; rewrite Hsw|done|done|done|].
    rewrite store_bundle_hw in I2. simpl in I2. rewrite insert_insert_eq in I2. exact I2.
  - rewrite (proj2 (Z.eqb_neq _ _)) by (intros Hz; apply Hhs, leibniz_equiv, size_empty_inv; lia).
    by eexists.
Qed.

(** ** Routes *)

Definition vrf_route (w : world) (action : ofproto_route_action) (route : ofproto_route) (ok : bool) :
    retval :=
  if negb (family_ipv4 route) || (ops_fpa_str2ip inet_addr (prefix route) 0).1.1 then Err EINVAL
  else match route_target w action route with
  | None => Err EINVAL
  | Some None => Ret0
  | Some (Some _) => if ok then Ret0 else Err EINVAL
  end.

(** The route is not that of a host. *)
Definition vrf_route_ok (σ : vrf_state) (route : ofproto_route) : Prop :=
  ∀ ip len, ops_fpa_str2ip inet_addr (prefix route) 0 = (false, ip, len) →
    prefix_ok ip len ∧ (owned σ ip → len ≠ 32).

Lemma vrf_route_replaced w σ ip len tgt h :
  vrf_inv w σ → route_replaced (switch_id w) ip len tgt (w_hw w) h →
  (owned σ ip → len ≠ 32) → vrf_inv (upd_hw h (internal_vlans w) w) σ.
Proof.
  intros I Hrep Hother. split; simpl.
  - by eapply bundles_inv_frame; [apply I|..].
  - apply I.
  - eapply route_replaced_inv; [apply I|done|]. intros p e He.
    destruct (decide (ip = ipv4_addr e)) as [->|]; [right|by left].
    apply Hother, (proj1 (vr_owners _ _ I)). by exists p, e.
  - eapply groups_besides_frame; [apply I|apply Hrep|done].
  - destruct (vr_switch _ _ I). split; [done|]. eapply routed_l3_only; [done|].
    apply l3_only_table, Hrep.
Qed.

Lemma vrf_route_request w σ action route :
  vrf_inv w σ → vrf_route_ok σ route →
  ∃ ok w', l3_route_action w action route = Done (vrf_route w action route ok, w') ∧ vrf_inv w' σ.
Proof.
  intros I Hok. unfold vrf_route. destruct (family_ipv4 route) eqn:Hfam.
  2:{ exists false, w. unfold l3_route_action. by rewrite Hfam. }
  destruct (ops_fpa_str2ip inet_addr (prefix route) 0) as [[[] ip] len] eqn:Hip.
  { exists false, w. unfold l3_route_action. by rewrite Hfam, Hip. }
  destruct (Hok ip len Hip) as [Hpre Hother]. cbn [negb orb fst].
  pose proof (l3_route_action_spec w action route ip len Hfam Hip Hpre (hi_routes _ _ (vr_hosts _ _ I))) as Hspec.
  destruct (route_target w action route) as [tgt|]; [|by exists false, w].
  destruct Hspec as (r & h & Hrun & Hres). rewrite Hrun.
  destruct Hres as [[-> Hrep]|(-> & Htgt & Hrep)].
  - exists true. eexists. split; [by destruct tgt|by eapply vrf_route_replaced].
  - exists false. eexists. split; [by destruct tgt|by eapply vrf_route_replaced].
Qed.

(** ** Requests *)

Definition vrf_request_ok (w : world) (σ : vrf_state) (q : vrf_request) : Prop :=
  match q with
  | VrfSet a set => vrf_settings_ok w σ a set
  | VrfRemove a => True
  | VrfAddHost a ipv6 ip_addr next_hop _ => vrf_host_ok w σ a ipv6 ip_addr next_hop
  | VrfDelHost a ipv6 ip_addr => vrf_del_host_ok σ a ipv6 ip_addr
  | VrfRoute _ route => vrf_route_ok σ route
  end.

Definition vrf_call (fuel : nat) (w : world) (q : vrf_request) : outcome (retval * world) :=
  match q with
  | VrfSet a set => ops_fpa_ofproto_bundle_set dev fuel w a (Some set)
  | VrfRemove a => ops_fpa_ofproto_bundle_set dev fuel w a None
  | VrfAddHost a ipv6 ip_addr next_hop egress =>
      let* (r, _, w) := add_l3_host_entry dev w a ipv6 ip_addr next_hop egress in Done (r, w)
  | VrfDelHost a ipv6 ip_addr => delete_l3_host_entry w a ipv6 ip_addr
  | VrfRoute action route => l3_route_action w action route
  end.

(** The abstract VRF after the request, given its ports and the answer [ok] of the
    switch to the host or route it is asked for; a request may crash. *)
Definition vrf_spec (w : world) (σ : vrf_state) (q : vrf_request) (ok : bool) :
    outcome (retval * vrf_state) :=
  match q with
  | VrfSet a set =>
      match slaves set with
      | [_] =>
          let '(r, v) := vrf_set set (slave_port w set) (switch_accepts w set)
                           (default new_vrf_port (σ !! a)) in
          Done (r, <[a := v]> σ)
      | _ => Done (Err EINVAL, σ)
      end
  | VrfRemove a =>
      Done (match σ !! a with None => Err EFAULT | Some _ => Ret0 end, delete a σ)
  | VrfAddHost a ipv6 ip_addr next_hop _ => vrf_add_host w σ a ipv6 ip_addr next_hop ok
  | VrfDelHost a ipv6 ip_addr => vrf_del_host σ a ipv6 ip_addr
  | VrfRoute action route => Done (vrf_route w action route ok, σ)
  end.

(** The hosts of an interface that is removed stay. *)
Definition vrf_left (σ : vrf_state) (q : vrf_request) : gset Z :=
  match q with VrfRemove a => hosts_of σ a ∪ left | _ => left end.

Definition accepted (r : retval) : bool := match r with Ret0 => true | Err _ => false end.

(** The result decides the effect. *)
Lemma vrf_spec_answer w σ q ok r σ' :
  vrf_spec w σ q ok = Done (r, σ') → vrf_spec w σ q (accepted r) = Done (r, σ').
Proof.
  destruct q as [| | |a ipv6 ip_addr|]; cbn [vrf_spec]; try done; unfold vrf_add_host, vrf_route.
  - destruct ipv6, next_hop as [nh|]; try done. destruct (σ !! a) as [v|]; [|done].
    destruct (vp_routing v) as [vm|], (interface_port w a), (eth_addr_from_string nh) as [m|]; try done.
    destruct (vrf_egress w v vm m); try done. cbn [obind]. destruct (host_ip false ip_addr); [|done].
    destruct ok; intros; by simplify_eq/=.
  - destruct (_ || _); [done|]. destruct (route_target w action route) as [[|]|]; [|done|done].
    destruct ok; intros; by simplify_eq/=.
Qed.

Lemma vrf_spec_det w σ q ok ok' r σ1 σ2 :
  vrf_spec w σ q ok = Done (r, σ1) → vrf_spec w σ q ok' = Done (r, σ2) → σ1 = σ2.
Proof. intros H1%vrf_spec_answer H2%vrf_spec_answer. congruence. Qed.

Lemma vrf_set_request fuel w σ a set :
  vrf_inv w σ → vrf_settings_ok w σ a set →
  ∃ r σ' w', (∀ ok, vrf_spec w σ (VrfSet a set) ok = Done (r, σ')) ∧
    vrf_call fuel w (VrfSet a set) = Done (r, w') ∧ vrf_inv w' σ'.
Proof.
  intros I Hok. unfold vrf_spec, vrf_call, ops_fpa_ofproto_bundle_set.
  destruct (slaves set) as [|slave [|]] eqn:Hsl; [by do 3 eexists| |by do 3 eexists].
  destruct (vrf_get_bundle w σ a set slave I Hsl Hok)
    as (p & b & w1 & -> & Hb & <- & Hm & I1 & Hs).
  cbn [obind]. rewrite (deref_some _ _ _ Hb). cbn [obind].
  set (v0 := default new_vrf_port (σ !! aux b)) in *.
  set (b2 := set_name (Some (s_name set)) b).
  set (v2 := {| vp_name := Some (s_name set); vp_routing := vp_routing v0; vp_ip := vp_ip v0;
                vp_hosts := vp_hosts v0 |}).
  assert (∃ w2, (if negb (STR_EQ (Some (s_name set)) (name b))
      then store_bundle p b2 w1 else w1) = w2 ∧ bundle_store w2 !! p = Some b2 ∧
    bundle_matches (switch_id w2) b2 v2 ∧ vrf_inv w2 (<[aux b := v2]> σ) ∧ same_ports w w2) as
    (w2 & -> & Hb2 & Hm2 & I2 & Hs2).
  { pose proof Hm as (Hn & Hrest). destruct (STR_EQ (Some (s_name set)) (name b)) eqn:Heq;
      eexists; (split; [done|]).
    - assert (name b = Some (s_name set)) as Hname.
      { destruct (name b) as [n|]; [|done]. simpl in Heq. by apply String.eqb_eq in Heq as ->. }
      assert (b2 = b) as -> by (unfold b2; rewrite <- Hname; by destruct b).
      assert (v2 = v0) as -> by (unfold v2; rewrite <- Hname, Hn; by destruct v0). done.
    - split; [apply lookup_insert_eq|]. split; [by split|]. split; [|done].
      rewrite <- (insert_insert_eq _ _ v2 v0).
      by eapply (vrf_inv_store w1 (<[aux b := v0]> σ) p b v0 b2); [..|apply lookup_insert_eq| | | |]. }
  rewrite (vi_type _ _ (vr_bundles _ _ I2)). cbn [String.eqb Ascii.eqb Bool.eqb].
  destruct (vrf_set_spec w2 _ p b2 v2 set slave I2 Hb2 (lookup_insert_eq _ _ _) Hm2 eq_refl Hsl
    (vrf_settings_ok_same w w2 σ _ _ set Hok Hs2)) as (r & v & w' & Hspec & Hrun & I').
  rewrite (slave_port_same w w2), (switch_accepts_same w w2) in Hspec by done.
  exists r, (<[aux b := v]> σ), w'. rewrite Hrun. split_and!; [|done|].
  - intros _. by replace (vrf_set set (slave_port w set) (switch_accepts w set) v0) with (r, v).
  - simpl in I'. by rewrite insert_insert_eq in I'.
Qed.

End left.

Lemma owners_drop left hs σ a : owners left hs σ → owners (hosts_of σ a ∪ left) hs (delete a σ).
Proof.
  intros (H1 & H2 & H3).
  assert (∀ a' ip, ip ∈ hosts_of (delete a σ) a' ↔ a' ≠ a ∧ ip ∈ hosts_of σ a') as Hin.
  { intros a' ip. rewrite hosts_of_delete. case_decide; set_solver. }
  split_and!.
  - intros ip. rewrite H1. unfold owned. setoid_rewrite Hin. rewrite elem_of_union. split.
    + intros [(a' & Ha')|]; [|by right; right]. destruct (decide (a' = a)) as [->|]; [by right; left|].
      left. eauto.
    + intros [(a' & _ & Ha')|[Ha'|]]; [left; eauto..|by right].
  - intros a1 a2 ip. rewrite !Hin. intros [_ ?] [_ ?]. by eapply H2.
  - intros a' ip. rewrite Hin, elem_of_union. intros [Hn Ha'] [Ha|Hl]; [by apply Hn, (H2 _ _ ip)|].
    by eapply H3.
Qed.

(** Removing an interface: its routing goes, its hosts are left. *)
Lemma vrf_remove_spec fuel left w σ a :
  vrf_inv left w σ →
  ∃ r w', (∀ ok, vrf_spec w σ (VrfRemove a) ok = Done (r, delete a σ)) ∧
    vrf_call fuel w (VrfRemove a) = Done (r, w') ∧ hosts w' = hosts w ∧
    vrf_inv (hosts_of σ a ∪ left) w' (delete a σ).
Proof.
  intros I. pose proof (vrf_find w σ a (vr_bundles _ _ _ I)) as Hf. simpl.
  pose proof (owners_drop _ _ _ a (vr_owners _ _ _ I)) as Ho.
  unfold ops_fpa_ofproto_bundle_set, ops_fpa_rm_bundle.
  destruct (ops_fpa_find_bundle w a) as [p|].
  2:{ rewrite Hf. do 2 eexists. split; [done|]. split; [done|]. split; [done|].
      unfold hosts_of. rewrite Hf, delete_id by done. simpl. by rewrite union_empty_l_L. }
  destruct Hf as (b & v & Hb & <- & Hv & Hm). rewrite (deref_some _ _ _ Hb), Hv. cbn [obind].
  do 2 eexists. split; [done|]. split; [done|]. pose proof Hm as (_ & _ & Hl3 & _).
  destruct (vp_routing v) as [vm|] eqn:Hr; rewrite Hl3; simpl fmap; cbv iota.
  - destruct (ops_fpa_disable_routing _ _ _) as [iv h] eqn:Hd.
    eapply (switch_disable _ _ (aux b)) in Hd as (-> & [Hf Hg] & S');
      [|apply I|by rewrite lookup_omap, Hv; simpl; rewrite Hr].
    split; [done|]. split; simpl.
    + apply (bundles_inv_free (upd_hw h (internal_vlans w) w)); [|done].
      by eapply bundles_inv_frame; [apply I|..].
    + done.
    + eapply (hosts_inv_tables _ w); [apply I|done|done|done|apply Hg|exact Hf].
    + eapply groups_besides_frame; [apply I|apply Hg|done].
    + by rewrite omap_delete.
  - split; [done|]. split; simpl.
    + apply bundles_inv_free; [apply I|done].
    + done.
    + by eapply (hosts_inv_tables _ w); [apply I|..].
    + by eapply groups_besides_frame; [apply I|..].
    + rewrite omap_delete, delete_id; [apply I|]. rewrite lookup_omap, Hv. simpl. by rewrite Hr.
Qed.

(** ** Runs *)

Definition vrf_started (w : world) : Prop :=
  up_type w = "vrf" ∧ hmap_nodes (host_table w) = [] ∧ hosts w = ∅ ∧ bundles w = hmap_init ∧
  bundle_store w = ∅ ∧ w_hw w = h0 ∧ route_wf h0 (switch_id w) ∧ ∃ l, arp_free (arp_indices w) l.

(** Runs from [w0] to [w], the abstract VRF and the hosts that removed interfaces left. *)
Inductive vrf_reach (w0 : world) : world → vrf_state → gset Z → Prop :=
  | vrf_reach_start : vrf_started w0 → vrf_reach w0 w0 ∅ ∅
  | vrf_reach_step fuel w σ left q ok r w' σ' :
      vrf_reach w0 w σ left → vrf_request_ok left w σ q → vrf_call fuel w q = Done (r, w') →
      vrf_spec w σ q ok = Done (r, σ') → vrf_reach w0 w' σ' (vrf_left left σ q).

Lemma vrf_started_inv w : vrf_started w → vrf_inv ∅ w ∅.
Proof.
  intros (Hty & Ht & Hh & Hb & Hs & Hw & Hwf & l & Hl).
  assert (∀ a, hosts_of (∅ : vrf_state) a = ∅) as Hnone
    by (intros a; unfold hosts_of; by rewrite lookup_empty).
  split; [| | | |rewrite omap_empty, Hw; apply switch_inv_empty].
  - split; rewrite ?Hb, ?Hs, ?hmap_nodes_init; try done.
    + constructor.
    + intros p k. rewrite elem_of_nil. split; [done|]. intros (b & Hl' & _). by rewrite lookup_empty in Hl'.
  - split_and!.
    + intros ip. rewrite Hh. split; [intros (p & e & He & _); by rewrite lookup_empty in He|].
      intros [[a Ha]|Ha]; [rewrite Hnone in Ha|]; set_solver.
    + intros a a' ip. rewrite Hnone. set_solver.
    + intros a ip. rewrite Hnone. set_solver.
  - split; rewrite ?Hw, ?Ht, ?Hh; try done.
    + by exists l.
    + constructor.
    + intros p k. rewrite elem_of_nil. setoid_rewrite lookup_empty. naive_solver.
  - split; rewrite ?Hw, Hh; [done|]. intros g (p & e & He & _). by rewrite lookup_empty in He.
Qed.

Lemma vrf_step fuel left w σ q :
  vrf_inv left w σ → vrf_request_ok left w σ q →
  ∃ ok, match vrf_spec w σ q ok with
    | Done (r, σ') => ∃ w', vrf_call fuel w q = Done (r, w') ∧ vrf_inv (vrf_left left σ q) w' σ'
    | Crash c => vrf_call fuel w q = Crash c
    | OutOfFuel => False
    end.
Proof.
  intros I Hok. destruct q as [a set|a|a ipv6 ip_addr next_hop egress|a ipv6 ip_addr|action route].
  - destruct (vrf_set_request left fuel w σ a set I Hok) as (r & σ' & w' & Hspec & Hrest).
    exists true. rewrite Hspec. eauto.
  - destruct (vrf_remove_spec fuel left w σ a I) as (r & w' & Hspec & Hrun & _ & I').
    exists true. rewrite Hspec. eauto.
  - destruct (vrf_add_request left w σ a ipv6 ip_addr next_hop egress I Hok) as [ok Hres].
    exists ok. simpl. destruct (vrf_add_host w σ a ipv6 ip_addr next_hop ok) as [[r σ']|c|]; [|by rewrite Hres|done].
    destruct Hres as (eg & w' & -> & I'). by exists w'.
  - exists true. exact (vrf_delete_request left w σ a ipv6 ip_addr I Hok).
  - destruct (vrf_route_request left w σ action route I Hok) as (ok & w' & Hrun & I').
    exists ok. simpl. eauto.
Qed.

Lemma vrf_reach_inv w0 w σ left : vrf_reach w0 w σ left → vrf_inv left w σ.
Proof.
  induction 1 as [w Hs|fuel w σ left q ok r w' σ' _ IH Hok Hrun Hspec]; [by apply vrf_started_inv|].
  destruct (vrf_step fuel left w σ q IH Hok) as (ok1 & Hstep).
  destruct (vrf_spec w σ q ok1) as [[r1 σ1]|c|] eqn:Hspec1; [|congruence|done].
  destruct Hstep as (w1 & Hrun1 & I1). rewrite Hrun in Hrun1. injection Hrun1 as <- <-.
  by rewrite (vrf_spec_det w σ q ok ok1 r σ' σ1).
Qed.

(** The table finds the hosts of the interfaces and those that were left. *)
Lemma vrf_find_hosts left w σ ip : vrf_inv left w σ → is_Some (host_table_find w ip) ↔ owned left σ ip.
Proof.
  intros I. pose proof (hosts_find _ w ip (vr_hosts _ _ _ I)) as Hf.
  rewrite <- (proj1 (vr_owners _ _ _ I)). destruct (host_table_find w ip) as [p|]; split.
  - intros _. by exists p.
  - by eexists.
  - by intros [? ?].
  - intros (p & e & He & Hip). by destruct (Hf p e).
Qed.

(** C5: The L3 half of the class through every run of calls of [bundle_set] (setting
    and removing an interface), of adding and deleting hosts and of route actions
    that keep the conditions below, on a switch that may refuse any addition.  With
    the result and the effect of the abstract VRF for some answer of the switch each
    call returns, and it crashes exactly when the abstract VRF does: for an IPv4 host
    on a handle without an interface or without a registered port, and for a next hop
    that has not been learned.  After each call that returns the
    handles of the abstract VRF are the bundles, whose names, addresses and routed
    VLANs are theirs and which count their hosts; the flow tables hold, besides the
    L3 routes, exactly what they held before and the four flows of every routed
    interface; the host table finds exactly the hosts of the interfaces and those that
    interfaces had when they were removed, and every host is in force with its own
    groups, route and ARP index.
    The conditions ([vrf_request_ok]): an interface has no physical port (type other
    than "system"), the port of a new handle is not registered yet, so that an
    interface is not made again on the same port, and its VLAN, if it is enabled, is
    below 2^16 and not routed for another handle; its primary address is not of the
    form of a host's and secondary addresses do not change alone; a host is added at
    an address no host has and deleted through the interface it was added to; its
    VLAN and port numbers fit into a group; a route has a prefix of 1 to 32 bits and
    is not the /32 route of a host. *)
Theorem vrf_refines fuel w0 w σ left q :
  vrf_reach w0 w σ left → vrf_request_ok left w σ q →
  ∃ ok, match vrf_spec w σ q ok with
    | Done (r, σ') => ∃ w', vrf_call fuel w q = Done (r, w') ∧
        (∀ a, option_Forall2 (bundle_matches (switch_id w'))
                (p ← ops_fpa_find_bundle w' a; bundle_store w' !! p) (σ' !! a)) ∧
        routed_on (switch_id w') (omap vp_routing σ') (w_hw w') ∧
        (∀ ip, is_Some (host_table_find w' ip) ↔ owned (vrf_left left σ q) σ' ip) ∧
        hosts_inv (switch_id w') w'
    | Crash c => vrf_call fuel w q = Crash c
    | OutOfFuel => False
    end.
Proof.
  intros Hr Hok. destruct (vrf_step fuel left w σ q (vrf_reach_inv _ _ _ _ Hr) Hok) as (ok & Hstep).
  exists ok. destruct (vrf_spec w σ q ok) as [[r σ']|c|]; [|done|done].
  destruct Hstep as (w' & Hrun & I'). exists w'. split; [done|].
  split; [|split; [apply I'|split; [intros ip; by apply vrf_find_hosts|apply I']]].
  intros a. pose proof (vrf_find w' σ' a (vr_bundles _ _ _ I')) as Hf.
  destruct (ops_fpa_find_bundle w' a) as [p|]; simpl; [|rewrite Hf; constructor].
  destruct Hf as (b & v & -> & _ & -> & Hm). by constructor.
Qed.

(** Without routed interfaces the hosts are those that were left. *)
Lemma vrf_only_left left w σ :
  vrf_inv left w σ → (∀ a v, σ !! a = Some v → vp_routing v = None) → ∀ ip, owned left σ ip ↔ ip ∈ left.
Proof.
  intros I Hno ip. split; [|by right]. intros [[a Ha]|]; [|done]. unfold hosts_of in Ha.
  destruct (σ !! a) as [v|] eqn:Hv; [|set_solver]. simpl in Ha.
  destruct (vrf_find_known w σ a v (vr_bundles _ _ _ I) Hv) as (q & b & _ & _ & _ & _ & _ & _ & Hnh & _).
  rewrite Hnh in Ha by by eapply Hno. set_solver.
Qed.

(** C6: Once no interface of a VRF is routed any more (each was removed, disabled
    without hosts, or lost its last host), after any run that keeps the conditions of
    [vrf_refines] and whatever the switch refused: the entries of every flow table
    but that of the L3 routes are those there were before the first interface was
    made; the hosts still found are exactly those of the interfaces that were removed
    while they had hosts ([left]), and the groups are those there were before and
    theirs; so if no interface was removed with hosts, no host is left and the groups
    are as before. *)
Theorem vrf_teardown w0 w σ left :
  vrf_reach w0 w σ left → (∀ a v, σ !! a = Some v → vp_routing v = None) →
  (∀ ip, is_Some (host_table_find w ip) ↔ ip ∈ left) ∧
  groups_besides (groups h0 (switch_id w)) (switch_id w) w ∧
  (left = ∅ → hosts w = ∅ ∧ groups (w_hw w) (switch_id w) = groups h0 (switch_id w)) ∧
  (∀ t x, t ≠ FPA_FLOW_TABLE_TYPE_L3_UNICAST_E →
     x ∈ flows (w_hw w) (switch_id w) t ↔ x ∈ flows h0 (switch_id w) t) ∧
  ∀ s t, s ≠ switch_id w → flows (w_hw w) s t = flows h0 s t.
Proof.
  intros Hr Hno. pose proof (vrf_reach_inv _ _ _ _ Hr) as I.
  pose proof (vrf_only_left _ w σ I Hno) as Hleft. split_and!.
  - intros ip. by rewrite (vrf_find_hosts left w σ ip I).
  - apply I.
  - intros ->. assert (hosts w = ∅) as Hh; [|split; [done|]].
    + apply map_empty. intros p. destruct (hosts w !! p) as [e|] eqn:He; [|done].
      destruct (not_elem_of_empty (C := gset Z) (ipv4_addr e)). apply Hleft, (proj1 (vr_owners _ _ _ I)).
      by exists p, e.
    + apply map_eq. intros g. apply (proj1 (vr_groups _ _ _ I)). rewrite Hh.
      intros (p & e & He & _). by rewrite lookup_empty in He.
  - destruct (vr_switch _ _ _ I) as [_ (fl & Hfl & Hf & _)].
    intros t x Ht. rewrite Hf by done. split; [|by right].
    intros [(a & l & Hl & _)%elem_of_all_flows|]; [|done]. specialize (Hfl a).
    rewrite Hl, lookup_omap in Hfl. destruct (σ !! a) as [v|] eqn:Hv; simpl in Hfl; [|inversion Hfl].
    rewrite (Hno a v Hv) in Hfl. inversion Hfl.
  - by destruct (vr_switch _ _ _ I) as [_ (fl & _ & _ & Ho)].
Qed.

(** An interface that is already routed stays on its VLAN when its VLAN is changed. *)
Theorem vrf_vlan_change_ignored fuel w0 w σ left a set v vm :
  vrf_reach w0 w σ left → vrf_settings_ok w σ a set → σ !! a = Some v → vp_routing v = Some vm →
  enable set = true →
  ∃ r σ' w' v', vrf_call fuel w (VrfSet a set) = Done (r, w') ∧
    vrf_spec w σ (VrfSet a set) true = Done (r, σ') ∧ σ' !! a = Some v' ∧ vp_routing v' = Some vm.
Proof.
  intros Hr Hok Ha Hrt Hen.
  destruct (vrf_set_request left fuel w σ a set (vrf_reach_inv _ _ _ _ Hr) Hok)
    as (r & σ' & w' & Hspec & Hrun & _). specialize (Hspec true).
  exists r, σ', w'. assert (∃ v', σ' !! a = Some v' ∧ vp_routing v' = Some vm) as (v' & Hv' & Hvm); [|eauto].
  unfold vrf_spec, vrf_set, vrf_routing in Hspec. rewrite Ha in Hspec.
  change (default new_vrf_port (Some v)) with v in Hspec. rewrite Hrt, Hen in Hspec.
  destruct (slaves set) as [|? [|]]; [by simplify_eq; eauto| |by simplify_eq; eauto].
  repeat case_match; simplify_eq; rewrite lookup_insert_eq; eauto.
Qed.

(** C30: Removing an interface, after any run that keeps the conditions of [vrf_refines],
    returns 0, takes its handle and the four flows of its routing away, and leaves the
    flows of the other interfaces and every host, also its own: their groups, routes and
    ARP indices stay, though its handle can no longer delete them. *)
Theorem removed_interface_keeps_hosts fuel w0 w σ left a :
  vrf_reach w0 w σ left → is_Some (σ !! a) →
  ∃ w', vrf_call fuel w (VrfRemove a) = Done (Ret0, w') ∧ ops_fpa_find_bundle w' a = None ∧
    hosts w' = hosts w ∧ hosts_inv (switch_id w') w' ∧
    routed_on (switch_id w') (delete a (omap vp_routing σ)) (w_hw w').
Proof.
  intros Hr [v Hv]. destruct (vrf_remove_spec fuel left w σ a (vrf_reach_inv _ _ _ _ Hr))
    as (r & w' & Hspec & Hrun & Hh & I'). specialize (Hspec true). simpl in Hspec. rewrite Hv in Hspec.
  injection Hspec as <-. exists w'. split; [done|].
  rewrite <- omap_delete. split; [|split_and!; [done|apply I'..]].
  pose proof (vrf_find _ _ a (vr_bundles _ _ _ I')) as Hfind. case_match; [|done].
  destruct Hfind as (b' & v' & _ & _ & Hv' & _). by rewrite lookup_delete_eq in Hv'.
Qed.
End vrf.

(** ** Witnesses: an interface whose flows are refused once, then routed, and a host *)

#[local] Existing Instance Ofproto.WEnv.
#[local] Existing Instance Ofproto.WOf.
#[local] Existing Instance Ofproto.WHmap.
#[local] Existing Instance Ofproto.WHmapLaws.

#[local] Notation WF := (SimFpa (add_fault 3)).

Definition w_vport : fpa_ofport :=
  {| netdev_ifindex := -95; netdev_name := "vlan100"; netdev_type := "internal"; netdev_mac := w_mac;
     mtu := 1500; ofp_port := 7; vmap := ∅ |}.

Definition w_vset (vlan : Z) (en : bool) : ofproto_bundle_settings :=
  {| s_name := "vlan100"; slaves := [7]; s_vlan := vlan; vlan_mode := PORT_VLAN_ACCESS; trunks := None;
     enable := en; internal_vlan_id := 0; PORT_PRIMARY_IPv4_CHANGED := true;
     PORT_SECONDARY_IPv4_CHANGED := false; ip4_address := Some "10.0.0.1/24";
     ip4_address_secondary := [] |}.

Definition w_vrf : world (F := WF) :=
  {| w_hw := (sim_empty : @hw WF); internal_vlans := ∅; arp_indices := arp_initial;
     host_table := hmap_init; hosts := ∅;
     ofports := {[70 := w_vport]}; ports_by_pid := hmap_init; up_type := "vrf"; up_name := "vrf_default";
     switch_id := 0; ofproto_get_port := λ p, if p =? 7 then Some 70 else None;
     bundles := hmap_init; bundle_store := ∅; vlans := ∅; tap_log := [] |}.

(** The device has learned the next hop on port 3. *)
Definition w_vml : fpa_mac_learning :=
  match ops_fpa_mac_learning_learn (λ _, Some "3") (ml_new 100 300 0 true)
    {| au_msg_type := FPA_EVENT_ADDRESS_UPDATE_NEW_E; portNum := 3; vid := 100; address := w_dst |} with
  | Done (_, ml) => ml
  | _ => ml_new 100 300 0 true
  end.
Definition w_vdev : option fpa_dev :=
  Some {| dev_switchId := 0; ref_cnt := 1; tap_if_info := None; dev_ml := Some w_vml |}.

Definition w_next (s : world (F := WF) * vrf_state) (q : vrf_request) : world (F := WF) * vrf_state :=
  match vrf_call w_vdev 0 s.1 q with
  | Done (r, w') =>
      (w', match vrf_spec w_vdev s.1 s.2 q (accepted r) with Done (_, σ) => σ | _ => s.2 end)
  | _ => s
  end.

#[local] Notation reach s left := (vrf_reach (F := WF) sim_empty w_vdev w_vrf (fst s) (snd s) left).

Lemma w_vrf_start : reach (w_vrf, (∅ : vrf_state)) ∅.
Proof.
  apply vrf_reach_start. split_and!; try done; [apply route_wf_empty|].
  eexists. exact arp_init_free.
Qed.

Lemma w_vrf_next s left q :
  reach s left → vrf_request_ok (F := WF) sim_empty w_vdev left s.1 s.2 q →
  reach (w_next s q) (vrf_left left s.2 q).
Proof.
  intros Hr Hok. unfold w_next.
  destruct (vrf_step (F := WF) sim_empty w_vdev 0 left s.1 s.2 q (vrf_reach_inv _ _ _ _ _ _ Hr) Hok)
    as (ok & Hstep).
  destruct (vrf_spec w_vdev s.1 s.2 q ok) as [[r σ']|c|] eqn:Hspec; [|rewrite Hstep|done].
  - destruct Hstep as (w' & Hrun & _). rewrite Hrun. apply vrf_spec_answer in Hspec. rewrite Hspec.
    by eapply vrf_reach_step.
  - by destruct q.
Qed.

(** The only interface of the VRF may be routed on any VLAN. *)
Lemma w_vset_ok s vlan en :
  ofports s.1 = {[70 := w_vport]} → switch_id s.1 = 0 →
  (∀ p, ofproto_get_port s.1 p = if p =? 7 then Some 70 else None) →
  s.2 !! 1 = None ∧ hmap_nodes (ports_by_pid s.1) = [] ∨ is_Some (s.2 !! 1) →
  delete 1 (omap vp_routing s.2) = ∅ → 0 ≤ vlan < 2 ^ 16 →
  vrf_request_ok (F := WF) sim_empty w_vdev ∅ s.1 s.2 (VrfSet 1 (w_vset vlan en)).
Proof.
  intros Hp Hsid Hg Hfirst Hno Hv. split; [by left|]. split.
  { intros addr _ [= <-]. vm_compute. reflexivity. }
  intros slave pp [= <-].
  rewrite Hg. intros [= <-]. exists w_vport. rewrite Hp. split_and!; [done|done| |].
  - intros Hnone. destruct Hfirst as [[_ Hn]|[v Hs]]; [|congruence]. rewrite Hn. apply not_elem_of_nil.
  - intros _ _ _. rewrite Hno, Hsid. split; [exact Hv|]. split; [apply routing_free_empty|].
    intros a vid' m Hl. by rewrite lookup_empty in Hl.
Qed.

Definition w_refused : world (F := WF) * vrf_state := w_next (w_vrf, ∅) (VrfSet 1 (w_vset 100 true)).
Definition w_vrouted : world (F := WF) * vrf_state := w_next w_refused (VrfSet 1 (w_vset 100 true)).
Definition w_host_q : vrf_request := VrfAddHost 1 false "10.0.0.7" (Some "06:07:08:09:0a:0b") 0.
Definition w_hosted : world (F := WF) * vrf_state := w_next w_vrouted w_host_q.
Definition w_kept : world (F := WF) * vrf_state := w_next w_hosted (VrfSet 1 (w_vset 100 false)).
Definition w_ended : world (F := WF) * vrf_state := w_next w_kept (VrfDelHost 1 false "10.0.0.7").

Lemma w_refused_reach : reach w_refused ∅.
Proof.
  apply (w_vrf_next _ ∅ (VrfSet 1 (w_vset 100 true))); [exact w_vrf_start|]. apply w_vset_ok; [done|done|done|by left|done|lia].
Qed.

Lemma w_vset_ok_known s vlan en :
  ofports s.1 = {[70 := w_vport]} → switch_id s.1 = 0 →
  (∀ p, ofproto_get_port s.1 p = if p =? 7 then Some 70 else None) →
  is_Some (s.2 !! 1) → delete 1 (omap vp_routing s.2) = ∅ → 0 ≤ vlan < 2 ^ 16 →
  vrf_request_ok (F := WF) sim_empty w_vdev ∅ s.1 s.2 (VrfSet 1 (w_vset vlan en)).
Proof. intros. apply w_vset_ok; try done. by right. Qed.

#[local] Ltac w_known :=
  apply w_vset_ok_known; [vm_compute; reflexivity|vm_compute; reflexivity
    |intros p; vm_compute; reflexivity|eexists; vm_compute; reflexivity|vm_compute; reflexivity|lia].

Lemma w_vrouted_reach : reach w_vrouted ∅.
Proof. apply (w_vrf_next _ ∅ (VrfSet 1 (w_vset 100 true))); [exact w_refused_reach|w_known]. Qed.

(** The interface is routed and has no hosts. *)
Lemma w_vrouted_state : w_vrouted.2 = {[1 := {| vp_name := Some "vlan100";
  vp_routing := Some (100, w_mac); vp_ip := Some "10.0.0.1/24"; vp_hosts := ∅ |}]}.
Proof. vm_compute. reflexivity. Qed.

(** The device knows the way to the next hop of [w_host_q], and to no other. *)
Lemma w_add_ok ip_addr nh :
  (∀ ip, host_ip false ip_addr = Some ip → 0 ≤ ip < 2 ^ 32) →
  (∀ v m egress, eth_addr_from_string nh = Some m →
     vrf_egress w_vdev w_vrouted.1 v (100, w_mac) m = Done egress → pid_ok egress) →
  vrf_request_ok (F := WF) sim_empty w_vdev ∅ w_vrouted.1 w_vrouted.2
    (VrfAddHost 1 false ip_addr (Some nh) 0).
Proof.
  intros Hip Hway. split_and!.
  - intros ip He. split; [by apply Hip|]. intros [[a Ha]|Ha]; [|set_solver].
    rewrite w_vrouted_state in Ha. unfold hosts_of in Ha.
    destruct (decide (a = 1)) as [->|Hn]; [rewrite lookup_singleton_eq in Ha|
      rewrite lookup_singleton_ne in Ha by done]; set_solver.
  - intros pp Hpp. vm_compute in Hpp. injection Hpp as <-. exists w_vport. vm_compute. reflexivity.
  - intros v vm. rewrite w_vrouted_state. intros [_ <-]%lookup_singleton_Some. intros [= <-].
    split; [unfold vid_ok; simpl; lia|]. intros m egress Hm He. by eapply Hway.
Qed.

Lemma w_host_q_ok : vrf_request_ok (F := WF) sim_empty w_vdev ∅ w_vrouted.1 w_vrouted.2 w_host_q.
Proof.
  apply w_add_ok.
  - intros ip Hip. vm_compute in Hip. injection Hip as <-. lia.
  - intros v m egress Hm He. vm_compute in Hm. injection Hm as <-. vm_compute in He. injection He as <-.
    unfold pid_ok. lia.
Qed.

Lemma w_hosted_reach : reach w_hosted ∅.
Proof. apply (w_vrf_next _ ∅ w_host_q); [exact w_vrouted_reach|exact w_host_q_ok]. Qed.

Lemma w_kept_reach : reach w_kept ∅.
Proof. apply (w_vrf_next _ ∅ (VrfSet 1 (w_vset 100 false))); [exact w_hosted_reach|w_known]. Qed.

Lemma w_hosts_one : w_kept.2 = {[1 := {| vp_name := Some "vlan100"; vp_routing := Some (100, w_mac);
  vp_ip := Some "10.0.0.1/24"; vp_hosts := {[ip4_word 10 0 0 7]} |}]}.
Proof. vm_compute. reflexivity. Qed.

Lemma w_ended_reach : reach w_ended ∅.
Proof.
  apply (w_vrf_next _ ∅ (VrfDelHost 1 false "10.0.0.7")); [exact w_kept_reach|]. rewrite w_hosts_one.
  intros ip _ [[a Ha]|Ha]; [|by apply not_elem_of_empty in Ha]. unfold hosts_of in Ha |- *.
  destruct (decide (a = 1)) as [->|Hn]; [done|]. rewrite lookup_singleton_ne in Ha by done.
  by apply not_elem_of_empty in Ha.
Qed.

(** The interface is removed while the host 10.0.0.7 is behind it. *)
Definition w_removed : world (F := WF) * vrf_state := w_next w_kept (VrfRemove 1).
Definition w_left : gset Z := vrf_left ∅ w_kept.2 (VrfRemove 1).

Lemma w_removed_reach : reach w_removed w_left.
Proof. apply (w_vrf_next _ ∅ (VrfRemove 1)); [exact w_kept_reach|done]. Qed.

(** A next hop the device has not learned. *)
Definition w_lost_q : vrf_request := VrfAddHost 1 false "10.0.0.8" (Some "00:01:02:03:04:05") 0.

Lemma w_lost_q_ok : vrf_request_ok (F := WF) sim_empty w_vdev ∅ w_vrouted.1 w_vrouted.2 w_lost_q.
Proof.
  apply w_add_ok.
  - intros ip Hip. vm_compute in Hip. injection Hip as <-. lia.
  - intros v m egress Hm He. vm_compute in Hm. injection Hm as <-. vm_compute in He. discriminate He.
Qed.

Lemma w_host_q_runs :
  match vrf_call w_vdev 0 w_vrouted.1 w_host_q with Done (r, _) => accepted r | _ => false end = true.
Proof. vm_compute. reflexivity. Qed.

(** The host is added to the interface that was refused at first, and found; the next
    hop that was not learned crashes. *)
Lemma vrf_refines_witness :
  vp_routing <$> w_refused.2 !! 1 = Some None ∧
  (∃ w', vrf_call w_vdev 0 w_vrouted.1 w_host_q = Done (Ret0, w') ∧
    is_Some (host_table_find w' (ip4_word 10 0 0 7)) ∧ hosts_inv (F := WF) (switch_id w') w') ∧
  vrf_call w_vdev 0 w_vrouted.1 w_lost_q = Crash NullDeref.
Proof.
  split; [vm_compute; reflexivity|]. split.
  - destruct (vrf_refines (F := WF) sim_empty w_vdev 0 w_vrf w_vrouted.1 w_vrouted.2 ∅
      w_host_q w_vrouted_reach w_host_q_ok) as (ok & Hstep).
    destruct (vrf_spec w_vdev w_vrouted.1 w_vrouted.2 w_host_q ok) as [[r σ']|c|] eqn:Hspec;
      [|pose proof w_host_q_runs as Hr; rewrite Hstep in Hr; discriminate Hr|destruct Hstep].
    destruct Hstep as (w' & Hrun & _ & _ & Hfind & Hinv).
    exists w'. pose proof w_host_q_runs as Hr. rewrite Hrun in Hr. destruct r; [|discriminate Hr].
    split; [exact Hrun|]. split; [|exact Hinv]. apply Hfind. left. exists 1.
    apply vrf_spec_answer in Hspec. change (accepted Ret0) with true in Hspec.
    assert (vrf_spec w_vdev w_vrouted.1 w_vrouted.2 w_host_q true = Done (Ret0, {[1 :=
      {| vp_name := Some "vlan100"; vp_routing := Some (100, w_mac); vp_ip := Some "10.0.0.1/24";
         vp_hosts := {[ip4_word 10 0 0 7]} |}]})) as Hσ by (vm_compute; reflexivity).
    rewrite Hspec in Hσ. injection Hσ as ->. rewrite (hosts_of_some _ 1 _ (lookup_singleton_eq _ _)).
    cbn [vp_hosts]. by apply elem_of_singleton.
  - destruct (vrf_refines (F := WF) sim_empty w_vdev 0 w_vrf w_vrouted.1 w_vrouted.2 ∅
      w_lost_q w_vrouted_reach w_lost_q_ok) as (ok & Hstep).
    assert (vrf_spec w_vdev w_vrouted.1 w_vrouted.2 w_lost_q ok = Crash NullDeref) as Hc
      by (destruct ok; vm_compute; reflexivity).
    rewrite Hc in Hstep. exact Hstep.
Defined.

(** Disabling the interface kept it for its host: the last host took it away, and
    removing it instead leaves the host. *)
Lemma vrf_teardown_witness :
  vp_routing <$> w_kept.2 !! 1 = Some (Some (100, w_mac)) ∧
  (hosts w_ended.1 = ∅ ∧ groups (F := WF) (w_hw w_ended.1) (switch_id w_ended.1) =
    groups (F := WF) sim_empty (switch_id w_ended.1)) ∧
  is_Some (host_table_find w_removed.1 (ip4_word 10 0 0 7)).
Proof.
  split; [vm_compute; reflexivity|]. split.
  - destruct (vrf_teardown (F := WF) sim_empty w_vdev w_vrf w_ended.1 w_ended.2 ∅ w_ended_reach)
      as (_ & _ & Hh & _).
    + assert (w_ended.2 = {[1 := {| vp_name := Some "vlan100"; vp_routing := None;
        vp_ip := Some "10.0.0.1/24"; vp_hosts := ∅ |}]}) as -> by (vm_compute; reflexivity).
      intros a v [<- <-]%lookup_singleton_Some. reflexivity.
    + by apply Hh.
  - destruct (vrf_teardown (F := WF) sim_empty w_vdev w_vrf w_removed.1 w_removed.2 w_left
      w_removed_reach) as (Hf & _).
    + assert (w_removed.2 = ∅) as -> by (vm_compute; reflexivity). intros a v Ha.
      by rewrite lookup_empty in Ha.
    + apply Hf. unfold w_left. rewrite w_hosts_one. vm_compute. reflexivity.
Defined.

(** Moving the interface to VLAN 300 leaves it on VLAN 100. *)
Lemma vrf_vlan_change_ignored_witness :
  ∃ r σ' w' v', vrf_call w_vdev 0 w_vrouted.1 (VrfSet 1 (w_vset 300 true)) = Done (r, w') ∧
    vrf_spec w_vdev w_vrouted.1 w_vrouted.2 (VrfSet 1 (w_vset 300 true)) true = Done (r, σ') ∧
    σ' !! 1 = Some v' ∧ vp_routing v' = Some (100, w_mac).
Proof.
  eapply (vrf_vlan_change_ignored (F := WF) sim_empty w_vdev 0 w_vrf w_vrouted.1 w_vrouted.2 ∅ 1
    (w_vset 300 true) _ (100, w_mac) w_vrouted_reach).
  - w_known.
  - vm_compute. reflexivity.
  - reflexivity.
  - reflexivity.
Defined.

(** The interface is removed while the host 10.0.0.7 is behind it. *)
Lemma removed_interface_keeps_hosts_witness :
  size (hosts w_hosted.1) = 1%nat ∧
  ∃ w', vrf_call w_vdev 0 w_hosted.1 (VrfRemove 1) = Done (Ret0, w') ∧
    ops_fpa_find_bundle w' 1 = None ∧ hosts w' = hosts w_hosted.1 ∧
    hosts_inv (F := WF) (switch_id w') w' ∧
    routed_on (F := WF) sim_empty (switch_id w') (delete 1 (omap vp_routing w_hosted.2)) (w_hw w').
Proof.
  split; [vm_compute; reflexivity|].
  apply (removed_interface_keeps_hosts (F := WF) sim_empty w_vdev 0 w_vrf w_hosted.1 w_hosted.2 ∅ 1
    w_hosted_reach). eexists. vm_compute. reflexivity.
Defined.
