(* ===== verification/Bridge.v ===== *)
(** * Bridges and VRFs of the daemon (src/ops-fpa-ofproto.c)

    The life of an ofproto: construction and destruction, which open and close the
    device, its port names and their enumeration, its periodic work, and the control
    commands on the MAC table.  An ofproto lives on the heap; the map [protos] holds
    the addresses of those that were constructed.  All share the one device. *)

From S2P Require Import Prelude Fpa FpaSim Util PortVlans Hmap MacLearning Show Dev Ofproto.

Local Open Scope string_scope.
Local Open Scope list_scope.
Local Open Scope Z_scope.

Definition FPA_HAL_L3_DEFAULT_VRID : Z := 0.

(** String sets and the parser of Open vSwitch. *)
Class SSET := {
  (* the strings of a set in the order of sset_at_position *)
  sset_nodes : gset string → list string;
  sset_nodes_elements s : sset_nodes s ≡ₚ elements s;
  (* ovs_scan (s, "%"SCNu32, &n) *)
  ovs_scan_u32 : string → option Z;
  OFPP_NONE : Z
}.

(** The position of an enumeration of ports: how many were given. *)
Abbreviation port_iter := nat (only parsing).

Section bridge.
Context {W : TAP_OS} {H : HMAP} {E : ML_ENV} {V : OF_ENV} {S : SSET} {hw : Type}.
(* fpaLibSwitchAgingTimeoutSet and -Get, fpaLibSwitchSrcMacLearningSet, the defaults of
   the MAC table, and the ports by interface index *)
Context (aging_set : Z → Z → hw → FPA_STATUS * hw) (aging_get : Z → hw → FPA_STATUS * Z)
  (learning_set : Z → hw → FPA_STATUS * hw).
Context (default_size default_idle : Z) (plugin : bool) (ports : Z → option string).
(* the event thread of the MAC table, for its join, as in [ops_fpa_dev_deinit] *)
Context (fuel : nat) (au : nat → FPA_STATUS * FPA_EVENT_ADDRESS_MSG_STC).

(** ** Data *)

(** [struct fpa_ofproto] with the fields of its [struct ofproto] that are read. *)
Record fpa_ofproto := {
  op_type : string;
  op_name : string;
  (* up->port_by_name: the OpenFlow numbers of the ports that are open *)
  port_by_name : gmap string Z;
  port_names : gset string;
  op_bundles : hmap;
  op_vlans : bitmap;
  op_switch_id : Z;
  (* whether [dev] is not null *)
  op_dev : bool;
  op_vrf_id : Z;
  op_change_seq : Z
}.

Record daemon := {
  d_proc : proc (hw := hw);
  protos : hmap;
  proto_store : gmap Z fpa_ofproto;
  (* the control commands that are registered *)
  unixctl : list string
}.

Definition set_proc (p : proc (hw := hw)) (d : daemon) : daemon :=
  {| d_proc := p; protos := protos d; proto_store := proto_store d; unixctl := unixctl d |}.
Definition set_protos (m : hmap) (st : gmap Z fpa_ofproto) (d : daemon) : daemon :=
  {| d_proc := d_proc d; protos := m; proto_store := st; unixctl := unixctl d |}.
Definition set_unixctl (l : list string) (d : daemon) : daemon :=
  {| d_proc := d_proc d; protos := protos d; proto_store := proto_store d; unixctl := l |}.

Definition set_port_names (s : gset string) (o : fpa_ofproto) : fpa_ofproto :=
  {| op_type := op_type o; op_name := op_name o; port_by_name := port_by_name o; port_names := s;
     op_bundles := op_bundles o; op_vlans := op_vlans o; op_switch_id := op_switch_id o;
     op_dev := op_dev o; op_vrf_id := op_vrf_id o; op_change_seq := op_change_seq o |}.
Definition set_change_seq (n : Z) (o : fpa_ofproto) : fpa_ofproto :=
  {| op_type := op_type o; op_name := op_name o; port_by_name := port_by_name o;
     port_names := port_names o; op_bundles := op_bundles o; op_vlans := op_vlans o;
     op_switch_id := op_switch_id o; op_dev := op_dev o; op_vrf_id := op_vrf_id o;
     op_change_seq := n |}.

(** ** Types and names *)

Definition ops_fpa_ofproto_enumerate_types : list string := ["system"; "vrf"].

(** What is added for an ofproto of the type is the type, not the name. *)
Definition ops_fpa_ofproto_enumerate_names (type : string) (d : daemon) : outcome (gset string) :=
  foldr (λ p acc,
    let* names := acc in
    let* o := deref (proto_store d) (Some p) in
    Done (if String.eqb type (op_type o) then {[op_type o]} ∪ names else names))
    (Done ∅) (hmap_nodes (protos d)).*1.

Definition ops_fpa_ofproto_port_open_type (port_type : string) : string :=
  if String.eqb port_type OVSREC_INTERFACE_TYPE_INTERNAL
     || String.eqb port_type OVSREC_INTERFACE_TYPE_VLANSUBINT
     || String.eqb port_type OVSREC_INTERFACE_TYPE_LOOPBACK then port_type else "system".

(** ** Life of an ofproto *)

(** The structure is not initialised; the daemon sets its type and name. *)
Definition ops_fpa_ofproto_alloc (junk : fpa_ofproto) (d : daemon) : Z * daemon :=
  let p := fresh (dom (proto_store d)) in
  (p, set_protos (protos d) (<[p := junk]> (proto_store d)) d).

Definition ops_fpa_ofproto_unixctl_init (d : daemon) : daemon :=
  if decide ("fpa/fdb/flush" ∈ unixctl d) then d else
  set_unixctl (["fpa/fdb/flush"; "fpa/fdb/show"; "fpa/fdb/get-age"; "fpa/fdb/set-age"] ++ unixctl d) d.

Definition ops_fpa_ofproto_construct (p : Z) (d : daemon) : outcome (option errno * daemon) :=
  let* this := deref (proto_store d) (Some p) in
  let protos := hmap_insert (protos d) p (hash_string (op_name this)) in
  let* (err, pr) := ops_fpa_dev_init aging_set learning_set default_size default_idle plugin
                      FPA_DEV_SWITCH_ID_DEFAULT (d_proc d) in
  let this := {| op_type := op_type this; op_name := op_name this;
                 port_by_name := port_by_name this; port_names := ∅; op_bundles := hmap_init;
                 op_vlans := ∅; op_switch_id := FPA_DEV_SWITCH_ID_DEFAULT;
                 op_dev := if p_dev pr then true else false; op_vrf_id := op_vrf_id this;
                 op_change_seq := op_change_seq this |} in
  match err with
  | Some e => Done (Some e, set_proc pr (set_protos protos (<[p := this]> (proto_store d)) d))
  | None =>
      let this := {| op_type := op_type this; op_name := op_name this;
                     port_by_name := port_by_name this; port_names := port_names this;
                     op_bundles := op_bundles this; op_vlans := op_vlans this;
                     op_switch_id := op_switch_id this; op_dev := op_dev this;
                     op_vrf_id := FPA_HAL_L3_DEFAULT_VRID; op_change_seq := 0 |} in
      Done (None, ops_fpa_ofproto_unixctl_init
                    (set_proc pr (set_protos protos (<[p := this]> (proto_store d)) d)))
  end.

Definition ops_fpa_ofproto_destruct (p : Z) (d : daemon) : outcome daemon :=
  let* this := deref (proto_store d) (Some p) in
  let d := set_protos (hmap_remove (protos d) p)
             (<[p := set_port_names ∅ this]> (proto_store d)) d in
  let* pr := ops_fpa_dev_deinit ports fuel au FPA_DEV_SWITCH_ID_DEFAULT (d_proc d) in
  Done (set_proc pr d).

Definition ops_fpa_ofproto_dealloc (p : Z) (d : daemon) : daemon :=
  set_protos (protos d) (delete p (proto_store d)) d.

(** [this->dev->ml]: the device pointer of a live ofproto is the current device. *)
Definition proto_dev (this : fpa_ofproto) (d : daemon) : outcome fpa_dev :=
  if op_dev this then
    match p_dev (d_proc d) with Some dev => Done dev | None => Crash Undefined end
  else Crash NullDeref.

Definition proto_ml (this : fpa_ofproto) (d : daemon) : outcome fpa_mac_learning :=
  let* dev := proto_dev this d in
  match dev_ml dev with Some ml => Done ml | None => Crash NullDeref end.

Definition put_ml (ml : fpa_mac_learning) (d : daemon) : daemon :=
  match p_dev (d_proc d) with
  | Some dev => set_proc (set_dev (Some (set_ml (Some ml) dev)) (d_proc d)) d
  | None => d
  end.

(** [new_seq] is the connectivity sequence number and [expired] the state of the
    timer of the MAC table. *)
Definition ops_fpa_ofproto_run (p new_seq : Z) (expired : bool) (d : daemon) : outcome daemon :=
  let* this := deref (proto_store d) (Some p) in
  let this := if op_change_seq this =? new_seq then this else set_change_seq new_seq this in
  let d := set_protos (protos d) (<[p := this]> (proto_store d)) d in
  if String.eqb (op_type this) "system" && String.eqb (op_name this) DEFAULT_BRIDGE_NAME then
    let* ml := proto_ml this d in
    Done (if expired then put_ml (ops_fpa_mac_learning_on_mlearn_timer_expired ml) d else d)
  else Done d.

(** ** Ports *)

(** The bitmap of pending VLANs of a new port. *)
Definition ops_fpa_ofproto_port_construct (port : fpa_ofport) : fpa_ofport := set_vmap ∅ port.

Definition ops_fpa_ofproto_port_add (devname : string) (this : fpa_ofproto) : fpa_ofproto :=
  set_port_names ({[devname]} ∪ port_names this) this.

(** The body is compiled out. *)
Definition ops_fpa_ofproto_port_del (ofp_port : Z) (this : fpa_ofproto) : fpa_ofproto := this.

Record ofproto_port := { port_name : string; port_type : string; port_ofp : Z }.

(** [netdev_type] is [netdev_get_type_from_name]. *)
Definition ops_fpa_ofproto_port_query_by_name (netdev_type : string → option string)
    (this : fpa_ofproto) (devname : string) : errno + ofproto_port :=
  if decide (devname ∈ port_names this) then
    match netdev_type devname with
    | Some type => inr {| port_name := devname; port_type := type;
                          port_ofp := default OFPP_NONE (port_by_name this !! devname) |}
    | None => inl ENODEV
    end
  else inl ENODEV.

Definition ops_fpa_ofproto_port_dump_start : port_iter := 0%nat.

(** The outer [None] is [EOF]. *)
Definition ops_fpa_ofproto_port_dump_next (netdev_type : string → option string)
    (this : fpa_ofproto) (iter : port_iter) : option (errno + ofproto_port) * port_iter :=
  match sset_nodes (port_names this) !! iter with
  | Some name => (Some (ops_fpa_ofproto_port_query_by_name netdev_type this name), Datatypes.S iter)
  | None => (None, iter)
  end.

(** ** Control commands *)

Definition ops_fpa_ofproto_lookup (name : string) (d : daemon) : outcome (option Z) :=
  foldr (λ p acc,
    let* o := deref (proto_store d) (Some p) in
    if String.eqb (op_name o) name then Done (Some p) else acc)
    (Done None) (hmap_with_hash (protos d) (hash_string name)).

(** Flushes the table of one ofproto. *)
Definition proto_flush (p : Z) (d : daemon) : outcome daemon :=
  let* this := deref (proto_store d) (Some p) in
  let* ml := proto_ml this d in
  let* ml := ops_fpa_mac_learning_flush ports ml in
  Done (put_ml ml d).

Fixpoint flush_protos (ps : list Z) (d : daemon) : outcome daemon :=
  match ps with
  | [] => Done d
  | p :: ps => let* d := proto_flush p d in flush_protos ps d
  end.

Definition fpa_unixctl_fdb_flush (arg : option string) (d : daemon) : outcome (reply * daemon) :=
  match arg with
  | Some name =>
      let* p := ops_fpa_ofproto_lookup name d in
      match p with
      | None => Done (ReplyError "no such bridge", d)
      | Some p => let* d := proto_flush p d in Done (Reply "table successfully flushed", d)
      end
  | None =>
      let* d := flush_protos (hmap_nodes (protos d)).*1 d in
      Done (Reply "table successfully flushed", d)
  end.

Definition fpa_unixctl_fdb_show (name : string) (d : daemon) : outcome reply :=
  let* p := ops_fpa_ofproto_lookup name d in
  match p with
  | None => Done (ReplyError "no such bridge")
  | Some p =>
      let* this := deref (proto_store d) (Some p) in
      if negb (op_dev this) then Crash AssertFailed else
      let* dev := proto_dev this d in
      match dev_ml dev with
      | None => Crash AssertFailed
      | Some ml => let* s := ops_fpa_mac_learning_dump_table ml in Done (Reply s)
      end
  end.

(** [true] is [EPERM]. *)
Definition ops_fpa_mac_learning_get_idle_time (ml : fpa_mac_learning) (h : hw) : bool * Z :=
  let '(err, t) := aging_get (ml_switchId ml) h in
  if failed err then (true, t) else (false, t).

Definition fpa_unixctl_fdb_get_aging (name : string) (d : daemon) : outcome reply :=
  let* p := ops_fpa_ofproto_lookup name d in
  match p with
  | None => Done (ReplyError "no such bridge")
  | Some p =>
      let* this := deref (proto_store d) (Some p) in
      let* ml := proto_ml this d in
      let '(err, t) := ops_fpa_mac_learning_get_idle_time ml (p_hw (d_proc d)) in
      if err then Done (ReplyError "failed to get aging time") else
      Done (Reply (printf "FDB aging time is %d" [PInt t]))
  end.

Definition fpa_unixctl_fdb_configure_aging (name age : string) (d : daemon) :
    outcome (reply * daemon) :=
  let* p := ops_fpa_ofproto_lookup name d in
  match p with
  | None => Done (ReplyError "no such bridge", d)
  | Some p =>
      match ovs_scan_u32 age with
      | None => Done (ReplyError "invalid aging time", d)
      | Some t =>
          let* this := deref (proto_store d) (Some p) in
          let* ml := proto_ml this d in
          let '(err, ml, h) := ops_fpa_mac_learning_set_idle_time aging_set ml t (p_hw (d_proc d)) in
          let d := set_proc (set_phw h (d_proc d)) d in
          if err then Done (ReplyError "failed to set aging time", d) else
          Done (Reply "FDB aging time been update successfully", put_ml ml d)
      end
  end.
End bridge.

(** ** The daemon's use of the class *)

Section daemon_runs.
Context {W : TAP_OS} {H : HMAP} {E : ML_ENV} {V : OF_ENV} {S : SSET} {hw : Type}.
Context `{!HMAP_LAWS H}.
Context (aging_set : Z → Z → hw → FPA_STATUS * hw) (aging_get : Z → hw → FPA_STATUS * Z)
  (learning_set : Z → hw → FPA_STATUS * hw).
Context (default_size default_idle : Z) (plugin : bool) (ports : Z → option string).
Context (fuel : nat) (au : nat → FPA_STATUS * FPA_EVENT_ADDRESS_MSG_STC).

Notation daemon := (daemon (hw := hw)).
Notation construct :=
  (ops_fpa_ofproto_construct aging_set learning_set default_size default_idle plugin).
Notation destruct_ := (ops_fpa_ofproto_destruct ports fuel au).
Notation fdb_flush := (fpa_unixctl_fdb_flush ports).
Notation fdb_set_age := (fpa_unixctl_fdb_configure_aging aging_set).
Notation fdb_get_age := (fpa_unixctl_fdb_get_aging aging_get).

(** An ofproto is allocated and constructed, and freed if that fails. *)
Definition ofproto_create (junk : fpa_ofproto) (d : daemon) : outcome (option errno * daemon) :=
  let '(p, d) := ops_fpa_ofproto_alloc junk d in
  let* (err, d) := construct p d in
  Done (err, match err with Some _ => ops_fpa_ofproto_dealloc p d | None => d end).

Definition ofproto_destroy (p : Z) (d : daemon) : outcome daemon :=
  let* d := destruct_ p d in Done (ops_fpa_ofproto_dealloc p d).

(** A message for the thread of the MAC table. *)
Definition mac_message (msg : option FPA_EVENT_ADDRESS_MSG_STC) (d : daemon) : outcome daemon :=
  match p_dev (d_proc d) with
  | Some dev =>
      match dev_ml dev with
      | Some ml => let* ml := mac_learning_asic_event ports ml msg in Done (put_ml ml d)
      | None => Done d
      end
  | None => Done d
  end.

Definition proto_live (d : daemon) (p : Z) : Prop := hmap_in (protos d) p.

(** What can happen next and how it ends, with the error of a creation: the daemon
    destroys and runs live ofprotos only, and memory holds less than 2^32 - 1 of them.
    The commands that only show something, and the list of names, leave the daemon as
    it is. *)
Inductive daemon_step (d : daemon) : outcome (option errno * daemon) → Prop :=
  | StepCreate junk : hmap_count (protos d) < 2 ^ 32 - 1 → daemon_step d (ofproto_create junk d)
  | StepDestroy p : proto_live d p → daemon_step d (let* d := ofproto_destroy p d in Done (None, d))
  | StepRun p seq expired : proto_live d p →
      daemon_step d (let* d := ops_fpa_ofproto_run p seq expired d in Done (None, d))
  | StepPortAdd p o name : proto_live d p → proto_store d !! p = Some o →
      daemon_step d (Done (None, set_protos (protos d)
        (<[p := ops_fpa_ofproto_port_add name o]> (proto_store d)) d))
  | StepNames type : daemon_step d (let* _ := ops_fpa_ofproto_enumerate_names type d in Done (None, d))
  | StepFlush arg : daemon_step d (let* (_, d) := fdb_flush arg d in Done (None, d))
  | StepShow name : daemon_step d (let* _ := fpa_unixctl_fdb_show name d in Done (None, d))
  | StepGetAge name : daemon_step d (let* _ := fdb_get_age name d in Done (None, d))
  | StepSetAge name age : daemon_step d (let* (_, d) := fdb_set_age name age d in Done (None, d))
  | StepMac msg : daemon_step d (let* d := mac_message msg d in Done (None, d)).

(** The runs in which every creation so far has succeeded. *)
Inductive daemon_reach (p0 : proc (hw := hw)) : daemon → Prop :=
  | reach_init l : daemon_reach p0
      {| d_proc := p0; protos := hmap_init; proto_store := ∅; unixctl := l |}
  | reach_step d d' : daemon_reach p0 d → daemon_step d (Done (None, d')) → daemon_reach p0 d'.

(** ** The invariant *)

Definition ml_bound : Z := Z.max default_size 1000000.

(** The constructed ofprotos are those on the heap, filed under their names; the
    device has one user for each, is there as long as there is one, and has a
    well-formed MAC table. *)
Record daemon_inv (d : daemon) : Prop := {
  inv_nodup : NoDup (hmap_nodes (protos d)).*1;
  inv_stored p k : (p, k) ∈ hmap_nodes (protos d) →
    ∃ o, proto_store d !! p = Some o ∧ k = hash_string (op_name o) ∧ op_dev o = true;
  inv_heap p : is_Some (proto_store d !! p) → proto_live d p;
  inv_dev : dev_state no_interfaces (ml_safe ports ml_bound) FPA_DEV_SWITCH_ID_DEFAULT
    (hmap_count (protos d)) (d_proc d)
}.

Lemma hmap_count_nonneg (m : hmap) : 0 ≤ hmap_count m.
Proof. unfold hmap_count. lia. Qed.

Lemma live_node (d : daemon) p : proto_live d p → ∃ k, (p, k) ∈ hmap_nodes (protos d).
Proof. intros ([q k] & -> & Hin)%list_elem_of_fmap. by exists k. Qed.

Lemma live_stored d p :
  daemon_inv d → proto_live d p → ∃ o, proto_store d !! p = Some o ∧ op_dev o = true.
Proof.
  intros I [k Hk]%live_node. destruct (inv_stored d I p k Hk) as (o & Ho & _ & Hd). eauto.
Qed.

Lemma live_count d p : proto_live d p → 0 < hmap_count (protos d).
Proof.
  intros [k Hk]%live_node. unfold hmap_count. destruct (hmap_nodes (protos d)); simpl; [|lia].
  by apply not_elem_of_nil in Hk.
Qed.

(** With an ofproto there is a device with a table. *)
Lemma inv_ml d :
  daemon_inv d → 0 < hmap_count (protos d) →
  ∃ dev ml, p_dev (d_proc d) = Some dev ∧ dev_ml dev = Some ml ∧ ml_safe ports ml_bound ml.
Proof.
  intros I Hc. destruct (inv_dev d I) as [_ Hdev].
  rewrite (proj2 (Z.eqb_neq _ _)) in Hdev by lia.
  destruct Hdev as (dev & Hd & _ & _ & (ml & Hml & Hs) & _). eauto.
Qed.

Lemma proto_ml_ok d o :
  daemon_inv d → 0 < hmap_count (protos d) → op_dev o = true →
  ∃ ml, proto_ml o d = Done ml ∧ ml_safe ports ml_bound ml.
Proof.
  intros I Hc Ho. destruct (inv_ml d I Hc) as (dev & ml & Hd & Hml & Hs).
  exists ml. split; [|done]. unfold proto_ml, proto_dev. rewrite Ho, Hd. simpl. by rewrite Hml.
Qed.

(** Replacing the table keeps the invariant and reads back. *)
Lemma put_ml_inv d ml :
  daemon_inv d → ml_safe ports ml_bound ml → daemon_inv (put_ml ml d).
Proof.
  intros I Hs. unfold put_ml. destruct (p_dev (d_proc d)) as [dev|] eqn:Hd; [|done].
  split; [apply I|apply (inv_stored d I)|apply (inv_heap d I)|].
  destruct (inv_dev d I) as [Hm Hdev]. split; [done|]. simpl. rewrite Hd in Hdev.
  destruct (hmap_count (protos d) =? 0); [done|].
  destruct Hdev as (dev' & [= <-] & Hsid & Hr & _ & Htap). eexists. split_and!; simpl; eauto.
Qed.

Lemma put_ml_protos (ml : fpa_mac_learning) (d : daemon) :
  protos (put_ml ml d) = protos d ∧ proto_store (put_ml ml d) = proto_store d.
Proof. unfold put_ml. by destruct (p_dev (d_proc d)). Qed.

(** Changing a live ofproto, but not its name or device. *)
Lemma put_proto_inv d p o o' :
  daemon_inv d → proto_live d p → proto_store d !! p = Some o → op_name o' = op_name o →
  op_dev o' = op_dev o → daemon_inv (set_protos (protos d) (<[p := o']> (proto_store d)) d).
Proof.
  intros I Hp Ho Hn Hd. split; [apply I| | |apply I].
  - intros q k Hin. destruct (inv_stored d I q k Hin) as (oq & Hq & Hk & Hdq). simpl.
    destruct (decide (q = p)) as [->|]; [|rewrite lookup_insert_ne by done; eauto].
    rewrite lookup_insert_eq. simplify_eq. exists o'. by rewrite Hn, Hd.
  - intros q. simpl. destruct (decide (q = p)) as [->|]; [done|].
    rewrite lookup_insert_ne by done. apply (inv_heap d I).
Qed.

(** ** Steps *)

Hypothesis buffer_pos : 0 < BUFFER_SIZE.
Hypothesis size_nonneg : 0 ≤ default_size.

Lemma safe_step ml i :
  ml_safe ports ml_bound ml → ∃ ml', ml_step ports ml i = Done ml' ∧ ml_safe ports ml_bound ml'.
Proof. intros Hs. apply ml_step_safe; [done|unfold ml_bound; lia|done]. Qed.

(** Flushing leaves no address. *)
Lemma safe_flush ml :
  ml_safe ports ml_bound ml → ∃ ml', ops_fpa_mac_learning_flush ports ml = Done ml' ∧
    ml_safe ports ml_bound ml' ∧ fdb ml' = [].
Proof.
  intros Hs. destruct (safe_step ml InFlush Hs) as (ml' & Hf & Hs'). exists ml'. split_and!; try done.
  destruct Hs as (Hinv & Hports & _).
  destruct (flush_nodes_ok buffer_pos ports _ ml Hinv (reflexivity _) Hports)
    as (ml'' & Hf' & _ & Hfdb & _). simpl in Hf. unfold ops_fpa_mac_learning_flush in Hf. congruence.
Qed.

(** Creating an ofproto fails only if it is the first and the switch refuses the
    settings of the MAC table. *)
Lemma construct_ok d junk :
  daemon_inv d → hmap_count (protos d) < 2 ^ 32 - 1 →
  ∃ err d', ofproto_create junk d = Done (err, d') ∧
    match err with
    | None => daemon_inv d' ∧ hmap_count (protos d') = hmap_count (protos d) + 1
    | Some e => e = EAGAIN ∧ hmap_count (protos d) = 0
    end.
Proof.
  intros I Hc. unfold ofproto_create, ops_fpa_ofproto_construct. simpl.
  set (p := fresh (dom (proto_store d))). rewrite lookup_insert_eq. simpl.
  assert (proto_store d !! p = None) as Hp by (apply not_elem_of_dom, is_fresh).
  assert (¬ proto_live d p) as Hnl.
  { intros (o & Ho & _)%(live_stored d p I). congruence. }
  destruct (dev_init_step aging_set learning_set default_size default_idle plugin no_interfaces
    (ml_safe ports ml_bound) FPA_DEV_SWITCH_ID_DEFAULT (hmap_count (protos d)) (d_proc d))
    as (err & pr & -> & Hst);
    [done|pose proof (hmap_count_nonneg (protos d)); lia|apply (inv_dev d I)
    |intros _; split; [apply opened_no_interfaces|by apply ml_new_safe]|]. cbn [obind].
  destruct err as [e|]; do 2 eexists; (split; [done|]); [by destruct Hst as (-> & ? & _)|].
  unfold ops_fpa_ofproto_unixctl_init.
  assert (is_Some (p_dev pr)) as [dev Hdev].
  { destruct Hst as [_ Hst]. pose proof (hmap_count_nonneg (protos d)).
    rewrite (proj2 (Z.eqb_neq _ _)) in Hst by lia. destruct Hst as (dev & -> & _). by eexists. }
  rewrite Hdev. match goal with |- context [decide ?P] => destruct (decide P) end;
    (split; [|apply hmap_count_insert]); split; simpl.
  1, 5: rewrite hmap_insert_ptrs; apply NoDup_cons; split; [done|apply I].
  1, 4: intros q k [[= -> ->]|Hin]%elem_of_hmap_insert;
      [rewrite lookup_insert_eq; by eexists|];
      destruct (inv_stored d I q k Hin) as (o & Ho & ? & ?);
      rewrite !lookup_insert_ne by (by intros ->; congruence); by eexists.
  1, 3: unfold proto_live, hmap_in; simpl; intros q Hq; rewrite hmap_insert_ptrs;
      destruct (decide (q = p)) as [->|]; [by left|];
      rewrite !lookup_insert_ne in Hq by done; right; by apply (inv_heap d I).
  all: by rewrite hmap_count_insert.
Qed.

(** Destroying an ofproto closes the device for it, which does not return for the
    last one. *)
Lemma destroy_ok d p :
  daemon_inv d → proto_live d p → hmap_count (protos d) < 2 ^ 32 →
  if hmap_count (protos d) =? 1 then ofproto_destroy p d = OutOfFuel
  else ∃ d', ofproto_destroy p d = Done d' ∧ daemon_inv d' ∧
    hmap_count (protos d') = hmap_count (protos d) - 1.
Proof.
  intros I Hp Hc. destruct (live_stored d p I Hp) as (o & Ho & _).
  pose proof (live_count d p Hp) as Hpos. destruct (live_node d p Hp) as [k Hk].
  pose proof (inv_nodup d I) as Hnd. unfold ofproto_destroy, ops_fpa_ofproto_destruct. simpl.
  rewrite Ho. simpl.
  pose proof (dev_deinit_step ports fuel au no_interfaces (ml_safe ports ml_bound)
    FPA_DEV_SWITCH_ID_DEFAULT (hmap_count (protos d)) (d_proc d)) as Hstep.
  rewrite (proj2 (Z.eqb_neq _ 0)) in Hstep by lia.
  destruct (hmap_count (protos d) =? 1).
  { rewrite Hstep; [done| |lia|apply (inv_dev d I)]. intros ml Hs.
    eapply unref_hangs; [done| |done]. unfold ml_bound. lia. }
  destruct Hstep as (pr & -> & Hst); [|lia|apply (inv_dev d I)|].
  { intros ml Hs. eapply unref_hangs; [done| |done]. unfold ml_bound. lia. }
  simpl. eexists. split; [done|]. split; [|by apply (hmap_count_remove _ _ k)]. split; simpl.
  - by eapply hmap_remove_nodup.
  - intros q k' [Hin Hq]%(elem_of_hmap_remove _ _ k); [|done..]. simpl in Hq.
    rewrite lookup_delete_ne, lookup_insert_ne by done. by apply (inv_stored d I).
  - unfold proto_live, hmap_in. simpl. intros q Hq. destruct (decide (q = p)) as [->|Hne].
    { rewrite lookup_delete_eq in Hq. by destruct Hq. }
    rewrite lookup_delete_ne, lookup_insert_ne in Hq by done.
    destruct (live_node d q (inv_heap d I q Hq)) as [k' Hk'].
    apply list_elem_of_fmap. exists (q, k'). split; [done|].
    by apply (elem_of_hmap_remove _ _ k).
  - by rewrite (hmap_count_remove _ _ k).
Qed.

Lemma run_ok d p seq expired :
  daemon_inv d → proto_live d p →
  ∃ d', ops_fpa_ofproto_run p seq expired d = Done d' ∧ daemon_inv d' ∧ protos d' = protos d.
Proof.
  intros I Hp. destruct (live_stored d p I Hp) as (o & Ho & Hd).
  unfold ops_fpa_ofproto_run. simpl. rewrite Ho. simpl.
  set (o' := if op_change_seq o =? seq then o else set_change_seq seq o).
  assert (op_name o' = op_name o ∧ op_dev o' = true) as [Hn Hd'] by (unfold o'; by case_match).
  assert (daemon_inv (set_protos (protos d) (<[p := o']> (proto_store d)) d)) as I'
    by (eapply put_proto_inv; [done..|]; congruence).
  destruct (String.eqb (op_type o') "system" && String.eqb (op_name o') DEFAULT_BRIDGE_NAME); [|eauto].
  destruct (proto_ml_ok _ o' I' (live_count d p Hp) Hd') as (ml & -> & Hs). simpl.
  destruct expired; [|eauto]. eexists. split; [done|].
  destruct (safe_step ml InTimer Hs) as (ml' & [= <-] & Hs').
  split; [by apply put_ml_inv|]. exact (proj1 (put_ml_protos _ _)).
Qed.

(** Looking a name up never follows a stale pointer. *)
Lemma lookup_ok d name :
  daemon_inv d →
  ∃ r, ops_fpa_ofproto_lookup name d = Done r ∧
    match r with
    | Some p => proto_live d p ∧ ∃ o, proto_store d !! p = Some o ∧ op_name o = name
    | None => ∀ p o, proto_store d !! p = Some o → op_name o ≠ name
    end.
Proof.
  intros I. unfold ops_fpa_ofproto_lookup.
  assert (∀ p, p ∈ hmap_with_hash (protos d) (hash_string name) → proto_live d p) as Hlive.
  { intros p Hin%elem_of_hmap_with_hash. by apply (list_elem_of_fmap_2 fst) in Hin. }
  assert (∀ p o, proto_store d !! p = Some o → op_name o = name →
    p ∈ hmap_with_hash (protos d) (hash_string name)) as Hall.
  { intros p o Ho <-. apply elem_of_hmap_with_hash.
    destruct (live_node d p) as [k Hk]; [apply (inv_heap d I); by eexists|].
    destruct (inv_stored d I p k Hk) as (o' & Ho' & -> & _). by simplify_eq. }
  assert (∃ r, foldr (λ p acc, let* o := deref (proto_store d) (Some p) in
      if String.eqb (op_name o) name then Done (Some p) else acc) (Done None)
      (hmap_with_hash (protos d) (hash_string name)) = Done r ∧
    match r with
    | Some p => proto_live d p ∧ ∃ o, proto_store d !! p = Some o ∧ op_name o = name
    | None => ∀ p o, p ∈ hmap_with_hash (protos d) (hash_string name) →
        proto_store d !! p = Some o → op_name o ≠ name
    end) as (r & Hr & Hspec).
  { clear Hall. induction (hmap_with_hash (protos d) (hash_string name)) as [|p ps IH]; cbn [foldr].
    { exists None. split; [done|]. by intros p o ?%not_elem_of_nil. }
    destruct (live_stored d p I (Hlive p ltac:(by left))) as (o & Ho & _).
    rewrite (deref_some _ _ _ Ho). cbn [obind].
    destruct (String.eqb_spec (op_name o) name) as [Hn|Hn].
    { exists (Some p). split; [done|]. split; [apply Hlive; by left|eauto]. }
    destruct IH as (r & -> & Hspec); [intros; apply Hlive; by right|].
    exists r. split; [done|]. destruct r; [done|].
    intros q o' [->|Hq]%elem_of_cons Ho'; [by simplify_eq|eauto]. }
  exists r. split; [done|]. destruct r; [done|]. intros p o Ho Hn. by eapply Hspec; eauto.
Qed.

(** The device's table is empty. *)
Definition flushed (d : daemon) : Prop :=
  ∃ dev ml, p_dev (d_proc d) = Some dev ∧ dev_ml dev = Some ml ∧ fdb ml = [].

Lemma proto_flush_ok d p :
  daemon_inv d → proto_live d p →
  ∃ d', proto_flush ports p d = Done d' ∧ daemon_inv d' ∧ protos d' = protos d ∧
    flushed d'.
Proof.
  intros I Hp. destruct (live_stored d p I Hp) as (o & Ho & Hd). unfold proto_flush. simpl.
  rewrite Ho. simpl. destruct (proto_ml_ok d o I (live_count d p Hp) Hd) as (ml & -> & Hs). simpl.
  destruct (safe_flush ml Hs) as (ml' & -> & Hs' & Hfdb). simpl. eexists. split; [done|].
  split_and!; [by apply put_ml_inv|exact (proj1 (put_ml_protos _ _))|].
  destruct (inv_ml d I (live_count d p Hp)) as (dev & _ & Hdev & _). unfold put_ml. rewrite Hdev.
  eexists _, ml'. by split_and!.
Qed.

Lemma flush_protos_ok ps d :
  daemon_inv d → (∀ p, p ∈ ps → proto_live d p) →
  ∃ d', flush_protos ports ps d = Done d' ∧ daemon_inv d' ∧ protos d' = protos d ∧
    (ps ≠ [] ∨ flushed d → flushed d').
Proof.
  revert d. induction ps as [|p ps IH]; intros d I Hlive; simpl.
  { exists d. split_and!; try done. by intros [?|?]. }
  destruct (proto_flush_ok d p I (Hlive p ltac:(by left))) as (d1 & -> & I1 & Hp1 & Hf1). simpl.
  destruct (IH d1 I1) as (d2 & -> & I2 & Hp2 & Hf2).
  { intros q Hq. unfold proto_live. rewrite Hp1. apply Hlive. by right. }
  exists d2. split_and!; [done|done|congruence|]. auto.
Qed.

Lemma set_age_ok d name age :
  daemon_inv d →
  ∃ r d', fdb_set_age name age d = Done (r, d') ∧ daemon_inv d' ∧ protos d' = protos d.
Proof.
  intros I. unfold fpa_unixctl_fdb_configure_aging.
  destruct (lookup_ok d name I) as ([p|] & -> & Hp); simpl; [|eauto].
  destruct (ovs_scan_u32 age) as [t|]; [|eauto].
  destruct Hp as [Hp _]. destruct (live_stored d p I Hp) as (o & Ho & Hd). rewrite Ho. simpl.
  destruct (proto_ml_ok d o I (live_count d p Hp) Hd) as (ml & -> & Hs). simpl.
  unfold ops_fpa_mac_learning_set_idle_time.
  destruct (aging_set _ _ _) as [st h].
  assert (daemon_inv (set_proc (set_phw h (d_proc d)) d)) as I' by (split; apply I).
  destruct (failed st); simpl; eexists _, _; (split; [done|]); [by split|].
  split; [by apply put_ml_inv|]. exact (proj1 (put_ml_protos _ _)).
Qed.

(** What is shown. *)
Lemma show_ok d name : daemon_inv d → is_done (fpa_unixctl_fdb_show name d).
Proof.
  intros I. unfold fpa_unixctl_fdb_show.
  destruct (lookup_ok d name I) as ([p|] & -> & Hp); simpl; [|by eexists].
  destruct Hp as [Hp _]. destruct (live_stored d p I Hp) as (o & Ho & Hd). rewrite Ho. simpl.
  destruct (inv_ml d I (live_count d p Hp)) as (dev & ml & Hdev & Hml & [[_ Ht] _]).
  unfold proto_dev. rewrite Hd, Hdev. simpl. rewrite Hml, dump_table_lists_fdb by done. by eexists.
Qed.

Lemma get_age_ok d name : daemon_inv d → is_done (fdb_get_age name d).
Proof.
  intros I. unfold fpa_unixctl_fdb_get_aging.
  destruct (lookup_ok d name I) as ([p|] & -> & Hp); simpl; [|by eexists].
  destruct Hp as [Hp _]. destruct (live_stored d p I Hp) as (o & Ho & Hd). rewrite Ho. simpl.
  destruct (proto_ml_ok d o I (live_count d p Hp) Hd) as (ml & -> & _). simpl.
  destruct (ops_fpa_mac_learning_get_idle_time _ _ _) as [[] t]; by eexists.
Qed.

Lemma names_ok d type : daemon_inv d → is_done (ops_fpa_ofproto_enumerate_names type d).
Proof.
  intros I. unfold ops_fpa_ofproto_enumerate_names.
  assert (∀ p, p ∈ (hmap_nodes (protos d)).*1 → proto_live d p) as Hlive by done.
  induction (hmap_nodes (protos d)).*1 as [|p ps IH]; cbn [foldr]; [by eexists|].
  destruct IH as [names ->]; [intros; apply Hlive; by right|]. cbn [obind].
  destruct (live_stored d p I (Hlive p ltac:(by left))) as (o & Ho & _).
  rewrite (deref_some _ _ _ Ho). by eexists.
Qed.

Lemma flush_ok d arg :
  daemon_inv d →
  ∃ r d', fdb_flush arg d = Done (r, d') ∧ daemon_inv d' ∧ protos d' = protos d ∧
    match arg with
    | None => r = Reply "table successfully flushed" ∧ (0 < hmap_count (protos d) → flushed d')
    | Some name =>
        (∃ p o, proto_store d !! p = Some o ∧ op_name o = name) ∧
          r = Reply "table successfully flushed" ∧ flushed d' ∨
        (∀ p o, proto_store d !! p = Some o → op_name o ≠ name) ∧
          r = ReplyError "no such bridge" ∧ d' = d
    end.
Proof.
  intros I. destruct arg as [name|]; simpl.
  - destruct (lookup_ok d name I) as ([p|] & -> & Hp); simpl; [|eexists _, _; split_and!; eauto].
    destruct Hp as (Hp & o & Ho & Hn). destruct (proto_flush_ok d p I Hp) as (d' & -> & I' & Hps & Hf).
    simpl. eexists _, _. split_and!; eauto 10.
  - destruct (flush_protos_ok (hmap_nodes (protos d)).*1 d I) as (d' & -> & I' & Hps & Hf); [done|].
    simpl. eexists _, _. split_and!; try done. intros Hc. apply Hf. left. intros Hnil.
    unfold hmap_count in Hc. apply fmap_nil_inv in Hnil. rewrite Hnil in Hc. simpl in Hc. lia.
Qed.

Lemma mac_message_ok d msg :
  daemon_inv d → ∃ d', mac_message msg d = Done d' ∧ daemon_inv d' ∧ protos d' = protos d.
Proof.
  intros I. unfold mac_message. destruct (inv_dev d I) as [_ Hdev].
  destruct (p_dev (d_proc d)) as [dev|] eqn:Hd; [|eauto].
  destruct (hmap_count (protos d) =? 0); [done|].
  destruct Hdev as (dev' & [= <-] & _ & _ & (ml & -> & Hs) & _).
  destruct (safe_step ml (InMsg msg) Hs) as (ml' & Hst & Hs'). simpl in Hst. rewrite Hst. simpl.
  eexists. split; [done|]. split; [by apply put_ml_inv|]. exact (proj1 (put_ml_protos _ _)).
Qed.

(** Destroying the last ofproto. *)
Definition destroys_last (d : daemon) (r : outcome (option errno * daemon)) : Prop :=
  hmap_count (protos d) = 1 ∧ ∃ p, proto_live d p ∧ r = let* d := ofproto_destroy p d in Done (None, d).

Lemma step_ok d r :
  daemon_inv d → hmap_count (protos d) < 2 ^ 32 → daemon_step d r →
  (∃ d', r = Done (None, d') ∧ daemon_inv d' ∧ hmap_count (protos d') < 2 ^ 32) ∨
  (∃ d', r = Done (Some EAGAIN, d') ∧ hmap_count (protos d) = 0) ∨
  r = OutOfFuel ∧ destroys_last d r.
Proof.
  intros I Hc.
  destruct 1 as [junk Hj|p Hp|p seq expired Hp|p o name Hp Ho|type|arg|name|name|name age|msg].
  - destruct (construct_ok d junk I Hj) as ([e|] & d' & -> & Hres).
    + destruct Hres as [-> H0]. right. left. by exists d'.
    + destruct Hres as [I' Hc']. left. exists d'. split_and!; [done|done|lia].
  - pose proof (destroy_ok d p I Hp Hc) as Hdest.
    destruct (Z.eqb_spec (hmap_count (protos d)) 1) as [H1|].
    + right. right. split; [by rewrite Hdest|]. split; [done|]. by exists p.
    + left. destruct Hdest as (d' & -> & I' & Hc'). exists d'. split_and!; [done|done|lia].
  - left. destruct (run_ok d p seq expired I Hp) as (d' & -> & I' & Hps). exists d'. by rewrite Hps.
  - left. eexists. split; [done|]. split; [|done]. by apply (put_proto_inv d p o).
  - left. destruct (names_ok d type I) as [names ->]. by exists d.
  - left. destruct (flush_ok d arg I) as (r & d' & -> & I' & Hps & _). simpl. exists d'. by rewrite Hps.
  - left. destruct (show_ok d name I) as [text ->]. by exists d.
  - left. destruct (get_age_ok d name I) as [text ->]. by exists d.
  - left. destruct (set_age_ok d name age I) as (r & d' & -> & I' & Hps). simpl. exists d'. by rewrite Hps.
  - left. destruct (mac_message_ok d msg I) as (d' & -> & I' & Hps). exists d'. by rewrite Hps.
Qed.

Lemma reach_inv p0 d :
  p_mutex p0 = false → p_dev p0 = None → daemon_reach p0 d →
  daemon_inv d ∧ hmap_count (protos d) < 2 ^ 32.
Proof.
  intros Hm Hd. induction 1 as [l|d d' _ [I Hc] Hstep].
  - unfold hmap_count. simpl. rewrite hmap_nodes_init. split; [|simpl; lia]. split; simpl.
    + rewrite hmap_nodes_init. constructor.
    + intros p k. rewrite hmap_nodes_init. by intros ?%not_elem_of_nil.
    + intros p. rewrite lookup_empty. by intros [].
    + unfold hmap_count. rewrite hmap_nodes_init. by split.
  - by destruct (step_ok d _ I Hc Hstep) as [(d'' & [= <-] & I' & Hc')|[(? & ? & _)|[? _]]].
Qed.

(** ** Properties *)

(** C9: The daemon with bridges and VRFs, in any state that is reached while every
    creation succeeds.  The next creation, destruction, periodic run, new port, list of
    names, command (flushing or showing the table, asking for or setting the aging
    time) or message of the switch, whatever the switch answers, neither crashes nor
    deadlocks nor follows a stale pointer.  It returns, unless it destroys the last
    ofproto; the only error of a creation is that of the first one on a switch that
    refuses the settings of the MAC table ([failed_bridge_stays] says what follows).
    The ofprotos on the heap are those that are registered, the device is there exactly
    while there is one, counts one user for each, and its MAC table stays well formed
    and bounded. *)
Theorem daemon_runs_safely p0 d r :
  p_mutex p0 = false → p_dev p0 = None → daemon_reach p0 d → daemon_step d r →
  ((∃ d', r = Done (None, d')) ∨
   (∃ d', r = Done (Some EAGAIN, d') ∧ hmap_count (protos d) = 0) ∨
   r = OutOfFuel ∧ destroys_last d r) ∧
  (∀ p, is_Some (proto_store d !! p) ↔ proto_live d p) ∧
  dev_state no_interfaces (ml_safe ports ml_bound) FPA_DEV_SWITCH_ID_DEFAULT (hmap_count (protos d))
    (d_proc d).
Proof.
  intros Hm Hd Hreach Hstep. destruct (reach_inv p0 d Hm Hd Hreach) as [I Hc]. split_and!.
  - destruct (step_ok d r I Hc Hstep) as [(d' & -> & _)|[?|?]]; eauto.
  - intros p. split; [apply (inv_heap d I)|]. intros (o & Ho & _)%(live_stored d p I). eauto.
  - apply I.
Qed.

(** C10: The last bridge or VRF cannot be destroyed: closing the device joins the
    event thread of the MAC table, whose loop has no exit, so the call does not
    return however many messages that thread handles and whatever they are; the
    others are destroyed and leave the rest as it is. *)
Theorem last_bridge_never_destroyed p0 d p :
  p_mutex p0 = false → p_dev p0 = None → daemon_reach p0 d → proto_live d p →
  if hmap_count (protos d) =? 1 then ofproto_destroy p d = OutOfFuel
  else ∃ d', ofproto_destroy p d = Done d' ∧ proto_store d' = delete p (proto_store d) ∧
    ∀ q, proto_live d' q ↔ proto_live d q ∧ q ≠ p.
Proof.
  intros Hm Hd Hreach Hp. destruct (reach_inv p0 d Hm Hd Hreach) as [I Hc].
  pose proof (destroy_ok d p I Hp Hc) as Hdest.
  destruct (hmap_count (protos d) =? 1); [done|]. destruct Hdest as (d' & Hr & I' & _).
  exists d'. split; [done|]. pose proof Hr as Hr2. unfold ofproto_destroy in Hr2.
  apply obind_done in Hr2 as (d1 & Hr2 & [= <-]). unfold ops_fpa_ofproto_destruct in Hr2.
  apply obind_done in Hr2 as (o & _ & (pr & _ & [= <-])%obind_done). simpl.
  split; [by rewrite delete_insert_eq|].
  assert (∀ q, is_Some (delete p (proto_store d) !! q) ↔ is_Some (proto_store d !! q) ∧ q ≠ p) as Hdel.
  { intros q. rewrite lookup_delete_is_Some. split; intros [? ?]; split; congruence || done. }
  assert (∀ d q, daemon_inv d → proto_live d q ↔ is_Some (proto_store d !! q)) as Hlive.
  { intros d0 q I0. split; [|apply (inv_heap d0 I0)]. intros (o' & Ho' & _)%(live_stored d0 q I0). eauto. }
  intros q. rewrite (Hlive _ q I'), (Hlive d q I). simpl. rewrite delete_insert_eq. apply Hdel.
Qed.

(** C31: Flushing the MAC table by command, in every state that is reached while every
    creation succeeds: without an argument it succeeds and empties the table if there
    is a bridge, with the name of a bridge it empties the table, and with any other
    name it is refused and changes nothing. *)
Theorem fdb_flush_correct p0 d arg :
  p_mutex p0 = false → p_dev p0 = None → daemon_reach p0 d →
  ∃ r d', fdb_flush arg d = Done (r, d') ∧
    match arg with
    | None => r = Reply "table successfully flushed" ∧ (0 < hmap_count (protos d) → flushed d')
    | Some name =>
        (∃ p o, proto_store d !! p = Some o ∧ op_name o = name) ∧
          r = Reply "table successfully flushed" ∧ flushed d' ∨
        (∀ p o, proto_store d !! p = Some o → op_name o ≠ name) ∧
          r = ReplyError "no such bridge" ∧ d' = d
    end.
Proof.
  intros Hm Hd Hreach. destruct (reach_inv p0 d Hm Hd Hreach) as [I _].
  destruct (flush_ok d arg I) as (r & d' & Hf & _ & _ & Hspec). eauto.
Qed.

(** The aging time set by command is the one shown: on a switch that reports what
    it was given and accepts it, setting it for an existing bridge and asking for it prints the time
    limited to 10 to 3600 seconds. *)
Theorem aging_time_roundtrip p0 d p o age t :
  (∀ sid t h, (aging_set sid t h).1 = FPA_OK ∧ aging_get sid (aging_set sid t h).2 = (FPA_OK, t)) →
  p_mutex p0 = false → p_dev p0 = None → daemon_reach p0 d →
  proto_store d !! p = Some o → ovs_scan_u32 age = Some t →
  ∃ d', fdb_set_age (op_name o) age d = Done (Reply "FDB aging time been update successfully", d') ∧
    fdb_get_age (op_name o) d' =
      Done (Reply (printf "FDB aging time is %d" [PInt (normalize_idle_time t)])).
Proof.
  intros Hlaw Hm Hd Hreach Ho Ht. destruct (reach_inv p0 d Hm Hd Hreach) as [I _].
  unfold fpa_unixctl_fdb_configure_aging.
  destruct (lookup_ok d (op_name o) I) as ([q|] & Hl & Hq); [|by destruct (Hq p o)].
  rewrite Hl, Ht. simpl. destruct Hq as (Hq & oq & Hoq & _). rewrite Hoq. simpl.
  destruct (live_stored d q I Hq) as (oq' & Hoq' & Hdq). rewrite Hoq in Hoq'. simplify_eq.
  destruct (inv_ml d I (live_count d q Hq)) as (dev & ml & Hdev & Hml & Hs).
  unfold proto_ml, proto_dev. rewrite Hdq, Hdev. simpl. rewrite Hml. simpl.
  unfold ops_fpa_mac_learning_set_idle_time.
  destruct (Hlaw (ml_switchId ml) (normalize_idle_time t) (p_hw (d_proc d))) as [Hok Hget].
  destruct (aging_set _ _ _) as [st h]. simpl in Hok, Hget. subst st. simpl.
  eexists. split; [done|]. unfold fpa_unixctl_fdb_get_aging, put_ml. simpl. rewrite Hdev. simpl.
  unfold ops_fpa_ofproto_lookup in Hl |- *. simpl in Hl |- *. rewrite Hl. simpl. rewrite Hoq. simpl.
  unfold proto_ml, proto_dev. simpl. rewrite Hdq. simpl.
  unfold ops_fpa_mac_learning_get_idle_time. simpl. by rewrite Hget.
Qed.
End daemon_runs.

(** ** A construction that fails *)

Section failed_construction.
Context {W : TAP_OS} {H : HMAP} {E : ML_ENV} {V : OF_ENV} {S : SSET} {hw : Type} `{!HMAP_LAWS H}.
Context (aging_set : Z → Z → hw → FPA_STATUS * hw) (learning_set : Z → hw → FPA_STATUS * hw).
Context (default_size default_idle : Z) (plugin : bool) (ports : Z → option string).

Notation create := (ofproto_create aging_set learning_set default_size default_idle plugin).

(** C32: A bridge whose construction fails because the switch refuses the aging time is
    freed but stays registered: flushing all tables by command then follows the stale
    pointer.  The device stays too, without a MAC table, so that the next default
    bridge is created without an error and its first run uses a null pointer. *)
Theorem failed_bridge_stays d junk junk' seq expired :
  (∀ sid t h, (aging_set sid t h).1 ≠ FPA_OK) →
  p_mutex (d_proc d) = false → p_dev (d_proc d) = None → hmap_nodes (protos d) = [] →
  op_type junk' = "system" → op_name junk' = DEFAULT_BRIDGE_NAME →
  ∃ d1, create junk d = Done (Some EAGAIN, d1) ∧
    fpa_unixctl_fdb_flush ports None d1 = Crash Undefined ∧
    ∃ p d2, create junk' d1 = Done (None, d2) ∧ hmap_in (protos d2) p ∧
      ops_fpa_ofproto_run p seq expired d2 = Crash NullDeref.
Proof.
  intros Hage Hm Hd Hp Hty Hnm.
  assert (∃ h, ops_fpa_mac_learning_create aging_set learning_set default_size default_idle
    FPA_DEV_SWITCH_ID_DEFAULT plugin (p_hw (d_proc d)) = (Some EPERM, None, h)) as [h Hml].
  { unfold ops_fpa_mac_learning_create. simpl.
    pose proof (Hage FPA_DEV_SWITCH_ID_DEFAULT (normalize_idle_time default_idle) (p_hw (d_proc d)))
      as Hfail. destruct (aging_set _ _ _) as [st h]. simpl in Hfail.
    apply failed_true in Hfail. rewrite Hfail. by eexists. }
  destruct (dev_init_failed aging_set learning_set default_size default_idle plugin
    FPA_DEV_SWITCH_ID_DEFAULT (d_proc d) EPERM h) as (p1 & d1 & Hi1 & Hd1 & p2 & d2 & Hi2 & Hd2 & _ & Hml2);
    [done..|].
  unfold ofproto_create, ops_fpa_ofproto_construct. simpl.
  set (p := fresh (dom (proto_store d))). rewrite lookup_insert_eq. simpl. rewrite Hi1. simpl.
  eexists. split; [done|]. simpl. split.
  - assert ((hmap_nodes (hmap_insert (protos d) p (hash_string (op_name junk)))).*1 = [p]) as ->.
    { apply Permutation_singleton_r. by rewrite hmap_insert_ptrs, Hp. }
    unfold flush_protos, proto_flush. simpl. by rewrite lookup_delete_eq.
  - set (st := delete p _). exists (fresh (dom st)). rewrite lookup_insert_eq. simpl. rewrite Hi2. simpl.
    rewrite Hd2. eexists. split; [done|]. unfold ops_fpa_ofproto_unixctl_init, hmap_in. simpl.
    match goal with |- context [decide ?P] => destruct (decide P) end; simpl;
      rewrite hmap_insert_ptrs; (split; [by left|]); unfold ops_fpa_ofproto_run; simpl;
      rewrite lookup_insert_eq; simpl; rewrite Hty, Hnm; destruct seq; simpl;
      rewrite ?String.eqb_refl; simpl; unfold proto_ml, proto_dev; simpl; rewrite Hd2; simpl; by rewrite Hml2.
Qed.
End failed_construction.

(** ** Enumerating ports *)

Section port_dump.
Context {S : SSET} {H : HMAP}.

Lemma query_named netdev_type this name :
  name ∈ port_names this →
  ops_fpa_ofproto_port_query_by_name netdev_type this name =
    match netdev_type name with
    | Some type => inr {| port_name := name; port_type := type;
                          port_ofp := default OFPP_NONE (port_by_name this !! name) |}
    | None => inl ENODEV
    end.
Proof. intros Hin. unfold ops_fpa_ofproto_port_query_by_name. by rewrite decide_True. Qed.

(** The position of the enumeration after [n] calls. *)
Definition dump_position (netdev_type : string → option string) (this : fpa_ofproto) (n : nat) : port_iter :=
  Nat.iter n (λ iter, (ops_fpa_ofproto_port_dump_next netdev_type this iter).2)
    ops_fpa_ofproto_port_dump_start.

Lemma dump_position_spec netdev_type this n :
  dump_position netdev_type this n = min n (length (sset_nodes (port_names this))).
Proof.
  unfold dump_position. induction n as [|n IH]; [done|]. rewrite Nat.iter_succ, IH.
  unfold ops_fpa_ofproto_port_dump_next.
  destruct (decide (n < length (sset_nodes (port_names this)))%nat) as [Hn|Hn].
  - rewrite Nat.min_l by lia. destruct (lookup_lt_is_Some_2 _ _ Hn) as [name ->]. cbn [snd]. lia.
  - rewrite Nat.min_r by lia. rewrite lookup_ge_None_2 by lia. cbn [snd]. lia.
Qed.

(** C34: Enumerating the ports of a bridge: its names have an order, each once, in
    which the [n]-th call of [port_dump_next] after [port_dump_start] gives the port of
    the [n]-th name, with its type and its number if it is open, or [ENODEV] if that
    name has no netdev, as a name that was deleted; an error does not stop the
    enumeration, and every call after the last name gives the end. *)
Theorem port_dump_complete netdev_type this :
  ∃ names, names ≡ₚ elements (port_names this) ∧
    ∀ n, (ops_fpa_ofproto_port_dump_next netdev_type this (dump_position netdev_type this n)).1 =
      (λ name, match netdev_type name with
               | Some type => inr {| port_name := name; port_type := type;
                                     port_ofp := default OFPP_NONE (port_by_name this !! name) |}
               | None => inl ENODEV
               end) <$> names !! n.
Proof.
  pose proof (sset_nodes_elements (port_names this)) as Hperm.
  exists (sset_nodes (port_names this)). split; [done|]. intros n.
  rewrite dump_position_spec. unfold ops_fpa_ofproto_port_dump_next.
  destruct (decide (n < length (sset_nodes (port_names this)))%nat) as [Hn|Hn].
  - rewrite Nat.min_l by lia. destruct (lookup_lt_is_Some_2 _ _ Hn) as [name Hname]. rewrite Hname. simpl.
    f_equal. apply query_named, elem_of_elements. rewrite <- Hperm. by eapply list_elem_of_lookup_2.
  - rewrite Nat.min_r, !lookup_ge_None_2 by lia. done.
Qed.
End port_dump.

(** ** Witnesses *)

#[local] Instance BrEnv : ML_ENV := {|
  BUFFER_SIZE := 4; PORT_NAME_SIZE := 16;
  hash_bytes bs basis := foldl Z.add basis bs
|}.
#[local] Instance BrHmap : HMAP := ListHmap 16.
#[local] Instance BrHmapLaws : HMAP_LAWS BrHmap := ListHmapLaws 16.
#[local] Instance BrOf : OF_ENV := {|
  hash_string s := Z.of_nat (String.length s);
  hash_pointer p := p;
  shash_for_each l := l;
  inet_addr := inet_addr_ref;
  eth_addr_from_string _ := None
|}.
#[local] Instance BrSset : SSET := {|
  sset_nodes s := elements s;
  sset_nodes_elements s := reflexivity (elements s);
  ovs_scan_u32 s := match ops_fpa_str2int (Some s) 0 with (false, z) => Some z | _ => None end;
  OFPP_NONE := 0xffff
|}.

(** A switch that keeps its aging time. *)
Definition w_age_set (sid t h : Z) : FPA_STATUS * Z := (FPA_OK, t).
Definition w_age_get (sid h : Z) : FPA_STATUS * Z := (FPA_OK, h).
Definition w_learn_set (sid h : Z) : FPA_STATUS * Z := (FPA_OK, h).

Definition w_names (p : Z) : option string := if p <=? 8 then Some "port" else None.

Definition w_proc0 : proc (W := RefOs true) (hw := Z) :=
  {| p_dev := None; p_mutex := false; p_os := (3 : @os (RefOs true)); p_hw := 0 |}.

Definition w_daemon0 : daemon (W := RefOs true) (hw := Z) :=
  {| d_proc := w_proc0; protos := hmap_init; proto_store := ∅; unixctl := [] |}.

Definition w_proto (dev : bool) : fpa_ofproto :=
  {| op_type := "system"; op_name := "bridge_normal"; port_by_name := ∅; port_names := ∅;
     op_bundles := hmap_init; op_vlans := ∅; op_switch_id := 0; op_dev := dev; op_vrf_id := 0;
     op_change_seq := 0 |}.

Definition w_bridge : fpa_ofproto := w_proto false.

(** The daemon with one bridge. *)
Definition w_daemon1 : daemon (W := RefOs true) (hw := Z) :=
  match ofproto_create (W := RefOs true) w_age_set w_learn_set 100 300 true w_bridge w_daemon0 with
  | Done (_, d) => d
  | _ => w_daemon0
  end.

Abbreviation w_reach := (daemon_reach (W := RefOs true) w_age_set w_age_get w_learn_set 100 300 true w_names 5 w_au).
Abbreviation w_step := (daemon_step (W := RefOs true) w_age_set w_age_get w_learn_set 100 300 true w_names 5 w_au).

Lemma w_daemon1_reach : w_reach w_proc0 w_daemon1.
Proof.
  apply (reach_step (W := RefOs true) w_age_set w_age_get w_learn_set 100 300 true w_names 5 w_au w_proc0 w_daemon0).
  - apply (reach_init (W := RefOs true)).
  - apply (StepCreate (W := RefOs true) w_age_set w_age_get w_learn_set 100 300 true w_names 5 w_au w_daemon0 w_bridge).
    done.
Qed.

Definition w_bridge_ptr : Z := default 0 (head (hmap_nodes (protos w_daemon1)).*1).

Lemma w_bridge_live : proto_live w_daemon1 w_bridge_ptr.
Proof. vm_compute. by left. Qed.

(** The bridge runs with its timer expired. *)
Lemma daemon_runs_safely_witness :
  ∃ d', ops_fpa_ofproto_run (W := RefOs true) w_bridge_ptr 1 true w_daemon1 = Done d'.
Proof.
  destruct (proj1 (daemon_runs_safely (W := RefOs true) w_age_set w_age_get w_learn_set 100 300 true w_names
    5 w_au ltac:(done) ltac:(lia) w_proc0 w_daemon1 _
    eq_refl eq_refl w_daemon1_reach
    (StepRun (W := RefOs true) w_age_set w_age_get w_learn_set 100 300 true w_names 5 w_au w_daemon1
      w_bridge_ptr 1 true w_bridge_live))) as [[d' Hd]|[(d' & Hd & _)|[Hf _]]].
  - apply obind_done in Hd as (d1 & Hd & _). exists d1. exact Hd.
  - exfalso. vm_compute in Hd. discriminate.
  - exfalso. vm_compute in Hf. discriminate.
Defined.

(** A second bridge. *)
Definition w_daemon2 : daemon (W := RefOs true) (hw := Z) :=
  match ofproto_create (W := RefOs true) w_age_set w_learn_set 100 300 true w_bridge w_daemon1 with
  | Done (_, d) => d
  | _ => w_daemon1
  end.

Lemma w_daemon2_reach : w_reach w_proc0 w_daemon2.
Proof.
  apply (reach_step (W := RefOs true) w_age_set w_age_get w_learn_set 100 300 true w_names 5 w_au w_proc0 w_daemon1).
  - apply w_daemon1_reach.
  - apply (StepCreate (W := RefOs true) w_age_set w_age_get w_learn_set 100 300 true w_names 5 w_au w_daemon1 w_bridge).
    done.
Qed.

Lemma w_bridge_live2 : proto_live w_daemon2 w_bridge_ptr.
Proof. vm_compute. by repeat constructor. Qed.

Lemma last_bridge_never_destroyed_witness :
  ofproto_destroy (W := RefOs true) w_names 5 w_au w_bridge_ptr w_daemon1 = OutOfFuel ∧
  ∃ d', ofproto_destroy (W := RefOs true) w_names 5 w_au w_bridge_ptr w_daemon2 = Done d' ∧
    proto_store d' = delete w_bridge_ptr (proto_store w_daemon2).
Proof.
  split.
  - exact (last_bridge_never_destroyed (W := RefOs true) w_age_set w_age_get w_learn_set 100 300 true w_names 5 w_au
      ltac:(done) ltac:(lia) w_proc0 w_daemon1 w_bridge_ptr
      eq_refl eq_refl w_daemon1_reach w_bridge_live).
  - destruct (last_bridge_never_destroyed (W := RefOs true) w_age_set w_age_get w_learn_set 100 300 true w_names 5
      w_au ltac:(done) ltac:(lia) w_proc0 w_daemon2 w_bridge_ptr
      eq_refl eq_refl w_daemon2_reach w_bridge_live2) as (d' & Hd & Hs & _).
    exists d'. exact (conj Hd Hs).
Defined.

(** The bridge has learned an address. *)
Definition w_msg_new : option FPA_EVENT_ADDRESS_MSG_STC :=
  Some {| au_msg_type := FPA_EVENT_ADDRESS_UPDATE_NEW_E; portNum := 3; vid := 1; address := [0; 0; 0; 0; 0; 7] |}.
Definition w_daemon3 : daemon (W := RefOs true) (hw := Z) :=
  match mac_message (W := RefOs true) w_names w_msg_new w_daemon1 with Done d => d | _ => w_daemon1 end.

Lemma w_daemon3_reach : w_reach w_proc0 w_daemon3.
Proof.
  apply (reach_step (W := RefOs true) w_age_set w_age_get w_learn_set 100 300 true w_names 5 w_au w_proc0 w_daemon1).
  - apply w_daemon1_reach.
  - replace (Done (None, w_daemon3)) with (let* d := mac_message (W := RefOs true) w_names w_msg_new w_daemon1
      in Done (None (A := errno), d)) by (vm_compute; reflexivity).
    apply (StepMac (W := RefOs true) w_age_set w_age_get w_learn_set 100 300 true w_names 5 w_au w_daemon1 w_msg_new).
Qed.

(** It is gone after the flush. *)
Lemma fdb_flush_correct_witness :
  (∃ dev ml, p_dev (d_proc w_daemon3) = Some dev ∧ dev_ml dev = Some ml ∧ length (fdb ml) = 1%nat) ∧
  ∃ d', fpa_unixctl_fdb_flush (W := RefOs true) w_names (Some "bridge_normal") w_daemon3 =
      Done (Reply "table successfully flushed", d') ∧ flushed d'.
Proof.
  split; [do 2 eexists; split; [vm_compute; reflexivity|split; vm_compute; reflexivity]|].
  destruct (fdb_flush_correct (W := RefOs true) w_age_set w_age_get w_learn_set 100 300 true w_names 5 w_au
    ltac:(done) ltac:(lia) w_proc0 w_daemon3 (Some "bridge_normal")
    eq_refl eq_refl w_daemon3_reach) as (r & d' & Hf & [(_ & -> & Hfl)|(Hno & _)]).
  - exists d'. exact (conj Hf Hfl).
  - exfalso. apply (Hno w_bridge_ptr (w_proto true)); vm_compute; reflexivity.
Defined.

(** 5 seconds are raised to 10. *)
Lemma aging_time_roundtrip_witness :
  ∃ d', fpa_unixctl_fdb_configure_aging (W := RefOs true) w_age_set "bridge_normal" "5" w_daemon1 =
      Done (Reply "FDB aging time been update successfully", d') ∧
    fpa_unixctl_fdb_get_aging (W := RefOs true) w_age_get "bridge_normal" d' =
      Done (Reply "FDB aging time is 10").
Proof.
  exact (aging_time_roundtrip (W := RefOs true) w_age_set w_age_get w_learn_set 100 300 true w_names 5 w_au
    ltac:(done) ltac:(lia) w_proc0 w_daemon1 w_bridge_ptr
    (w_proto true) "5" 5
    (λ _ _ _, conj eq_refl eq_refl) eq_refl eq_refl w_daemon1_reach ltac:(vm_compute; reflexivity)
    ltac:(vm_compute; reflexivity)).
Defined.

Lemma failed_bridge_stays_witness :
  ∃ d1, ofproto_create (W := RefOs true) (λ _ _ h, (FPA_BAD_PARAM, h)) w_learn_set 100 300 true w_bridge
      w_daemon0 = Done (Some EAGAIN, d1) ∧
    fpa_unixctl_fdb_flush (W := RefOs true) (λ _, None) None d1 = Crash Undefined.
Proof.
  destruct (failed_bridge_stays (W := RefOs true) (λ _ _ h, (FPA_BAD_PARAM, h)) w_learn_set 100 300 true
    (λ _, None) w_daemon0 w_bridge w_bridge 0 false ltac:(done) eq_refl eq_refl eq_refl eq_refl eq_refl)
    as (d1 & Hc & Hf & _).
  exists d1. exact (conj Hc Hf).
Defined.
