(* ===== verification/NetdevClass.v ===== *)
(** * The classes of interfaces and their interfaces on the device
    (src/ops-fpa-netdev.c, the class tables)

    The four classes the plugin registers as tables of operations, and the system
    of all interfaces of the daemon on the open device: interfaces are opened,
    described, configured, polled and closed through the table of their class.
    Where a table has a null pointer the caller makes no call. *)

From S2P Require Import Prelude Fpa FpaSim Util Hmap MacLearning Dev Tap Netdev.

Local Open Scope string_scope.
Local Open Scope list_scope.
Local Open Scope Z_scope.

Section classes.
Context {N : FPA_PORTS} {W : TAP_OS} {H : HMAP} {E : ML_ENV} {hw0 : Type}.

(** ** Reading a field *)

Definition ops_fpa_netdev_get_etheraddr (d : fpa_netdev) : mac := n_mac d.
Definition ops_fpa_netdev_get_ifindex (d : fpa_netdev) : Z := n_pid d.
Definition ops_fpa_netdev_get_carrier (d : fpa_netdev) : bool := link_status d.
Definition ops_fpa_netdev_get_carrier_resets (d : fpa_netdev) : Z := link_resets d.

(** ** The tables *)

(** [struct netdev_class], less the pointers that are null in every table. *)
Record netdev_class := {
  nc_type : string;
  nc_run : option (ports_hw → gmap Z fpa_netdev → gmap Z fpa_netdev);
  nc_construct : string → string → Z → fpa_netdev;
  nc_destruct : fpa_netdev → proc (hw := hw0) → outcome (proc (hw := hw0));
  nc_set_hw_intf_info : option (hw_intf_info → fpa_netdev → proc (hw := hw0) →
    outcome (option errno * fpa_netdev * proc (hw := hw0)));
  nc_set_hw_intf_config : option (FPA_PORT_PROPERTIES_STC → hw_intf_config → fpa_netdev → ports_hw →
    option errno * fpa_netdev * ports_hw);
  nc_set_etheraddr : mac → fpa_netdev → fpa_netdev;
  nc_get_etheraddr : fpa_netdev → mac;
  nc_get_ifindex : option (fpa_netdev → Z);
  nc_get_carrier : option (fpa_netdev → bool);
  nc_get_carrier_resets : option (fpa_netdev → Z);
  nc_get_stats : option (fpa_netdev → ports_hw → errno + option FPA_PORT_COUNTERS_STC);
  nc_get_features : option (FPA_PORT_PROPERTIES_STC → fpa_netdev → ports_hw → errno + Z * Z * Z * Z);
  nc_set_advertisements : option (Z → fpa_netdev → ports_hw → option errno * ports_hw);
  nc_update_flags : Z → Z → fpa_netdev → ports_hw → option errno * option Z * ports_hw
}.

Definition fpa_netdev_system : netdev_class := {|
  nc_type := "system";
  nc_run := Some ops_fpa_netdev_run;
  nc_construct := ops_fpa_netdev_construct;
  nc_destruct := ops_fpa_netdev_destruct;
  nc_set_hw_intf_info := Some ops_fpa_netdev_set_hw_intf_info;
  nc_set_hw_intf_config := Some ops_fpa_netdev_set_hw_intf_config;
  nc_set_etheraddr := ops_fpa_netdev_set_etheraddr;
  nc_get_etheraddr := ops_fpa_netdev_get_etheraddr;
  nc_get_ifindex := Some ops_fpa_netdev_get_ifindex;
  nc_get_carrier := Some ops_fpa_netdev_get_carrier;
  nc_get_carrier_resets := Some ops_fpa_netdev_get_carrier_resets;
  nc_get_stats := Some ops_fpa_netdev_get_stats;
  nc_get_features := Some ops_fpa_netdev_get_features;
  nc_set_advertisements := Some ops_fpa_netdev_set_advertisements;
  nc_update_flags := ops_fpa_netdev_update_flags
|}.

Definition fpa_netdev_internal : netdev_class := {|
  nc_type := "internal";
  nc_run := None;
  nc_construct := ops_fpa_netdev_construct;
  nc_destruct := ops_fpa_netdev_destruct;
  nc_set_hw_intf_info := Some (λ args d p,
    let '(err, d, s) := internal_netdev_set_hw_intf_info args d (p_os p) in
    Done (err, d, set_os s p));
  nc_set_hw_intf_config := Some (λ _ args d h,
    let '(err, d) := internal_netdev_set_hw_intf_config args d in (err, d, h));
  nc_set_etheraddr := ops_fpa_netdev_set_etheraddr;
  nc_get_etheraddr := ops_fpa_netdev_get_etheraddr;
  nc_get_ifindex := Some ops_fpa_netdev_get_ifindex;
  nc_get_carrier := None;
  nc_get_carrier_resets := None;
  nc_get_stats := None;
  nc_get_features := None;
  nc_set_advertisements := None;
  nc_update_flags := λ off on d h, (None, Some (internal_netdev_update_flags off on d), h)
|}.

Definition fpa_netdev_vlansubint : netdev_class := {|
  nc_type := "vlansubint";
  nc_run := None;
  nc_construct := ops_fpa_netdev_construct;
  nc_destruct := ops_fpa_netdev_destruct;
  nc_set_hw_intf_info := Some ops_fpa_netdev_set_hw_intf_info;
  nc_set_hw_intf_config := Some ops_fpa_netdev_set_hw_intf_config;
  nc_set_etheraddr := ops_fpa_netdev_set_etheraddr;
  nc_get_etheraddr := ops_fpa_netdev_get_etheraddr;
  nc_get_ifindex := None;
  nc_get_carrier := Some ops_fpa_netdev_get_carrier;
  nc_get_carrier_resets := None;
  nc_get_stats := None;
  nc_get_features := None;
  nc_set_advertisements := None;
  nc_update_flags := ops_fpa_netdev_update_flags
|}.

Definition fpa_netdev_l3_loopback : netdev_class := {|
  nc_type := "loopback";
  nc_run := None;
  nc_construct := ops_fpa_netdev_construct;
  nc_destruct := ops_fpa_netdev_destruct;
  nc_set_hw_intf_info := None;
  nc_set_hw_intf_config := None;
  nc_set_etheraddr := ops_fpa_netdev_set_etheraddr;
  nc_get_etheraddr := ops_fpa_netdev_get_etheraddr;
  nc_get_ifindex := None;
  nc_get_carrier := None;
  nc_get_carrier_resets := None;
  nc_get_stats := None;
  nc_get_features := None;
  nc_set_advertisements := None;
  nc_update_flags := λ off on d h, (None, Some (internal_netdev_update_flags off on d), h)
|}.

(** The classes [netdev_register] registers. *)
Definition netdev_register : list netdev_class :=
  [fpa_netdev_system; fpa_netdev_internal; fpa_netdev_vlansubint; fpa_netdev_l3_loopback].

Definition class_of (type : string) : option netdev_class :=
  find (λ c, String.eqb (nc_type c) type) netdev_register.

(** ** The interfaces of the daemon *)

(** The interfaces by address, the counter of [ops_fpa_netdev_construct], the
    process and the ports of the switch. *)
Record netdevs := {
  nd_devs : gmap Z fpa_netdev;
  nd_next : Z;
  nd_proc : proc (hw := hw0);
  nd_ports : ports_hw
}.

Definition set_devs (ds : gmap Z fpa_netdev) (s : netdevs) : netdevs :=
  {| nd_devs := ds; nd_next := nd_next s; nd_proc := nd_proc s; nd_ports := nd_ports s |}.
Definition set_ndproc (p : proc (hw := hw0)) (s : netdevs) : netdevs :=
  {| nd_devs := nd_devs s; nd_next := nd_next s; nd_proc := p; nd_ports := nd_ports s |}.
Definition set_ndports (h : ports_hw) (s : netdevs) : netdevs :=
  {| nd_devs := nd_devs s; nd_next := nd_next s; nd_proc := nd_proc s; nd_ports := h |}.

(** Calls of the daemon; [a] is the address of the interface.  [netdev_open] of an
    interface that is open takes a reference to it, [netdev_close] drops one, and the
    last one destructs the interface. *)
Inductive netdev_op :=
  | NdOpen (a : Z) (type name : string)
  | NdInfo (a : Z) (args : hw_intf_info)
  | NdConfig (a : Z) (junk : FPA_PORT_PROPERTIES_STC) (args : hw_intf_config)
  | NdEtheraddr (a : Z) (m : mac)
  | NdFlags (a : Z) (off on : Z)
  | NdAdvertise (a : Z) (advertise : Z)
  | NdRun
  | NdClose (a : Z).

Definition with_netdev (a : Z) (s : netdevs) (k : netdev_class → fpa_netdev → outcome netdevs) :
    outcome netdevs :=
  let* d := deref (nd_devs s) (Some a) in
  match class_of (n_type d) with None => Crash NullDeref | Some c => k c d end.

Definition netdev_exec (op : netdev_op) (s : netdevs) : outcome netdevs :=
  match op with
  | NdOpen a type name =>
      match class_of type with
      | None => Done s
      | Some c =>
          match nd_devs s !! a with
          | Some d => Done (set_devs (<[a := set_refs (n_refs d + 1) d]> (nd_devs s)) s)
          | None =>
          Done {| nd_devs := <[a := nc_construct c type name (nd_next s)]> (nd_devs s);
                  nd_next := u32 (nd_next s + 1); nd_proc := nd_proc s; nd_ports := nd_ports s |}
          end
      end
  | NdInfo a args => with_netdev a s (λ c d,
      match nc_set_hw_intf_info c with
      | None => Done s
      | Some f =>
          let* (_, d, p) := f args d (nd_proc s) in
          Done (set_ndproc p (set_devs (<[a := d]> (nd_devs s)) s))
      end)
  | NdConfig a junk args => with_netdev a s (λ c d,
      match nc_set_hw_intf_config c with
      | None => Done s
      | Some f =>
          let '(_, d, h) := f junk args d (nd_ports s) in
          Done (set_ndports h (set_devs (<[a := d]> (nd_devs s)) s))
      end)
  | NdEtheraddr a m => with_netdev a s (λ c d,
      Done (set_devs (<[a := nc_set_etheraddr c m d]> (nd_devs s)) s))
  | NdFlags a off on => with_netdev a s (λ c d,
      let '(_, _, h) := nc_update_flags c off on d (nd_ports s) in Done (set_ndports h s))
  | NdAdvertise a adv => with_netdev a s (λ c d,
      match nc_set_advertisements c with
      | None => Done s
      | Some f => let '(_, h) := f adv d (nd_ports s) in Done (set_ndports h s)
      end)
  | NdRun =>
      Done (foldl (λ s c, match nc_run c with
                          | None => s
                          | Some f => set_devs (f (nd_ports s) (nd_devs s)) s
                          end) s netdev_register)
  | NdClose a => with_netdev a s (λ c d,
      if negb (n_refs d - 1 =? 0) then
        Done (set_devs (<[a := set_refs (n_refs d - 1) d]> (nd_devs s)) s)
      else
      let* p := nc_destruct c d (nd_proc s) in
      Done (set_ndproc p (set_devs (delete a (nd_devs s)) s)))
  end.

Fixpoint netdev_run (ops : list netdev_op) (s : netdevs) : outcome netdevs :=
  match ops with
  | [] => Done s
  | op :: ops => let* s := netdev_exec op s in netdev_run ops s
  end.
End classes.

(** ** Descriptors

    What holds of the descriptors of the process, whatever the operating system
    refuses: a descriptor that is opened was not open, only closing a descriptor
    closes it, and an error number is positive. *)

Class OS_FDS (W : TAP_OS) := {
  fd_open : Z → os → Prop;
  keeps (s s' : os) : Prop := ∀ fd, fd_open fd s → fd_open fd s';
  open_tun_new s : let '(fd, s') := os_open_tun s in
    keeps s s' ∧ (0 ≤ fd → ¬ fd_open fd s ∧ fd_open fd s');
  tunsetiff_keeps fd fl name s : keeps s (os_tunsetiff fd fl name s).2;
  tunsetiff_errno fd fl name s e : (os_tunsetiff fd fl name s).1 = inr e → 0 < e;
  nonblocking_keeps fd s : keeps s (os_set_nonblocking fd s).2;
  system_keeps cmd s : keeps s (os_system cmd s).2;
  os_write_keeps fd s : keeps s (os_write fd s).2;
  close_other fd fd' s : fd ≠ fd' → fd_open fd' s → fd_open fd' (os_close fd s)
}.

(** Whether the operating system refuses a step of creating a TAP interface: opening
    it, naming it, making it nonblocking or configuring it. *)
Definition tap_refused {W : TAP_OS} (name : string) (m : mac) (s : os) : bool :=
  let '(fd, tap_if_name, s) :=
    ops_fpa_tun_alloc (String.substring 0 (IFNAMSIZ - 1) name) (Z.lor IFF_TAP IFF_NO_PI) s in
  if fd <=? 0 then true else
  let '(rc, s) := os_set_nonblocking fd s in
  if negb (rc =? 0) then true else
  let '(rc, _) := ops_fpa_net_if_setup tap_if_name m s in
  if rc then true else false.

Section os_fds.
Context {W : TAP_OS} `{!OS_FDS W} {H : HMAP} {E : ML_ENV} {hw0 : Type}.

#[local] Instance keeps_preorder : PreOrder keeps.
Proof. split; [intros s fd; done|]. intros s1 s2 s3 H1 H2 fd Hfd. by apply H2, H1. Qed.

Lemma ops_system_keeps cmd s : keeps s (ops_fpa_system cmd s).2.
Proof.
  unfold ops_fpa_system. pose proof (system_keeps (String.substring 0 255 cmd) s) as Hk.
  by destruct (os_system _ s) as [[] s'].
Qed.

Lemma net_if_setup_keeps name m s : keeps s (ops_fpa_net_if_setup name m s).2.
Proof.
  unfold ops_fpa_net_if_setup.
  do 3 (match goal with |- context [ops_fpa_system ?c ?s] =>
    pose proof (ops_system_keeps c s); destruct (ops_fpa_system c s) as [[] ?] end;
    simpl in *; [by repeat (etrans; [done|])|]).
  by repeat (etrans; [done|]).
Qed.

Lemma send_all_keeps cmd (info : tap_info) s : keeps s (send_all cmd info s).2.
Proof.
  unfold send_all, send_ctrl_cmd.
  do 2 (match goal with |- context [os_write ?c ?s] =>
    pose proof (os_write_keeps c s); destruct (os_write c s) as [[] ?] end; simpl in *);
    by etrans.
Qed.

Lemma bridge_create_keeps name m s : keeps s (ops_fpa_bridge_create name m s).2.
Proof.
  unfold ops_fpa_bridge_create.
  match goal with |- context [ops_fpa_system ?c ?s] =>
    pose proof (ops_system_keeps c s); destruct (ops_fpa_system c s) as [? s1] end. simpl in *.
  pose proof (net_if_setup_keeps name m s1) as Hk. destruct (ops_fpa_net_if_setup name m s1) as [[] s2];
    simpl in *; [by etrans|].
  match goal with |- context [ops_fpa_system ?c ?s] =>
    pose proof (ops_system_keeps c s); destruct (ops_fpa_system c s) as [[] s3] end; simpl in *;
    by repeat (etrans; [done|]).
Qed.

(** A descriptor that is handed out was not open; a failure keeps all that were. *)
Lemma tun_alloc_fds name flags s :
  let '(fd, _, s') := ops_fpa_tun_alloc name flags s in
  keeps s s' ∧ (0 < fd → ¬ fd_open fd s ∧ fd_open fd s').
Proof.
  unfold ops_fpa_tun_alloc. pose proof (open_tun_new s) as Ho. destruct (os_open_tun s) as [fd s0].
  destruct Ho as [Hk Hnew]. destruct (Z.ltb_spec fd 0) as [?|Hpos]; [split; [done|lia]|].
  destruct (Hnew Hpos) as [Hn Ho]. pose proof (tunsetiff_keeps fd flags name s0) as Hk1.
  pose proof (tunsetiff_errno fd flags name s0) as He.
  destruct (os_tunsetiff fd flags name s0) as [[name'|e] s1]; simpl in *.
  - split; [by etrans|]. auto.
  - specialize (He e eq_refl). split; [|lia]. intros fd' Hfd'. apply close_other; [by intros <-|].
    by apply Hk1, Hk.
Qed.

(** Creating an interface on an open device. *)
Lemma tap_create_cases sid port name m (p : proc (hw := hw0)) dv info :
  sid ≠ FPA_INVALID_SWITCH_ID → p_mutex p = false → p_dev p = Some dv → dev_switchId dv = sid →
  tap_if_info dv = Some info →
  if tap_refused name m (p_os p) then
    ∃ p', ops_fpa_tap_if_create sid port name (Some m) p = Done (Some EFAULT, None, p') ∧
      keeps (p_os p) (p_os p') ∧ p_mutex p' = true ∧ p_dev p' = Some dv
  else
    ∃ fd p' info', ops_fpa_tap_if_create sid port name (Some m) p = Done (None, Some fd, p') ∧
      0 < fd ∧ ¬ fd_open fd (p_os p) ∧ fd_open fd (p_os p') ∧ keeps (p_os p) (p_os p') ∧
      p_mutex p' = false ∧ p_dev p' = Some (set_tap (Some info') dv).
Proof.
  intros Hsid Hm Hd Hsw Hi. unfold ops_fpa_tap_if_create, ops_fpa_dev_mutex_lock, tap_refused.
  rewrite (proj2 (Z.eqb_neq _ _)) by done. rewrite Hm. cbn [obind set_mutex p_dev p_os].
  rewrite Hd. unfold ops_fpa_dev_by_id. rewrite Hsw, Z.eqb_refl. cbn [obind]. rewrite Hi.
  pose proof (tun_alloc_fds (String.substring 0 (IFNAMSIZ - 1) name) (Z.lor IFF_TAP IFF_NO_PI) (p_os p)) as Ht.
  destruct (ops_fpa_tun_alloc _ _ _) as [[fd name'] s0]. destruct Ht as [Hk0 Hnew].
  destruct (Z.leb_spec fd 0) as [?|Hpos]; [by eexists|]. destruct (Hnew Hpos) as [Hn Ho].
  assert (∀ s, keeps s0 s → keeps (p_os p) (os_close fd s)) as Hclose.
  { intros s Hk fd' Hfd'. apply close_other; [by intros <-|]. by apply Hk, Hk0. }
  pose proof (nonblocking_keeps fd s0) as Hk1. destruct (os_set_nonblocking fd s0) as [rc s1].
  simpl in Hk1. destruct (negb (rc =? 0)); [eexists; split; [done|]; split; [by apply Hclose|done]|].
  pose proof (net_if_setup_keeps name' m s1) as Hk2.
  destruct (ops_fpa_net_if_setup name' m s1) as [[rc'|] s2]; simpl in Hk2.
  { eexists. split; [done|]. split; [|done]. apply Hclose. by etrans. }
  match goal with |- context [send_all ?c ?i ?s] =>
    pose proof (send_all_keeps c i s) as Hk3; destruct (send_all c i s) as [info' s3] end.
  simpl in Hk3. cbn. exists fd. do 2 eexists. split; [done|]. cbn.
  assert (keeps s0 s3) by (by do 2 (etrans; [done|])).
  split_and!; [done|done|auto|by etrans|done|done].
Qed.

(** Deleting an interface that is registered. *)
Lemma tap_delete_runs sid fd (p : proc (hw := hw0)) dv info q e :
  sid ≠ FPA_INVALID_SWITCH_ID → 0 < fd → p_mutex p = false → p_dev p = Some dv →
  dev_switchId dv = sid → tap_if_info dv = Some info →
  get_if_entry (fd_to_tap_if_map info) fd = Some q → ti_entries info !! q = Some e →
  ∃ p' info', ops_fpa_tap_if_delete sid fd p = Done (None, p') ∧
    (∀ fd', fd' ≠ fd → fd_open fd' (p_os p) → fd_open fd' (p_os p')) ∧
    p_mutex p' = false ∧ p_dev p' = Some (set_tap (Some info') dv).
Proof.
  intros Hsid Hpos Hm Hd Hsw Hi Hq He. unfold ops_fpa_tap_if_delete, ops_fpa_dev_mutex_lock.
  rewrite (proj2 (Z.eqb_neq _ _)) by done. rewrite (proj2 (Z.leb_gt _ _)) by done.
  rewrite Hm. cbn [obind set_mutex p_dev p_os].
  rewrite Hd. unfold ops_fpa_dev_by_id. rewrite Hsw, Z.eqb_refl. cbn [obind]. rewrite Hi, Hq, He.
  match goal with |- context [send_all ?c ?i ?s] =>
    pose proof (send_all_keeps c i s) as Hk1; destruct (send_all c i s) as [info' s1] end. cbn in *.
  unfold ops_fpa_bridge_port_rm.
  match goal with |- context [ops_fpa_system ?c ?s] =>
    pose proof (ops_system_keeps c s) as Hk2; destruct (ops_fpa_system c s) as [r2 s2] end. cbn in *.
  match goal with |- context [ops_fpa_system ?c ?s] =>
    pose proof (ops_system_keeps c s) as Hk3; destruct (ops_fpa_system c s) as [r3 s3] end. cbn in *.
  do 2 eexists. split; [done|]. cbn. split_and!; [|done|done].
  intros fd' Hne Hfd. apply close_other; [done|]. by apply Hk3, Hk2, Hk1.
Qed.
End os_fds.

(** ** Interfaces own their TAP interfaces *)

Section interfaces.
Context {N : FPA_PORTS} {W : TAP_OS} `{!OS_FDS W} {H : HMAP} `{!HMAP_LAWS H} {E : ML_ENV} {hw0 : Type}.

Definition netdev_types : list string := ["system"; "internal"; "vlansubint"; "loopback"].

(** An interface of one of the classes with references, which has a TAP interface exactly if it is
    a system interface that was described. *)
Definition netdev_ok (d : fpa_netdev) : Prop :=
  n_type d ∈ netdev_types ∧ 0 < n_refs d ∧ 0 ≤ tap_fd d ∧
  (tap_fd d ≠ 0 ↔ inited d = true ∧ n_type d = "system").

(** The TAP interfaces [g] registered on the device are those of the interfaces
    [ds], one each, under the port of the interface. *)
Record owned (sid : Z) (ds : gmap Z fpa_netdev) (g : gmap Z tap_if_entry) : Prop := {
  owned_ok a d : ds !! a = Some d → netdev_ok d;
  owned_tap a d : ds !! a = Some d → tap_fd d ≠ 0 →
    u32 (n_sid d) = sid ∧ ∃ e, g !! tap_fd d = Some e ∧ te_num e = u32 (n_pid d);
  owned_by fd : is_Some (g !! fd) → ∃ a d, ds !! a = Some d ∧ tap_fd d = fd ∧ 0 < fd;
  owned_once a a' d d' : ds !! a = Some d → ds !! a' = Some d' →
    tap_fd d ≠ 0 → tap_fd d = tap_fd d' → a = a'
}.

(** A device open with [n] users and its MAC table; [b] tells whether its mutex is
    held. *)
Definition netdev_inv (sid n : Z) (ml : option fpa_mac_learning) (b : bool) (s : netdevs (hw0 := hw0)) : Prop :=
  p_mutex (nd_proc s) = b ∧
  ∃ dv info g, p_dev (nd_proc s) = Some dv ∧ dev_switchId dv = sid ∧ ref_cnt dv = n ∧ dev_ml dv = ml ∧
    tap_if_info dv = Some info ∧ tap_view (fd_to_tap_if_map info) (ti_entries info) g ∧
    owned sid (nd_devs s) g ∧ ∀ fd, is_Some (g !! fd) → fd_open fd (p_os (nd_proc s)).

(** What the daemon has to respect: interfaces are of the classes registered and
    exist, and a description comes with a MAC address and, where its numbers parse,
    with the number of the open device and a valid port. *)
Definition op_ok (sid : Z) (op : netdev_op) (s : netdevs (hw0 := hw0)) : Prop :=
  match op with
  | NdOpen a type _ => type ∈ netdev_types
  | NdInfo a args => is_Some (nd_devs s !! a) ∧
      (∀ d z, ops_fpa_str2int (switch_unit args) d = (false, z) →
         u32 z = sid ∧ z ≠ FPA_INVALID_SWITCH_ID) ∧
      (∀ d z, ops_fpa_str2int (switch_intf_id args) d = (false, z) → z ≠ FPA_INVALID_INTF_ID) ∧
      ∃ m, mac_addr args = Some m ∧ is_Some (ether_aton m)
  | NdConfig a _ _ | NdEtheraddr a _ | NdFlags a _ _ | NdAdvertise a _ | NdClose a =>
      is_Some (nd_devs s !! a)
  | NdRun => True
  end.

Fixpoint calls_ok (sid : Z) (ops : list netdev_op) (s : netdevs (hw0 := hw0)) : Prop :=
  match ops with
  | [] => True
  | op :: ops => op_ok sid op s ∧ ∀ s', netdev_exec op s = Done s' → calls_ok sid ops s'
  end.

(** The fields that the ownership of TAP interfaces depends on. *)
Definition same_port (d d' : fpa_netdev) : Prop :=
  n_type d' = n_type d ∧ n_sid d' = n_sid d ∧ n_pid d' = n_pid d ∧ inited d' = inited d ∧
  tap_fd d' = tap_fd d ∧ (0 < n_refs d → 0 < n_refs d').

Definition same_ports (ds ds' : gmap Z fpa_netdev) : Prop :=
  ∀ a, option_Forall2 same_port (ds !! a) (ds' !! a).

Lemma same_port_refl d : same_port d d.
Proof. done. Qed.

Lemma same_ports_refl ds : same_ports ds ds.
Proof. intros a. destruct (ds !! a); by constructor. Qed.

Lemma same_ports_insert ds a d d' :
  ds !! a = Some d → same_port d d' → same_ports ds (<[a := d']> ds).
Proof.
  intros Ha Hd b. destruct (decide (b = a)) as [->|Hne].
  - rewrite lookup_insert_eq, Ha. by constructor.
  - rewrite lookup_insert_ne by done. apply same_ports_refl.
Qed.

Lemma same_ports_fmap ds (f : fpa_netdev → fpa_netdev) :
  (∀ d, same_port d (f d)) → same_ports ds (f <$> ds).
Proof. intros Hf a. rewrite lookup_fmap. destruct (ds !! a); simpl; constructor. apply Hf. Qed.

Lemma same_ports_lookup ds ds' a d' :
  same_ports ds ds' → ds' !! a = Some d' → ∃ d, ds !! a = Some d ∧ same_port d d'.
Proof. intros Hs Ha. specialize (Hs a). rewrite Ha in Hs. inversion Hs; eauto. Qed.

Lemma owned_same sid ds ds' g : same_ports ds ds' → owned sid ds g → owned sid ds' g.
Proof.
  intros Hs O. split.
  - intros a d' Ha. destruct (same_ports_lookup _ _ _ _ Hs Ha) as (d & Hd & H1 & H2 & H3 & H4 & H5 & H6).
    unfold netdev_ok. rewrite H1, H4, H5. destruct (owned_ok _ _ _ O _ _ Hd) as (? & ? & ?). auto.
  - intros a d' Ha. destruct (same_ports_lookup _ _ _ _ Hs Ha) as (d & Hd & H1 & H2 & H3 & H4 & H5 & _).
    rewrite H2, H3, H5. by eapply owned_tap.
  - intros fd Hfd. destruct (owned_by _ _ _ O fd Hfd) as (a & d & Ha & Htap).
    pose proof (Hs a) as Hsa. rewrite Ha in Hsa. inversion Hsa as [d0 d' Hd' Hd0 Heq|]; subst.
    exists a, d'. split; [done|]. by destruct Hd' as (_ & _ & _ & _ & -> & _).
  - intros a a' d1 d2 H1 H2. destruct (same_ports_lookup _ _ _ _ Hs H1) as (e1 & He1 & _ & _ & _ & _ & -> & _).
    destruct (same_ports_lookup _ _ _ _ Hs H2) as (e2 & He2 & _ & _ & _ & _ & -> & _). by eapply owned_once.
Qed.

Lemma class_of_type type :
  type ∈ netdev_types →
  ∃ c : netdev_class (hw0 := hw0), class_of type = Some c ∧ nc_type c = type.
Proof.
  unfold netdev_types.
  rewrite !elem_of_cons, elem_of_nil. intros [->|[->|[->|[->|[]]]]]; by eexists.
Qed.

(** A call that leaves the process alone but for commands it runs. *)
Lemma inv_same sid n ml b (s s' : netdevs (hw0 := hw0)) :
  same_ports (nd_devs s) (nd_devs s') → p_mutex (nd_proc s') = p_mutex (nd_proc s) →
  p_dev (nd_proc s') = p_dev (nd_proc s) → keeps (p_os (nd_proc s)) (p_os (nd_proc s')) →
  netdev_inv sid n ml b s → netdev_inv sid n ml b s'.
Proof.
  intros Hs Hm Hd Hk (Hm0 & dv & info & g & Hdv & Hsw & Hr & Hml & Hi & V & O & Ho).
  split; [by rewrite Hm|]. exists dv, info, g. rewrite Hd. split_and!; try done.
  - by eapply owned_same.
  - intros fd Hfd. by apply Hk, Ho.
Qed.

(** *** Adding and removing an interface *)

Lemma netdev_construct_ok type name k : type ∈ netdev_types → netdev_ok (ops_fpa_netdev_construct type name k).
Proof. intros Ht. do 3 (split; [done|]). split; [done|]. by intros [? _]. Qed.

Lemma owned_empty sid : owned sid ∅ ∅.
Proof.
  split.
  - intros a d. by rewrite lookup_empty.
  - intros a d. by rewrite lookup_empty.
  - intros fd [e He]. by rewrite lookup_empty in He.
  - intros a a' d d'. by rewrite lookup_empty.
Qed.

Lemma owned_insert sid ds g a d :
  owned sid ds g → netdev_ok d → tap_fd d = 0 →
  (∀ d0, ds !! a = Some d0 → tap_fd d0 = 0) → owned sid (<[a := d]> ds) g.
Proof.
  intros O Hd H0 Hold. split.
  - intros b d' [[<- <-]|[_ Hb]]%lookup_insert_Some; [done|]. by eapply owned_ok.
  - intros b d' [[<- <-]|[_ Hb]]%lookup_insert_Some ?; [done|]. by eapply owned_tap.
  - intros fd Hfd. destruct (owned_by _ _ _ O fd Hfd) as (b & d' & Hb & Htap & Hpos).
    exists b, d'. split; [|done]. rewrite lookup_insert_ne; [done|]. intros ->.
    apply Hold in Hb. lia.
  - intros b b' d1 d2 [[<- <-]|[? Hb]]%lookup_insert_Some [[<- <-]|[? Hb']]%lookup_insert_Some ??;
      [done|done|congruence|]. by eapply owned_once.
Qed.

Lemma owned_tapped sid ds g a d d' fd e :
  owned sid ds g → ds !! a = Some d → tap_fd d = 0 → g !! fd = None → 0 < fd →
  netdev_ok d' → tap_fd d' = fd → u32 (n_sid d') = sid → te_num e = u32 (n_pid d') →
  owned sid (<[a := d']> ds) (<[fd := e]> g).
Proof.
  intros O Ha H0 Hg Hpos Hok <- Hsid He.
  assert (∀ b db, ds !! b = Some db → tap_fd db ≠ 0 → tap_fd db ≠ tap_fd d') as Hfresh.
  { intros b db Hb Hne Heq. destruct (owned_tap _ _ _ O b db Hb Hne) as (_ & eb & Hgb & _).
    rewrite Heq in Hgb. congruence. }
  split.
  - intros b db [[<- <-]|[_ Hb]]%lookup_insert_Some; [done|]. by eapply owned_ok.
  - intros b db [[<- <-]|[_ Hb]]%lookup_insert_Some Hne.
    + split; [done|]. exists e. by rewrite lookup_insert_eq.
    + rewrite lookup_insert_ne by (symmetry; by eapply Hfresh). by eapply owned_tap.
  - intros fd. rewrite lookup_insert_is_Some. intros [<-|[Hne Hfd]].
    + exists a, d'. by rewrite lookup_insert_eq.
    + destruct (owned_by _ _ _ O fd Hfd) as (b & db & Hb & Htap & Hp). exists b, db.
      rewrite lookup_insert_ne; [done|]. intros ->. simplify_eq. lia.
  - intros b b' d1 d2 [[<- <-]|[? Hb]]%lookup_insert_Some [[<- <-]|[? Hb']]%lookup_insert_Some Hne Heq.
    + done.
    + destruct (Hfresh _ _ Hb'); [by rewrite <- Heq|done].
    + by destruct (Hfresh _ _ Hb).
    + by eapply owned_once.
Qed.

Lemma owned_delete sid ds g a d :
  owned sid ds g → ds !! a = Some d → owned sid (delete a ds) (delete (tap_fd d) g).
Proof.
  intros O Ha. split.
  - intros b db [_ Hb]%lookup_delete_Some. by eapply owned_ok.
  - intros b db [Hab Hb]%lookup_delete_Some Hne. rewrite lookup_delete_ne; [by eapply owned_tap|].
    intros Heq. apply Hab. eapply owned_once; [done|exact Ha|exact Hb|congruence|done].
  - intros fd. rewrite lookup_delete_is_Some. intros [Hne Hfd].
    destruct (owned_by _ _ _ O fd Hfd) as (b & db & Hb & Htap & Hp). exists b, db.
    rewrite lookup_delete_ne; [done|]. intros ->. by simplify_eq.
  - intros b b' d1 d2 [_ Hb]%lookup_delete_Some [_ Hb']%lookup_delete_Some. by eapply owned_once.
Qed.

(** *** The calls *)

Lemma inv_insert sid n ml b (s : netdevs (hw0 := hw0)) a d k :
  netdev_inv sid n ml b s → (∀ d0, nd_devs s !! a = Some d0 → tap_fd d0 = 0) → netdev_ok d → tap_fd d = 0 →
  netdev_inv sid n ml b
    {| nd_devs := <[a := d]> (nd_devs s); nd_next := k; nd_proc := nd_proc s; nd_ports := nd_ports s |}.
Proof.
  intros (Hm & dv & info & g & Hdv & Hsw & Hr & Hml & Hi & V & O & Ho) Hold Hd H0.
  split; [done|]. exists dv, info, g. split_and!; try done. by apply owned_insert.
Qed.

Lemma inv_lookup sid n ml b (s : netdevs (hw0 := hw0)) a d :
  netdev_inv sid n ml b s → nd_devs s !! a = Some d → netdev_ok d.
Proof. intros (_ & dv & info & g & _ & _ & _ & _ & _ & _ & O & _). by apply O. Qed.

(** A system interface gets its TAP interface, or the operating system refuses it and
    the mutex stays held. *)
Lemma inv_tapped sid n ml (s : netdevs (hw0 := hw0)) a d port name m :
  sid ≠ FPA_INVALID_SWITCH_ID → netdev_inv sid n ml false s → nd_devs s !! a = Some d → tap_fd d = 0 →
  if tap_refused name m (p_os (nd_proc s)) then
    ∃ p', ops_fpa_tap_if_create sid port name (Some m) (nd_proc s) = Done (Some EFAULT, None, p') ∧
      ∀ d', netdev_ok d' → tap_fd d' = 0 →
        netdev_inv sid n ml true (set_ndproc p' (set_devs (<[a := d']> (nd_devs s)) s))
  else
    ∃ fd p', ops_fpa_tap_if_create sid port name (Some m) (nd_proc s) = Done (None, Some fd, p') ∧
      0 < fd ∧
      ∀ d', netdev_ok d' → tap_fd d' = fd → u32 (n_sid d') = sid → u32 (n_pid d') = port →
        netdev_inv sid n ml false (set_ndproc p' (set_devs (<[a := d']> (nd_devs s)) s)).
Proof.
  intros Hsid (Hm & dv & info & g & Hdv & Hsw & Hr & Hml & Hi & V & O & Ho) Ha H0.
  pose proof (tap_create_cases sid port name m (nd_proc s) dv info Hsid Hm Hdv Hsw Hi) as Hc.
  destruct (tap_refused name m (p_os (nd_proc s))).
  { destruct Hc as (p' & Hrun & Hk & Hm' & Hdv'). exists p'. split; [done|]. intros d' Hok H0'.
    split; [done|]. exists dv, info, g. split_and!; try done.
    - apply owned_insert; [done..|]. by intros; simplify_eq.
    - intros fd Hfd. by apply Hk, Ho. }
  destruct Hc as (fd & p' & info' & Hrun & Hpos & Hnew & Hopen & Hk & Hm' & Hdv').
  exists fd, p'. split; [done|]. split; [done|]. intros d' Hok Hfd Hs Hp.
  destruct (tap_create_ok _ _ _ _ _ _ _ Hrun) as (name' & i & i' & Hreg & Hreg' & Hmap & Hent & _).
  unfold registry in Hreg, Hreg'. rewrite Hdv in Hreg. rewrite Hdv' in Hreg'. simpl in Hreg, Hreg'.
  simplify_eq. assert (g !! tap_fd d' = None) as Hg.
  { destruct (g !! tap_fd d') eqn:Hg; [|done]. destruct Hnew. apply Ho. by eexists. }
  split; [done|]. eexists _, i', _. split; [done|]. cbn. split_and!; try done.
  - rewrite Hmap, Hent. by apply view_insert.
  - by eapply owned_tapped.
  - intros fd. rewrite lookup_insert_is_Some. intros [<-|[_ Hfd]]; [done|]. by apply Hk, Ho.
Qed.

(** *** Which calls take the mutex of the device *)

(** The interface a description creates: its name and MAC address. *)
Definition describes (args : hw_intf_info) (d : fpa_netdev) : option (string * mac) :=
  if inited d || negb (String.eqb (n_type d) "system") then None else
  if (ops_fpa_str2int (switch_unit args) (n_sid d)).1 then None else
  if (ops_fpa_str2int (switch_intf_id args) (n_pid d)).1 then None else
  match mac_addr args with
  | Some m => match str_to_mac m, ether_aton m with
              | Some _, Some eth => Some (n_name d, eth)
              | _, _ => None
              end
  | None => None
  end.

Definition takes_device_mutex (op : netdev_op) (s : netdevs (hw0 := hw0)) : bool :=
  match op with
  | NdInfo a args =>
      match nd_devs s !! a ≫= describes args with Some _ => true | None => false end
  | NdClose a =>
      match nd_devs s !! a with
      | Some d => (n_refs d =? 1) && negb (tap_fd d =? 0)
      | None => false
      end
  | _ => false
  end.

(** Whether the call creates a TAP interface and the operating system refuses it. *)
Definition refused (op : netdev_op) (s : netdevs (hw0 := hw0)) : bool :=
  match op with
  | NdInfo a args =>
      match nd_devs s !! a ≫= describes args with
      | Some (name, m) => tap_refused name m (p_os (nd_proc s))
      | None => false
      end
  | _ => false
  end.

Fixpoint any_refused (ops : list netdev_op) (s : netdevs (hw0 := hw0)) : bool :=
  match ops with
  | [] => false
  | op :: ops => refused op s || match netdev_exec op s with
                                 | Done s' => any_refused ops s'
                                 | _ => false
                                 end
  end.

Lemma info_step sid n ml b (s : netdevs (hw0 := hw0)) a d args :
  sid ≠ FPA_INVALID_SWITCH_ID → netdev_inv sid n ml b s → nd_devs s !! a = Some d →
  op_ok sid (NdInfo a args) s →
  if takes_device_mutex (NdInfo a args) s && b then
    ops_fpa_netdev_set_hw_intf_info args d (nd_proc s) = Crash Deadlock
  else ∃ err d' p', ops_fpa_netdev_set_hw_intf_info args d (nd_proc s) = Done (err, d', p') ∧
    netdev_inv sid n ml (b || refused (NdInfo a args) s)
      (set_ndproc p' (set_devs (<[a := d']> (nd_devs s)) s)).
Proof.
  intros Hsid Hinv Ha (_ & Hunit & Hport & m & Hm & eth & Heth).
  destruct (inv_lookup _ _ _ _ _ _ _ Hinv Ha) as (Ht & Hrefs & Hpos & Htap).
  cbn [takes_device_mutex refused]. rewrite Ha. cbn [mbind option_bind].
  unfold ops_fpa_netdev_set_hw_intf_info, describes. destruct (inited d) eqn:Hini; cbn [orb andb].
  { rewrite orb_false_r. do 3 eexists. split; [done|].
    apply (inv_same _ _ _ _ s); [by apply (same_ports_insert _ _ d)|done|done|by intros fd|done]. }
  assert (tap_fd d = 0) as H0 by (destruct (decide (tap_fd d = 0)); [done|]; naive_solver).
  assert (∀ d', n_type d' = n_type d → n_refs d' = n_refs d → tap_fd d' = 0 →
    inited d' = false ∨ n_type d ≠ "system" →
    netdev_ok d' ∧ netdev_inv sid n ml b (set_ndproc (nd_proc s) (set_devs (<[a := d']> (nd_devs s)) s))) as Herr.
  { intros d' Htype Hr' H0' Hcase. assert (netdev_ok d') as Hok.
    { split; [by rewrite Htype|]. split; [lia|]. split; [lia|]. split; [done|]. rewrite Htype. naive_solver. }
    split; [done|]. by refine (inv_insert _ _ _ _ s a d' (nd_next s) Hinv _ Hok H0'); intros; simplify_eq. }
  destruct (String.eqb_spec (n_type d) "system") as [Hsys|Hsys]; cbn [negb andb];
    [|rewrite orb_false_r; do 3 eexists; split; [done|]; apply Herr; [done|done|done|by right]].
  destruct (ops_fpa_str2int (switch_unit args) (n_sid d)) as [[] z] eqn:Hz; cbn [fst];
    [rewrite orb_false_r; do 3 eexists; split; [done|]; apply Herr; [done|done|done|by left]|].
  destruct (Hunit _ _ Hz) as [Hu Hz']. rewrite (proj2 (Z.eqb_neq _ _)) by done. cbn [set_ids n_pid].
  destruct (ops_fpa_str2int (switch_intf_id args) (n_pid d)) as [[] pt] eqn:Hpt; cbn [fst];
    [rewrite orb_false_r; do 3 eexists; split; [done|]; apply Herr; [done|done|done|by left]|].
  rewrite (proj2 (Z.eqb_neq _ _)) by (by eapply Hport). rewrite Hm.
  destruct (str_to_mac m) as [m'|];
    [|rewrite orb_false_r; do 3 eexists; split; [done|]; apply Herr; [done|done|done|by left]].
  rewrite Heth, Hu. cbn [set_mac n_name set_ids andb]. destruct b; cbn [orb].
  { unfold ops_fpa_tap_if_create, ops_fpa_dev_mutex_lock. rewrite (proj2 (Z.eqb_neq _ _)) by done.
    by rewrite (proj1 Hinv). }
  pose proof (inv_tapped sid n ml s a d (u32 pt) (n_name d) eth Hsid Hinv Ha H0) as Htp.
  destruct (tap_refused (n_name d) eth (p_os (nd_proc s))).
  - destruct Htp as (p' & -> & Hdone). cbn. do 3 eexists. split; [done|].
    apply Hdone; [|done]. apply Herr; [done|done|done|by left].
  - destruct Htp as (fd & p' & -> & Hfd & Hdone). cbn. do 3 eexists. split; [done|].
    apply Hdone; [|done..]. split; [done|]. split; [done|]. split; [cbn; lia|]. cbn. split; [done|lia].
Qed.

Lemma internal_info_step sid n ml b (s : netdevs (hw0 := hw0)) a d args err d' s' :
  netdev_inv sid n ml b s → nd_devs s !! a = Some d → n_type d ≠ "system" →
  internal_netdev_set_hw_intf_info args d (p_os (nd_proc s)) = (err, d', s') →
  netdev_inv sid n ml b (set_ndproc (set_os s' (nd_proc s)) (set_devs (<[a := d']> (nd_devs s)) s)).
Proof.
  intros Hinv Ha Hsys Hrun. destruct (inv_lookup _ _ _ _ _ _ _ Hinv Ha) as (Ht & Hrefs & Hpos & Htap).
  assert (tap_fd d = 0) as H0 by (destruct (decide (tap_fd d = 0)); [done|]; naive_solver).
  assert (keeps (p_os (nd_proc s)) s' ∧ (d' = d ∨ d' = set_inited (tap_fd d) true d)) as [Hk Hd'].
  { revert Hrun. unfold internal_netdev_set_hw_intf_info.
    destruct (inited d); [intros [= _ <- <-]; split; [by intros fd|by left]|].
    destruct (is_bridge args); [|intros [= _ <- <-]; split; [by intros fd|by right]].
    pose proof (bridge_create_keeps (n_name d) (n_mac d) (p_os (nd_proc s))) as Hk.
    destruct (ops_fpa_bridge_create _ _ _) as [[] s1]; intros [= _ <- <-]; auto. }
  apply (inv_same _ _ _ _ {| nd_devs := <[a := d']> (nd_devs s); nd_next := nd_next s;
                             nd_proc := nd_proc s; nd_ports := nd_ports s |});
    [apply same_ports_refl|done..|].
  apply inv_insert; [done|by intros; simplify_eq| |by destruct Hd' as [->| ->]].
  destruct Hd' as [->| ->]; [done|]. do 3 (split; [done|]). cbn. split; [done|]. by intros [_ ?].
Qed.

Lemma config_same_port junk args d h err d' h' :
  ops_fpa_netdev_set_hw_intf_config junk args d h = (err, d', h') → same_port d d'.
Proof.
  unfold ops_fpa_netdev_set_hw_intf_config. intros Hrun.
  repeat (case_match; simplify_eq); done.
Qed.

Lemma internal_config_same_port args d err d' :
  internal_netdev_set_hw_intf_config args d = (err, d') → same_port d d'.
Proof. unfold internal_netdev_set_hw_intf_config. intros Hrun. by case_match; simplify_eq. Qed.

Lemma poll_same_port h d : same_port d (netdev_poll h d).
Proof. unfold netdev_poll. by repeat case_match. Qed.

Lemma run_same_ports h ds : same_ports ds (ops_fpa_netdev_run h ds).
Proof.
  intros a. unfold ops_fpa_netdev_run, netdev_get_devices. rewrite !lookup_fmap.
  destruct (ds !! a) as [d|]; simpl; constructor.
  destruct (String.eqb (n_type d) "system") eqn:Ht; [|by rewrite Ht].
  cbn [n_type set_refs]. rewrite Ht. destruct (poll_same_port h (set_refs (n_refs d + 1) d)) as (?&?&?&?&?&Hr).
  repeat (split; [done|]). intros ?. apply Hr. cbn. lia.
Qed.

(** Deleting the TAP interface of an interface that has one. *)
Lemma untap_step sid n ml (s : netdevs (hw0 := hw0)) a d :
  sid ≠ FPA_INVALID_SWITCH_ID → netdev_inv sid n ml false s → nd_devs s !! a = Some d → tap_fd d ≠ 0 →
  ∃ p', ops_fpa_tap_if_delete (u32 (n_sid d)) (tap_fd d) (nd_proc s) = Done (None, p') ∧
    netdev_inv sid n ml false (set_ndproc p' (set_devs (delete a (nd_devs s)) s)).
Proof.
  intros Hsid (Hm & dv & info & g & Hdv & Hsw & Hr & Hml & Hi & V & O & Ho) Ha Hne.
  destruct (owned_tap _ _ _ O a d Ha Hne) as (-> & e & Hg & _).
  destruct (owned_by _ _ _ O (tap_fd d)) as (_ & _ & _ & _ & Hpos); [by eexists|].
  pose proof (view_find _ _ _ (tap_fd d) V) as Hf.
  destruct (get_if_entry (fd_to_tap_if_map info) (tap_fd d)) as [q|] eqn:Hq; [|congruence].
  destruct Hf as (e' & _ & He' & _).
  destruct (tap_delete_runs sid (tap_fd d) (nd_proc s) dv info q e')
    as (p' & info' & Hrun & Hk & Hm' & Hdv'); [done..|]. exists p'. split; [done|].
  destruct (tap_delete_ok _ _ _ _ Hrun) as (q' & e1 & i & i' & Hreg & Hreg' & Hq' & _ & Hmap & Hent & _).
  unfold registry in Hreg, Hreg'. rewrite Hdv in Hreg. rewrite Hdv' in Hreg'. simpl in Hreg, Hreg'.
  simplify_eq. split; [done|]. eexists _, i', _. split; [done|]. cbn. split_and!; try done.
  - rewrite Hmap, Hent. by apply view_delete.
  - by apply owned_delete.
  - intros fd [Hne' Hfd]%lookup_delete_is_Some. by apply Hk, Ho.
Qed.

Lemma held_delete_deadlocks sid n ml (s : netdevs (hw0 := hw0)) a d :
  sid ≠ FPA_INVALID_SWITCH_ID → netdev_inv sid n ml true s → nd_devs s !! a = Some d → tap_fd d ≠ 0 →
  ops_fpa_tap_if_delete (u32 (n_sid d)) (tap_fd d) (nd_proc s) = Crash Deadlock.
Proof.
  intros Hsid (Hm & dv & info & g & _ & _ & _ & _ & _ & _ & O & _) Ha Hne.
  destruct (owned_tap _ _ _ O a d Ha Hne) as (-> & e & Hg & _).
  destruct (owned_by _ _ _ O (tap_fd d)) as (_ & _ & _ & _ & Hpos); [by eexists|].
  unfold ops_fpa_tap_if_delete, ops_fpa_dev_mutex_lock. rewrite (proj2 (Z.eqb_neq _ _)) by done.
  rewrite (proj2 (Z.leb_gt _ _)) by done. by rewrite Hm.
Qed.

Lemma inv_delete sid n ml b (s : netdevs (hw0 := hw0)) a d :
  netdev_inv sid n ml b s → nd_devs s !! a = Some d → tap_fd d = 0 →
  netdev_inv sid n ml b (set_devs (delete a (nd_devs s)) s).
Proof.
  intros (Hm & dv & info & g & Hdv & Hsw & Hr & Hml & Hi & V & O & Ho) Ha H0.
  split; [done|]. exists dv, info, g. split_and!; try done.
  replace g with (delete (tap_fd d) g); [by apply owned_delete|]. apply delete_id.
  destruct (g !! tap_fd d) eqn:Hg; [|done].
  destruct (owned_by _ _ _ O (tap_fd d)) as (_ & _ & _ & _ & Hpos); [by eexists|]. lia.
Qed.

(** The last reference to an interface is dropped. *)
Lemma close_step sid n ml b (s : netdevs (hw0 := hw0)) a d :
  sid ≠ FPA_INVALID_SWITCH_ID → netdev_inv sid n ml b s → nd_devs s !! a = Some d →
  if negb (tap_fd d =? 0) && b then ops_fpa_netdev_destruct d (nd_proc s) = Crash Deadlock
  else ∃ p', ops_fpa_netdev_destruct d (nd_proc s) = Done p' ∧
    netdev_inv sid n ml b (set_ndproc p' (set_devs (delete a (nd_devs s)) s)).
Proof.
  intros Hsid Hinv Ha. unfold ops_fpa_netdev_destruct.
  assert (if negb (tap_fd d =? 0) && b then
      ops_fpa_tap_if_delete (u32 (n_sid d)) (tap_fd d) (nd_proc s) = Crash Deadlock
    else ∃ p', (if negb (tap_fd d =? 0) then
      let* (_, p) := ops_fpa_tap_if_delete (u32 (n_sid d)) (tap_fd d) (nd_proc s) in Done p
    else Done (nd_proc s)) = Done p' ∧
    netdev_inv sid n ml b (set_ndproc p' (set_devs (delete a (nd_devs s)) s))) as Hdel.
  { destruct (Z.eqb_spec (tap_fd d) 0) as [H0|Hne]; cbn [negb andb].
    - exists (nd_proc s). split; [done|]. by apply (inv_delete _ _ _ _ s a d).
    - destruct b.
      + by apply (held_delete_deadlocks sid n ml s a d).
      + destruct (untap_step sid n ml s a d) as (p' & -> & Hinv'); [done..|]. by exists p'. }
  destruct (negb (tap_fd d =? 0) && b) eqn:Hb.
  { apply andb_prop in Hb as [-> _]. by rewrite Hdel. }
  destruct Hdel as (p' & -> & Hinv').
  cbn [obind]. destruct (String.eqb (n_name d) "bridge_normal"); [|by exists p'].
  unfold ops_fpa_bridge_delete. match goal with |- context [ops_fpa_system ?c ?s] =>
    pose proof (ops_system_keeps c s) as Hk; destruct (ops_fpa_system c s) as [rc s1] end.
  exists (set_os s1 p'). split; [by destruct rc|].
  by apply (inv_same _ _ _ _ (set_ndproc p' (set_devs (delete a (nd_devs s)) s)));
    [apply same_ports_refl|..].
Qed.

Lemma class_cases type (c : netdev_class (hw0 := hw0)) :
  class_of type = Some c →
  c = fpa_netdev_system ∧ type = "system" ∨ c = fpa_netdev_internal ∧ type = "internal" ∨
  c = fpa_netdev_vlansubint ∧ type = "vlansubint" ∨ c = fpa_netdev_l3_loopback ∧ type = "loopback".
Proof.
  unfold class_of. cbn [netdev_register find nc_type fpa_netdev_system fpa_netdev_internal
    fpa_netdev_vlansubint fpa_netdev_l3_loopback].
  repeat match goal with |- context [String.eqb ?a ?b] => destruct (String.eqb_spec a b) end;
    intros [= <-]; subst; tauto.
Qed.

Lemma with_netdev_class sid n ml b (s : netdevs (hw0 := hw0)) a :
  netdev_inv sid n ml b s → is_Some (nd_devs s !! a) →
  ∃ d c, nd_devs s !! a = Some d ∧ class_of (n_type d) = Some c ∧ ∀ k, with_netdev a s k = k c d.
Proof.
  intros Hinv [d Ha]. destruct (inv_lookup _ _ _ _ _ _ _ Hinv Ha) as (Ht & _).
  destruct (class_of_type _ Ht) as (c & Hc & _). exists d, c. split_and!; [done..|].
  intros k. unfold with_netdev. rewrite (deref_some _ _ _ Ha). cbn [obind]. by rewrite Hc.
Qed.

Lemma inv_same_devs sid n ml b (s : netdevs (hw0 := hw0)) ds h :
  netdev_inv sid n ml b s → same_ports (nd_devs s) ds →
  netdev_inv sid n ml b (set_ndports h (set_devs ds s)).
Proof. intros Hinv Hs. apply (inv_same _ _ _ _ s); [done|done|done|by intros fd|done]. Qed.

Lemma exec_info sid n ml b a args (s : netdevs (hw0 := hw0)) :
  sid ≠ FPA_INVALID_SWITCH_ID → netdev_inv sid n ml b s → op_ok sid (NdInfo a args) s →
  if takes_device_mutex (NdInfo a args) s && b then netdev_exec (NdInfo a args) s = Crash Deadlock
  else ∃ s', netdev_exec (NdInfo a args) s = Done s' ∧
    netdev_inv sid n ml (b || refused (NdInfo a args) s) s'.
Proof.
  intros Hsid Hinv Hok. destruct (with_netdev_class sid n ml b s a Hinv (proj1 Hok)) as (d & c & Ha & Hc & Hw).
  cbn [netdev_exec]. rewrite Hw.
  assert (n_type d ≠ "system" → takes_device_mutex (NdInfo a args) s = false ∧
    refused (NdInfo a args) s = false) as Hnot.
  { intros Hne. cbn [takes_device_mutex refused]. rewrite Ha. cbn [mbind option_bind]. unfold describes.
    rewrite (proj2 (String.eqb_neq _ _)) by done. by rewrite orb_true_r. }
  pose proof (info_step sid n ml b s a d args Hsid Hinv Ha Hok) as Hstep.
  destruct (class_cases _ _ Hc) as [[-> Ht]|[[-> Ht]|[[-> Ht]|[-> Ht]]]];
    cbn [nc_set_hw_intf_info fpa_netdev_system fpa_netdev_internal fpa_netdev_vlansubint
      fpa_netdev_l3_loopback].
  1, 3: destruct (takes_device_mutex (NdInfo a args) s && b); [by rewrite Hstep|];
    destruct Hstep as (err & d' & p' & -> & Hinv'); by eexists.
  all: destruct Hnot as [-> ->]; [by rewrite Ht|]; rewrite orb_false_r; cbn [andb].
  2: by eexists.
  destruct (internal_netdev_set_hw_intf_info args d (p_os (nd_proc s))) as [[err d'] s'] eqn:Hrun.
  eexists. split; [done|]. eapply internal_info_step; [done|done|by rewrite Ht|exact Hrun].
Qed.

Lemma exec_config sid n ml b a junk args (s : netdevs (hw0 := hw0)) :
  netdev_inv sid n ml b s → is_Some (nd_devs s !! a) →
  ∃ s', netdev_exec (NdConfig a junk args) s = Done s' ∧ netdev_inv sid n ml b s'.
Proof.
  intros Hinv Hok. destruct (with_netdev_class sid n ml b s a Hinv Hok) as (d & c & Ha & Hc & Hw).
  cbn [netdev_exec]. rewrite Hw. destruct (nc_set_hw_intf_config c) as [f|] eqn:Hf; [|by eexists].
  destruct (f junk args d (nd_ports s)) as [[err d'] h'] eqn:Hrun. eexists. split; [done|].
  apply inv_same_devs; [done|]. apply (same_ports_insert _ _ d); [done|]. revert Hf Hrun.
  destruct (class_cases _ _ Hc) as [[-> _]|[[-> _]|[[-> _]|[-> _]]]]; cbn; [|intros [= <-]| |done].
  1, 3: intros [= <-]; apply config_same_port.
  destruct (internal_netdev_set_hw_intf_config args d) as [err' d1] eqn:Hr. intros [= _ <- _].
  by eapply internal_config_same_port.
Qed.

Lemma exec_open sid n ml b a type name (s : netdevs (hw0 := hw0)) :
  netdev_inv sid n ml b s → type ∈ netdev_types →
  ∃ s', netdev_exec (NdOpen a type name) s = Done s' ∧ netdev_inv sid n ml b s'.
Proof.
  intros Hinv Ht. destruct (class_of_type type Ht) as (c & Hc & Hct). cbn [netdev_exec].
  rewrite Hc. assert (nc_construct c = ops_fpa_netdev_construct) as ->
    by (by destruct (class_cases _ _ Hc) as [[-> _]|[[-> _]|[[-> _]|[-> _]]]]).
  destruct (nd_devs s !! a) as [d|] eqn:Ha; eexists; (split; [done|]).
  - refine (inv_same_devs _ _ _ _ s _ (nd_ports s) Hinv _). apply (same_ports_insert _ _ d); [done|].
    repeat (split; [done|]). cbn. lia.
  - apply inv_insert; [done|congruence|by apply netdev_construct_ok|done].
Qed.

Lemma exec_close sid n ml b a (s : netdevs (hw0 := hw0)) :
  sid ≠ FPA_INVALID_SWITCH_ID → netdev_inv sid n ml b s → is_Some (nd_devs s !! a) →
  if takes_device_mutex (NdClose a) s && b then netdev_exec (NdClose a) s = Crash Deadlock
  else ∃ s', netdev_exec (NdClose a) s = Done s' ∧ netdev_inv sid n ml b s'.
Proof.
  intros Hsid Hinv Hok. destruct (with_netdev_class sid n ml b s a Hinv Hok) as (d & c & Ha & Hc & Hw).
  cbn [netdev_exec takes_device_mutex]. rewrite Hw, Ha.
  destruct (inv_lookup _ _ _ _ _ _ _ Hinv Ha) as (_ & Hrefs & _).
  assert (nc_destruct c = ops_fpa_netdev_destruct) as ->
    by (by destruct (class_cases _ _ Hc) as [[-> _]|[[-> _]|[[-> _]|[-> _]]]]).
  pose proof (close_step sid n ml b s a d Hsid Hinv Ha) as Hstep.
  destruct (Z.eqb_spec (n_refs d) 1) as [->|Hne]; cbn [negb andb Z.sub Z.add Z.opp Z.pos_sub Z.eqb].
  - destruct (negb (tap_fd d =? 0) && b); [by rewrite Hstep|].
    destruct Hstep as (p' & -> & Hinv'). by eexists.
  - rewrite (proj2 (Z.eqb_neq _ _)) by lia. eexists. split; [done|].
    refine (inv_same_devs _ _ _ _ s _ (nd_ports s) Hinv _). apply (same_ports_insert _ _ d); [done|].
    repeat (split; [done|]). cbn. lia.
Qed.

(** One call. *)
Lemma exec_step sid n ml b op (s : netdevs (hw0 := hw0)) :
  sid ≠ FPA_INVALID_SWITCH_ID → netdev_inv sid n ml b s → op_ok sid op s →
  if takes_device_mutex op s && b then netdev_exec op s = Crash Deadlock
  else ∃ s', netdev_exec op s = Done s' ∧ netdev_inv sid n ml (b || refused op s) s'.
Proof.
  intros Hsid Hinv Hok.
  destruct op as [a type name|a args|a junk args|a m|a off on|a adv| |a];
    [|by apply exec_info|..|]; cbn [takes_device_mutex refused andb]; rewrite orb_false_r;
    [by apply exec_open|by apply exec_config|..|by apply exec_close];
    try (destruct (with_netdev_class sid n ml b s a Hinv Hok) as (d & c & Ha & Hc & Hw);
      cbn [netdev_exec]; rewrite Hw).
  - eexists. split; [done|]. refine (inv_same_devs _ _ _ _ s _ (nd_ports s) Hinv _).
    apply (same_ports_insert _ _ d); [done|].
    destruct (class_cases _ _ Hc) as [[-> _]|[[-> _]|[[-> _]|[-> _]]]]; cbn;
      unfold ops_fpa_netdev_set_etheraddr; by case_decide.
  - destruct (nc_update_flags c off on d (nd_ports s)) as [[err old] h]. eexists. split; [done|].
    refine (inv_same_devs _ _ _ _ s _ h Hinv _). apply same_ports_refl.
  - destruct (nc_set_advertisements c) as [f|]; [|by eexists].
    destruct (f adv d (nd_ports s)) as [err h]. eexists. split; [done|].
    refine (inv_same_devs _ _ _ _ s _ h Hinv _). apply same_ports_refl.
  - eexists. split; [done|]. refine (inv_same_devs _ _ _ _ s _ (nd_ports s) Hinv _).
    apply run_same_ports.
Qed.

Lemma run_steps sid n ml b ops (s : netdevs (hw0 := hw0)) :
  sid ≠ FPA_INVALID_SWITCH_ID → netdev_inv sid n ml b s → calls_ok sid ops s →
  (∃ s', netdev_run ops s = Done s' ∧ netdev_inv sid n ml (b || any_refused ops s) s') ∨
  (netdev_run ops s = Crash Deadlock ∧
   ∃ ops1 op ops2 s1, ops = ops1 ++ op :: ops2 ∧ b || any_refused ops1 s = true ∧
     netdev_run ops1 s = Done s1 ∧ netdev_inv sid n ml true s1 ∧ takes_device_mutex op s1 = true).
Proof.
  intros Hsid. revert b s. induction ops as [|op ops IH]; intros b s Hinv Hok.
  { left. exists s. cbn. by rewrite orb_false_r. }
  destruct Hok as [Hop Hok]. pose proof (exec_step sid n ml b op s Hsid Hinv Hop) as Hstep.
  cbn [netdev_run any_refused]. destruct (takes_device_mutex op s && b) eqn:Hb.
  { apply andb_prop in Hb as [Hm ->]. right. rewrite Hstep. split; [done|]. by exists [], op, ops, s. }
  destruct Hstep as (s' & Hs' & Hinv'). rewrite Hs'. cbn [obind].
  destruct (IH _ _ Hinv' (Hok _ Hs')) as [(s2 & Hrun & Hinv2)|(Hd & ops1 & op' & ops2 & s1 & -> & Hr & Hrun & Hinv1 & Hm)].
  - left. exists s2. by rewrite orb_assoc.
  - right. split; [done|]. exists (op :: ops1), op', ops2, s1. cbn [app netdev_run any_refused].
    rewrite Hs'. cbn [obind]. by rewrite orb_assoc.
Qed.

(** C11: The interfaces run safely on the open device.  Take any sequence of calls
    through the classes on interfaces that exist, in which a description comes with a
    MAC address and, where its numbers parse, with the number of the open device and a
    valid port; any call of the operating system may fail.  Either every call returns
    (no assertion fails, nothing dangles), the TAP interfaces registered at the end are
    exactly those of the system interfaces that were described and not destructed, one
    each, on their ports, and the device mutex is free exactly if no TAP interface was
    refused; or a TAP interface was refused and a later call that creates or deletes
    one waits for ever for the mutex. *)
Theorem netdevs_run_safely sid n ml ops (s : netdevs (hw0 := hw0)) :
  sid ≠ FPA_INVALID_SWITCH_ID → netdev_inv sid n ml false s → calls_ok sid ops s →
  (∃ s', netdev_run ops s = Done s' ∧ netdev_inv sid n ml (any_refused ops s) s') ∨
  (netdev_run ops s = Crash Deadlock ∧
   ∃ ops1 op ops2 s1, ops = ops1 ++ op :: ops2 ∧ any_refused ops1 s = true ∧
     netdev_run ops1 s = Done s1 ∧ netdev_inv sid n ml true s1 ∧ takes_device_mutex op s1 = true).
Proof.
  intros Hsid Hinv Hok.
  destruct (run_steps sid n ml false ops s) as [?|(Hd & ops1 & op & ops2 & s1 & -> & Hr & Hrun & Hinv1 & Hm)];
    [done..|by left|right]. split; [done|]. by exists ops1, op, ops2, s1.
Qed.
End interfaces.

(** ** References that are never dropped *)

Section polled.
Context {N : FPA_PORTS} {W : TAP_OS} `{!OS_FDS W} {H : HMAP} `{!HMAP_LAWS H} {E : ML_ENV} {hw0 : Type}.
Context (ports : Z → option string).
Context (fuel : nat) (au : nat → FPA_STATUS * FPA_EVENT_ADDRESS_MSG_STC).

(** How often the calls close an interface. *)
Fixpoint closes (a : Z) (ops : list netdev_op) : Z :=
  match ops with
  | [] => 0
  | NdClose a' :: ops => (if a' =? a then 1 else 0) + closes a ops
  | _ :: ops => closes a ops
  end.

(** An interface that lost at most [k] references; once described it keeps its TAP
    interface. *)
Definition outlives (k : Z) (d d' : fpa_netdev) : Prop :=
  n_refs d - k ≤ n_refs d' ∧ (inited d = true → inited d' = true ∧ tap_fd d' = tap_fd d).

Lemma outlives_refl d : outlives 0 d d.
Proof. split; [lia|done]. Qed.

Lemma outlives_trans k k' d d' d'' : outlives k d d' → outlives k' d' d'' → outlives (k + k') d d''.
Proof.
  intros [H1 H2] [H3 H4]. split; [lia|]. intros [Hi Ht]%H2. rewrite <- Ht. by apply H4.
Qed.

Lemma outlives_insert (ds : gmap Z fpa_netdev) a b d d0 d1 k :
  ds !! a = Some d → ds !! b = Some d0 → outlives 0 d0 d1 → 0 ≤ k →
  ∃ d', <[b := d1]> ds !! a = Some d' ∧ outlives k d d'.
Proof.
  intros Ha Hb [Hr Hi] Hk. destruct (decide (b = a)) as [->|Hne].
  - rewrite lookup_insert_eq. simplify_eq. exists d1. split; [done|]. split; [lia|done].
  - rewrite lookup_insert_ne by done. exists d. split; [done|]. split; [lia|done].
Qed.

Lemma with_netdev_done a (s s' : netdevs (hw0 := hw0)) k :
  with_netdev a s k = Done s' →
  ∃ d c, nd_devs s !! a = Some d ∧ class_of (n_type d) = Some c ∧ k c d = Done s'.
Proof.
  unfold with_netdev. intros (d & Hd & Hk)%obind_done. cbn in Hd.
  destruct (nd_devs s !! a) as [d0|] eqn:Ha; [|done]. simplify_eq.
  destruct (class_of (n_type d)) as [c|] eqn:Hc; [|done]. by exists d, c.
Qed.

Lemma info_outlives args d (p p' : proc (hw := hw0)) err d' :
  ops_fpa_netdev_set_hw_intf_info args d p = Done (err, d', p') → outlives 0 d d'.
Proof.
  unfold ops_fpa_netdev_set_hw_intf_info. destruct (inited d) eqn:Hini; [intros [= _ <- _]; apply outlives_refl|].
  intros Hrun. split; [|by rewrite Hini]. revert Hrun.
  destruct (String.eqb (n_type d) "system"); [|intros [= _ <- _]; cbn; lia].
  destruct (ops_fpa_str2int (switch_unit args) (n_sid d)) as [[] z]; [intros [= _ <- _]; cbn; lia|].
  destruct (z =? FPA_INVALID_SWITCH_ID); [done|].
  destruct (ops_fpa_str2int (switch_intf_id args) _) as [[] pt]; [intros [= _ <- _]; cbn; lia|].
  destruct (pt =? FPA_INVALID_INTF_ID); [done|]. destruct (mac_addr args) as [m|]; [|done].
  destruct (str_to_mac m) as [m'|]; [|intros [= _ <- _]; cbn; lia].
  intros ([[ret fd] p1] & _ & Hd')%obind_done. destruct ret; simplify_eq; cbn; lia.
Qed.

Lemma class_info_outlives c type f args d (p p' : proc (hw := hw0)) err d' :
  class_of type = Some c → nc_set_hw_intf_info c = Some f → f args d p = Done (err, d', p') →
  outlives 0 d d'.
Proof.
  intros Hc Hf Hrun. destruct (class_cases _ _ Hc) as [[-> _]|[[-> _]|[[-> _]|[-> _]]]];
    cbn in Hf; simplify_eq; [by eapply info_outlives| |by eapply info_outlives].
  unfold internal_netdev_set_hw_intf_info in Hrun. revert Hrun.
  destruct (inited d) eqn:Hi; [intros [= _ <- _]; apply outlives_refl|].
  destruct (is_bridge args); [|intros [= _ <- _]; split; [cbn; lia|by rewrite Hi]].
  destruct (ops_fpa_bridge_create _ _ _) as [[ret|] s]; intros [= _ <- _]; (split; [cbn; lia|by rewrite Hi]).
Qed.

Lemma class_config_outlives c type f junk args d h err d' h' :
  class_of (hw0 := hw0) type = Some c → nc_set_hw_intf_config c = Some f →
  f junk args d h = (err, d', h') → outlives 0 d d'.
Proof.
  intros Hc Hf Hrun. assert (n_refs d' = n_refs d ∧ inited d' = inited d ∧ tap_fd d' = tap_fd d)
    as (H1 & H2 & H3); [|split; [lia|by rewrite H2, H3]].
  destruct (class_cases _ _ Hc) as [[-> _]|[[-> _]|[[-> _]|[-> _]]]]; cbn in Hf; simplify_eq.
  1, 3: unfold ops_fpa_netdev_set_hw_intf_config in Hrun; repeat (case_match; simplify_eq); done.
  unfold internal_netdev_set_hw_intf_config in Hrun. repeat (case_match; simplify_eq); done.
Qed.

Lemma poll_outlives h d : outlives 0 d (netdev_poll h d).
Proof. unfold netdev_poll. repeat case_match; (split; [cbn; lia|done]). Qed.

(** Polling takes a reference. *)
Lemma run_outlives h (ds : gmap Z fpa_netdev) a d :
  ds !! a = Some d →
  ∃ d', ops_fpa_netdev_run h ds !! a = Some d' ∧
    outlives (if String.eqb (n_type d) "system" then -1 else 0) d d'.
Proof.
  intros Ha. unfold ops_fpa_netdev_run, netdev_get_devices. rewrite !lookup_fmap, Ha. simpl.
  eexists. split; [done|]. destruct (String.eqb (n_type d) "system") eqn:Ht; rewrite ?Ht.
  - cbn [n_type set_refs]. rewrite Ht. destruct (poll_outlives h (set_refs (n_refs d + 1) d)) as [Hr Hi].
    split; [cbn in Hr; lia|exact Hi].
  - apply outlives_refl.
Qed.

Lemma exec_outlives op (s s' : netdevs (hw0 := hw0)) a d :
  netdev_exec op s = Done s' → nd_devs s !! a = Some d → closes a [op] < n_refs d →
  ∃ d', nd_devs s' !! a = Some d' ∧ outlives (closes a [op]) d d'.
Proof.
  intros Hrun Ha Hlt. destruct op as [b type name|b args|b junk args|b m|b off on|b adv| |b];
    cbn [netdev_exec closes] in *;
    try (apply with_netdev_done in Hrun as (d0 & c & Hb & Hc & Hrun)).
  - destruct (class_of type) as [c|] eqn:Hc; simplify_eq; [|by eauto using outlives_refl].
    destruct (nd_devs s !! b) as [d0|] eqn:Hb; simplify_eq; cbn.
    + eapply outlives_insert; [done|done| |lia]. split; [cbn; lia|done].
    + rewrite lookup_insert_ne by congruence. eauto using outlives_refl.
  - destruct (nc_set_hw_intf_info c) as [f|] eqn:Hf; [|simplify_eq; by eauto using outlives_refl].
    apply obind_done in Hrun as ([[err d'] p'] & Hr & Hs'). simplify_eq.
    eapply outlives_insert; [done|done| |lia]. by eapply class_info_outlives.
  - destruct (nc_set_hw_intf_config c) as [f|] eqn:Hf; [|simplify_eq; by eauto using outlives_refl].
    destruct (f junk args d0 (nd_ports s)) as [[err d'] h'] eqn:Hr. simplify_eq.
    eapply outlives_insert; [done|done| |lia]. by eapply class_config_outlives.
  - simplify_eq. eapply outlives_insert; [done|done| |lia].
    destruct (class_cases _ _ Hc) as [[-> _]|[[-> _]|[[-> _]|[-> _]]]]; cbn;
      unfold ops_fpa_netdev_set_etheraddr; case_decide; (split; [cbn; lia|done]).
  - destruct (nc_update_flags c off on d0 (nd_ports s)) as [[err old] h]. simplify_eq. eauto using outlives_refl.
  - destruct (nc_set_advertisements c) as [f|]; [|simplify_eq; by eauto using outlives_refl].
    destruct (f adv d0 (nd_ports s)) as [err h]. simplify_eq. eauto using outlives_refl.
  - simplify_eq. cbn. destruct (run_outlives (nd_ports s) _ _ _ Ha) as (d' & Hd' & Hr & Hi).
    exists d'. split; [done|]. split; [|done]. destruct (String.eqb _ _); lia.
  - destruct (Z.eqb_spec (n_refs d0 - 1) 0) as [H0|H0]; cbn [negb] in Hrun.
    + apply obind_done in Hrun as (p' & _ & Hs'). simplify_eq. cbn.
      destruct (Z.eqb_spec b a) as [->|Hne]; [simplify_eq; lia|].
      rewrite lookup_delete_ne by done. eauto using outlives_refl.
    + simplify_eq. cbn. destruct (Z.eqb_spec b a) as [->|Hne].
      * rewrite lookup_insert_eq. simplify_eq. eexists. split; [done|]. split; [cbn; lia|done].
      * rewrite lookup_insert_ne by done. eauto using outlives_refl.
Qed.

Lemma closes_cons a op ops : closes a (op :: ops) = closes a [op] + closes a ops.
Proof. destruct op; cbn [closes]; lia. Qed.

Lemma run_ops_outlives ops (s s' : netdevs (hw0 := hw0)) a d :
  netdev_run ops s = Done s' → nd_devs s !! a = Some d → closes a ops < n_refs d →
  ∃ d', nd_devs s' !! a = Some d' ∧ outlives (closes a ops) d d'.
Proof.
  revert s d. induction ops as [|op ops IH]; intros s d Hrun Ha Hlt.
  { cbn in Hrun. simplify_eq. eauto using outlives_refl. }
  cbn [netdev_run] in Hrun. apply obind_done in Hrun as (s1 & H1 & Hrun).
  rewrite closes_cons in *. assert (0 ≤ closes a ops) as Hpos.
  { clear. induction ops as [|[] ops IH]; cbn [closes]; try case_match; lia. }
  destruct (exec_outlives op s s1 a d H1 Ha) as (d1 & Ha1 & Ho1); [lia|].
  destruct (IH s1 d1 Hrun Ha1) as (d' & Ha' & Ho'); [destruct Ho1; lia|].
  exists d'. split; [done|]. by eapply outlives_trans.
Qed.

(** The last user cannot close a device with a TAP interface. *)
Lemma owned_blocks_deinit sid ml b (s : netdevs (hw0 := hw0)) a d p' :
  sid ≠ FPA_INVALID_SWITCH_ID → netdev_inv sid 1 ml b s → nd_devs s !! a = Some d → tap_fd d ≠ 0 →
  ops_fpa_dev_deinit ports fuel au sid (nd_proc s) ≠ Done p'.
Proof.
  intros Hsid (Hm & dv & info & g & Hdv & Hsw & Hr & Hml & Hi & V & O & _) Ha Hne.
  destruct (owned_tap _ _ _ O a d Ha Hne) as (_ & e & Hg & _).
  apply (view_lookup _ _ _ V) in Hg as (q & Hin & _).
  apply (deinit_with_interfaces_fails ports fuel au sid (nd_proc s) p' dv info Hsid Hdv Hsw Hr Hi).
  intros Heq. rewrite Heq in Hin. by apply not_elem_of_nil in Hin.
Qed.

(** C29: A system interface that was polled is never destructed.  The references
    [ops_fpa_netdev_run] takes are not dropped: after a poll, whatever calls follow that
    drop at most the references the daemon had before, even all of them, the interface exists; if it
    was described it keeps its TAP interface, registered on the device, and the last
    user of the device cannot close it. *)
Theorem polled_interface_stays sid ml b ops (s s' : netdevs (hw0 := hw0)) a d :
  sid ≠ FPA_INVALID_SWITCH_ID → netdev_inv sid 1 ml b s → calls_ok sid (NdRun :: ops) s →
  nd_devs s !! a = Some d → n_type d = "system" → closes a ops ≤ n_refs d →
  netdev_run (NdRun :: ops) s = Done s' →
  ∃ d', nd_devs s' !! a = Some d' ∧ 0 < n_refs d' ∧
    (inited d = true → tap_fd d' = tap_fd d ∧
      (∃ info g e, registry (nd_proc s') = Some info ∧
        tap_view (fd_to_tap_if_map info) (ti_entries info) g ∧ g !! tap_fd d = Some e) ∧
      ∀ p', ops_fpa_dev_deinit ports fuel au sid (nd_proc s') ≠ Done p').
Proof.
  intros Hsid Hinv Hok Ha Hsys Hcl Hrun.
  destruct (run_outlives (nd_ports s) _ _ _ Ha) as (d1 & Ha1 & Ho1). rewrite Hsys in Ho1. cbn in Ho1.
  assert (Hrun' := Hrun). cbn [netdev_run netdev_exec obind] in Hrun'.
  destruct (run_ops_outlives ops _ s' a d1 Hrun' Ha1) as (d' & Ha' & Ho'); [destruct Ho1; lia|].
  destruct (outlives_trans _ _ _ _ _ Ho1 Ho') as [Hrefs Htap]. exists d'. split; [done|].
  destruct (run_steps sid 1 ml b (NdRun :: ops) s Hsid Hinv Hok) as [(s2 & Hs2 & Hinv2)|[Hd _]];
    [|by rewrite Hd in Hrun]. rewrite Hrun in Hs2. injection Hs2 as <-.
  split; [lia|]. intros Hini. destruct (Htap Hini) as [_ Hfd]. split; [done|].
  assert (tap_fd d ≠ 0) as Hne by (by apply (inv_lookup _ _ _ _ _ _ _ Hinv Ha)).
  rewrite <- Hfd in *. split; [|intros p'; by apply (owned_blocks_deinit _ _ _ _ _ _ p' Hsid Hinv2 Ha')].
  destruct Hinv2 as (_ & dv & info & g & Hdv & _ & _ & _ & Hi & V & O & _).
  destruct (owned_tap _ _ _ O a d' Ha' Hne) as (_ & e & Hg & _). exists info, g, e.
  unfold registry. by rewrite Hdv.
Qed.
End polled.

(** ** Witnesses *)

(** An operating system the state of which counts the descriptors handed out, the
    first of which is 3; with six handed out no interface can be named, and no write
    succeeds. *)
#[local] Instance CountOs : TAP_OS := {|
  os := nat;
  os_open_tun s := (Z.of_nat s + 3, S s);
  os_tunsetiff fd flags name s := (if (s =? 6)%nat then inr 16 else inl name, s);
  os_set_nonblocking fd s := (0, s);
  os_close fd s := s;
  os_system cmd s := (Exited 0, s);
  os_xpipe s := (Z.of_nat s + 3, Z.of_nat s + 4, S (S s));
  os_write fd s := (false, s);
  os_thread_ended t s := false;
  os_ether_ntoa m := "0:0:0:0:0:0";
  DEFAULT_BRIDGE_NAME := "bridge_normal"
|}.

#[local] Instance CountOsFds : OS_FDS CountOs.
Proof.
  refine {| fd_open fd (s : @os CountOs) := fd < Z.of_nat s + 3 |}; simpl; eauto.
  - intros s. split; [intros fd; lia|]. lia.
  - intros fd fl name s e. destruct (s =? 6)%nat; [|done]. by intros [= <-].
Defined.

#[local] Instance NcEnv : ML_ENV := {|
  BUFFER_SIZE := 4; PORT_NAME_SIZE := 16;
  hash_bytes bs basis := foldl Z.add basis bs
|}.
#[local] Instance NcHmap : HMAP := ListHmap 16.
#[local] Instance NcHmapLaws : HMAP_LAWS NcHmap := ListHmapLaws 16.

Definition w_ml : fpa_mac_learning := ml_new 100 300 0 true.

(** A device just opened by its only user, without interfaces. *)
Definition w_netdevs : netdevs (W := CountOs) (hw0 := unit) :=
  {| nd_devs := ∅; nd_next := 0xaa550000;
     nd_proc := {| p_dev := Some {| dev_switchId := 0; ref_cnt := 1; tap_if_info := Some w_info;
                                    dev_ml := Some w_ml |};
                   p_mutex := false; p_os := (4%nat : @os CountOs); p_hw := tt |};
     nd_ports := w_down |}.

Lemma w_netdevs_inv : netdev_inv (W := CountOs) 0 1 (Some w_ml) false w_netdevs.
Proof.
  split; [done|]. eexists _, w_info, ∅. do 5 (split; [done|]). split; [apply view_empty|].
  split; [apply owned_empty|]. intros fd [e He]. by rewrite lookup_empty in He.
Qed.

Definition w_described (port : string) : hw_intf_info :=
  {| switch_unit := Some "0"; switch_intf_id := Some port; mac_addr := Some "2:0:0:0:0:1";
     is_bridge := false |}.

Definition w_junk : FPA_PORT_PROPERTIES_STC :=
  {| flags := 0; config := 0; featuresBmp := 0; advertBmp := 0; supportedBmp := 0; peerBmp := 0 |}.

(** A system interface is opened, described and configured; a second one is opened and
    described, which the operating system refuses. *)
Definition w_ops1 : list netdev_op :=
  [NdOpen 1 "system" "3"; NdInfo 1 (w_described "3"); NdConfig 1 w_junk w_config].
Definition w_ops2 : list netdev_op :=
  [NdOpen 2 "system" "4"; NdInfo 2 (w_described "4")].

Lemma w_args_ok port :
  port = "3" ∨ port = "4" → ∀ (s : netdevs (W := CountOs) (hw0 := unit)) a,
  is_Some (nd_devs s !! a) → op_ok 0 (NdInfo a (w_described port)) s.
Proof.
  intros Hp s a Ha. split; [done|].
  split; [intros d z Hz; vm_compute in Hz; by injection Hz as <-|].
  split; [intros d z Hz; destruct Hp as [-> | ->]; vm_compute in Hz; by injection Hz as <-|].
  eexists. split; [done|]. by eexists.
Qed.

Definition w_exec (op : netdev_op) (s : netdevs (W := CountOs) (hw0 := unit)) :
    netdevs (W := CountOs) (hw0 := unit) :=
  match netdev_exec op s with Done s' => s' | _ => s end.

Lemma calls_ok_step sid op ops (s : netdevs (W := CountOs) (hw0 := unit)) :
  op_ok sid op s → netdev_exec op s = Done (w_exec op s) → calls_ok sid ops (w_exec op s) →
  calls_ok sid (op :: ops) s.
Proof. intros Hop Hs Hok. split; [done|]. intros s' Hs'. rewrite Hs in Hs'. by injection Hs' as <-. Qed.

Lemma w_exists {A} (o : option A) : (if o then true else false) = true → is_Some o.
Proof. destruct o; [by eexists|done]. Qed.

Lemma w_system : "system" ∈ netdev_types.
Proof. by left. Qed.

Ltac call_ok :=
  lazymatch goal with
  | |- op_ok _ (NdOpen _ _ _) _ => exact w_system
  | |- op_ok _ (NdInfo _ _) _ => apply w_args_ok; [tauto|]; apply w_exists; vm_compute; reflexivity
  | |- op_ok _ NdRun _ => exact I
  | |- _ => apply w_exists; vm_compute; reflexivity
  end.
Ltac calls_ok :=
  repeat (apply calls_ok_step; [call_ok|vm_compute; reflexivity|]).

(** A first interface polled and enabled, a second one that is refused, and the first
    one closed after that. *)
Definition w_polled := w_ops1 ++ [NdRun; NdFlags 1 0 1].
Definition w_refused := w_ops1 ++ w_ops2.
Definition w_stuck := w_ops1 ++ w_ops2 ++ [NdClose 1].

Lemma w_polled_ok : calls_ok 0 w_polled w_netdevs.
Proof. calls_ok. exact I. Qed.
Lemma w_refused_ok : calls_ok 0 w_refused w_netdevs.
Proof. calls_ok. exact I. Qed.
Lemma w_stuck_ok : calls_ok 0 w_stuck w_netdevs.
Proof. calls_ok. split; [call_ok|]. intros s' Hs'. vm_compute in Hs'. discriminate Hs'. Qed.
Lemma w_polled_free : any_refused w_polled w_netdevs = false.
Proof. vm_compute. reflexivity. Qed.
Lemma w_refused_held : any_refused w_refused w_netdevs = true.
Proof. vm_compute. reflexivity. Qed.

Lemma netdevs_run_safely_witness :
  (∃ s', netdev_run w_polled w_netdevs = Done s' ∧ netdev_inv (W := CountOs) 0 1 (Some w_ml) false s') ∧
  (∃ s', netdev_run w_refused w_netdevs = Done s' ∧ netdev_inv (W := CountOs) 0 1 (Some w_ml) true s') ∧
  netdev_run w_stuck w_netdevs = Crash Deadlock.
Proof.
  assert (0 ≠ FPA_INVALID_SWITCH_ID) as Hsid by discriminate.
  split; [|split].
  - destruct (netdevs_run_safely (W := CountOs) 0 1 (Some w_ml) w_polled w_netdevs Hsid w_netdevs_inv w_polled_ok)
      as [Hr|[Hr _]]; [rewrite w_polled_free in Hr; exact Hr|vm_compute in Hr; discriminate Hr].
  - destruct (netdevs_run_safely (W := CountOs) 0 1 (Some w_ml) w_refused w_netdevs Hsid w_netdevs_inv w_refused_ok)
      as [Hr|[Hr _]]; [rewrite w_refused_held in Hr; exact Hr|vm_compute in Hr; discriminate Hr].
  - destruct (netdevs_run_safely (W := CountOs) 0 1 (Some w_ml) w_stuck w_netdevs Hsid w_netdevs_inv w_stuck_ok)
      as [[s' [Hr _]]|[Hr _]]; [vm_compute in Hr; discriminate Hr|exact Hr].
Defined.

(** The first interface is polled; the daemon closes it. *)
Definition w_ready := w_exec (NdInfo 1 (w_described "3")) (w_exec (NdOpen 1 "system" "3") w_netdevs).

Lemma w_ready_inv : netdev_inv (W := CountOs) 0 1 (Some w_ml) false w_ready.
Proof.
  destruct (run_steps (W := CountOs) 0 1 (Some w_ml) false
    [NdOpen 1 "system" "3"; NdInfo 1 (w_described "3")] w_netdevs) as [(s' & Hr & Hi)|[Hr _]];
    [discriminate|exact w_netdevs_inv|calls_ok; exact I| |vm_compute in Hr; discriminate Hr].
  assert (netdev_run [NdOpen 1 "system" "3"; NdInfo 1 (w_described "3")] w_netdevs = Done w_ready) as Hw
    by (vm_compute; reflexivity). rewrite Hw in Hr. injection Hr as <-.
  assert (any_refused [NdOpen 1 "system" "3"; NdInfo 1 (w_described "3")] w_netdevs = false) as Hn
    by (vm_compute; reflexivity). rewrite Hn in Hi. exact Hi.
Qed.

Definition w_closed := w_exec (NdClose 1) (w_exec NdRun w_ready).

Lemma w_close_ok : calls_ok 0 [NdRun; NdClose 1] w_ready.
Proof. calls_ok. exact I. Qed.

Lemma w_close_run : netdev_run [NdRun; NdClose 1] w_ready = Done w_closed.
Proof. vm_compute. reflexivity. Qed.

Lemma polled_interface_stays_witness :
  ∃ d', nd_devs w_closed !! 1 = Some d' ∧ 0 < n_refs d' ∧
    ∀ p', ops_fpa_dev_deinit (λ _, None) 5 w_au 0 (nd_proc w_closed) ≠ Done p'.
Proof.
  assert (∃ d, nd_devs w_ready !! 1 = Some d ∧ n_type d = "system" ∧ closes 1 [NdClose 1] ≤ n_refs d ∧
    inited d = true) as (d & Hd & Ht & Hc & Hi).
  { eexists. split; [vm_compute; reflexivity|]. split; [reflexivity|].
    split; [vm_compute; discriminate|reflexivity]. }
  destruct (polled_interface_stays (W := CountOs) (λ _, None) 5 w_au 0 (Some w_ml) false [NdClose 1]
    w_ready w_closed 1 d ltac:(discriminate) w_ready_inv w_close_ok Hd Ht Hc w_close_run)
    as (d' & Hd' & Hr & Htap). exists d'. destruct (Htap Hi) as (_ & _ & Hdeinit). exact (conj Hd' (conj Hr Hdeinit)).
Defined.
