(* ===== verification/Plugin.v ===== *)
(** * The plugin's entry points and tables (src/ops-fpa-plugins.c, src/ops-fpa-init.c,
    src/ops-fpa-stg.c, src/ops-fpa-qos.c, src/ops-fpa-copp.c, src/ops-fpa-bufmon.c and
    the class table of src/ops-fpa-ofproto.c)

    What the plugin registers with the daemon, the start-up of the switch, and the
    parts that are not implemented: their functions report success and leave their
    output parameters as the caller passed them. *)

From S2P Require Import Prelude Fpa FpaSim Util PortVlans Arp Hmap MacLearning Show Dev Ofproto Bridge.

Local Open Scope string_scope.
Local Open Scope list_scope.
Local Open Scope Z_scope.

(** ** Spanning tree groups

    An output parameter is passed as the caller's value and returned. *)

Definition ops_fpa_stg_create (p_stg : Z) : retval * Z := (Ret0, p_stg).
Definition ops_fpa_stg_delete (stg : Z) : retval := Ret0.
Definition ops_fpa_stg_add_vlan (stg vid : Z) : retval := Ret0.
Definition ops_fpa_stg_remove_vlan (stg vid : Z) : retval := Ret0.
Definition ops_fpa_stg_set_port_state (port_name : string) (stg stp_state : Z) (port_stp_set : bool) :
    retval := Ret0.
Definition ops_fpa_stg_get_port_state (port_name : string) (stg p_stp_state : Z) : retval * Z :=
  (Ret0, p_stp_state).
Definition ops_fpa_stg_get_default (p_stg : Z) : retval * Z := (Ret0, p_stg).

(** ** Quality of service, control plane policing and the buffer monitor

    The structures of these interfaces are declared elsewhere. *)

Section stubs.
Context {qos_settings cos_settings dscp_settings schedule_settings queue_settings : Type}.
Context {copp_class copp_stats copp_status : Type}.
Context {bufmon_config bufmon_counter : Type}.

Definition ops_fpa_qos_set_port_qos_cfg (aux : Z) (settings : qos_settings) : retval := Ret0.
Definition ops_fpa_qos_set_cos_map (aux : Z) (settings : cos_settings) : retval := Ret0.
Definition ops_fpa_qos_set_dscp_map (aux : Z) (settings : dscp_settings) : retval := Ret0.
Definition ops_fpa_qos_apply_qos_profile (aux : Z) (s_settings : schedule_settings)
    (q_settings : queue_settings) : retval := Ret0.

Record qos_asic_plugin_interface := {
  set_port_qos_cfg : Z → qos_settings → retval;
  set_cos_map : Z → cos_settings → retval;
  set_dscp_map : Z → dscp_settings → retval;
  apply_qos_profile : Z → schedule_settings → queue_settings → retval
}.

Definition ops_fpa_qos_interface : qos_asic_plugin_interface := {|
  set_port_qos_cfg := ops_fpa_qos_set_port_qos_cfg;
  set_cos_map := ops_fpa_qos_set_cos_map;
  set_dscp_map := ops_fpa_qos_set_dscp_map;
  apply_qos_profile := ops_fpa_qos_apply_qos_profile
|}.

Definition ops_fpa_copp_stats_get (hw_asic_id : Z) (class : copp_class) (stats : copp_stats) :
    retval * copp_stats := (Ret0, stats).
Definition ops_fpa_copp_hw_status_get (hw_asic_id : Z) (class : copp_class) (hw_status : copp_status) :
    retval * copp_status := (Ret0, hw_status).

Record copp_asic_plugin_interface := {
  copp_stats_get : Z → copp_class → copp_stats → retval * copp_stats;
  copp_hw_status_get : Z → copp_class → copp_status → retval * copp_status
}.

Definition ops_fpa_copp_interface : copp_asic_plugin_interface := {|
  copp_stats_get := ops_fpa_copp_stats_get;
  copp_hw_status_get := ops_fpa_copp_hw_status_get
|}.

Definition ops_fpa_bufmon_init : retval := Ret0.
Definition ops_fpa_bufmon_system_config (cfg : bufmon_config) : unit := tt.
Definition ops_fpa_bufmon_counter_config (counter : bufmon_counter) : bufmon_counter := counter.
Definition ops_fpa_bufmon_counter_stats_get (counter_list : list bufmon_counter) :
    list bufmon_counter := counter_list.
Definition ops_fpa_bufmon_trigger_register (enable : bool) : unit := tt.

Record bufmon_class := {
  bm_init : retval;
  bm_system_config : bufmon_config → unit;
  bm_counter_config : bufmon_counter → bufmon_counter;
  bm_counter_stats_get : list bufmon_counter → list bufmon_counter;
  bm_trigger_register : bool → unit
}.

Definition ops_fpa_bufmon_class : bufmon_class := {|
  bm_init := ops_fpa_bufmon_init;
  bm_system_config := ops_fpa_bufmon_system_config;
  bm_counter_config := ops_fpa_bufmon_counter_config;
  bm_counter_stats_get := ops_fpa_bufmon_counter_stats_get;
  bm_trigger_register := ops_fpa_bufmon_trigger_register
|}.

Definition bufmon_register (classes : list bufmon_class) : list bufmon_class :=
  ops_fpa_bufmon_class :: classes.
End stubs.

(** ** Start-up of the switch *)

(** What the start-up does to the outside, in order. *)
Inductive init_event :=
  | ThreadCreate (name : string) (argv : list string)
  | Usleep (usec : Z)
  | WrapInitialize
  | System (command : string).

Section startup.
(* [fpa_init_done] at its n-th reading and the result of [fpaWrapInitialize] *)
Context (fpa_init_done : nat → bool) (fpaWrapInitialize : FPA_STATUS).

(** The thread runs [fpa_main] with these arguments and ends with it. *)
Definition ops_fpa_main_start : init_event :=
  ThreadCreate "fpa_main" ["switchd"; "-i"; "/opt/fpa/wm/bobcat3_A0_pss_wm.ini"].

Fixpoint wait_init_done (fuel n : nat) : outcome (list init_event) :=
  match fuel with
  | O => OutOfFuel
  | S fuel =>
      if fpa_init_done n then Done []
      else let* log := wait_init_done fuel (S n) in Done (Usleep 200 :: log)
  end.

Definition ops_fpa_init (fuel : nat) : outcome (list init_event) :=
  let* polls := wait_init_done fuel 0 in
  (* ovs_abort *)
  if failed fpaWrapInitialize then Crash NotReached else
  Done ([ops_fpa_main_start] ++ polls ++
        [Usleep 2000000; WrapInitialize; System "touch /var/run/fpa-sim-init.done"]).

(** The free ARP indices and the host table with which the class starts. *)
Definition ops_fpa_ofproto_init `{!HMAP} (fuel : nat) : outcome (list init_event * list Z * hmap) :=
  let* log := ops_fpa_init fuel in
  let* arp_indices := arp_init in
  Done (log, arp_indices, hmap_init).

(** The loop ends at the first reading that is true, for every amount of fuel that
    reaches it. *)
Lemma wait_init_done_spec m : ∀ fuel n,
  fpa_init_done (n + m) = true → (∀ i, (i < m)%nat → fpa_init_done (n + i) = false) →
  (m < fuel)%nat → wait_init_done fuel n = Done (replicate m (Usleep 200)).
Proof.
  induction m as [|m IH]; intros [|fuel] n Ht Hf Hlt; [lia| |lia|]; simpl.
  - rewrite Nat.add_0_r in Ht. by rewrite Ht.
  - pose proof (Hf 0%nat ltac:(lia)) as H0. rewrite Nat.add_0_r in H0. rewrite H0.
    rewrite (IH fuel (S n)); [done| | |lia].
    + by rewrite <- Ht; f_equal; lia.
    + intros i Hi. rewrite <- (Hf (S i)) by lia. f_equal. lia.
Qed.

Lemma wait_init_done_never fuel : ∀ n,
  (∀ i, (n ≤ i)%nat → fpa_init_done i = false) → wait_init_done fuel n = OutOfFuel.
Proof.
  induction fuel as [|fuel IH]; intros n Hf; [done|]. simpl. rewrite Hf by lia.
  by rewrite IH by (intros i Hi; apply Hf; lia).
Qed.

(** The first reading of a flag that is set at some time. *)
Lemma first_reading :
  (∃ n, fpa_init_done n = true) →
  ∃ m, fpa_init_done m = true ∧ ∀ i, (i < m)%nat → fpa_init_done i = false.
Proof.
  intros [n Hn]. induction n as [n IH] using lt_wf_ind.
  destruct (decide (Exists (λ i, fpa_init_done i = true) (seq 0 n))) as [He|Hne].
  - apply Exists_exists in He as (i & Hi & Ht). apply elem_of_seq in Hi. apply (IH i); [lia|done].
  - exists n. split; [done|]. intros i Hi. apply not_true_iff_false. intros Ht. apply Hne.
    apply Exists_exists. exists i. split; [apply elem_of_seq; lia|done].
Qed.

(** C33: Start-up waits for the switch: once the SDK's thread sets its flag,
    [ops_fpa_ofproto_init] leaves its loop after as many sleeps as there were readings
    without the flag.  If the wrapper initialises it then returns, having announced
    the switch last, with every ARP index free and an empty host table; otherwise it aborts. *)
Theorem ofproto_init_correct `{!HMAP, !HMAP_LAWS _} :
  (∃ n, fpa_init_done n = true) →
  ∃ m, fpa_init_done m = true ∧ (∀ i, (i < m)%nat → fpa_init_done i = false) ∧
    ∀ fuel, (m < fuel)%nat →
      if failed fpaWrapInitialize then ops_fpa_ofproto_init fuel = Crash NotReached
      else ∃ arps table, ops_fpa_ofproto_init fuel =
          Done ([ops_fpa_main_start] ++ replicate m (Usleep 200) ++
                [Usleep 2000000; WrapInitialize; System "touch /var/run/fpa-sim-init.done"],
                arps, table) ∧
        arp_free arps (seqZ 1 ARP_INDICES_SIZE) ∧ hmap_nodes table = [].
Proof.
  intros (m & Ht & Hf)%first_reading. exists m. split_and!; [done|done|]. intros fuel Hlt.
  unfold ops_fpa_ofproto_init, ops_fpa_init. rewrite (wait_init_done_spec m fuel 0) by done. cbn [obind].
  destruct (failed fpaWrapInitialize); [done|]. cbn [obind]. rewrite arp_init_value.
  exists arp_initial, hmap_init. split_and!; [done|apply arp_init_free|apply hmap_nodes_init].
Qed.

(** It waits as long as the flag stays clear. *)
Lemma ofproto_init_waits `{!HMAP} fuel :
  (∀ n, fpa_init_done n = false) → ops_fpa_ofproto_init fuel = OutOfFuel.
Proof.
  intros Hf. unfold ops_fpa_ofproto_init, ops_fpa_init.
  by rewrite (wait_init_done_never fuel 0) by (intros; apply Hf).
Qed.
End startup.

(** ** The extension of the plugin *)

(** Names and versions of the extension interfaces. *)
Class PLUGIN_EXT := {
  ASIC_PLUGIN_INTERFACE_NAME : string;
  ASIC_PLUGIN_INTERFACE_MAJOR : Z;
  ASIC_PLUGIN_INTERFACE_MINOR : Z;
  QOS_ASIC_PLUGIN_INTERFACE_NAME : string;
  QOS_ASIC_PLUGIN_INTERFACE_MAJOR : Z;
  QOS_ASIC_PLUGIN_INTERFACE_MINOR : Z;
  COPP_ASIC_PLUGIN_INTERFACE_NAME : string;
  COPP_ASIC_PLUGIN_INTERFACE_MAJOR : Z;
  COPP_ASIC_PLUGIN_INTERFACE_MINOR : Z
}.

Section extension.
Context {W : TAP_OS} {H : HMAP} {E : ML_ENV} {X : PLUGIN_EXT}.

Record asic_plugin_interface := {
  create_stg : Z → retval * Z;
  delete_stg : Z → retval;
  add_stg_vlan : Z → Z → retval;
  remove_stg_vlan : Z → Z → retval;
  set_stg_port_state : string → Z → Z → bool → retval;
  get_stg_port_state : string → Z → Z → retval * Z;
  get_stg_default : Z → retval * Z;
  get_mac_learning_hmap : option fpa_dev → bool → outcome (option errno * option (option bool));
  l2_addr_flush : option (Z → retval)
}.

Definition ops_fpa_asic : asic_plugin_interface := {|
  create_stg := ops_fpa_stg_create;
  delete_stg := ops_fpa_stg_delete;
  add_stg_vlan := ops_fpa_stg_add_vlan;
  remove_stg_vlan := ops_fpa_stg_remove_vlan;
  set_stg_port_state := ops_fpa_stg_set_port_state;
  get_stg_port_state := ops_fpa_stg_get_port_state;
  get_stg_default := ops_fpa_stg_get_default;
  get_mac_learning_hmap := ops_fpa_ml_hmap_get;
  l2_addr_flush := None
|}.

(** [struct plugin_extension_interface]; the table is that of one of the interfaces. *)
Inductive extension_table :=
  | AsicTable (t : asic_plugin_interface)
  | QosTable
  | CoppTable.

Record plugin_extension_interface := {
  plugin_name : string;
  major : Z;
  minor : Z;
  plugin_interface : extension_table
}.

Definition ops_fpa_extension : plugin_extension_interface := {|
  plugin_name := ASIC_PLUGIN_INTERFACE_NAME; major := ASIC_PLUGIN_INTERFACE_MAJOR;
  minor := ASIC_PLUGIN_INTERFACE_MINOR; plugin_interface := AsicTable ops_fpa_asic |}.

Definition ops_fpa_qos_extension : plugin_extension_interface := {|
  plugin_name := QOS_ASIC_PLUGIN_INTERFACE_NAME; major := QOS_ASIC_PLUGIN_INTERFACE_MAJOR;
  minor := QOS_ASIC_PLUGIN_INTERFACE_MINOR; plugin_interface := QosTable |}.

Definition ops_fpa_copp_extension : plugin_extension_interface := {|
  plugin_name := COPP_ASIC_PLUGIN_INTERFACE_NAME; major := COPP_ASIC_PLUGIN_INTERFACE_MAJOR;
  minor := COPP_ASIC_PLUGIN_INTERFACE_MINOR; plugin_interface := CoppTable |}.

(** The extensions the daemon knows, newest first; the registrations of the other two
    are commented out. *)
Definition init (registered : list plugin_extension_interface) : list plugin_extension_interface :=
  ops_fpa_extension :: registered.
Definition run (registered : list plugin_extension_interface) : list plugin_extension_interface := registered.
Definition wait (registered : list plugin_extension_interface) : list plugin_extension_interface := registered.
Definition destroy (registered : list plugin_extension_interface) : list plugin_extension_interface :=
  registered.

(** The extension is there from the start, but the call for the MAC events aborts
    until a bridge has opened the device. *)
Lemma hmap_get_before_device mhmap :
  get_mac_learning_hmap ops_fpa_asic None mhmap = Crash NotReached.
Proof. done. Qed.
End extension.

(** ** The ofproto class *)

(** The functions of the class that have no effect. *)
Definition ops_fpa_ofproto_del (type name : string) : retval := Ret0.
Definition ops_fpa_ofproto_type_run (type : string) : retval := Ret0.
Definition ops_fpa_ofproto_type_wait (type : string) : unit := tt.

Section ofproto_class.
Context {F : FPA_SDK} {W : TAP_OS} {H : HMAP} {E : ML_ENV} {V : OF_ENV} {S : SSET} {hw0 : Type}.
Context {features stats usage lacp : Type}.
Context (aging_set : Z → Z → hw0 → FPA_STATUS * hw0) (learning_set : Z → hw0 → FPA_STATUS * hw0).
Context (default_size default_idle : Z) (plugin : bool) (ports : Z → option string).
Context (fuel : nat) (au : nat → FPA_STATUS * FPA_EVENT_ADDRESS_MSG_STC).
Context (netdev_type : string → option string).
Context (fpa_init_done : nat → bool) (fpaWrapInitialize : FPA_STATUS).
(* netdev_get_stats of a port's netdev *)
Context (netdev_get_stats : fpa_ofport → stats → retval * stats).
Context (OFPERR_OFS : Z).

Notation daemon := (daemon (hw := hw0)).

Definition ops_fpa_ofproto_wait (this : fpa_ofproto) : unit := tt.
Definition ops_fpa_ofproto_get_memory_usage (this : fpa_ofproto) (u : usage) : usage := u.
Definition ops_fpa_ofproto_type_get_memory_usage (type : string) (u : usage) : usage := u.
Definition ops_fpa_ofproto_flush (this : fpa_ofproto) : fpa_ofproto := this.
Definition ops_fpa_ofproto_query_tables (this : fpa_ofproto) (f : features) (s : stats) :
    features * stats := (f, s).
Definition ops_fpa_ofproto_set_tables_version (this : fpa_ofproto) (version : Z) : fpa_ofproto := this.

(** A port is allocated at an address that is not in use, and not initialised. *)
Definition ops_fpa_ofproto_port_alloc (junk : fpa_ofport) (m : gmap Z fpa_ofport) :
    Z * gmap Z fpa_ofport :=
  let p := fresh (dom m) in (p, <[p := junk]> m).
Definition ops_fpa_ofproto_port_dealloc (p : Z) (m : gmap Z fpa_ofport) : gmap Z fpa_ofport := delete p m.
Definition ops_fpa_ofproto_port_destruct (port : fpa_ofport) : fpa_ofport := port.
Definition ops_fpa_ofproto_port_modified (port : fpa_ofport) : fpa_ofport := port.
Definition ops_fpa_ofproto_port_reconfigured (port : fpa_ofport) (old_config : Z) : fpa_ofport := port.
Definition ops_fpa_ofproto_port_get_stats (port : fpa_ofport) (s : stats) : retval * stats :=
  netdev_get_stats port s.
Definition ops_fpa_ofproto_port_dump_done (state : nat) : retval := Ret0.
Definition ops_fpa_ofproto_port_poll_wait (this : fpa_ofproto) : unit := tt.
Definition ops_fpa_ofproto_port_is_lacp_current (port : fpa_ofport) : Z := 0.
Definition ops_fpa_ofproto_port_get_lacp_stats (port : fpa_ofport) (s : lacp) : retval * lacp := (Ret0, s).
Definition ops_fpa_ofproto_rule_choose_table (this : fpa_ofproto) (table_id : Z) : Z * Z :=
  (OFPERR_OFS, table_id).
(* no rule is ever allocated *)
Definition ops_fpa_rule_alloc : option Z := None.
Definition ops_fpa_ofproto_bundle_remove (port : fpa_ofport) : fpa_ofport := port.

(** [struct ofproto_class], less the pointers that are null. *)
Record ofproto_class := {
  oc_init : nat → outcome (list init_event * list Z * hmap);
  oc_enumerate_types : list string;
  oc_enumerate_names : string → daemon → outcome (gset string);
  oc_del : string → string → retval;
  oc_port_open_type : string → string;
  oc_type_run : string → retval;
  oc_type_wait : string → unit;
  oc_alloc : fpa_ofproto → daemon → Z * daemon;
  oc_construct : Z → daemon → outcome (option errno * daemon);
  oc_destruct : Z → daemon → outcome daemon;
  oc_dealloc : Z → daemon → daemon;
  oc_run : Z → Z → bool → daemon → outcome daemon;
  oc_wait : fpa_ofproto → unit;
  oc_get_memory_usage : fpa_ofproto → usage → usage;
  oc_type_get_memory_usage : string → usage → usage;
  oc_flush : fpa_ofproto → fpa_ofproto;
  oc_query_tables : fpa_ofproto → features → stats → features * stats;
  oc_set_tables_version : fpa_ofproto → Z → fpa_ofproto;
  oc_port_alloc : fpa_ofport → gmap Z fpa_ofport → Z * gmap Z fpa_ofport;
  oc_port_construct : fpa_ofport → fpa_ofport;
  oc_port_destruct : fpa_ofport → fpa_ofport;
  oc_port_dealloc : Z → gmap Z fpa_ofport → gmap Z fpa_ofport;
  oc_port_modified : fpa_ofport → fpa_ofport;
  oc_port_reconfigured : fpa_ofport → Z → fpa_ofport;
  oc_port_query_by_name : fpa_ofproto → string → errno + ofproto_port;
  oc_port_add : string → fpa_ofproto → fpa_ofproto;
  oc_port_del : Z → fpa_ofproto → fpa_ofproto;
  oc_port_get_stats : fpa_ofport → stats → retval * stats;
  oc_port_dump_start : nat;
  oc_port_dump_next : fpa_ofproto → nat → option (errno + ofproto_port) * nat;
  oc_port_dump_done : nat → retval;
  oc_port_poll_wait : fpa_ofproto → unit;
  oc_port_is_lacp_current : fpa_ofport → Z;
  oc_port_get_lacp_stats : fpa_ofport → lacp → retval * lacp;
  oc_rule_choose_table : fpa_ofproto → Z → Z * Z;
  oc_rule_alloc : option Z;
  oc_bundle_set : option fpa_dev → nat → world → Z → option ofproto_bundle_settings →
    outcome (retval * world);
  oc_bundle_remove : fpa_ofport → fpa_ofport;
  oc_set_vlan : nat → Z → bool → world → outcome (retval * world);
  oc_add_l3_host_entry : option fpa_dev → world → Z → bool → string → option string → Z →
    outcome (retval * Z * world);
  oc_delete_l3_host_entry : world → Z → bool → string → outcome (retval * world);
  oc_get_l3_host_hit : world → bool → string → bool → outcome (retval * bool);
  oc_l3_route_action : world → ofproto_route_action → ofproto_route → outcome (retval * world)
}.

Definition ops_fpa_ofproto_class : ofproto_class := {|
  oc_init := ops_fpa_ofproto_init fpa_init_done fpaWrapInitialize;
  oc_enumerate_types := ops_fpa_ofproto_enumerate_types;
  oc_enumerate_names := ops_fpa_ofproto_enumerate_names;
  oc_del := ops_fpa_ofproto_del;
  oc_port_open_type := ops_fpa_ofproto_port_open_type;
  oc_type_run := ops_fpa_ofproto_type_run;
  oc_type_wait := ops_fpa_ofproto_type_wait;
  oc_alloc := ops_fpa_ofproto_alloc;
  oc_construct := ops_fpa_ofproto_construct aging_set learning_set default_size default_idle plugin;
  oc_destruct := ops_fpa_ofproto_destruct ports fuel au;
  oc_dealloc := ops_fpa_ofproto_dealloc;
  oc_run := ops_fpa_ofproto_run;
  oc_wait := ops_fpa_ofproto_wait;
  oc_get_memory_usage := ops_fpa_ofproto_get_memory_usage;
  oc_type_get_memory_usage := ops_fpa_ofproto_type_get_memory_usage;
  oc_flush := ops_fpa_ofproto_flush;
  oc_query_tables := ops_fpa_ofproto_query_tables;
  oc_set_tables_version := ops_fpa_ofproto_set_tables_version;
  oc_port_alloc := ops_fpa_ofproto_port_alloc;
  oc_port_construct := ops_fpa_ofproto_port_construct;
  oc_port_destruct := ops_fpa_ofproto_port_destruct;
  oc_port_dealloc := ops_fpa_ofproto_port_dealloc;
  oc_port_modified := ops_fpa_ofproto_port_modified;
  oc_port_reconfigured := ops_fpa_ofproto_port_reconfigured;
  oc_port_query_by_name := ops_fpa_ofproto_port_query_by_name netdev_type;
  oc_port_add := ops_fpa_ofproto_port_add;
  oc_port_del := ops_fpa_ofproto_port_del;
  oc_port_get_stats := ops_fpa_ofproto_port_get_stats;
  oc_port_dump_start := ops_fpa_ofproto_port_dump_start;
  oc_port_dump_next := ops_fpa_ofproto_port_dump_next netdev_type;
  oc_port_dump_done := ops_fpa_ofproto_port_dump_done;
  oc_port_poll_wait := ops_fpa_ofproto_port_poll_wait;
  oc_port_is_lacp_current := ops_fpa_ofproto_port_is_lacp_current;
  oc_port_get_lacp_stats := ops_fpa_ofproto_port_get_lacp_stats;
  oc_rule_choose_table := ops_fpa_ofproto_rule_choose_table;
  oc_rule_alloc := ops_fpa_rule_alloc;
  oc_bundle_set := ops_fpa_ofproto_bundle_set;
  oc_bundle_remove := ops_fpa_ofproto_bundle_remove;
  oc_set_vlan := ops_fpa_ofproto_set_vlan;
  oc_add_l3_host_entry := add_l3_host_entry;
  oc_delete_l3_host_entry := delete_l3_host_entry;
  oc_get_l3_host_hit := get_l3_host_hit;
  oc_l3_route_action := l3_route_action
|}.

Definition ofproto_register (classes : list ofproto_class) : list ofproto_class :=
  ops_fpa_ofproto_class :: classes.
End ofproto_class.

(** ** Witness: the flag is set at the third reading *)

#[local] Existing Instance Ofproto.WHmap.
#[local] Existing Instance Ofproto.WHmapLaws.

Lemma ofproto_init_correct_witness :
  ∃ m, (2 <=? m)%nat = true ∧ (∀ i, (i < m)%nat → (2 <=? i)%nat = false) ∧
    ∀ fuel, (m < fuel)%nat → ∃ arps table, ops_fpa_ofproto_init (λ n, (2 <=? n)%nat) FPA_OK fuel =
        Done ([ops_fpa_main_start] ++ replicate m (Usleep 200) ++
              [Usleep 2000000; WrapInitialize; System "touch /var/run/fpa-sim-init.done"],
              arps, table) ∧
      arp_free arps (seqZ 1 ARP_INDICES_SIZE) ∧ hmap_nodes table = [].
Proof.
  exact (ofproto_init_correct (λ n, (2 <=? n)%nat) FPA_OK (ex_intro _ 2%nat eq_refl)).
Defined.
